(* ===== verification/_CoqProject ===== *)
-Q . S2P
Prelude.v
PyFloat.v
PyOrder.v
PyDict.v
PyStr.v
PyJson.v
PyNum.v
Binary32.v
PyParse.v
PyRepr.v
PyUtf8.v
JsonText.v
Files.v
Blake2b.v
Config.v
Types.v
Samples.v
Records.v
Metrics.v
Azure.v
Logs.v
LogText.v
Workload.v
Normalizers.v
Fetchers.v
Hcl.v
Predictor.v
Backends.v
RedisStore.v
Cache.v
CacheReady.v
Scheduler.v
Cuda.v
GpuTopo.v
Topology.v
Policies.v
RemoteScorer.v
Stubs.v
ControlPlane.v
CpReady.v
Admission.v
Assembly.v
Engine.v
Sweeps.v
RunLog.v
Ledger.v
Scripts.v
Api.v
