(* ===== verification/Prelude.v ===== *)
(** * NimbusMesh-X: a verification library

    NimbusMesh-X routes inference requests over GPU pools in several clusters.
    A control plane ([control_plane/service.py]) keeps the runtime state of every
    pool, asks a cache directory, a topology service and a backend for the
    signals of each pool, lets a policy or a remote scorer choose, and places the
    request with the local scheduler; a simulation engine ([simulators/engine.py])
    feeds it a generated or replayed workload and records every result in
    metrics, logs, an Azure simulator and two optional stores.

    ** How the code is modelled

    A Python call is a function into [result]: a value or the class of the
    exception it raises.  An object that changes is a record passed and returned;
    an object that several others hold (the cache directory of the control plane,
    the pools of a cluster, the tenants' statistics) is threaded in the order of
    the calls, reads that create a [defaultdict] entry included.  Dicts are
    association lists in insertion order, with the dict operations of [PyDict].
    A float is its exact value in units of [2 ^ -1074], rounded to nearest, ties
    to even, after every operation ([PyFloat]); infinities and NaN are values, the
    two zeros are not distinguished.  [sum] is the left fold of CPython up to
    3.11.  Ints are [Z].  Text is a byte string; white space and letter case are
    those of ASCII.  Signatures are BLAKE2b, executable ([Blake2b]).

    ** The files

    - [Prelude], [PyFloat], [PyOrder] ([min], [max], [sorted], heaps), [PyDict],
      [PyStr], [PyJson] (JSON values, [int], [float], [str], [repr]), [PyNum],
      [PyParse] and [PyRepr] (numbers written as text read back), [PyUtf8],
      [JsonText] ([json.dumps] and [json.loads] as text, inverse of each other),
      [Binary32], [Blake2b]: the language and its library, as far as the code uses
      them.  [Files]: paths, and disks of text files and directories.
    - [Config]: [nimbusmesh_x/config.py]; [Types] and [Records]: [types.py], the
      data model and its dictionaries; [Samples]: inputs of the witnesses.
    - [Cache], [RedisStore]: [cache_directory/directory.py], [storage/redis_store.py].
    - [Scheduler], [Backends], [Cuda]: the local scheduler, the latency models and
      their HTTP calls, the feature engine with its three kernels.
    - [GpuTopo], [Topology]: the parser of [nvidia-smi topo -m] and the graph with
      its shortest-path search.
    - [Policies]: the ten policies behind the class [RoutingPolicy]; [RemoteScorer]: the
      gRPC client and server and the C++ core; [Stubs]: stub generation and the
      constructors that decide which of them are available.
    - [ControlPlane]: construction, refresh, candidates, routing, execution.
    - [Metrics], [Logs], [LogText], [Azure]: what is recorded, as values and as text; [Workload]: the generator and
      the replay; [Fetchers], [Normalizers]: [data_pipeline/], from the downloads to
      the job loop; [Predictor]: [ml/latency_predictor.py]; [Hcl]: the Terraform export.
    - [Engine]: the simulation; [Sweeps]: the benchmark harness and the distributed
      sweep, run after run in one world; [RunLog]: the decision log of a run;
      [Api]: the HTTP handlers; [Scripts]: the command lines.
    - [CacheReady], [CpReady], [Admission], [Assembly], [Ledger]: invariants of the
      composed system, its admission contract, its construction from a
      configuration, and the abstract machine it refines.

    ** What the theorems show

    - The engine as a whole: a run from a sound configuration raises nothing and
      reports every request ([Engine.simulation_completes]); its counters agree
      with each other ([Engine.accounts_agree]); it refines an abstract admission
      machine ([Ledger.engine_refines_ledger]); with Redis off, the runs of a sweep
      do not affect one another, and local sweeps, distributed ones and those on a
      Ray cluster report the same runs ([Sweeps.sweeps_agree]); the decision log of
      a run reads back as its results ([RunLog.decision_log_read]).
    - Admission: only pools that can take a request get it, a refused request
      costs nothing and names the first condition that failed, a request some pool can take is admitted, one candidate per
      pool, refreshing is pointwise, a routing query places nothing
      ([Admission], [Api]).
    - Scheduling: the earliest slot, never more running requests than slots, pool
      accounting ([Scheduler], [Types]).
    - Cache: lookups return the best visible entry of the fresh bucket or of the one
      Redis hands back, nothing is visible before it is computed, the cap evicts the coldest, a Redis bucket survives a restart.
    - Topology: termination and optimality of the search, the parsed matrices cell
      by cell from the words of the text, finite answers for every configured pool.
    - Choice: every policy chooses a usable candidate, round robin is fair, the
      scorers pick a least score; the device computes the same features whatever
      the order of its threads; the stubs are generated once.
    - Data in and out: configurations round-trip through their files, workloads
      meet their configuration, fetched datasets are what the normalizers read,
      normalized datasets are valid and replay, and teach the predictor nothing
      but zero, the exported inventory can be told from its text, reports are
      within bounds, costs add up, the plot of a
      sweep shows what was reported.

    Properties with hypotheses have a witness at a concrete input.

    ** Bounds and fuel

    The only recursion on fuel that the code's loops need is the shortest-path
    search; its fuel (edges plus two) is shown to be enough on every graph
    ([Topology.search_terminates]).  The JSON parser has twice the length of its
    text as fuel, enough on every text ([JsonText.loads_complete]).  Printing a float tries 1 to 17 digits, which
    always suffice; binary search in [choices] halves its interval.  Token counts
    are at most [2 ^ 53] where they meet floats, a directory keeps 20000 entries,
    the cap of its constructor, and a configuration has at most 32 congestion
    windows of factor at most 65536 per cluster, so that no congestion overflows.

    ** Interfaces

    What is not in the repository is a parameter: the Redis client
    ([RedisClient], with the laws of HSET and HGET), the SQL connection
    ([SqlConnection]), the Ray queue ([BatchQueue]), the random generator
    ([Random], with the ranges its documentation gives), the CSV and YAML readers,
    the [datasets] package and [git] ([LawfulGit]), [protoc] ([LawfulProtoc]), PyTorch
    ([Torch]), the HTTP client, the gRPC channel, the built-in [hash].  A Ray
    cluster is what [ray.init] does, the world each task finds (files, stores,
    queue) and the one the driver is left with; a CUDA launch
    runs its threads in any order, each in one step.  The cache directory's
    Redis keys and the decision keys of the engine are disjoint hashes, so the
    two stores are separate states; the runs of a sweep pass both on, with the SQL
    connection, the Ray queue and the files.  A table that is written and read
    back comes back with its line breaks translated ([Normalizers.newline_read]).  A CSV row is not shorter than its header.

    ** Not modelled

    HTTP, SQL, Redis and gRPC themselves; the argument parsers of the command
    lines; the drawing of plots, the two service launchers and shell scripts.  While a run
    lasts nobody else writes to its stores: Ray tasks that share a live Redis are
    not interleaved, and the HTTP service keeps the view of Redis it was made
    with.  The field limit of the [csv] module (131072 characters) is not
    reached.  Configuration and request fields of another
    type than the declared one are refused, where Python would carry the value
    on.  A list that holds a NaN is sorted as an insertion sort would sort it. *)

From stdpp Require Export base tactics list strings gmap.
From Stdlib Require Export ZArith Lia.
From stdpp Require Export sorting.

(** ** Exceptions

    A Python call either returns a value or raises.  Only the exception class
    matters to the callers in the modelled code, so messages are dropped. *)
Inductive exn : Type :=
  | ValueError | KeyError | IndexError | TypeError | ZeroDivisionError
  | OverflowError | FileNotFoundError | RuntimeError | AttributeError | StopIteration
  | OSError        (** the other operating system errors *)
  | SystemExit     (** a script that gives up *)
  | LibraryError   (** an exception class of a third-party library *).

#[export] Instance exn_eq_dec : EqDecision exn.
Proof. solve_decision. Defined.

Inductive result (A : Type) : Type :=
  | Ok (a : A)
  | Err (e : exn).
Arguments Ok {A} a.
Arguments Err {A} e.

#[export] Instance result_ret : MRet result := fun A a => Ok a.
#[export] Instance result_bind : MBind result := fun A B f m =>
  match m with Ok a => f a | Err e => Err e end.
#[export] Instance result_fmap : FMap result := fun A B f m =>
  match m with Ok a => Ok (f a) | Err e => Err e end.

(** [raise_if b e] is the guard [if b: raise e]. *)
Definition raise_if (b : bool) (e : exn) : result unit :=
  if b then Err e else Ok tt.

(** [x[i]] of a mapping or a sequence: absent means the exception [e]. *)
Definition get_or {A} (e : exn) (o : option A) : result A :=
  match o with Some a => Ok a | None => Err e end.

Definition is_Ok {A} (m : result A) : Prop := ∃ a, m = Ok a.

Lemma bind_ok {A B} (m : result A) (f : A → result B) (b : B) :
  (m ≫= f) = Ok b ↔ ∃ a, m = Ok a ∧ f a = Ok b.
Proof. destruct m; simpl; naive_solver. Qed.

Lemma get_or_ok {A} (e : exn) (o : option A) (a : A) :
  get_or e o = Ok a ↔ o = Some a.
Proof. destruct o; simpl; naive_solver. Qed.

(** Monadic left fold: [for x in l: s = f(s, x)] where the body may raise. *)
Fixpoint foldM {A S : Type} (f : S → A → result S) (s : S) (l : list A) : result S :=
  match l with
  | [] => Ok s
  | x :: l' => s' ← f s x; foldM f s' l'
  end.

(** [[f(x) for x in l]] where [f] may raise. *)
Fixpoint mapR {A B : Type} (f : A → result B) (l : list A) : result (list B) :=
  match l with
  | [] => Ok []
  | x :: l' => y ← f x; ys ← mapR f l'; Ok (y :: ys)
  end.

Lemma mapR_ok {A B} (f : A → result B) (l : list A) (ys : list B) :
  mapR f l = Ok ys ↔ Forall2 (fun x y => f x = Ok y) l ys.
Proof.
  revert ys; induction l as [|x l IH]; intros ys; simpl.
  - split; [intros [= <-]; constructor | by inversion 1].
  - split.
    + rewrite bind_ok; intros (y & Hy & H). apply bind_ok in H as (zs & Hz & [= <-]).
      constructor; [done | by apply IH].
    + inversion 1; subst. apply bind_ok. eexists; split; [done|].
      apply bind_ok. eexists; split; [by apply IH | done].
Qed.

Lemma foldM_app {A S} (f : S → A → result S) (s : S) (l k : list A) :
  foldM f s (l ++ k) = (s' ← foldM f s l; foldM f s' k).
Proof. revert s; induction l as [|x l IH]; intros s; simpl; [done|]. destruct (f s x); simpl; auto. Qed.

(** The invariant rule for [foldM]. *)
Lemma foldM_inv {A S} (P : S → Prop) (f : S → A → result S) (s s' : S) (l : list A) :
  P s → (∀ s x s', x ∈ l → P s → f s x = Ok s' → P s') →
  foldM f s l = Ok s' → P s'.
Proof.
  revert s; induction l as [|x l IH]; intros s Hs Hf; simpl; [by intros [= <-]|].
  intros H; apply bind_ok in H as (s1 & H1 & H2).
  apply (IH s1); [eapply Hf; eauto; set_solver | | done].
  intros; eapply Hf; eauto; set_solver.
Qed.

(** ** Tactics shared by the development *)

Create HintDb py discriminated.
#[export] Hint Constants Opaque : py.

(** Split a successful monadic computation into its steps. *)
Ltac inv_ok :=
  repeat match goal with
  | H : (_ ≫= _) = Ok _ |- _ => apply bind_ok in H; destruct H as (? & ? & ?)
  | H : get_or _ _ = Ok _ |- _ => apply get_or_ok in H
  | H : Ok _ = Ok _ |- _ => injection H; clear H; intros; subst
  | H : Err _ = Ok _ |- _ => discriminate H
  | H : mret _ = Ok _ |- _ => injection H; clear H; intros; subst
  end.

(** Case analysis on the innermost test of the goal. *)
Ltac case_test :=
  match goal with
  | |- context [if ?b then _ else _] =>
      lazymatch b with context [if _ then _ else _] => fail | _ => destruct b eqn:? end
  end.
