(* ===== verification/PyFloat.v ===== *)
(** * Python floats: IEEE-754 binary64, exactly

    Every finite double is an integer multiple of [2^-1074], so a finite float
    is represented by that integer.  All arithmetic is "compute exactly, then
    round once, to nearest, ties to even", which is what CPython's float
    operations do.  Zeros of both signs are one value: no code modelled here
    tells them apart ([==] and [<] do not).

    The second half proves the order theory the other files rely on: rounding
    is monotone, exact on representable values, and so the operations are
    monotone and keep signs. *)

From S2P Require Import Prelude.
Local Open Scope Z_scope.

Inductive float : Type :=
  | Fin (z : Z)          (** the value [z * 2^-1074] *)
  | PInf | NInf | NaN.

#[export] Instance float_eq_dec : EqDecision float.
Proof. solve_decision. Defined.

Declare Scope float_scope.
Delimit Scope float_scope with float.
Bind Scope float_scope with float.

(** ** Rounding *)

(** [1.0] in units of the smallest subnormal, and the overflow threshold. *)
Definition unit_z : Z := Z.shiftl 1 1074.
Definition limit_z : Z := Z.shiftl 1 2098.

(** Nearest integer to [n / (d * 2^k)] ([0 < d], [0 <= k]), ties to even. *)
Definition half_even (n d k : Z) : Z :=
  let q := Z.shiftr n k / d in
  match 2 * (n - Z.shiftl (q * d) k) ?= Z.shiftl d k with
  | Lt => q
  | Gt => q + 1
  | Eq => if Z.even q then q else q + 1
  end.

(** [Z.log2 (a / d)] without dividing ([0 <= a], [0 < d]). *)
Definition log2_quot (a d : Z) : Z :=
  if a <? d then 0
  else let l := Z.log2 a - Z.log2 d in
       if a <? Z.shiftl d l then l - 1 else l.

(** How many low bits of [n / d] a 53-bit significand drops. *)
Definition drop_bits (n d : Z) : Z := Z.max 0 (log2_quot (Z.abs n) d - 52).

(** [n / d] rounded to a 53-bit significand (unbounded exponent above). *)
Definition round53 (n d : Z) : Z :=
  let k := drop_bits n d in
  Z.shiftl (half_even n d k) k.

Definition pack (z : Z) : float :=
  if Z.abs z <? limit_z then Fin z else if 0 <? z then PInf else NInf.

(** Removing common factors of two keeps the divisions small. *)
Fixpoint strip_pos (p q : positive) : positive * positive :=
  match p, q with
  | xO p', xO q' => strip_pos p' q'
  | _, _ => (p, q)
  end.

Definition strip2 (n d : Z) : Z * Z :=
  match n, d with
  | Zpos p, Zpos q => let '(p', q') := strip_pos p q in (Zpos p', Zpos q')
  | Zneg p, Zpos q => let '(p', q') := strip_pos p q in (Zneg p', Zpos q')
  | _, _ => (n, d)
  end.

(** The double nearest to [n / d] units ([0 < d]). *)
Definition frnd (n d : Z) : float :=
  let '(n', d') := strip2 n d in pack (round53 n' d').

(** ** Literals: [0.35] in [float_scope] is the double Python reads *)

Record lit := Lit { lit_num : Z; lit_digits : N }.

Definition lit_z (l : lit) : Z :=
  let '(n, d) := strip2 (lit_num l * unit_z) (10 ^ Z.of_N (lit_digits l)) in
  round53 n d.

(** Literals of the source are far below the overflow threshold, so they are
    finite by construction. *)
Definition of_lit (l : lit) : float := Fin (lit_z l).
Coercion of_lit : lit >-> float.

Definition lit_of_number (n : Number.number) : option lit :=
  match n with
  | Number.Decimal (Decimal.Decimal i f) =>
      Some (Lit (Z.of_int (Decimal.app_int i f)) (N.of_nat (Decimal.nb_digits f)))
  | _ => None
  end.
(** Literals are only read, never printed back. *)
Definition number_of_lit (l : lit) : option Number.number := None.
Number Notation lit lit_of_number number_of_lit : float_scope.

(** ** Operations *)

Definition fopp (a : float) : float :=
  match a with Fin x => Fin (- x) | PInf => NInf | NInf => PInf | NaN => NaN end.

Definition fadd (a b : float) : float :=
  match a, b with
  | NaN, _ | _, NaN | PInf, NInf | NInf, PInf => NaN
  | PInf, _ | _, PInf => PInf
  | NInf, _ | _, NInf => NInf
  | Fin x, Fin y => frnd (x + y) 1
  end.

Definition fsub (a b : float) : float := fadd a (fopp b).

(** The infinity with the sign of [s]; [0 * inf] is NaN. *)
Definition inf_of_sign (s : Z) : float :=
  match s with Z0 => NaN | Zpos _ => PInf | Zneg _ => NInf end.

Definition sign (a : float) : Z :=
  match a with Fin x => Z.sgn x | PInf => 1 | NInf => -1 | NaN => 0 end.

Definition fmul (a b : float) : float :=
  match a, b with
  | NaN, _ | _, NaN => NaN
  | Fin x, Fin y => frnd (x * y) unit_z
  | _, _ => inf_of_sign (sign a * sign b)
  end.

(** Division by a non-zero float.  Python raises [ZeroDivisionError] on a zero
    divisor: [fdiv] is used directly only where the divisor cannot be zero,
    [py_div] everywhere else. *)
Definition fdiv (a b : float) : float :=
  match a, b with
  | NaN, _ | _, NaN | _, Fin Z0 => NaN
  | Fin x, Fin (Zpos y) => frnd (x * unit_z) (Zpos y)
  | Fin x, Fin (Zneg y) => frnd (- x * unit_z) (Zpos y)
  | Fin x, _ => Fin 0
  | _, Fin y => inf_of_sign (sign a * Z.sgn y)
  | _, _ => NaN
  end.

Definition fleb (a b : float) : bool :=
  match a, b with
  | NaN, _ | _, NaN => false
  | NInf, _ | _, PInf => true
  | Fin x, Fin y => x <=? y
  | _, _ => false
  end.

Definition fltb (a b : float) : bool :=
  match a, b with
  | NaN, _ | _, NaN => false
  | Fin x, Fin y => x <? y
  | NInf, NInf | PInf, PInf => false
  | NInf, _ | _, PInf => true
  | _, _ => false
  end.

Definition feqb (a b : float) : bool :=
  match a, b with
  | Fin x, Fin y => x =? y
  | PInf, PInf | NInf, NInf => true
  | _, _ => false
  end.

Infix "+" := fadd : float_scope.
Infix "-" := fsub : float_scope.
Infix "*" := fmul : float_scope.
Infix "/" := fdiv : float_scope.
Notation "- x" := (fopp x) : float_scope.
Infix "<=?" := fleb : float_scope.
Infix "<?" := fltb : float_scope.
Infix "=?" := feqb : float_scope.
Notation "x <= y" := (fleb x y = true) : float_scope.
Notation "x < y" := (fltb x y = true) : float_scope.
Notation "x <= y <= z" := (fleb x y = true /\ fleb y z = true) : float_scope.

Definition py_div (a b : float) : result float :=
  if (b =? 0.0)%float then Err ZeroDivisionError else Ok (a / b)%float.

(** [float(n)] of an int in range; Python raises [OverflowError] where this
    gives an infinity ([|n| >= 2^1024], which no count of tokens reaches). *)
Definition of_Z (n : Z) : float := frnd (n * unit_z) 1.

(** True division of two ints: rounded once from the exact quotient. *)
Definition int_div (n d : Z) : result float :=
  match d with
  | Z0 => Err ZeroDivisionError
  | Zpos p => Ok (frnd (n * unit_z) (Zpos p))
  | Zneg p => Ok (frnd (- n * unit_z) (Zpos p))
  end.

(** [max(a, b)] and [min(a, b)] keep the first argument unless the second is
    strictly better (so a NaN first argument is kept). *)
Definition pymax (a b : float) : float := if (a <? b)%float then b else a.
Definition pymin (a b : float) : float := if (b <? a)%float then b else a.

(** [round(x, nd)]: the exact decimal rounding, ties to even, then the nearest
    double. *)
Definition fround (nd : Z) (a : float) : float :=
  match a with
  | Fin z => frnd (half_even (z * 10 ^ nd) 1 1074 * unit_z) (10 ^ nd)
  | _ => a
  end.

(** [int(x)] truncates; [math.floor] and [math.ceil]. *)
Definition ftrunc (a : float) : result Z :=
  match a with
  | Fin z => Ok (Z.sgn z * Z.shiftr (Z.abs z) 1074)
  | NaN => Err ValueError
  | _ => Err OverflowError
  end.
Definition ffloor (a : float) : result Z :=
  match a with
  | Fin z => Ok (Z.shiftr z 1074)
  | NaN => Err ValueError
  | _ => Err OverflowError
  end.
Definition fceil (a : float) : result Z :=
  match a with
  | Fin z => Ok (- Z.shiftr (- z) 1074)
  | NaN => Err ValueError
  | _ => Err OverflowError
  end.

Definition finite (a : float) : bool := match a with Fin _ => true | _ => false end.
Definition not_nan (a : float) : bool := match a with NaN => false | _ => true end.

(** [sum(xs)] of floats: a left fold from the int [0] (CPython up to 3.11). *)
Definition fsum (l : list float) : float := fold_left fadd l 0.0%float.

#[global] Arguments frnd : simpl never.
#[global] Arguments of_lit : simpl never.
#[global] Arguments lit_z : simpl never.
#[global] Arguments of_Z : simpl never.
#[global] Arguments fleb : simpl nomatch.
#[global] Arguments fltb : simpl nomatch.
#[global] Arguments feqb : simpl nomatch.
#[global] Arguments fadd : simpl nomatch.
#[global] Arguments fsub : simpl never.
#[global] Arguments fmul : simpl nomatch.
#[global] Arguments fdiv : simpl nomatch.
#[global] Arguments pymax : simpl never.
#[global] Arguments pymin : simpl never.
#[global] Arguments fround : simpl never.

(** ** Rounding theory on integers *)

Lemma unit_z_pos : 0 < unit_z.
Proof. reflexivity. Qed.
Lemma limit_z_pos : 0 < limit_z.
Proof. reflexivity. Qed.
#[global] Opaque unit_z limit_z.

(** What [half_even] promises: it is within half a unit, and even on ties. *)
Lemma half_even_spec (n d k : Z) : 0 < d → 0 <= k →
  let h := half_even n d k in let u := d * 2 ^ k in
  2 * n - u <= 2 * h * u <= 2 * n + u ∧
  (2 * h * u = 2 * n - u ∨ 2 * h * u = 2 * n + u → Z.even h = true).
Proof.
  intros Hd Hk h u. subst h. unfold half_even.
  assert (H2 : 0 < 2 ^ k) by (apply Z.pow_pos_nonneg; lia).
  rewrite Z.shiftr_div_pow2, !Z.shiftl_mul_pow2, Z.div_div by lia.
  replace (2 ^ k * d) with u by (unfold u; ring).
  assert (Hu : 0 < u) by (unfold u; nia).
  pose proof (Z.div_mod n u ltac:(lia)) as Hn.
  pose proof (Z.mod_pos_bound n u Hu) as Hr.
  set (q := n / u) in *. set (r := n mod u) in *.
  replace (q * d * 2 ^ k) with (q * u) by (unfold u; ring).
  replace (2 * (n - q * u)) with (2 * r) by lia.
  fold u. assert (Hq : 2 * (q + 1) * u = 2 * (u * q) + 2 * u) by ring.
  assert (Hq' : 2 * q * u = 2 * (u * q)) by ring.
  destruct (Z.compare_spec (2 * r) u) as [Hc|Hc|Hc]; [destruct (Z.even q) eqn:E|..];
    rewrite ?Hq, ?Hq'; (split; [lia|]); intros Ht; try done; try lia.
  by rewrite Z.even_add, E.
Qed.

(** Two ratios in order give roundings in order; they may even be rounded in
    different scales, provided the rational values compare. *)
Lemma half_even_mono (n1 d1 k1 n2 d2 k2 : Z) :
  0 < d1 → 0 <= k1 → 0 < d2 → 0 <= k2 →
  n1 * (d2 * 2 ^ k2) <= n2 * (d1 * 2 ^ k1) →
  half_even n1 d1 k1 <= half_even n2 d2 k2.
Proof.
  intros Hd1 Hk1 Hd2 Hk2 Hle.
  pose proof (half_even_spec n1 d1 k1 Hd1 Hk1) as [[A1 A2] A3].
  pose proof (half_even_spec n2 d2 k2 Hd2 Hk2) as [[B1 B2] B3].
  cbv zeta in *.
  set (h1 := half_even n1 d1 k1) in *. set (h2 := half_even n2 d2 k2) in *.
  assert (Hu1 : 0 < d1 * 2 ^ k1) by (apply Z.mul_pos_pos; [|apply Z.pow_pos_nonneg]; lia).
  assert (Hu2 : 0 < d2 * 2 ^ k2) by (apply Z.mul_pos_pos; [|apply Z.pow_pos_nonneg]; lia).
  set (u1 := d1 * 2 ^ k1) in *. set (u2 := d2 * 2 ^ k2) in *.
  clearbody h1 h2 u1 u2. clear - A1 A2 A3 B1 B2 B3 Hle Hu1 Hu2.
  destruct (Z.le_gt_cases h1 h2) as [|Hgt]; [done|exfalso].
  assert (E1 : (2 * h1 * u1) * u2 <= (2 * n1 + u1) * u2) by (apply Z.mul_le_mono_nonneg_r; lia).
  assert (E2 : (2 * n2 - u2) * u1 <= (2 * h2 * u2) * u1) by (apply Z.mul_le_mono_nonneg_r; lia).
  assert (Hp : 0 < u1 * u2) by nia.
  assert (E3 : (2 * h1 - 1) * (u1 * u2) <= (2 * h2 + 1) * (u1 * u2)) by nia.
  apply Z.mul_le_mono_pos_r in E3; [|done].
  assert (h1 = h2 + 1) as -> by lia.
  assert (2 * (h2 + 1) * u1 = 2 * n1 + u1) by nia.
  assert (2 * h2 * u2 = 2 * n2 - u2) by nia.
  assert (Z.even (h2 + 1) = true) as Ev1 by (apply A3; auto).
  assert (Z.even h2 = true) as Ev2 by (apply B3; auto).
  rewrite Z.even_add, Ev2 in Ev1. done.
Qed.

Lemma half_even_opp (n d k : Z) : 0 < d → 0 <= k →
  half_even (- n) d k = - half_even n d k.
Proof.
  intros Hd Hk.
  pose proof (half_even_spec n d k Hd Hk) as [[A1 A2] A3].
  pose proof (half_even_spec (- n) d k Hd Hk) as [[B1 B2] B3]. cbv zeta in *.
  set (h1 := half_even n d k) in *. set (h2 := half_even (- n) d k) in *.
  assert (Hu : 0 < d * 2 ^ k) by (apply Z.mul_pos_pos; [|apply Z.pow_pos_nonneg]; lia).
  set (u := d * 2 ^ k) in *. clearbody h1 h2 u.
  assert (- 2 * u <= 2 * (h1 + h2) * u <= 2 * u) by nia.
  assert (-1 <= h1 + h2 <= 1) by nia.
  assert (h1 + h2 = 0 ∨ h1 + h2 = 1 ∨ h1 + h2 = -1) as [?|[?|?]] by lia; [lia|exfalso..].
  - assert (2 * h1 * u = 2 * n + u ∧ 2 * h2 * u = 2 * - n + u) as [C1 C2] by nia.
    assert (Z.even (h1 + h2) = true) by (rewrite Z.even_add, A3, B3 by auto; done).
    replace (h1 + h2) with 1 in * by lia. done.
  - assert (2 * h1 * u = 2 * n - u ∧ 2 * h2 * u = 2 * - n - u) as [C1 C2] by nia.
    assert (Z.even (h1 + h2) = true) by (rewrite Z.even_add, A3, B3 by auto; done).
    replace (h1 + h2) with (-1) in * by lia. done.
Qed.

(** Exact multiples are kept. *)
Lemma half_even_exact (h d k : Z) : 0 < d → 0 <= k →
  half_even (h * (d * 2 ^ k)) d k = h.
Proof.
  intros Hd Hk.
  pose proof (half_even_spec (h * (d * 2 ^ k)) d k Hd Hk) as [[A1 A2] _]. cbv zeta in *.
  assert (Hu : 0 < d * 2 ^ k) by (apply Z.mul_pos_pos; [|apply Z.pow_pos_nonneg]; lia).
  set (u := d * 2 ^ k) in *. set (h1 := half_even _ d k) in *. clearbody h1 u. nia.
Qed.

Lemma log2_quot_spec (a d : Z) : 0 <= a → 0 < d → log2_quot a d = Z.log2 (a / d).
Proof.
  intros Ha Hd. unfold log2_quot.
  destruct (Z.ltb_spec a d); [rewrite Z.div_small by lia; done|].
  assert (0 < a) by lia.
  pose proof (Z.log2_spec a ltac:(lia)) as [L1 L2].
  pose proof (Z.log2_spec d ltac:(lia)) as [M1 M2].
  pose proof (Z.log2_le_mono d a ltac:(lia)) as Hl.
  pose proof (Z.log2_nonneg d) as Hnd.
  set (l := Z.log2 a - Z.log2 d).
  assert (Hl0 : 0 <= l) by lia.
  rewrite Z.shiftl_mul_pow2 by done. symmetry.
  replace (Z.log2 a) with (Z.log2 d + l) in * by lia.
  rewrite Z.pow_succ_r in L2, M2 by lia. rewrite Z.pow_add_r in L1, L2 by lia.
  assert (0 < 2 ^ l) by (apply Z.pow_pos_nonneg; lia).
  assert (0 < 2 ^ Z.log2 d) by (apply Z.pow_pos_nonneg; lia).
  set (D := 2 ^ Z.log2 d) in *.
  destruct (Z.ltb_spec a (d * 2 ^ l)).
  - assert (l ≠ 0) by (intros ->; rewrite Z.pow_0_r in *; lia).
    assert (E : 2 ^ l = 2 * 2 ^ (l - 1)) by (rewrite <- Z.pow_succ_r by lia; f_equal; lia).
    apply Z.log2_unique; [lia|]. replace (Z.succ (l - 1)) with l by lia. split.
    + apply Z.div_le_lower_bound; [done|]. set (P := 2 ^ (l - 1)) in *.
      assert (d * P <= 2 * D * P) by (apply Z.mul_le_mono_nonneg_r; lia). nia.
    + apply Z.div_lt_upper_bound; done.
  - apply Z.log2_unique; [done|]. rewrite Z.pow_succ_r by done. split.
    + apply Z.div_le_lower_bound; done.
    + apply Z.div_lt_upper_bound; [done|].
      assert (D * 2 ^ l <= d * 2 ^ l) by (apply Z.mul_le_mono_nonneg_r; lia). nia.
Qed.

Lemma drop_bits_nonneg (n d : Z) : 0 <= drop_bits n d.
Proof. unfold drop_bits; lia. Qed.
#[export] Hint Resolve drop_bits_nonneg : py.

Lemma drop_bits_opp (n d : Z) : drop_bits (- n) d = drop_bits n d.
Proof. unfold drop_bits. by rewrite Z.abs_opp. Qed.

(** The significand of a non-negative ratio lies in [[2^52, 2^53)] units of
    [2^k], the lower bound only when bits are dropped. *)
Lemma drop_bits_spec (n d : Z) : 0 <= n → 0 < d →
  let k := drop_bits n d in
  n < 2 ^ 53 * (d * 2 ^ k) ∧ (0 < k → 2 ^ 52 * (d * 2 ^ k) <= n).
Proof.
  intros Hn Hd k. subst k. unfold drop_bits.
  rewrite Z.abs_eq, log2_quot_spec by done.
  assert (Hq : 0 <= n / d) by (apply Z.div_pos; lia).
  pose proof (Z.div_mod n d ltac:(lia)). pose proof (Z.mod_pos_bound n d Hd).
  set (q := n / d) in *.
  assert (Hlt : q < 2 ^ (Z.log2 q + 1)).
  { destruct (Z.eq_dec q 0) as [->|]; [done|].
    rewrite Z.add_1_r. apply Z.log2_spec; lia. }
  pose proof (Z.log2_nonneg q).
  set (k := Z.max 0 (Z.log2 q - 52)).
  assert (Hle : 2 ^ (Z.log2 q + 1) <= 2 ^ (53 + k)) by (apply Z.pow_le_mono_r; lia).
  rewrite (Z.pow_add_r 2 53 k) in Hle by lia. split.
  - assert (q + 1 <= 2 ^ 53 * 2 ^ k) by lia.
    assert ((q + 1) * d <= 2 ^ 53 * 2 ^ k * d) by (apply Z.mul_le_mono_nonneg_r; lia). lia.
  - intros Hk. assert (Z.log2 q = 52 + k) as El by lia.
    assert (q ≠ 0) by (intros E; rewrite E in *; simpl in *; lia).
    pose proof (Z.log2_spec q ltac:(lia)) as [Hl _]. rewrite El, Z.pow_add_r in Hl by lia.
    assert (2 ^ 52 * 2 ^ k * d <= q * d) by (apply Z.mul_le_mono_nonneg_r; lia). lia.
Qed.

Lemma drop_bits_mono (n1 d1 n2 d2 : Z) : 0 <= n1 → 0 < d1 → 0 < d2 →
  n1 * d2 <= n2 * d1 → drop_bits n1 d1 <= drop_bits n2 d2.
Proof.
  intros Hn Hd1 Hd2 Hle. assert (0 <= n2) by nia.
  unfold drop_bits. rewrite !Z.abs_eq, !log2_quot_spec by done.
  assert (n1 / d1 <= n2 / d2) as Hq.
  { apply Z.div_le_lower_bound; [done|].
    pose proof (Z.mul_div_le n1 d1 Hd1).
    assert (n1 / d1 * d1 * d2 <= n1 * d2) by (apply Z.mul_le_mono_nonneg_r; lia).
    apply Z.mul_le_mono_pos_r with (p := d1); [done|]. lia. }
  apply Z.log2_le_mono in Hq. lia.
Qed.

Lemma round53_alt (n d : Z) :
  round53 n d = half_even n d (drop_bits n d) * 2 ^ drop_bits n d.
Proof. unfold round53. rewrite Z.shiftl_mul_pow2; auto with py. Qed.

Lemma round53_opp (n d : Z) : 0 < d → round53 (- n) d = - round53 n d.
Proof.
  intros Hd. rewrite !round53_alt, drop_bits_opp, half_even_opp by auto with py. ring.
Qed.

Lemma pow2_pos (k : Z) : 0 <= k → 0 < 2 ^ k.
Proof. intros; by apply Z.pow_pos_nonneg. Qed.
#[export] Hint Resolve pow2_pos : py.

(** Integer bounds of a scaled value survive rounding. *)
Lemma half_even_bounds (n d k lo hi : Z) : 0 < d → 0 <= k →
  lo * (d * 2 ^ k) <= n <= hi * (d * 2 ^ k) → lo <= half_even n d k <= hi.
Proof.
  intros Hd Hk [Hlo Hhi].
  assert (0 < 2 ^ k) by auto with py.
  rewrite <- (half_even_exact lo d k), <- (half_even_exact hi d k) by done.
  split; apply half_even_mono; try done; apply Z.mul_le_mono_nonneg_r; nia.
Qed.

Lemma round53_mono_nonneg (n1 d1 n2 d2 : Z) : 0 <= n1 → 0 < d1 → 0 < d2 →
  n1 * d2 <= n2 * d1 → round53 n1 d1 <= round53 n2 d2.
Proof.
  intros Hn Hd1 Hd2 Hle. assert (0 <= n2) by nia.
  pose proof (drop_bits_mono n1 d1 n2 d2 Hn Hd1 Hd2 Hle) as Hk.
  destruct (drop_bits_spec n1 d1 ltac:(done) Hd1) as [A _].
  destruct (drop_bits_spec n2 d2 ltac:(done) Hd2) as [_ B].
  rewrite !round53_alt. cbv zeta in *.
  pose proof (drop_bits_nonneg n1 d1). pose proof (drop_bits_nonneg n2 d2).
  set (k1 := drop_bits n1 d1) in *. set (k2 := drop_bits n2 d2) in *.
  assert (0 < 2 ^ k1) by auto with py. assert (0 < 2 ^ k2) by auto with py.
  destruct (Z.eq_dec k1 k2) as [<-|Hne].
  - apply Z.mul_le_mono_nonneg_r; [lia|].
    apply half_even_mono; try done. nia.
  - specialize (B ltac:(lia)).
    destruct (half_even_bounds n1 d1 k1 0 (2 ^ 53)) as [_ U]; [lia..|].
    destruct (half_even_bounds n2 d2 k2 (2 ^ 52) n2) as [L _]; [done|lia|nia|].
    assert (E : 2 ^ 53 * 2 ^ k1 <= 2 ^ 52 * 2 ^ k2).
    { rewrite <- !Z.pow_add_r by lia. apply Z.pow_le_mono_r; lia. }
    assert (half_even n1 d1 k1 * 2 ^ k1 <= 2 ^ 53 * 2 ^ k1) by (apply Z.mul_le_mono_nonneg_r; lia).
    assert (2 ^ 52 * 2 ^ k2 <= half_even n2 d2 k2 * 2 ^ k2) by (apply Z.mul_le_mono_nonneg_r; lia).
    lia.
Qed.

Lemma round53_0 (d : Z) : 0 < d → round53 0 d = 0.
Proof.
  intros Hd. rewrite round53_alt.
  pose proof (half_even_exact 0 d (drop_bits 0 d) Hd (drop_bits_nonneg _ _)) as E.
  rewrite Z.mul_0_l in E. rewrite E. ring.
Qed.

(** Rounding is monotone in the rational value. *)
Lemma round53_mono (n1 d1 n2 d2 : Z) : 0 < d1 → 0 < d2 →
  n1 * d2 <= n2 * d1 → round53 n1 d1 <= round53 n2 d2.
Proof.
  intros Hd1 Hd2 Hle.
  destruct (Z.le_gt_cases 0 n1) as [Hn1|Hn1]; [by apply round53_mono_nonneg|].
  destruct (Z.le_gt_cases 0 n2) as [Hn2|Hn2].
  - transitivity 0.
    + apply Z.opp_nonneg_nonpos. rewrite <- round53_opp by done.
      rewrite <- (round53_0 d1) by done. apply round53_mono_nonneg; nia.
    + rewrite <- (round53_0 d2) by done. apply round53_mono_nonneg; nia.
  - apply Z.opp_le_mono. rewrite <- !round53_opp by done. apply round53_mono_nonneg; nia.
Qed.

Lemma round53_ratio (n1 d1 n2 d2 : Z) : 0 < d1 → 0 < d2 →
  n1 * d2 = n2 * d1 → round53 n1 d1 = round53 n2 d2.
Proof. intros. apply Z.le_antisymm; apply round53_mono; lia. Qed.

(** *** Representable integers *)

(** [z] has at most 53 significant bits (or is a power of two times 2^53). *)
Definition representable (z : Z) : Prop :=
  ∃ m e, 0 <= e ∧ Z.abs m <= 2 ^ 53 ∧ z = m * 2 ^ e.

Lemma representable_round53 (n d : Z) : 0 < d → representable (round53 n d).
Proof.
  intros Hd. rewrite round53_alt. exists (half_even n d (drop_bits n d)), (drop_bits n d).
  repeat split; auto with py.
  destruct (drop_bits_spec (Z.abs n) d ltac:(lia) Hd) as [A _]. cbv zeta in A.
  replace (drop_bits (Z.abs n) d) with (drop_bits n d) in A
    by (unfold drop_bits; by rewrite Z.abs_idemp).
  destruct (half_even_bounds n d (drop_bits n d) (- 2 ^ 53) (2 ^ 53)); lia || auto with py.
Qed.

Lemma round53_exact_pos (z d : Z) : 0 < z → 0 < d → representable z →
  round53 (z * d) d = z.
Proof.
  intros Hz Hd (m & e & He & Hm & ->).
  assert (H2 : 0 < 2 ^ e) by auto with py. assert (0 < m) by nia.
  assert (∃ m' e', 0 <= e' ∧ 0 < m' < 2 ^ 53 ∧ m * 2 ^ e = m' * 2 ^ e') as (m' & e' & He' & Hm' & ->).
  { destruct (Z.eq_dec m (2 ^ 53)) as [->|]; [|exists m, e; lia].
    exists 1, (e + 53). rewrite Z.pow_add_r by lia. lia. }
  rewrite round53_alt. pose proof (drop_bits_nonneg (m' * 2 ^ e' * d) d) as Hk.
  assert (Hke : drop_bits (m' * 2 ^ e' * d) d <= e').
  { unfold drop_bits. rewrite log2_quot_spec, Z.abs_eq, Z.div_mul by lia.
    rewrite Z.log2_mul_pow2 by lia.
    pose proof (Z.log2_lt_pow2 m' 53 ltac:(lia)). lia. }
  set (k := drop_bits _ _) in *.
  replace (m' * 2 ^ e' * d) with ((m' * 2 ^ (e' - k)) * (d * 2 ^ k)).
  2:{ replace e' with (e' - k + k) at 2 by lia. rewrite (Z.pow_add_r 2 (e' - k) k) by lia. ring. }
  rewrite half_even_exact by done. rewrite <- Z.mul_assoc, <- Z.pow_add_r by lia.
  by replace (e' - k + k) with e' by lia.
Qed.

Lemma representable_opp (z : Z) : representable z → representable (- z).
Proof. intros (m & e & ? & ? & ->). exists (- m), e. rewrite Z.abs_opp. lia. Qed.

Lemma round53_exact (z d : Z) : 0 < d → representable z → round53 (z * d) d = z.
Proof.
  intros Hd Hz. destruct (Z.lt_trichotomy z 0) as [Hlt|[->|Hgt]].
  - apply Z.opp_inj. rewrite <- round53_opp by done. rewrite <- Z.mul_opp_l.
    by apply round53_exact_pos; [lia|lia|apply representable_opp].
  - by apply round53_0.
  - by apply round53_exact_pos.
Qed.

Lemma representable_small (m : Z) : Z.abs m <= 2 ^ 53 → representable (m * unit_z).
Proof. intros. exists m, 1074. split; [lia|]. split; [done|reflexivity]. Qed.

Lemma representable_0 : representable 0.
Proof. exists 0, 0. split; [lia|]. split; [|done]. simpl. lia. Qed.
#[export] Hint Resolve representable_round53 representable_0 representable_opp : py.

(** ** From integers to floats *)

Lemma strip2_spec (n d : Z) : 0 < d →
  0 < (strip2 n d).2 ∧ n * (strip2 n d).2 = (strip2 n d).1 * d.
Proof.
  assert (Hp : ∀ p q, Zpos p * Zpos (strip_pos p q).2 = Zpos (strip_pos p q).1 * Zpos q).
  { induction p as [p IH|p IH|]; intros [q|q|]; simpl; try lia.
    specialize (IH q). lia. }
  intros Hd. destruct n as [|p|p], d as [|q|q]; try lia; simpl; try lia;
    specialize (Hp p q); destruct (strip_pos p q); simpl in *; split; lia.
Qed.

Lemma frnd_eq (n d : Z) : 0 < d → frnd n d = pack (round53 n d).
Proof.
  intros Hd. unfold frnd. destruct (strip2_spec n d Hd) as [H1 H2].
  destruct (strip2 n d) as [n' d']; simpl in *. f_equal. apply round53_ratio; lia.
Qed.

(** A float is well formed when it is a double: 53 significant bits, below the
    overflow threshold.  Every operation returns one. *)
Definition wf (a : float) : Prop :=
  match a with Fin z => representable z ∧ Z.abs z < limit_z | _ => True end.

Lemma pack_wf (z : Z) : representable z → wf (pack z).
Proof. unfold pack. intros. destruct (Z.ltb_spec (Z.abs z) limit_z); [done|]. by case_match. Qed.

Lemma frnd_wf (n d : Z) : 0 < d → wf (frnd n d).
Proof. intros. rewrite frnd_eq by done. apply pack_wf; auto with py. Qed.

Lemma pack_mono (x y : Z) : x <= y → (pack x <= pack y)%float.
Proof.
  intros H. unfold pack. pose proof limit_z_pos.
  repeat case_match; simpl; try done; try lia.
Qed.

Lemma frnd_mono (n1 d1 n2 d2 : Z) : 0 < d1 → 0 < d2 →
  n1 * d2 <= n2 * d1 → (frnd n1 d1 <= frnd n2 d2)%float.
Proof. intros. rewrite !frnd_eq by done. by apply pack_mono, round53_mono. Qed.

Lemma frnd_exact (z d : Z) : 0 < d → wf (Fin z) → frnd (z * d) d = Fin z.
Proof.
  intros Hd [Hr Hl]. rewrite frnd_eq, round53_exact by done. unfold pack.
  destruct (Z.ltb_spec (Z.abs z) limit_z); [done|lia].
Qed.

Lemma frnd_0 (d : Z) : 0 < d → frnd 0 d = Fin 0.
Proof. intros. by rewrite frnd_eq, round53_0. Qed.

Lemma frnd_not_nan (n d : Z) : 0 < d → frnd n d ≠ NaN.
Proof. intros. rewrite frnd_eq by done. unfold pack. by repeat case_match. Qed.

(** ** Order *)

Local Open Scope float_scope.

Ltac float_cases :=
  repeat match goal with a : float |- _ => destruct a end; simpl in *.

Lemma fle_refl (a : float) : a ≠ NaN → a <= a.
Proof. float_cases; try done; lia. Qed.
Lemma fle_trans (a b c : float) : a <= b → b <= c → a <= c.
Proof. float_cases; try done; lia. Qed.
Lemma fle_antisym (a b : float) : a <= b → b <= a → a = b.
Proof. float_cases; try done. intros; f_equal; lia. Qed.
Lemma flt_le (a b : float) : a < b → a <= b.
Proof. float_cases; try done; lia. Qed.
Lemma flt_le_trans (a b c : float) : a < b → b <= c → a < c.
Proof. float_cases; try done; lia. Qed.
Lemma fle_lt_trans (a b c : float) : a <= b → b < c → a < c.
Proof. float_cases; try done; lia. Qed.
Lemma flt_irrefl (a : float) : (a <? a) = false.
Proof. float_cases; try done; lia. Qed.
Lemma flt_nle (a b : float) : a ≠ NaN → b ≠ NaN → (a <? b) = false ↔ b <= a.
Proof. float_cases; try (split; congruence); try done; intros; lia. Qed.
Lemma fle_nlt (a b : float) : a ≠ NaN → b ≠ NaN → (a <=? b) = false ↔ b < a.
Proof. float_cases; try (split; congruence); try done; intros; lia. Qed.
Lemma fle_not_nan_l (a b : float) : a <= b → a ≠ NaN.
Proof. float_cases; done. Qed.
Lemma fle_not_nan_r (a b : float) : a <= b → b ≠ NaN.
Proof. float_cases; done. Qed.
Lemma flt_not_nan_l (a b : float) : a < b → a ≠ NaN.
Proof. float_cases; done. Qed.
Lemma flt_not_nan_r (a b : float) : a < b → b ≠ NaN.
Proof. float_cases; done. Qed.
Lemma fle_total (a b : float) : a ≠ NaN → b ≠ NaN → a <= b ∨ b <= a.
Proof. float_cases; try done; try (by left); try (by right); intros; lia. Qed.
Lemma feq_eq (a b : float) : a ≠ NaN → (a =? b) = true ↔ a = b.
Proof. float_cases; try (split; congruence); try done. rewrite Z.eqb_eq. split; congruence. Qed.
Lemma lit_z_representable (l : lit) : representable (lit_z l).
Proof.
  unfold lit_z.
  assert (Hd : (0 < 10 ^ Z.of_N (lit_digits l))%Z)
    by (by apply Z.pow_pos_nonneg; [|apply N2Z.is_nonneg]).
  destruct (strip2_spec (lit_num l * unit_z) _ Hd) as [H _].
  destruct (strip2 _ _). by apply representable_round53.
Qed.

Lemma of_lit_wf (l : lit) : (Z.abs (lit_z l) <? limit_z)%Z = true → wf l.
Proof. intros H%Z.ltb_lt. split; [apply lit_z_representable|done]. Qed.
Lemma of_lit_not_nan (l : lit) : of_lit l ≠ NaN.
Proof. discriminate. Qed.
Lemma zero_lit : of_lit 0.0 = Fin 0.
Proof. vm_compute. reflexivity. Qed.
#[global] Opaque lit_z.
#[export] Hint Extern 1 (wf (of_lit _)) => apply of_lit_wf; vm_compute; reflexivity : py.
#[export] Hint Resolve of_lit_not_nan : py.

(** [not_nan] facts are found from any comparison in the context. *)
Ltac nn := match goal with
  | |- ?a ≠ NaN => first [match goal with H : ?P |- ?Q => constr_eq P Q; exact H end | apply of_lit_not_nan | match goal with
      | H : fleb a _ = true |- _ => exact (fle_not_nan_l _ _ H)
      | H : fleb _ a = true |- _ => exact (fle_not_nan_r _ _ H)
      | H : fltb a _ = true |- _ => exact (flt_not_nan_l _ _ H)
      | H : fltb _ a = true |- _ => exact (flt_not_nan_r _ _ H)
      end]
  end.

#[export] Hint Extern 1 (_ ≠ NaN) => nn : py.

(** ** Monotonicity and signs of the operations *)

Lemma fadd_mono (a b c d : float) : a <= c → b <= d →
  a + b ≠ NaN → c + d ≠ NaN → a + b <= c + d.
Proof.
  intros Hac Hbd Hab Hcd.
  destruct a, c; try discriminate Hac; destruct b, d; try discriminate Hbd; simpl in *; try done;
    first [apply frnd_mono; lia
          |destruct (frnd _ _) eqn:E; done || (exfalso; eapply frnd_not_nan; [|exact E]; lia)].
Qed.

Lemma fadd_nonneg (a b : float) : 0.0 <= a → 0.0 <= b → 0.0 <= a + b.
Proof.
  rewrite zero_lit. float_cases; try done; intros.
  rewrite <- (frnd_0 1) by done. apply frnd_mono; lia.
Qed.

Lemma fadd_0_r (a : float) : wf a → a + 0.0 = a.
Proof.
  rewrite zero_lit. destruct a; simpl; try done. intros H.
  rewrite Z.add_0_r, <- (Z.mul_1_r z) at 1. by apply frnd_exact.
Qed.

Lemma fadd_ge_l (a b : float) : wf a → 0.0 <= a → 0.0 <= b → a <= a + b.
Proof.
  intros Hw Ha Hb. rewrite <- (fadd_0_r a Hw) at 1.
  assert (Ha' : a ≠ NaN) by exact (fle_not_nan_r _ _ Ha).
  apply fadd_mono; [by apply fle_refl|done|by rewrite fadd_0_r|].
  exact (fle_not_nan_r _ _ (fadd_nonneg a b Ha Hb)).
Qed.

Lemma fsub_nonneg (a b : float) : b ≠ NInf → a ≠ PInf → a <= b → 0.0 <= b - a.
Proof.
  rewrite zero_lit. unfold fsub. float_cases; try done; intros.
  rewrite <- (frnd_0 1) by done. apply frnd_mono; lia.
Qed.

Lemma fopp_mono (a b : float) : a <= b → - b <= - a.
Proof. float_cases; try done; lia. Qed.

Lemma fsub_mono (a b c d : float) : a <= c → d <= b →
  a - b ≠ NaN → c - d ≠ NaN → a - b <= c - d.
Proof. intros. apply fadd_mono; try done. by apply fopp_mono. Qed.

Lemma fmul_comm (a b : float) : a * b = b * a.
Proof. float_cases; try done; try by rewrite Z.mul_comm. Qed.

Lemma fmul_finite_not_nan (a b : float) : finite a = true → finite b = true → a * b ≠ NaN.
Proof. float_cases; try done. intros _ _. apply frnd_not_nan, unit_z_pos. Qed.

Lemma frnd_nonneg (n d : Z) : (0 <= n)%Z → (0 < d)%Z → 0.0 <= frnd n d.
Proof. intros. rewrite zero_lit, <- (frnd_0 1) by done. apply frnd_mono; lia. Qed.

Lemma fmul_nonneg (a b : float) : 0.0 <= a → 0.0 <= b → a * b ≠ NaN → 0.0 <= a * b.
Proof.
  intros Ha Hb. rewrite zero_lit in Ha, Hb.
  destruct a, b; try discriminate Ha; try discriminate Hb; simpl in *; try done.
  - intros _. apply frnd_nonneg; [apply Z.leb_le in Ha, Hb; nia|apply unit_z_pos].
  - destruct z; simpl; try done.
  - destruct z; simpl; try done.
Qed.

Lemma fmul_nonneg_fin (a b : float) :
  finite a = true → finite b = true → 0.0 <= a → 0.0 <= b → 0.0 <= a * b.
Proof. intros. apply fmul_nonneg; try done. by apply fmul_finite_not_nan. Qed.

(** Scaling a possibly infinite amount by a finite positive factor. *)
Lemma fmul_nonneg_pos (a b : float) :
  finite b = true → 0.0 <= a → 0.0 < b → 0.0 <= a * b.
Proof.
  intros Hf Ha Hb. apply fmul_nonneg; [done|by apply flt_le|].
  rewrite zero_lit in Ha, Hb. destruct a, b; try done; simpl in *.
  - apply frnd_not_nan, unit_z_pos.
  - by destruct z.
Qed.

Lemma fmul_mono_r (a b c : float) : a <= b → 0.0 <= c →
  a * c ≠ NaN → b * c ≠ NaN → a * c <= b * c.
Proof.
  intros Hab Hc Ha Hb. rewrite zero_lit in Hc.
  destruct c; try discriminate Hc; destruct a, b; try discriminate Hab; simpl in *; try done;
    try (repeat match goal with z : Z |- _ => destruct z end; simpl in *; try done; try lia; fail).
  - apply frnd_mono; try apply unit_z_pos. apply Z.leb_le in Hab, Hc.
    pose proof unit_z_pos. by do 2 (apply Z.mul_le_mono_nonneg_r; [lia|]).
  - destruct z; try done. simpl. destruct (frnd _ _); done.
  - destruct z; try done. simpl. destruct (frnd _ _) eqn:E; try done.
Qed.

Lemma fdiv_fin_pos (a b : float) : finite b = true → 0.0 < b → a ≠ NaN → a / b ≠ NaN.
Proof.
  rewrite zero_lit. destruct b as [[|p|p]| | |]; try done. intros _ _ Ha.
  destruct a; simpl; try done. by apply frnd_not_nan.
Qed.

Lemma fdiv_mono_l (a b c : float) : finite c = true → 0.0 < c → a <= b → a / c <= b / c.
Proof.
  rewrite zero_lit. destruct c as [[|p|p]| | |]; try done. intros _ _.
  destruct a, b; simpl; try done; intros H.
  - apply frnd_mono; try lia. apply Z.leb_le in H.
    pose proof unit_z_pos. by do 2 (apply Z.mul_le_mono_nonneg_r; [lia|]).
  - by destruct (frnd _ _) eqn:E; [..|apply frnd_not_nan in E].
  - by destruct (frnd _ _) eqn:E; [..|apply frnd_not_nan in E].
Qed.

Lemma fdiv_0_l (c : float) : finite c = true → 0.0 < c → 0.0 / c = 0.0.
Proof.
  rewrite zero_lit. by destruct c as [[|p|p]| | |].
Qed.

Lemma fdiv_nonneg (a b : float) : finite b = true → 0.0 < b → 0.0 <= a → 0.0 <= a / b.
Proof.
  intros Hf Hb Ha. rewrite <- (fdiv_0_l b Hf Hb). by apply fdiv_mono_l.
Qed.

Lemma fmul_1_r (a : float) : wf a → a * 1.0 = a.
Proof.
  replace (of_lit 1.0) with (Fin unit_z) by (vm_compute; reflexivity).
  pose proof unit_z_pos. intros Ha. destruct a; simpl; try done. by apply frnd_exact.
Qed.

(** A fraction of a finite amount is at most the amount. *)
Lemma fmul_le_l (a b : float) : wf a → finite a = true → finite b = true →
  0.0 <= a → b <= 1.0 → a * b <= a.
Proof.
  intros Hw Hfa Hfb Ha Hb. pose proof (fmul_1_r a Hw) as E.
  assert (H : b * a <= 1.0 * a).
  { apply fmul_mono_r; try done; [by apply fmul_finite_not_nan|].
    rewrite fmul_comm, E. by destruct a. }
  by rewrite (fmul_comm 1.0 a), E, fmul_comm in H.
Qed.

(** *** [max] and [min] *)

Lemma pymax_ge_l (a b : float) : a ≠ NaN → a <= pymax a b.
Proof. unfold pymax. intros. case_match; [by apply flt_le|by apply fle_refl]. Qed.
Lemma pymax_ge_r (a b : float) : a ≠ NaN → b ≠ NaN → b <= pymax a b.
Proof. unfold pymax. intros. case_match; [by apply fle_refl|by apply flt_nle]. Qed.
Lemma pymax_lub (a b c : float) : a <= c → b <= c → pymax a b <= c.
Proof. unfold pymax. by case_match. Qed.
Lemma pymin_le_l (a b : float) : a ≠ NaN → pymin a b <= a.
Proof. unfold pymin. intros. case_match; [by apply flt_le|by apply fle_refl]. Qed.
Lemma pymin_le_r (a b : float) : a ≠ NaN → b ≠ NaN → pymin a b <= b.
Proof. unfold pymin. intros. case_match; [by apply fle_refl|by apply flt_nle]. Qed.
Lemma pymin_glb (a b c : float) : c <= a → c <= b → c <= pymin a b.
Proof. unfold pymin. by case_match. Qed.
Lemma pymax_l (a b : float) : b <= a → pymax a b = a.
Proof.
  unfold pymax. intros Hb. destruct (a <? b) eqn:E; [|done].
  pose proof (fle_lt_trans _ _ _ Hb E) as Hc. by rewrite flt_irrefl in Hc.
Qed.
Lemma pymax_r (a b : float) : a < b → pymax a b = b.
Proof. unfold pymax. by intros ->. Qed.
Lemma pymax_case (P : float → Prop) (a b : float) : P a → P b → P (pymax a b).
Proof. unfold pymax. by case_match. Qed.
Lemma pymin_case (P : float → Prop) (a b : float) : P a → P b → P (pymin a b).
Proof. unfold pymin. by case_match. Qed.

(** *** [round], [float(int)] and [int(float)] *)

Lemma fround_mono (nd : Z) (a b : float) : (0 <= nd)%Z → a <= b → fround nd a <= fround nd b.
Proof.
  intros Hnd Hab. assert (0 < 10 ^ nd)%Z by (by apply Z.pow_pos_nonneg).
  pose proof unit_z_pos. unfold fround.
  assert (Hi : ∀ n, frnd n (10 ^ nd) <= PInf ∧ NInf <= frnd n (10 ^ nd)).
  { intros n. destruct (frnd n (10 ^ nd)) eqn:E; try done. by apply frnd_not_nan in E. }
  destruct a, b; try discriminate Hab; try done; try apply Hi.
  apply Z.leb_le in Hab. apply frnd_mono; try done.
  apply Z.mul_le_mono_nonneg_r; [lia|]. apply Z.mul_le_mono_nonneg_r; [lia|].
  apply half_even_mono; try done. apply Z.mul_le_mono_nonneg_r; [done|].
  apply Z.mul_le_mono_nonneg_r; lia.
Qed.

Lemma fround_0 (nd : Z) : (0 <= nd)%Z → fround nd 0.0 = 0.0.
Proof.
  intros Hnd. rewrite zero_lit. unfold fround.
  change (half_even (0 * 10 ^ nd) 1 1074) with 0%Z. rewrite Z.mul_0_l.
  apply frnd_0. by apply Z.pow_pos_nonneg.
Qed.

Lemma fround_nonneg (nd : Z) (a : float) : (0 <= nd)%Z → 0.0 <= a → 0.0 <= fround nd a.
Proof. intros Hnd Ha. rewrite <- (fround_0 nd Hnd). by apply fround_mono. Qed.

Lemma of_Z_exact (n : Z) : (Z.abs n <= 2 ^ 53)%Z → of_Z n = Fin (n * unit_z).
Proof.
  intros Hn. unfold of_Z. pose proof (frnd_exact (n * unit_z) 1 eq_refl) as E.
  rewrite Z.mul_1_r in E. apply E. clear E.
  split; [by apply representable_small|]. rewrite Z.abs_mul, (Z.abs_eq unit_z) by (pose proof unit_z_pos; lia).
  apply Z.le_lt_trans with (2 ^ 53 * unit_z)%Z; [|reflexivity].
  apply Z.mul_le_mono_nonneg_r; [pose proof unit_z_pos; lia|done].
Qed.

Lemma of_Z_mono (m n : Z) : (m <= n)%Z → of_Z m <= of_Z n.
Proof. intros. apply frnd_mono; try done. pose proof unit_z_pos. nia. Qed.
Lemma of_Z_nonneg (n : Z) : (0 <= n)%Z → 0.0 <= of_Z n.
Proof. intros. apply frnd_nonneg; [pose proof unit_z_pos; nia|done]. Qed.
Lemma of_Z_wf (n : Z) : wf (of_Z n).
Proof. by apply frnd_wf. Qed.

(** Truncating something between [0] and [n] gives an int between them. *)
Lemma ftrunc_bounds (a : float) (n : Z) : (0 <= n <= 2 ^ 53)%Z →
  0.0 <= a → a <= of_Z n → ∃ k, ftrunc a = Ok k ∧ (0 <= k <= n)%Z.
Proof.
  intros Hn. rewrite zero_lit, of_Z_exact by lia.
  destruct a as [z| | |]; try done. simpl. rewrite !Z.leb_le. intros H0 H1.
  eexists; split; [done|].
  rewrite Z.shiftr_div_pow2, Z.abs_eq by done.
  replace (2 ^ 1074)%Z with unit_z by reflexivity. pose proof unit_z_pos.
  assert (0 <= z / unit_z <= n)%Z.
  { split; [by apply Z.div_pos|]. apply Z.div_le_upper_bound; [done|]. lia. }
  destruct (Z.eq_dec z 0%Z) as [->|]; [simpl; lia|].
  rewrite Z.sgn_pos by lia. lia.
Qed.

(** *** Well-formedness *)

Lemma fopp_wf (a : float) : wf a → wf (- a).
Proof. destruct a; simpl; try done. intros [? ?]. rewrite Z.abs_opp. auto with py. Qed.
Lemma fadd_wf (a b : float) : wf (a + b).
Proof. destruct a, b; simpl; try done. by apply frnd_wf. Qed.
Lemma fsub_wf (a b : float) : wf (a - b).
Proof. apply fadd_wf. Qed.
Lemma fmul_wf (a b : float) : wf (a * b).
Proof.
  destruct a, b; simpl; try done; try apply frnd_wf, unit_z_pos;
    unfold inf_of_sign; by case_match.
Qed.
Lemma fdiv_wf (a b : float) : wf (a / b).
Proof.
  destruct a, b as [[]| | |]; simpl; try done; try (by apply frnd_wf);
    try (split; [apply representable_0|apply limit_z_pos]).
Qed.
Lemma fround_wf (nd : Z) (a : float) : (0 <= nd)%Z → wf a → wf (fround nd a).
Proof. intros ? Ha. destruct a; try done. apply frnd_wf. by apply Z.pow_pos_nonneg. Qed.
#[export] Hint Resolve fopp_wf fadd_wf fsub_wf fmul_wf fdiv_wf of_Z_wf : py.

(** *** Finite ranges *)

Definition max_float : float := Fin (limit_z - Z.shiftl 1 2045).

Lemma wf_le_max (a : float) : wf a → finite a = true → a <= max_float.
Proof.
  destruct a as [z| | |]; try done. intros [(m & e & He & Hm & Hz) Hl] _.
  simpl. apply Z.leb_le. rewrite Z.shiftl_mul_pow2 by done.
  replace limit_z with (2 ^ 53 * 2 ^ 2045)%Z in * by reflexivity.
  destruct (Z.le_gt_cases e 2045) as [Hle|Hgt].
  - assert (0 < 2 ^ e)%Z by auto with py.
    destruct (Z.eq_dec m (2 ^ 53)%Z) as [->|].
    + assert (e ≠ 2045)%Z by (intros ->; lia).
      assert (2 ^ e <= 2 ^ 2044)%Z by (apply Z.pow_le_mono_r; lia).
      replace (2 ^ 2045)%Z with (2 * 2 ^ 2044)%Z by reflexivity. nia.
    + assert (2 ^ e <= 2 ^ 2045)%Z by (apply Z.pow_le_mono_r; lia).
      assert (m <= 2 ^ 53 - 1)%Z by lia. set (E := (2 ^ e)%Z) in *. set (L := (2 ^ 2045)%Z) in *.
      assert (m * E <= (2 ^ 53 - 1) * E)%Z by (apply Z.mul_le_mono_nonneg_r; lia).
      assert ((2 ^ 53 - 1) * E <= (2 ^ 53 - 1) * L)%Z by (apply Z.mul_le_mono_nonneg_l; lia). lia.
  - destruct (Z.le_gt_cases m 0).
    { assert (0 < 2 ^ e)%Z by auto with py. assert (m * 2 ^ e <= 0)%Z by nia.
      pose proof (pow2_pos 2045 ltac:(done)). lia. }
    replace (2 ^ e)%Z with (2 ^ (e - 2045) * 2 ^ 2045)%Z in Hz
      by (rewrite <- Z.pow_add_r by lia; f_equal; lia).
    pose proof (pow2_pos 2045 ltac:(done)). set (L := (2 ^ 2045)%Z) in *.
    set (E := (2 ^ (e - 2045))%Z) in *. subst z.
    assert (m * E < 2 ^ 53)%Z by (apply Z.mul_lt_mono_pos_r with L; lia).
    assert (m * E <= 2 ^ 53 - 1)%Z by lia.
    rewrite Z.mul_assoc. assert (m * E * L <= (2 ^ 53 - 1) * L)%Z by (apply Z.mul_le_mono_nonneg_r; lia). lia.
Qed.

Lemma finite_between (a lo hi : float) : finite lo = true → finite hi = true →
  lo <= a → a <= hi → finite a = true.
Proof. float_cases; done. Qed.

Lemma finite_le_max (a : float) : 0.0 <= a → a <= max_float → finite a = true.
Proof. by apply finite_between. Qed.

Lemma fmul_mono_nonneg (a b c d : float) : finite b = true → finite d = true → finite c = true →
  0.0 <= a → 0.0 <= d → a <= b → c <= d → a * c <= b * d.
Proof.
  intros Hb Hd Hc Ha Hd0 Hab Hcd.
  assert (Hfa : finite a = true) by (by apply (finite_between a 0.0 b)).
  apply fle_trans with (a * d).
  - rewrite !(fmul_comm a). apply fmul_mono_r; try done; by apply fmul_finite_not_nan.
  - apply fmul_mono_r; try done; by apply fmul_finite_not_nan.
Qed.

Lemma fadd_finite_not_nan (a b : float) : finite a = true → b ≠ NaN → a + b ≠ NaN.
Proof. float_cases; try done. intros _ _. by apply frnd_not_nan. Qed.
Lemma fsub_finite_not_nan (a b : float) : finite a = true → b ≠ NaN → a - b ≠ NaN.
Proof. intros. unfold fsub. apply fadd_finite_not_nan; [done|]. by destruct b. Qed.

(** Comparisons between literals are decided by evaluation. *)
Ltac flit := vm_compute; reflexivity.

(** [closed_float a] succeeds on terms built from literals only. *)
Ltac closed_float a :=
  lazymatch a with
  | of_lit (Lit _ _) => idtac
  | max_float => idtac
  | fadd ?x ?y => closed_float x; closed_float y
  | fsub ?x ?y => closed_float x; closed_float y
  | fmul ?x ?y => closed_float x; closed_float y
  | fdiv ?x ?y => closed_float x; closed_float y
  | fopp ?x => closed_float x
  end.

(** A hypothesis that is literally the goal ([assumption] would also try to
    convert every hypothesis to it, by evaluating floats). *)
Ltac hyp := match goal with H : ?P |- ?Q => constr_eq P Q; exact H end.

(** Side conditions: hypotheses, or closed facts by evaluation.  Plain [done]
    must not be tried on open float goals, which it would try to evaluate. *)
Ltac fd :=
  first
    [ lazymatch goal with
      | |- of_lit _ ≠ NaN => discriminate
      | |- finite (of_lit _) = true => exact eq_refl
      | |- finite ?a = true => closed_float a; flit
      | |- fleb ?a ?b = true => closed_float a; closed_float b; flit
      | |- fltb ?a ?b = true => closed_float a; closed_float b; flit
      | |- fleb ?a ?b = false => closed_float a; closed_float b; flit
      | |- fltb ?a ?b = false => closed_float a; closed_float b; flit
      | |- (_ ≤ _)%Z => lia
      | |- (_ < _)%Z => lia
      end
    | hyp
    | nn ].

(** Positivity from a larger literal. *)
Lemma flt_of_le (a b : float) : 0.0 < a → a <= b → 0.0 < b.
Proof. apply flt_le_trans. Qed.

(** ** Sums and means of bounded lists *)

(** A list of at most [n] values up to [m * 2 ^ e] sums to at most [n * m * 2 ^ e]:
    no rounding can push the sum above a bound that is itself a double. *)
Lemma fsum_upper (l : list float) (m e : Z) : (0 <= e)%Z → (0 <= m)%Z →
  (Z.of_nat (length l) * m <= 2 ^ 53)%Z → (Z.of_nat (length l) * m * 2 ^ e < limit_z)%Z →
  Forall (fun x => 0.0 <= x /\ x <= Fin (m * 2 ^ e)) l →
  0.0 <= fsum l /\ fsum l <= Fin (Z.of_nat (length l) * m * 2 ^ e).
Proof.
  intros He Hm. induction l as [|x l IH] using rev_ind; [intros; by split|].
  rewrite length_app. cbn [length]. intros H1 H2 [Hl Hx]%Forall_app. apply Forall_singleton in Hx as [Hx0 Hx].
  pose proof (pow2_pos e He) as Hp. destruct IH as [IH0 IH]; [nia|nia|done|].
  unfold fsum. rewrite fold_left_app. cbn [fold_left]. fold (fsum l). split; [by apply fadd_nonneg|].
  assert (Hex : Fin (Z.of_nat (length l) * m * 2 ^ e) + Fin (m * 2 ^ e) =
                Fin (Z.of_nat (length l + 1) * m * 2 ^ e)).
  { simpl. rewrite <- (Z.mul_1_r (_ + _)). 
    assert (Hsum : (Z.of_nat (length l) * m * 2 ^ e + m * 2 ^ e =
                    Z.of_nat (length l + 1) * m * 2 ^ e)%Z) by (rewrite Nat2Z.inj_add; ring).
    assert (Hk : (0 <= Z.of_nat (length l + 1) * m)%Z) by (apply Z.mul_nonneg_nonneg; lia).
    rewrite Hsum, frnd_exact; [done|done|]. split.
    - exists (Z.of_nat (length l + 1) * m)%Z, e. split; [done|]. by rewrite (Z.abs_eq _ Hk).
    - rewrite Z.abs_eq; [done|]. apply Z.mul_nonneg_nonneg; lia. }
  rewrite <- Hex. apply fadd_mono; try done.
  - destruct (fsum l), x; try done; simpl; by apply frnd_not_nan.
  - by rewrite Hex.
Qed.

Lemma mean_exact (n c : Z) : (0 < n <= 2 ^ 53)%Z → wf (Fin c) → Fin (n * c) / of_Z n = Fin c.
Proof.
  intros Hn Hc. rewrite of_Z_exact by lia. pose proof unit_z_pos as Hu.
  assert (Hp : (0 < n * unit_z)%Z) by nia. unfold fdiv.
  destruct (n * unit_z)%Z as [|p|p] eqn:E; [lia| |lia].
  transitivity (frnd (c * Zpos p) (Zpos p)); [|by apply frnd_exact].
  assert (H : (n * c * unit_z = c * Zpos p)%Z) by (rewrite <- E; ring). by rewrite H.
Qed.

(** Subtracting something between [0] and [b] from [b]. *)
Lemma fsub_range (a b : float) : wf b → finite b = true → (0.0 <= a) → (a <= b) →
  (0.0 <= b - a) ∧ finite (b - a) = true.
Proof.
  intros Wb Fb Ha Hab. assert (D0 : (0.0 <= b - a)).
  { apply fsub_nonneg; [by intros ->| |exact Hab].
    intros ->. destruct b; try discriminate Fb. vm_compute in Hab. discriminate. }
  split; [exact D0|]. apply (finite_between _ 0.0 b); [reflexivity|exact Fb|exact D0|].
  assert (E0 : (b - 0.0) = b) by (exact (fadd_0_r b Wb)).
  assert (Nb : b ≠ NaN) by (intros ->; discriminate).
  apply (fle_trans _ (b - 0.0)); [|rewrite E0; exact (fle_refl _ Nb)].
  apply fsub_mono; [exact (fle_refl _ Nb)|exact Ha|exact (fle_not_nan_r _ _ D0)|rewrite E0; exact Nb].
Qed.

Lemma fdiv_le (a b : float) : wf a → finite a = true → 0.0 <= a → 1.0 <= b → a / b <= a.
Proof.
  intros Wa Fa Ha Hb. rewrite zero_lit in Ha. destruct a as [x| | |]; try done.
  destruct b as [y| | |]; [|exact Ha|done|done].
  assert (Hy : (unit_z <= y)%Z) by (apply Z.leb_le; exact Hb). apply Z.leb_le in Ha. pose proof unit_z_pos.
  destruct y as [|p|p]; [lia| |lia]. unfold fdiv.
  assert (E : frnd (x * unit_z) unit_z = Fin x) by (apply frnd_exact; [done|exact Wa]). rewrite <- E.
  apply frnd_mono; [done|done|]. nia.
Qed.

Lemma fin_le (x y : Z) : Fin x <= Fin y ↔ (x <= y)%Z.
Proof. unfold fleb. apply Z.leb_le. Qed.
Lemma fin_lt (x y : Z) : Fin x < Fin y ↔ (x < y)%Z.
Proof. unfold fltb. apply Z.ltb_lt. Qed.

Lemma one_lit : of_lit 1.0 = Fin unit_z.
Proof. vm_compute. reflexivity. Qed.

(** A quotient of numbers a double holds exactly does not underflow. *)
Lemma fdiv_pos (a b : float) (k : Z) : (0 <= k <= 900)%Z → 1.0 <= a → 0.0 < b → b <= Fin (2 ^ k * unit_z) → 0.0 < a / b.
Proof.
  intros Hk Ha Hb Hbk. destruct b as [y| | |]; try done. rewrite zero_lit, fin_lt in Hb.
  rewrite fin_le in Hbk. destruct y as [|p|p]; [lia| |lia].
  rewrite one_lit in Ha. destruct a as [x| | |]; try done. rewrite fin_le in Ha.
  assert (E : frnd (unit_z * 2 ^ (1074 - k)) unit_z = Fin (2 ^ (1074 - k))).
  { rewrite Z.mul_comm. apply frnd_exact; [done|]. split.
    - exists 1%Z, (1074 - k)%Z. lia.
    - assert (H1 : (2 ^ (1074 - k) <= 2 ^ 1074)%Z) by (apply Z.pow_le_mono_r; lia).
      assert (H0 : (0 < 2 ^ (1074 - k))%Z) by (apply Z.pow_pos_nonneg; lia).
      rewrite Z.abs_eq by lia. change (2 ^ 1074)%Z with unit_z in H1.
      replace limit_z with (2 ^ 1024 * unit_z)%Z by reflexivity. pose proof unit_z_pos. lia. }
  apply (flt_le_trans _ (Fin (2 ^ (1074 - k)))).
  { rewrite zero_lit, fin_lt. apply Z.pow_pos_nonneg; lia. }
  rewrite <- E. unfold fdiv. apply frnd_mono; [done|done|].
  assert (Hp : (Z.pos p * 2 ^ (1074 - k) <= unit_z * unit_z)%Z).
  { assert (Hu : (2 ^ k * 2 ^ (1074 - k) = unit_z)%Z) by (rewrite <- Z.pow_add_r by lia; by replace (k + (1074 - k))%Z with 1074%Z by lia).
    assert (0 < 2 ^ (1074 - k))%Z by (apply Z.pow_pos_nonneg; lia). pose proof unit_z_pos. nia. }
  pose proof unit_z_pos. nia.
Qed.

(** From here on floats are reasoned about by the lemmas above; evaluation goes
    through [vm_compute]. *)
#[global] Opaque frnd fadd fsub fmul fdiv fleb fltb feqb fround of_Z pymax pymin.
