(* ===== verification/PyOrder.v ===== *)
(** * Python's [min], [max], [sorted] and tuple comparison

    [min_by], [max_by] and [sort_by] use only the "less than" of the keys, as
    CPython does, and break ties the way CPython does (first minimum, first
    maximum, stable sort).  Their laws hold on the keys where "less than" is a
    strict weak order: all ints and strings, and floats other than NaN. *)

From S2P Require Import Prelude PyFloat.

(** ** Strict weak orders on a domain *)

Class StrictWeakOn {K : Type} (P : K → Prop) (lt : K → K → bool) : Prop := {
  swo_irrefl x : P x → lt x x = false;
  swo_trans x y z : P x → P y → P z → lt x y = true → lt y z = true → lt x z = true;
  swo_neg_trans x y z : P x → P y → P z → lt x y = false → lt y z = false → lt x z = false
}.

(** [eqb] decides equality on the domain, and the order is total up to it. *)
Class TotalOn {K : Type} (P : K → Prop) (eqb lt : K → K → bool) : Prop := {
  to_eqb x y : P x → P y → eqb x y = true ↔ x = y;
  to_total x y : P x → P y → lt x y = false → lt y x = false → x = y
}.

Section order_facts.
Context {K : Type} {P : K → Prop} {lt : K → K → bool} `{!StrictWeakOn P lt}.

Lemma swo_asym x y : P x → P y → lt x y = true → lt y x = false.
Proof.
  intros Hx Hy Hl. destruct (lt y x) eqn:E; [|done].
  rewrite <- (swo_irrefl x Hx). symmetry. by apply (swo_trans x y x).
Qed.

Lemma swo_lt_le_trans x y z : P x → P y → P z →
  lt x y = true → lt z y = false → lt x z = true.
Proof.
  intros Hx Hy Hz Hxy Hzy. destruct (lt x z) eqn:E; [done|].
  rewrite <- Hxy. symmetry. by apply (swo_neg_trans x z y).
Qed.

Lemma swo_le_lt_trans x y z : P x → P y → P z →
  lt y x = false → lt y z = true → lt x z = true.
Proof.
  intros Hx Hy Hz Hyx Hyz. destruct (lt x z) eqn:E; [done|].
  rewrite <- Hyz. symmetry. by apply (swo_neg_trans y x z).
Qed.
End order_facts.

#[export] Instance Z_swo : StrictWeakOn (fun _ => True) Z.ltb.
Proof. split; intros; lia. Qed.
#[export] Instance Z_total : TotalOn (fun _ => True) Z.eqb Z.ltb.
Proof. split; intros; lia. Qed.

#[export] Instance float_swo : StrictWeakOn (fun a => a ≠ NaN) fltb.
Proof.
  split.
  - intros; apply flt_irrefl.
  - intros ??? _ _ _ H1 H2. apply (flt_le_trans _ _ _ H1). by apply flt_le.
  - intros x y z Hx Hy Hz. rewrite !flt_nle by done. intros. by eapply fle_trans.
Qed.
#[export] Instance float_total : TotalOn (fun a => a ≠ NaN) feqb fltb.
Proof.
  split; intros x y Hx Hy; [by apply feq_eq|].
  rewrite !flt_nle by done. intros. by apply fle_antisym.
Qed.

(** Strings compare by code point, that is bytewise in UTF-8. *)
Fixpoint str_ltb (a b : string) : bool :=
  match a, b with
  | _, EmptyString => false
  | EmptyString, String _ _ => true
  | String x a', String y b' =>
      if Ascii.eqb x y then str_ltb a' b'
      else N.ltb (Ascii.N_of_ascii x) (Ascii.N_of_ascii y)
  end.

Lemma N_of_ascii_inj (x y : Ascii.ascii) : Ascii.N_of_ascii x = Ascii.N_of_ascii y → x = y.
Proof. intros H. by rewrite <- (Ascii.ascii_N_embedding x), H, Ascii.ascii_N_embedding. Qed.

Ltac str_step :=
  repeat match goal with
  | |- context [Ascii.eqb ?x ?y] => destruct (Ascii.eqb_spec x y); subst
  | H : context [Ascii.eqb ?x ?y] |- _ => destruct (Ascii.eqb_spec x y); subst
  end; try done; rewrite ?N.ltb_lt, ?N.ltb_ge in *.

#[export] Instance str_swo : StrictWeakOn (fun _ => True) str_ltb.
Proof.
  split.
  - intros x _. induction x as [|c x IH]; simpl; [done|]. by rewrite Ascii.eqb_refl.
  - intros x y z _ _ _. revert y z.
    induction x as [|c x IH]; intros [|d y] [|e z]; simpl; try done.
    str_step; eauto; lia.
  - intros x y z _ _ _. revert y z.
    induction x as [|c x IH]; intros [|d y] [|e z]; simpl; try done.
    str_step; eauto; intros; [|lia].
    exfalso. assert (d = e) by (apply N_of_ascii_inj; lia). done.
Qed.

#[export] Instance str_total : TotalOn (fun _ => True) String.eqb str_ltb.
Proof.
  split; intros x y _ _; [apply String.eqb_eq|]. revert y.
  induction x as [|c x IH]; intros [|d y]; simpl; try done.
  rewrite (Ascii.eqb_sym d c). str_step; intros.
  - f_equal; auto.
  - assert (c = d) by (apply N_of_ascii_inj; lia). done.
Qed.

(** ** Tuples: the first unequal components decide *)

Definition lex_ltb {A B : Type} (eqb ltA : A → A → bool) (ltB : B → B → bool)
    (x y : A * B) : bool :=
  if eqb x.1 y.1 then ltB x.2 y.2 else ltA x.1 y.1.

Definition lex_eqb {A B : Type} (eqA : A → A → bool) (eqB : B → B → bool)
    (x y : A * B) : bool := eqA x.1 y.1 && eqB x.2 y.2.

Definition pair_dom {A B : Type} (P : A → Prop) (Q : B → Prop) (x : A * B) : Prop :=
  P x.1 ∧ Q x.2.

Section lex.
Context {A B : Type} {P : A → Prop} {Q : B → Prop}.
Context {eqA ltA : A → A → bool} {eqB ltB : B → B → bool}.
Context `{!StrictWeakOn P ltA, !TotalOn P eqA ltA, !StrictWeakOn Q ltB}.

Lemma lex_cases x y : P x.1 → P y.1 →
  (x.1 = y.1 ∧ lex_ltb eqA ltA ltB x y = ltB x.2 y.2) ∨
  (x.1 ≠ y.1 ∧ lex_ltb eqA ltA ltB x y = ltA x.1 y.1).
Proof.
  intros Hx Hy. unfold lex_ltb. destruct (eqA x.1 y.1) eqn:E.
  - left. split; [by apply to_eqb|done].
  - right. split; [|done]. intros Heq. apply not_true_iff_false in E. apply E.
    by apply to_eqb.
Qed.

#[export] Instance lex_swo : StrictWeakOn (pair_dom P Q) (lex_ltb eqA ltA ltB).
Proof.
  split.
  - intros x [Hx1 Hx2]. destruct (lex_cases x x) as [[_ ->]|[]]; try done. by apply swo_irrefl.
  - intros x y z [Hx1 Hx2] [Hy1 Hy2] [Hz1 Hz2].
    destruct (lex_cases x y) as [[E1 ->]|[E1 ->]]; try done;
    destruct (lex_cases y z) as [[E2 ->]|[E2 ->]]; try done;
    destruct (lex_cases x z) as [[E3 ->]|[E3 ->]]; try done; try congruence.
    + by apply swo_trans.
    + intros H1 H2. rewrite <- E3 in H2. pose proof (swo_asym _ _ Hx1 Hy1 H1). congruence.
    + by apply swo_trans.
  - intros x y z [Hx1 Hx2] [Hy1 Hy2] [Hz1 Hz2].
    destruct (lex_cases x y) as [[E1 ->]|[E1 ->]]; try done;
    destruct (lex_cases y z) as [[E2 ->]|[E2 ->]]; try done;
    destruct (lex_cases x z) as [[E3 ->]|[E3 ->]]; try done; try congruence.
    + by apply swo_neg_trans.
    + intros H1 H2. rewrite <- E3 in H2. exfalso. apply E1. by apply (to_total (eqb := eqA) (lt := ltA)).
    + by apply swo_neg_trans.
Qed.

#[export] Instance lex_total : TotalOn Q eqB ltB →
  TotalOn (pair_dom P Q) (lex_eqb eqA eqB) (lex_ltb eqA ltA ltB).
Proof.
  intros HQ. split; intros [x1 x2] [y1 y2] [Hx1 Hx2] [Hy1 Hy2]; simpl in *.
  - unfold lex_eqb; simpl. rewrite andb_true_iff, !to_eqb by done. naive_solver.
  - destruct (lex_cases (x1, x2) (y1, y2)) as [[E1 ->]|[E1 ->]]; try done;
    destruct (lex_cases (y1, y2) (x1, x2)) as [[E2 ->]|[E2 ->]]; simpl in *; try done; try congruence.
    + intros. f_equal; [done|]. by apply (to_total (eqb := eqB) (lt := ltB)).
    + intros. exfalso. apply E1. by apply (to_total (eqb := eqA) (lt := ltA)).
Qed.
End lex.

(** ** [min(l, key=...)] and [max(l, key=...)] *)

Section select.
Context {A K : Type} (lt : K → K → bool) (key : A → K).

(** One step of CPython's loop: a new item replaces the best one only when
    its key is strictly better. *)
Definition keep_min (best y : A) : A := if lt (key y) (key best) then y else best.
Definition keep_max (best y : A) : A := if lt (key best) (key y) then y else best.

(** [None] is the [ValueError] of an empty iterable. *)
Definition min_by (l : list A) : option A :=
  match l with [] => None | x :: l' => Some (fold_left keep_min l' x) end.
Definition max_by (l : list A) : option A :=
  match l with [] => None | x :: l' => Some (fold_left keep_max l' x) end.

Lemma fold_keep_elem (keep : A → A → A) (Hk : ∀ a b, keep a b = a ∨ keep a b = b)
    (l : list A) (x : A) : fold_left keep l x = x ∨ fold_left keep l x ∈ l.
Proof.
  revert x; induction l as [|y l IH]; intros x; simpl; [by left|].
  destruct (IH (keep x y)) as [E|E].
  - rewrite E. destruct (Hk x y) as [->| ->]; [by left|right; set_solver].
  - right. set_solver.
Qed.

Lemma keep_min_cases a b : keep_min a b = a ∨ keep_min a b = b.
Proof. unfold keep_min. case_match; auto. Qed.
Lemma keep_max_cases a b : keep_max a b = a ∨ keep_max a b = b.
Proof. unfold keep_max. case_match; auto. Qed.

Lemma min_by_elem l x : min_by l = Some x → x ∈ l.
Proof.
  destruct l as [|y l]; [done|]. simpl. intros [= <-].
  destruct (fold_keep_elem keep_min keep_min_cases l y) as [->|]; set_solver.
Qed.
Lemma max_by_elem l x : max_by l = Some x → x ∈ l.
Proof.
  destruct l as [|y l]; [done|]. simpl. intros [= <-].
  destruct (fold_keep_elem keep_max keep_max_cases l y) as [->|]; set_solver.
Qed.

Lemma min_by_is_Some l : l ≠ [] → is_Some (min_by l).
Proof. destruct l; [done|]. by eexists. Qed.
Lemma max_by_is_Some l : l ≠ [] → is_Some (max_by l).
Proof. destruct l; [done|]. by eexists. Qed.

Context {P : K → Prop} `{!StrictWeakOn P lt}.

(** The result is least, and every earlier element is strictly worse. *)
Lemma fold_keep_min_spec (l : list A) (x : A) :
  P (key x) → Forall (fun y => P (key y)) l →
  let m := fold_left keep_min l x in
  lt (key x) (key m) = false ∧ ∀ y, y ∈ l → lt (key y) (key m) = false.
Proof.
  intros Hx Hl. revert x Hx. induction Hl as [|y l Hy Hl IH]; intros x Hx; simpl.
  { split; [by apply swo_irrefl|]. set_solver. }
  assert (Hk : P (key (keep_min x y))) by (by destruct (keep_min_cases x y) as [->| ->]).
  destruct (IH (keep_min x y) Hk) as [H1 H2]; clear IH.
  assert (Hm : P (key (fold_left keep_min l (keep_min x y)))).
  { destruct (fold_keep_elem keep_min keep_min_cases l (keep_min x y)) as [->|Hin]; [done|].
    rewrite Forall_forall in Hl. by apply Hl. }
  set (m := fold_left keep_min l (keep_min x y)) in *.
  assert (Hxk : lt (key x) (key (keep_min x y)) = false ∧ lt (key y) (key (keep_min x y)) = false).
  { unfold keep_min. destruct (lt (key y) (key x)) eqn:E; split; try done;
      try (by apply swo_irrefl). by apply swo_asym. }
  destruct Hxk as [Hxk Hyk]. split.
  - by apply (swo_neg_trans _ _ _ Hx Hk Hm).
  - intros z [->|Hz]%elem_of_cons; [|by apply H2]. by apply (swo_neg_trans _ _ _ Hy Hk Hm).
Qed.

Lemma min_by_least l x y : Forall (fun y => P (key y)) l →
  min_by l = Some x → y ∈ l → lt (key y) (key x) = false.
Proof.
  destruct l as [|z l]; [done|]. rewrite Forall_cons. simpl. intros [Hz Hl] [= <-] Hy.
  destruct (fold_keep_min_spec l z Hz Hl) as [H1 H2].
  apply elem_of_cons in Hy as [->|Hy]; [done|by apply H2].
Qed.
End select.

(** [max] is [min] for the opposite order. *)
Lemma max_by_flip {A K} (lt : K → K → bool) (key : A → K) (l : list A) :
  max_by lt key l = min_by (fun a b => lt b a) key l.
Proof. done. Qed.

Lemma flip_swo {K} (P : K → Prop) (lt : K → K → bool) :
  StrictWeakOn P lt → StrictWeakOn P (fun a b => lt b a).
Proof.
  intros H. split; intros.
  - by apply swo_irrefl.
  - by apply (swo_trans z y x).
  - by apply (swo_neg_trans z y x).
Qed.

Lemma max_by_greatest {A K} (lt : K → K → bool) (key : A → K) {P : K → Prop}
    `{H : !StrictWeakOn P lt} l x y :
  Forall (fun y => P (key y)) l → max_by lt key l = Some x → y ∈ l → lt (key x) (key y) = false.
Proof.
  rewrite max_by_flip. intros. pose proof (flip_swo P lt H).
  by eapply (min_by_least (fun a b => lt b a) key (P := P)).
Qed.

(** ** Stable sorting *)

Section sort.
Context {A K : Type} (lt : K → K → bool) (key : A → K).

(** [x] goes before the first element that is not strictly smaller. *)
Fixpoint insert_by (x : A) (l : list A) : list A :=
  match l with
  | [] => [x]
  | y :: l' => if lt (key y) (key x) then y :: insert_by x l' else x :: y :: l'
  end.

(** [sorted(l, key=key)] *)
Definition sort_by (l : list A) : list A := foldr insert_by [] l.

(** [sorted(l, key=key, reverse=True)]: equal keys keep their order. *)
Definition sort_by_desc (l : list A) : list A := reverse (sort_by (reverse l)).

Lemma insert_by_perm x l : insert_by x l ≡ₚ x :: l.
Proof. induction l as [|y l IH]; simpl; [done|]. case_match; [|done]. rewrite IH. constructor. Qed.

Lemma sort_by_perm l : sort_by l ≡ₚ l.
Proof. induction l as [|x l IH]; simpl; [done|]. by rewrite insert_by_perm, IH. Qed.

Lemma sort_by_desc_perm l : sort_by_desc l ≡ₚ l.
Proof. unfold sort_by_desc. by rewrite reverse_Permutation, sort_by_perm, reverse_Permutation. Qed.

Lemma sort_by_length l : length (sort_by l) = length l.
Proof. by rewrite sort_by_perm. Qed.

Context {P : K → Prop} `{!StrictWeakOn P lt}.

Definition ordered (x y : A) : Prop := lt (key y) (key x) = false.

Lemma insert_by_sorted x l : P (key x) → Forall (fun y => P (key y)) l →
  StronglySorted ordered l → StronglySorted ordered (insert_by x l).
Proof.
  intros Hx Hl. induction 1 as [|y l Hs IH Hy]; simpl.
  { repeat constructor. }
  apply Forall_cons in Hl as [Hpy Hl]. destruct (lt (key y) (key x)) eqn:E.
  - constructor; [by apply IH|]. rewrite insert_by_perm. constructor; [|done].
    unfold ordered. by apply swo_asym.
  - constructor; [by constructor|]. constructor; [done|].
    rewrite Forall_forall in Hy, Hl |- *. intros z Hz.
    unfold ordered in *. apply (swo_neg_trans _ (key y)); auto.
Qed.

Lemma sort_by_sorted l : Forall (fun y => P (key y)) l → StronglySorted ordered (sort_by l).
Proof.
  induction 1 as [|x l Hx Hl IH]; simpl; [constructor|].
  apply insert_by_sorted; try done. by rewrite sort_by_perm.
Qed.
End sort.

(** ** Removing an element *)

(** [l.remove(x)]: the first equal element goes *)
Fixpoint remove_first {A} `{EqDecision A} (x : A) (l : list A) : list A :=
  match l with
  | [] => []
  | y :: l' => if decide (x = y) then l' else y :: remove_first x l'
  end.

Lemma remove_first_perm {A} `{EqDecision A} (x : A) l : x ∈ l → l ≡ₚ x :: remove_first x l.
Proof.
  induction l as [|y l IH]; simpl; [set_solver|]. case_decide as E; [by subst|].
  intros [?|Hx]%elem_of_cons; [done|]. by rewrite (IH Hx) at 1; constructor.
Qed.

Lemma remove_first_sublist {A} `{EqDecision A} (x : A) l : remove_first x l `sublist_of` l.
Proof.
  induction l as [|y l IH]; simpl; [done|]. case_decide; [by apply sublist_cons|by apply sublist_skip].
Qed.

(** ** Priority queues

    [heapq] keeps a heap whose pop returns a least element: the model is a bag
    with minimum extraction. *)

Definition heappop {K} `{EqDecision K} (lt : K → K → bool) (q : list K) : option (K * list K) :=
  match min_by lt id q with
  | Some x => Some (x, remove_first x q)
  | None => None
  end.

Lemma heappop_spec {K} `{EqDecision K} (P : K → Prop) (lt : K → K → bool) `{!StrictWeakOn P lt} q x rest :
  Forall P q → heappop lt q = Some (x, rest) →
  q ≡ₚ x :: rest ∧ ∀ y, y ∈ q → lt y x = false.
Proof.
  unfold heappop. destruct (min_by lt id q) as [z|] eqn:E; [|done]. intros HP [= -> <-]. split.
  - apply remove_first_perm. by eapply min_by_elem.
  - intros y Hy. by apply (min_by_least lt id (P := P) q x y).
Qed.

Lemma heappop_None {K} `{EqDecision K} (lt : K → K → bool) q : heappop lt q = None → q = [].
Proof. unfold heappop. by destruct q. Qed.
