(* ===== verification/PyDict.v ===== *)
(** * Python dicts

    A dict keeps its keys in insertion order, and iterating over it follows
    that order; updating a present key keeps its position, deleting and
    inserting again moves it to the end.  Where the code's result depends on
    iteration order (sums of floats, candidate order, first minimum) the model
    uses this association list; elsewhere it uses [gmap]. *)

From S2P Require Import Prelude.

Notation dict K V := (list (K * V)).

Section dict.
Context {K V : Type} `{EqDecision K}.
Implicit Types (d : dict K V) (k : K) (v : V).

(** [d.get(k)] *)
Fixpoint dget (d : dict K V) (k : K) : option V :=
  match d with
  | [] => None
  | (k', v) :: d' => if decide (k = k') then Some v else dget d' k
  end.

(** [d.get(k, dflt)] *)
Definition dget_or (dflt : V) d k : V := default dflt (dget d k).

(** [d[k] = v] *)
Fixpoint dset (d : dict K V) (k : K) (v : V) : dict K V :=
  match d with
  | [] => [(k, v)]
  | (k', v') :: d' => if decide (k = k') then (k, v) :: d' else (k', v') :: dset d' k v
  end.

(** [del d[k]] of a present key. *)
Fixpoint ddel (d : dict K V) (k : K) : dict K V :=
  match d with
  | [] => []
  | (k', v) :: d' => if decide (k = k') then d' else (k', v) :: ddel d' k
  end.

(** Reading [d[k]] of a [defaultdict] inserts the default of an absent key. *)
Definition dtouch (dflt : V) d k : dict K V :=
  match dget d k with Some _ => d | None => dset d k dflt end.

Definition dkeys d : list K := map fst d.
Definition dvalues d : list V := map snd d.

(** Dicts have distinct keys. *)
Definition dict_wf d : Prop := NoDup (dkeys d).

Lemma dget_set_eq d k v : dget (dset d k v) k = Some v.
Proof.
  induction d as [|[k' v'] d IH]; simpl; [by rewrite decide_True|].
  destruct (decide (k = k')); simpl; [by rewrite decide_True|by rewrite decide_False].
Qed.

Lemma dget_set_ne d k k' v : k ≠ k' → dget (dset d k v) k' = dget d k'.
Proof.
  intros Hne. induction d as [|[k1 v1] d IH]; simpl; [by rewrite decide_False|].
  destruct (decide (k = k1)) as [<-|]; simpl; [by rewrite !decide_False|].
  by rewrite IH.
Qed.

Lemma dget_elem d k v : dget d k = Some v → (k, v) ∈ d.
Proof.
  induction d as [|[k1 v1] d IH]; simpl; [done|].
  case_decide; [intros [= ->]; subst|intros Hd; specialize (IH Hd)]; set_solver.
Qed.

Lemma dget_None d k : dget d k = None ↔ k ∉ dkeys d.
Proof.
  induction d as [|[k1 v1] d IH]; simpl; [set_solver|].
  case_decide; subst; set_solver.
Qed.

Lemma elem_dget d k v : dict_wf d → (k, v) ∈ d → dget d k = Some v.
Proof.
  unfold dict_wf. induction d as [|[k1 v1] d IH]; simpl; [set_solver|].
  rewrite NoDup_cons. intros [Hn Hd] [[= -> ->]|Hin]%elem_of_cons; [by rewrite decide_True|].
  rewrite decide_False; [by apply IH|]. intros ->. apply Hn. by apply (list_elem_of_fmap_2 fst) in Hin.
Qed.

Lemma dkeys_set d k v : dkeys (dset d k v) = if decide (k ∈ dkeys d) then dkeys d else dkeys d ++ [k].
Proof.
  induction d as [|[k1 v1] d IH]; [done|]. simpl.
  destruct (decide (k = k1)) as [<-|Hne]; simpl.
  - rewrite decide_True by set_solver. done.
  - rewrite IH. repeat case_decide; try done; set_solver.
Qed.

Lemma dict_wf_nil : dict_wf [].
Proof. constructor. Qed.

Lemma dict_wf_set d k v : dict_wf d → dict_wf (dset d k v).
Proof.
  unfold dict_wf. rewrite dkeys_set. case_decide; [done|].
  intros. apply NoDup_app. split; [done|]. split; [set_solver|apply NoDup_singleton].
Qed.

Lemma dkeys_set_present d k v : k ∈ dkeys d → dkeys (dset d k v) = dkeys d.
Proof. intros. rewrite dkeys_set. by rewrite decide_True. Qed.

Lemma ddel_sublist d k : ddel d k `sublist_of` d.
Proof.
  induction d as [|[k1 v1] d IH]; simpl; [done|].
  case_decide; [by apply sublist_cons|by apply sublist_skip].
Qed.

Lemma dict_wf_sublist d d' : d' `sublist_of` d → dict_wf d → dict_wf d'.
Proof. intros Hs Hd. apply (sublist_NoDup _ _ Hd). by apply (fmap_sublist fst). Qed.

Lemma dict_wf_del d k : dict_wf d → dict_wf (ddel d k).
Proof. apply dict_wf_sublist, ddel_sublist. Qed.

Lemma dget_del_eq d k : dict_wf d → dget (ddel d k) k = None.
Proof.
  unfold dict_wf. rewrite dget_None. induction d as [|[k1 v1] d IH]; simpl; [set_solver|].
  rewrite NoDup_cons. intros [Hn Hd]. case_decide; subst; simpl; set_solver.
Qed.

Lemma dget_del_ne d k k' : k ≠ k' → dget (ddel d k) k' = dget d k'.
Proof.
  intros Hne. induction d as [|[k1 v1] d IH]; simpl; [done|].
  case_decide; subst; simpl; [by rewrite decide_False|by rewrite IH].
Qed.

Lemma dset_elem d k v k' v' :
  (k', v') ∈ dset d k v → (k', v') = (k, v) ∨ (k', v') ∈ d.
Proof. induction d as [|[k1 v1] d IH]; simpl; [set_solver|]. case_decide; set_solver. Qed.

Lemma dtouch_get d dflt k : dget (dtouch dflt d k) k = Some (dget_or dflt d k).
Proof.
  unfold dtouch, dget_or. destruct (dget d k) eqn:E; [done|]. simpl. by rewrite dget_set_eq.
Qed.

Lemma dget_or_touch d dflt k k' : dget_or dflt (dtouch dflt d k) k' = dget_or dflt d k'.
Proof.
  unfold dtouch, dget_or. destruct (dget d k) eqn:E; [done|].
  destruct (decide (k = k')) as [<-|]; [by rewrite dget_set_eq, E|by rewrite dget_set_ne].
Qed.

Lemma dict_wf_touch d dflt k : dict_wf d → dict_wf (dtouch dflt d k).
Proof. unfold dtouch. case_match; [done|apply dict_wf_set]. Qed.
End dict.

#[export] Hint Resolve dict_wf_nil dict_wf_set dict_wf_del dict_wf_touch : py.
