(* ===== verification/PyStr.v ===== *)
(** * Python strings: the formatting the code uses

    A [str] is its UTF-8 byte string. *)

From S2P Require Import Prelude.
From stdpp Require Export pretty.

Local Open Scope Z_scope.

(** [f"{n}"] of an int. *)
Definition str_of_Z (n : Z) : string := pretty n.

(** [s] left-padded with [c] to at least [w] characters. *)
Definition pad_left (c : Ascii.ascii) (w : nat) (s : string) : string :=
  Nat.iter (w - String.length s) (String c) s.

(** [f"{n:06d}"] of a non-negative int is [fmt0 6 n]. *)
Definition fmt0 (w : nat) (n : Z) : string := pad_left (Ascii.ascii_of_N 48) w (str_of_Z n).

(** Bytes of a string as ints in [[0, 255]]. *)
Definition bytes_of (s : string) : list Z :=
  map (fun c => Z.of_N (Ascii.N_of_ascii c)) (String.list_ascii_of_string s).

Definition hex_digit (n : Z) : Ascii.ascii :=
  Ascii.ascii_of_N (Z.to_N (if n <? 10 then 48 + n else 87 + n)).

(** [b.hex()] *)
Fixpoint hex_of (l : list Z) : string :=
  match l with
  | [] => EmptyString
  | b :: l' => String (hex_digit (b / 16)) (String (hex_digit (b mod 16)) (hex_of l'))
  end.

Lemma str_of_Z_inj (m n : Z) : str_of_Z m = str_of_Z n → m = n.
Proof. apply (inj pretty). Qed.

Lemma length_pad_left (c : Ascii.ascii) (w : nat) (s : string) :
  String.length (pad_left c w s) = Nat.max w (String.length s).
Proof.
  unfold pad_left.
  assert (∀ k, String.length (Nat.iter k (String c) s) = (k + String.length s)%nat) as ->.
  { induction k as [|k IH]; simpl; [done|]. by rewrite IH. }
  lia.
Qed.
