(* ===== verification/PyJson.v ===== *)
(** * JSON values and the conversions [str], [int], [float]

    Payloads read from files and from Redis are JSON values.  The code converts
    their fields with the built-in constructors, whose behaviour on every kind
    of value, exceptions included, is modelled here, together with the textual
    forms of ints and floats. *)

From S2P Require Import Prelude PyFloat PyDict PyStr.

Local Open Scope Z_scope.

Inductive json : Type :=
  | JNull
  | JBool (b : bool)
  | JInt (n : Z)
  | JFloat (f : float)
  | JStr (s : string)
  | JList (l : list json)
  | JObj (d : list (string * json)).

(** ** Characters *)

Definition code (c : Ascii.ascii) : Z := Z.of_N (Ascii.N_of_ascii c).
Definition chr (n : Z) : Ascii.ascii := Ascii.ascii_of_N (Z.to_N n).

(** [str.isspace] on ASCII. *)
Definition is_space (c : Ascii.ascii) : bool :=
  let n := code c in (n =? 32) || ((9 <=? n) && (n <=? 13)) || ((28 <=? n) && (n <=? 31)).

Definition is_digit (c : Ascii.ascii) : bool := (48 <=? code c) && (code c <=? 57).

Definition to_lower (c : Ascii.ascii) : Ascii.ascii :=
  if (65 <=? code c) && (code c <=? 90) then chr (code c + 32) else c.

Definition chars (s : string) : list Ascii.ascii := String.list_ascii_of_string s.
Definition unchars (l : list Ascii.ascii) : string := String.string_of_list_ascii l.

Fixpoint drop_spaces (l : list Ascii.ascii) : list Ascii.ascii :=
  match l with
  | c :: l' => if is_space c then drop_spaces l' else l
  | [] => []
  end.

(** [s.strip()] and [s.lower()] *)
Definition strip_chars (l : list Ascii.ascii) : list Ascii.ascii :=
  reverse (drop_spaces (reverse (drop_spaces l))).
Definition str_strip (s : string) : string := unchars (strip_chars (chars s)).
Definition str_lower (s : string) : string := unchars (map to_lower (chars s)).

(** [s.split()]: the words; [current] is the one being read. *)
Fixpoint split_words (current l : list Ascii.ascii) : list (list Ascii.ascii) :=
  match l with
  | [] => match current with [] => [] | _ :: _ => [current] end
  | c :: l' =>
      if is_space c then
        match current with [] => split_words [] l' | _ :: _ => current :: split_words [] l' end
      else split_words (current ++ [c]) l'
  end.

(** ** Numbers from text *)

(** A run of digits, single underscores allowed between digits: value, number
    of digits, rest.  [after] says that the previous character was a digit. *)
Fixpoint scan_digits (after : bool) (v : Z) (n : nat) (l : list Ascii.ascii) :
    Z * nat * list Ascii.ascii :=
  match l with
  | c :: l' =>
      if is_digit c then scan_digits true (10 * v + (code c - 48)) (S n) l'
      else match l' with
           | c' :: _ =>
               if (code c =? 95) && after && is_digit c'
               then scan_digits false v n l' else (v, n, l)
           | [] => (v, n, l)
           end
  | [] => (v, n, [])
  end.

(** An optional sign. *)
Definition scan_sign (l : list Ascii.ascii) : Z * list Ascii.ascii :=
  match l with
  | c :: l' => if code c =? 45 then (-1, l') else if code c =? 43 then (1, l') else (1, l)
  | [] => (1, [])
  end.

(** [int(s)] *)
Definition int_of_str (s : string) : result Z :=
  let '(sg, l) := scan_sign (strip_chars (chars s)) in
  match scan_digits false 0 0 l with
  | (v, S _, []) => Ok (sg * v)
  | _ => Err ValueError
  end.

(** The double nearest to [m * 10^e]. *)
Definition float_of_decimal (m e : Z) : float :=
  if 0 <=? e then frnd (m * 10 ^ e * unit_z) 1 else frnd (m * unit_z) (10 ^ (- e)).

Definition scan_exponent (l : list Ascii.ascii) : option Z :=
  match l with
  | [] => Some 0
  | c :: l' =>
      if (code (to_lower c) =? 101) then
        let '(sg, l1) := scan_sign l' in
        match scan_digits false 0 0 l1 with
        | (v, S _, []) => Some (sg * v)
        | _ => None
        end
      else None
  end.

(** [float(s)] *)
Definition float_of_str (s : string) : result float :=
  let '(sg, l) := scan_sign (strip_chars (chars s)) in
  let word := unchars (map to_lower l) in
  if String.eqb word "inf" || String.eqb word "infinity"
  then Ok (if 0 <? sg then PInf else NInf)
  else if String.eqb word "nan" then Ok NaN
  else
    let '(m1, n1, l1) := scan_digits false 0 0 l in
    let '(m2, n2, l2) :=
      match l1 with
      | c :: l' => if code c =? 46 then scan_digits false m1 0 l' else (m1, O, l1)
      | [] => (m1, O, [])
      end in
    match scan_exponent l2 with
    | Some e =>
        if (n1 + n2 =? 0)%nat then Err ValueError
        else Ok (float_of_decimal (sg * m2) (e - Z.of_nat n2))
    | None => Err ValueError
    end.

(** ** Text of a float: the shortest digits that read back *)

(** [floor(log10(z / unit_z))] for [0 < z], by counting digits. *)
Definition digits_of (n : Z) : Z := Z.of_nat (String.length (pretty n)).
Definition exp10 (z : Z) : Z :=
  if unit_z <=? z then digits_of (Z.shiftr z 1074) - 1
  else (* leading zeros after the point *)
    let s := digits_of (Z.shiftr (z * 10 ^ 330) 1074) in s - 331.

(** [k] significant digits of [z], correctly rounded: mantissa and exponent. *)
Definition decimal_of (z k : Z) : Z * Z :=
  let e := exp10 z - (k - 1) in
  (if 0 <=? e then half_even z (10 ^ e) 1074 else half_even (z * 10 ^ (- e)) 1 1074, e).

Fixpoint shortest (fuel : nat) (z k : Z) : Z * Z :=
  let '(m, e) := decimal_of z k in
  match fuel with
  | O => (m, e)
  | S f => if bool_decide (float_of_decimal m e = Fin z) then (m, e) else shortest f z (k + 1)
  end.

Fixpoint trim_zeros (fuel : nat) (m e : Z) : Z * Z :=
  match fuel with
  | O => (m, e)
  | S f => if (m mod 10 =? 0) && (0 <? m) then trim_zeros f (m / 10) (e + 1) else (m, e)
  end.

Definition zeros (n : Z) : string := Nat.iter (Z.to_nat n) (String (chr 48)) EmptyString.

(** [repr] of a positive finite float: 17 significant digits always suffice. *)
Definition repr_pos (z : Z) : string :=
  let '(m, e) := let '(m, e) := shortest 16 z 1 in trim_zeros 20 m e in
  let ds := str_of_Z m in
  let n := Z.of_nat (String.length ds) in
  let point := n + e in
  if (-4 <? point) && (point <=? 16) then
    if point <=? 0 then "0." +:+ zeros (- point) +:+ ds
    else if n <=? point then ds +:+ zeros (point - n) +:+ ".0"
    else String.substring 0 (Z.to_nat point) ds +:+ "." +:+ String.substring (Z.to_nat point) (Z.to_nat (n - point)) ds
  else
    let x := point - 1 in
    let ex := (if x <? 0 then "e-" else "e+") +:+ fmt0 2 (Z.abs x) in
    if n =? 1 then ds +:+ ex
    else String.substring 0 1 ds +:+ "." +:+ String.substring 1 (Z.to_nat (n - 1)) ds +:+ ex.

Definition float_repr (f : float) : string :=
  match f with
  | NaN => "nan" | PInf => "inf" | NInf => "-inf"
  | Fin Z0 => "0.0"
  | Fin (Zpos p) => repr_pos (Zpos p)
  | Fin (Zneg p) => "-" +:+ repr_pos (Zpos p)
  end.

(** ** [repr] and [str] of a JSON value *)

Definition quote_char (s : string) : Z :=
  let has n := existsb (fun c => code c =? n) (chars s) in
  if has 39 && negb (has 34) then 34 else 39.

Definition escape_char (q : Z) (c : Ascii.ascii) : string :=
  let n := code c in
  let bs := String (chr 92) in
  if (n =? 92) || (n =? q) then bs (String c EmptyString)
  else if n =? 10 then bs "n" else if n =? 13 then bs "r" else if n =? 9 then bs "t"
  else if (n <? 32) || (n =? 127) then bs ("x" +:+ hex_of [n])
  else String c EmptyString.

Definition str_repr (s : string) : string :=
  let q := quote_char s in
  String (chr q) (foldr (fun c acc => escape_char q c +:+ acc) (String (chr q) EmptyString) (chars s)).

Fixpoint join (sep : string) (l : list string) : string :=
  match l with
  | [] => ""
  | [x] => x
  | x :: l' => x +:+ sep +:+ join sep l'
  end.

Fixpoint py_repr (j : json) : string :=
  match j with
  | JNull => "None"
  | JBool b => if b then "True" else "False"
  | JInt n => str_of_Z n
  | JFloat f => float_repr f
  | JStr s => str_repr s
  | JList l => "[" +:+ join ", " (map py_repr l) +:+ "]"
  | JObj d => "{" +:+ join ", " (map (fun kv => str_repr kv.1 +:+ ": " +:+ py_repr kv.2) d) +:+ "}"
  end.

Definition py_str (j : json) : string :=
  match j with JStr s => s | _ => py_repr j end.

(** [int(x)] and [float(x)] *)
Definition py_int (j : json) : result Z :=
  match j with
  | JInt n => Ok n
  | JBool b => Ok (Z.b2z b)
  | JFloat f => ftrunc f
  | JStr s => int_of_str s
  | _ => Err TypeError
  end.

(** A float of an int that is out of range raises. *)
Definition float_of_int (n : Z) : result float :=
  if finite (of_Z n) then Ok (of_Z n) else Err OverflowError.

Definition py_float (j : json) : result float :=
  match j with
  | JInt n => float_of_int n
  | JBool b => Ok (of_Z (Z.b2z b))
  | JFloat f => Ok f
  | JStr s => float_of_str s
  | _ => Err TypeError
  end.

(** [bool(x)] *)
Definition truthy (j : json) : bool :=
  match j with
  | JNull => false
  | JBool b => b
  | JInt n => negb (n =? 0)
  | JFloat f => negb (feqb f (Fin 0))
  | JStr s => negb (String.eqb s "")
  | JList l => match l with [] => false | _ => true end
  | JObj d => match d with [] => false | _ => true end
  end.

(** A text or [None]. *)
Definition opt_str_json (o : option string) : json := match o with Some s => JStr s | None => JNull end.

(** [d.get(k, dflt)] of an object. *)
Definition jget (d : dict string json) (k : string) (dflt : json) : json := dget_or dflt d k.
