(* ===== verification/PyNum.v ===== *)
(** * Numbers and lists as the code uses them

    Indexing and slicing, and the facts about floats that several components
    need: divisions guarded by a floor, counts as floats, ratios, sorted lists. *)

From S2P Require Import Prelude PyFloat PyOrder PyDict PyStr PyJson.

Local Open Scope Z_scope.

(** [l[i]]: a negative index counts from the end. *)
Definition py_item {A} (l : list A) (i : Z) : result A :=
  let n := Z.of_nat (length l) in
  let j := if i <? 0 then i + n else i in
  if j <? 0 then Err IndexError else get_or IndexError (l !! Z.to_nat j).

(** [l[:n]] *)
Definition slice {A} (n : Z) (l : list A) : list A :=
  if n <? 0 then take (Z.to_nat (Z.of_nat (length l) + n)) l else take (Z.to_nat n) l.

Definition number (a : float) : Prop := a ≠ NaN.

(** Sorting forgets the order the values came in. *)
Lemma sort_floats_perm l k : Forall number l → l ≡ₚ k → sort_by fltb id l = sort_by fltb id k.
Proof.
  intros Hl Hp. assert (Hk : Forall number k) by (by rewrite <- Hp).
  apply (StronglySorted_unique_strong (ordered fltb id)).
  - intros x y Hx Hy Hxy Hyx. unfold ordered, id in *. rewrite (sort_by_perm fltb id) in Hx, Hy.
    rewrite Forall_forall in Hl, Hk.
    apply fle_antisym; apply flt_nle; first [by apply Hl|by apply Hk|hyp].
  - by apply (sort_by_sorted fltb id (P := number)).
  - by apply (sort_by_sorted fltb id (P := number)).
  - by rewrite !(sort_by_perm fltb id).
Qed.

Lemma py_item_ok {A} (l : list A) i : 0 <= i < Z.of_nat (length l) →
  ∃ x, py_item l i = Ok x ∧ l !! Z.to_nat i = Some x.
Proof.
  intros Hi. unfold py_item. destruct (Z.ltb_spec i 0); [lia|]. destruct (Z.ltb_spec i 0); [lia|].
  destruct (lookup_lt_is_Some_2 l (Z.to_nat i)) as [x Hx]; [lia|]. exists x. rewrite Hx. by split.
Qed.

Definition unit_range (x : float) : Prop := (0.0 <= x)%float ∧ (x <= 1.0)%float.

Lemma ratio_range (a b : Z) : 0 <= a <= b → 0 < b → ∃ x, int_div a b = Ok x ∧ unit_range x.
Proof.
  intros Hab Hb. destruct b as [|b|b]; try lia. eexists. split; [reflexivity|]. pose proof unit_z_pos as Hu. split.
  - apply frnd_nonneg; [nia|done].
  - assert (E : frnd (Z.pos b * unit_z) (Z.pos b) = Fin unit_z).
    { rewrite Z.mul_comm. apply frnd_exact; [done|]. rewrite <- one_lit. apply of_lit_wf. flit. }
    rewrite one_lit, <- E. apply frnd_mono; [done|done|]. nia.
Qed.

Lemma float_of_int_big (n : Z) : Z.abs n <= 2 ^ 1000 → float_of_int n = Ok (of_Z n).
Proof.
  intros Hn. unfold float_of_int.
  assert (Hf : finite (of_Z n) = true); [|by rewrite Hf].
  apply (finite_between (of_Z n) (of_Z (- 2 ^ 1000)) (of_Z (2 ^ 1000))); [flit|flit| |]; apply of_Z_mono; lia.
Qed.

Lemma big_floor (x : float) : (pymax x 0.000000001 =? 0.0)%float = false.
Proof.
  destruct (pymax x 0.000000001) as [[|z|z]| | |] eqn:E; try reflexivity. exfalso.
  destruct (decide (x = NaN)) as [->|Hx]; [vm_compute in E; discriminate|].
  assert (H : (0.000000001 <= pymax x 0.000000001)%float) by (apply pymax_ge_r; [exact Hx|nn]).
  rewrite E in H. vm_compute in H. discriminate.
Qed.

Lemma py_div_floor (a x : float) : py_div a (pymax x 0.000000001) = Ok (a / pymax x 0.000000001)%float.
Proof. unfold py_div. by rewrite big_floor. Qed.

Lemma py_div_count (a : float) (n : Z) : 0 < n → py_div a (of_Z n) = Ok (a / of_Z n)%float.
Proof.
  intros Hn. unfold py_div. destruct (of_Z n =? 0.0)%float eqn:E; [|done]. exfalso.
  assert (H1 : (1.0 <= of_Z n)%float).
  { rewrite one_lit. replace (Fin unit_z) with (of_Z 1) by flit. apply of_Z_mono. lia. }
  apply feq_eq in E; [|exact (fle_not_nan_r _ _ H1)]. rewrite E in H1. vm_compute in H1. discriminate.
Qed.

Lemma sorted_lookup {A} (P : A → A → Prop) l : StronglySorted P l →
  ∀ i j x y, (i < j)%nat → l !! i = Some x → l !! j = Some y → P x y.
Proof.
  induction 1 as [|z l _ IH Hz]; intros i j x y Hij Hi Hj; [done|]. destruct j as [|j]; [lia|]. simpl in Hj.
  destruct i as [|i]; simpl in Hi; [|by eapply (IH i j); [lia|..]].
  injection Hi as <-. rewrite Forall_forall in Hz. apply Hz. by eapply list_elem_of_lookup_2.
Qed.

Lemma of_Z_ge_1 n : 1 <= n → (1.0 <= of_Z n)%float.
Proof. intros Hn. rewrite one_lit. replace (Fin unit_z) with (of_Z 1) by flit. by apply of_Z_mono. Qed.

Lemma of_Z_fin n : Z.abs n <= 2 ^ 53 → finite (of_Z n) = true.
Proof. intros Hn. by rewrite of_Z_exact. Qed.

(** [x / max(1e-9, y)]: the floor keeps even a NaN out. *)
Lemma py_div_floor_l (a x : float) : py_div a (pymax 0.000000001 x) = Ok (a / pymax 0.000000001 x)%float.
Proof.
  assert (H : (0.000000001 <= pymax 0.000000001 x)%float) by (apply pymax_ge_l; nn).
  unfold py_div. destruct (pymax 0.000000001 x) as [[|z|z]| | |]; try reflexivity. vm_compute in H. discriminate.
Qed.
