(* ===== verification/Binary32.v ===== *)
(** * Binary32 arithmetic

    The device arrays and the tensors hold binary32 numbers: floats that are
    multiples of [2 ^ -149] of at most 24 significant bits.  Every operation rounds
    its exact value to nearest, ties to even; sums, differences and products of
    infinities and NaN are those of the wider format. *)

From S2P Require Import Prelude PyFloat.

Section binary32.
Local Open Scope Z_scope.

Definition drop_bits32 (n d : Z) : Z := Z.max 925 (log2_quot (Z.abs n) d - 23).
Definition round24 (n d : Z) : Z := let k := drop_bits32 n d in Z.shiftl (half_even n d k) k.
Definition pack32 (z : Z) : float :=
  if Z.abs z <? Z.shiftl 1 1202 then Fin z else if 0 <? z then PInf else NInf.
Definition frnd32 (n d : Z) : float := let '(n', d') := strip2 n d in pack32 (round24 n' d').
End binary32.

(** [np.float32(a)] *)
Definition to_f32 (a : float) : float := match a with Fin z => frnd32 z 1 | _ => a end.

Definition fadd32 (a b : float) : float :=
  match a, b with Fin x, Fin y => frnd32 (x + y) 1 | _, _ => fadd a b end.
Definition fsub32 (a b : float) : float := fadd32 a (fopp b).
Definition fmul32 (a b : float) : float :=
  match a, b with Fin x, Fin y => frnd32 (x * y) unit_z | _, _ => fmul a b end.
(** Division by a positive constant. *)
Definition fdiv32 (a b : float) : float :=
  match a, b with Fin x, Fin (Zpos y) => frnd32 (x * unit_z) (Zpos y) | _, _ => fdiv a b end.

Example binary32_tenth : to_f32 (of_lit 0.1%float) = (13421773.0 / 134217728.0)%float.
Proof. vm_compute. reflexivity. Qed.

(** Rounding again changes nothing. *)
Example binary32_twice :
  forallb (fun l => feqb (to_f32 (to_f32 (of_lit l))) (to_f32 (of_lit l))) [0.1%float; 16777217.0%float; 8192.3%float; 0.0000001%float] = true.
Proof. vm_compute. reflexivity. Qed.

Example binary32_range : map to_f32 [Fin (Z.shiftl 1 1202); Fin (Z.opp (Z.shiftl 1 1202)); Fin (Z.shiftl 1 924); Fin (Z.shiftl 3 924); NaN] =
  [PInf; NInf; Fin 0; Fin (Z.shiftl 1 926); NaN].
Proof. vm_compute. reflexivity. Qed.
