(* ===== verification/PyParse.v ===== *)
(** * Numbers written as text read back

    [int] and [float] of the text that [str] makes of an int, and the shape of the
    text [str] makes of a float: the CSV and JSON layers move numbers as text. *)

From S2P Require Import Prelude PyFloat PyStr PyJson.

Local Open Scope Z_scope.

#[local] Abbreviation text := (list Ascii.ascii).

Lemma chars_append a b : chars (a +:+ b) = chars a ++ chars b.
Proof. unfold chars. induction a as [|c a IH]; [done|]. simpl. by rewrite IH. Qed.

(** ** Runs of digits *)

Definition digits (l : text) : Prop := Forall (fun c => is_digit c = true) l.

(** The value of a run of digits read after [v]. *)
Definition digits_value (v : Z) (l : text) : Z := fold_left (fun v c => 10 * v + (code c - 48)) l v.

(** A text that does not continue a run of digits. *)
Definition no_digit (l : text) : Prop :=
  match l with c :: _ => is_digit c = false ∧ code c ≠ 95 | [] => True end.

Lemma scan_digits_run after v n l rest : digits l → no_digit rest →
  scan_digits after v n (l ++ rest) = (digits_value v l, (n + length l)%nat, rest).
Proof.
  revert after v n. induction l as [|c l IH]; intros after v n Hl Hr.
  - simpl. rewrite Nat.add_0_r. destruct rest as [|c rest]; [done|]. destruct Hr as [Hd Hc]. simpl. rewrite Hd.
    destruct rest as [|c' rest]; [done|]. by destruct (Z.eqb_spec (code c) 95).
  - apply Forall_cons in Hl as [Hc Hl]. simpl. rewrite Hc, IH by done. do 2 f_equal. lia.
Qed.

Lemma digit_code c : is_digit c = true → 48 <= code c <= 57.
Proof. unfold is_digit. intros [?%Z.leb_le ?%Z.leb_le]%andb_true_iff. lia. Qed.

Lemma digit_not_space c : is_digit c = true → is_space c = false.
Proof.
  intros Hc%digit_code. unfold is_space. apply not_true_iff_false.
  rewrite !orb_true_iff, !andb_true_iff, !Z.eqb_eq, !Z.leb_le. lia.
Qed.

Lemma strip_solid l : Forall (fun c => is_space c = false) l → strip_chars l = l.
Proof.
  assert (Hd : ∀ k, Forall (fun c => is_space c = false) k → drop_spaces k = k).
  { intros k Hk. destruct Hk as [|c k Hc _]; [done|]. simpl. by rewrite Hc. }
  intros Hl. unfold strip_chars. rewrite (Hd l Hl), (Hd (reverse l)), reverse_involutive; [done|].
  by apply Forall_reverse.
Qed.

Lemma pretty_digit (x : N) : (x < 10)%N → is_digit (pretty_N_char x) = true ∧ code (pretty_N_char x) - 48 = Z.of_N x.
Proof.
  intros Hx. assert (E : x ∈ [0; 1; 2; 3; 4; 5; 6; 7; 8; 9]%N) by (rewrite !elem_of_cons; lia).
  repeat (apply elem_of_cons in E as [->|E]; [by vm_compute|]). by apply elem_of_nil in E.
Qed.

Lemma pretty_go_digits (x : N) s : digits (chars s) →
  digits (chars (pretty_N_go x s)) ∧ digits_value 0 (chars (pretty_N_go x s)) = digits_value (Z.of_N x) (chars s).
Proof.
  revert s. induction (N.lt_wf_0 x) as [x _ IH]. intros s Hs. destruct (decide (x = 0)%N) as [->|Hx].
  - by rewrite pretty_N_go_0.
  - rewrite pretty_N_go_step by lia. assert (Hm : (x mod 10 < 10)%N) by (apply N.mod_lt; lia).
    destruct (pretty_digit _ Hm) as [Hd Hv].
    destruct (IH (x / 10)%N (N.div_lt x 10 ltac:(lia) ltac:(lia)) (String (pretty_N_char (x mod 10)) s)) as [H1 H2].
    { unfold chars. simpl. by constructor. }
    split; [exact H1|]. rewrite H2. unfold chars. simpl. unfold digits_value. simpl. f_equal. rewrite Hv.
    rewrite N2Z.inj_div, N2Z.inj_mod. pose proof (Z.div_mod (Z.of_N x) 10). lia.
Qed.

Lemma go_nonempty (x : N) s : s ≠ "" → pretty_N_go x s ≠ "".
Proof.
  revert s. induction (N.lt_wf_0 x) as [x _ IH]. intros s Hs. destruct (decide (x = 0)%N) as [->|Hx].
  - by rewrite pretty_N_go_0.
  - rewrite pretty_N_go_step by lia. apply IH; [apply N.div_lt; lia|done].
Qed.

(** The decimal text of a natural number. *)
Lemma str_of_nonneg n : 0 <= n →
  digits (chars (str_of_Z n)) ∧ chars (str_of_Z n) ≠ [] ∧ digits_value 0 (chars (str_of_Z n)) = n.
Proof.
  intros Hn. assert (E : str_of_Z n = pretty (Z.to_N n)).
  { unfold str_of_Z. destruct n; [done|done|lia]. }
  rewrite E. unfold pretty, pretty_N. destruct (decide (Z.to_N n = 0)%N) as [H0|H0].
  - assert (n = 0) as -> by (destruct n; [done|discriminate H0|lia]).
    split; [by repeat constructor|]. by split.
  - destruct (pretty_go_digits (Z.to_N n) "") as [H1 H2]; [constructor|].
    split; [exact H1|]. split; [|rewrite H2; by apply Z2N.id].
    rewrite pretty_N_go_step by lia.
    match goal with |- chars ?s ≠ [] => assert (Hs : s ≠ "") by (by apply go_nonempty); by destruct s end.
Qed.

(** ** The text of numbers *)

(** A fraction read after the integer part [m]: the value so far and the number
    of digits. *)
Inductive fraction (m : Z) : text → Z → nat → Prop :=
  | no_fraction : fraction m [] m 0
  | a_fraction l : digits l → fraction m (chr 46 :: l) (digits_value m l) (length l).

Inductive exponent : text → Z → Prop :=
  | no_exponent : exponent [] 0
  | an_exponent (neg : bool) l : digits l → l ≠ [] →
      exponent (chr 101 :: chr (if neg then 45 else 43) :: l) ((if neg then -1 else 1) * digits_value 0 l).

Lemma digits_solid l : digits l → Forall (fun c => is_space c = false) l.
Proof. intros Hl. eapply Forall_impl; [exact Hl|]. intros c. apply digit_not_space. Qed.

Lemma fraction_solid m f m' n : fraction m f m' n → Forall (fun c => is_space c = false) f.
Proof. destruct 1; [done|]. constructor; [done|by apply digits_solid]. Qed.

Lemma exponent_solid e x : exponent e x → Forall (fun c => is_space c = false) e.
Proof. destruct 1 as [|neg l Hl _]; [done|]. constructor; [done|]. constructor; [by destruct neg|by apply digits_solid]. Qed.

Lemma scan_exponent_ok e x : exponent e x → scan_exponent e = Some x.
Proof.
  destruct 1 as [|neg l Hl Hne]; [done|]. unfold scan_exponent.
  replace (code (to_lower (chr 101)) =? 101) with true by done.
  assert (E : scan_sign (chr (if neg then 45 else 43) :: l) = (if neg then -1 else 1, l)) by by destruct neg.
  rewrite E. pose proof (scan_digits_run false 0 0 l [] Hl I) as Hs. rewrite app_nil_r in Hs. rewrite Hs.
  destruct l; done.
Qed.

Lemma scan_fraction m f m' n e x : fraction m f m' n → exponent e x →
  match f ++ e with
  | c :: l' => if code c =? 46 then scan_digits false m 0 l' else (m, O, f ++ e)
  | [] => (m, O, [])
  end = (m', n, e).
Proof.
  intros Hf He. assert (Hn : no_digit e) by by destruct He.
  destruct Hf as [|l Hl]; simpl; [by destruct He|].
  by rewrite (scan_digits_run false m 0 l e Hl Hn).
Qed.

(** A word that starts with a digit is no special value. *)
Lemma digit_word c l : is_digit c = true →
  let word := unchars (map to_lower (c :: l)) in
  String.eqb word "inf" = false ∧ String.eqb word "infinity" = false ∧ String.eqb word "nan" = false.
Proof.
  intros Hc%digit_code. assert (E : to_lower c = c).
  { unfold to_lower. destruct (Z.leb_spec 65 (code c)); [lia|done]. }
  simpl. rewrite E. assert (Hne : ∀ d, code d > 57 → Ascii.eqb c d = false).
  { intros d Hd. apply Ascii.eqb_neq. intros ->. lia. }
  by rewrite !Hne.
Qed.

Lemma scan_sign_digit c l : is_digit c = true → scan_sign (c :: l) = (1, c :: l).
Proof.
  intros Hc%digit_code. unfold scan_sign. destruct (Z.eqb_spec (code c) 45); [lia|]. destruct (Z.eqb_spec (code c) 43); [lia|done].
Qed.

Lemma float_of_number (neg : bool) d f e m n x : digits d → d ≠ [] →
  fraction (digits_value 0 d) f m n → exponent e x →
  float_of_str (unchars ((if neg then [chr 45] else []) ++ d ++ f ++ e)) =
  Ok (float_of_decimal ((if neg then -1 else 1) * m) (x - Z.of_nat n)).
Proof.
  intros Hd Hne Hf He. unfold float_of_str, chars, unchars. rewrite String.list_ascii_of_string_of_list_ascii.
  rewrite strip_solid.
  2:{ repeat apply Forall_app_2; [destruct neg; by repeat constructor|by apply digits_solid|by eapply fraction_solid|by eapply exponent_solid]. }
  destruct d as [|c d]; [done|]. assert (Hc : is_digit c = true) by by apply Forall_cons in Hd as [? _].
  assert (Es : scan_sign ((if neg then [chr 45] else []) ++ (c :: d) ++ f ++ e) = (if neg then -1 else 1, (c :: d) ++ f ++ e)).
  { destruct neg; [done|]. simpl. by apply scan_sign_digit. }
  rewrite Es. destruct (digit_word c (d ++ f ++ e) Hc) as (W1 & W2 & W3). cbv zeta in *. unfold unchars in *.
  rewrite <- app_comm_cons, W1, W2, W3. cbn [orb]. rewrite app_comm_cons.
  assert (Hn : no_digit (f ++ e)) by (destruct Hf; [by destruct He|done]).
  rewrite (scan_digits_run false 0 0 (c :: d) (f ++ e) Hd Hn). cbv beta iota.
  rewrite (scan_fraction _ _ _ _ _ _ Hf He). cbv beta iota. rewrite (scan_exponent_ok _ _ He). done.
Qed.

(** An int that moves as text. *)
Lemma float_of_int_text n : 0 <= n → float_of_str (str_of_Z n) = Ok (of_Z n).
Proof.
  intros Hn. destruct (str_of_nonneg n Hn) as (Hd & Hne & Hv).
  pose proof (float_of_number false _ [] [] _ _ _ Hd Hne (no_fraction _) no_exponent) as E.
  rewrite Hv, !app_nil_r in E. simpl app in E. unfold unchars, chars in E.
  rewrite String.string_of_list_ascii_of_string in E. rewrite E. unfold float_of_decimal. with_strategy transparent [of_Z] unfold of_Z.
  replace (0 <=? 0 - Z.of_nat 0) with true by done. do 2 f_equal. change (10 ^ (0 - Z.of_nat 0)) with 1. lia.
Qed.

Lemma int_of_int_text n : 0 <= n → int_of_str (str_of_Z n) = Ok n.
Proof.
  intros Hn. destruct (str_of_nonneg n Hn) as (Hd & Hne & Hv). unfold int_of_str.
  rewrite strip_solid by by apply digits_solid. destruct (chars (str_of_Z n)) as [|c l] eqn:E; [done|].
  rewrite scan_sign_digit by (by apply Forall_cons in Hd as [? _]).
  pose proof (scan_digits_run false 0 0 (c :: l) [] Hd I) as Hs. rewrite app_nil_r in Hs. rewrite Hs, Hv.
  simpl length. cbv beta iota. f_equal. lia.
Qed.

(** ** The text of a float *)

Lemma chars_substring n k s : chars (String.substring n k s) = take k (drop n (chars s)).
Proof.
  unfold chars. revert n k. induction s as [|c s IH]; intros [|n] [|k]; simpl; try done; rewrite IH; [by rewrite drop_0|done..].
Qed.

Lemma digits_append a b : digits (chars a) → digits (chars b) → digits (chars (a +:+ b)).
Proof. intros Ha Hb. rewrite chars_append. by apply Forall_app_2. Qed.

Lemma digits_zeros n : digits (chars (zeros n)).
Proof. unfold zeros. induction (Z.to_nat n) as [|k IH]; [constructor|]. by constructor. Qed.

Lemma digits_substring n k s : digits (chars s) → digits (chars (String.substring n k s)).
Proof. intros Hs. rewrite chars_substring. by apply Forall_take, Forall_drop. Qed.

Lemma digits_fmt0 w n : 0 <= n → digits (chars (fmt0 w n)) ∧ chars (fmt0 w n) ≠ [].
Proof.
  intros Hn. destruct (str_of_nonneg n Hn) as (Hd & Hne & _). unfold fmt0, pad_left.
  induction (w - String.length (str_of_Z n))%nat as [|k [IH _]]; [done|]. split; [by constructor|done].
Qed.

Lemma half_even_nonneg n d k : 0 <= n → 0 < d → 0 <= k → 0 <= half_even n d k.
Proof.
  intros Hn Hd Hk. pose proof (half_even_spec n d k Hd Hk) as [[H1 _] _]. cbv zeta in H1.
  assert (Hu : 0 < d * 2 ^ k) by (apply Z.mul_pos_pos; [lia|by apply Z.pow_pos_nonneg]). nia.
Qed.

Lemma decimal_nonneg z k : 0 <= z → 0 <= (decimal_of z k).1.
Proof.
  intros Hz. unfold decimal_of. cbn [fst]. case_test.
  - apply half_even_nonneg; [done| |lia]. apply Z.pow_pos_nonneg; [lia|by apply Z.leb_le].
  - apply half_even_nonneg; [|lia|lia]. apply Z.mul_nonneg_nonneg; [done|]. apply Z.pow_nonneg. lia.
Qed.

Lemma shortest_nonneg fuel z k : 0 <= z → 0 <= (shortest fuel z k).1.
Proof.
  intros Hz. revert k. induction fuel as [|fuel IH]; intros k; cbn [shortest];
    pose proof (decimal_nonneg z k Hz) as Hd; destruct (decimal_of z k) as [m e]; [exact Hd|].
  destruct (bool_decide _); [exact Hd|apply IH].
Qed.

Lemma trim_zeros_nonneg fuel m e : 0 <= m → 0 <= (trim_zeros fuel m e).1.
Proof.
  revert m e. induction fuel as [|fuel IH]; intros m e Hm; simpl; [done|].
  destruct ((m mod 10 =? 0) && (0 <? m)); [|done]. apply IH. by apply Z.div_pos.
Qed.

Lemma length_chars s : String.length s = length (chars s).
Proof. unfold chars. induction s; simpl; congruence. Qed.
