(* ===== verification/PyRepr.v ===== *)
(** * The text of a float reads back exactly

    [repr] prints the fewest of 1 to 17 significant digits that read back; 17
    always do, because half a unit of the 17th digit is less than half the
    distance between neighbouring doubles.  So [float(repr(x))] is [x]. *)

From S2P Require Import Prelude PyFloat PyStr PyJson PyParse.

Local Open Scope Z_scope.

(** ** The digits that are printed *)

Lemma digits_value_app v l k : digits_value v (l ++ k) = digits_value (digits_value v l) k.
Proof. apply fold_left_app. Qed.

Lemma digits_value_zeros v n : 0 <= n → digits_value v (chars (zeros n)) = v * 10 ^ n.
Proof.
  intros Hn. unfold zeros. rewrite <- (Z2Nat.id n) at 2 by done. revert v.
  induction (Z.to_nat n) as [|k IH]; intros v; [cbn; lia|].
  rewrite Nat.iter_succ. change (chars (String (chr 48) ?s)) with (chr 48 :: chars s). cbn [digits_value fold_left].
  fold (digits_value (10 * v + (code (chr 48) - 48)) (chars (Nat.iter k (String (chr 48)) ""))). rewrite IH.
  replace (code (chr 48)) with 48 by done. rewrite Nat2Z.inj_succ, Z.pow_succ_r by lia. lia.
Qed.

(** The fraction continues the value of the integer part. *)
Lemma fraction_intro d l : digits l → fraction (digits_value 0 d) (chr 46 :: l) (digits_value 0 (d ++ l)) (length l).
Proof. intros Hl. rewrite digits_value_app. by constructor. Qed.

Lemma exponent_text x : exponent (chars ((if x <? 0 then "e-" else "e+") +:+ fmt0 2 (Z.abs x))) x.
Proof.
  destruct (digits_fmt0 2 (Z.abs x) (Z.abs_nonneg x)) as [Hd Hne]. rewrite chars_append.
  pose proof (an_exponent (x <? 0) _ Hd Hne) as He.
  replace (chars (if x <? 0 then "e-" else "e+")) with [chr 101; chr (if x <? 0 then 45 else 43)] by by destruct (x <? 0).
  assert (Hv : digits_value 0 (chars (fmt0 2 (Z.abs x))) = Z.abs x).
  { unfold fmt0, pad_left. set (k := (2 - _)%nat).
    replace (Nat.iter k (String (Ascii.ascii_of_N 48)) (str_of_Z (Z.abs x))) with (zeros (Z.of_nat k) +:+ str_of_Z (Z.abs x)).
    - rewrite chars_append, digits_value_app, digits_value_zeros, Z.mul_0_l by lia.
      by destruct (str_of_nonneg (Z.abs x)) as (_ & _ & ->); [lia|].
    - unfold zeros. rewrite Nat2Z.id. clearbody k. induction k as [|k IH]; [reflexivity|]. exact (f_equal (String (chr 48)) IH). }
  rewrite Hv in He. replace x with ((if x <? 0 then -1 else 1) * Z.abs x) at 3 by (destruct (Z.ltb_spec x 0); lia).
  exact He.
Qed.

Lemma reads_number s (neg : bool) d f e m n x : chars s = d ++ f ++ e → digits d → d ≠ [] →
  fraction (digits_value 0 d) f m n → exponent e x →
  float_of_str ((if neg then "-" else "") +:+ s) =
    Ok (float_of_decimal ((if neg then -1 else 1) * m) (x - Z.of_nat n)).
Proof.
  intros Hs Hd Hne Hf He. rewrite <- (float_of_number neg d f e m n x Hd Hne Hf He), <- Hs.
  f_equal. unfold unchars, chars. destruct neg; simpl; by rewrite String.string_of_list_ascii_of_string.
Qed.


(** *** The same decimal with another exponent *)

Definition sgn (neg : bool) : Z := if neg then -1 else 1.

Lemma pow10_pos j : 0 <= j → 0 < 10 ^ j.
Proof. intros. by apply Z.pow_pos_nonneg. Qed.
#[local] Hint Resolve pow10_pos : py.

Lemma float_of_decimal_shift m e k : 0 <= k → float_of_decimal (m * 10 ^ k) e = float_of_decimal m (e + k).
Proof.
  intros Hk. unfold float_of_decimal. destruct (Z.leb_spec 0 e), (Z.leb_spec 0 (e + k)); [|lia|..].
  - f_equal. rewrite Z.pow_add_r by lia. ring.
  - pose proof (pow10_pos (- e) ltac:(lia)). rewrite !frnd_eq by lia. f_equal. apply round53_ratio; [lia..|].
    replace k with (e + k + - e) at 1 by lia. rewrite Z.pow_add_r by lia. ring.
  - pose proof (pow10_pos (- e) ltac:(lia)). pose proof (pow10_pos (- (e + k)) ltac:(lia)).
    rewrite !frnd_eq by lia. f_equal. apply round53_ratio; [lia..|].
    replace (- e) with (- (e + k) + k) by lia. rewrite Z.pow_add_r by lia. ring.
Qed.

Lemma frnd_opp n d z : 0 < d → frnd n d = Fin z → frnd (- n) d = Fin (- z).
Proof.
  intros Hd. rewrite !frnd_eq, round53_opp by done. unfold pack. rewrite Z.abs_opp.
  destruct (Z.ltb_spec (Z.abs (round53 n d)) limit_z); [by intros [= ->]|]. by destruct (0 <? _).
Qed.

Lemma float_of_decimal_opp m e z : float_of_decimal m e = Fin z → float_of_decimal (- m) e = Fin (- z).
Proof.
  unfold float_of_decimal. destruct (Z.leb_spec 0 e); intros Hz.
  - replace (- m * 10 ^ e * unit_z) with (- (m * 10 ^ e * unit_z)) by ring. by apply frnd_opp.
  - replace (- m * unit_z) with (- (m * unit_z)) by ring. apply frnd_opp; [auto with py lia|done].
Qed.

(** *** Every layout of the digits [m] reads as [m * 10 ^ e] *)

Lemma length_zeros n : 0 <= n → Z.of_nat (length (chars (zeros n))) = n.
Proof.
  intros Hn. unfold zeros. rewrite <- (Z2Nat.id n) at 2 by done. induction (Z.to_nat n) as [|k IH]; [done|].
  rewrite Nat.iter_succ. change (chars (String (chr 48) ?s)) with (chr 48 :: chars s). simpl length. lia.
Qed.

(** Digits with a point among them, and perhaps an exponent. *)
Lemma reads_cut s (neg : bool) ds k ex x : digits (chars ds) → (0 < k <= length (chars ds))%nat → exponent ex x →
  chars s = chars (String.substring 0 k ds) ++ (chr 46 :: chars (String.substring k (length (chars ds) - k) ds)) ++ ex →
  float_of_str ((if neg then "-" else "") +:+ s) =
    Ok (float_of_decimal (sgn neg * digits_value 0 (chars ds)) (x - Z.of_nat (length (chars ds) - k))).
Proof.
  intros Hd Hk Hex Hs. rewrite !chars_substring, drop_0 in Hs.
  rewrite (take_ge (drop k (chars ds))) in Hs by (rewrite length_drop; lia).
  pose proof (fraction_intro (take k (chars ds)) (drop k (chars ds)) (Forall_drop _ _ _ Hd)) as Hf.
  rewrite take_drop, length_drop in Hf. apply (reads_number s neg _ _ _ _ _ _ Hs); [by apply Forall_take| |exact Hf|exact Hex].
  destruct (chars ds); [simpl in Hk; lia|]. by destruct k; [lia|].
Qed.

(** Digits after the point only. *)
Lemma reads_small s (neg : bool) ds k : digits (chars ds) → 0 <= k → chars s = chr 48 :: chr 46 :: chars (zeros k) ++ chars ds →
  float_of_str ((if neg then "-" else "") +:+ s) =
    Ok (float_of_decimal (sgn neg * digits_value 0 (chars ds)) (- (k + Z.of_nat (length (chars ds))))).
Proof.
  intros Hd Hk Hs. pose proof (fraction_intro [chr 48] (chars (zeros k) ++ chars ds)) as Hf.
  rewrite app_assoc, !digits_value_app, digits_value_zeros, length_app in Hf by done.
  specialize (Hf ltac:(apply Forall_app_2; [apply digits_zeros|done])).
  rewrite <- (app_nil_r (chars (zeros k) ++ chars ds)) in Hs.
  change (chars s = [chr 48] ++ (chr 46 :: chars (zeros k) ++ chars ds) ++ []) in Hs.
  rewrite (reads_number s neg [chr 48] _ _ _ _ _ Hs ltac:(by repeat constructor) ltac:(done) Hf no_exponent).
  f_equal. f_equal. rewrite Nat2Z.inj_add, length_zeros by done. lia.
Qed.

(** Digits before the point only. *)
Lemma reads_large s (neg : bool) ds k : digits (chars ds) → chars ds ≠ [] → 0 <= k →
  chars s = (chars ds ++ chars (zeros k)) ++ [chr 46; chr 48] →
  float_of_str ((if neg then "-" else "") +:+ s) = Ok (float_of_decimal (sgn neg * digits_value 0 (chars ds)) k).
Proof.
  intros Hd Hne Hk Hs. pose proof (fraction_intro (chars ds ++ chars (zeros k)) [chr 48] ltac:(by repeat constructor)) as Hf.
  rewrite <- (app_nil_r [chr 46; chr 48]) in Hs.
  rewrite (reads_number s neg _ _ _ _ _ _ Hs ltac:(apply Forall_app_2; [done|apply digits_zeros])
    ltac:(by destruct (chars ds)) Hf no_exponent).
  f_equal. rewrite !digits_value_app, digits_value_zeros by done.
  change [chr 48] with (chars (zeros 1)) at 1. rewrite digits_value_zeros, <- (Z.mul_assoc _ _ (10 ^ 1)), <- Z.pow_add_r by lia.
  rewrite Z.mul_assoc, float_of_decimal_shift by lia. f_equal. simpl length. lia.
Qed.

Lemma repr_pos_value z (neg : bool) m e : 0 < z →
  (let '(m, e) := shortest 16 z 1 in trim_zeros 20 m e) = (m, e) →
  float_of_str ((if neg then "-" else "") +:+ repr_pos z) = Ok (float_of_decimal (sgn neg * m) e).
Proof.
  intros Hz E. unfold repr_pos. rewrite E. pose proof (shortest_nonneg 16 z 1 ltac:(lia)) as H1.
  destruct (shortest 16 z 1) as [m0 e0]. pose proof (trim_zeros_nonneg 20 m0 e0 H1) as H2.
  rewrite E in H2. cbn [fst] in H2. clear E H1 m0 e0. destruct (str_of_nonneg m H2) as (Hd & Hne & Hv).
  set (ds := str_of_Z m) in *. cbv zeta. rewrite !(length_chars ds). rewrite <- Hv.
  assert (Hlen : (0 < length (chars ds))%nat) by (destruct (chars ds); [done|simpl; lia]).
  set (n := Z.of_nat (length (chars ds))) in *. assert (En : n = Z.of_nat (length (chars ds))) by done. clearbody n. destruct ((-4 <? n + e) && (n + e <=? 16)).
  - destruct (Z.leb_spec (n + e) 0); [|destruct (Z.leb_spec n (n + e))].
    + rewrite (reads_small _ neg ds (- (n + e))); [do 2 f_equal; lia|done|lia|by rewrite !chars_append].
    + rewrite (reads_large _ neg ds (n + e - n)); [do 2 f_equal; lia|done|done|lia|by rewrite !chars_append, <- app_assoc].
    + rewrite (reads_cut _ neg ds (Z.to_nat (n + e)) [] 0); [do 2 f_equal; lia|done|lia|constructor|].
      replace (Z.to_nat (n - (n + e))) with (length (chars ds) - Z.to_nat (n + e))%nat by lia.
      by rewrite !chars_append, app_nil_r.
  - pose proof (exponent_text (n + e - 1)) as Hex. destruct (Z.eqb_spec n 1).
    + rewrite (reads_number _ neg (chars ds) [] _ _ _ _ (chars_append _ _) Hd Hne (no_fraction _) Hex).
      do 2 f_equal. lia.
    + rewrite (reads_cut _ neg ds 1 _ _ Hd ltac:(lia) Hex); [do 2 f_equal; lia|].
      replace (Z.to_nat (n - 1)) with (length (chars ds) - 1)%nat by lia. by rewrite !chars_append.
Qed.

(** ** 17 digits are enough *)

Lemma half_even_near h n d k : 0 < d → 0 <= k → 2 * Z.abs (n - h * (d * 2 ^ k)) < d * 2 ^ k → half_even n d k = h.
Proof.
  intros Hd Hk Hn. pose proof (half_even_spec n d k Hd Hk) as [[H1 H2] _]. cbv zeta in *.
  assert (Hu : 0 < d * 2 ^ k) by (apply Z.mul_pos_pos; auto with py). set (u := d * 2 ^ k) in *.
  set (h' := half_even n d k) in *. clearbody h' u. nia.
Qed.

(** A ratio closer than [z / 2 ^ 54] to a double [z] rounds to it: the spacing
    below a double is at least [z / 2 ^ 53]. *)
Lemma round53_near z n d : 0 < z → representable z → 0 < d → 2 ^ 54 * Z.abs (n - z * d) < z * d → round53 n d = z.
Proof.
  intros Hz Hr Hd Hn. pose proof (round53_exact z 1 eq_refl Hr) as Ez. rewrite Z.mul_1_r, round53_alt in Ez.
  destruct (drop_bits_spec z 1 ltac:(lia) eq_refl) as [A1 A2]. cbv zeta in A1, A2. rewrite Z.mul_1_l in A1, A2.
  destruct (drop_bits_spec n d ltac:(nia) Hd) as [B1 B2]. cbv zeta in B1, B2.
  rewrite round53_alt. pose proof (drop_bits_nonneg z 1) as Hk. pose proof (drop_bits_nonneg n d) as Hk'.
  set (k := drop_bits z 1) in *. set (k' := drop_bits n d) in *. set (h := half_even z 1 k) in *.
  assert (P : 0 < 2 ^ k) by auto with py. assert (P' : 0 < 2 ^ k') by auto with py. rewrite <- Ez in *. clearbody k k' h.
  destruct (Z.lt_trichotomy k' k) as [Hlt|[->|Hgt]].
  - assert (E : ∃ j, 0 <= j ∧ k = k' + 1 + j) by (exists (k - k' - 1); lia). destruct E as (j & Hj & ->).
    rewrite !Z.pow_add_r, Z.pow_1_r in * by lia. assert (Q : 0 < 2 ^ j) by auto with py.
    remember (2 ^ k') as a eqn:Ea. set (b := 2 ^ j) in *. clearbody b. specialize (A2 ltac:(lia)).
    assert (Hh : 2 ^ 52 <= h) by nia.
    assert (Hv : 0 < d * a) by nia. assert (b = 1) as -> by nia. assert (h = 2 ^ 52) as -> by nia.
    rewrite (half_even_near (2 ^ 53)); [ring|done|done|]. rewrite <- Ea. nia.
  - rewrite (half_even_near h); [done|done|done|]. nia.
  - specialize (B2 ltac:(lia)). assert (E : ∃ j, 0 <= j ∧ k' = k + 1 + j) by (exists (k' - k - 1); lia).
    destruct E as (j & Hj & ->). rewrite !Z.pow_add_r, Z.pow_1_r in * by lia. assert (Q : 0 < 2 ^ j) by auto with py.
    set (a := 2 ^ k) in *. set (b := 2 ^ j) in *. clearbody a b. assert (Hv : 0 < d * a) by nia.
    assert (Hh : h <= 2 ^ 53 - 1) by nia. replace (h * a * d) with (h * (d * a)) in Hn by ring.
    replace (d * (a * 2 * b)) with (2 * (d * a) * b) in B2 by ring. set (v := d * a) in *. clearbody v.
    assert (h * v <= (2 ^ 53 - 1) * v) by (apply Z.mul_le_mono_nonneg_r; lia).
    assert (v * 1 <= v * b) by (apply Z.mul_le_mono_nonneg_l; lia). lia.
Qed.

Lemma digits_lower (x : N) s : (0 < x)%N →
  ∃ j, String.length (pretty_N_go x s) = (S j + String.length s)%nat ∧ 10 ^ Z.of_nat j <= Z.of_N x.
Proof.
  revert s. induction (N.lt_wf_0 x) as [x _ IH]. intros s Hx. rewrite pretty_N_go_step by lia.
  destruct (decide (x < 10)%N) as [H|H].
  - rewrite N.div_small, pretty_N_go_0 by done. exists O. split; [done|]. simpl. lia.
  - destruct (IH (x / 10)%N ltac:(apply N.div_lt; lia) (String (pretty_N_char (x mod 10)) s)) as (j & Hj & Hle).
    { apply N.div_str_pos. lia. }
    exists (S j). split; [rewrite Hj; simpl; lia|]. rewrite Nat2Z.inj_succ, Z.pow_succ_r by lia.
    rewrite N2Z.inj_div in Hle. pose proof (Z.div_mod (Z.of_N x) 10). pose proof (Z.mod_pos_bound (Z.of_N x) 10). lia.
Qed.

Lemma digits_of_lower n : 0 < n → 1 <= digits_of n ∧ 10 ^ (digits_of n - 1) <= n.
Proof.
  intros Hn. destruct (digits_lower (Z.to_N n) "") as (j & Hj & Hle); [lia|].
  assert (E : digits_of n = Z.of_nat j + 1).
  { unfold digits_of. replace (pretty n) with (pretty (Z.to_N n)) by by destruct n. unfold pretty, pretty_N.
    destruct (decide (Z.to_N n = 0)%N) as [H0|H0]; [lia|]. rewrite Hj. simpl. lia. }
  rewrite E. split; [lia|]. replace (Z.of_nat j + 1 - 1) with (Z.of_nat j) by lia. rewrite Z2N.id in Hle by lia. exact Hle.
Qed.

(** The decimal exponent is not too large, in any scale. *)
Lemma exp10_le z j : 0 < z → 0 <= j → 0 <= exp10 z + j → 10 ^ (exp10 z + j) * unit_z <= z * 10 ^ j.
Proof.
  intros Hz Hj. pose proof unit_z_pos as Hu. assert (Eu : unit_z = 2 ^ 1074) by reflexivity. unfold exp10.
  destruct (Z.leb_spec unit_z z) as [Hle|Hlt].
  - rewrite Z.shiftr_div_pow2, <- Eu by lia. assert (Hq : 0 < z / unit_z) by (apply Z.div_str_pos; lia).
    destruct (digits_of_lower _ Hq) as [H1 H2]. pose proof (Z.mul_div_le z unit_z Hu). intros _.
    rewrite Z.pow_add_r by lia. pose proof (pow10_pos j Hj). nia.
  - cbv zeta. rewrite Z.shiftr_div_pow2, <- Eu by lia. set (w := z * 10 ^ 330).
    assert (Hw : unit_z <= w).
    { unfold w. assert (unit_z <= 10 ^ 330) by (rewrite Eu; apply Z.leb_le; vm_compute; reflexivity). nia. }
    assert (Hq : 0 < w / unit_z) by (apply Z.div_str_pos; lia).
    destruct (digits_of_lower _ Hq) as [H1 H2]. pose proof (Z.mul_div_le w unit_z Hu) as H3.
    set (s := digits_of (w / unit_z)) in *. intros H4.
    apply Z.mul_le_mono_pos_r with (p := 10 ^ 330); [by apply pow10_pos|].
    replace (10 ^ (s - 331 + j) * unit_z * 10 ^ 330) with (10 ^ (s - 1) * unit_z * 10 ^ j).
    + replace (z * 10 ^ j * 10 ^ 330) with (w * 10 ^ j) by (unfold w; ring).
      apply Z.mul_le_mono_nonneg_r; [apply Z.lt_le_incl, pow10_pos; done|]. nia.
    + rewrite <- !(Z.mul_assoc _ unit_z), !(Z.mul_comm unit_z), !Z.mul_assoc, <- !Z.pow_add_r by lia. do 2 f_equal. lia.
Qed.

(** 17 significant digits of a double read back. *)
Lemma decimal_17 z : 0 < z → wf (Fin z) →
  let '(m, e) := decimal_of z 17 in float_of_decimal m e = Fin z.
Proof.
  intros Hz [Hr Hl]. pose proof unit_z_pos as Hu. assert (Eu : 2 ^ 1074 = unit_z) by reflexivity.
  assert (Hpack : ∀ n d, 0 < d → 2 ^ 54 * Z.abs (n - z * d) < z * d → frnd n d = Fin z).
  { intros n d Hd Hn. rewrite frnd_eq, (round53_near z) by done. unfold pack. by destruct (Z.ltb_spec (Z.abs z) limit_z); [|lia]. }
  unfold decimal_of, float_of_decimal. pose proof (exp10_le z) as Hexp. set (e := exp10 z - (17 - 1)).
  destruct (Z.leb_spec 0 e) as [He|He].
  - pose proof (half_even_spec z (10 ^ e) 1074 ltac:(by apply pow10_pos) ltac:(lia)) as [[H1 H2] _]. cbv zeta in *.
    rewrite Eu in *. specialize (Hexp 0 Hz ltac:(lia) ltac:(lia)). replace (exp10 z + 0) with (e + 16) in Hexp by lia.
    rewrite Z.pow_add_r, Z.pow_0_r, Z.mul_1_r in Hexp by lia. apply Hpack; [done|].
    set (m := half_even z (10 ^ e) 1074) in *. clearbody m.
    replace (m * 10 ^ e * unit_z) with (m * (10 ^ e * unit_z)) by ring.
    replace (2 * m * (10 ^ e * unit_z)) with (2 * (m * (10 ^ e * unit_z))) in * by ring.
    replace (10 ^ e * 10 ^ 16 * unit_z) with (10 ^ 16 * (10 ^ e * unit_z)) in Hexp by ring.
    set (mu := m * (10 ^ e * unit_z)) in *. set (w := 10 ^ e * unit_z) in *. clearbody mu w. lia.
  - pose proof (pow10_pos (- e) ltac:(lia)) as Hp.
    pose proof (half_even_spec (z * 10 ^ (- e)) 1 1074 eq_refl ltac:(lia)) as [[H1 H2] _]. cbv zeta in *.
    rewrite Eu in *. specialize (Hexp (- e) Hz ltac:(lia) ltac:(lia)). replace (exp10 z + - e) with 16 in Hexp by lia.
    apply Hpack; [done|]. set (m := half_even (z * 10 ^ (- e)) 1 1074) in *. clearbody m.
    replace (2 * m * (1 * unit_z)) with (2 * (m * unit_z)) in * by ring.
    set (zd := z * 10 ^ (- e)) in *. set (mu := m * unit_z) in *. clearbody zd mu. lia.
Qed.

Lemma shortest_exact fuel k z : 0 < z → wf (Fin z) → Z.of_nat fuel + k = 17 →
  let '(m, e) := shortest fuel z k in float_of_decimal m e = Fin z.
Proof.
  intros Hz Hw. revert k. induction fuel as [|fuel IH]; intros k Hk; cbn [shortest].
  - assert (k = 17) as -> by lia. pose proof (decimal_17 z Hz Hw) as H. destruct (decimal_of z 17). exact H.
  - specialize (IH (k + 1) ltac:(lia)). destruct (decimal_of z k) as [m e]. case_bool_decide as Hb; [exact Hb|exact IH].
Qed.

Lemma trim_zeros_value fuel m e : let '(m', e') := trim_zeros fuel m e in float_of_decimal m' e' = float_of_decimal m e.
Proof.
  revert m e. induction fuel as [|fuel IH]; intros m e; simpl; [done|].
  destruct (Z.eqb_spec (m mod 10) 0) as [H0|]; [|done]. destruct (0 <? m); [|done]. simpl.
  specialize (IH (m / 10) (e + 1)). destruct (trim_zeros fuel (m / 10) (e + 1)) as [m' e']. rewrite IH.
  rewrite <- (float_of_decimal_shift (m / 10) e 1) by lia. f_equal. pose proof (Z.div_mod m 10). lia.
Qed.

(** *** [float(repr(x)) == x] *)

Lemma repr_pos_exact z (neg : bool) : 0 < z → wf (Fin z) →
  float_of_str ((if neg then "-" else "") +:+ repr_pos z) = Ok (Fin (sgn neg * z)).
Proof.
  intros Hz Hw. pose proof (shortest_exact 16 1 z Hz Hw ltac:(lia)) as H1.
  destruct (shortest 16 z 1) as [m0 e0] eqn:Es. pose proof (trim_zeros_value 20 m0 e0) as H2.
  destruct (trim_zeros 20 m0 e0) as [m e] eqn:Et. rewrite H1 in H2.
  rewrite (repr_pos_value z neg m e Hz) by by rewrite Es. f_equal. destruct neg; unfold sgn.
  - replace (-1 * m) with (- m) by lia. replace (-1 * z) with (- z) by lia. by apply float_of_decimal_opp.
  - by rewrite !Z.mul_1_l.
Qed.

Lemma float_repr_exact f : wf f → float_of_str (float_repr f) = Ok f.
Proof.
  destruct f as [[|z|z]| | |]; intros Hw; [vm_compute; reflexivity| | |vm_compute; reflexivity..].
  - exact (repr_pos_exact (Z.pos z) false eq_refl Hw).
  - apply (repr_pos_exact (Z.pos z) true eq_refl). destruct Hw as [Hr Hl]. split; [|exact Hl].
    exact (representable_opp _ Hr).
Qed.

(** The text of any float is read as a float. *)
Lemma float_repr_reads f : ∃ y, float_of_str (float_repr f) = Ok y.
Proof.
  assert (Hp : ∀ z (neg : bool), 0 < z → ∃ y, float_of_str ((if neg then "-" else "") +:+ repr_pos z) = Ok y).
  { intros z neg Hz. destruct (let '(m, e) := shortest 16 z 1 in trim_zeros 20 m e) as [m e] eqn:E.
    rewrite (repr_pos_value z neg m e Hz E). by eexists. }
  destruct f as [[|z|z]| | |].
  - eexists. vm_compute. reflexivity.
  - exact (Hp (Z.pos z) false eq_refl).
  - exact (Hp (Z.pos z) true eq_refl).
  - eexists. vm_compute. reflexivity.
  - eexists. vm_compute. reflexivity.
  - eexists. vm_compute. reflexivity.
Qed.

(** [repr] tells doubles apart. *)
Lemma float_repr_inj f g : wf f → wf g → float_repr f = float_repr g → f = g.
Proof. intros Hf%float_repr_exact Hg%float_repr_exact E. rewrite E, Hg in Hf. by injection Hf. Qed.

(** ** The shape of the text: a number of JSON *)

Definition int_part (d : list Ascii.ascii) : Prop := d = [chr 48] ∨ (digits d ∧ ∃ c d', d = c :: d' ∧ code c ≠ 48).
Definition frac_part (f : list Ascii.ascii) : Prop := f = [] ∨ ∃ ds, f = chr 46 :: ds ∧ digits ds ∧ ds ≠ [].
Definition exp_part (e : list Ascii.ascii) : Prop :=
  e = [] ∨ ∃ s ds, e = chr 101 :: s :: ds ∧ (code s = 43 ∨ code s = 45) ∧ digits ds ∧ ds ≠ [].

Definition number_shape (l : list Ascii.ascii) : Prop :=
  ∃ d f e, l = d ++ f ++ e ∧ int_part d ∧ frac_part f ∧ exp_part e ∧ f ++ e ≠ [].

Lemma go_lead (x : N) s : (0 < x)%N → ∃ c d, chars (pretty_N_go x s) = c :: d ∧ code c ≠ 48.
Proof.
  revert s. induction (N.lt_wf_0 x) as [x _ IH]. intros s Hx. rewrite pretty_N_go_step by lia.
  destruct (decide (x < 10)%N) as [H|H].
  - rewrite N.div_small, pretty_N_go_0, N.mod_small by done. destruct (pretty_digit x H) as [_ Hc].
    eexists _, (chars s). split; [done|]. lia.
  - apply IH; [apply N.div_lt; lia|]. apply N.div_str_pos. lia.
Qed.

Lemma str_of_pos_lead n : 0 < n → int_part (chars (str_of_Z n)).
Proof.
  intros Hn. right. split; [apply str_of_nonneg; lia|]. unfold str_of_Z.
  replace (pretty n) with (pretty (Z.to_N n)) by by destruct n. unfold pretty, pretty_N.
  destruct (decide (Z.to_N n = 0)%N); [lia|]. apply go_lead. lia.
Qed.

Lemma str_of_nonneg_lead n : 0 <= n → int_part (chars (str_of_Z n)).
Proof. intros Hn. destruct (decide (n = 0)) as [->|]; [by left|]. apply str_of_pos_lead. lia. Qed.

Lemma int_part_app d l : digits l → int_part d → d ≠ [chr 48] → int_part (d ++ l).
Proof.
  intros Hl [?|(Hd & c & d' & -> & Hc)] Hne; [done|]. right. split; [by apply Forall_app_2|]. by eexists _, _.
Qed.

(** The digits printed are those of a positive number. *)
Lemma repr_digits_pos z m e : 0 < z → wf (Fin z) →
  (let '(m, e) := shortest 16 z 1 in trim_zeros 20 m e) = (m, e) → 0 < m.
Proof.
  intros Hz Hw E. pose proof (repr_pos_value z false m e Hz E) as H1.
  pose proof (eq_trans (eq_sym (repr_pos_exact z false Hz Hw)) H1) as H2. clear H1. rename H2 into H1. unfold sgn in H1. rewrite !Z.mul_1_l in H1. injection H1 as H1. symmetry in H1.
  assert (Hm : 0 <= m).
  { pose proof (shortest_nonneg 16 z 1 ltac:(lia)) as H2. destruct (shortest 16 z 1) as [m0 e0].
    pose proof (trim_zeros_nonneg 20 m0 e0 H2) as H3. by rewrite E in H3. }
  destruct (decide (m = 0)) as [->|]; [|lia]. exfalso. unfold float_of_decimal in H1.
  destruct (Z.leb_spec 0 e); rewrite ?Z.mul_0_l, frnd_0 in H1 by (first [done | apply pow10_pos; lia]); injection H1 as H1; lia.
Qed.

Lemma repr_pos_shape z : 0 < z → wf (Fin z) → number_shape (chars (repr_pos z)).
Proof.
  intros Hz Hw. unfold repr_pos. destruct (let '(m, e) := shortest 16 z 1 in trim_zeros 20 m e) as [m e] eqn:E.
  pose proof (repr_digits_pos z m e Hz Hw E) as Hm. destruct (str_of_nonneg m) as (Hd & Hne & _); [lia|].
  destruct (str_of_pos_lead m Hm) as [H0|[_ (c & d' & Ec & Hc)]].
  { exfalso. destruct (str_of_nonneg m) as (_ & _ & Hv); [lia|]. rewrite H0 in Hv. change (digits_value 0 [chr 48]) with 0 in Hv. lia. }
  set (ds := str_of_Z m) in *. cbv zeta. rewrite !(length_chars ds).
  assert (Hlen : (0 < length (chars ds))%nat) by (destruct (chars ds); [done|simpl; lia]).
  remember (Z.of_nat (length (chars ds))) as n eqn:En.
  assert (Hcut : ∀ k, (0 < k < length (chars ds))%nat → int_part (take k (chars ds)) ∧ frac_part (chr 46 :: drop k (chars ds))).
  { intros k Hk. split.
    - right. split; [by apply Forall_take|]. rewrite Ec. destruct k; [lia|]. by eexists _, _.
    - right. eexists. split; [done|]. split; [by apply Forall_drop|]. intros H%(f_equal length).
      rewrite length_drop in H. simpl in H. lia. }
  assert (Hsub : ∀ k j, (length (chars ds) <= k + j)%nat → chars (String.substring k j ds) = drop k (chars ds)).
  { intros k j Hk. rewrite chars_substring. apply take_ge. rewrite length_drop. lia. }
  destruct ((-4 <? n + e) && (n + e <=? 16)).
  - destruct (Z.leb_spec (n + e) 0); [|destruct (Z.leb_spec n (n + e))].
    + exists [chr 48], (chr 46 :: chars (zeros (- (n + e))) ++ chars ds), []. split; [by rewrite !chars_append, app_nil_r|].
      split; [by left|]. split; [|by split; [left|]]. right. eexists. split; [done|].
      split; [apply Forall_app_2; [apply digits_zeros|done]|]. by destruct (chars (zeros _)).
    + exists (chars ds ++ chars (zeros (n + e - n))), [chr 46; chr 48], []. split; [by rewrite !chars_append, <- app_assoc|].
      split; [|split; [right; by eexists [_]; repeat constructor|by split; [left|]]].
      right. split; [apply Forall_app_2; [done|apply digits_zeros]|]. rewrite Ec. by eexists _, _.
    + destruct (Hcut (Z.to_nat (n + e)) ltac:(lia)) as [H1 H2].
      eexists _, _, []. split; [rewrite !chars_append, (Hsub (Z.to_nat (n + e))), chars_substring, drop_0, app_nil_r by lia; done|].
      split; [exact H1|]. split; [exact H2|by split; [left|]].
  - assert (He : exp_part (chars ((if n + e - 1 <? 0 then "e-" else "e+") +:+ fmt0 2 (Z.abs (n + e - 1))))).
    { right. rewrite chars_append. destruct (digits_fmt0 2 (Z.abs (n + e - 1)) ltac:(lia)) as [H1 H2].
      eexists (chr (if n + e - 1 <? 0 then 45 else 43)), _. split; [by destruct (n + e - 1 <? 0)|].
      split; [destruct (n + e - 1 <? 0); [by right|by left]|done]. }
    remember ((if n + e - 1 <? 0 then "e-" else "e+") +:+ fmt0 2 (Z.abs (n + e - 1))) as ex eqn:Eex.
    assert (Hex : chars ex ≠ []) by (subst ex; rewrite chars_append; by destruct (n + e - 1 <? 0)).
    destruct (Z.eqb_spec n 1).
    + exists (chars ds), [], (chars ex). rewrite chars_append. split; [done|].
      split; [right; split; [done|]; by eexists _, _|]. by split; [left|].
    + destruct (Hcut 1%nat ltac:(lia)) as [H1 H2]. exists (take 1 (chars ds)), (chr 46 :: drop 1 (chars ds)), (chars ex).
      split; [rewrite !chars_append, (Hsub 1%nat), chars_substring, drop_0 by lia; cbn [app]; done|].
      split; [exact H1|]. split; [exact H2|]. by split.
Qed.

(** The characters of a number: digits, the point, the signs, [e]. *)
Definition number_char (c : Ascii.ascii) : Prop := 43 <= code c <= 57 ∨ code c = 101.

Lemma number_char_digits l : digits l → Forall number_char l.
Proof. intros Hl. eapply Forall_impl; [exact Hl|]. intros c Hc%digit_code. left. lia. Qed.

Lemma number_shape_chars l : number_shape l → Forall number_char l.
Proof.
  intros (d & f & e & -> & Hd & Hf & He & _). repeat apply Forall_app_2.
  - destruct Hd as [->|[Hd _]]; [|by apply number_char_digits]. constructor; [left; vm_compute; by split|constructor].
  - destruct Hf as [->|(ds & -> & Hd' & _)]; [constructor|]. constructor; [left; vm_compute; by split|by apply number_char_digits].
  - destruct He as [->|(s & ds & -> & Hs & Hd' & _)]; [constructor|]. constructor; [by right|].
    constructor; [left; lia|by apply number_char_digits].
Qed.
