(* ===== verification/PyUtf8.v ===== *)
(** * UTF-8: the characters of a byte string

    A [str] is its UTF-8 byte string; where the code looks at characters beyond
    ASCII (the escapes of JSON), the bytes are read as code points and back. *)

From S2P Require Import Prelude PyFloat PyStr PyJson PyParse.

Local Open Scope Z_scope.

#[local] Abbreviation text := (list Ascii.ascii).

(** The bytes of a code point. *)
Definition utf8 (n : Z) : text :=
  if n <? 128 then [chr n]
  else if n <? 2048 then [chr (192 + n / 64); chr (128 + n mod 64)]
  else if n <? 65536 then [chr (224 + n / 4096); chr (128 + n / 64 mod 64); chr (128 + n mod 64)]
  else [chr (240 + n / 262144); chr (128 + n / 4096 mod 64); chr (128 + n / 64 mod 64); chr (128 + n mod 64)].

(** The code points of a byte string, told apart by the leading byte.  Bytes
    that are not UTF-8 stand for themselves: no [str] has any. *)
Fixpoint code_points (l : text) : list Z :=
  match l with
  | [] => []
  | a :: l1 =>
      if code a <? 192 then code a :: code_points l1
      else match l1 with
           | [] => [code a]
           | b :: l2 =>
               if code a <? 224 then (code a - 192) * 64 + (code b - 128) :: code_points l2
               else match l2 with
                    | [] => [code a; code b]
                    | c :: l3 =>
                        if code a <? 240
                        then (code a - 224) * 4096 + (code b - 128) * 64 + (code c - 128) :: code_points l3
                        else match l3 with
                             | [] => [code a; code b; code c]
                             | d :: l4 =>
                                 (code a - 240) * 262144 + (code b - 128) * 4096 + (code c - 128) * 64
                                   + (code d - 128) :: code_points l4
                             end
                    end
           end
  end.

(** A Unicode scalar value: a code point that is no surrogate. *)
Definition scalar (n : Z) : Prop := 0 <= n < 55296 ∨ 57344 <= n < 1114112.

(** Text: the bytes of scalar values. *)
Definition is_text (l : text) : Prop := ∃ cs, Forall scalar cs ∧ l = flat_map utf8 cs.

Lemma code_chr n : 0 <= n < 256 → code (chr n) = n.
Proof. intros Hn. unfold code, chr. rewrite Ascii.N_ascii_embedding by lia. lia. Qed.

Lemma chr_code c : chr (code c) = c.
Proof. unfold code, chr. rewrite N2Z.id. apply Ascii.ascii_N_embedding. Qed.

Lemma code_range c : 0 <= code c < 256.
Proof. unfold code. pose proof (Ascii.N_ascii_bounded c). lia. Qed.

(** Quotients and remainders by constants are linear. *)
Ltac divmod := Z.div_mod_to_equations; lia.

Lemma code_points_utf8 n l : 0 <= n < 1114112 → code_points (utf8 n ++ l) = n :: code_points l.
Proof.
  intros Hn. unfold utf8. destruct (Z.ltb_spec n 128); [|destruct (Z.ltb_spec n 2048); [|destruct (Z.ltb_spec n 65536)]].
  - cbn [app code_points]. rewrite code_chr by lia. destruct (Z.ltb_spec n 192); [done|lia].
  - cbn [app code_points]. rewrite !code_chr by divmod.
    destruct (Z.ltb_spec (192 + n / 64) 192); [divmod|]. destruct (Z.ltb_spec (192 + n / 64) 224); [|divmod].
    f_equal. divmod.
  - cbn [app code_points]. rewrite !code_chr by divmod.
    destruct (Z.ltb_spec (224 + n / 4096) 192); [divmod|]. destruct (Z.ltb_spec (224 + n / 4096) 224); [divmod|].
    destruct (Z.ltb_spec (224 + n / 4096) 240); [|divmod]. f_equal. divmod.
  - cbn [app code_points]. rewrite !code_chr by divmod.
    destruct (Z.ltb_spec (240 + n / 262144) 192); [divmod|]. destruct (Z.ltb_spec (240 + n / 262144) 224); [divmod|].
    destruct (Z.ltb_spec (240 + n / 262144) 240); [divmod|]. f_equal. divmod.
Qed.

Lemma scalar_range n : scalar n → 0 <= n < 1114112.
Proof. unfold scalar. lia. Qed.

(** Decoding undoes encoding. *)
Lemma code_points_text cs : Forall scalar cs → code_points (flat_map utf8 cs) = cs.
Proof.
  induction 1 as [|n cs Hn _ IH]; [done|]. cbn [flat_map]. rewrite code_points_utf8, IH by by apply scalar_range. done.
Qed.

Lemma text_points l : is_text l → Forall scalar (code_points l) ∧ flat_map utf8 (code_points l) = l.
Proof. intros (cs & Hcs & ->). by rewrite code_points_text. Qed.

(** ASCII bytes are text. *)
Lemma ascii_text l : Forall (fun c => code c < 128) l → is_text l.
Proof.
  intros Hl. exists (map code l). split.
  - apply Forall_map. eapply Forall_impl; [exact Hl|]. intros c Hc. left. pose proof (code_range c). lia.
  - induction Hl as [|c l Hc _ IH]; [done|]. cbn [map flat_map]. rewrite <- IH. unfold utf8.
    destruct (Z.ltb_spec (code c) 128); [|lia]. by rewrite chr_code.
Qed.

Lemma is_text_app a b : is_text a → is_text b → is_text (a ++ b).
Proof.
  intros (cs & Hcs & ->) (ds & Hds & ->). exists (cs ++ ds). split; [by apply Forall_app_2|]. by rewrite flat_map_app.
Qed.
