(* ===== verification/JsonText.v ===== *)
(** * JSON as text: [json.dumps] and [json.loads]

    What the program writes with [json.dumps] (configurations, reports, raw
    datasets, Redis values) and reads with [json.loads] is text.  [dumps] prints
    as the library does, [ensure_ascii] on, with or without [indent] and
    [sort_keys]; [loads] is the library's parser, strict, where an object keeps
    the last value of a repeated key.  The parser recurses on fuel, and twice
    the length of the text is enough ([parse_fuel]).  Reading undoes writing
    ([loads_dumps]).  The recursion limit and the limit on the digits of an int
    are not modelled. *)

From S2P Require Import Prelude PyFloat PyOrder PyDict PyStr PyJson PyParse PyRepr PyUtf8.

Local Open Scope Z_scope.

#[local] Abbreviation text := (list Ascii.ascii).

(** ** Printing *)

(** [\u%04x] *)
Definition hex4 (n : Z) : text :=
  [chr 92; chr 117; hex_digit (n / 4096); hex_digit (n / 256 mod 16); hex_digit (n / 16 mod 16); hex_digit (n mod 16)].

(** A character of a JSON string. *)
Definition escape_point (n : Z) : text :=
  if n =? 34 then [chr 92; chr 34] else if n =? 92 then [chr 92; chr 92]
  else if n =? 10 then [chr 92; chr 110] else if n =? 13 then [chr 92; chr 114] else if n =? 9 then [chr 92; chr 116]
  else if n =? 12 then [chr 92; chr 102] else if n =? 8 then [chr 92; chr 98]
  else if (32 <=? n) && (n <=? 126) then [chr n]
  else if n <? 65536 then hex4 n
  else hex4 (55296 + (n - 65536) / 1024 mod 1024) ++ hex4 (56320 + (n - 65536) mod 1024).

Definition quoted (s : string) : text := chr 34 :: flat_map escape_point (code_points (chars s)) ++ [chr 34].

(** [float.__repr__], except for the three special values. *)
Definition json_float (f : float) : string :=
  match f with NaN => "NaN" | PInf => "Infinity" | NInf => "-Infinity" | _ => float_repr f end.

Fixpoint join_text (sep : text) (l : list text) : text :=
  match l with
  | [] => []
  | [x] => x
  | x :: l' => x ++ sep ++ join_text sep l'
  end.

(** With [indent=k] every element has a line of its own; without, elements are
    separated by a comma and a space. *)
Definition line_break (indent : option nat) (level : nat) : text :=
  match indent with None => [] | Some k => chr 10 :: repeat (chr 32) (k * level) end.
Definition item_separator (indent : option nat) (level : nat) : text :=
  match indent with None => [chr 44; chr 32] | Some _ => chr 44 :: line_break indent level end.

Definition bracketed (indent : option nat) (level : nat) (opening closing : Z) (items : list text) : text :=
  match items with
  | [] => [chr opening; chr closing]
  | _ => chr opening :: line_break indent (S level) ++ join_text (item_separator indent (S level)) items
           ++ line_break indent level ++ [chr closing]
  end.

Fixpoint dumps_go (indent : option nat) (level : nat) (j : json) : text :=
  match j with
  | JNull => chars "null"
  | JBool b => chars (if b then "true" else "false")
  | JInt n => chars (str_of_Z n)
  | JFloat f => chars (json_float f)
  | JStr s => quoted s
  | JList l => bracketed indent level 91 93 (map (dumps_go indent (S level)) l)
  | JObj d =>
      bracketed indent level 123 125
        (map (fun kv => quoted kv.1 ++ [chr 58; chr 32] ++ dumps_go indent (S level) kv.2) d)
  end.

(** [sort_keys=True]: [sorted(d.items())] in every object. *)
Fixpoint sort_keys (j : json) : json :=
  match j with
  | JList l => JList (map sort_keys l)
  | JObj d => JObj (sort_by str_ltb fst (map (fun kv => (kv.1, sort_keys kv.2)) d))
  | _ => j
  end.

(** [json.dumps(j)] and [json.dumps(j, indent=k, sort_keys=True)] *)
Definition dumps (j : json) : string := unchars (dumps_go None 0 j).
Definition dumps_sorted (indent : option nat) (j : json) : string := unchars (dumps_go indent 0 (sort_keys j)).
Definition dumps_indent (k : nat) (j : json) : string := unchars (dumps_go (Some k) 0 j).

(** ** Scanning *)

Definition json_space (c : Ascii.ascii) : bool := let n := code c in (n =? 32) || (n =? 9) || (n =? 10) || (n =? 13).

Fixpoint skip_space (l : text) : text :=
  match l with c :: l' => if json_space c then skip_space l' else l | [] => [] end.

Definition hex_value (c : Ascii.ascii) : option Z :=
  let n := code c in
  if (48 <=? n) && (n <=? 57) then Some (n - 48)
  else if (97 <=? n) && (n <=? 102) then Some (n - 87)
  else if (65 <=? n) && (n <=? 70) then Some (n - 55) else None.

Definition hex4_value (a b c d : Ascii.ascii) : option Z :=
  x ← hex_value a; y ← hex_value b; z ← hex_value c; w ← hex_value d;
  Some (x * 4096 + y * 256 + z * 16 + w).

Definition prepend (p : text) (r : option (text * text)) : option (text * text) :=
  '(s, rest) ← r; Some (p ++ s, rest).

Definition simple_escape (n : Z) : option Z :=
  if n =? 34 then Some 34 else if n =? 92 then Some 92 else if n =? 47 then Some 47
  else if n =? 98 then Some 8 else if n =? 102 then Some 12 else if n =? 110 then Some 10
  else if n =? 114 then Some 13 else if n =? 116 then Some 9 else None.

(** [scanstring], after the opening quote: the string and what follows it. *)
Fixpoint scan_string (l : text) : option (text * text) :=
  match l with
  | [] => None
  | c :: l1 =>
      if code c =? 34 then Some ([], l1)
      else if code c =? 92 then
        match l1 with
        | [] => None
        | e :: l2 =>
            if code e =? 117 then
              match l2 with
              | a :: b :: c :: d :: l3 =>
                  u ← hex4_value a b c d;
                  match l3 with
                  | s :: v :: a' :: b' :: c' :: d' :: l4 =>
                      if (55296 <=? u) && (u <=? 56319) && (code s =? 92) && (code v =? 117) then
                        u2 ← hex4_value a' b' c' d';
                        if (56320 <=? u2) && (u2 <=? 57343)
                        then prepend (utf8 (65536 + (u - 55296) * 1024 + (u2 - 56320))) (scan_string l4)
                        else prepend (utf8 u) (scan_string l3)
                      else prepend (utf8 u) (scan_string l3)
                  | _ => prepend (utf8 u) (scan_string l3)
                  end
              | _ => None
              end
            else n ← simple_escape (code e); prepend [chr n] (scan_string l2)
        end
      else if code c <? 32 then None
      else prepend [c] (scan_string l1)
  end.

Fixpoint span_digits (l : text) : text * text :=
  match l with
  | c :: l' => if is_digit c then let '(ds, rest) := span_digits l' in (c :: ds, rest) else ([], l)
  | [] => ([], [])
  end.

(** The optional fraction and exponent: what they take and what follows. *)
Definition scan_frac (l : text) : text * text :=
  match l with
  | c :: l' => if code c =? 46 then match span_digits l' with ([], _) => ([], l) | (ds, rest) => (c :: ds, rest) end
               else ([], l)
  | [] => ([], [])
  end.

Definition scan_exp (l : text) : text * text :=
  match l with
  | c :: l' =>
      if (code c =? 101) || (code c =? 69) then
        let '(sg, l2) := match l' with
                         | s :: l2 => if (code s =? 43) || (code s =? 45) then ([s], l2) else ([], l')
                         | [] => ([], []) end in
        match span_digits l2 with ([], _) => ([], l) | (ds, rest) => (c :: sg ++ ds, rest) end
      else ([], l)
  | [] => ([], [])
  end.

Definition ok_value {A} (r : result A) : option A := match r with Ok a => Some a | Err _ => None end.

(** A number after its sign. *)
Definition scan_number (sg : text) (l : text) : option (json * text) :=
  match l with
  | c :: l' =>
      if is_digit c then
        let '(ds, l2) := if code c =? 48 then ([c], l') else span_digits l in
        let '(fr, l3) := scan_frac l2 in
        let '(ex, l4) := scan_exp l3 in
        match fr ++ ex with
        | [] => n ← ok_value (int_of_str (unchars (sg ++ ds))); Some (JInt n, l4)
        | _ => x ← ok_value (float_of_str (unchars (sg ++ ds ++ fr ++ ex))); Some (JFloat x, l4)
        end
      else None
  | [] => None
  end.

(** [l] after the word [w]. *)
Fixpoint after_word (w l : text) : option text :=
  match w, l with
  | [], _ => Some l
  | c :: w', d :: l' => if Ascii.eqb c d then after_word w' l' else None
  | _ :: _, [] => None
  end.

Definition scan_word (w : string) (j : json) (l : text) : option (json * text) :=
  rest ← after_word (chars w) l; Some (j, rest).

(** Everything that is no string, array or object. *)
Definition scan_atom (l : text) : option (json * text) :=
  match l with
  | [] => None
  | c :: l' =>
      let n := code c in
      if n =? 110 then scan_word "null" JNull l
      else if n =? 116 then scan_word "true" (JBool true) l
      else if n =? 102 then scan_word "false" (JBool false) l
      else if n =? 78 then scan_word "NaN" (JFloat NaN) l
      else if n =? 73 then scan_word "Infinity" (JFloat PInf) l
      else if n =? 45 then
        match scan_number [c] l' with Some r => Some r | None => scan_word "-Infinity" (JFloat NInf) l end
      else scan_number [] l
  end.

(** ** The parser *)

(** The next character after white space, when it is [n]. *)
Definition expect (n : Z) (l : text) : option text :=
  match skip_space l with c :: l' => if code c =? n then Some l' else None | [] => None end.

(** A value; the elements of an array after the first bracket or a comma; the
    members of an object likewise. *)
Fixpoint parse_value (fuel : nat) (l : text) : option (json * text) :=
  match fuel with
  | O => None
  | S fuel =>
      match l with
      | [] => None
      | c :: l' =>
          if code c =? 34 then '(s, rest) ← scan_string l'; Some (JStr (unchars s), rest)
          else if code c =? 91 then
            match expect 93 l' with Some rest => Some (JList [], rest) | None => parse_items fuel [] l' end
          else if code c =? 123 then
            match expect 125 l' with Some rest => Some (JObj [], rest) | None => parse_members fuel [] l' end
          else scan_atom l
      end
  end
with parse_items (fuel : nat) (items : list json) (l : text) : option (json * text) :=
  match fuel with
  | O => None
  | S fuel =>
      '(j, l1) ← parse_value fuel (skip_space l);
      match expect 93 l1, expect 44 l1 with
      | Some rest, _ => Some (JList (items ++ [j]), rest)
      | None, Some rest => parse_items fuel (items ++ [j]) rest
      | None, None => None
      end
  end
with parse_members (fuel : nat) (members : dict string json) (l : text) : option (json * text) :=
  match fuel with
  | O => None
  | S fuel =>
      l1 ← expect 34 l; '(k, l2) ← scan_string l1; l3 ← expect 58 l2;
      '(j, l4) ← parse_value fuel (skip_space l3);
      let members := dset members (unchars k) j in
      match expect 125 l4, expect 44 l4 with
      | Some rest, _ => Some (JObj members, rest)
      | None, Some rest => parse_members fuel members rest
      | None, None => None
      end
  end.

(** [json.loads(s)] *)
Definition loads (s : string) : result json :=
  let l := chars s in
  match parse_value (S (2 * length l)) (skip_space l) with
  | Some (j, rest) => match skip_space rest with [] => Ok j | _ => Err ValueError end
  | None => Err ValueError
  end.

Definition dq : string := String (chr 34) EmptyString.

Example dumps_sample :
  dumps (JObj [("a", JList [JInt 1; JFloat (of_lit 2.5%float); JNull]); ("b", JStr "x")]) =
  "{" +:+ dq +:+ "a" +:+ dq +:+ ": [1, 2.5, null], " +:+ dq +:+ "b" +:+ dq +:+ ": " +:+ dq +:+ "x" +:+ dq +:+ "}".
Proof. vm_compute. reflexivity. Qed.

Example loads_sample :
  loads (" { " +:+ dq +:+ "a" +:+ dq +:+ " : [1,-2e3 , true]," +:+ dq +:+ "a" +:+ dq +:+ ":-Infinity}") =
  Ok (JObj [("a", JFloat NInf)]).
Proof. vm_compute. reflexivity. Qed.

Example loads_bad : map loads ["01"; "[1,]"; "{}x"; "-"; "1.e3"; "nul"] = replicate 6 (Err ValueError).
Proof. vm_compute. reflexivity. Qed.

(** ** Reading undoes writing: strings *)

Lemma hex_value_digit n : 0 <= n < 16 → hex_value (hex_digit n) = Some n.
Proof.
  intros Hn. assert (E : n ∈ [0; 1; 2; 3; 4; 5; 6; 7; 8; 9; 10; 11; 12; 13; 14; 15]) by (rewrite !elem_of_cons; lia).
  repeat (apply elem_of_cons in E as [->|E]; [vm_compute; reflexivity|]). by apply elem_of_nil in E.
Qed.

Lemma hex4_value_digits n : 0 <= n < 65536 →
  hex4_value (hex_digit (n / 4096)) (hex_digit (n / 256 mod 16)) (hex_digit (n / 16 mod 16)) (hex_digit (n mod 16)) = Some n.
Proof.
  intros Hn. unfold hex4_value. rewrite !hex_value_digit by divmod. cbn [mbind option_bind]. f_equal. divmod.
Qed.

Lemma scan_hex4 u l : 0 <= u < 65536 → ¬ (55296 <= u <= 56319) →
  scan_string (hex4 u ++ l) = prepend (utf8 u) (scan_string l).
Proof.
  intros Hu Hs. unfold hex4. cbn [app scan_string].
  replace (code (chr 92) =? 34) with false by done. replace (code (chr 92) =? 92) with true by done.
  replace (code (chr 117) =? 117) with true by done. rewrite hex4_value_digits by done. cbn [mbind option_bind].
  assert (Et : (55296 <=? u) && (u <=? 56319) = false).
  { apply not_true_iff_false. rewrite andb_true_iff, !Z.leb_le. lia. }
  rewrite Et. cbn [andb]. by repeat case_match.
Qed.

Lemma scan_surrogates hi lo l : 0 <= hi < 1024 → 0 <= lo < 1024 →
  scan_string (hex4 (55296 + hi) ++ hex4 (56320 + lo) ++ l) =
    prepend (utf8 (65536 + hi * 1024 + lo)) (scan_string l).
Proof.
  intros Hh Hl. unfold hex4. cbn [app scan_string].
  replace (code (chr 92) =? 34) with false by done. replace (code (chr 92) =? 92) with true by done.
  replace (code (chr 117) =? 117) with true by done. rewrite !hex4_value_digits by lia. cbn [mbind option_bind].
  replace ((55296 <=? 55296 + hi) && (55296 + hi <=? 56319)) with true by (symmetry; apply andb_true_iff; rewrite !Z.leb_le; lia).
  replace ((56320 <=? 56320 + lo) && (56320 + lo <=? 57343)) with true by (symmetry; apply andb_true_iff; rewrite !Z.leb_le; lia).
  cbn [andb]. do 2 f_equal. lia.
Qed.

Lemma scan_plain n l : 32 <= n <= 126 → n ≠ 34 → n ≠ 92 → scan_string (chr n :: l) = prepend [chr n] (scan_string l).
Proof.
  intros Hn H1 H2. cbn [scan_string]. rewrite code_chr by lia.
  destruct (Z.eqb_spec n 34); [lia|]. destruct (Z.eqb_spec n 92); [lia|]. by destruct (Z.ltb_spec n 32); [lia|].
Qed.

(** A character and its escape. *)
Lemma scan_escape n l : scalar n → scan_string (escape_point n ++ l) = prepend (utf8 n) (scan_string l).
Proof.
  intros Hn. pose proof (scalar_range n Hn) as Hr. unfold escape_point.
  destruct (Z.eqb_spec n 34) as [->|H34]; [done|]. destruct (Z.eqb_spec n 92) as [->|H92]; [done|].
  destruct (Z.eqb_spec n 10) as [->|]; [done|]. destruct (Z.eqb_spec n 13) as [->|]; [done|].
  destruct (Z.eqb_spec n 9) as [->|]; [done|]. destruct (Z.eqb_spec n 12) as [->|]; [done|].
  destruct (Z.eqb_spec n 8) as [->|]; [done|].
  destruct (Z.leb_spec 32 n), (Z.leb_spec n 126); cbn [andb].
  2-4: destruct (Z.ltb_spec n 65536); [apply scan_hex4; unfold scalar in Hn; lia|].
  - cbn [app]. rewrite scan_plain by lia. unfold utf8. by destruct (Z.ltb_spec n 128); [|lia].
  - rewrite <- app_assoc, scan_surrogates by divmod. do 2 f_equal. divmod.
  - lia.
  - lia.
Qed.

Lemma scan_escaped cs rest : Forall scalar cs →
  scan_string (flat_map escape_point cs ++ chr 34 :: rest) = Some (flat_map utf8 cs, rest).
Proof.
  induction 1 as [|n cs Hn _ IH]; [done|]. cbn [flat_map]. rewrite <- app_assoc, scan_escape, IH by done. done.
Qed.

Lemma scan_quoted s rest : is_text (chars s) →
  ∃ l, quoted s ++ rest = chr 34 :: l ∧ scan_string l = Some (chars s, rest).
Proof.
  intros Hs%text_points. destruct Hs as [H1 H2]. unfold quoted. rewrite <- app_comm_cons, <- app_assoc.
  eexists. split; [reflexivity|]. cbn [app]. rewrite scan_escaped by done. by rewrite H2.
Qed.

Lemma unchars_chars s : unchars (chars s) = s.
Proof. apply String.string_of_list_ascii_of_string. Qed.
Lemma chars_unchars l : chars (unchars l) = l.
Proof. apply String.list_ascii_of_string_of_list_ascii. Qed.

(** ** Numbers *)

(** What can follow a number without being taken for a part of it. *)
Definition ends_number (l : text) : Prop :=
  match l with
  | [] => True
  | c :: _ => is_digit c = false ∧ code c ≠ 46 ∧ code c ≠ 101 ∧ code c ≠ 69
  end.

Lemma span_digits_run l rest : digits l → match rest with c :: _ => is_digit c = false | [] => True end →
  span_digits (l ++ rest) = (l, rest).
Proof.
  intros Hl Hr. induction Hl as [|c l Hc _ IH].
  - cbn [app]. destruct rest as [|c rest]; [done|]. simpl. by rewrite Hr.
  - simpl. by rewrite Hc, IH.
Qed.

Lemma ends_number_digit l : ends_number l → match l with c :: _ => is_digit c = false | [] => True end.
Proof. destruct l; [done|]. by intros [? _]. Qed.

Lemma scan_exp_part e rest : exp_part e → ends_number rest → scan_exp (e ++ rest) = (e, rest).
Proof.
  intros [->|(s & ds & -> & Hs & Hd & Hne)] Hr.
  - destruct rest as [|c rest]; [done|]. destruct Hr as (_ & _ & H1 & H2). simpl.
    destruct (Z.eqb_spec (code c) 101); [done|]. by destruct (Z.eqb_spec (code c) 69).
  - cbn [app scan_exp]. replace (code (chr 101) =? 101) with true by done. cbn [orb].
    replace ((code s =? 43) || (code s =? 45)) with true by (symmetry; apply orb_true_iff; rewrite !Z.eqb_eq; exact Hs).
    rewrite (span_digits_run ds rest Hd (ends_number_digit _ Hr)). by destruct ds.
Qed.

Lemma exp_start e rest : exp_part e → ends_number rest →
  match e ++ rest with c :: _ => is_digit c = false ∧ code c ≠ 46 | [] => True end.
Proof.
  intros [->|(s & ds & -> & _)] Hr; [destruct rest; [done|]; by destruct Hr as (? & ? & _)|]. by split.
Qed.

Lemma scan_frac_part f e rest : frac_part f → exp_part e → ends_number rest → scan_frac (f ++ e ++ rest) = (f, e ++ rest).
Proof.
  intros Hf He Hr. pose proof (exp_start e rest He Hr) as Hs. destruct Hf as [->|(ds & -> & Hd & Hne)].
  - cbn [app]. destruct (e ++ rest) as [|c l]; [done|]. destruct Hs as [_ Hc]. simpl. by destruct (Z.eqb_spec (code c) 46).
  - cbn [app scan_frac]. replace (code (chr 46) =? 46) with true by done.
    rewrite (span_digits_run ds (e ++ rest)); [by destruct ds|done|]. destruct (e ++ rest); [done|]. by destruct Hs.
Qed.

Lemma scan_number_shape sg d f e rest : int_part d → frac_part f → exp_part e → ends_number rest →
  scan_number sg (d ++ f ++ e ++ rest) =
    match f ++ e with
    | [] => n ← ok_value (int_of_str (unchars (sg ++ d))); Some (JInt n, rest)
    | _ => x ← ok_value (float_of_str (unchars (sg ++ d ++ f ++ e))); Some (JFloat x, rest)
    end.
Proof.
  intros Hd Hf He Hr. assert (Hn : match f ++ e ++ rest with c :: _ => is_digit c = false | [] => True end).
  { destruct Hf as [->|(ds & -> & _)]; [|done]. cbn [app]. pose proof (exp_start e rest He Hr) as Hs.
    destruct (e ++ rest); [done|]. by destruct Hs. }
  assert (E : ∃ c d', d = c :: d' ∧ is_digit c = true ∧
    (if code c =? 48 then ([c], d' ++ f ++ e ++ rest) else span_digits (d ++ f ++ e ++ rest)) = (d, f ++ e ++ rest)).
  { destruct Hd as [->|(Hd & c & d' & -> & Hc)]; [by eexists _, _|]. exists c, d'. split; [done|].
    split; [by apply Forall_cons in Hd as [? _]|]. destruct (Z.eqb_spec (code c) 48); [done|]. by apply span_digits_run. }
  destruct E as (c & d' & -> & Hc & E). cbn [app scan_number]. rewrite Hc.
  change (c :: d' ++ f ++ e ++ rest) with ((c :: d') ++ f ++ e ++ rest). rewrite E. cbv beta iota.
  rewrite (scan_frac_part f e rest Hf He Hr). cbv beta iota. rewrite (scan_exp_part e rest He Hr). done.
Qed.

Lemma int_part_start d : int_part d → ∃ c d', d = c :: d' ∧ is_digit c = true.
Proof.
  intros [->|(Hd & c & d' & -> & _)]; [by eexists _, _|]. apply Forall_cons in Hd as [Hc _]. by eexists _, _.
Qed.

Definition sign_text (neg : bool) : text := if neg then [chr 45] else [].

Lemma scan_atom_number (neg : bool) d f e rest r : int_part d → frac_part f → exp_part e → ends_number rest →
  scan_number (sign_text neg) (d ++ f ++ e ++ rest) = Some r →
  scan_atom ((sign_text neg ++ d ++ f ++ e) ++ rest) = Some r.
Proof.
  intros Hd Hf He Hr Hs. rewrite <- !app_assoc. destruct neg; cbn [sign_text app] in *.
  - unfold scan_atom. change (code (chr 45)) with 45. cbn [Z.eqb Pos.eqb]. by rewrite Hs.
  - destruct (int_part_start d Hd) as (c & d' & -> & Hc). cbn [app] in *. unfold scan_atom. apply digit_code in Hc.
    repeat match goal with |- context [code c =? ?k] => destruct (Z.eqb_spec (code c) k); [lia|] end. exact Hs.
Qed.

Lemma str_of_neg p : chars (str_of_Z (Z.neg p)) = chr 45 :: chars (str_of_Z (Z.pos p)).
Proof. reflexivity. Qed.

Lemma int_of_neg_text p : int_of_str (str_of_Z (Z.neg p)) = Ok (Z.neg p).
Proof.
  destruct (str_of_nonneg (Z.pos p) ltac:(lia)) as (Hd & Hne & Hv). unfold int_of_str. rewrite str_of_neg.
  rewrite strip_solid by (constructor; [done|by apply digits_solid]). cbn [scan_sign].
  replace (code (chr 45) =? 45) with true by done. cbv beta iota.
  pose proof (scan_digits_run false 0 0 (chars (str_of_Z (Z.pos p))) [] Hd I) as Hs. rewrite app_nil_r in Hs.
  rewrite Hs, Hv. destruct (chars (str_of_Z (Z.pos p))); [done|]. simpl length. cbv beta iota. f_equal.
Qed.

Lemma int_text_exact n : int_of_str (str_of_Z n) = Ok n.
Proof. destruct n; [done|apply int_of_int_text; lia|apply int_of_neg_text]. Qed.

Lemma scan_int n rest : ends_number rest → scan_atom (chars (str_of_Z n) ++ rest) = Some (JInt n, rest).
Proof.
  intros Hr. assert (E : ∃ (neg : bool) d, int_part d ∧ chars (str_of_Z n) = sign_text neg ++ d).
  { destruct n as [|p|p]; [exists false; eexists; split; [by left|done]| |].
    - exists false. eexists. split; [by apply (str_of_nonneg_lead (Z.pos p))|done].
    - exists true. eexists. split; [by apply (str_of_nonneg_lead (Z.pos p))|apply str_of_neg]. }
  destruct E as (neg & d & Hd & E). pose proof (scan_number_shape (sign_text neg) d [] [] rest Hd) as Hs.
  rewrite <- E, unchars_chars, int_text_exact in Hs.
  pose proof (scan_atom_number neg d [] [] rest _ Hd ltac:(by left) ltac:(by left) Hr (Hs ltac:(by left) ltac:(by left) Hr)) as Ha.
  rewrite !app_nil_r, <- E in Ha. exact Ha.
Qed.

Lemma scan_finite z rest : wf (Fin z) → ends_number rest →
  scan_atom (chars (float_repr (Fin z)) ++ rest) = Some (JFloat (Fin z), rest).
Proof.
  intros Hw Hr. assert (E : ∃ (neg : bool) d f e, chars (float_repr (Fin z)) = sign_text neg ++ d ++ f ++ e ∧
    int_part d ∧ frac_part f ∧ exp_part e ∧ f ++ e ≠ []).
  { destruct z as [|p|p]; cbn [float_repr].
    - exists false, [chr 48], [chr 46; chr 48], []. split; [done|]. split; [by left|].
      split; [right; by eexists [_]; repeat constructor|by split; [left|]].
    - destruct (repr_pos_shape (Z.pos p) eq_refl Hw) as (d & f & e & E & H). by exists false, d, f, e.
    - assert (Hw' : wf (Fin (Z.pos p))) by (destruct Hw as [H1 H2]; split; [exact (representable_opp _ H1)|exact H2]).
      destruct (repr_pos_shape (Z.pos p) eq_refl Hw') as (d & f & e & E & H). exists true, d, f, e.
      rewrite chars_append, E. by split. }
  destruct E as (neg & d & f & e & E & Hd & Hf & He & Hne).
  pose proof (scan_number_shape (sign_text neg) d f e rest Hd Hf He Hr) as Hs.
  rewrite <- E, unchars_chars, (float_repr_exact _ Hw) in Hs. rewrite E. apply scan_atom_number; try done.
  rewrite Hs. by destruct (f ++ e).
Qed.

Lemma after_word_app w l : after_word w (w ++ l) = Some l.
Proof. induction w as [|c w IH]; [done|]. simpl. by rewrite Ascii.eqb_refl. Qed.

Lemma scan_word_app w j l : scan_word w j (chars w ++ l) = Some (j, l).
Proof. unfold scan_word. by rewrite after_word_app. Qed.

Lemma scan_float f rest : wf f → ends_number rest → scan_atom (chars (json_float f) ++ rest) = Some (JFloat f, rest).
Proof.
  intros Hw Hr. destruct f as [z| | |]; [by apply scan_finite|exact (scan_word_app "Infinity" _ rest)| |exact (scan_word_app "NaN" _ rest)].
  exact (scan_word_app "-Infinity" _ rest).
Qed.

Lemma scan_bool (b : bool) rest : scan_atom (chars (if b then "true" else "false") ++ rest) = Some (JBool b, rest).
Proof. destruct b; [exact (scan_word_app "true" _ rest)|exact (scan_word_app "false" _ rest)]. Qed.

(** ** The whole value *)

(** Induction on nested values. *)
Section json_induction.
Context (P : json → Prop) (Hnull : P JNull) (Hbool : ∀ b, P (JBool b)) (Hint : ∀ n, P (JInt n))
  (Hfloat : ∀ f, P (JFloat f)) (Hstr : ∀ s, P (JStr s)) (Hlist : ∀ l, Forall P l → P (JList l))
  (Hobj : ∀ d, Forall (fun kv => P kv.2) d → P (JObj d)).

Fixpoint json_nested_ind (j : json) : P j :=
  match j with
  | JNull => Hnull | JBool b => Hbool b | JInt n => Hint n | JFloat f => Hfloat f | JStr s => Hstr s
  | JList l => Hlist l ((fix go l := match l return Forall P l with
                         | [] => @List.Forall_nil _ P
                         | x :: l => @List.Forall_cons _ P x l (json_nested_ind x) (go l) end) l)
  | JObj d => Hobj d ((fix go d := match d return Forall (fun kv => P kv.2) d with
                       | [] => @List.Forall_nil _ _
                       | kv :: d => @List.Forall_cons _ _ kv d (json_nested_ind kv.2) (go d) end) d)
  end.
End json_induction.

(** A value JSON text can carry: doubles, text, objects with distinct keys. *)
Fixpoint json_ok (j : json) : Prop :=
  match j with
  | JFloat f => wf f
  | JStr s => is_text (chars s)
  | JList l => foldr (fun x (acc : Prop) => json_ok x ∧ acc) True l
  | JObj d => NoDup (map fst d) ∧ foldr (fun kv (acc : Prop) => (is_text (chars kv.1) ∧ json_ok kv.2) ∧ acc) True d
  | _ => True
  end.

Lemma json_ok_list l : json_ok (JList l) ↔ Forall json_ok l.
Proof. simpl. induction l as [|x l IH]; simpl; [by split|]. by rewrite Forall_cons, IH. Qed.

Lemma json_ok_obj d : json_ok (JObj d) ↔
  NoDup (map fst d) ∧ Forall (fun kv => is_text (chars kv.1) ∧ json_ok kv.2) d.
Proof.
  cbn [json_ok]. apply and_iff_compat_l. induction d as [|kv d IH]; simpl; [by split|]. by rewrite Forall_cons, IH.
Qed.

(** *** White space and brackets *)

Definition blank (w : text) : Prop := Forall (fun c => json_space c = true) w.

Lemma skip_blank w l : blank w → skip_space (w ++ l) = skip_space l.
Proof. induction 1 as [|c w Hc _ IH]; [done|]. simpl. by rewrite Hc. Qed.

Lemma skip_solid c l : json_space c = false → skip_space (c :: l) = c :: l.
Proof. intros Hc. simpl. by rewrite Hc. Qed.

Lemma line_break_blank indent level : blank (line_break indent level).
Proof.
  destruct indent as [k|]; [|constructor]. constructor; [done|]. generalize (k * level)%nat. intros n.
  induction n; by constructor.
Qed.

Lemma separator_split indent level : ∃ w, item_separator indent level = chr 44 :: w ∧ blank w.
Proof. destruct indent as [k|]; eexists; (split; [reflexivity|]); [apply line_break_blank|by repeat constructor]. Qed.

Lemma expect_hit n w l : 0 <= n < 256 → json_space (chr n) = false → blank w → expect n (w ++ chr n :: l) = Some l.
Proof. intros Hn Hs Hw. unfold expect. rewrite skip_blank, skip_solid, code_chr by done. by rewrite Z.eqb_refl. Qed.

Lemma expect_miss n c w l : json_space c = false → code c ≠ n → blank w → expect n (w ++ c :: l) = None.
Proof. intros Hs Hc Hw. unfold expect. rewrite skip_blank, skip_solid by done. by destruct (Z.eqb_spec (code c) n). Qed.

Lemma expect_here n l : 0 <= n < 256 → json_space (chr n) = false → expect n (chr n :: l) = Some l.
Proof. intros. by apply (expect_hit n []); [| |constructor]. Qed.

Lemma expect_other n c l : json_space c = false → code c ≠ n → expect n (c :: l) = None.
Proof. intros. by apply (expect_miss n c []); [| |constructor]. Qed.

Lemma blank_ends w c l : blank w → ends_number (c :: l) → ends_number (w ++ c :: l).
Proof.
  intros Hw Hc. destruct Hw as [|s w Hs _]; [done|]. cbn [app ends_number]. unfold is_digit.
  unfold json_space in Hs. rewrite !orb_true_iff, !Z.eqb_eq in Hs.
  assert (code s < 48) by lia. destruct (Z.leb_spec 48 (code s)); [lia|]. split; [done|]. lia.
Qed.

(** A printed value starts with a character that is neither white nor closing. *)
Definition solid_start (l : text) : Prop :=
  ∃ c t, l = c :: t ∧ json_space c = false ∧ code c ≠ 93 ∧ code c ≠ 125.

Lemma digit_start c l : is_digit c = true → solid_start (c :: l).
Proof.
  intros Hc%digit_code. eexists c, l. split; [done|]. unfold json_space.
  repeat match goal with |- context [code c =? ?k] => destruct (Z.eqb_spec (code c) k); [lia|] end. split; [done|lia].
Qed.

Lemma sign_start (neg : bool) d l : int_part d → solid_start (sign_text neg ++ d ++ l).
Proof.
  intros Hd. destruct (int_part_start d Hd) as (c & d' & -> & Hc). destruct neg; [by eexists _, _|]. by apply digit_start.
Qed.

Lemma repr_start z : wf (Fin z) → solid_start (chars (float_repr (Fin z))).
Proof.
  intros Hw. destruct z as [|p|p]; [by eexists _, _| |by eexists _, _].
  destruct (repr_pos_shape (Z.pos p) eq_refl Hw) as (d & f & e & E & Hd & _). cbn [float_repr]. rewrite E.
  by apply (sign_start false).
Qed.

Lemma dumps_start indent level j : json_ok j → solid_start (dumps_go indent level j).
Proof.
  destruct j as [|b|n|f|s|l|d]; intros Hj; [by eexists _, _|destruct b; by eexists _, _| | |by eexists _, _|destruct l; by eexists _, _|destruct d; by eexists _, _].
  - cbn [dumps_go]. destruct n as [|p|p]; [by eexists _, _| |by eexists _, _].
    pose proof (sign_start false (chars (str_of_Z (Z.pos p))) [] (str_of_nonneg_lead (Z.pos p) ltac:(lia))) as H.
    by rewrite app_nil_r in H.
  - cbn [dumps_go]. destruct f as [z| | |]; [by apply repr_start|by eexists _, _..].
Qed.

(** ** Fuel that is enough for a printed value *)

Fixpoint fuel_of (j : json) : nat :=
  match j with
  | JList l => S (foldr (fun x acc => S (Nat.max (fuel_of x) acc)) O l)
  | JObj d => S (foldr (fun kv acc => S (Nat.max (fuel_of kv.2) acc)) O d)
  | _ => 1%nat
  end.

Section structure.
Context (indent : option nat).

(** [j], printed at any level, is read back. *)
Definition reads_back (j : json) : Prop := ∀ level fuel rest, (fuel_of j <= fuel)%nat → ends_number rest →
  parse_value fuel (dumps_go indent level j ++ rest) = Some (j, rest).

Lemma items_blank fuel seen w l : blank w → parse_items fuel seen (w ++ l) = parse_items fuel seen l.
Proof. intros Hw. destruct fuel; [done|]. cbn [parse_items]. by rewrite skip_blank. Qed.

Lemma members_blank fuel seen w l : blank w → parse_members fuel seen (w ++ l) = parse_members fuel seen l.
Proof. intros Hw. destruct fuel; [done|]. cbn [parse_members]. unfold expect at 1 4. by rewrite skip_blank. Qed.

Lemma items_read level l seen fuel w rest : l ≠ [] →
  Forall (fun j => json_ok j ∧ reads_back j) l → blank w →
  (foldr (fun x acc => S (Nat.max (fuel_of x) acc)) O l <= fuel)%nat →
  parse_items fuel seen (join_text (item_separator indent level) (map (dumps_go indent level) l) ++ w ++ chr 93 :: rest) =
    Some (JList (seen ++ l), rest).
Proof.
  intros Hne Hl Hw. revert seen fuel. induction Hl as [|j l [Hok Hj] Hl IH]; [done|].
  intros seen [|fuel] Hf; cbn [foldr] in Hf; [lia|]. destruct (dumps_start indent level j Hok) as (c & t & Ec & Hc & _).
  cbn [map]. destruct l as [|j' l].
  - cbn [map join_text parse_items]. rewrite Ec, <- app_comm_cons, skip_solid, app_comm_cons, <- Ec by done.
    rewrite Hj; [|lia|by apply blank_ends]. cbn [mbind option_bind]. rewrite expect_hit by done. done.
  - set (l' := j' :: l) in *. cbn [map join_text]. replace (match map _ l' with [] => _ | _ => _ end) with
      (dumps_go indent level j ++ item_separator indent level ++ join_text (item_separator indent level) (map (dumps_go indent level) l'))
      by done.
    rewrite <- !app_assoc. specialize (IH ltac:(done) (seen ++ [j]) fuel ltac:(unfold l' in *; cbn [foldr] in *; lia)).
    rewrite <- app_assoc in IH.
    set (tail := join_text _ (map _ l') ++ w ++ chr 93 :: rest) in *. clearbody tail.
    destruct (separator_split indent level) as (w' & -> & Hw'). cbn [parse_items app].
    rewrite Ec, <- app_comm_cons, skip_solid, app_comm_cons, <- Ec by done.
    rewrite Hj; [|lia|by split]. cbn [mbind option_bind]. rewrite expect_other, expect_here by done.
    rewrite <- (items_blank fuel (seen ++ [j]) w' tail Hw') in IH. exact IH.
Qed.

Definition member_text (level : nat) (kv : string * json) : text :=
  quoted kv.1 ++ [chr 58; chr 32] ++ dumps_go indent level kv.2.

Lemma dset_new {V} (d : dict string V) k v : k ∉ map fst d → dset d k v = d ++ [(k, v)].
Proof.
  induction d as [|[k' v'] d IH]; intros Hk; simpl in *; [done|]. apply not_elem_of_cons in Hk as [H1 H2].
  by rewrite decide_False, IH.
Qed.

(** One member up to what follows its value. *)
Lemma member_read level fuel kv rest l5 : is_text (chars kv.1) → json_ok kv.2 → reads_back kv.2 → (fuel_of kv.2 <= fuel)%nat →
  ends_number rest → l5 = rest →
  ∀ seen, parse_members (S fuel) seen (member_text level kv ++ rest) =
    (let members := dset seen kv.1 kv.2 in
     match expect 125 l5, expect 44 l5 with
     | Some rest, _ => Some (JObj members, rest)
     | None, Some rest => parse_members fuel members rest
     | None, None => None
     end).
Proof.
  intros Hk Hok Hj Hf Hr -> seen. destruct (dumps_start indent level kv.2 Hok) as (c & t & Ec & Hc & _).
  unfold member_text. rewrite <- !app_assoc. destruct (scan_quoted kv.1 ([chr 58; chr 32] ++ dumps_go indent level kv.2 ++ rest) Hk) as (l & -> & Hs).
  cbn [parse_members]. rewrite expect_here by done. cbn [mbind option_bind]. rewrite Hs. cbn [mbind option_bind app].
  rewrite expect_here by done. cbn [mbind option_bind]. change (chr 32 :: dumps_go indent level kv.2 ++ rest) with ([chr 32] ++ dumps_go indent level kv.2 ++ rest).
  rewrite skip_blank by by repeat constructor. rewrite Ec, <- app_comm_cons, skip_solid, app_comm_cons, <- Ec by done.
  rewrite Hj by done. cbn [mbind option_bind]. by rewrite unchars_chars.
Qed.

Lemma members_read level d seen fuel w rest : d ≠ [] → NoDup (map fst (seen ++ d)) →
  Forall (fun kv => is_text (chars kv.1) ∧ json_ok kv.2 ∧ reads_back kv.2) d → blank w →
  (foldr (fun kv acc => S (Nat.max (fuel_of kv.2) acc)) O d <= fuel)%nat →
  parse_members fuel seen (join_text (item_separator indent level) (map (member_text level) d) ++ w ++ chr 125 :: rest) =
    Some (JObj (seen ++ d), rest).
Proof.
  intros Hne Hnd Hd Hw. revert seen fuel Hnd. induction Hd as [|kv d (Hk & Hok & Hj) Hd IH]; [done|].
  intros seen [|fuel] Hnd Hf; cbn [foldr] in Hf; [lia|].
  assert (Hnew : dset seen kv.1 kv.2 = seen ++ [kv]).
  { rewrite map_app in Hnd. apply NoDup_app in Hnd as (_ & Hnd & _). rewrite dset_new; [by destruct kv|].
    intros Hin. apply (Hnd _ Hin). by left. }
  destruct d as [|kv' d].
  - cbn [map join_text]. rewrite member_read with (l5 := w ++ chr 125 :: rest); [|done..|lia|by apply blank_ends|done].
    cbv zeta. by rewrite expect_hit, Hnew.
  - set (d' := kv' :: d) in *. cbn [map join_text]. replace (match map _ d' with [] => _ | _ => _ end) with
      (member_text level kv ++ item_separator indent level ++ join_text (item_separator indent level) (map (member_text level) d'))
      by done.
    specialize (IH ltac:(done) (seen ++ [kv]) fuel). rewrite <- !app_assoc in *.
    specialize (IH Hnd ltac:(unfold d' in *; cbn [foldr] in *; lia)).
    set (tail := join_text _ (map _ d') ++ w ++ chr 125 :: rest) in *. clearbody tail.
    destruct (separator_split indent level) as (w' & -> & Hw').
    rewrite member_read with (l5 := chr 44 :: w' ++ tail); [|done..|lia|by split|done].
    cbv zeta. cbn [app]. rewrite expect_other, expect_here, Hnew by done.
    rewrite <- (members_blank fuel (seen ++ [kv]) w' tail Hw') in IH. exact IH.
Qed.

Lemma code_eq c n : code c = n → c = chr n.
Proof. intros <-. by rewrite chr_code. Qed.

Lemma parse_atom fuel l r : scan_atom l = Some r → parse_value (S fuel) l = Some r.
Proof.
  intros H. destruct l as [|c l]; [done|]. cbn [parse_value].
  destruct (Z.eqb_spec (code c) 34) as [->%code_eq|_]; [done|]. destruct (Z.eqb_spec (code c) 91) as [->%code_eq|_]; [done|].
  destruct (Z.eqb_spec (code c) 123) as [->%code_eq|_]; [done|]. exact H.
Qed.

Lemma array_read level l fuel rest : Forall (fun j => json_ok j ∧ reads_back j) l → (fuel_of (JList l) <= S fuel)%nat →
  parse_value (S fuel) (dumps_go indent level (JList l) ++ rest) = Some (JList l, rest).
Proof.
  intros Hl Hf. cbn [fuel_of] in Hf. destruct l as [|j l]; [cbn; by rewrite expect_here|].
  destruct (dumps_start indent (S level) j (proj1 (proj1 (proj1 (Forall_cons _ _ _) Hl)))) as (c & t & Ec & Hc & H93 & _).
  set (l' := j :: l) in *. cbn [dumps_go]. unfold bracketed.
  replace (match map _ l' with [] => _ | _ => _ end) with
    (chr 91 :: line_break indent (S level) ++ join_text (item_separator indent (S level)) (map (dumps_go indent (S level)) l')
       ++ line_break indent level ++ [chr 93]) by done.
  cbn [app parse_value]. change (code (chr 91)) with 91. cbn [Z.eqb Pos.eqb]. rewrite <- !app_assoc. cbn [app].
  assert (Ht : ∃ t', join_text (item_separator indent (S level)) (map (dumps_go indent (S level)) l') = c :: t').
  { unfold l'. cbn [map join_text]. rewrite Ec. destruct (map _ l); by eexists. }
  destruct Ht as (t' & Et). rewrite Et at 1. rewrite <- (app_comm_cons t'), expect_miss by (first [done|apply line_break_blank]).
  rewrite items_blank by apply line_break_blank. rewrite items_read; [done|done|exact Hl|apply line_break_blank|lia].
Qed.

Lemma object_read level d fuel rest : NoDup (map fst d) →
  Forall (fun kv => is_text (chars kv.1) ∧ json_ok kv.2 ∧ reads_back kv.2) d → (fuel_of (JObj d) <= S fuel)%nat →
  parse_value (S fuel) (dumps_go indent level (JObj d) ++ rest) = Some (JObj d, rest).
Proof.
  intros Hnd Hd Hf. cbn [fuel_of] in Hf. destruct d as [|kv d]; [cbn; by rewrite expect_here|].
  set (d' := kv :: d) in *. cbn [dumps_go]. unfold bracketed. fold (member_text (S level)).
  replace (match map _ d' with [] => _ | _ => _ end) with
    (chr 123 :: line_break indent (S level) ++ join_text (item_separator indent (S level)) (map (member_text (S level)) d')
       ++ line_break indent level ++ [chr 125]) by done.
  cbn [app parse_value]. change (code (chr 123)) with 123. cbn [Z.eqb Pos.eqb]. rewrite <- !app_assoc. cbn [app].
  assert (Ht : ∃ t', join_text (item_separator indent (S level)) (map (member_text (S level)) d') = chr 34 :: t').
  { unfold d'. cbn [map join_text]. unfold member_text, quoted. rewrite <- app_comm_cons. destruct (map _ d); by eexists. }
  destruct Ht as (t' & Et). rewrite Et at 1. rewrite <- (app_comm_cons t'), expect_miss by (first [done|apply line_break_blank]).
  rewrite members_blank by apply line_break_blank.
  rewrite (members_read (S level) d' []); [done|done|exact Hnd|exact Hd|apply line_break_blank|lia].
Qed.

Theorem parse_dumps j : json_ok j → reads_back j.
Proof.
  induction j as [|b|n|f|s|l IH|d IH] using json_nested_ind; intros Hok level [|fuel] rest Hf Hr;
    try (cbn [fuel_of] in Hf; lia).
  - apply parse_atom. exact (scan_word_app "null" _ rest).
  - apply parse_atom, scan_bool.
  - by apply parse_atom, scan_int.
  - by apply parse_atom, scan_float.
  - cbn [dumps_go]. destruct (scan_quoted s rest Hok) as (l & -> & Hs). cbn [parse_value].
    change (code (chr 34)) with 34. cbn [Z.eqb Pos.eqb]. rewrite Hs. cbn [mbind option_bind]. by rewrite unchars_chars.
  - apply array_read; [|exact Hf]. apply json_ok_list in Hok. clear Hf.
    induction IH as [|j l Hj _ IHl]; constructor; apply Forall_cons in Hok as [H1 H2]; auto.
  - apply json_ok_obj in Hok as [Hnd Hok]. apply object_read; [exact Hnd| |exact Hf]. clear Hf Hnd.
    induction IH as [|kv d Hj _ IHd]; constructor; apply Forall_cons in Hok as [[H1 H2] H3]; auto.
Qed.

(** The text is long enough to pay for the fuel. *)
Lemma fuel_enough level j : json_ok j → (fuel_of j < 2 * length (dumps_go indent level j))%nat.
Proof.
  revert level. induction j as [|b|n|f|s|l IH|d IH] using json_nested_ind; intros level Hok.
  1-5: destruct (dumps_start indent level _ Hok) as (c & t & -> & _); simpl; lia.
  - apply json_ok_list in Hok. destruct l as [|j l]; [simpl; lia|]. cbn [dumps_go fuel_of].
    assert (Hj : (foldr (fun x acc => S (Nat.max (fuel_of x) acc)) O (j :: l) <=
      2 * length (join_text (item_separator indent (S level)) (map (dumps_go indent (S level)) (j :: l))))%nat).
    { revert Hok. induction IH as [|x k Hx _ IHk]; intros Hok; [simpl; lia|]. apply Forall_cons in Hok as [H1 H2].
      specialize (Hx (S level) H1). specialize (IHk H2). cbn [foldr map join_text].
      destruct (separator_split indent (S level)) as (w & E & _).
      destruct (map _ k) eqn:Ek; [destruct k; [simpl; lia|discriminate]|]. rewrite !length_app, E in *. simpl in *. lia. }
    unfold bracketed. set (J := join_text _ _) in *. cbn [map]. cbn [length]. rewrite !length_app. simpl length. lia.
  - apply json_ok_obj in Hok as [_ Hok]. destruct d as [|kv d]; [simpl; lia|]. cbn [fuel_of].
    change (dumps_go indent level (JObj (kv :: d))) with (bracketed indent level 123 125 (map (member_text (S level)) (kv :: d))).
    assert (Hj : (foldr (fun kv acc => S (Nat.max (fuel_of kv.2) acc)) O (kv :: d) <=
      2 * length (join_text (item_separator indent (S level)) (map (member_text (S level)) (kv :: d))))%nat).
    { revert Hok. induction IH as [|x k Hx _ IHk]; intros Hok; [simpl; lia|]. apply Forall_cons in Hok as [[_ H1] H2].
      specialize (Hx (S level) H1). specialize (IHk H2). cbn [foldr map join_text].
      assert (Hm : (length (dumps_go indent (S level) x.2) <= length (member_text (S level) x))%nat)
        by (unfold member_text; rewrite !length_app; lia).
      revert Hm. generalize (member_text (S level) x). intros M Hm.
      destruct (separator_split indent (S level)) as (w & E & _).
      destruct (map _ k) eqn:Ek; [destruct k; [simpl; lia|discriminate]|]. rewrite !length_app, E in *. simpl in *. lia. }
    unfold bracketed. set (J := join_text _ _) in *. cbn [map]. cbn [length]. rewrite !length_app. simpl length. lia.
Qed.
End structure.

(** What [dumps] wrote, with or without indentation, [loads] reads. *)
Lemma loads_dumps_go indent j : json_ok j → loads (unchars (dumps_go indent 0 j)) = Ok j.
Proof.
  intros Hok. unfold loads. rewrite chars_unchars. destruct (dumps_start indent 0 j Hok) as (c & t & E & Hc & _).
  pose proof (fuel_enough indent 0 j Hok) as Hf. pose proof (parse_dumps indent j Hok 0%nat (S (2 * length (dumps_go indent 0 j))) []) as Hp.
  rewrite app_nil_r in Hp. rewrite E in *. rewrite skip_solid by done. rewrite Hp; [done|lia|exact I].
Qed.

Lemma loads_dumps j : json_ok j → loads (dumps j) = Ok j.
Proof. apply loads_dumps_go. Qed.

Lemma loads_dumps_indent k j : json_ok j → loads (dumps_indent k j) = Ok j.
Proof. apply loads_dumps_go. Qed.

(** ** The fuel of [loads] is enough on every text *)

Lemma skip_shorter l : (length (skip_space l) <= length l)%nat.
Proof. induction l as [|c l IH]; [done|]. simpl. destruct (json_space c); simpl; lia. Qed.

Lemma expect_shorter n l rest : expect n l = Some rest → (length rest < length l)%nat.
Proof.
  unfold expect. pose proof (skip_shorter l). destruct (skip_space l) as [|c k]; [done|].
  destruct (_ =? _); [|done]. intros [= <-]. simpl in *. lia.
Qed.

Lemma prepend_some p r s rest : prepend p r = Some (s, rest) → ∃ s', r = Some (s', rest).
Proof. unfold prepend. destruct r as [[s' rest']|]; [|done]. cbn. intros [= _ <-]. by eexists. Qed.

Lemma scan_string_shorter l s rest : scan_string l = Some (s, rest) → (length rest < length l)%nat.
Proof.
  remember (length l) as n eqn:En. revert l s rest En. induction (lt_wf n) as [n _ IH]. intros l s rest ->.
  assert (Hrec : ∀ p k, (length k < length l)%nat → prepend p (scan_string k) = Some (s, rest) → (length rest < length l)%nat).
  { intros p k Hk (s' & Hs)%prepend_some. specialize (IH _ Hk k s' rest eq_refl Hs). lia. }
  destruct l as [|c l]; [done|]. cbn [scan_string]. destruct (code c =? 34); [intros [= _ <-]; simpl; lia|].
  destruct (code c =? 92).
  - destruct l as [|e l]; [done|]. destruct (code e =? 117).
    + destruct l as [|h1 [|h2 [|h3 [|h4 l]]]]; try done. destruct (hex4_value h1 h2 h3 h4) as [u|]; [|done]. cbn [mbind option_bind].
      destruct l as [|g1 [|g2 [|g3 [|g4 [|g5 [|g6 l]]]]]]; try (apply Hrec; simpl; lia).
      destruct (_ && _ && _ && _); [|apply Hrec; simpl; lia].
      destruct (hex4_value g3 g4 g5 g6) as [u2|]; [|done]. cbn [mbind option_bind].
      destruct (_ && _); apply Hrec; simpl; lia.
    + destruct (simple_escape (code e)); [|done]. apply Hrec. simpl. lia.
  - destruct (code c <? 32); [done|]. apply Hrec. simpl. lia.
Qed.

Lemma span_length l ds rest : span_digits l = (ds, rest) → length l = (length ds + length rest)%nat.
Proof.
  revert ds. induction l as [|c l IH]; intros ds; simpl; [by intros [= <- <-]|].
  destruct (is_digit c); [|by intros [= <- <-]]. destruct (span_digits l) as [ds' rest'] eqn:E. intros [= <- <-].
  simpl. by rewrite (IH ds').
Qed.

Lemma scan_frac_shorter l f rest : scan_frac l = (f, rest) → (length rest <= length l)%nat.
Proof.
  destruct l as [|c l]; simpl; [by intros [= _ <-]|]. destruct (code c =? 46); [|by intros [= _ <-]].
  destruct (span_digits l) as [[|d ds] k] eqn:E; intros [= _ <-]; [done|]. apply span_length in E. simpl in E. lia.
Qed.

Lemma scan_exp_shorter l e rest : scan_exp l = (e, rest) → (length rest <= length l)%nat.
Proof.
  destruct l as [|c l]; simpl; [by intros [= _ <-]|]. destruct (_ || _); [|by intros [= _ <-]].
  assert (Hs : ∃ sg k, match l with s :: l2 => if (code s =? 43) || (code s =? 45) then ([s], l2) else ([], l) | [] => ([], []) end
    = (sg, k) ∧ (length k <= length l)%nat).
  { destruct l as [|s l]; [by eexists _, _|]. destruct (_ || _); eexists _, _; (split; [done|simpl; lia]). }
  destruct Hs as (sg & k & -> & Hk). destruct (span_digits k) as [[|d ds] k'] eqn:E; intros [= _ <-]; [done|].
  apply span_length in E. simpl in E. lia.
Qed.

Lemma scan_number_shorter sg l j rest : scan_number sg l = Some (j, rest) → (length rest < length l)%nat.
Proof.
  destruct l as [|c l]; [done|]. cbn [scan_number]. destruct (is_digit c) eqn:Hc; [|done].
  assert (Hd : ∃ ds l2, (if code c =? 48 then ([c], l) else span_digits (c :: l)) = (ds, l2) ∧ (length l2 < length (c :: l))%nat).
  { destruct (code c =? 48); [eexists _, _; split; [done|simpl; lia]|]. simpl. rewrite Hc. destruct (span_digits l) as [ds k] eqn:E.
    apply span_length in E. eexists _, _. split; [done|]. simpl. lia. }
  destruct Hd as (ds & l2 & -> & H2). destruct (scan_frac l2) as [f l3] eqn:E3. apply scan_frac_shorter in E3.
  destruct (scan_exp l3) as [e l4] eqn:E4. apply scan_exp_shorter in E4.
  destruct (f ++ e); intros H.
  - destruct (ok_value _); [|done]. injection H as _ <-. lia.
  - destruct (ok_value _); [|done]. injection H as _ <-. lia.
Qed.

Lemma after_word_length w l rest : after_word w l = Some rest → length l = (length w + length rest)%nat.
Proof.
  revert l. induction w as [|c w IH]; intros l; simpl; [by intros [= <-]|]. destruct l as [|d l]; [done|].
  destruct (Ascii.eqb c d); [|done]. intros H. simpl. f_equal. by apply IH.
Qed.

Lemma scan_word_shorter w v l j rest : w ≠ "" → scan_word w v l = Some (j, rest) → (length rest < length l)%nat.
Proof.
  unfold scan_word. destruct (after_word (chars w) l) as [k|] eqn:E; [|done]. apply after_word_length in E.
  intros Hw [= _ <-]. destruct w; [done|]. simpl in E. lia.
Qed.

Lemma scan_atom_shorter l j rest : scan_atom l = Some (j, rest) → (length rest < length l)%nat.
Proof.
  destruct l as [|c l]; [done|]. unfold scan_atom.
  repeat match goal with |- (if ?b then scan_word _ _ _ else _) = _ → _ => destruct b; [by apply scan_word_shorter|] end.
  destruct (code c =? 45); [|by apply scan_number_shorter].
  destruct (scan_number [c] l) as [r|] eqn:E; [|by apply scan_word_shorter].
  intros [= ->]. apply scan_number_shorter in E. simpl. lia.
Qed.

(** Every parsing function consumes text. *)
Lemma parse_shorter fuel :
  (∀ l j rest, parse_value fuel l = Some (j, rest) → (length rest < length l)%nat) ∧
  (∀ seen l j rest, parse_items fuel seen l = Some (j, rest) → (length rest < length l)%nat) ∧
  (∀ seen l j rest, parse_members fuel seen l = Some (j, rest) → (length rest < length l)%nat).
Proof.
  induction fuel as [|fuel (IHv & IHi & IHm)]; [done|]. split_and!.
  - intros [|c l] j rest; [done|]. cbn [parse_value]. destruct (code c =? 34).
    { destruct (scan_string l) as [[s k]|] eqn:E; [|done]. intros [= _ <-]. apply scan_string_shorter in E. simpl. lia. }
    destruct (code c =? 91).
    { destruct (expect 93 l) eqn:E; [intros [= _ <-]; apply expect_shorter in E; simpl; lia|]. intros H%IHi. simpl. lia. }
    destruct (code c =? 123); [|apply scan_atom_shorter].
    destruct (expect 125 l) eqn:E; [intros [= _ <-]; apply expect_shorter in E; simpl; lia|]. intros H%IHm. simpl. lia.
  - intros seen l j rest. cbn [parse_items]. pose proof (skip_shorter l).
    destruct (parse_value fuel (skip_space l)) as [[v l1]|] eqn:E; [|done]. apply IHv in E. cbn [mbind option_bind].
    destruct (expect 93 l1) eqn:E1; [intros [= _ <-]; apply expect_shorter in E1; lia|].
    destruct (expect 44 l1) eqn:E2; [|done]. apply expect_shorter in E2. intros H1%IHi. lia.
  - intros seen l j rest. cbn [parse_members].
    destruct (expect 34 l) as [l1|] eqn:E1; [|done]. apply expect_shorter in E1. cbn [mbind option_bind].
    destruct (scan_string l1) as [[k l2]|] eqn:E2; [|done]. apply scan_string_shorter in E2. cbn [mbind option_bind].
    destruct (expect 58 l2) as [l3|] eqn:E3; [|done]. apply expect_shorter in E3. cbn [mbind option_bind]. pose proof (skip_shorter l3).
    destruct (parse_value fuel (skip_space l3)) as [[v l4]|] eqn:E4; [|done]. apply IHv in E4. cbn [mbind option_bind].
    destruct (expect 125 l4) eqn:E5; [intros [= _ <-]; apply expect_shorter in E5; lia|].
    destruct (expect 44 l4) eqn:E6; [|done]. apply expect_shorter in E6. intros H1%IHm. lia.
Qed.

(** With more than twice the length of the text, more fuel changes nothing. *)
Lemma parse_fuel n :
  (∀ f g l, (length l <= n)%nat → (2 * length l < f)%nat → (2 * length l < g)%nat → parse_value f l = parse_value g l) ∧
  (∀ f g seen l, (length l <= n)%nat → (2 * length l + 1 < f)%nat → (2 * length l + 1 < g)%nat →
    parse_items f seen l = parse_items g seen l) ∧
  (∀ f g seen l, (length l <= n)%nat → (2 * length l + 1 < f)%nat → (2 * length l + 1 < g)%nat →
    parse_members f seen l = parse_members g seen l).
Proof.
  induction n as [n IH] using lt_wf_ind.
  assert (Hv : ∀ f g l, (length l <= n)%nat → (2 * length l < f)%nat → (2 * length l < g)%nat → parse_value f l = parse_value g l).
  { intros [|f] [|g] [|c l] Hn Hf Hg; try (simpl in *; lia); [done|]. simpl in Hn, Hf, Hg. cbn [parse_value].
    destruct (IH (length l) ltac:(lia)) as (_ & IHi & IHm).
    destruct (code c =? 34); [done|]. destruct (code c =? 91); [destruct (expect 93 l); [done|]; apply IHi; lia|].
    destruct (code c =? 123); [|done]. destruct (expect 125 l); [done|]. apply IHm; lia. }
  split_and!; [exact Hv|..].
  - intros [|f] [|g] seen l Hn Hf Hg; try lia. cbn [parse_items]. pose proof (skip_shorter l).
    rewrite (Hv f g) by lia. destruct (parse_value g (skip_space l)) as [[v l1]|] eqn:E; [|done]. cbn [mbind option_bind].
    apply (parse_shorter g) in E. destruct (expect 93 l1); [done|]. destruct (expect 44 l1) as [l2|] eqn:E2; [|done].
    apply expect_shorter in E2. destruct (IH (length l2) ltac:(lia)) as (_ & IHi & _). apply IHi; lia.
  - intros [|f] [|g] seen l Hn Hf Hg; try lia. cbn [parse_members].
    destruct (expect 34 l) as [l1|] eqn:E1; [|done]. apply expect_shorter in E1. cbn [mbind option_bind].
    destruct (scan_string l1) as [[k l2]|] eqn:E2; [|done]. apply scan_string_shorter in E2. cbn [mbind option_bind].
    destruct (expect 58 l2) as [l3|] eqn:E3; [|done]. apply expect_shorter in E3. cbn [mbind option_bind]. pose proof (skip_shorter l3).
    rewrite (Hv f g) by lia. destruct (parse_value g (skip_space l3)) as [[v l4]|] eqn:E4; [|done]. cbn [mbind option_bind].
    apply (parse_shorter g) in E4. destruct (expect 125 l4); [done|]. destruct (expect 44 l4) as [l5|] eqn:E6; [|done].
    apply expect_shorter in E6. destruct (IH (length l5) ltac:(lia)) as (_ & _ & IHm). apply IHm; lia.
Qed.

(** So [loads] fails on a text only when no fuel parses it. *)
Lemma loads_complete s j rest fuel : parse_value fuel (skip_space (chars s)) = Some (j, rest) →
  skip_space rest = [] → (2 * length (chars s) < fuel)%nat → loads s = Ok j.
Proof.
  intros Hp Hr Hf. unfold loads. pose proof (skip_shorter (chars s)).
  rewrite (proj1 (parse_fuel (length (chars s))) _ fuel) by lia. by rewrite Hp, Hr.
Qed.

(** ** Sorted keys *)

Lemma sort_keys_fst d : map fst (sort_by str_ltb fst (map (fun kv => (kv.1, sort_keys kv.2)) d)) ≡ₚ map fst d.
Proof. rewrite sort_by_perm, map_map. by apply reflexive_eq, map_ext. Qed.

Lemma sort_keys_ok j : json_ok j → json_ok (sort_keys j).
Proof.
  induction j as [| | | | |l IH|d IH] using json_nested_ind; intros Hok; try exact Hok.
  - cbn [sort_keys]. apply json_ok_list. apply json_ok_list in Hok. apply Forall_map.
    induction IH as [|x l Hx _ IHl]; constructor; apply Forall_cons in Hok as [H1 H2]; auto.
  - cbn [sort_keys]. apply json_ok_obj. apply json_ok_obj in Hok as [Hnd Hok]. split.
    + by rewrite sort_keys_fst.
    + rewrite sort_by_perm. apply Forall_map. clear Hnd.
      induction IH as [|x l Hx _ IHl]; constructor; apply Forall_cons in Hok as [[H1 H2] H3]; auto.
Qed.

Lemma loads_dumps_sorted indent j : json_ok j → loads (dumps_sorted indent j) = Ok (sort_keys j).
Proof. intros Hok. by apply loads_dumps_go, sort_keys_ok. Qed.

(** Sorting the keys changes no lookup. *)
Lemma sort_keys_get d k : NoDup (map fst d) →
  dget (sort_by str_ltb fst (map (fun kv => (kv.1, sort_keys kv.2)) d)) k = sort_keys <$> dget d k.
Proof.
  intros Hnd. set (s := sort_by _ _ _). assert (Hs : dict_wf s) by (unfold dict_wf, dkeys, s; by rewrite sort_keys_fst).
  destruct (dget d k) as [v|] eqn:E; cbn [fmap option_fmap option_map].
  - apply elem_dget; [exact Hs|]. unfold s. rewrite sort_by_perm. apply dget_elem in E.
    apply (list_elem_of_fmap_2 (fun kv => (kv.1, sort_keys kv.2)) _ (k, v)) in E. exact E.
  - apply dget_None. apply dget_None in E. unfold dkeys, s in *. by rewrite sort_keys_fst.
Qed.

(** ** Deciding [json_ok] (for ASCII text) *)

Definition float_okb (f : float) : bool :=
  match f with Fin z => (round53 z 1 =? z) && (Z.abs z <? limit_z) | _ => true end.
Definition ascii_okb (s : string) : bool := forallb (fun c => code c <? 128) (chars s).

Fixpoint json_okb (j : json) : bool :=
  match j with
  | JFloat f => float_okb f
  | JStr s => ascii_okb s
  | JList l => forallb json_okb l
  | JObj d => bool_decide (NoDup (map fst d)) && forallb (fun kv => ascii_okb kv.1 && json_okb kv.2) d
  | _ => true
  end.

Lemma float_okb_wf f : float_okb f = true → wf f.
Proof.
  destruct f as [z| | |]; try done. intros [Hr%Z.eqb_eq Hl%Z.ltb_lt]%andb_true_iff. split; [|exact Hl].
  rewrite <- Hr. by apply representable_round53.
Qed.

Lemma ascii_okb_text s : ascii_okb s = true → is_text (chars s).
Proof.
  intros Hs. apply ascii_text, Forall_forall. intros c Hc. unfold ascii_okb in Hs. rewrite forallb_forall in Hs.
  apply Z.ltb_lt, Hs. by apply list_elem_of_In.
Qed.

Lemma json_okb_ok j : json_okb j = true → json_ok j.
Proof.
  induction j as [| | | | |l IH|d IH] using json_nested_ind; intros Hj; try done.
  - by apply float_okb_wf.
  - by apply ascii_okb_text.
  - apply json_ok_list. cbn [json_okb] in Hj. induction IH as [|x l Hx _ IHl]; [constructor|].
    simpl in Hj. apply andb_true_iff in Hj as [H1 H2]. constructor; auto.
  - apply json_ok_obj. cbn [json_okb] in Hj. apply andb_true_iff in Hj as [Hn Hj]. split; [by apply bool_decide_eq_true in Hn|].
    clear Hn. induction IH as [|x l Hx _ IHl]; [constructor|]. simpl in Hj. apply andb_true_iff in Hj as [H1 H2].
    apply andb_true_iff in H1 as [H0 H1]. constructor; [|auto]. split; [by apply ascii_okb_text|auto].
Qed.
