(* ===== verification/Files.v ===== *)
(** * The file system, as far as the code uses it

    [pathlib.Path] and the operations [exists], [mkdir(parents=True,
    exist_ok=True)], [read_text] and [write_text].  A path is its list of parts
    (an absolute path starts with the part [/]); a disk maps paths to files and
    directories, with the working directory and the root always there.  An
    action on the disk keeps the changes it made before it raised. *)

From S2P Require Import Prelude PyDict PyStr PyJson PyParse.

(** ** Paths *)

Abbreviation path := (list string).

(** The parts of a POSIX path: empty parts and [.] are dropped. *)
Fixpoint split_path (current : string) (l : list Ascii.ascii) : list string :=
  match l with
  | [] => [current]
  | c :: l' => if (code c =? 47)%Z then current :: split_path "" l' else split_path (current +:+ String c "") l'
  end.

Definition plain_part (s : string) : bool := negb (bool_decide (s ∈ [""; "."])).

(** [Path(s)] *)
Definition to_path (s : string) : path :=
  let parts := List.filter plain_part (split_path "" (chars s)) in
  match s with
  | String c _ => if (code c =? 47)%Z then "/" :: parts else parts
  | EmptyString => parts
  end.

(** [str(p)] *)
Definition path_str (p : path) : string :=
  match p with
  | [] => "."
  | "/" :: rest => "/" +:+ join "/" rest
  | _ => join "/" p
  end.

(** [p / name] for a plain name, and [p.parent]. *)
Definition child (p : path) (name : string) : path := p ++ [name].
Definition parent (p : path) : path := removelast p.

Example paths : map (fun s => path_str (to_path s)) ["data//raw/./x.json"; "/tmp/a/"; ""; "a"] = ["data/raw/x.json"; "/tmp/a"; "."; "a"].
Proof. reflexivity. Qed.

(** ** Disks *)

Inductive node := Text (s : string) | Dir.

#[export] Instance node_eq_dec : EqDecision node.
Proof. solve_decision. Defined.

Abbreviation disk := (gmap (list string) node).

Definition root_path (p : path) : bool := bool_decide (p ∈ [[]; ["/"]]).

Definition exists_on (d : disk) (p : path) : bool := root_path p || bool_decide (is_Some (d !! p)).
Definition is_dir (d : disk) (p : path) : bool := root_path p || bool_decide (d !! p = Some Dir).

(** ** Actions *)

Definition io (A : Type) : Type := disk → result A * disk.

#[export] Instance io_ret : MRet io := fun A a d => (Ok a, d).
#[export] Instance io_bind : MBind io := fun A B f m d =>
  match m d with (Ok a, d') => f a d' | (Err e, d') => (Err e, d') end.

Definition io_raise {A} (e : exn) : io A := fun d => (Err e, d).
Definition io_lift {A} (r : result A) : io A := fun d => (r, d).
Definition io_exists (p : path) : io bool := fun d => (Ok (exists_on d p), d).

Definition io_read (p : path) : io string := fun d =>
  (match d !! p with
   | Some (Text s) => Ok s
   | Some Dir => Err OSError
   | None => if root_path p then Err OSError else Err FileNotFoundError
   end, d).

(** Opening for writing: the parent must be a directory, the target none. *)
Definition io_write (p : path) (s : string) : io unit := fun d =>
  if is_dir d p then (Err OSError, d)
  else if is_dir d (parent p) then (Ok tt, <[p := Text s]> d)
  else (Err (if exists_on d (parent p) then OSError else FileNotFoundError), d).

(** [p.mkdir(parents=True, exist_ok=True)]: every missing directory of the path,
    from the top. *)
Fixpoint make_dirs (above rest : path) (d : disk) : result unit * disk :=
  match rest with
  | [] => (Ok tt, d)
  | part :: rest' =>
      let p := above ++ [part] in
      if exists_on d p then if is_dir d p then make_dirs p rest' d else (Err OSError, d)
      else make_dirs p rest' (<[p := Dir]> d)
  end.
Definition io_mkdir (p : path) : io unit := make_dirs [] p.

(** Disks where every file is in a directory. *)
Definition disk_wf (d : disk) : Prop := ∀ p n, d !! p = Some n → root_path p = false ∧ is_dir d (parent p) = true.

(** ** Frames: what an action may touch *)

Definition touches {A} (P : path → Prop) (m : io A) : Prop := ∀ d q, ¬ P q → (m d).2 !! q = d !! q.

Lemma touches_weaken {A} (P Q : path → Prop) (m : io A) : (∀ q, P q → Q q) → touches P m → touches Q m.
Proof. intros Hi Hm d q Hq. apply Hm. naive_solver. Qed.

Lemma touches_ret {A} P (a : A) : touches P (mret a : io A).
Proof. by intros d q _. Qed.

Lemma touches_bind {A B} P (m : io A) (f : A → io B) : touches P m → (∀ a, touches P (f a)) → touches P (m ≫= f).
Proof.
  intros Hm Hf d q Hq. unfold mbind, io_bind. specialize (Hm d q Hq). destruct (m d) as [[a|e] d']; [|exact Hm].
  rewrite (Hf a d' q Hq). exact Hm.
Qed.

Lemma touches_raise {A} P e : touches P (io_raise e : io A).
Proof. by intros d q _. Qed.
Lemma touches_lift {A} P (r : result A) : touches P (io_lift r).
Proof. by intros d q _. Qed.
Lemma touches_exists P p : touches P (io_exists p).
Proof. by intros d q _. Qed.
Lemma touches_read P p : touches P (io_read p).
Proof. by intros d q _. Qed.

Lemma touches_write (P : path → Prop) p s : P p → touches P (io_write p s).
Proof.
  intros Hp d q Hq. unfold io_write. destruct (is_dir d p); [done|]. destruct (is_dir d (parent p)); [|done].
  apply lookup_insert_ne. by intros ->.
Qed.

(** Making directories changes no file, and creates prefixes of the path only. *)
Lemma make_dirs_frame above rest d q : (∀ k, q ≠ above ++ take (S k) rest) → (make_dirs above rest d).2 !! q = d !! q.
Proof.
  revert above d. induction rest as [|part rest IH]; intros above d Hq; [done|]. cbn [make_dirs].
  assert (Hq' : ∀ k, q ≠ (above ++ [part]) ++ take (S k) rest).
  { intros k. rewrite <- app_assoc. apply (Hq (S k)). }
  assert (H0 : q ≠ above ++ [part]) by exact (Hq O).
  destruct (exists_on d _); [destruct (is_dir d _); [by apply IH|done]|]. rewrite IH by done.
  apply lookup_insert_ne. by intros E.
Qed.

Lemma touches_mkdir (P : path → Prop) p : (∀ k, P (take (S k) p)) → touches P (io_mkdir p).
Proof. intros Hp d q Hq. apply make_dirs_frame. intros k ->. exact (Hq (Hp k)). Qed.

Lemma make_dirs_files above rest d q s : d !! q = Some (Text s) → (make_dirs above rest d).2 !! q = Some (Text s).
Proof.
  revert above d. induction rest as [|part rest IH]; intros above d Hq; [done|]. cbn [make_dirs].
  destruct (exists_on d (above ++ [part])) eqn:E; [destruct (is_dir d _); [by apply IH|done]|]. apply IH.
  rewrite lookup_insert_ne; [done|]. intros <-. unfold exists_on in E. rewrite Hq in E.
  apply orb_false_iff in E as [_ E]. apply bool_decide_eq_false in E. apply E. by eexists.
Qed.

Lemma make_dirs_keeps above rest d q : is_dir d q = true → is_dir (make_dirs above rest d).2 q = true.
Proof.
  revert above d. induction rest as [|part rest IH]; intros above d Hq; [done|]. cbn [make_dirs].
  destruct (exists_on d (above ++ [part])); [destruct (is_dir d (above ++ [part])); [by apply IH|done]|]. apply IH.
  unfold is_dir in *. destruct (root_path q); [done|]. simpl in *. apply bool_decide_eq_true in Hq. apply bool_decide_eq_true.
  destruct (decide (above ++ [part] = q)) as [->|Hne]; [by rewrite lookup_insert_eq|by rewrite lookup_insert_ne].
Qed.

(** Afterwards the directory is there. *)
Lemma make_dirs_done above rest d d' : make_dirs above rest d = (Ok tt, d') → is_dir d above = true →
  is_dir d' (above ++ rest) = true.
Proof.
  revert above d. induction rest as [|part rest IH]; intros above d Hm Ha; cbn [make_dirs] in Hm.
  { injection Hm as <-. by rewrite app_nil_r. }
  replace (above ++ part :: rest) with ((above ++ [part]) ++ rest) by by rewrite <- app_assoc.
  destruct (exists_on d (above ++ [part])).
  - destruct (is_dir d (above ++ [part])) eqn:E; [|done]. by apply (IH _ d).
  - apply (IH _ (<[above ++ [part] := Dir]> d)); [done|]. unfold is_dir. rewrite lookup_insert_eq.
    by rewrite bool_decide_eq_true_2, orb_true_r.
Qed.

Lemma io_mkdir_done p d d' : io_mkdir p d = (Ok tt, d') → is_dir d' p = true.
Proof. intros Hm. by apply (make_dirs_done [] p d d'). Qed.

(** A directory that is there stays as it is. *)
Lemma make_dirs_again above rest d : (∀ k, is_dir d (above ++ take (S k) rest) = true) → make_dirs above rest d = (Ok tt, d).
Proof.
  revert above. induction rest as [|part rest IH]; intros above Hd; [done|]. cbn [make_dirs].
  assert (H0 : is_dir d (above ++ [part]) = true) by exact (Hd O).
  assert (He : exists_on d (above ++ [part]) = true).
  { unfold is_dir, exists_on in *. destruct (root_path _); [done|]. simpl in *. apply bool_decide_eq_true in H0.
    apply bool_decide_eq_true. rewrite H0. by eexists. }
  rewrite He, H0. apply IH. intros k. rewrite <- app_assoc. exact (Hd (S k)).
Qed.

(** What was written is read back. *)
Lemma write_read p s d d' : io_write p s d = (Ok tt, d') → io_read p d' = (Ok s, d').
Proof.
  unfold io_write, io_read. destruct (is_dir d p) eqn:E; [done|]. destruct (is_dir d (parent p)); [|done].
  intros [= <-]. by rewrite lookup_insert_eq.
Qed.

Lemma bind_io_ok {A B} (m : io A) (f : A → io B) b d d' :
  (m ≫= f) d = (Ok b, d') ↔ ∃ a d1, m d = (Ok a, d1) ∧ f a d1 = (Ok b, d').
Proof.
  unfold mbind, io_bind. destruct (m d) as [[a|e] d1].
  - split; [intros H; by exists a, d1|]. by intros (a' & d2 & [= <- <-] & H).
  - split; [done|]. by intros (a' & d2 & ? & _).
Qed.

(** ** A path and its text *)

Definition no_slash (s : string) : Prop := Forall (fun c => (code c ≠ 47)%Z) (chars s).
Definition part_ok (s : string) : Prop := (s ∉ [""; "."]) ∧ no_slash s.

(** The paths [Path(s)] gives. *)
Definition path_ok (p : path) : Prop :=
  match p with "/" :: rest => Forall part_ok rest | _ => Forall part_ok p end.

Lemma append_nil_r (s : string) : s +:+ "" = s.
Proof. induction s as [|c s IH]; [done|]. exact (f_equal (String c) IH). Qed.
Lemma append_assoc (a b c : string) : (a +:+ b) +:+ c = a +:+ b +:+ c.
Proof. induction a as [|x a IH]; [done|]. exact (f_equal (String x) IH). Qed.

Lemma split_path_slash current a l : no_slash a →
  split_path current (chars a ++ chr 47 :: l) = (current +:+ a) :: split_path "" l.
Proof.
  revert current. induction a as [|c a IH]; intros current Ha; cbn [chars app String.list_ascii_of_string].
  - cbn [split_path]. replace (code (chr 47) =? 47)%Z with true by done. by rewrite append_nil_r.
  - apply Forall_cons in Ha as [Hc Ha]. cbn [split_path]. destruct (Z.eqb_spec (code c) 47); [done|].
    fold (chars a). rewrite IH by done. by rewrite append_assoc.
Qed.

Lemma split_path_end current a : no_slash a → split_path current (chars a) = [current +:+ a].
Proof.
  revert current. induction a as [|c a IH]; intros current Ha; cbn [chars String.list_ascii_of_string].
  - cbn [split_path]. by rewrite append_nil_r.
  - apply Forall_cons in Ha as [Hc Ha]. cbn [split_path]. destruct (Z.eqb_spec (code c) 47); [done|].
    fold (chars a). rewrite IH by done. by rewrite append_assoc.
Qed.

Lemma split_path_join p : p ≠ [] → Forall part_ok p → split_path "" (chars (join "/" p)) = p.
Proof.
  intros Hne Hp. induction Hp as [|a p [_ Ha] Hp IH]; [done|]. destruct p as [|b p].
  - cbn [join]. by rewrite split_path_end.
  - cbn [join]. rewrite !chars_append. change (chars "/") with [chr 47]. cbn [app].
    rewrite split_path_slash by done. f_equal. by apply IH.
Qed.

Lemma plain_parts p : Forall part_ok p → List.filter plain_part p = p.
Proof.
  induction 1 as [|a p [Ha _] _ IH]; [done|]. cbn [List.filter]. unfold plain_part at 1.
  rewrite bool_decide_eq_false_2 by done. simpl. by rewrite IH.
Qed.

Lemma split_path_no_slash current l : no_slash current → Forall no_slash (split_path current l).
Proof.
  revert current. induction l as [|c l IH]; intros current Hc; cbn [split_path]; [by constructor|].
  destruct (Z.eqb_spec (code c) 47).
  - constructor; [done|]. apply IH. constructor.
  - apply IH. unfold no_slash. rewrite chars_append. apply Forall_app_2; [done|]. by repeat constructor.
Qed.

Lemma slash_or_not a : {a = "/"} + {a ≠ "/"}.
Proof. exact (decide (a = "/")). Qed.

Lemma path_ok_rel a p : a ≠ "/" → path_ok (a :: p) ↔ Forall part_ok (a :: p).
Proof.
  intros Ha. unfold path_ok. destruct a as [|c a]; [reflexivity|].
  destruct c as [[] [] [] [] [] [] [] []]; try reflexivity. destruct a; [by destruct Ha|reflexivity].
Qed.

Lemma to_path_ok s : path_ok (to_path s).
Proof.
  assert (Hp : Forall part_ok (List.filter plain_part (split_path "" (chars s)))).
  { apply Forall_forall. intros a Ha. apply list_elem_of_In, filter_In in Ha as [Hin Ha]. split.
    - unfold plain_part in Ha. apply negb_true_iff in Ha. by apply bool_decide_eq_false in Ha.
    - apply list_elem_of_In in Hin. assert (Hs : Forall no_slash (split_path "" (chars s))) by (apply split_path_no_slash; constructor).
      rewrite Forall_forall in Hs. by apply Hs. }
  unfold to_path. set (parts := List.filter _ _) in *. clearbody parts.
  assert (Hrel : path_ok parts).
  { destruct parts as [|a parts]; [constructor|]. apply Forall_cons in Hp as [[H1 H2] Hp].
    assert (Hne : a ≠ "/") by (intros ->; apply Forall_cons in H2 as [H2 _]; by apply H2).
    apply path_ok_rel; [done|]. by constructor. }
  destruct s as [|c s]; [done|]. destruct (code c =? 47)%Z; [exact Hp|exact Hrel].
Qed.

(** [Path(str(p)) == p] *)
Lemma to_path_str p : path_ok p → to_path (path_str p) = p.
Proof.
  destruct p as [|a p]; intros Hp; [done|]. destruct (slash_or_not a) as [->|Ha].
  - change (Forall part_ok p) in Hp. unfold path_str, to_path. rewrite chars_append. change (chars "/") with [chr 47].
    cbn [app split_path]. replace (code (chr 47) =? 47)%Z with true by done. cbn [String.append].
    change (code (Ascii.Ascii true true true true false true false false)) with 47%Z. cbn [Z.eqb Pos.eqb List.filter plain_part].
    change (plain_part "") with false. cbn iota. f_equal. destruct p as [|b p]; [done|].
    by rewrite split_path_join, plain_parts.
  - apply path_ok_rel in Hp; [|done]. pose proof Hp as Hp'. apply Forall_cons in Hp' as [[Hpl Hns] _].
    assert (E : path_str (a :: p) = join "/" (a :: p)).
    { unfold path_str. destruct a as [|c a]; [reflexivity|].
      destruct c as [[] [] [] [] [] [] [] []]; try reflexivity. destruct a; [by destruct Ha|reflexivity]. }
    rewrite E. unfold to_path. rewrite split_path_join, plain_parts by done.
    destruct a as [|c a]; [set_solver|]. apply Forall_cons in Hns as [Hc _].
    assert (Ej : ∃ t, join "/" (String c a :: p) = String c t) by (destruct p; by eexists). destruct Ej as [t ->].
    by destruct (Z.eqb_spec (code c) 47).
Qed.

Lemma child_ok p name : path_ok p → part_ok name → path_ok (child p name).
Proof.
  intros Hp Hn. destruct p as [|a p]; [apply path_ok_rel; [intros ->; destruct Hn as [_ Hn]; apply Forall_cons in Hn as [Hn _]; by apply Hn|by constructor]|].
  unfold child. destruct (slash_or_not a) as [->|Ha].
  - change (Forall part_ok p) in Hp. change (Forall part_ok (p ++ [name])). apply Forall_app_2; [done|by constructor].
  - apply path_ok_rel in Hp; [|done]. rewrite <- app_comm_cons. apply path_ok_rel; [done|].
    rewrite app_comm_cons. apply Forall_app_2; [done|by constructor].
Qed.

Lemma parent_child p name : parent (child p name) = p.
Proof. unfold parent, child. by rewrite removelast_last. Qed.

(** Parts that are plain by computation. *)
Definition part_okb (s : string) : bool := plain_part s && forallb (fun c => negb (code c =? 47)%Z) (chars s).
Lemma part_okb_ok s : part_okb s = true → part_ok s.
Proof.
  intros [H1 H2]%andb_true_iff. split.
  - unfold plain_part in H1. apply negb_true_iff in H1. by apply bool_decide_eq_false in H1.
  - apply Forall_forall. intros c Hc. rewrite forallb_forall in H2. apply list_elem_of_In, H2, negb_true_iff in Hc. by apply Z.eqb_neq.
Qed.

(** Directories can be made where no file is in the way. *)
Lemma make_dirs_ok above rest d : (∀ k s, d !! (above ++ take (S k) rest) ≠ Some (Text s)) →
  ∃ d', make_dirs above rest d = (Ok tt, d').
Proof.
  revert above d. induction rest as [|part rest IH]; intros above d Hf; [by eexists|]. cbn [make_dirs].
  assert (Hf' : ∀ k s, d !! ((above ++ [part]) ++ take (S k) rest) ≠ Some (Text s)).
  { intros k. rewrite <- app_assoc. exact (Hf (S k)). }
  destruct (exists_on d (above ++ [part])) eqn:E.
  - assert (is_dir d (above ++ [part]) = true) as ->; [|by apply IH].
    unfold exists_on in E. unfold is_dir. destruct (root_path _); [done|]. simpl in *. apply bool_decide_eq_true in E as [[s|] E].
    + by destruct (Hf O s).
    + by apply bool_decide_eq_true.
  - apply IH. intros k s. destruct (decide (above ++ [part] = (above ++ [part]) ++ take (S k) rest)) as [<-|Hne].
    + rewrite lookup_insert_eq. by intros [= ?].
    + rewrite lookup_insert_ne by done. apply Hf'.
Qed.

Lemma write_ok p s d : is_dir d p = false → is_dir d (parent p) = true → io_write p s d = (Ok tt, <[p := Text s]> d).
Proof. intros H1 H2. unfold io_write. by rewrite H1, H2. Qed.

(** An action that returned ran each of its steps. *)
Ltac io_steps H := repeat (apply bind_io_ok in H as (? & ? & ? & H)).

(** Afterwards every directory on the way is there. *)
Lemma make_dirs_prefixes above rest d d' : make_dirs above rest d = (Ok tt, d') → is_dir d above = true →
  ∀ k, is_dir d' (above ++ take k rest) = true.
Proof.
  revert above d. induction rest as [|part rest IH]; intros above d Hm Ha k; cbn [make_dirs] in Hm.
  { injection Hm as <-. by rewrite take_nil, app_nil_r. }
  assert (Hstep : ∃ d1, make_dirs (above ++ [part]) rest d1 = (Ok tt, d') ∧ is_dir d1 above = true ∧ is_dir d1 (above ++ [part]) = true).
  { destruct (exists_on d (above ++ [part])) eqn:Ee.
    - destruct (is_dir d (above ++ [part])) eqn:E; [by exists d|done].
    - eexists. split; [exact Hm|]. split.
      + unfold is_dir in *. destruct (root_path above); [done|]. simpl in *. apply bool_decide_eq_true in Ha.
        apply bool_decide_eq_true. rewrite lookup_insert_ne; [done|]. intros E. apply (f_equal length) in E.
        rewrite length_app in E. simpl in E. lia.
      + unfold is_dir. rewrite lookup_insert_eq. by rewrite bool_decide_eq_true_2, orb_true_r. }
  destruct Hstep as (d1 & Hd1 & Ha1 & Hp1). destruct k as [|k].
  - cbn [take]. rewrite app_nil_r. change d' with (Ok tt, d').2. rewrite <- Hd1. by apply make_dirs_keeps.
  - cbn [take]. replace (above ++ part :: take k rest) with ((above ++ [part]) ++ take k rest) by by rewrite <- app_assoc.
    by apply (IH _ d1).
Qed.

(** Making a directory again does nothing. *)
Lemma io_mkdir_again p d d' : io_mkdir p d = (Ok tt, d') → ∀ d2, (∀ q, is_dir d' q = true → is_dir d2 q = true) →
  io_mkdir p d2 = (Ok tt, d2).
Proof.
  intros Hm d2 Hk. apply make_dirs_again. intros k. apply Hk. by apply (make_dirs_prefixes [] p d d').
Qed.

(** What a write leaves: its file, and every directory. *)
Lemma write_exists p s d d' : io_write p s d = (Ok tt, d') → exists_on d' p = true.
Proof.
  unfold io_write. destruct (is_dir d p); [done|]. destruct (is_dir d (parent p)); [|done]. intros [= <-].
  unfold exists_on. rewrite lookup_insert_eq. by rewrite bool_decide_eq_true_2, orb_true_r.
Qed.

Lemma write_keeps p s d q : is_dir d q = true → is_dir (io_write p s d).2 q = true.
Proof.
  intros Hq. unfold io_write. destruct (is_dir d p) eqn:E; [done|]. destruct (is_dir d (parent p)); [|done].
  cbn [snd]. unfold is_dir in *. destruct (root_path q); [done|]. simpl in *. apply bool_decide_eq_true in Hq.
  apply bool_decide_eq_true. rewrite lookup_insert_ne; [done|]. intros ->. rewrite Hq in E.
  by rewrite bool_decide_eq_true_2, orb_true_r in E.
Qed.
