(* ===== verification/Blake2b.v ===== *)
(** * BLAKE2b with an 8-byte digest (RFC 7693), as [hashlib.blake2b] computes it

    [types.stable_prefix_signature] hashes the cache prefix with it.  The
    unkeyed sequential mode is modelled on 64-bit words. *)

From S2P Require Import Prelude PyStr.

Local Open Scope Z_scope.

Definition mask64 : Z := Z.ones 64.
Definition add64 (a b : Z) : Z := Z.land (a + b) mask64.
Definition rotr64 (x n : Z) : Z :=
  Z.lor (Z.shiftr x n) (Z.land (Z.shiftl x (64 - n)) mask64).

Definition iv : list Z :=
  [ 7640891576956012808; 13503953896175478587; 4354685564936845355; 11912009170470909681;
    5840696475078001361; 11170449401992604703; 2270897969802886507; 6620516959819538809 ].

Definition sigma : list (list nat) :=
  [ [0;1;2;3;4;5;6;7;8;9;10;11;12;13;14;15]; [14;10;4;8;9;15;13;6;1;12;0;2;11;7;5;3];
    [11;8;12;0;5;2;15;13;10;14;3;6;7;1;9;4]; [7;9;3;1;13;12;11;14;2;6;5;10;4;0;15;8];
    [9;0;5;7;2;4;10;15;14;1;11;12;6;8;3;13]; [2;12;6;10;0;11;8;3;4;13;7;5;15;14;1;9];
    [12;5;1;15;14;13;4;10;0;7;6;3;9;2;8;11]; [13;11;7;14;12;1;3;9;5;0;15;4;8;6;2;10];
    [6;15;14;9;11;3;0;8;12;2;13;7;1;4;10;5]; [10;2;8;4;7;6;1;5;15;11;9;14;3;12;13;0];
    [0;1;2;3;4;5;6;7;8;9;10;11;12;13;14;15]; [14;10;4;8;9;15;13;6;1;12;0;2;11;7;5;3] ]%nat.

Definition word (l : list Z) (i : nat) : Z := nth i l 0.

Definition mix (v : list Z) (a b c d : nat) (x y : Z) : list Z :=
  let va := add64 (add64 (word v a) (word v b)) x in
  let vd := rotr64 (Z.lxor (word v d) va) 32 in
  let vc := add64 (word v c) vd in
  let vb := rotr64 (Z.lxor (word v b) vc) 24 in
  let va := add64 (add64 va vb) y in
  let vd := rotr64 (Z.lxor vd va) 16 in
  let vc := add64 vc vd in
  let vb := rotr64 (Z.lxor vb vc) 63 in
  <[a := va]> (<[b := vb]> (<[c := vc]> (<[d := vd]> v))).

Definition round (m v : list Z) (s : list nat) : list Z :=
  let x i := word m (nth i s 0%nat) in
  let v := mix v 0 4 8 12 (x 0%nat) (x 1%nat) in
  let v := mix v 1 5 9 13 (x 2%nat) (x 3%nat) in
  let v := mix v 2 6 10 14 (x 4%nat) (x 5%nat) in
  let v := mix v 3 7 11 15 (x 6%nat) (x 7%nat) in
  let v := mix v 0 5 10 15 (x 8%nat) (x 9%nat) in
  let v := mix v 1 6 11 12 (x 10%nat) (x 11%nat) in
  let v := mix v 2 7 8 13 (x 12%nat) (x 13%nat) in
  mix v 3 4 9 14 (x 14%nat) (x 15%nat).

Definition compress (h m : list Z) (t : Z) (last : bool) : list Z :=
  let v := h ++ iv in
  let v := <[12%nat := Z.lxor (word v 12) t]> v in
  let v := if last then <[14%nat := Z.lxor (word v 14) mask64]> v else v in
  let v := fold_left (round m) sigma v in
  map (fun i => Z.lxor (word h i) (Z.lxor (word v i) (word v (i + 8)))) (seq 0 8).

(** Little-endian words of a block padded with zeros. *)
Definition le_word (l : list Z) : Z := foldr (fun b acc => b + 256 * acc) 0 l.
Definition block_words (l : list Z) : list Z :=
  map (fun i => le_word (take 8 (drop (8 * i) l))) (seq 0 16).
Definition le_bytes (n : nat) (w : Z) : list Z :=
  map (fun i => Z.land (Z.shiftr w (8 * Z.of_nat i)) 255) (seq 0 n).

(** All blocks but the last are full; the last may be empty or partial.  The
    fuel is the number of bytes, each step but the last consuming 128. *)
Fixpoint absorb (fuel : nat) (h : list Z) (t : Z) (l : list Z) : list Z :=
  match fuel with
  | O => compress h (block_words l) (t + Z.of_nat (length l)) true
  | S f =>
      if (length l <=? 128)%nat then compress h (block_words l) (t + Z.of_nat (length l)) true
      else absorb f (compress h (block_words (take 128 l)) (t + 128) false) (t + 128) (drop 128 l)
  end.

(** [blake2b(data, digest_size=8).hexdigest()] *)
Definition blake2b_hex8 (s : string) : string :=
  let data := bytes_of s in
  let h0 := match iv with w :: r => Z.lxor w (16842752 + 8) :: r | [] => [] end in
  hex_of (le_bytes 8 (word (absorb (length data) h0 0 data) 0)).
