(* ===== verification/Config.v ===== *)
(** * [nimbusmesh_x/config.py]: experiment configurations

    Each dataclass is a record and each [from_dict] a decoder over JSON values
    that raises what the Python code raises, in the order of its keyword
    arguments.  Fields annotated [str] are stored by the code without
    conversion; a value of another type there is outside the model and decodes
    to [TypeError] ([the_str]). *)

From S2P Require Import Prelude PyFloat PyDict PyStr PyJson PyUtf8 JsonText Files.

Local Open Scope Z_scope.

(** ** Access to decoded JSON *)

(** [payload.get(k, dflt)]: only a dict has [get]. *)
Definition jfield (payload : json) (k : string) (dflt : json) : result json :=
  match payload with JObj d => Ok (jget d k dflt) | _ => Err AttributeError end.

(** [payload[k]] with a text key. *)
Definition jitem (payload : json) (k : string) : result json :=
  match payload with JObj d => get_or KeyError (dget d k) | _ => Err TypeError end.

Definition the_str (j : json) : result string :=
  match j with JStr s => Ok s | _ => Err TypeError end.

Definition the_opt_str (j : json) : result (option string) :=
  match j with JNull => Ok None | JStr s => Ok (Some s) | _ => Err TypeError end.

(** [iter(x)] *)
Definition jiter (j : json) : result (list json) :=
  match j with
  | JList l => Ok l
  | JStr s => Ok (map (fun c => JStr (String c EmptyString)) (chars s))
  | JObj d => Ok (map (fun kv => JStr kv.1) d)
  | _ => Err TypeError
  end.

(** [{k: float(v) for k, v in x.items()}] *)
Definition float_map (j : json) : result (dict string float) :=
  match j with
  | JObj d => mapR (fun kv => v ← py_float kv.2; Ok (kv.1, v)) d
  | _ => Err AttributeError
  end.

(** Unpacking into two or three names: [ValueError] on another length. *)
Definition unpack2 (j : json) : result (json * json) :=
  l ← jiter j; match l with [a; b] => Ok (a, b) | _ => Err ValueError end.
Definition unpack3 (j : json) : result (json * json * json) :=
  l ← jiter j; match l with [a; b; c] => Ok (a, b, c) | _ => Err ValueError end.

(** ** The dataclasses *)

Record DistributionConfig := {
  dc_distribution : string;
  dc_mean : float;
  dc_sigma : float;
  dc_min : Z;
  dc_max : Z
}.

Record WorkloadConfig := {
  wc_request_count : Z;
  wc_duration_s : float;
  wc_arrival_pattern : string;
  wc_prompt_tokens : DistributionConfig;
  wc_generation_tokens : DistributionConfig;
  wc_tenant_weights : dict string float;
  wc_model_mix : dict string float;
  wc_sla_mix : dict string float;
  wc_trace_path : option string;
  wc_trace_replay_speed : float;
  wc_trace_default_model : string;
  wc_trace_default_sla : string;
  wc_trace_limit : option Z;
  wc_session_reuse_probability : float;
  wc_burst_factor : float;
  wc_cache_hostility : float
}.

Record PoolSpec := {
  ps_pool_id : string;
  ps_backend_name : string;
  ps_accelerator_type : string;
  ps_supported_models : list string;
  ps_prefill_tps : float;
  ps_decode_tps : float;
  ps_memory_gb : float;
  ps_gpu_count : Z;
  ps_parallel_slots : Z;
  ps_cost_per_1m_tokens : float;
  ps_energy_proxy : float;
  ps_topology_tier : string;
  ps_premium : bool;
  ps_queue_limit : Z
}.

Record ClusterSpec := {
  cs_cluster_id : string;
  cs_zone : string;
  cs_ingress_cost : float;
  cs_network_costs : dict string float;
  cs_base_congestion : float;
  cs_pools : list PoolSpec;
  cs_gpu_topology_file : option string;
  cs_failure_windows : list (float * float);
  cs_congestion_windows : list (float * float * float)
}.

Record ExperimentConfig := {
  ec_name : string;
  ec_seed : Z;
  ec_policy : string;
  ec_workload : WorkloadConfig;
  ec_clusters : list ClusterSpec;
  ec_decision_log_path : option string;
  ec_metrics_output_path : option string;
  ec_fairness_strength : float;
  ec_target_fairness : float
}.

(** ** The decoders *)

Definition jf (l : lit) : json := JFloat (of_lit l).
#[global] Arguments jf l%_float_scope.

Definition DistributionConfig_from_dict (p : json) : result DistributionConfig :=
  distribution ← (jfield p "distribution" (JStr "lognormal") ≫= the_str);
  mean ← (jfield p "mean" (jf 1024.0) ≫= py_float);
  sigma ← (jfield p "sigma" (jf 0.7) ≫= py_float);
  min ← (jfield p "min" (JInt 32) ≫= py_int);
  max ← (jfield p "max" (JInt 32768) ≫= py_int);
  Ok {| dc_distribution := distribution; dc_mean := mean; dc_sigma := sigma;
        dc_min := min; dc_max := max |}.

Definition WorkloadConfig_from_dict (p : json) : result WorkloadConfig :=
  request_count ← (jitem p "request_count" ≫= py_int);
  duration_s ← (jfield p "duration_s" (jf 60.0) ≫= py_float);
  arrival_pattern ← (jfield p "arrival_pattern" (JStr "poisson") ≫= the_str);
  prompt_tokens ← (jfield p "prompt_tokens" (JObj []) ≫= DistributionConfig_from_dict);
  generation_tokens ← (jfield p "generation_tokens" (JObj []) ≫= DistributionConfig_from_dict);
  tenant_weights ← (jfield p "tenant_weights" (JObj [("tenant-a", jf 1.0)]) ≫= float_map);
  model_mix ← (jfield p "model_mix" (JObj [("llama-3-8b", jf 1.0)]) ≫= float_map);
  sla_mix ← (jfield p "sla_mix" (JObj [("interactive", jf 1.0)]) ≫= float_map);
  trace_path ← (jfield p "trace_path" JNull ≫= the_opt_str);
  trace_replay_speed ← (jfield p "trace_replay_speed" (jf 1.0) ≫= py_float);
  trace_default_model ← (jfield p "trace_default_model" (JStr "llama-3-8b") ≫= the_str);
  trace_default_sla ← (jfield p "trace_default_sla" (JStr "interactive") ≫= the_str);
  limit ← jfield p "trace_limit" JNull;
  trace_limit ← match limit with JNull => Ok None | _ => n ← py_int limit; Ok (Some n) end;
  session_reuse_probability ← (jfield p "session_reuse_probability" (jf 0.4) ≫= py_float);
  burst_factor ← (jfield p "burst_factor" (jf 1.0) ≫= py_float);
  cache_hostility ← (jfield p "cache_hostility" (jf 0.0) ≫= py_float);
  Ok {| wc_request_count := request_count; wc_duration_s := duration_s;
        wc_arrival_pattern := arrival_pattern; wc_prompt_tokens := prompt_tokens;
        wc_generation_tokens := generation_tokens; wc_tenant_weights := tenant_weights;
        wc_model_mix := model_mix; wc_sla_mix := sla_mix; wc_trace_path := trace_path;
        wc_trace_replay_speed := trace_replay_speed;
        wc_trace_default_model := trace_default_model; wc_trace_default_sla := trace_default_sla;
        wc_trace_limit := trace_limit; wc_session_reuse_probability := session_reuse_probability;
        wc_burst_factor := burst_factor; wc_cache_hostility := cache_hostility |}.

Definition PoolSpec_from_dict (p : json) : result PoolSpec :=
  models ← jfield p "supported_models" JNull;
  supported_models ← match models with
                     | JNull => Ok []
                     | _ => items ← jiter models; Ok (map py_str items)
                     end;
  pool_id ← (jitem p "pool_id" ≫= the_str);
  backend_name ← (jfield p "backend_name" (JStr "mock") ≫= the_str);
  accelerator_type ← (jitem p "accelerator_type" ≫= the_str);
  prefill_tps ← (jitem p "prefill_tps" ≫= py_float);
  decode_tps ← (jitem p "decode_tps" ≫= py_float);
  memory_gb ← (jitem p "memory_gb" ≫= py_float);
  gpus ← jitem p "gpu_count";
  gpu_count ← py_int gpus;
  parallel_slots ← (jfield p "parallel_slots" gpus ≫= py_int);
  cost_per_1m_tokens ← (jitem p "cost_per_1m_tokens" ≫= py_float);
  energy_proxy ← (jfield p "energy_proxy" (jf 1.0) ≫= py_float);
  topology_tier ← (jfield p "topology_tier" (JStr "pcie-fabric") ≫= the_str);
  premium ← jfield p "premium" (JBool false);
  queue_limit ← (jfield p "queue_limit" (JInt 1024) ≫= py_int);
  Ok {| ps_pool_id := pool_id; ps_backend_name := backend_name;
        ps_accelerator_type := accelerator_type; ps_supported_models := supported_models;
        ps_prefill_tps := prefill_tps; ps_decode_tps := decode_tps; ps_memory_gb := memory_gb;
        ps_gpu_count := gpu_count; ps_parallel_slots := parallel_slots;
        ps_cost_per_1m_tokens := cost_per_1m_tokens; ps_energy_proxy := energy_proxy;
        ps_topology_tier := topology_tier; ps_premium := truthy premium;
        ps_queue_limit := queue_limit |}.

Definition window2 (j : json) : result (float * float) :=
  se ← unpack2 j; s ← py_float se.1; e ← py_float se.2; Ok (s, e).

Definition window3 (j : json) : result (float * float * float) :=
  sem ← unpack3 j; s ← py_float sem.1.1; e ← py_float sem.1.2; m ← py_float sem.2; Ok (s, e, m).

Definition ClusterSpec_from_dict (p : json) : result ClusterSpec :=
  cluster_id ← (jitem p "cluster_id" ≫= the_str);
  zone ← (jitem p "zone" ≫= the_str);
  ingress_cost ← (jfield p "ingress_cost" (jf 1.0) ≫= py_float);
  network_costs ← (jfield p "network_costs" (JObj []) ≫= float_map);
  base_congestion ← (jfield p "base_congestion" (jf 0.0) ≫= py_float);
  pool_items ← (jitem p "pools" ≫= jiter);
  pools ← mapR PoolSpec_from_dict pool_items;
  gpu_topology_file ← (jfield p "gpu_topology_file" JNull ≫= the_opt_str);
  failures ← (jfield p "failure_windows" (JList []) ≫= jiter);
  failure_windows ← mapR window2 failures;
  congestions ← (jfield p "congestion_windows" (JList []) ≫= jiter);
  congestion_windows ← mapR window3 congestions;
  Ok {| cs_cluster_id := cluster_id; cs_zone := zone; cs_ingress_cost := ingress_cost;
        cs_network_costs := network_costs; cs_base_congestion := base_congestion;
        cs_pools := pools; cs_gpu_topology_file := gpu_topology_file;
        cs_failure_windows := failure_windows; cs_congestion_windows := congestion_windows |}.

Definition ExperimentConfig_from_dict (p : json) : result ExperimentConfig :=
  name ← (jfield p "name" (JStr "nimbusmesh-x-experiment") ≫= the_str);
  seed ← (jfield p "seed" (JInt 7) ≫= py_int);
  policy ← (jfield p "policy" (JStr "multi_objective") ≫= the_str);
  workload ← (jitem p "workload" ≫= WorkloadConfig_from_dict);
  cluster_items ← (jitem p "clusters" ≫= jiter);
  clusters ← mapR ClusterSpec_from_dict cluster_items;
  decision_log_path ← (jfield p "decision_log_path" JNull ≫= the_opt_str);
  metrics_output_path ← (jfield p "metrics_output_path" JNull ≫= the_opt_str);
  fairness_strength ← (jfield p "fairness_strength" (jf 0.25) ≫= py_float);
  target_fairness ← (jfield p "target_fairness" (jf 0.95) ≫= py_float);
  Ok {| ec_name := name; ec_seed := seed; ec_policy := policy; ec_workload := workload;
        ec_clusters := clusters; ec_decision_log_path := decision_log_path;
        ec_metrics_output_path := metrics_output_path; ec_fairness_strength := fairness_strength;
        ec_target_fairness := target_fairness |}.

Definition with_policy (c : ExperimentConfig) (policy : string) : ExperimentConfig :=
  {| ec_name := ec_name c; ec_seed := ec_seed c; ec_policy := policy; ec_workload := ec_workload c;
     ec_clusters := ec_clusters c; ec_decision_log_path := ec_decision_log_path c;
     ec_metrics_output_path := ec_metrics_output_path c;
     ec_fairness_strength := ec_fairness_strength c; ec_target_fairness := ec_target_fairness c |}.

Definition with_seed (c : ExperimentConfig) (seed : Z) : ExperimentConfig :=
  {| ec_name := ec_name c; ec_seed := seed; ec_policy := ec_policy c; ec_workload := ec_workload c;
     ec_clusters := ec_clusters c; ec_decision_log_path := ec_decision_log_path c;
     ec_metrics_output_path := ec_metrics_output_path c;
     ec_fairness_strength := ec_fairness_strength c; ec_target_fairness := ec_target_fairness c |}.

(** ** Writing a configuration

    The JSON text of a configuration, every field spelled out; the decoders are
    its left inverse. *)

Definition float_map_json (d : dict string float) : json := JObj (map (fun kv => (kv.1, JFloat kv.2)) d).

Definition DistributionConfig_json (c : DistributionConfig) : json :=
  JObj [("distribution", JStr (dc_distribution c)); ("mean", JFloat (dc_mean c));
        ("sigma", JFloat (dc_sigma c)); ("min", JInt (dc_min c)); ("max", JInt (dc_max c))].

Definition WorkloadConfig_json (c : WorkloadConfig) : json :=
  JObj [("request_count", JInt (wc_request_count c)); ("duration_s", JFloat (wc_duration_s c));
        ("arrival_pattern", JStr (wc_arrival_pattern c));
        ("prompt_tokens", DistributionConfig_json (wc_prompt_tokens c));
        ("generation_tokens", DistributionConfig_json (wc_generation_tokens c));
        ("tenant_weights", float_map_json (wc_tenant_weights c));
        ("model_mix", float_map_json (wc_model_mix c)); ("sla_mix", float_map_json (wc_sla_mix c));
        ("trace_path", opt_str_json (wc_trace_path c));
        ("trace_replay_speed", JFloat (wc_trace_replay_speed c));
        ("trace_default_model", JStr (wc_trace_default_model c));
        ("trace_default_sla", JStr (wc_trace_default_sla c));
        ("trace_limit", match wc_trace_limit c with Some n => JInt n | None => JNull end);
        ("session_reuse_probability", JFloat (wc_session_reuse_probability c));
        ("burst_factor", JFloat (wc_burst_factor c));
        ("cache_hostility", JFloat (wc_cache_hostility c))].

Definition PoolSpec_json (c : PoolSpec) : json :=
  JObj [("pool_id", JStr (ps_pool_id c)); ("backend_name", JStr (ps_backend_name c));
        ("accelerator_type", JStr (ps_accelerator_type c));
        ("supported_models", JList (map JStr (ps_supported_models c)));
        ("prefill_tps", JFloat (ps_prefill_tps c)); ("decode_tps", JFloat (ps_decode_tps c));
        ("memory_gb", JFloat (ps_memory_gb c)); ("gpu_count", JInt (ps_gpu_count c));
        ("parallel_slots", JInt (ps_parallel_slots c));
        ("cost_per_1m_tokens", JFloat (ps_cost_per_1m_tokens c));
        ("energy_proxy", JFloat (ps_energy_proxy c)); ("topology_tier", JStr (ps_topology_tier c));
        ("premium", JBool (ps_premium c)); ("queue_limit", JInt (ps_queue_limit c))].

Definition ClusterSpec_json (c : ClusterSpec) : json :=
  JObj [("cluster_id", JStr (cs_cluster_id c)); ("zone", JStr (cs_zone c));
        ("ingress_cost", JFloat (cs_ingress_cost c));
        ("network_costs", float_map_json (cs_network_costs c));
        ("base_congestion", JFloat (cs_base_congestion c));
        ("pools", JList (map PoolSpec_json (cs_pools c)));
        ("gpu_topology_file", opt_str_json (cs_gpu_topology_file c));
        ("failure_windows",
          JList (map (fun w => JList [JFloat w.1; JFloat w.2]) (cs_failure_windows c)));
        ("congestion_windows",
          JList (map (fun w => JList [JFloat w.1.1; JFloat w.1.2; JFloat w.2])
            (cs_congestion_windows c)))].

Definition ExperimentConfig_json (c : ExperimentConfig) : json :=
  JObj [("name", JStr (ec_name c)); ("seed", JInt (ec_seed c)); ("policy", JStr (ec_policy c));
        ("workload", WorkloadConfig_json (ec_workload c));
        ("clusters", JList (map ClusterSpec_json (ec_clusters c)));
        ("decision_log_path", opt_str_json (ec_decision_log_path c));
        ("metrics_output_path", opt_str_json (ec_metrics_output_path c));
        ("fairness_strength", JFloat (ec_fairness_strength c));
        ("target_fairness", JFloat (ec_target_fairness c))].

Lemma mapR_map {A B} (f : B → result A) (g : A → B) l :
  (∀ x, f (g x) = Ok x) → mapR f (map g l) = Ok l.
Proof. intros H. induction l as [|x l IH]; [done|]. cbn. rewrite H. cbn. by rewrite IH. Qed.

Lemma float_map_roundtrip d : float_map (float_map_json d) = Ok d.
Proof. apply mapR_map. by intros []. Qed.

Lemma opt_str_roundtrip o : the_opt_str (opt_str_json o) = Ok o.
Proof. by destruct o. Qed.

Lemma dget_hit {V} (k : string) (v : V) d : dget ((k, v) :: d) k = Some v.
Proof. simpl. by rewrite decide_True. Qed.
Lemma dget_skip {V} (k k' : string) (v : V) d : k ≠ k' → dget ((k', v) :: d) k = dget d k.
Proof. intros. simpl. by rewrite decide_False. Qed.

Lemma jfield_hit d k v dflt : dget d k = Some v → jfield (JObj d) k dflt = Ok v.
Proof. intros H. unfold jfield, jget, dget_or. by rewrite H. Qed.
Lemma jitem_hit d k v : dget d k = Some v → jitem (JObj d) k = Ok v.
Proof. intros H. unfold jitem. by rewrite H. Qed.

(** Find a key of a literal object. *)
Ltac lookup := first [apply dget_hit | rewrite dget_skip by discriminate; lookup].
Ltac decode := repeat first
  [ erewrite jfield_hit by lookup | erewrite jitem_hit by lookup ]; cbn [mbind result_bind].

Lemma DistributionConfig_roundtrip c : DistributionConfig_from_dict (DistributionConfig_json c) = Ok c.
Proof. destruct c. unfold DistributionConfig_from_dict, DistributionConfig_json. decode. reflexivity. Qed.

Lemma WorkloadConfig_roundtrip c : WorkloadConfig_from_dict (WorkloadConfig_json c) = Ok c.
Proof.
  destruct c. unfold WorkloadConfig_from_dict, WorkloadConfig_json. decode.
  rewrite !DistributionConfig_roundtrip, !float_map_roundtrip, opt_str_roundtrip.
  cbn [mbind result_bind the_str py_float py_int]. destruct wc_trace_limit0; reflexivity.
Qed.

Lemma PoolSpec_roundtrip c : PoolSpec_from_dict (PoolSpec_json c) = Ok c.
Proof.
  destruct c as [? ? ? models]. unfold PoolSpec_from_dict, PoolSpec_json. decode.
  cbn [mbind result_bind the_str py_float py_int jiter]. decode. cbn.
  assert (map py_str (map JStr models) = models) as -> by (rewrite map_map; apply map_id). reflexivity.
Qed.

Lemma ClusterSpec_roundtrip c : ClusterSpec_from_dict (ClusterSpec_json c) = Ok c.
Proof.
  destruct c. unfold ClusterSpec_from_dict, ClusterSpec_json. decode.
  rewrite float_map_roundtrip, opt_str_roundtrip. cbn [mbind result_bind the_str py_float jiter].
  rewrite (mapR_map _ _ _ PoolSpec_roundtrip). cbn [mbind result_bind].
  rewrite mapR_map by (intros; repeat match goal with w : _ * _ |- _ => destruct w end; reflexivity). cbn [mbind result_bind].
  rewrite mapR_map by (intros; repeat match goal with w : _ * _ |- _ => destruct w end; reflexivity). reflexivity.
Qed.

Lemma config_decodes (c : ExperimentConfig) : ExperimentConfig_from_dict (ExperimentConfig_json c) = Ok c.
Proof.
  destruct c. unfold ExperimentConfig_from_dict, ExperimentConfig_json. decode.
  rewrite WorkloadConfig_roundtrip, !opt_str_roundtrip. cbn [mbind result_bind the_str py_float py_int jiter].
  rewrite (mapR_map _ _ _ ClusterSpec_roundtrip). reflexivity.
Qed.

(** ** [load_config(path)] *)

Definition load_config (p : string) : io ExperimentConfig :=
  text ← io_read (to_path p);
  raw ← io_lift (loads text);
  io_lift (ExperimentConfig_from_dict raw).

(** C33: a configuration written to a file as JSON text, compact or indented, is
    loaded back unchanged, whenever its strings are text, its numbers doubles
    and its dictionaries have distinct keys. *)
Theorem config_roundtrip (c : ExperimentConfig) (indent : option nat) (p : string) (d d' : disk) :
  json_ok (ExperimentConfig_json c) →
  io_write (to_path p) (unchars (dumps_go indent 0 (ExperimentConfig_json c))) d = (Ok tt, d') →
  load_config p d' = (Ok c, d').
Proof.
  intros Hok Hw. unfold load_config, mbind, io_bind. rewrite (write_read _ _ _ _ Hw). unfold io_lift.
  by rewrite loads_dumps_go, config_decodes.
Qed.

(** A pool that does not say how many slots it has gets one per GPU, and
    the other optional fields get their documented defaults. *)
Theorem pool_defaults (pool_id accelerator : string) (ptps dtps mem cost : float) (gpus : Z) :
  PoolSpec_from_dict (JObj
    [("pool_id", JStr pool_id); ("accelerator_type", JStr accelerator);
     ("prefill_tps", JFloat ptps); ("decode_tps", JFloat dtps); ("memory_gb", JFloat mem);
     ("gpu_count", JInt gpus); ("cost_per_1m_tokens", JFloat cost)]) =
  Ok {| ps_pool_id := pool_id; ps_backend_name := "mock"; ps_accelerator_type := accelerator;
        ps_supported_models := []; ps_prefill_tps := ptps; ps_decode_tps := dtps;
        ps_memory_gb := mem; ps_gpu_count := gpus; ps_parallel_slots := gpus;
        ps_cost_per_1m_tokens := cost; ps_energy_proxy := of_lit 1.0%float;
        ps_topology_tier := "pcie-fabric"; ps_premium := false; ps_queue_limit := 1024 |}.
Proof. reflexivity. Qed.

(** ** At a concrete configuration *)

Definition small_config : ExperimentConfig :=
  {| ec_name := "small"; ec_seed := 7; ec_policy := "least_queue";
     ec_workload :=
       {| wc_request_count := 4; wc_duration_s := of_lit 60.0%float; wc_arrival_pattern := "poisson";
          wc_prompt_tokens := {| dc_distribution := "lognormal"; dc_mean := of_lit 1024.5%float; dc_sigma := of_lit 0.7%float;
                                 dc_min := 32; dc_max := 4096 |};
          wc_generation_tokens := {| dc_distribution := "normal"; dc_mean := of_lit 128.0%float; dc_sigma := of_lit 0.1%float;
                                     dc_min := 1; dc_max := 512 |};
          wc_tenant_weights := [("tenant-a", of_lit 0.3%float); ("tenant-b", of_lit 0.7%float)];
          wc_model_mix := [("llama-3-8b", of_lit 1.0%float)]; wc_sla_mix := [("interactive", of_lit 1.0%float)];
          wc_trace_path := None; wc_trace_replay_speed := of_lit 1.0%float; wc_trace_default_model := "llama-3-8b";
          wc_trace_default_sla := "interactive"; wc_trace_limit := Some 10;
          wc_session_reuse_probability := of_lit 0.4%float; wc_burst_factor := of_lit 1.0%float;
          wc_cache_hostility := of_lit 0.0%float |};
     ec_clusters := [{| cs_cluster_id := "c0"; cs_zone := "east"; cs_ingress_cost := of_lit 1.0%float;
                        cs_network_costs := [("c1", of_lit 2.5%float)]; cs_base_congestion := of_lit 0.05%float;
                        cs_pools := []; cs_gpu_topology_file := None;
                        cs_failure_windows := [(of_lit 5.0%float, of_lit 9.25%float)]; cs_congestion_windows := [] |}];
     ec_decision_log_path := Some "logs/small.jsonl"; ec_metrics_output_path := None;
     ec_fairness_strength := of_lit 0.25%float; ec_target_fairness := of_lit 0.95%float |}.

Lemma config_roundtrip_witness : ∃ d',
  io_write (to_path "small.json") (dumps_indent 2 (ExperimentConfig_json small_config)) ∅ = (Ok tt, d') ∧
  load_config "small.json" d' = (Ok small_config, d').
Proof.
  eexists. split; [reflexivity|].
  apply (config_roundtrip small_config (Some 2%nat) "small.json" ∅); [apply json_okb_ok; vm_compute; reflexivity|reflexivity].
Defined.
