(* ===== verification/Types.v ===== *)
(** * [nimbusmesh_x/types.py]: the data model shared by every component

    Each dataclass is a record whose fields carry a short prefix ([req_],
    [pool_], [cl_], [cand_], [dec_], [res_], [ts_]) because the source reuses
    field names across classes.  A constructor with a [__post_init__] is a
    [make_] function that may raise. *)

From S2P Require Import Prelude PyFloat PyOrder PyDict PyStr PyJson Blake2b.

Local Open Scope Z_scope.

(** ** Tables *)

Definition SLA_PRIORITY : dict string Z :=
  [("realtime", 3); ("interactive", 2); ("best_effort", 1)].

Definition TOPOLOGY_TIER_SCORE : dict string float :=
  [("nvlink-mesh", of_lit 1.0%float); ("nvlink-ring", of_lit 0.92%float);
   ("pcie-fabric", of_lit 0.72%float); ("ethernet", of_lit 0.55%float);
   ("cpu-fallback", of_lit 0.2%float)].

Definition MODEL_SCALE_HINTS : dict string float :=
  [("llama-3-70b", of_lit 1.35%float); ("mixtral-8x7b", of_lit 1.2%float);
   ("mistral-7b", of_lit 0.75%float); ("llama-3-8b", of_lit 0.6%float);
   ("deepseek-v2-lite", of_lit 0.95%float); ("maia-sim", of_lit 0.8%float)].

(** [x or dflt] of an optional string: [None] and the empty string are false. *)
Definition str_or (o : option string) (dflt : string) : string :=
  match o with Some (String _ _ as s) => s | _ => dflt end.

Definition stable_prefix_signature (tenant_id model_id : string)
    (session_id : option string) (salt : string) : string :=
  blake2b_hex8 (tenant_id +:+ ":" +:+ model_id +:+ ":" +:+ str_or session_id "anon"
                +:+ ":" +:+ salt).

Definition normalize_sla_class (sla_class : string) : result string :=
  match dget SLA_PRIORITY sla_class with
  | Some _ => Ok sla_class
  | None => Err ValueError
  end.

Definition model_scale (model_id : string) : float :=
  dget_or (of_lit 1.0%float) MODEL_SCALE_HINTS model_id.

Definition estimate_request_memory_gb (prompt_tokens generation_tokens : Z)
    (model_id : string) (cache_saved_tokens : Z) : float :=
  let effective_tokens := Z.max 1 (prompt_tokens + generation_tokens - cache_saved_tokens) in
  ((of_Z effective_tokens / 2048.0) * 1.15 * model_scale model_id)%float.

(** ** Requests *)

Record InferenceRequest := {
  req_request_id : string;
  req_tenant_id : string;
  req_model_id : string;
  req_prompt_tokens : Z;
  req_generation_tokens : Z;
  req_arrival_ts : float;
  req_sla_class : string;
  req_session_id : option string;
  req_prefix_signature : option string;
  req_max_latency_ms : float;
  req_metadata : dict string json
}.

(** [InferenceRequest(...)]: the checks of [__post_init__] in their order, then
    the signature derived when the caller gave none. *)
Definition make_request (request_id tenant_id model_id : string)
    (prompt_tokens generation_tokens : Z) (arrival_ts : float) (sla_class : string)
    (session_id prefix_signature : option string) (max_latency_ms : float)
    (metadata : dict string json) : result InferenceRequest :=
  _ ← normalize_sla_class sla_class;
  _ ← raise_if ((prompt_tokens <=? 0) || (generation_tokens <=? 0)) ValueError;
  _ ← raise_if (arrival_ts <? 0.0)%float ValueError;
  _ ← raise_if (max_latency_ms <=? 0.0)%float ValueError;
  let signature :=
    match prefix_signature with
    | Some s => s
    | None => stable_prefix_signature tenant_id model_id session_id
                (str_of_Z (prompt_tokens / 128) +:+ ":" +:+ str_of_Z (generation_tokens / 64))
    end in
  Ok {| req_request_id := request_id; req_tenant_id := tenant_id; req_model_id := model_id;
        req_prompt_tokens := prompt_tokens; req_generation_tokens := generation_tokens;
        req_arrival_ts := arrival_ts; req_sla_class := sla_class; req_session_id := session_id;
        req_prefix_signature := Some signature; req_max_latency_ms := max_latency_ms;
        req_metadata := metadata |}.

Definition total_tokens (r : InferenceRequest) : Z :=
  req_prompt_tokens r + req_generation_tokens r.

(** ** Pools *)

Record PoolRuntime := {
  pool_cluster_id : string;
  pool_zone : string;
  pool_pool_id : string;
  pool_backend_name : string;
  pool_accelerator_type : string;
  pool_supported_models : list string;
  pool_prefill_tps : float;
  pool_decode_tps : float;
  pool_memory_gb : float;
  pool_gpu_count : Z;
  pool_parallel_slots : Z;
  pool_cost_per_1m_tokens : float;
  pool_energy_proxy : float;
  pool_topology_tier : string;
  pool_premium : bool;
  pool_queue_limit : Z;
  (* the fields the program assigns after construction *)
  pool_congestion_score : float;
  pool_slot_available_at : list float;
  pool_active_memory_gb : float;
  pool_cache_reserved_gb : float;
  pool_decision_count : Z;
  pool_completed_count : Z;
  pool_inflight_memory : list (float * float)
}.

(** Assignment to the mutable fields of a pool, all seven at once. *)
Definition pool_update (p : PoolRuntime) (congestion : float) (slots : list float)
    (active reserved : float) (decisions completed : Z) (inflight : list (float * float)) :
    PoolRuntime :=
  {| pool_cluster_id := pool_cluster_id p; pool_zone := pool_zone p;
     pool_pool_id := pool_pool_id p; pool_backend_name := pool_backend_name p;
     pool_accelerator_type := pool_accelerator_type p;
     pool_supported_models := pool_supported_models p;
     pool_prefill_tps := pool_prefill_tps p; pool_decode_tps := pool_decode_tps p;
     pool_memory_gb := pool_memory_gb p; pool_gpu_count := pool_gpu_count p;
     pool_parallel_slots := pool_parallel_slots p;
     pool_cost_per_1m_tokens := pool_cost_per_1m_tokens p;
     pool_energy_proxy := pool_energy_proxy p; pool_topology_tier := pool_topology_tier p;
     pool_premium := pool_premium p; pool_queue_limit := pool_queue_limit p;
     pool_congestion_score := congestion; pool_slot_available_at := slots;
     pool_active_memory_gb := active; pool_cache_reserved_gb := reserved;
     pool_decision_count := decisions; pool_completed_count := completed;
     pool_inflight_memory := inflight |}.

Definition set_congestion_score (p : PoolRuntime) (c : float) : PoolRuntime :=
  pool_update p c (pool_slot_available_at p) (pool_active_memory_gb p)
    (pool_cache_reserved_gb p) (pool_decision_count p) (pool_completed_count p)
    (pool_inflight_memory p).
Definition set_cache_reserved_gb (p : PoolRuntime) (g : float) : PoolRuntime :=
  pool_update p (pool_congestion_score p) (pool_slot_available_at p) (pool_active_memory_gb p)
    g (pool_decision_count p) (pool_completed_count p) (pool_inflight_memory p).
Definition set_completed_count (p : PoolRuntime) (n : Z) : PoolRuntime :=
  pool_update p (pool_congestion_score p) (pool_slot_available_at p) (pool_active_memory_gb p)
    (pool_cache_reserved_gb p) (pool_decision_count p) n (pool_inflight_memory p).

(** [PoolRuntime.__post_init__]: a pool starts with every slot free at [0.0]. *)
Definition pool_post_init (p : PoolRuntime) : PoolRuntime :=
  match pool_slot_available_at p with
  | [] => pool_update p (pool_congestion_score p)
            (replicate (Z.to_nat (pool_parallel_slots p)) (of_lit 0.0%float))
            (pool_active_memory_gb p) (pool_cache_reserved_gb p) (pool_decision_count p)
            (pool_completed_count p) (pool_inflight_memory p)
  | _ :: _ => p
  end.

(** [PoolRuntime.refresh]: forget the requests that have finished. *)
Definition refresh_step (now : float) (acc : list (float * float) * float) (e : float * float) :
    list (float * float) * float :=
  if (now <? e.1)%float then (acc.1 ++ [e], acc.2 + e.2)%float else acc.

Definition pool_refresh (p : PoolRuntime) (now : float) : PoolRuntime :=
  let '(still_inflight, active_memory) :=
    fold_left (refresh_step now) (pool_inflight_memory p) ([], of_lit 0.0%float) in
  pool_update p (pool_congestion_score p) (pool_slot_available_at p) active_memory
    (pool_cache_reserved_gb p) (pool_decision_count p) (pool_completed_count p) still_inflight.

Definition inflight_count (p : PoolRuntime) (now : float) : Z :=
  Z.of_nat (length (filter (fun ts => (now <? ts)%float = true) (pool_slot_available_at p))).

Definition queue_delay_ms (p : PoolRuntime) (now : float) : result float :=
  earliest ← get_or ValueError (min_by fltb id (pool_slot_available_at p));
  Ok (pymax 0.0 (earliest - now) * 1000.0)%float.

Definition memory_headroom_gb (p : PoolRuntime) : float :=
  pymax 0.0 (pool_memory_gb p - pool_active_memory_gb p - pool_cache_reserved_gb p)%float.

(** ** Clusters *)

Record ClusterRuntime := {
  cl_cluster_id : string;
  cl_zone : string;
  cl_ingress_cost : float;
  cl_network_costs : dict string float;
  cl_base_congestion : float;
  cl_failure_windows : list (float * float);
  cl_congestion_windows : list (float * float * float);
  cl_pools : dict string PoolRuntime
}.

Definition set_pools (c : ClusterRuntime) (ps : dict string PoolRuntime) : ClusterRuntime :=
  {| cl_cluster_id := cl_cluster_id c; cl_zone := cl_zone c;
     cl_ingress_cost := cl_ingress_cost c; cl_network_costs := cl_network_costs c;
     cl_base_congestion := cl_base_congestion c; cl_failure_windows := cl_failure_windows c;
     cl_congestion_windows := cl_congestion_windows c; cl_pools := ps |}.

(** [start <= now <= end] *)
Definition in_window (start end_ now : float) : bool :=
  (start <=? now)%float && (now <=? end_)%float.

Definition effective_congestion (c : ClusterRuntime) (now : float) : float :=
  fold_left (fun congestion w =>
      let '(start, end_, multiplier) := w in
      if in_window start end_ now then (congestion * multiplier)%float else congestion)
    (cl_congestion_windows c) (cl_base_congestion c).

Definition unavailable (c : ClusterRuntime) (now : float) : bool :=
  existsb (fun w => in_window w.1 w.2 now) (cl_failure_windows c).

(** ** Topology *)

Record TopologyNode := {
  node_id : string;
  node_kind : string;
  node_cluster_id : string;
  node_zone : string;
  (* the metadata of a pool node: accelerator type, tier, number of GPUs *)
  node_metadata : option (string * string * Z)
}.

Record TopologyLink := {
  link_source : string;
  link_target : string;
  link_bandwidth_gbps : float;
  link_latency_us : float;
  link_cost : float
}.

(** ** Placement candidates, decisions and results *)

Record CandidatePlacement := {
  cand_cluster_id : string;
  cand_pool_id : string;
  cand_backend_name : string;
  cand_accelerator_type : string;
  cand_queue_delay_ms : float;
  cand_projected_prefill_ms : float;
  cand_projected_decode_ms : float;
  cand_expected_cache_hit_ratio : float;
  cand_expected_cache_saved_tokens : Z;
  cand_topology_affinity : float;
  cand_network_cost : float;
  cand_congestion_score : float;
  cand_memory_headroom_gb : float;
  cand_accelerator_cost_per_1m_tokens : float;
  cand_fairness_penalty : float;
  cand_premium : bool;
  cand_available : bool;
  cand_rejection_reason : option string;
  cand_score_breakdown : dict string float
}.

Definition set_score_breakdown (c : CandidatePlacement) (b : dict string float) :
    CandidatePlacement :=
  {| cand_cluster_id := cand_cluster_id c; cand_pool_id := cand_pool_id c;
     cand_backend_name := cand_backend_name c; cand_accelerator_type := cand_accelerator_type c;
     cand_queue_delay_ms := cand_queue_delay_ms c;
     cand_projected_prefill_ms := cand_projected_prefill_ms c;
     cand_projected_decode_ms := cand_projected_decode_ms c;
     cand_expected_cache_hit_ratio := cand_expected_cache_hit_ratio c;
     cand_expected_cache_saved_tokens := cand_expected_cache_saved_tokens c;
     cand_topology_affinity := cand_topology_affinity c;
     cand_network_cost := cand_network_cost c; cand_congestion_score := cand_congestion_score c;
     cand_memory_headroom_gb := cand_memory_headroom_gb c;
     cand_accelerator_cost_per_1m_tokens := cand_accelerator_cost_per_1m_tokens c;
     cand_fairness_penalty := cand_fairness_penalty c; cand_premium := cand_premium c;
     cand_available := cand_available c; cand_rejection_reason := cand_rejection_reason c;
     cand_score_breakdown := b |}.

Definition estimated_total_latency_ms (c : CandidatePlacement) : float :=
  (cand_queue_delay_ms c + cand_projected_prefill_ms c + cand_projected_decode_ms c)%float.

Record RoutingDecision := {
  dec_request_id : string;
  dec_policy_name : string;
  dec_cluster_id : string;
  dec_pool_id : string;
  dec_backend_name : string;
  dec_estimated_latency_ms : float;
  dec_estimated_queue_delay_ms : float;
  dec_estimated_cache_hit_ratio : float;
  dec_topology_affinity : float;
  dec_network_cost : float;
  dec_accelerator_cost_per_1m_tokens : float;
  dec_fairness_penalty : float;
  dec_score_breakdown : dict string float
}.

Record RequestResult := {
  res_request : InferenceRequest;
  res_decision : RoutingDecision;
  res_admitted : bool;
  res_actual_start_ts : float;
  res_completion_ts : float;
  res_queue_delay_ms : float;
  res_prefill_latency_ms : float;
  res_decode_latency_ms : float;
  res_total_latency_ms : float;
  res_cache_hit_ratio : float;
  res_cache_saved_tokens : Z;
  res_memory_gb : float;
  res_cost_usd : float;
  res_energy_proxy : float;
  res_network_cost : float;
  res_sla_met : bool;
  res_rejection_reason : option string
}.

Record TenantStats := {
  ts_submitted : Z;
  ts_completed : Z;
  ts_total_latency_ms : float;
  ts_sla_misses : Z
}.

Definition new_tenant_stats : TenantStats :=
  {| ts_submitted := 0; ts_completed := 0; ts_total_latency_ms := of_lit 0.0%float;
     ts_sla_misses := 0 |}.

(** ** Requests: construction *)

(** A request is built exactly when the SLA class is known, both token counts
    are positive, and neither time field is out of range; every refusal is a
    [ValueError]; the built request always carries a prefix signature and keeps
    the caller's fields. *)
Definition request_ok (r : InferenceRequest) : Prop :=
  is_Some (dget SLA_PRIORITY (req_sla_class r)) ∧
  0 < req_prompt_tokens r ∧ 0 < req_generation_tokens r ∧
  (req_arrival_ts r <? 0.0)%float = false ∧ (req_max_latency_ms r <=? 0.0)%float = false ∧
  is_Some (req_prefix_signature r).

Section make_request.
Context (rid tid mid : string) (pt gt : Z) (at_ : float) (sla : string).
Context (sid sig : option string) (ml : float) (md : dict string json).
Let call := make_request rid tid mid pt gt at_ sla sid sig ml md.

Lemma make_request_inv (r : InferenceRequest) : call = Ok r →
  request_ok r ∧ req_request_id r = rid ∧ req_tenant_id r = tid ∧ req_model_id r = mid ∧
  req_prompt_tokens r = pt ∧ req_generation_tokens r = gt ∧ req_arrival_ts r = at_ ∧
  req_sla_class r = sla ∧ req_session_id r = sid ∧ req_max_latency_ms r = ml ∧ req_metadata r = md ∧
  (∀ s, sig = Some s → req_prefix_signature r = Some s).
Proof.
  unfold call, make_request, normalize_sla_class, raise_if. intros H. inv_ok.
  unfold request_ok. destruct (dget SLA_PRIORITY sla) eqn:E; [|done].
  repeat match goal with H : (if ?b then _ else _) = Ok _ |- _ => destruct b eqn:?; [done|] end.
  simpl in *. repeat match goal with H : _ || _ = false |- _ => apply orb_false_iff in H as [? ?] end.
  repeat split; try done; try lia.
  by intros s ->.
Qed.

Lemma make_request_total :
  is_Some (dget SLA_PRIORITY sla) → 0 < pt → 0 < gt →
  (at_ <? 0.0)%float = false → (ml <=? 0.0)%float = false → ∃ r, call = Ok r.
Proof.
  intros [p Hp] Hpt Hgt Ha Hm. unfold call, make_request, normalize_sla_class. rewrite Hp. simpl.
  destruct (Z.leb_spec pt 0); [lia|]. destruct (Z.leb_spec gt 0); [lia|].
  simpl. rewrite Ha, Hm. simpl. by eexists.
Qed.

Lemma make_request_error (e : exn) : call = Err e → e = ValueError.
Proof.
  unfold call, make_request, normalize_sla_class, raise_if.
  destruct (dget SLA_PRIORITY sla); simpl; [|congruence].
  repeat case_match; simpl in *; congruence.
Qed.
End make_request.

(** ** Memory estimates *)

Lemma model_scale_bounds (m : string) : (0.6 <= model_scale m)%float ∧ (model_scale m <= 1.35)%float.
Proof.
  unfold model_scale, dget_or. destruct (dget MODEL_SCALE_HINTS m) as [f|] eqn:E; simpl; [|split; flit].
  apply dget_elem in E. unfold MODEL_SCALE_HINTS in E.
  repeat (apply elem_of_cons in E as [[= -> ->]|E]; [split; flit|]). by apply elem_of_nil in E.
Qed.

Lemma model_scale_finite (m : string) : finite (model_scale m) = true.
Proof. destruct (model_scale_bounds m). by eapply finite_between; [| |eassumption..]. Qed.

Lemma model_scale_pos (m : string) : (0.0 < model_scale m)%float.
Proof. destruct (model_scale_bounds m) as [H _]. eapply flt_of_le; [|exact H]. flit. Qed.

(** The estimate as a function of the tokens that are not served from cache. *)
Definition memory_of_tokens (n : Z) (model_id : string) : float :=
  ((of_Z n / 2048.0) * 1.15 * model_scale model_id)%float.

Lemma memory_of_tokens_nonneg (n : Z) (m : string) : 0 <= n → (0.0 <= memory_of_tokens n m)%float.
Proof.
  intros Hn. unfold memory_of_tokens.
  apply fmul_nonneg_pos; [apply model_scale_finite| |apply model_scale_pos].
  apply fmul_nonneg_pos; [done| |flit].
  apply fdiv_nonneg; [done|flit|by apply of_Z_nonneg].
Qed.

Lemma scale_mono (a b c : float) : finite c = true → (0.0 < c)%float → (0.0 <= a)%float →
  (a <= b)%float → (a * c <= b * c)%float.
Proof.
  intros Hf Hc Ha Hab. pose proof (flt_le _ _ Hc).
  apply fmul_mono_r; try done; eapply fle_not_nan_r, fmul_nonneg_pos; try done.
  exact (fle_trans _ _ _ Ha Hab).
Qed.

Lemma memory_of_tokens_mono (n k : Z) (m : string) : 0 <= n <= k →
  (memory_of_tokens n m <= memory_of_tokens k m)%float.
Proof.
  intros [Hn Hk]. unfold memory_of_tokens.
  assert (0.0 <= of_Z n / 2048.0)%float by (apply fdiv_nonneg; [done|flit|by apply of_Z_nonneg]).
  apply scale_mono; [apply model_scale_finite|apply model_scale_pos| |].
  - by apply fmul_nonneg_pos; [|done|flit].
  - apply scale_mono; [done|flit|done|]. apply fdiv_mono_l; [done|flit|by apply of_Z_mono].
Qed.

Lemma estimate_request_memory_gb_alt (p g s : Z) (m : string) :
  estimate_request_memory_gb p g m s = memory_of_tokens (Z.max 1 (p + g - s)) m.
Proof. done. Qed.

(** ** Pool accounting *)

(** The requests still running at [now]. *)
Definition running (now : float) (l : list (float * float)) : list (float * float) :=
  filter (fun e => (now <? e.1)%float = true) l.

Lemma refresh_fold (now : float) (l a : list (float * float)) (m : float) :
  fold_left (refresh_step now) l (a, m) =
  (a ++ running now l, fold_left fadd (map snd (running now l)) m).
Proof.
  revert a m. induction l as [|e l IH]; intros a m; simpl; [by rewrite app_nil_r|].
  unfold running in *. rewrite filter_cons. unfold refresh_step at 2. simpl.
  destruct (now <? e.1)%float eqn:E; simpl.
  - rewrite IH, <- app_assoc. done.
  - rewrite IH. done.
Qed.

Lemma pool_refresh_alt (p : PoolRuntime) (now : float) :
  pool_refresh p now =
  pool_update p (pool_congestion_score p) (pool_slot_available_at p)
    (fsum (map snd (running now (pool_inflight_memory p)))) (pool_cache_reserved_gb p)
    (pool_decision_count p) (pool_completed_count p) (running now (pool_inflight_memory p)).
Proof. unfold pool_refresh. by rewrite refresh_fold. Qed.

Lemma fsum_snoc (l : list float) (x : float) : fsum (l ++ [x]) = (fsum l + x)%float.
Proof. unfold fsum. by rewrite fold_left_app. Qed.

Lemma fsum_nonneg (l : list float) : Forall (fun x => (0.0 <= x)%float) l → (0.0 <= fsum l)%float.
Proof.
  induction l as [|x l IH] using rev_ind; intros H; [flit|].
  apply Forall_app in H as [Hl Hx]. rewrite fsum_snoc.
  apply fadd_nonneg; [exact (IH Hl)|by inversion Hx].
Qed.

(** The invariant every operation on a pool keeps: the memory figure is the sum
    over the in-flight requests, there is at least one slot, slot times and
    footprints are non-negative, and no request completes undecided. *)
Record pool_inv (p : PoolRuntime) : Prop := {
  pi_slots : pool_slot_available_at p ≠ [];
  pi_slots_nonneg : Forall (fun t => (0.0 <= t)%float) (pool_slot_available_at p);
  pi_active : pool_active_memory_gb p = fsum (map snd (pool_inflight_memory p));
  pi_inflight : Forall (fun e => (0.0 <= e.2)%float) (pool_inflight_memory p);
  pi_counts : 0 <= pool_completed_count p <= pool_decision_count p
}.

Lemma pool_refresh_inv (p : PoolRuntime) (now : float) : pool_inv p → pool_inv (pool_refresh p now).
Proof.
  intros []. rewrite pool_refresh_alt. constructor; simpl; try done.
  rewrite Forall_forall in *. intros e [_ He]%list_elem_of_filter. auto.
Qed.

(** Refreshing again at a later time is the same as refreshing once then. *)
Lemma pool_refresh_later (p : PoolRuntime) (t1 t2 : float) : (t1 <= t2)%float →
  pool_refresh (pool_refresh p t1) t2 = pool_refresh p t2.
Proof.
  intros H. rewrite !pool_refresh_alt. simpl.
  assert (running t2 (running t1 (pool_inflight_memory p)) = running t2 (pool_inflight_memory p)) as ->.
  { unfold running. rewrite list_filter_filter. apply list_filter_iff. intros [f m]; simpl.
    split; [tauto|]. intros Ht. split; [done|]. exact (fle_lt_trans _ _ _ H Ht). }
  done.
Qed.

(** ** The properties of the data model *)

(** A request is built exactly when its SLA class is known, both token
    counts are positive, the arrival time is not negative and the latency bound
    not zero or less; otherwise the constructor raises [ValueError].  The request
    built has the caller's fields, and always a prefix signature: the caller's,
    if there is one. *)
Theorem make_request_spec (rid tid mid : string) (pt gt : Z) (at_ : float) (sla : string)
    (sid sig : option string) (ml : float) (md : dict string json) :
  match make_request rid tid mid pt gt at_ sla sid sig ml md with
  | Ok r => request_ok r ∧
      (req_request_id r, req_tenant_id r, req_model_id r, req_session_id r) = (rid, tid, mid, sid) ∧
      (req_prompt_tokens r, req_generation_tokens r, req_sla_class r) = (pt, gt, sla) ∧
      (req_arrival_ts r, req_max_latency_ms r, req_metadata r) = (at_, ml, md) ∧
      (∀ s, sig = Some s → req_prefix_signature r = Some s)
  | Err e => e = ValueError ∧
      (dget SLA_PRIORITY sla = None ∨ pt <= 0 ∨ gt <= 0 ∨ (at_ < 0.0)%float ∨ (ml <= 0.0)%float)
  end.
Proof.
  destruct (make_request _ _ _ _ _ _ _ _ _ _ _) as [r|e] eqn:E.
  - destruct (make_request_inv _ _ _ _ _ _ _ _ _ _ _ _ E)
      as (H & -> & -> & -> & -> & -> & -> & -> & -> & -> & -> & Hs).
    split; [exact H|]. repeat (split; [reflexivity|]). exact Hs.
  - split; [by eapply make_request_error|].
    destruct (dget SLA_PRIORITY sla) as [p|] eqn:Es; [right|by left].
    destruct (Z.leb_spec pt 0); [by left|right]. destruct (Z.leb_spec gt 0); [by left|right].
    destruct (at_ <? 0.0)%float eqn:Ea; [by left|right].
    destruct (ml <=? 0.0)%float eqn:Em; [reflexivity|].
    destruct (make_request_total rid tid mid pt gt at_ sla sid sig ml md) as [r Hr];
      [by exists p|lia|lia|exact Ea|exact Em|congruence].
Qed.

(** The memory a request needs is never negative, never grows when more of
    its tokens are served from the cache, and never shrinks with the prompt. *)
Theorem memory_estimate_monotone (p p' g s s' : Z) (m : string) : p <= p' → s' <= s →
  (0.0 <= estimate_request_memory_gb p g m s)%float ∧
  (estimate_request_memory_gb p g m s <= estimate_request_memory_gb p' g m s')%float.
Proof.
  intros Hp Hs. rewrite !estimate_request_memory_gb_alt.
  split; [apply memory_of_tokens_nonneg; lia|apply memory_of_tokens_mono; lia].
Qed.

Lemma memory_estimate_monotone_witness :
  (estimate_request_memory_gb 500 64 "llama-3-8b" 100 <=
   estimate_request_memory_gb 500 64 "llama-3-8b" 0)%float.
Proof. apply (memory_estimate_monotone 500 500 64 100 0 "llama-3-8b"); lia. Defined.

(** Refreshing a pool forgets exactly the requests that have finished, in
    order, makes [active_memory_gb] the sum of the footprints still in flight,
    changes nothing else, and keeps the pool invariant; refreshing at successive
    times is refreshing at the last. *)
Theorem pool_refresh_spec (p : PoolRuntime) (t1 t2 : float) : pool_inv p → (t1 <= t2)%float →
  pool_inv (pool_refresh p t1) ∧
  pool_inflight_memory (pool_refresh p t1) =
    filter (fun e => (t1 < e.1)%float) (pool_inflight_memory p) ∧
  pool_slot_available_at (pool_refresh p t1) = pool_slot_available_at p ∧
  pool_refresh (pool_refresh p t1) t2 = pool_refresh p t2.
Proof.
  intros Hp Ht. split; [by apply pool_refresh_inv|]. rewrite pool_refresh_alt at 1 2. simpl.
  split; [reflexivity|]. split; [reflexivity|]. by apply pool_refresh_later.
Qed.
