(* ===== verification/Samples.v ===== *)
(** * Concrete inputs shared by the witnesses *)

From S2P Require Import Prelude PyFloat PyDict Config Types.

Local Open Scope Z_scope.

Definition sample_request : InferenceRequest :=
  {| req_request_id := "r-1"; req_tenant_id := "t"; req_model_id := "m";
     req_prompt_tokens := 512; req_generation_tokens := 64; req_arrival_ts := of_lit 10.0%float;
     req_sla_class := "interactive"; req_session_id := None; req_prefix_signature := Some "s";
     req_max_latency_ms := of_lit 900.0%float; req_metadata := [] |}.

Definition sample_decision (pool_id : string) : RoutingDecision :=
  {| dec_request_id := "r-1"; dec_policy_name := "least_queue"; dec_cluster_id := "c0";
     dec_pool_id := pool_id; dec_backend_name := "mock"; dec_estimated_latency_ms := of_lit 10.0%float;
     dec_estimated_queue_delay_ms := of_lit 0.0%float;
     dec_estimated_cache_hit_ratio := of_lit 0.0%float; dec_topology_affinity := of_lit 1.0%float;
     dec_network_cost := of_lit 0.1%float; dec_accelerator_cost_per_1m_tokens := of_lit 1.0%float;
     dec_fairness_penalty := of_lit 0.0%float; dec_score_breakdown := [] |}.

Definition sample_result (pool_id : string) (completion : float) : RequestResult :=
  {| res_request := sample_request; res_decision := sample_decision pool_id; res_admitted := true;
     res_actual_start_ts := of_lit 10.0%float; res_completion_ts := completion;
     res_queue_delay_ms := of_lit 0.0%float; res_prefill_latency_ms := of_lit 5.0%float;
     res_decode_latency_ms := of_lit 5.0%float; res_total_latency_ms := of_lit 10.0%float;
     res_cache_hit_ratio := of_lit 0.5%float; res_cache_saved_tokens := 256;
     res_memory_gb := of_lit 2.0%float; res_cost_usd := of_lit 0.0%float;
     res_energy_proxy := of_lit 0.0%float; res_network_cost := of_lit 0.1%float;
     res_sla_met := true; res_rejection_reason := None |}.

Definition sample_pool : PoolRuntime :=
  pool_post_init
  {| pool_cluster_id := "c0"; pool_zone := "z"; pool_pool_id := "p0"; pool_backend_name := "mock";
     pool_accelerator_type := "a100"; pool_supported_models := []; pool_prefill_tps := of_lit 9000.0%float;
     pool_decode_tps := of_lit 1200.0%float; pool_memory_gb := of_lit 80.0%float; pool_gpu_count := 1;
     pool_parallel_slots := 2; pool_cost_per_1m_tokens := of_lit 2.5%float;
     pool_energy_proxy := of_lit 1.0%float; pool_topology_tier := "nvlink-mesh"; pool_premium := true;
     pool_queue_limit := 64; pool_congestion_score := of_lit 0.0%float; pool_slot_available_at := [];
     pool_active_memory_gb := of_lit 0.0%float; pool_cache_reserved_gb := of_lit 0.0%float;
     pool_decision_count := 0; pool_completed_count := 0; pool_inflight_memory := [] |}.

Definition sample_candidate : CandidatePlacement :=
  {| cand_cluster_id := "c0"; cand_pool_id := "p0"; cand_backend_name := "mock";
     cand_accelerator_type := "a100"; cand_queue_delay_ms := of_lit 0.0%float;
     cand_projected_prefill_ms := of_lit 60.0%float; cand_projected_decode_ms := of_lit 50.0%float;
     cand_expected_cache_hit_ratio := of_lit 0.4%float; cand_expected_cache_saved_tokens := 128;
     cand_topology_affinity := of_lit 0.9%float; cand_network_cost := of_lit 0.3%float;
     cand_congestion_score := of_lit 0.1%float; cand_memory_headroom_gb := of_lit 80.0%float;
     cand_accelerator_cost_per_1m_tokens := of_lit 2.5%float;
     cand_fairness_penalty := of_lit 0.0%float; cand_premium := true; cand_available := true;
     cand_rejection_reason := None; cand_score_breakdown := [] |}.

Lemma sample_pool_inv : pool_inv sample_pool.
Proof.
  constructor; [vm_compute; discriminate|vm_compute; repeat constructor|flit|constructor|].
  vm_compute. split; discriminate.
Qed.

Lemma pool_refresh_spec_witness : pool_inv (pool_refresh sample_pool (of_lit 3.0%float)).
Proof.
  apply (pool_refresh_spec sample_pool (of_lit 3.0%float) (of_lit 4.0%float)); [apply sample_pool_inv|flit].
Defined.

(** ** A configuration of two clusters *)

Definition sample_spec (pool_id tier : string) : PoolSpec :=
  {| ps_pool_id := pool_id; ps_backend_name := "mock"; ps_accelerator_type := "a100";
     ps_supported_models := []; ps_prefill_tps := of_lit 9000.0%float; ps_decode_tps := of_lit 1200.0%float;
     ps_memory_gb := of_lit 80.0%float; ps_gpu_count := 2; ps_parallel_slots := 2;
     ps_cost_per_1m_tokens := of_lit 2.5%float; ps_energy_proxy := of_lit 1.0%float;
     ps_topology_tier := tier; ps_premium := true; ps_queue_limit := 64 |}.

Definition sample_cluster (id other : string) (cost : float) (file : option string) (pools : list PoolSpec) : ClusterSpec :=
  {| cs_cluster_id := id; cs_zone := "z"; cs_ingress_cost := of_lit 0.2%float;
     cs_network_costs := [("ingress", of_lit 0.1%float); (other, cost)];
     cs_base_congestion := of_lit 0.1%float; cs_pools := pools; cs_gpu_topology_file := file;
     cs_failure_windows := []; cs_congestion_windows := [] |}.

Definition sample_workload : WorkloadConfig :=
  {| wc_request_count := 4; wc_duration_s := of_lit 60.0%float; wc_arrival_pattern := "poisson";
     wc_prompt_tokens := {| dc_distribution := "lognormal"; dc_mean := of_lit 1024.0%float;
       dc_sigma := of_lit 0.7%float; dc_min := 32; dc_max := 4096 |};
     wc_generation_tokens := {| dc_distribution := "lognormal"; dc_mean := of_lit 128.0%float;
       dc_sigma := of_lit 0.7%float; dc_min := 8; dc_max := 512 |};
     wc_tenant_weights := [("t", of_lit 1.0%float); ("u", of_lit 2.0%float)];
     wc_model_mix := [("m", of_lit 1.0%float)]; wc_sla_mix := [("interactive", of_lit 1.0%float)];
     wc_trace_path := None; wc_trace_replay_speed := of_lit 1.0%float;
     wc_trace_default_model := "m"; wc_trace_default_sla := "interactive"; wc_trace_limit := None;
     wc_session_reuse_probability := of_lit 0.4%float; wc_burst_factor := of_lit 1.0%float;
     wc_cache_hostility := of_lit 0.0%float |}.

Definition sample_config (policy : string) : ExperimentConfig :=
  {| ec_name := "sample"; ec_seed := 7; ec_policy := policy; ec_workload := sample_workload;
     ec_clusters :=
       [sample_cluster "c0" "c1" (of_lit 0.4%float) (Some "topo.txt")
          [sample_spec "p0" "nvlink-mesh"; sample_spec "p1" "ethernet"];
        sample_cluster "c1" "c0" (of_lit 0.6%float) None [sample_spec "p0" "pcie-fabric"]];
     ec_decision_log_path := None; ec_metrics_output_path := None;
     ec_fairness_strength := of_lit 0.25%float; ec_target_fairness := of_lit 0.95%float |}.
