(* ===== verification/Records.v ===== *)
(** * Records as dictionaries ([dataclasses.asdict], [RequestResult.to_dict])

    The dictionaries the code writes to its logs, to Redis and to HTTP clients,
    in the order of the dataclass fields. *)

From S2P Require Import Prelude PyFloat PyDict PyJson Types Samples.

Definition floats_json (d : dict string float) : json := JObj (map (fun kv => (kv.1, JFloat kv.2)) d).

Definition request_dict (r : InferenceRequest) : dict string json :=
  [("request_id", JStr (req_request_id r)); ("tenant_id", JStr (req_tenant_id r));
   ("model_id", JStr (req_model_id r)); ("prompt_tokens", JInt (req_prompt_tokens r));
   ("generation_tokens", JInt (req_generation_tokens r)); ("arrival_ts", JFloat (req_arrival_ts r));
   ("sla_class", JStr (req_sla_class r)); ("session_id", opt_str_json (req_session_id r));
   ("prefix_signature", opt_str_json (req_prefix_signature r));
   ("max_latency_ms", JFloat (req_max_latency_ms r)); ("metadata", JObj (req_metadata r))].

Definition decision_dict (d : RoutingDecision) : dict string json :=
  [("request_id", JStr (dec_request_id d)); ("policy_name", JStr (dec_policy_name d));
   ("cluster_id", JStr (dec_cluster_id d)); ("pool_id", JStr (dec_pool_id d));
   ("backend_name", JStr (dec_backend_name d));
   ("estimated_latency_ms", JFloat (dec_estimated_latency_ms d));
   ("estimated_queue_delay_ms", JFloat (dec_estimated_queue_delay_ms d));
   ("estimated_cache_hit_ratio", JFloat (dec_estimated_cache_hit_ratio d));
   ("topology_affinity", JFloat (dec_topology_affinity d)); ("network_cost", JFloat (dec_network_cost d));
   ("accelerator_cost_per_1m_tokens", JFloat (dec_accelerator_cost_per_1m_tokens d));
   ("fairness_penalty", JFloat (dec_fairness_penalty d));
   ("score_breakdown", floats_json (dec_score_breakdown d))].

Definition candidate_dict (c : CandidatePlacement) : dict string json :=
  [("cluster_id", JStr (cand_cluster_id c)); ("pool_id", JStr (cand_pool_id c));
   ("backend_name", JStr (cand_backend_name c)); ("accelerator_type", JStr (cand_accelerator_type c));
   ("queue_delay_ms", JFloat (cand_queue_delay_ms c));
   ("projected_prefill_ms", JFloat (cand_projected_prefill_ms c));
   ("projected_decode_ms", JFloat (cand_projected_decode_ms c));
   ("expected_cache_hit_ratio", JFloat (cand_expected_cache_hit_ratio c));
   ("expected_cache_saved_tokens", JInt (cand_expected_cache_saved_tokens c));
   ("topology_affinity", JFloat (cand_topology_affinity c)); ("network_cost", JFloat (cand_network_cost c));
   ("congestion_score", JFloat (cand_congestion_score c));
   ("memory_headroom_gb", JFloat (cand_memory_headroom_gb c));
   ("accelerator_cost_per_1m_tokens", JFloat (cand_accelerator_cost_per_1m_tokens c));
   ("fairness_penalty", JFloat (cand_fairness_penalty c)); ("premium", JBool (cand_premium c));
   ("available", JBool (cand_available c)); ("rejection_reason", opt_str_json (cand_rejection_reason c));
   ("score_breakdown", floats_json (cand_score_breakdown c))].

(** [RequestResult.to_dict] *)
Definition to_dict (r : RequestResult) : dict string json :=
  [("request", JObj (request_dict (res_request r))); ("decision", JObj (decision_dict (res_decision r)));
   ("admitted", JBool (res_admitted r)); ("actual_start_ts", JFloat (res_actual_start_ts r));
   ("completion_ts", JFloat (res_completion_ts r)); ("queue_delay_ms", JFloat (res_queue_delay_ms r));
   ("prefill_latency_ms", JFloat (res_prefill_latency_ms r));
   ("decode_latency_ms", JFloat (res_decode_latency_ms r));
   ("total_latency_ms", JFloat (res_total_latency_ms r)); ("cache_hit_ratio", JFloat (res_cache_hit_ratio r));
   ("cache_saved_tokens", JInt (res_cache_saved_tokens r)); ("memory_gb", JFloat (res_memory_gb r));
   ("cost_usd", JFloat (res_cost_usd r)); ("energy_proxy", JFloat (res_energy_proxy r));
   ("network_cost", JFloat (res_network_cost r)); ("sla_met", JBool (res_sla_met r));
   ("rejection_reason", opt_str_json (res_rejection_reason r))].

(** [a | b] on dicts: the right operand's values, keys in order of appearance. *)
Definition dmerge (a b : dict string json) : dict string json :=
  fold_left (fun d kv => dset d kv.1 kv.2) b a.

(** ** Log files

    A log is a file the code appends to, one JSON object per line
    ([json.dumps(payload, sort_keys=True)]).  The files are a dict from paths to
    their lines; a line is the object that was dumped. *)
Definition log_files : Type := dict string (list json).

(** [path.open("a")]: creates the file when there is none. *)
Definition append_line (fs : log_files) (path : string) (payload : dict string json) : log_files :=
  dset fs path (dget_or [] fs path ++ [JObj payload]).

(** [path.write_text("")] *)
Definition truncate (fs : log_files) (path : string) : log_files := dset fs path [].

Definition line_count (fs : log_files) (path : string) : nat := length (dget_or [] fs path).

Lemma append_line_count fs path payload k :
  line_count (append_line fs path payload) k =
  if String.eqb k path then S (line_count fs k) else line_count fs k.
Proof.
  unfold line_count, append_line, dget_or. destruct (String.eqb_spec k path) as [->|Hne].
  - rewrite dget_set_eq. simpl. rewrite length_app. simpl. lia.
  - by rewrite dget_set_ne.
Qed.

Lemma append_line_grows fs path payload k : ∃ l,
  dget_or [] (append_line fs path payload) k = dget_or [] fs k ++ l.
Proof.
  unfold append_line, dget_or. destruct (decide (path = k)) as [->|Hne].
  - rewrite dget_set_eq. simpl. by eexists.
  - rewrite dget_set_ne by done. exists []. by rewrite app_nil_r.
Qed.
