(* ===== verification/Metrics.v ===== *)
(** * [nimbusmesh_x/metrics.py]: the metrics of a run

    [MetricsCollector] keeps every result and two counters per tenant, and
    reports quantiles, rates, costs and Jain's fairness index.  The report is the
    dict the code returns, its numbers as JSON values: a [sum] over no result is
    the int [0], every other figure a float. *)

From S2P Require Import Prelude PyFloat PyOrder PyDict PyStr PyJson PyNum Types Samples Records.

Local Open Scope Z_scope.

(** ** Helpers of the language *)

Definition fabs (a : float) : float := if (a <? 0.0)%float then (- a)%float else a.

(** [x ** 2] of a float: the square, or [OverflowError] when it is too large. *)
Definition fsquare (x : float) : result float :=
  let y := (x * x)%float in if finite x && negb (finite y) then Err OverflowError else Ok y.

(** [round(sum(l), nd)]: the sum of no number is the int [0]. *)
Definition round_sum (nd : Z) (l : list float) : json :=
  match l with [] => JInt 0 | _ :: _ => JFloat (fround nd (fsum l)) end.

(** [f"{x:.{nd}f}"] *)
Definition fmt_fixed (nd : nat) (x : float) : string :=
  match x with
  | NaN => "nan" | PInf => "inf" | NInf => "-inf"
  | Fin z =>
      let n := half_even (Z.abs z * 10 ^ Z.of_nat nd) 1 1074 in
      let digits := fmt0 (S nd) n in
      let k := (String.length digits - nd)%nat in
      (if z <? 0 then "-" else "") +:+ String.substring 0 k digits
        +:+ (match nd with O => "" | S _ => "." +:+ String.substring k nd digits end)
  end.

(** ** [_quantile] and [_jains_index] *)

Definition _quantile (values : list float) (q : float) : result float :=
  match values with
  | [] => Ok (of_lit 0.0%float)
  | _ :: _ =>
      let ordered := sort_by fltb id values in
      let index := (of_Z (Z.of_nat (length ordered) - 1) * q)%float in
      lower ← ffloor index;
      upper ← fceil index;
      if lower =? upper then py_item ordered lower else
      a ← py_item ordered lower;
      b ← py_item ordered upper;
      Ok (a + (b - a) * (index - of_Z lower))%float
  end.

Definition _jains_index (values : list float) : result float :=
  match values with
  | [] => Ok (of_lit 1.0%float)
  | _ :: _ =>
      numerator ← fsquare (fsum values);
      n ← float_of_int (Z.of_nat (length values));
      let denominator := (n * fsum (map (fun v => (v * v)%float) values))%float in
      if (denominator =? 0.0)%float then Ok (of_lit 1.0%float) else py_div numerator denominator
  end.

(** ** [MetricsCollector] *)

Record MetricsCollector := {
  mc_results : list RequestResult;
  mc_tenant_completed : dict string Z;
  mc_tenant_submitted : dict string Z
}.

Definition new_collector : MetricsCollector :=
  {| mc_results := []; mc_tenant_completed := []; mc_tenant_submitted := [] |}.

(** [d[k] += n] on a [defaultdict(int)] *)
Definition dadd (d : dict string Z) (k : string) (n : Z) : dict string Z := dset d k (dget_or 0 d k + n).

Definition mc_note_submission (m : MetricsCollector) (tenant_id : string) : MetricsCollector :=
  {| mc_results := mc_results m; mc_tenant_completed := mc_tenant_completed m;
     mc_tenant_submitted := dadd (mc_tenant_submitted m) tenant_id 1 |}.

Definition record (m : MetricsCollector) (r : RequestResult) : MetricsCollector :=
  {| mc_results := mc_results m ++ [r];
     mc_tenant_completed := dadd (mc_tenant_completed m) (req_tenant_id (res_request r)) (Z.b2z (res_admitted r));
     mc_tenant_submitted := mc_tenant_submitted m |}.

Definition admitted_results (m : MetricsCollector) : list RequestResult :=
  filter (fun r => res_admitted r = true) (mc_results m).

Definition zsum (l : list Z) : Z := fold_left Z.add l 0.

(** [sum(...) / max(1, len(latencies))] of floats *)
Definition mean_or_zero (l : list float) : result float :=
  n ← float_of_int (Z.max 1 (Z.of_nat (length l))); py_div (fsum l) n.

(** The loop over the tenants; reading an absent counter creates it. *)
Definition fairness_step (m : MetricsCollector) (acc : dict string Z * list float) (ts : string * Z) :
    result (dict string Z * list float) :=
  let completed := dtouch 0 acc.1 ts.1 in
  v ← int_div (dget_or 0 completed ts.1) (Z.max 1 ts.2);
  Ok (completed, acc.2 ++ [v]).

Definition summary (m : MetricsCollector) (duration_s : float) (policy_name config_name : string)
    (total_slots : Z) (total_memory_gb : float) : result (MetricsCollector * dict string json) :=
  let admitted := admitted_results m in
  let latencies := map res_total_latency_ms admitted in
  let prefill := map res_prefill_latency_ms admitted in
  let decode := map res_decode_latency_ms admitted in
  let tokens := zsum (map (fun r => total_tokens (res_request r)) admitted) in
  let total_cost := fsum (map res_cost_usd admitted) in
  let energy := map res_energy_proxy admitted in
  let network := map res_network_cost admitted in
  let total_cache_saved_tokens := zsum (map res_cache_saved_tokens admitted) in
  let total_busy_s := fsum (map (fun r =>
    ((res_prefill_latency_ms r + res_decode_latency_ms r) / 1000.0)%float) admitted) in
  mean_memory_gb ← mean_or_zero (map res_memory_gb admitted);
  let estimation_error := map (fun r =>
    fabs (dec_estimated_latency_ms (res_decision r) - res_total_latency_ms r)%float) admitted in
  cache_hit_ratio ← mean_or_zero (map res_cache_hit_ratio admitted);
  met ← int_div (Z.of_nat (length (filter (fun r => res_sla_met r = true) admitted)))
          (Z.max 1 (Z.of_nat (length latencies)));
  let sla_miss_rate := (1.0 - met)%float in
  '(completed, fairness_values) ←
    foldM (fairness_step m) (mc_tenant_completed m, []) (mc_tenant_submitted m);
  p50 ← _quantile latencies 0.5; p95 ← _quantile latencies 0.95; p99 ← _quantile latencies 0.99;
  f50 ← _quantile prefill 0.5; f95 ← _quantile prefill 0.95; d50 ← _quantile decode 0.5;
  tokens_f ← float_of_int tokens;
  throughput ← py_div tokens_f (pymax duration_s 0.000000001);
  requests_f ← float_of_int (Z.of_nat (length latencies));
  request_rate ← py_div requests_f (pymax duration_s 0.000000001);
  tokens_1 ← float_of_int (Z.max tokens 1);
  unit_cost ← py_div total_cost tokens_1;
  slots_f ← float_of_int (Z.max 1 total_slots);
  busy ← py_div total_busy_s (pymax (duration_s * slots_f) 0.000000001);
  memory ← py_div mean_memory_gb (pymax total_memory_gb 0.000000001);
  error ← mean_or_zero estimation_error;
  fairness ← _jains_index fairness_values;
  let num nd x := JFloat (fround nd x) in
  Ok ({| mc_results := mc_results m; mc_tenant_completed := completed;
         mc_tenant_submitted := mc_tenant_submitted m |},
      [("config_name", JStr config_name); ("policy_name", JStr policy_name);
       ("requests_total", JInt (Z.of_nat (length (mc_results m))));
       ("requests_admitted", JInt (Z.of_nat (length latencies)));
       ("p50_latency_ms", num 2 p50); ("p95_latency_ms", num 2 p95); ("p99_latency_ms", num 2 p99);
       ("p50_prefill_ms", num 2 f50); ("p95_prefill_ms", num 2 f95); ("p50_decode_ms", num 2 d50);
       ("throughput_tokens_per_s", num 2 throughput);
       ("throughput_requests_per_s", num 2 request_rate);
       ("cache_hit_ratio", num 4 cache_hit_ratio);
       ("cache_saved_tokens_total", JInt total_cache_saved_tokens);
       ("sla_miss_rate", num 4 sla_miss_rate);
       ("cost_per_1m_tokens_usd", num 4 (unit_cost * 1000000.0)%float);
       ("energy_proxy_total", round_sum 4 energy); ("network_cost_total", round_sum 4 network);
       ("gpu_utilization_proxy", num 4 (pymin 1.0 busy));
       ("memory_utilization_proxy", num 4 (pymin 1.0 memory));
       ("mean_absolute_latency_error_ms", num 4 error); ("fairness_index", num 4 fairness)]).

Definition newline : string := String (chr 10) EmptyString.

Definition render_prometheus (m : MetricsCollector) : result string :=
  let admitted := admitted_results m in
  let latencies := map res_total_latency_ms admitted in
  cache_hit_ratio ← mean_or_zero (map res_cache_hit_ratio admitted);
  p95 ← _quantile latencies 0.95;
  Ok (join newline
       ["# HELP nimbusmesh_requests_total Total number of processed requests.";
        "# TYPE nimbusmesh_requests_total counter";
        "nimbusmesh_requests_total " +:+ str_of_Z (Z.of_nat (length (mc_results m)));
        "# HELP nimbusmesh_latency_p95_ms Estimated p95 end-to-end latency.";
        "# TYPE nimbusmesh_latency_p95_ms gauge";
        "nimbusmesh_latency_p95_ms " +:+ fmt_fixed 3 p95;
        "# HELP nimbusmesh_cache_hit_ratio Mean cache hit ratio.";
        "# TYPE nimbusmesh_cache_hit_ratio gauge";
        "nimbusmesh_cache_hit_ratio " +:+ fmt_fixed 6 cache_hit_ratio] +:+ newline).

(** [write_summary]: the summary files, by path. *)
Definition write_summary (fs : dict string json) (path : option string) (report : dict string json) :
    dict string json :=
  match path with
  | None | Some EmptyString => fs
  | Some p => dset fs p (JObj report)
  end.

Example fixed_1 : fmt_fixed 3 (of_lit 12.3456%float) = "12.346". Proof. vm_compute. reflexivity. Qed.
Example fixed_2 : fmt_fixed 6 (of_lit 0.05%float) = "0.050000". Proof. vm_compute. reflexivity. Qed.
Example quantile_1 : _quantile [of_lit 3.0%float; of_lit 1.0%float; of_lit 2.0%float] 0.5 = Ok (of_lit 2.0%float).
Proof. vm_compute. reflexivity. Qed.

(** ** Quantiles *)

Lemma floor_bounds (a : float) (n : Z) : (0 <= n <= 2 ^ 53)%Z → (0.0 <= a)%float → (a <= of_Z n)%float →
  ∃ k j, ffloor a = Ok k ∧ fceil a = Ok j ∧ 0 <= k <= n ∧ 0 <= j <= n ∧ (of_Z k <= a)%float.
Proof.
  intros Hn H0 H1. assert (Hf : finite a = true).
  { apply (finite_between a 0.0 (of_Z n)); [reflexivity| |exact H0|exact H1].
    rewrite of_Z_exact by lia. reflexivity. }
  destruct a as [z| | |]; try discriminate Hf. simpl. do 2 eexists. split; [reflexivity|]. split; [reflexivity|].
  rewrite zero_lit in H0. rewrite of_Z_exact in H1 by lia.
  assert (Z0 : 0 <= z) by (by apply Z.leb_le). assert (Z1 : z <= n * unit_z) by (by apply Z.leb_le).
  rewrite !Z.shiftr_div_pow2 by done. change (2 ^ 1074) with unit_z in *. pose proof unit_z_pos as Hu.
  assert (Hk : 0 <= z / unit_z <= n).
  { split; [by apply Z.div_pos|]. apply Z.div_le_upper_bound; [done|]. lia. }
  assert (Hj : 0 <= - (- z / unit_z) <= n).
  { split.
    - assert (- z / unit_z <= 0) by (apply Z.div_le_upper_bound; lia). lia.
    - assert (- n <= - z / unit_z) by (apply Z.div_le_lower_bound; lia). lia. }
  split; [exact Hk|]. split; [exact Hj|]. rewrite of_Z_exact by lia.
  assert (Hle : (z / unit_z * unit_z <=? z)%Z = true) by (apply Z.leb_le; rewrite Z.mul_comm; by apply Z.mul_div_le).
  exact Hle.
Qed.

(** The order statistic under a quantile. *)
Lemma quantile_order_statistic (values : list float) (q : float) :
  values ≠ [] → Z.of_nat (length values) <= 2 ^ 53 → (0.0 <= q)%float → (q <= 1.0)%float →
  ∃ lower upper x lo hi, _quantile values q = Ok x ∧
    sort_by fltb id values !! lower = Some lo ∧ sort_by fltb id values !! upper = Some hi ∧
    let index := (of_Z (Z.of_nat (length values) - 1) * q)%float in
    ffloor index = Ok (Z.of_nat lower) ∧ fceil index = Ok (Z.of_nat upper) ∧
    (of_Z (Z.of_nat lower) <= index)%float ∧
    x = if (lower =? upper)%nat then lo
        else (lo + (hi - lo) * (index - of_Z (Z.of_nat lower)))%float.
Proof.
  intros Hne Hlen Hq0 Hq1. set (n := Z.of_nat (length values) - 1).
  assert (Hn : 0 <= n <= 2 ^ 53 ∧ n < Z.of_nat (length values)) by (unfold n; destruct values; simpl in *; [done|lia]).
  set (s := sort_by fltb id values). assert (Es : length s = length values) by apply sort_by_length.
  set (index := (of_Z n * q)%float).
  assert (Hfn : finite (of_Z n) = true) by (rewrite of_Z_exact by lia; reflexivity).
  assert (Hfq : finite q = true) by (apply (finite_between q 0.0 1.0); [reflexivity|reflexivity|hyp|hyp]).
  assert (H0 : (0.0 <= of_Z n)%float) by (apply of_Z_nonneg; lia).
  assert (I0 : (0.0 <= index)%float) by (exact (fmul_nonneg_fin _ _ Hfn Hfq H0 Hq0)).
  assert (I1 : (index <= of_Z n)%float) by (apply fmul_le_l; [apply of_Z_wf|exact Hfn|exact Hfq|exact H0|exact Hq1]).
  destruct (floor_bounds index n (proj1 Hn) I0 I1) as (k & j & Ek & Ej & Hk & Hj & Hki).
  destruct (py_item_ok s k) as (lo & Elo & Llo); [lia|]. destruct (py_item_ok s j) as (hi & Ehi & Lhi); [lia|].
  exists (Z.to_nat k), (Z.to_nat j).
  assert (Eq : _quantile values q = if k =? j then Ok lo else Ok (lo + (hi - lo) * (index - of_Z k))%float).
  { unfold _quantile. destruct values as [|v values]; [done|]. fold s. rewrite Es. fold n. fold index.
    rewrite Ek. cbn [mbind result_bind]. rewrite Ej. cbn [mbind result_bind]. rewrite Elo, Ehi.
    cbn [mbind result_bind]. reflexivity. }
  rewrite Eq. exists (if k =? j then lo else (lo + (hi - lo) * (index - of_Z k))%float), lo, hi.
  split; [by destruct (k =? j)|]. split; [exact Llo|]. split; [exact Lhi|]. cbv zeta. fold index.
  rewrite !Z2Nat.id by lia. split; [exact Ek|]. split; [exact Ej|]. split; [exact Hki|].
  destruct (Z.eqb_spec k j) as [->|Hkj]; [by rewrite Nat.eqb_refl|].
  destruct (Nat.eqb_spec (Z.to_nat k) (Z.to_nat j)); [lia|done].
Qed.

Lemma quantile_total values q : Z.of_nat (length values) <= 2 ^ 53 → (0.0 <= q)%float → (q <= 1.0)%float →
  is_Ok (_quantile values q).
Proof.
  intros Hl H0 H1. destruct values as [|v values]; [by eexists|].
  destruct (quantile_order_statistic (v :: values) q) as (a & b & x & ? & ? & -> & _); try done. by exists x.
Qed.

(** ** The figures of a report *)

Lemma mean_total l : Z.of_nat (length l) <= 2 ^ 53 → ∃ n, 0 < n ∧ mean_or_zero l = Ok (fsum l / of_Z n)%float ∧
  n = Z.max 1 (Z.of_nat (length l)).
Proof.
  intros Hl. exists (Z.max 1 (Z.of_nat (length l))). split; [lia|]. split; [|done]. unfold mean_or_zero.
  rewrite float_of_int_big by lia. cbn [mbind result_bind]. apply py_div_count. lia.
Qed.

Lemma unit_fsum l : Z.of_nat (length l) <= 2 ^ 53 → Forall unit_range l →
  (0.0 <= fsum l)%float ∧ (fsum l <= Fin (Z.of_nat (length l) * unit_z))%float.
Proof.
  intros Hl Hu. destruct (fsum_upper l 1 1074) as [H0 H1]; [lia|lia|lia| | |].
  - change (2 ^ 1074) with unit_z. pose proof unit_z_pos. assert (limit_z = 2 ^ 1024 * unit_z) as -> by reflexivity. nia.
  - eapply Forall_impl; [exact Hu|]. intros x [X0 X1]. rewrite one_lit in X1. split; [exact X0|exact X1].
  - rewrite Z.mul_1_r in H1. split; [exact H0|exact H1].
Qed.

Lemma mean_unit l : Z.of_nat (length l) <= 2 ^ 53 → Forall unit_range l →
  ∃ x, mean_or_zero l = Ok x ∧ unit_range x.
Proof.
  intros Hl Hu. destruct (mean_total l Hl) as (n & Hn & -> & En). eexists. split; [reflexivity|].
  destruct (unit_fsum l Hl Hu) as [S0 S1]. assert (Hn' : 0 < n <= 2 ^ 53) by lia.
  assert (Hfin : finite (of_Z n) = true) by (rewrite of_Z_exact by lia; reflexivity).
  assert (Hpos : (0.0 < of_Z n)%float).
  { apply (flt_of_le 1.0); [flit|]. rewrite one_lit. replace (Fin unit_z) with (of_Z 1) by flit. apply of_Z_mono. lia. }
  split; [by apply fdiv_nonneg|]. rewrite one_lit, <- (mean_exact n unit_z) by (try lia; rewrite <- one_lit; apply of_lit_wf; flit).
  apply fdiv_mono_l; [exact Hfin|exact Hpos|]. eapply fle_trans; [exact S1|].
  pose proof unit_z_pos as Hz.
  assert (Hle : (Z.of_nat (length l) * unit_z <=? n * unit_z)%Z = true) by (apply Z.leb_le; nia). exact Hle.
Qed.

Lemma jains_total values : Z.of_nat (length values) <= 2 ^ 53 → Forall unit_range values → is_Ok (_jains_index values).
Proof.
  intros Hl Hu. unfold _jains_index. destruct values as [|v vs]; [by eexists|]. set (l := v :: vs) in *.
  destruct (unit_fsum l Hl Hu) as [S0 S1].
  assert (S2 : (fsum l <= of_Z (2 ^ 53))%float).
  { eapply fle_trans; [exact S1|]. rewrite of_Z_exact by lia. pose proof unit_z_pos as Hz.
    assert (Hle : (Z.of_nat (length l) * unit_z <=? 2 ^ 53 * unit_z)%Z = true) by (apply Z.leb_le; nia). exact Hle. }
  assert (Hf : finite (fsum l) = true) by (apply (finite_between _ 0.0 (of_Z (2 ^ 53))); [reflexivity|flit|exact S0|exact S2]).
  assert (Hsq : is_Ok (fsquare (fsum l))).
  { unfold fsquare. assert (Hff : finite (fsum l * fsum l)%float = true).
    { apply (finite_between _ 0.0 (of_Z (2 ^ 53) * of_Z (2 ^ 53))); [reflexivity|flit| |].
      - exact (fmul_nonneg_fin _ _ Hf Hf S0 S0).
      - apply fmul_mono_nonneg; [flit|flit|exact Hf|exact S0|flit|exact S2|exact S2]. }
    rewrite Hf, Hff. simpl. by eexists. }
  destruct Hsq as [num ->]. cbn [mbind result_bind]. rewrite float_of_int_big by lia. cbn [mbind result_bind].
  set (den := (_ * _)%float). unfold py_div. destruct (den =? 0.0)%float; by eexists.
Qed.

(** ** The collector *)

Definition completed_of (m : MetricsCollector) (t : string) : Z := dget_or 0 (mc_tenant_completed m) t.
Definition submitted_of (m : MetricsCollector) (t : string) : Z := dget_or 0 (mc_tenant_submitted m) t.

Record collector_ok (m : MetricsCollector) : Prop := {
  co_length : Z.of_nat (length (mc_results m)) <= 2 ^ 53;
  co_results : Forall (fun r => 0 <= total_tokens (res_request r) <= 2 ^ 54 ∧ unit_range (res_cache_hit_ratio r))
    (mc_results m);
  co_tenants : Z.of_nat (length (mc_tenant_submitted m)) <= 2 ^ 53;
  co_submitted : dict_wf (mc_tenant_submitted m);
  co_completed t : 0 <= completed_of m t <= submitted_of m t
}.

Lemma fairness_fold m l st : (∀ t s, (t, s) ∈ l → 0 <= dget_or 0 st.1 t <= s) →
  Forall unit_range st.2 →
  ∃ st', foldM (fairness_step m) st l = Ok st' ∧ (∀ t, dget_or 0 st'.1 t = dget_or 0 st.1 t) ∧
    Forall unit_range st'.2 ∧ length st'.2 = (length st.2 + length l)%nat.
Proof.
  revert st. induction l as [|[t s] l IH]; intros [d vs] Hl Hu; simpl; [exists (d, vs); by repeat split|].
  simpl in *. assert (Hts : 0 <= dget_or 0 d t <= s) by (apply Hl; left).
  destruct (ratio_range (dget_or 0 d t) (Z.max 1 s)) as (v & Ev & Hv); [lia|lia|].
  unfold fairness_step at 2. cbn [fst snd]. rewrite dget_or_touch, Ev. cbn [mbind result_bind].
  destruct (IH (dtouch 0 d t, vs ++ [v])) as (st' & E & H1 & H2 & H3).
  - intros t' s' Hin. simpl. rewrite dget_or_touch. apply Hl. by right.
  - simpl. apply Forall_app. split; [exact Hu|]. by apply Forall_singleton.
  - exists st'. split; [exact E|]. split; [intros t'; by rewrite H1; simpl; rewrite dget_or_touch|].
    split; [exact H2|]. rewrite H3. simpl. rewrite length_app. simpl. lia.
Qed.

Lemma zsum_range l b : 0 <= b → Forall (fun n => 0 <= n <= b) l → 0 <= zsum l <= Z.of_nat (length l) * b.
Proof.
  intros Hb. unfold zsum. induction l as [|n l IH] using rev_ind; [simpl; lia|].
  intros [Hl Hn]%Forall_app. apply Forall_cons in Hn as [Hn _]. rewrite fold_left_app, length_app, Nat2Z.inj_add. simpl. specialize (IH Hl). lia.
Qed.

Lemma filter_le {A} (P : A → Prop) `{∀ x, Decision (P x)} l : (length (filter P l) <= length l)%nat.
Proof. apply length_filter. Qed.

(** A quantile does not depend on the order in which the requests
    completed. *)
Theorem quantile_order_free (l k : list float) (q : float) :
  Forall (fun v => v ≠ NaN) l → l ≡ₚ k → _quantile l q = _quantile k q.
Proof.
  intros Hl Hp. pose proof (sort_floats_perm l k Hl Hp) as Es. unfold _quantile.
  destruct l as [|x l], k as [|y k]; [done|exfalso; exact (Permutation_nil_cons Hp)|exfalso; exact (Permutation_nil_cons (Permutation_sym Hp))|].
  by rewrite Es.
Qed.

(** The quantile of level [q] in [[0, 1]] always exists, is at least the order
    statistic at the floor of [(n - 1) q] of the sorted values and is exactly it
    when [(n - 1) q] is an integer, for finite values that are not negative. *)
Theorem quantile_spec (values : list float) (q : float) :
  values ≠ [] → Z.of_nat (length values) <= 2 ^ 53 → (0.0 <= q)%float → (q <= 1.0)%float →
  Forall (fun v => wf v ∧ finite v = true ∧ (0.0 <= v)%float) values →
  ∃ k v x, _quantile values q = Ok x ∧ sort_by fltb id values !! k = Some v ∧
    ffloor (of_Z (Z.of_nat (length values) - 1) * q)%float = Ok (Z.of_nat k) ∧
    (v <= x)%float ∧
    (fceil (of_Z (Z.of_nat (length values) - 1) * q)%float = Ok (Z.of_nat k) → x = v).
Proof.
  intros Hne Hlen Hq0 Hq1 Hv.
  destruct (quantile_order_statistic values q Hne Hlen Hq0 Hq1) as (k & j & x & lo & hi & Eq & Elo & Ehi & Efl & Ece & Hki & Ex).
  cbv zeta in *. set (index := (of_Z (Z.of_nat (length values) - 1) * q)%float) in *.
  exists k, lo, x. split; [exact Eq|]. split; [exact Elo|]. split; [exact Efl|].
  assert (Hsv : Forall (fun v => wf v ∧ finite v = true ∧ (0.0 <= v)%float) (sort_by fltb id values)) by (by rewrite (sort_by_perm fltb id)).
  rewrite Forall_forall in Hsv.
  destruct (Hsv lo (list_elem_of_lookup_2 _ _ _ Elo)) as (Wlo & Flo & Zlo).
  destruct (Hsv hi (list_elem_of_lookup_2 _ _ _ Ehi)) as (Whi & Fhi & Zhi).
  assert (Nlo : lo ≠ NaN) by (intros ->; discriminate). assert (Nhi : hi ≠ NaN) by (intros ->; discriminate).
  split.
  - destruct (Nat.eqb_spec k j) as [Hkj|Hkj]; [rewrite Ex; exact (fle_refl _ Nlo)|]. rewrite Ex.
    assert (Hle : (lo <= hi)%float).
    { assert (Hss : StronglySorted (ordered fltb id) (sort_by fltb id values)).
      { apply (sort_by_sorted fltb id (P := number)). rewrite <- (sort_by_perm fltb id values).
        apply Forall_forall. intros v Hin E. unfold id in E. destruct (Hsv v Hin) as (_ & F & _). rewrite E in F. discriminate. }
      assert (Hlt : (k < j)%nat).
      { assert (Hfc : ffloor index = Ok (Z.of_nat k) ∧ fceil index = Ok (Z.of_nat j)) by done.
        destruct index as [z| | |]; try (by destruct Hfc). destruct Hfc as [F1 F2]. injection F1 as F1. injection F2 as F2.
        rewrite !Z.shiftr_div_pow2 in * by done. assert (z / 2 ^ 1074 <= - (- z / 2 ^ 1074)); [|lia].
        assert (0 < 2 ^ 1074) by done. pose proof (Z.div_mod z (2 ^ 1074)). pose proof (Z.div_mod (- z) (2 ^ 1074)).
        pose proof (Z.mod_pos_bound z (2 ^ 1074)). pose proof (Z.mod_pos_bound (- z) (2 ^ 1074)). nia. }
      pose proof (sorted_lookup _ _ Hss k j lo hi Hlt Elo Ehi) as Ho. unfold ordered, id in Ho.
      by apply (flt_nle hi lo Nhi Nlo) in Ho. }
    assert (Fi : finite index = true) by (by destruct index).
    destruct (fsub_range lo hi Whi Fhi Zlo Hle) as [D0 Fd].
    apply fadd_ge_l; [exact Wlo|exact Zlo|].
    destruct (fsub_range (of_Z (Z.of_nat k)) index) as [E0 Fe]; [apply fmul_wf|exact Fi|apply of_Z_nonneg; lia|exact Hki|].
    exact (fmul_nonneg_fin _ _ Fd Fe D0 E0).
  - intros Hc. rewrite Ece in Hc. injection Hc as Hc. apply Nat2Z.inj in Hc as ->. by rewrite Nat.eqb_refl in Ex.
Qed.

(** What [summary] returns: the parts every reader of a report relies on. *)
Record report_ok (m : MetricsCollector) (policy_name config_name : string) (report : dict string json) : Prop := {
  ro_names : dget report "config_name" = Some (JStr config_name) ∧ dget report "policy_name" = Some (JStr policy_name);
  ro_total : dget report "requests_total" = Some (JInt (Z.of_nat (length (mc_results m))));
  ro_admitted : dget report "requests_admitted" = Some (JInt (Z.of_nat (length (admitted_results m))));
  ro_sla : ∃ x, dget report "sla_miss_rate" = Some (JFloat x) ∧ unit_range x;
  ro_hit : ∃ x, dget report "cache_hit_ratio" = Some (JFloat x) ∧ unit_range x;
  ro_gpu : ∃ x, dget report "gpu_utilization_proxy" = Some (JFloat x) ∧ (x <= 1.0)%float;
  ro_memory : ∃ x, dget report "memory_utilization_proxy" = Some (JFloat x) ∧ (x <= 1.0)%float
}.

Lemma round_unit x : unit_range x → unit_range (fround 4 x).
Proof.
  intros [X0 X1]. split; [apply fround_nonneg; [lia|exact X0]|].
  assert (E : fround 4 1.0%float = of_lit 1.0%float) by flit. rewrite <- E. apply fround_mono; [lia|exact X1].
Qed.

Lemma round_capped x : (fround 4 (pymin 1.0 x) <= 1.0)%float.
Proof.
  assert (E : fround 4 1.0%float = of_lit 1.0%float) by flit. rewrite <- E at 2. apply fround_mono; [lia|].
  apply pymin_le_l. nn.
Qed.

Lemma one_minus x : unit_range x → unit_range (1.0 - x)%float.
Proof.
  intros [X0 X1]. split; [apply fsub_nonneg; [done|intros ->; vm_compute in X1; discriminate|exact X1]|].
  assert (Fx : finite x = true) by (apply (finite_between x 0.0 1.0); [reflexivity|reflexivity|exact X0|exact X1]).
  apply (fle_trans _ (1.0 - 0.0)%float); [|flit]. apply fsub_mono; [flit|exact X0| |by vm_compute].
  apply fsub_finite_not_nan; [reflexivity|]. by intros ->.
Qed.

Lemma admitted_length m : (length (admitted_results m) <= length (mc_results m))%nat.
Proof. apply length_filter. Qed.

Lemma admitted_all (P : RequestResult → Prop) m : Forall P (mc_results m) → Forall P (admitted_results m).
Proof. rewrite !Forall_forall. intros Hp r [_ Hr]%list_elem_of_filter. by apply Hp. Qed.

(** Rewrite with the success of the first call of a [do] block. *)
Ltac step E := rewrite E; cbn [mbind result_bind].
Ltac step_ok H := let x := fresh "x" in let E := fresh "E" in destruct H as [x E]; step E.

Lemma summary_ok m duration_s policy_name config_name total_slots total_memory_gb :
  collector_ok m → Z.abs total_slots <= 2 ^ 53 →
  ∃ m' report, summary m duration_s policy_name config_name total_slots total_memory_gb = Ok (m', report) ∧
    report_ok m policy_name config_name report ∧
    mc_results m' = mc_results m ∧ mc_tenant_submitted m' = mc_tenant_submitted m ∧
    (∀ t, completed_of m' t = completed_of m t).
Proof.
  intros [H1 H2 H3 H4 H5] Hs. pose proof (admitted_length m) as Ha.
  assert (Hq : ∀ (f : RequestResult → float) (q : lit), (0.0 <=? q)%float = true → (q <=? 1.0)%float = true →
    is_Ok (_quantile (map f (admitted_results m)) q)).
  { intros f q Q0 Q1. apply quantile_total; [rewrite length_map; lia|exact Q0|exact Q1]. }
  assert (Hm : ∀ f : RequestResult → float, is_Ok (mean_or_zero (map f (admitted_results m)))).
  { intros f. destruct (mean_total (map f (admitted_results m))) as (n & _ & -> & _); [rewrite length_map; lia|]. by eexists. }
  unfold summary. step_ok (Hm res_memory_gb).
  destruct (mean_unit (map res_cache_hit_ratio (admitted_results m))) as (hit & Eh & Hh);
    [rewrite length_map; lia|apply Forall_fmap, admitted_all; eapply Forall_impl; [exact H2|]; intros r [_ Hr]; exact Hr|].
  step Eh. rewrite !length_map.
  set (met := length (filter _ _)).
  assert (Hmet : (met <= length (admitted_results m))%nat) by apply length_filter.
  destruct (ratio_range (Z.of_nat met) (Z.max 1 (Z.of_nat (length (admitted_results m))))) as (miss & Emiss & Hmiss); [lia|lia|].
  step Emiss.
  destruct (fairness_fold m (mc_tenant_submitted m) (mc_tenant_completed m, [])) as ([completed vs] & Ef & Hc & Hv & Hl);
    [|constructor|].
  { intros t s Hin. pose proof (H5 t) as Ht. unfold submitted_of, completed_of, dget_or in Ht.
    by rewrite (elem_dget _ _ _ H4 Hin) in Ht. }
  step Ef. cbn [fst snd length plus] in *.
  step_ok (Hq res_total_latency_ms 0.5%float eq_refl eq_refl). step_ok (Hq res_total_latency_ms 0.95%float eq_refl eq_refl).
  step_ok (Hq res_total_latency_ms 0.99%float eq_refl eq_refl). step_ok (Hq res_prefill_latency_ms 0.5%float eq_refl eq_refl).
  step_ok (Hq res_prefill_latency_ms 0.95%float eq_refl eq_refl). step_ok (Hq res_decode_latency_ms 0.5%float eq_refl eq_refl).
  set (tokens := zsum (map (fun r => total_tokens (res_request r)) (admitted_results m))).
  assert (Ht : 0 <= tokens <= 2 ^ 107).
  { destruct (zsum_range (map (fun r => total_tokens (res_request r)) (admitted_results m)) (2 ^ 54)) as [T0 T1]; [lia| |].
    - apply Forall_fmap, admitted_all. eapply Forall_impl; [exact H2|]. intros r [Hr _]. exact Hr.
    - rewrite length_map in T1. unfold tokens. nia. }
  step (float_of_int_big tokens ltac:(lia)). step (py_div_floor (of_Z tokens) duration_s).
  step (float_of_int_big (Z.of_nat (length (admitted_results m))) ltac:(lia)).
  step (py_div_floor (of_Z (Z.of_nat (length (admitted_results m)))) duration_s).
  step (float_of_int_big (Z.max tokens 1) ltac:(lia)).
  match goal with |- context [py_div ?a (of_Z (Z.max tokens 1))] => step (py_div_count a (Z.max tokens 1) ltac:(lia)) end.
  step (float_of_int_big (Z.max 1 total_slots) ltac:(lia)).
  match goal with |- context [py_div ?a (pymax (duration_s * ?b) _)] => step (py_div_floor a (duration_s * b)%float) end.
  match goal with |- context [py_div ?a (pymax total_memory_gb _)] => step (py_div_floor a total_memory_gb) end.
  step_ok (Hm (fun r => fabs (dec_estimated_latency_ms (res_decision r) - res_total_latency_ms r)%float)).
  step_ok (jains_total vs ltac:(lia) Hv).
  do 2 eexists. split; [reflexivity|]. split; [|split; [done|split; [done|exact Hc]]].
  constructor; cbn [dget String.eqb]; try (split; reflexivity); try reflexivity.
  - eexists. split; [reflexivity|]. by apply round_unit, one_minus.
  - eexists. split; [reflexivity|]. by apply round_unit.
  - eexists. split; [reflexivity|]. apply round_capped.
  - eexists. split; [reflexivity|]. apply round_capped.
Qed.

(** The fields of a report, in order. *)
Definition report_fields : list string :=
  ["config_name"; "policy_name"; "requests_total"; "requests_admitted"; "p50_latency_ms"; "p95_latency_ms";
   "p99_latency_ms"; "p50_prefill_ms"; "p95_prefill_ms"; "p50_decode_ms"; "throughput_tokens_per_s";
   "throughput_requests_per_s"; "cache_hit_ratio"; "cache_saved_tokens_total"; "sla_miss_rate";
   "cost_per_1m_tokens_usd"; "energy_proxy_total"; "network_cost_total"; "gpu_utilization_proxy";
   "memory_utilization_proxy"; "mean_absolute_latency_error_ms"; "fairness_index"].

(** Through the steps of a report that returned. *)
Ltac summary_steps Hs :=
  repeat match type of Hs with
  | (_ ≫= _) = Ok _ => apply bind_ok in Hs; let x := fresh "x" in destruct Hs as (x & _ & Hs)
  | (let '(_, _) := ?x in _) = Ok _ => destruct x
  end.

Lemma summary_fields m duration_s policy_name config_name total_slots total_memory_gb m' report :
  summary m duration_s policy_name config_name total_slots total_memory_gb = Ok (m', report) →
  dkeys report = report_fields.
Proof.
  unfold summary. intros Hs. summary_steps Hs.
  by injection Hs as _ <-.
Qed.

(** The report leaves the results as they are. *)
Lemma summary_results m duration_s policy_name config_name total_slots total_memory_gb m' report :
  summary m duration_s policy_name config_name total_slots total_memory_gb = Ok (m', report) →
  mc_results m' = mc_results m.
Proof.
  unfold summary. intros Hs. cbv zeta in Hs. summary_steps Hs. by injection Hs as <- _.
Qed.

(** C18: the report of a run never raises, whatever its duration and its pools'
    memory: it counts the results and the admitted ones, its SLA miss rate and
    its mean cache hit ratio are between 0 and 1 and its utilisations at most 1;
    the counters it reads are unchanged. *)
Theorem summary_report m duration_s policy_name config_name total_slots total_memory_gb :
  collector_ok m → Z.abs total_slots <= 2 ^ 53 →
  ∃ m' report, summary m duration_s policy_name config_name total_slots total_memory_gb = Ok (m', report) ∧
    report_ok m policy_name config_name report ∧ ∀ t, completed_of m' t = completed_of m t.
Proof.
  intros Hm Hs. destruct (summary_ok m duration_s policy_name config_name total_slots total_memory_gb Hm Hs)
    as (m' & report & H1 & H2 & _ & _ & H3). by exists m', report.
Qed.

(** A run that admits nothing reports that every request missed its SLA. *)
Theorem no_admission_misses_all :
  ∃ m' report, summary new_collector (of_lit 60.0%float) "p" "c" 4 (of_lit 80.0%float) = Ok (m', report) ∧
    dget report "requests_admitted" = Some (JInt 0) ∧
    dget report "sla_miss_rate" = Some (JFloat (of_lit 1.0%float)).
Proof.
  eexists _, _. split; [vm_compute; reflexivity|]. split; vm_compute; reflexivity.
Qed.

(** ** At concrete inputs *)

Definition sample_collector : MetricsCollector :=
  record (record (mc_note_submission (mc_note_submission new_collector "t") "t")
    (sample_result "p0" (of_lit 12.0%float))) (sample_result "p1" (of_lit 14.0%float)).

Lemma sample_collector_ok : collector_ok sample_collector.
Proof.
  constructor; [by vm_compute| |by vm_compute|by repeat constructor; set_solver|].
  - repeat constructor; try (by vm_compute); flit.
  - intros t. unfold completed_of, submitted_of, dget_or, sample_collector. simpl.
    destruct (decide (t = "t")) as [->|Hne]; [by vm_compute|].
    by simpl.
Qed.

Lemma summary_report_witness : ∃ m' report,
  summary sample_collector (of_lit 60.0%float) "least_queue" "sample" 4 (of_lit 160.0%float) = Ok (m', report) ∧
  report_ok sample_collector "least_queue" "sample" report.
Proof.
  destruct (summary_report sample_collector (of_lit 60.0%float) "least_queue" "sample" 4 (of_lit 160.0%float))
    as (m' & report & H1 & H2 & _); [apply sample_collector_ok|by vm_compute|].
  exists m', report. split; [exact H1|exact H2].
Defined.

Definition sample_latencies : list float := [of_lit 30.0%float; of_lit 10.0%float; of_lit 20.0%float].

Lemma quantile_order_free_witness :
  _quantile sample_latencies 0.95 = _quantile (reverse sample_latencies) 0.95.
Proof.
  apply quantile_order_free; [repeat constructor; nn|]. by rewrite reverse_Permutation.
Defined.

Lemma quantile_spec_witness : ∃ k v x, _quantile sample_latencies 0.95 = Ok x ∧
  sort_by fltb id sample_latencies !! k = Some v ∧ (v <= x)%float.
Proof.
  destruct (quantile_spec sample_latencies 0.95) as (k & v & x & H1 & H2 & _ & H3 & _).
  - done.
  - by vm_compute.
  - flit.
  - flit.
  - repeat constructor; try (apply of_lit_wf; flit); flit.
  - exists k, v, x. split; [exact H1|]. split; [exact H2|exact H3].
Defined.
