(* ===== verification/Azure.v ===== *)
(** * [azure_sim/environment.py]: the simulated Azure infrastructure

    [AzureInfraSimulator] loads a description of resource groups from a YAML
    file, counts submissions and admitted completions, accumulates the cost of
    each cluster and appends to three log files.  The YAML parser and the Ray
    queue are not part of the repository: the parsed payload comes from the
    environment, and the queue is the interface [BatchQueue]. *)

From S2P Require Import Prelude PyFloat PyDict PyStr PyJson Config Types Samples Records.

Local Open Scope Z_scope.

Class BatchQueue (Q : Type) := { queue_put : Q → dict string json → Q }.

Record AzureNodePool := {
  np_name : string;
  np_gpu_type : string;
  np_memory_gb : float;
  np_network_bandwidth_gbps : float;
  np_cost_per_hour : float;
  np_node_count : Z
}.

Record AzureAksCluster := {
  aks_name : string;
  aks_region : string;
  aks_zone : string;
  aks_node_pools : list AzureNodePool
}.

(** ** [_load] *)

(** [x.get(k, [])], iterated *)
Definition list_field (payload : json) (k : string) : result (list json) :=
  j ← jfield payload k (JList []); jiter j.

Definition str_item (payload : json) (k : string) : result string := j ← jitem payload k; the_str j.

Definition load_node_pool (item : json) : result AzureNodePool :=
  name ← str_item item "name";
  gpu_type ← str_item item "gpu_type";
  memory_gb ← (j ← jitem item "memory_gb"; py_float j);
  bandwidth ← (j ← jitem item "network_bandwidth_gbps"; py_float j);
  cost ← (j ← jitem item "cost_per_hour"; py_float j);
  node_count ← (j ← jitem item "node_count"; py_int j);
  Ok {| np_name := name; np_gpu_type := gpu_type; np_memory_gb := memory_gb;
        np_network_bandwidth_gbps := bandwidth; np_cost_per_hour := cost; np_node_count := node_count |}.

Definition load_cluster (group cluster : json) : result AzureAksCluster :=
  items ← list_field cluster "node_pools";
  node_pools ← mapR load_node_pool items;
  name ← str_item cluster "name";
  region ← str_item group "region";
  zone ← str_item cluster "zone";
  Ok {| aks_name := name; aks_region := region; aks_zone := zone; aks_node_pools := node_pools |}.

Definition load_group (groups : dict string (list AzureAksCluster)) (group : json) :
    result (dict string (list AzureAksCluster)) :=
  items ← list_field group "aks_clusters";
  clusters ← mapR (load_cluster group) items;
  name ← str_item group "name";
  Ok (dset groups name clusters).

Definition _load (payload : json) : result (dict string (list AzureAksCluster)) :=
  groups ← list_field payload "resource_groups";
  foldM load_group [] groups.

(** ** The simulator *)

Section azure.
Context {Q : Type} `{BatchQueue Q}.

Record AzureInfraSimulator := {
  az_log_dir : string;
  az_available : bool;
  az_resource_groups : dict string (list AzureAksCluster);
  az_submitted : Z;
  az_completed : Z;
  az_cluster_costs : dict string float;
  az_batch_queue : option Q
}.

Definition monitor_log (az : AzureInfraSimulator) : string := az_log_dir az +:+ "/azure_monitor.log".
Definition cost_log (az : AzureInfraSimulator) : string := az_log_dir az +:+ "/azure_cost.log".
Definition batch_log (az : AzureInfraSimulator) : string := az_log_dir az +:+ "/azure_batch.log".

(** [AzureInfraSimulator(path, log_dir)]: [payload] is what [yaml.safe_load]
    gives for the file at [path], [None] without the YAML library or the file;
    [queue] is the Ray queue when it is configured. *)
Definition make_azure (payload : option json) (queue : option Q) (log_dir : string) (fs : log_files) :
    result (AzureInfraSimulator * log_files) :=
  let fs1 := truncate fs (log_dir +:+ "/azure_monitor.log") in
  let fs2 := truncate fs1 (log_dir +:+ "/azure_cost.log") in
  let fs3 := truncate fs2 (log_dir +:+ "/azure_batch.log") in
  groups ← match payload with Some p => _load p | None => Ok [] end;
  Ok ({| az_log_dir := log_dir; az_available := match payload with Some _ => true | None => false end;
         az_resource_groups := groups; az_submitted := 0; az_completed := 0; az_cluster_costs := [];
         az_batch_queue := queue |}, fs3).

Definition az_update (az : AzureInfraSimulator) (submitted completed : Z) (costs : dict string float)
    (queue : option Q) : AzureInfraSimulator :=
  {| az_log_dir := az_log_dir az; az_available := az_available az;
     az_resource_groups := az_resource_groups az; az_submitted := submitted; az_completed := completed;
     az_cluster_costs := costs; az_batch_queue := queue |}.

Definition az_note_submission (az : AzureInfraSimulator) (r : InferenceRequest) (fs : log_files) :
    AzureInfraSimulator * log_files :=
  if negb (az_available az) then (az, fs) else
  let submitted := az_submitted az + 1 in
  let queue := match az_batch_queue az with
    | Some q => Some (queue_put q [("request_id", JStr (req_request_id r)); ("tenant_id", JStr (req_tenant_id r));
                                   ("arrival_ts", JFloat (req_arrival_ts r))])
    | None => None
    end in
  (az_update az submitted (az_completed az) (az_cluster_costs az) queue,
   append_line fs (batch_log az)
     [("event", JStr "batch_submission"); ("request_id", JStr (req_request_id r));
      ("tenant_id", JStr (req_tenant_id r)); ("submitted_total", JInt submitted);
      ("ray_queue_enabled", JBool (match queue with Some _ => true | None => false end))]).

Definition az_record_result (az : AzureInfraSimulator) (r : RequestResult) (fs : log_files) :
    AzureInfraSimulator * log_files :=
  if negb (az_available az) then (az, fs) else
  let cluster := dec_cluster_id (res_decision r) in
  let cluster_cost := (dget_or (of_lit 0.0%float) (az_cluster_costs az) cluster + res_cost_usd r)%float in
  let fs1 := append_line fs (monitor_log az)
    [("event", JStr "monitor_metric"); ("request_id", JStr (req_request_id (res_request r)));
     ("cluster", JStr cluster); ("latency_ms", JFloat (res_total_latency_ms r));
     ("cache_hit_ratio", JFloat (res_cache_hit_ratio r)); ("gpu_pool", JStr (dec_pool_id (res_decision r)))] in
  let fs2 := append_line fs1 (cost_log az)
    [("event", JStr "cost_metric"); ("request_id", JStr (req_request_id (res_request r)));
     ("cluster", JStr cluster); ("request_cost_usd", JFloat (res_cost_usd r));
     ("cluster_cost_usd", JFloat (fround 6 cluster_cost))] in
  (az_update az (az_submitted az) (az_completed az + Z.b2z (res_admitted r))
     (dset (az_cluster_costs az) cluster cluster_cost) (az_batch_queue az), fs2).

Definition az_summary (az : AzureInfraSimulator) : json :=
  JObj [("available", JBool (az_available az)); ("submitted", JInt (az_submitted az));
        ("completed", JInt (az_completed az)); ("cluster_costs", floats_json (az_cluster_costs az))].

(** ** The cost of a cluster *)

(** The costs of the results placed on [cluster], in order. *)
Definition costs_on (cluster : string) (rs : list RequestResult) : list float :=
  map res_cost_usd (filter (fun r => dec_cluster_id (res_decision r) = cluster) rs).

Definition record_all (az : AzureInfraSimulator) (rs : list RequestResult) (fs : log_files) :
    AzureInfraSimulator * log_files :=
  fold_left (fun st r => az_record_result st.1 r st.2) rs (az, fs).

Lemma record_result_cost az r fs cluster : az_available az = true →
  dget_or (of_lit 0.0%float) (az_cluster_costs (az_record_result az r fs).1) cluster =
  (if String.eqb cluster (dec_cluster_id (res_decision r))
   then dget_or (of_lit 0.0%float) (az_cluster_costs az) cluster + res_cost_usd r
   else dget_or (of_lit 0.0%float) (az_cluster_costs az) cluster)%float.
Proof.
  intros Ha. unfold az_record_result. rewrite Ha. simpl. unfold dget_or at 1.
  destruct (String.eqb_spec cluster (dec_cluster_id (res_decision r))) as [->|Hne].
  - by rewrite dget_set_eq.
  - by rewrite dget_set_ne.
Qed.

Lemma record_result_frame az r fs : let az' := (az_record_result az r fs).1 in
  az_available az' = az_available az ∧ az_submitted az' = az_submitted az ∧ az_log_dir az' = az_log_dir az ∧
  az_resource_groups az' = az_resource_groups az.
Proof. unfold az_record_result. by destruct (az_available az) eqn:E; simpl. Qed.

Lemma record_all_snoc az rs r fs : record_all az (rs ++ [r]) fs =
  az_record_result (record_all az rs fs).1 r (record_all az rs fs).2.
Proof. unfold record_all. by rewrite fold_left_app. Qed.

Lemma record_all_frame az rs fs : let az' := (record_all az rs fs).1 in
  az_available az' = az_available az ∧ az_submitted az' = az_submitted az ∧ az_log_dir az' = az_log_dir az.
Proof.
  induction rs as [|r rs IH] using rev_ind; [done|]. rewrite record_all_snoc. simpl in *.
  destruct (record_result_frame (record_all az rs fs).1 r (record_all az rs fs).2) as (H1 & H2 & H3 & _).
  destruct IH as (I1 & I2 & I3). by rewrite H1, H2, H3.
Qed.

(** C34: the Azure cost report.  After any sequence of results, the cost of every
    cluster is the sum, in order, of the costs of the results placed on it, and
    the number of completions is the number of admitted results; each result
    has one line in the monitor log. *)
Theorem cluster_costs_are_sums az rs fs cluster :
  az_available az = true → az_cluster_costs az = [] → az_completed az = 0 →
  let '(az', fs') := record_all az rs fs in
  dget_or (of_lit 0.0%float) (az_cluster_costs az') cluster = fsum (costs_on cluster rs) ∧
  az_completed az' = Z.of_nat (length (filter (fun r => res_admitted r = true) rs)) ∧
  line_count fs' (monitor_log az) = (line_count fs (monitor_log az) + length rs)%nat.
Proof.
  intros Ha Hc H0. destruct (record_all az rs fs) as [az' fs'] eqn:E.
  revert az' fs' E. induction rs as [|r rs IH] using rev_ind; intros az' fs' E.
  { injection E as <- <-. rewrite Hc, H0. split; [done|]. split; [done|]. simpl. lia. }
  rewrite record_all_snoc in E. destruct (record_all az rs fs) as [az1 fs1] eqn:E1.
  destruct (IH az1 fs1 eq_refl) as (I1 & I2 & I3). cbn [fst snd] in E.
  pose proof (record_all_frame az rs fs) as (F1 & F2 & F3). rewrite E1 in F1, F2, F3. cbn [fst] in *.
  assert (Eaz : az' = (az_record_result az1 r fs1).1) by (by rewrite E).
  split; [|split].
  - rewrite Eaz, record_result_cost by congruence. unfold costs_on. rewrite filter_app, map_app.
    destruct (String.eqb_spec cluster (dec_cluster_id (res_decision r))) as [->|Hne].
    + rewrite filter_cons_True by done. rewrite filter_nil. simpl. by rewrite fsum_snoc, I1.
    + rewrite filter_cons_False by congruence. rewrite filter_nil. simpl. by rewrite app_nil_r, I1.
  - rewrite filter_app, length_app, Nat2Z.inj_add, <- I2, Eaz. unfold az_record_result. rewrite F1, Ha. simpl.
    rewrite filter_cons, filter_nil. by case_decide as Hd; destruct (res_admitted r).
  - unfold az_record_result in E. rewrite F1, Ha in E. simpl in E. injection E as _ <-.
    unfold monitor_log, cost_log in *. rewrite F3. rewrite !append_line_count, String.eqb_refl, I3, length_app.
    destruct (String.eqb_spec (az_log_dir az +:+ "/azure_monitor.log") (az_log_dir az +:+ "/azure_cost.log")) as [Hq|_].
    + exfalso. apply (inj (String.append (az_log_dir az))) in Hq. discriminate.
    + simpl. lia.
Qed.
End azure.

Arguments AzureInfraSimulator Q : clear implicits.

(** A queue as the list of what was put. *)
#[export] Instance list_queue : BatchQueue (list (dict string json)) := {| queue_put q p := q ++ [p] |}.

Definition sample_azure_payload : json :=
  JObj [("resource_groups", JList [JObj [("name", JStr "rg"); ("region", JStr "eastus");
    ("aks_clusters", JList [JObj [("name", JStr "aks0"); ("zone", JStr "1"); ("node_pools",
       JList [JObj [("name", JStr "np"); ("gpu_type", JStr "a100"); ("memory_gb", JInt 80);
                    ("network_bandwidth_gbps", JInt 200); ("cost_per_hour", JFloat (of_lit 27.2%float));
                    ("node_count", JInt 4)]])]])]])].

Definition sample_azure : AzureInfraSimulator (list (dict string json)) :=
  match make_azure (Some sample_azure_payload) (Some []) "logs" [] with
  | Ok (az, _) => az
  | Err _ => {| az_log_dir := ""; az_available := false; az_resource_groups := []; az_submitted := 0;
                az_completed := 0; az_cluster_costs := []; az_batch_queue := None |}
  end.

Example sample_azure_loads : az_available sample_azure = true ∧ dkeys (az_resource_groups sample_azure) = ["rg"].
Proof. by vm_compute. Qed.

Lemma cluster_costs_are_sums_witness :
  let rs := [sample_result "p0" (of_lit 12.0%float); sample_result "p1" (of_lit 14.0%float)] in
  let '(az', fs') := record_all sample_azure rs [] in
  dget_or (of_lit 0.0%float) (az_cluster_costs az') "c0" = fsum (costs_on "c0" rs) ∧
  az_completed az' = 2 ∧ line_count fs' "logs/azure_monitor.log" = 2%nat.
Proof.
  apply (cluster_costs_are_sums sample_azure [sample_result "p0" (of_lit 12.0%float); sample_result "p1" (of_lit 14.0%float)]
    [] "c0"); reflexivity.
Defined.
