(* ===== verification/Logs.v ===== *)
(** * Where results are written

    [nimbusmesh_x/logging_utils.py], [nimbusmesh_x/structured_logs.py],
    [nimbusmesh_x/exporters.py] and [storage/postgres_store.py]: the decision log,
    the typed log files, the CSV exports and the optional SQL store.  The SQL
    server is a third-party service: the interface [SqlConnection] with the four
    statements the code executes. *)

From S2P Require Import Prelude PyFloat PyDict PyStr PyJson Types Samples Records.

Local Open Scope Z_scope.

(** ** [StructuredDecisionLogger] *)

Definition logger_path (path : option string) : option string :=
  match path with Some EmptyString => None | _ => path end.

Definition make_logger (path : option string) (fs : log_files) : log_files :=
  match logger_path path with Some p => truncate fs p | None => fs end.

Definition emit (path : option string) (fs : log_files) (payload : dict string json) : log_files :=
  match logger_path path with Some p => append_line fs p payload | None => fs end.

(** ** [StructuredLogFanout] *)

Definition fanout_paths (base : string) : list string :=
  map (fun n => base +:+ "/" +:+ n)
    ["scheduler_decisions.log"; "cache_hits.log"; "topology_scores.log"; "latency_metrics.log";
     "failure_events.log"; "scheduler.log"; "cache.log"; "topology.log"; "latency.log"].

(** The constructor creates the missing files and keeps the others. *)
Definition make_fanout (base : string) (fs : log_files) : log_files :=
  fold_left (fun fs p => dtouch [] fs p) (fanout_paths base) fs.

Definition fanout_base (r : RequestResult) : dict string json :=
  [("timestamp", JFloat (req_arrival_ts (res_request r))); ("request_id", JStr (req_request_id (res_request r)));
   ("tenant_id", JStr (req_tenant_id (res_request r))); ("model_id", JStr (req_model_id (res_request r)));
   ("chosen_cluster", JStr (dec_cluster_id (res_decision r))); ("gpu_id", JStr (dec_pool_id (res_decision r)));
   ("backend", JStr (dec_backend_name (res_decision r)));
   ("latency_estimate_ms", JFloat (dec_estimated_latency_ms (res_decision r)));
   ("actual_latency_ms", JFloat (res_total_latency_ms r));
   ("cache_hit", JBool (0.0 <? res_cache_hit_ratio r)%float);
   ("cache_hit_ratio", JFloat (res_cache_hit_ratio r)); ("cost_usd", JFloat (res_cost_usd r))].

Definition scheduler_event (r : RequestResult) : dict string json :=
  dmerge (fanout_base r) [("type", JStr "scheduler_decision")].
Definition topology_event (r : RequestResult) : dict string json :=
  dmerge (fanout_base r) [("type", JStr "topology_score");
    ("topology_affinity", JFloat (dec_topology_affinity (res_decision r)));
    ("network_cost", JFloat (res_network_cost r))].
Definition latency_event (r : RequestResult) : dict string json :=
  dmerge (fanout_base r) [("type", JStr "latency_metric"); ("queue_delay_ms", JFloat (res_queue_delay_ms r));
    ("prefill_latency_ms", JFloat (res_prefill_latency_ms r));
    ("decode_latency_ms", JFloat (res_decode_latency_ms r)); ("sla_met", JBool (res_sla_met r))].
Definition cache_event (r : RequestResult) : dict string json :=
  dmerge (fanout_base r) [("type", JStr "cache_hit"); ("cache_saved_tokens", JInt (res_cache_saved_tokens r))].

(** Every event goes to an old and a new file. *)
Definition append_both (base old new : string) (fs : log_files) (event : dict string json) : log_files :=
  append_line (append_line fs (base +:+ "/" +:+ old) event) (base +:+ "/" +:+ new) event.

Definition emit_result (base : string) (fs : log_files) (r : RequestResult) : log_files :=
  let fs1 := append_both base "scheduler_decisions.log" "scheduler.log" fs (scheduler_event r) in
  let fs2 := append_both base "topology_scores.log" "topology.log" fs1 (topology_event r) in
  let fs3 := append_both base "latency_metrics.log" "latency.log" fs2 (latency_event r) in
  if (0.0 <? res_cache_hit_ratio r)%float
  then append_both base "cache_hits.log" "cache.log" fs3 (cache_event r) else fs3.

Definition emit_failure_event (base : string) (fs : log_files) (payload : dict string json) : log_files :=
  append_line fs (base +:+ "/failure_events.log") payload.

(** ** [ResultCSVExporter]

    A CSV file is its rows of cells; [csv.DictWriter] writes the cells in the
    order of the field names. *)
Definition csv_files : Type := dict string (list (list json)).

Definition csv_append (files : csv_files) (path : string) (fieldnames : list string) (row : dict string json) :
    result csv_files :=
  cells ← mapR (fun k => get_or KeyError (dget row k)) fieldnames;
  let rows := match dget files path with Some rows => rows | None => [map JStr fieldnames] end in
  Ok (dset files path (rows ++ [cells])).

Definition csv_tables : list (string * list string) :=
  [("latency.csv", ["config_name"; "policy_name"; "p50_latency_ms"; "p95_latency_ms"; "p99_latency_ms";
                    "mean_absolute_latency_error_ms"]);
   ("throughput.csv", ["config_name"; "policy_name"; "throughput_tokens_per_s"; "throughput_requests_per_s"]);
   ("gpu_utilization.csv", ["config_name"; "policy_name"; "gpu_utilization_proxy"; "memory_utilization_proxy";
                            "energy_proxy_total"]);
   ("cost_analysis.csv", ["config_name"; "policy_name"; "cost_per_1m_tokens_usd"; "network_cost_total";
                          "fairness_index"]);
   ("cache_hit_ratio.csv", ["config_name"; "policy_name"; "cache_hit_ratio"; "cache_saved_tokens_total";
                            "sla_miss_rate"])].

(** [report[k]] for every field of a table, then the append. *)
Definition export_table (base : string) (report : dict string json) (files : csv_files)
    (table : string * list string) : result csv_files :=
  row ← mapR (fun k => v ← get_or KeyError (dget report k); Ok (k, v)) table.2;
  csv_append files (base +:+ "/" +:+ table.1) table.2 row.

Definition export_summary (base : string) (files : csv_files) (report : dict string json) : result csv_files :=
  foldM (export_table base report) files csv_tables.

(** ** [PostgresExperimentStore] *)

Inductive statement := CreateResults | CreateSummaries | InsertResult | InsertSummary.

(** Execution in a transaction that is committed; the server may refuse. *)
Class SqlConnection (C : Type) := { sql_execute : C → statement → list json → result C }.

Section postgres.
Context {C : Type} `{SqlConnection C}.

Record PostgresExperimentStore := { pg_enabled : bool; pg_connection : C }.

Definition _ensure_tables (s : PostgresExperimentStore) : result PostgresExperimentStore :=
  if negb (pg_enabled s) then Ok s else
  c1 ← sql_execute (pg_connection s) CreateResults [];
  c2 ← sql_execute c1 CreateSummaries [];
  Ok {| pg_enabled := true; pg_connection := c2 |}.

(** Enabled with a DSN and the client library. *)
Definition make_postgres (dsn env_dsn : string) (imported : bool) (connection : C) :
    result PostgresExperimentStore :=
  let dsn := if String.eqb dsn "" then env_dsn else dsn in
  let s := {| pg_enabled := negb (String.eqb dsn "") && imported; pg_connection := connection |} in
  if pg_enabled s then _ensure_tables s else Ok s.

Definition write_result (s : PostgresExperimentStore) (config_name : string) (r : RequestResult) :
    result PostgresExperimentStore :=
  if negb (pg_enabled s) then Ok s else
  c ← sql_execute (pg_connection s) InsertResult
    [JStr (req_request_id (res_request r)); JStr config_name; JStr (dec_policy_name (res_decision r));
     JStr (req_tenant_id (res_request r)); JStr (req_model_id (res_request r));
     JStr (dec_cluster_id (res_decision r)); JStr (dec_pool_id (res_decision r));
     JFloat (res_total_latency_ms r); JFloat (res_cache_hit_ratio r); JFloat (res_cost_usd r);
     JObj (to_dict r)];
  Ok {| pg_enabled := true; pg_connection := c |}.

Definition pg_write_summary (s : PostgresExperimentStore) (config_name policy_name : string)
    (report : dict string json) : result PostgresExperimentStore :=
  if negb (pg_enabled s) then Ok s else
  c ← sql_execute (pg_connection s) InsertSummary [JStr config_name; JStr policy_name; JObj report];
  Ok {| pg_enabled := true; pg_connection := c |}.
End postgres.

Arguments PostgresExperimentStore C : clear implicits.

(** ** What one result adds to the files *)

Definition cache_hit (r : RequestResult) : bool := (0.0 <? res_cache_hit_ratio r)%float.

(** The lines [emit_result] adds to a file of the fan-out. *)
Definition fanout_lines (r : RequestResult) (name : string) : nat :=
  if existsb (String.eqb name) ["scheduler_decisions.log"; "scheduler.log"; "topology_scores.log"; "topology.log";
                          "latency_metrics.log"; "latency.log"] then 1
  else if existsb (String.eqb name) ["cache_hits.log"; "cache.log"] then (if cache_hit r then 1 else 0)
  else 0.

(** The fan-out logs one decision, one topology score and one latency line per
    result, in the old and in the new file of each kind, a cache line in both
    files exactly for a result with a cache hit, and nothing anywhere else. *)
Theorem fanout_counts (base : string) (fs : log_files) (r : RequestResult) (name : string) :
  line_count (emit_result base fs r) (base +:+ "/" +:+ name) =
  (line_count fs (base +:+ "/" +:+ name) + fanout_lines r name)%nat.
Proof.
  assert (Hinj : ∀ a, String.eqb (base +:+ "/" +:+ name) (base +:+ "/" +:+ a) = String.eqb name a).
  { intros a. destruct (String.eqb_spec name a) as [->|Hne]; [apply String.eqb_refl|].
    apply String.eqb_neq. intros E. apply (inj (String.append base)) in E. injection E as E. done. }
  unfold emit_result, fanout_lines, append_both. fold (cache_hit r).
  destruct (cache_hit r); rewrite !append_line_count, !Hinj; cbn [existsb]; clear Hinj;
    repeat match goal with
    | |- context [String.eqb ?n ?s] => is_var n; destruct (String.eqb_spec n s) as [->|?]; [simpl; lia|]
    end; simpl; lia.
Qed.

(** *** The CSV export *)

Lemma report_row (report : dict string json) ks : (∀ k, k ∈ ks → is_Some (dget report k)) →
  ∃ row, mapR (fun k => v ← get_or KeyError (dget report k); Ok (k, v)) ks = Ok row ∧
    ∀ k, k ∈ ks → dget row k = dget report k.
Proof.
  induction ks as [|k ks IH]; intros Hk; simpl; [exists []; split; [done|set_solver]|].
  destruct (Hk k) as [v Hv]; [by left|]. rewrite Hv. simpl.
  destruct IH as (row & -> & Hrow); [intros k' Hk'; apply Hk; by right|]. simpl. eexists. split; [done|].
  intros k' Hk'. simpl. case_decide as Hd; [by subst|]. apply Hrow. set_solver.
Qed.

Lemma cells_of (row report : dict string json) ks :
  (∀ k, k ∈ ks → dget row k = dget report k) → (∀ k, k ∈ ks → is_Some (dget report k)) →
  ∃ cells, mapR (fun k => get_or KeyError (dget row k)) ks = Ok cells ∧
    Forall2 (fun k v => dget report k = Some v) ks cells.
Proof.
  induction ks as [|k ks IH]; intros Hr Hk; simpl; [by exists []|].
  rewrite (Hr k) by left. destruct (Hk k) as [v Hv]; [by left|]. rewrite Hv. simpl.
  destruct IH as (cells & -> & Hc); [intros; apply Hr; by right|intros; apply Hk; by right|]. simpl.
  eexists. split; [done|]. by constructor.
Qed.

Definition table_rows (files : csv_files) (path : string) (fields : list string) : list (list json) :=
  match dget files path with Some rows => rows | None => [map JStr fields] end.

Lemma export_table_ok base report files t : (∀ k, k ∈ t.2 → is_Some (dget report k)) →
  ∃ cells, Forall2 (fun k v => dget report k = Some v) t.2 cells ∧
    export_table base report files t =
      Ok (dset files (base +:+ "/" +:+ t.1) (table_rows files (base +:+ "/" +:+ t.1) t.2 ++ [cells])).
Proof.
  intros Hk. destruct (report_row report t.2 Hk) as (row & Er & Hrow).
  destruct (cells_of row report t.2 Hrow Hk) as (cells & Ec & Hc). exists cells. split; [done|].
  unfold export_table, csv_append. rewrite Er. simpl. rewrite Ec. done.
Qed.

Lemma path_inj base a b : base +:+ "/" +:+ a = base +:+ "/" +:+ b → a = b.
Proof. intros E. apply (inj (String.append base)) in E. by injection E. Qed.

Lemma export_tables_ok base report tables files : NoDup (map fst tables) →
  (∀ t k, t ∈ tables → k ∈ t.2 → is_Some (dget report k)) →
  ∃ files', foldM (export_table base report) files tables = Ok files' ∧
    ∀ t, t ∈ tables → ∃ row, Forall2 (fun k v => dget report k = Some v) t.2 row ∧
      dget files' (base +:+ "/" +:+ t.1) = Some (table_rows files (base +:+ "/" +:+ t.1) t.2 ++ [row]).
Proof.
  intros Hnd Hk. assert (Hgen : ∀ files, ∃ files', foldM (export_table base report) files tables = Ok files' ∧
    (∀ t, t ∈ tables → ∃ row, Forall2 (fun k v => dget report k = Some v) t.2 row ∧
      dget files' (base +:+ "/" +:+ t.1) = Some (table_rows files (base +:+ "/" +:+ t.1) t.2 ++ [row])) ∧
    ∀ a, a ∉ map fst tables → dget files' (base +:+ "/" +:+ a) = dget files (base +:+ "/" +:+ a)).
  { clear files. induction tables as [|t ts IH]; intros files; simpl.
    { exists files. split; [done|]. split; [set_solver|done]. }
    inversion Hnd as [|? ? Ht Hnd']; subst.
    destruct (export_table_ok base report files t) as (cells & Hc & ->); [intros k Hin; apply (Hk t); [by left|done]|].
    simpl. destruct (IH Hnd' ltac:(intros t' k Ht' Hk'; apply (Hk t'); [by right|done])
      (dset files (base +:+ "/" +:+ t.1) (table_rows files (base +:+ "/" +:+ t.1) t.2 ++ [cells])))
      as (files' & Ef & Hts & Hother).
    exists files'. split; [done|]. split.
    - intros t' [->|Ht']%elem_of_cons.
      + exists cells. split; [done|]. rewrite Hother by done. apply dget_set_eq.
      + destruct (Hts t' Ht') as (row & Hr & Hg). exists row. split; [done|]. rewrite Hg. unfold table_rows at 1.
        rewrite dget_set_ne; [done|]. intros E%path_inj. apply Ht. rewrite E. apply list_elem_of_fmap. by exists t'.
    - intros a Ha. rewrite Hother by set_solver. apply dget_set_ne. intros E%path_inj. set_solver. }
  destruct (Hgen files) as (files' & Ef & Hts & _). by exists files'.
Qed.

Lemma csv_tables_distinct : NoDup (map fst csv_tables).
Proof. by vm_compute; repeat constructor; set_solver. Qed.

(** The CSV export writes the report it is given: from a report with every
    field the tables name, it never raises, and every table gains exactly one
    row, after a header when the file did not exist. *)
Theorem export_rows (base : string) (files : csv_files) (report : dict string json) :
  (∀ t k, t ∈ csv_tables → k ∈ t.2 → is_Some (dget report k)) →
  ∃ files', export_summary base files report = Ok files' ∧
    ∀ t, t ∈ csv_tables →
      ∃ row, Forall2 (fun k v => dget report k = Some v) t.2 row ∧
        dget files' (base +:+ "/" +:+ t.1) =
          Some (match dget files (base +:+ "/" +:+ t.1) with Some rows => rows | None => [map JStr t.2] end ++ [row]).
Proof. intros Hr. apply export_tables_ok; [|exact Hr]. apply csv_tables_distinct. Qed.

(** ** At concrete inputs *)

Definition sample_report : dict string json :=
  map (fun k => (k, JStr k)) (csv_tables ≫= snd).

Lemma export_rows_witness : ∃ files', export_summary "results" [] sample_report = Ok files' ∧
  ∃ row, dget files' "results/throughput.csv" =
    Some [map JStr ["config_name"; "policy_name"; "throughput_tokens_per_s"; "throughput_requests_per_s"]; row].
Proof.
  destruct (export_rows "results" [] sample_report) as (files' & He & Ht).
  - intros t k Ht Hk. unfold csv_tables in Ht.
    repeat (apply elem_of_cons in Ht as [->|Ht];
      [repeat (apply elem_of_cons in Hk as [->|Hk]; [eexists; reflexivity|]); by apply elem_of_nil in Hk|]).
    by apply elem_of_nil in Ht.
  - exists files'. split; [exact He|].
    destruct (Ht ("throughput.csv", ["config_name"; "policy_name"; "throughput_tokens_per_s"; "throughput_requests_per_s"]))
      as (row & _ & Hrow); [right; left|]. exists row. exact Hrow.
Defined.

