(* ===== verification/LogText.v ===== *)
(** * The text of the log files

    The loggers append [json.dumps(payload, sort_keys=True)] and a line break.
    [Logs] keeps a file as the list of its payloads; here is its text, and the
    lemma that a reader who splits it at the line breaks and parses every line
    gets the payloads back, in order: no payload prints over two lines.  [RunLog]
    applies it to the decision log of a run. *)

From S2P Require Import Prelude PyFloat PyOrder PyDict PyStr PyJson PyParse PyRepr PyUtf8 JsonText Types Samples Records Logs.

Local Open Scope Z_scope.

#[local] Abbreviation text := (list Ascii.ascii).

(** [json.dumps(payload, sort_keys=True) + "\n"] *)
Definition line_text (payload : json) : text := chars (dumps_sorted None payload) ++ [chr 10].

Definition log_text (payloads : list json) : string := unchars (flat_map line_text payloads).

(** The lines of a text that ends every line with a break. *)
Fixpoint break_lines (current l : text) : list text :=
  match l with
  | [] => match current with [] => [] | _ => [current] end
  | c :: l' => if code c =? 10 then current :: break_lines [] l' else break_lines (current ++ [c]) l'
  end.

Definition read_log (s : string) : result (list json) := mapR (fun line => loads (unchars line)) (break_lines [] (chars s)).

(** ** A payload prints on one line *)

Definition one_line (l : text) : Prop := Forall (fun c => code c ≠ 10) l.

Lemma one_line_app a b : one_line a → one_line b → one_line (a ++ b).
Proof. apply Forall_app_2. Qed.

Lemma one_line_digits l : digits l → one_line l.
Proof. intros Hl. eapply Forall_impl; [exact Hl|]. intros c Hc%digit_code. simpl. lia. Qed.

Lemma one_line_lit l : forallb (fun c => negb (code c =? 10)) l = true → one_line l.
Proof.
  intros Hl. apply Forall_forall. intros c Hc. rewrite forallb_forall in Hl. apply Z.eqb_neq, negb_true_iff, Hl.
  by apply list_elem_of_In.
Qed.

Lemma one_line_number l : number_shape l → one_line l.
Proof. intros Hl%number_shape_chars. eapply Forall_impl; [exact Hl|]. intros c [Hc|Hc]; lia. Qed.

Lemma one_line_int n : one_line (chars (str_of_Z n)).
Proof.
  assert (Hpos : ∀ m, 0 <= m → one_line (chars (str_of_Z m))) by (intros m Hm; by apply one_line_digits, str_of_nonneg).
  destruct n as [|p|p]; [by apply Hpos|by apply Hpos|]. rewrite str_of_neg. constructor; [done|by apply Hpos].
Qed.

Lemma one_line_float f : wf f → one_line (chars (json_float f)).
Proof.
  destruct f as [[|p|p]| | |]; intros Hf; try (by apply one_line_lit); cbn [json_float float_repr].
  - by apply one_line_number, repr_pos_shape.
  - rewrite chars_append. constructor; [done|]. apply one_line_number, repr_pos_shape; [done|].
    exact (fopp_wf _ Hf).
Qed.

Lemma one_line_hex n : 0 <= n < 16 → code (hex_digit n) ≠ 10.
Proof.
  intros Hn. assert (Hall : forallb (fun i => negb (code (hex_digit i) =? 10)) (map Z.of_nat (seq 0 16)) = true) by (vm_compute; reflexivity).
  rewrite forallb_forall in Hall. apply Z.eqb_neq, negb_true_iff, Hall, in_map_iff. exists (Z.to_nat n).
  split; [lia|]. apply in_seq. lia.
Qed.

Lemma one_line_hex4 n : 0 <= n < 65536 → one_line (hex4 n).
Proof.
  intros Hn. constructor; [done|]. constructor; [done|].
  repeat (constructor; [apply one_line_hex; divmod|]). constructor.
Qed.

Lemma one_line_point n : 0 <= n < 1114112 → one_line (escape_point n).
Proof.
  intros Hn. unfold escape_point.
  repeat (match goal with |- context [if ?a =? ?b then _ else _] => destruct (Z.eqb_spec a b); [by apply one_line_lit|] end).
  destruct (Z.leb_spec 32 n), (Z.leb_spec n 126); cbn [andb];
    [constructor; [rewrite code_chr by lia; lia|constructor]|..];
    (destruct (Z.ltb_spec n 65536); [apply one_line_hex4; lia|apply one_line_app; apply one_line_hex4; divmod]).
Qed.

Lemma one_line_quoted s : is_text (chars s) → one_line (quoted s).
Proof.
  intros Hs%text_points. destruct Hs as [Hs _]. unfold quoted. constructor; [done|]. apply one_line_app; [|by apply one_line_lit].
  induction Hs as [|n l Hn Hl IH]; [constructor|]. cbn [flat_map]. apply one_line_app; [|exact IH].
  by apply one_line_point, scalar_range.
Qed.

Lemma one_line_items sep l : one_line sep → Forall one_line l → one_line (join_text sep l).
Proof.
  intros Hs. induction 1 as [|x l Hx Hl IH]; [constructor|]. destruct l as [|y l]; [exact Hx|].
  change (join_text sep (x :: y :: l)) with (x ++ sep ++ join_text sep (y :: l)). by repeat apply one_line_app.
Qed.

Lemma one_line_bracketed level opening closing items : 0 <= opening < 256 → 0 <= closing < 256 → opening ≠ 10 → closing ≠ 10 →
  Forall one_line items → one_line (bracketed None level opening closing items).
Proof.
  intros Ho Hc Ho' Hc' Hi.
  assert (H : ∀ n, 0 <= n < 256 → n ≠ 10 → one_line [chr n]) by (intros n Hn Hn'; constructor; [by rewrite code_chr by lia|constructor]).
  unfold bracketed. destruct items as [|x items]; [by apply (one_line_app [_] [_]); apply H|].
  apply (one_line_app [_]); [by apply H|]. cbn [line_break app]. apply one_line_app; [|by apply H].
  apply one_line_items; [by apply one_line_lit|exact Hi].
Qed.

Lemma dumps_one_line level j : json_ok j → one_line (dumps_go None level j).
Proof.
  revert level. induction j as [|b|n|f|s|l IH|d IH] using json_nested_ind; intros level Hok; cbn [dumps_go].
  - by apply one_line_lit.
  - by destruct b; apply one_line_lit.
  - apply one_line_int.
  - by apply one_line_float.
  - by apply one_line_quoted.
  - apply one_line_bracketed; try lia. apply json_ok_list in Hok. apply Forall_map.
    induction IH; constructor; apply Forall_cons in Hok as [??]; auto.
  - apply one_line_bracketed; try lia. apply json_ok_obj in Hok as [_ Hok]. apply Forall_map.
    induction IH; constructor; apply Forall_cons in Hok as [[??] ?]; auto.
    apply one_line_app; [by apply one_line_quoted|]. apply (one_line_app [_; _]); [by apply one_line_lit|auto].
Qed.

(** ** Reading a log *)

Lemma break_lines_line current line rest : one_line line →
  break_lines current (line ++ chr 10 :: rest) = (current ++ line) :: break_lines [] rest.
Proof.
  intros Hl. revert current. induction Hl as [|c line Hc Hl IH]; intros current; cbn [app break_lines].
  - by rewrite app_nil_r.
  - destruct (Z.eqb_spec (code c) 10); [done|]. by rewrite IH, <- app_assoc.
Qed.

Lemma line_text_one_line payload : json_ok payload → ∃ line, line_text payload = line ++ [chr 10] ∧ one_line line ∧
  loads (unchars line) = Ok (sort_keys payload).
Proof.
  intros Hok. exists (chars (dumps_sorted None payload)). split; [done|]. split.
  - unfold dumps_sorted. rewrite chars_unchars. by apply dumps_one_line, sort_keys_ok.
  - rewrite unchars_chars. by apply loads_dumps_sorted.
Qed.

Lemma log_read payloads : Forall json_ok payloads → read_log (log_text payloads) = Ok (map sort_keys payloads).
Proof.
  unfold read_log, log_text. rewrite chars_unchars. induction 1 as [|payload payloads Hok _ IH]; [done|].
  destruct (line_text_one_line payload Hok) as (line & E & Hline & Hread). cbn [flat_map map]. rewrite E, <- app_assoc.
  cbn [app]. rewrite break_lines_line by done. cbn [app mapR]. rewrite Hread. cbn [mbind result_bind]. by rewrite IH.
Qed.

(** Appending a payload appends its line to the text. *)
Lemma append_line_text fs path payload :
  log_text (dget_or [] (append_line fs path payload) path) =
  log_text (dget_or [] fs path) +:+ unchars (line_text (JObj payload)).
Proof.
  assert (Hc : ∀ a b : string, chars a = chars b → a = b).
  { intros a b E. by rewrite <- (unchars_chars a), <- (unchars_chars b), E. }
  apply Hc. unfold append_line, dget_or. rewrite dget_set_eq, chars_append. cbn [from_option id]. unfold log_text.
  rewrite !chars_unchars, flat_map_app. cbn [flat_map]. by rewrite app_nil_r.
Qed.

Example two_lines : read_log (log_text [JObj [("b", JInt 1); ("a", JStr "x")]; JList []]) =
  Ok [JObj [("a", JStr "x"); ("b", JInt 1)]; JList []].
Proof. vm_compute. reflexivity. Qed.
