(* ===== verification/Workload.v ===== *)
(** * [workload_gen/generator.py]: synthetic and replayed workloads

    [WorkloadGenerator] draws requests from a seeded [random.Random], or reads
    them from a trace.  The primitive draws of the standard generator (its
    Mersenne Twister and the logarithms of its continuous distributions) are the
    interface [Random], whose laws are the documented ranges; what the module
    builds on them ([uniform], [choice], [choices]) is defined here as CPython
    defines it.  Methods that draw are computations in the monad [gen] over the
    generator's state. *)

From S2P Require Import Prelude PyFloat PyOrder PyDict PyStr PyJson PyNum Config Types Samples.

Local Open Scope Z_scope.

(** ** The random source *)

Class Random (G : Type) := {
  rng_seed : Z → G;
  rng_random : G → float * G;                          (* [random()] *)
  rng_below : nat → G → nat * G;                       (* [_randbelow(n)] *)
  rng_expovariate : float → G → result (float * G);    (* [expovariate(rate)] *)
  rng_gauss : float → float → G → float * G;           (* [gauss(mu, sigma)] *)
  rng_lognormvariate : float → float → G → result (float * G);
  math_log : float → float                             (* [math.log] from 1 on *)
}.

(** [random()] is in [[0, 1)], [_randbelow(n)] below [n], an exponential draw
    with a positive rate is not negative, and a log-normal draw may overflow. *)
Class LawfulRandom (G : Type) `{Random G} : Prop := {
  random_range g : (0.0 <= (rng_random g).1)%float ∧ ((rng_random g).1 < 1.0)%float;
  below_range n g : (0 < n)%nat → ((rng_below n g).1 < n)%nat;
  expovariate_range rate g : (0.0 < rate)%float → ∃ x g', rng_expovariate rate g = Ok (x, g') ∧ (0.0 <= x)%float
}.

(** ** The monad *)

Record generator (G : Type) := {
  wg_random : G;
  wg_sessions : dict (string * string) (list string)
}.
Arguments wg_random {G} _.
Arguments wg_sessions {G} _.
Arguments Build_generator {G} _ _.

Definition gen (G A : Type) : Type := generator G → result (A * generator G).

#[export] Instance gen_ret {G} : MRet (gen G) := fun A a s => Ok (a, s).
#[export] Instance gen_bind {G} : MBind (gen G) := fun A B f m s =>
  match m s with Ok (a, s') => f a s' | Err e => Err e end.

Definition lift {G A} (r : result A) : gen G A := fun s =>
  match r with Ok a => Ok (a, s) | Err e => Err e end.

(** [[f(x) for x in l]] where [f] draws. *)
Fixpoint mapG {G A B} (f : A → gen G B) (l : list A) : gen G (list B) :=
  match l with
  | [] => mret []
  | x :: l' => y ← f x; ys ← mapG f l'; mret (y :: ys)
  end.

Section draws.
Context {G : Type} `{Random G}.

Definition with_random (s : generator G) (g : G) : generator G :=
  {| wg_random := g; wg_sessions := wg_sessions s |}.

Definition random : gen G float := fun s =>
  let '(x, g) := rng_random (wg_random s) in Ok (x, with_random s g).

(** [uniform(a, b)] is [a + (b - a) * random()] *)
Definition uniform (a b : float) : gen G float := x ← random; mret (a + (b - a) * x)%float.

(** [choice(l)] *)
Definition choice {A} (l : list A) : gen G A := fun s =>
  match l with
  | [] => Err IndexError
  | _ :: _ =>
      let '(i, g) := rng_below (length l) (wg_random s) in
      a ← get_or IndexError (l !! i); Ok (a, with_random s g)
  end.

Definition expovariate (rate : float) : gen G float := fun s =>
  '(x, g) ← rng_expovariate rate (wg_random s); Ok (x, with_random s g).

Definition gauss (mu sigma : float) : gen G float := fun s =>
  let '(x, g) := rng_gauss mu sigma (wg_random s) in Ok (x, with_random s g).

Definition lognormvariate (mu sigma : float) : gen G float := fun s =>
  '(x, g) ← rng_lognormvariate mu sigma (wg_random s); Ok (x, with_random s g).

(** [itertools.accumulate] *)
Fixpoint accumulate_from (acc : float) (l : list float) : list float :=
  match l with [] => [] | w :: l' => (acc + w)%float :: accumulate_from (acc + w)%float l' end.
Definition accumulate (l : list float) : list float :=
  match l with [] => [] | w :: l' => w :: accumulate_from w l' end.

(** [bisect.bisect_right(a, x, lo, hi)], every step halving the interval. *)
Fixpoint bisect (fuel : nat) (a : list float) (x : float) (lo hi : nat) : nat :=
  match fuel with
  | O => lo
  | S f =>
      if (hi <=? lo)%nat then lo else
      let mid := Nat.div2 (lo + hi) in
      if (x <? default NaN (a !! mid))%float then bisect f a x lo mid else bisect f a x (S mid) hi
  end.

(** [choices(population, weights, k=1)[0]] *)
Definition choices1 (population : list string) (weights : list float) : gen G string :=
  let cum_weights := accumulate weights in
  total ← lift (get_or IndexError (last cum_weights));
  let total := (total + 0.0)%float in
  _ ← lift (raise_if (total <=? 0.0)%float ValueError);
  _ ← lift (raise_if (negb (finite total)) ValueError);
  x ← random;
  let hi := (length population - 1)%nat in
  lift (get_or IndexError (population !! bisect (length population) cum_weights (x * total)%float 0 hi)).

(** ** [WorkloadGenerator] *)

Context (config : WorkloadConfig) (seed : Z).

Definition _weighted_choice (weights : dict string float) : gen G string :=
  choices1 (dkeys weights) (dvalues weights).

(** The comparison of a float with an int is exact. *)
Definition exact (n : Z) : float := Fin (n * unit_z).

(** [int(max(lo, min(hi, value)))] of two ints and a float. *)
Definition clamp_tokens (lo hi : Z) (value : float) : result Z :=
  if (value <? exact hi)%float
  then (if (exact lo <? value)%float then ftrunc value else Ok lo)
  else Ok (if lo <? hi then hi else lo).

Definition _sample_tokens (d : DistributionConfig) : gen G Z :=
  value ←
    (if String.eqb (dc_distribution d) "uniform" then
       x ← random;
       mret (of_Z (dc_min d) + of_Z (dc_max d - dc_min d) * x)%float
     else if String.eqb (dc_distribution d) "normal" then gauss (dc_mean d) (dc_sigma d * dc_mean d)%float
     else lognormvariate (math_log (pymax 1.0 (dc_mean d))) (dc_sigma d));
  lift (clamp_tokens (dc_min d) (dc_max d) value).

Definition sessions_of (s : generator G) (key : string * string) : list string := dget_or [] (wg_sessions s) key.

(** The lookup creates the entry; a new session is appended to it. *)
Definition get_sessions (key : string * string) : gen G (list string) := fun s =>
  Ok (sessions_of s key, {| wg_random := wg_random s; wg_sessions := dtouch [] (wg_sessions s) key |}).

Definition add_session (key : string * string) (id : string) : gen G unit := fun s =>
  Ok (tt, {| wg_random := wg_random s; wg_sessions := dset (wg_sessions s) key (sessions_of s key ++ [id]) |}).

Definition new_session (tenant_id model_id : string) (known : list string) : gen G string :=
  let session_id := tenant_id +:+ "-" +:+ model_id +:+ "-" +:+ fmt0 4 (Z.of_nat (length known)) in
  _ ← add_session (tenant_id, model_id) session_id;
  mret session_id.

Definition _pick_session (tenant_id model_id : string) : gen G string :=
  known ← get_sessions (tenant_id, model_id);
  match known with
  | [] => new_session tenant_id model_id known
  | _ :: _ =>
      x ← random;
      if (x <? wc_session_reuse_probability config)%float then choice known
      else new_session tenant_id model_id known
  end.

(** *** Arrivals *)

Definition indices (n : Z) : list Z := map Z.of_nat (seq 0 (Z.to_nat n)).

Definition burst_windows : list (float * float) :=
  let duration := wc_duration_s config in
  [((duration * 0.2)%float, (duration * 0.3)%float); ((duration * 0.55)%float, (duration * 0.65)%float);
   ((duration * 0.8)%float, (duration * 0.9)%float)].

Definition bursty_arrival : gen G float :=
  x ← random;
  if (x <? pymin 0.75 (0.35 * wc_burst_factor config))%float
  then w ← choice burst_windows; uniform w.1 w.2
  else uniform (of_lit 0.0%float) (wc_duration_s config).

(** The running clock of the Poisson process. *)
Fixpoint poisson_arrivals (n : nat) (rate now : float) : gen G (list float) :=
  match n with
  | O => mret []
  | S n' =>
      x ← expovariate rate;
      let now := (now + x)%float in
      rest ← poisson_arrivals n' rate now;
      mret (pymin (wc_duration_s config) now :: rest)
  end.

Definition _generate_arrivals : gen G (list float) :=
  let request_count := wc_request_count config in
  let duration := wc_duration_s config in
  if String.eqb (wc_arrival_pattern config) "uniform" then
    lift (mapR (fun i => step ← py_div duration (of_Z (Z.max 1 request_count)); Ok (of_Z i * step)%float)
            (indices request_count))
  else if String.eqb (wc_arrival_pattern config) "bursty" then
    arrivals ← mapG (fun _ => bursty_arrival) (indices request_count);
    mret (sort_by fltb id arrivals)
  else
    rate ← lift (py_div (of_Z request_count) (pymax duration 0.000000001));
    poisson_arrivals (Z.to_nat request_count) rate (of_lit 0.0%float).

(** *** Requests *)

Definition latency_budget : dict string float :=
  [("realtime", of_lit 900.0%float); ("interactive", of_lit 1800.0%float); ("best_effort", of_lit 4200.0%float)].

Definition token_salt (prompt_tokens generation_tokens : Z) : string :=
  str_of_Z (prompt_tokens / 256) +:+ ":" +:+ str_of_Z (generation_tokens / 128).

Definition generate_request (ia : Z * float) : gen G InferenceRequest :=
  let '(index, arrival_ts) := ia in
  tenant_id ← _weighted_choice (wc_tenant_weights config);
  model_id ← _weighted_choice (wc_model_mix config);
  sla_class ← _weighted_choice (wc_sla_mix config);
  session_id ← _pick_session tenant_id model_id;
  prompt_tokens ← _sample_tokens (wc_prompt_tokens config);
  generation_tokens ← _sample_tokens (wc_generation_tokens config);
  x ← random;
  let prefix_signature :=
    if (x <? wc_cache_hostility config)%float
    then stable_prefix_signature tenant_id model_id None ("hostile-" +:+ str_of_Z index)
    else stable_prefix_signature tenant_id model_id (Some session_id)
           (token_salt prompt_tokens generation_tokens) in
  max_latency_ms ← lift (get_or KeyError (dget latency_budget sla_class));
  lift (make_request ("req-" +:+ fmt0 6 index) tenant_id model_id prompt_tokens generation_tokens
          (fround 4 arrival_ts) sla_class (Some session_id) (Some prefix_signature) max_latency_ms
          [("seed", JInt seed)]).

(** *** Traces

    A trace is what [csv.DictReader] gives: the field names, and the rows, none
    shorter than the header (a missing cell would read [None]). *)
Definition trace : Type := list string * list (dict string string).

Definition required_columns : list string :=
  ["timestamp"; "request_id"; "prompt_length"; "expected_output_length"; "tenant_id"; "priority_class"].

Definition cell (row : dict string string) (k : string) : result string := get_or KeyError (dget row k).
Definition float_cell (row : dict string string) (k : string) : result float := s ← cell row k; float_of_str s.

(** [s or dflt] *)
Definition or_str (s dflt : string) : string := match s with EmptyString => dflt | _ => s end.

Definition token_cell (row : dict string string) (k : string) : result Z :=
  x ← float_cell row k; n ← ftrunc x; Ok (Z.max 1 n).

Definition trace_request (trace_path : string) (first_ts : float) (ir : Z * dict string string) :
    gen G InferenceRequest :=
  let '(index, row) := ir in
  raw_ts ← lift (float_cell row "timestamp");
  offset ← lift (py_div (raw_ts - first_ts)%float (pymax 0.000000001 (wc_trace_replay_speed config)));
  let arrival_ts := pymax 0.0 offset in
  prompt_tokens ← lift (token_cell row "prompt_length");
  generation_tokens ← lift (token_cell row "expected_output_length");
  tenant ← lift (cell row "tenant_id");
  let tenant_id := or_str tenant "tenant-unknown" in
  let default_sla := wc_trace_default_sla config in
  let sla_class := or_str (dget_or default_sla row "priority_class") default_sla in
  let default_model := wc_trace_default_model config in
  let model_id := or_str (dget_or default_model row "model_id") default_model in
  session_id ← match dget row "session_id" with
               | Some (String _ _ as s) => mret s
               | _ => _pick_session tenant_id model_id
               end;
  let prefix_signature :=
    stable_prefix_signature tenant_id model_id (Some session_id) (token_salt prompt_tokens generation_tokens) in
  let max_latency_ms := dget_or (of_lit 1800.0%float) latency_budget sla_class in
  lift (make_request (dget_or ("trace-" +:+ fmt0 6 index) row "request_id") tenant_id model_id prompt_tokens
          generation_tokens (fround 4 arrival_ts)
          (match dget latency_budget sla_class with Some _ => sla_class | None => "interactive" end)
          (Some session_id) (Some prefix_signature) max_latency_ms
          [("seed", JInt seed); ("source", JStr trace_path)]).

(** [rows[: trace_limit]] *)
Definition kept_rows (rows : list (dict string string)) : list (dict string string) :=
  match wc_trace_limit config with Some n => slice n rows | None => rows end.

Definition _generate_requests_from_trace (read_trace : string → option trace) (trace_path : string) :
    gen G (list InferenceRequest) :=
  file ← lift (get_or FileNotFoundError (read_trace trace_path));
  let '(fieldnames, rows) := file in
  _ ← lift (raise_if (negb (forallb (fun c => bool_decide (c ∈ fieldnames)) required_columns)) ValueError);
  let rows := kept_rows rows in
  first_ts ← match rows with [] => mret (of_lit 0.0%float) | row :: _ => lift (float_cell row "timestamp") end;
  requests ← mapG (trace_request trace_path first_ts) (zip (indices (Z.of_nat (length rows))) rows);
  let n := wc_request_count config in
  mret (if (0 <? n) && (n <? Z.of_nat (length requests)) then slice n requests else requests).

Definition generate_requests (read_trace : string → option trace) : gen G (list InferenceRequest) :=
  match wc_trace_path config with
  | Some (String _ _ as path) => _generate_requests_from_trace read_trace path
  | _ =>
      arrivals ← _generate_arrivals;
      mapG generate_request (zip (indices (Z.of_nat (length arrivals))) arrivals)
  end.

Definition make_generator : generator G := {| wg_random := rng_seed seed; wg_sessions := [] |}.
End draws.

(** ** Total correctness of draws

    [yields m P]: from every state, [m] returns without raising a value in [P]. *)

Definition yields {G A} (m : gen G A) (P : A → Prop) : Prop := ∀ s, ∃ a s', m s = Ok (a, s') ∧ P a.

Section rules.
Context {G : Type}.

Lemma yields_ret {A} (a : A) (P : A → Prop) : P a → yields (mret a : gen G A) P.
Proof. intros Ha s. by exists a, s. Qed.

Lemma yields_bind {A B} (m : gen G A) (f : A → gen G B) (P : A → Prop) (Q : B → Prop) :
  yields m P → (∀ a, P a → yields (f a) Q) → yields (m ≫= f) Q.
Proof.
  intros Hm Hf s. destruct (Hm s) as (a & s1 & Ea & Ha). destruct (Hf a Ha s1) as (b & s2 & Eb & Hb).
  exists b, s2. split; [|done].
  change ((m ≫= f) s) with (match m s with Ok (a, s') => f a s' | Err e => Err e end). by rewrite Ea.
Qed.

Lemma yields_weaken {A} (m : gen G A) (P Q : A → Prop) : yields m P → (∀ a, P a → Q a) → yields m Q.
Proof. intros Hm HPQ s. destruct (Hm s) as (a & s' & E & Ha). exists a, s'. auto. Qed.

Lemma yields_lift {A} (r : result A) (P : A → Prop) : (∃ a, r = Ok a ∧ P a) → yields (lift r : gen G A) P.
Proof. intros (a & -> & Ha) s. by exists a, s. Qed.

Lemma yields_mapG {A B} (f : A → gen G B) (Q : A → B → Prop) l :
  (∀ a, a ∈ l → yields (f a) (Q a)) → yields (mapG f l) (Forall2 Q l).
Proof.
  induction l as [|a l IH]; intros Hf; cbn [mapG]; [apply yields_ret; constructor|].
  eapply yields_bind; [apply Hf; by left|]. intros b Hb.
  eapply yields_bind; [apply IH; intros; apply Hf; by right|]. intros bs Hbs. apply yields_ret. by constructor.
Qed.
End rules.

(** ** Helpers of [choices] *)

Lemma bisect_le fuel a x lo hi : (lo <= hi)%nat → (bisect fuel a x lo hi <= hi)%nat.
Proof.
  revert lo hi. induction fuel as [|f IH]; intros lo hi Hle; simpl; [done|].
  destruct (Nat.leb_spec hi lo); [done|].
  assert (Hmid : (lo <= Nat.div2 (lo + hi) < hi)%nat).
  { rewrite Nat.div2_div. split; [apply Nat.div_le_lower_bound; lia|apply Nat.Div0.div_lt_upper_bound; lia]. }
  destruct (_ <? _)%float; [etrans; [apply IH; lia|lia]|apply IH; lia].
Qed.

Definition weights_ok (w : dict string float) : Prop :=
  ∃ total, last (accumulate (dvalues w)) = Some total ∧ (0.0 < total)%float ∧ finite total = true ∧ wf total.

Lemma weights_nonempty w : weights_ok w → dkeys w ≠ [].
Proof. intros (t & Ht & _) Hk. destruct w; [discriminate Ht|discriminate Hk]. Qed.

Record dist_ok {G} `{Random G} (d : DistributionConfig) : Prop := {
  do_range : 0 < dc_min d ∧ dc_min d <= dc_max d ∧ dc_max d <= 2 ^ 52;
  do_draw : dc_distribution d = "uniform" ∨ dc_distribution d = "normal" ∨
    ∀ g : G, is_Ok (rng_lognormvariate (math_log (pymax 1.0 (dc_mean d))) (dc_sigma d) g)
}.

Lemma clamp_range lo hi v : 0 < lo → lo <= hi → ∃ n, clamp_tokens lo hi v = Ok n ∧ lo <= n <= hi.
Proof.
  intros Hlo Hhi. unfold clamp_tokens, exact. destruct (v <? Fin (hi * unit_z))%float eqn:E1.
  2:{ destruct (Z.ltb_spec lo hi); eexists; split; [done|lia|done|lia]. }
  destruct (Fin (lo * unit_z) <? v)%float eqn:E2; [|eexists; split; [done|lia]].
  destruct v as [z| | |]; try (vm_compute in E1; discriminate); try (vm_compute in E2; discriminate).
  assert (Z1 : z < hi * unit_z) by (by apply Z.ltb_lt). assert (Z2 : lo * unit_z < z) by (by apply Z.ltb_lt).
  pose proof unit_z_pos as Hu. eexists. split; [reflexivity|].
  rewrite Z.shiftr_div_pow2, Z.abs_eq, Z.sgn_pos by nia. change (2 ^ 1074) with unit_z.
  rewrite Z.mul_1_l. split; [apply Z.div_le_lower_bound; lia|].
  apply Z.div_le_upper_bound; lia.
Qed.

Section laws.
Context {G : Type} `{LawfulRandom G}.

Lemma random_yields : yields (random : gen G float) (fun x => (0.0 <= x)%float ∧ (x < 1.0)%float).
Proof.
  intros s. unfold random. pose proof (random_range (wg_random s)) as Hr.
  destruct (rng_random (wg_random s)) as [x g]. eexists _, _. split; [reflexivity|exact Hr].
Qed.

Lemma choice_yields {A} (l : list A) : l ≠ [] → yields (choice l : gen G A) (fun a => a ∈ l).
Proof.
  intros Hl s. unfold choice. destruct l as [|a l]; [done|]. set (l' := a :: l) in *.
  pose proof (below_range (length l') (wg_random s) ltac:(simpl; lia)) as Hr.
  destruct (rng_below (length l') (wg_random s)) as [i g]. simpl in Hr.
  destruct (lookup_lt_is_Some_2 l' i Hr) as [x Hx]. rewrite Hx. simpl.
  eexists _, _. split; [reflexivity|]. by eapply list_elem_of_lookup_2.
Qed.

Lemma weighted_choice_yields w : weights_ok w → yields (_weighted_choice w : gen G string) (fun k => k ∈ dkeys w).
Proof.
  intros Hw. pose proof (weights_nonempty w Hw) as Hne. destruct Hw as (total & Ht & Hp & Hf & Hwf).
  unfold _weighted_choice, choices1.
  eapply yields_bind with (P := fun t => t = total); [apply yields_lift; rewrite Ht; by eexists|]. intros ? ->.
  rewrite (fadd_0_r total Hwf).
  eapply yields_bind with (P := fun _ => True).
  { apply yields_lift. exists tt. split; [|done]. unfold raise_if.
    assert (E : (total <=? 0.0)%float = false).
    { apply fle_nlt; [exact (flt_not_nan_r _ _ Hp)|nn|exact Hp]. }
    by rewrite E. }
  intros _ _. eapply yields_bind with (P := fun _ => True).
  { apply yields_lift. exists tt. by rewrite Hf. }
  intros _ _. eapply yields_bind; [apply random_yields|]. intros x _. cbv zeta. apply yields_lift.
  set (i := bisect _ _ _ _ _).
  assert (Hi : (i < length (dkeys w))%nat).
  { assert (i <= length (dkeys w) - 1)%nat by (apply bisect_le; lia). destruct (dkeys w); [done|simpl in *; lia]. }
  destruct (lookup_lt_is_Some_2 _ _ Hi) as [k Hk]. exists k. rewrite Hk. split; [done|]. by eapply list_elem_of_lookup_2.
Qed.

Lemma sample_tokens_yields (d : DistributionConfig) : dist_ok (G := G) d →
  yields (_sample_tokens d : gen G Z) (fun n => dc_min d <= n <= dc_max d).
Proof.
  intros [Hr Hd]. unfold _sample_tokens. eapply yields_bind with (P := fun _ => True).
  2:{ intros v _. apply yields_lift. apply clamp_range; lia. }
  destruct (String.eqb_spec (dc_distribution d) "uniform") as [E1|E1].
  { eapply yields_bind; [apply random_yields|]. intros x _. by apply yields_ret. }
  destruct (String.eqb_spec (dc_distribution d) "normal") as [E2|E2].
  { intros s. unfold gauss. destruct (rng_gauss _ _ _) as [x g]. eauto. }
  destruct Hd as [?|[?|Hd]]; [done|done|]. intros s. unfold lognormvariate.
  destruct (Hd (wg_random s)) as [[x g] ->]. simpl. eauto.
Qed.

Lemma pick_session_yields config t m : yields (_pick_session config t m : gen G string) (fun _ => True).
Proof.
  assert (Hnew : ∀ known, yields (new_session t m known : gen G string) (fun _ => True)).
  { intros known s. unfold new_session. simpl. eauto. }
  unfold _pick_session. eapply yields_bind with (P := fun _ => True); [intros s; unfold get_sessions; eauto|].
  intros [|k known] _; [apply Hnew|]. eapply yields_bind; [apply random_yields|]. intros x _.
  destruct (_ <? _)%float; [|apply Hnew]. eapply yields_weaken; [by apply choice_yields|done].
Qed.
End laws.

(** ** Arrivals *)

Definition fle : float → float → Prop := fun a b => (a <= b)%float.

(** A time: a well-formed number that is not negative. *)
Definition instant (a : float) : Prop := wf a ∧ (0.0 <= a)%float.

Record arrivals_ok (n : nat) (l : list float) : Prop := {
  ao_length : length l = n;
  ao_instants : Forall instant l;
  ao_sorted : StronglySorted fle l
}.

(** A duration between 0 and [2 ^ 40] seconds. *)
Record duration_ok (d : float) : Prop := {
  du_wf : wf d;
  du_nonneg : (0.0 <= d)%float;
  du_bound : (d <= Fin (2 ^ 40 * unit_z))%float
}.

Lemma duration_finite d : duration_ok d → finite d = true.
Proof. intros [_ D0 D1]. apply (finite_between d 0.0 (Fin (2 ^ 40 * unit_z))); [reflexivity|reflexivity|exact D0|exact D1]. Qed.

Lemma indices_length n : length (indices n) = Z.to_nat n.
Proof. unfold indices. by rewrite length_map, length_seq. Qed.

Lemma indices_elem n i : i ∈ indices n → 0 <= i < n.
Proof. unfold indices. intros (k & -> & Hk)%list_elem_of_fmap. apply elem_of_seq in Hk. lia. Qed.

(** Sorting instants. *)
Lemma sort_arrivals n l : length l = n → Forall instant l → arrivals_ok n (sort_by fltb id l).
Proof.
  intros Hn Hl. assert (Hnum : Forall number l).
  { eapply Forall_impl; [exact Hl|]. intros a [_ Ha]. exact (fle_not_nan_r _ _ Ha). }
  constructor; [by rewrite sort_by_length|by rewrite (sort_by_perm fltb id)|].
  pose proof (sort_by_sorted fltb id (P := number) l Hnum) as Hs.
  assert (Hk : Forall number (sort_by fltb id l)) by (by rewrite (sort_by_perm fltb id)).
  induction Hs as [|a s Hs IH Ha]; [constructor|]. inversion Hk as [|? ? Ka Kl]; subst.
  constructor; [by apply IH|]. rewrite Forall_forall in *. intros b Hb. unfold fle. apply flt_nle; [by apply Kl|exact Ka|].
  exact (Ha b Hb).
Qed.

(** Evenly spaced arrivals. *)
Lemma uniform_arrivals d n : duration_ok d → 0 <= n <= 2 ^ 50 →
  ∃ l, mapR (fun i => step ← py_div d (of_Z (Z.max 1 n)); Ok (of_Z i * step)%float) (indices n) = Ok l ∧
    arrivals_ok (Z.to_nat n) l.
Proof.
  intros Hd Hn. set (step := (d / of_Z (Z.max 1 n))%float).
  pose proof (duration_finite d Hd) as Fd. destruct Hd as [Wd D0 D1].
  pose proof (of_Z_ge_1 (Z.max 1 n) ltac:(lia)) as H1.
  assert (S1 : (step <= d)%float) by (by apply fdiv_le).
  assert (S0 : (0.0 <= step)%float).
  { apply fdiv_nonneg; [apply of_Z_fin; lia|apply (flt_of_le 1.0); [flit|exact H1]|exact D0]. }
  assert (Fs : finite step = true) by (apply (finite_between step 0.0 d); [reflexivity|exact Fd|exact S0|exact S1]).
  exists (map (fun i => (of_Z i * step)%float) (indices n)). split.
  - rewrite py_div_count by lia. fold step. generalize (indices n). intros ks. induction ks as [|i ks IH]; [done|].
    simpl. simpl in IH. by rewrite IH.
  - constructor; [by rewrite length_map, indices_length| |].
    + apply Forall_fmap, Forall_forall. intros i Hi%indices_elem. split; [apply fmul_wf|].
      apply fmul_nonneg_fin; [apply of_Z_fin; lia|exact Fs|apply of_Z_nonneg; lia|exact S0].
    + unfold indices. rewrite map_map.
      assert (Hs : ∀ k m, Z.of_nat (k + m) <= 2 ^ 53 →
        StronglySorted fle (map (fun x => (of_Z (Z.of_nat x) * step)%float) (seq k m))).
      { intros k m. revert k. induction m as [|m IH]; intros k Hk; simpl; constructor; [apply IH; lia|].
        apply Forall_fmap, Forall_forall. intros j Hj%elem_of_seq. unfold compose, fle.
        apply fmul_mono_r; [apply of_Z_mono; lia|exact S0| |];
          (apply fmul_finite_not_nan; [apply of_Z_fin; lia|exact Fs]). }
      apply Hs. lia.
Qed.

Section arrivals.
Context {G : Type} `{LawfulRandom G}.

Lemma uniform_yields a b : instant a → wf b → finite b = true → (a <= b)%float →
  yields (uniform a b : gen G float) instant.
Proof.
  intros [Wa A0] Wb Fb Hab. unfold uniform. eapply yields_bind; [apply random_yields|]. intros x [X0 X1].
  apply yields_ret. split; [apply fadd_wf|]. destruct (fsub_range a b Wb Fb A0 Hab) as [D0 Fd].
  assert (Fx : finite x = true).
  { apply (finite_between x 0.0 1.0); [reflexivity|reflexivity|exact X0|exact (flt_le _ _ X1)]. }
  apply fadd_nonneg; [exact A0|]. exact (fmul_nonneg_fin _ _ Fd Fx D0 X0).
Qed.

Lemma poisson_yields config rate n now : (0.0 < rate)%float → duration_ok (wc_duration_s config) → instant now →
  yields (poisson_arrivals config n rate now : gen G (list float))
    (fun l => arrivals_ok n l ∧ Forall (fle (pymin (wc_duration_s config) now)) l).
Proof.
  intros Hr Hd. revert now. set (d := wc_duration_s config) in *.
  assert (Nd : d ≠ NaN) by exact (fle_not_nan_r _ _ (du_nonneg _ Hd)).
  induction n as [|n IH]; intros now [Wn N0]; cbn [poisson_arrivals]; [apply yields_ret; by repeat constructor|].
  eapply yields_bind with (P := fun x => (0.0 <= x)%float).
  { intros s. unfold expovariate. destruct (expovariate_range rate (wg_random s) Hr) as (x & g & -> & X0). simpl. eauto. }
  intros x X0. cbv zeta. set (t := (now + x)%float).
  assert (T0 : instant t) by (split; [apply fadd_wf|by apply fadd_nonneg]).
  assert (Nn : now ≠ NaN) by exact (fle_not_nan_r _ _ N0).
  assert (Nt : t ≠ NaN) by exact (fle_not_nan_r _ _ (proj2 T0)).
  assert (Hm : fle (pymin d now) (pymin d t)).
  { apply pymin_glb; [by apply pymin_le_l|]. eapply fle_trans; [by apply pymin_le_r|]. by apply fadd_ge_l. }
  eapply yields_bind; [exact (IH t T0)|]. intros l [[L1 L2 L3] L4]. apply yields_ret. fold d. split.
  - constructor; [simpl; by rewrite L1|constructor; [|exact L2]|constructor; [exact L3|exact L4]]. split.
    + apply pymin_case; [exact (du_wf _ Hd)|exact (proj1 T0)].
    + apply pymin_glb; [exact (du_nonneg _ Hd)|exact (proj2 T0)].
  - constructor; [exact Hm|]. eapply Forall_impl; [exact L4|]. intros y Hy. eapply fle_trans; [exact Hm|exact Hy].
Qed.

Lemma bursty_yields config : duration_ok (wc_duration_s config) →
  yields (bursty_arrival config : gen G float) instant.
Proof.
  intros Hd. pose proof (duration_finite _ Hd) as Fd. destruct Hd as [Wd D0 _]. set (d := wc_duration_s config) in *.
  unfold bursty_arrival. eapply yields_bind; [apply random_yields|]. intros x _. fold d.
  destruct (_ <? _)%float.
  - eapply yields_bind; [apply choice_yields; discriminate|]. intros [a b] Hw. unfold burst_windows in Hw. fold d in Hw.
    assert (Hwin : ∀ p q : lit, (0.0 <=? p)%float = true → (p <=? q)%float = true → (q <=? 1.0)%float = true →
      yields (uniform (d * p)%float (d * q)%float : gen G float) instant).
    { intros p q P0 PQ Q1. assert (Q0 : (0.0 <= q)%float) by (eapply fle_trans; [exact P0|exact PQ]).
      assert (E1 : (d * q <= d)%float) by (by apply fmul_le_l).
      assert (M0 : (0.0 <= d * q)%float) by (by apply fmul_nonneg_fin).
      apply uniform_yields.
      - split; [apply fmul_wf|by apply fmul_nonneg_fin].
      - apply fmul_wf.
      - apply (finite_between _ 0.0 d); [reflexivity|exact Fd|exact M0|exact E1].
      - rewrite !(fmul_comm d). apply fmul_mono_r; [exact PQ|exact D0| |];
          by apply fmul_finite_not_nan. }
    repeat (apply elem_of_cons in Hw as [[= -> ->]|Hw]; [apply Hwin; flit|]). by apply elem_of_nil in Hw.
  - apply uniform_yields; [split; [apply of_lit_wf; flit|flit]|exact Wd|exact Fd|exact D0].
Qed.

Lemma arrivals_yield config : duration_ok (wc_duration_s config) → 0 <= wc_request_count config <= 2 ^ 50 →
  yields (_generate_arrivals config : gen G (list float)) (arrivals_ok (Z.to_nat (wc_request_count config))).
Proof.
  intros Hd Hn. unfold _generate_arrivals. set (n := wc_request_count config) in *.
  destruct (String.eqb _ "uniform"); [by apply yields_lift, uniform_arrivals|].
  destruct (String.eqb _ "bursty").
  - eapply yields_bind; [apply (yields_mapG _ (fun _ => instant)); intros; by apply bursty_yields|].
    intros l Hl. apply yields_ret. apply sort_arrivals.
    + by rewrite <- (Forall2_length _ _ _ Hl), indices_length.
    + clear -Hl. induction Hl; by constructor.
  - assert (Hfloor : (0.0 < pymax (wc_duration_s config) 0.000000001)%float).
    { apply (flt_of_le 0.000000001); [flit|]. apply pymax_ge_r; [|nn]. exact (fle_not_nan_r _ _ (du_nonneg _ Hd)). }
    assert (Htop : (pymax (wc_duration_s config) 0.000000001 <= Fin (2 ^ 40 * unit_z))%float).
    { apply pymax_lub; [exact (du_bound _ Hd)|flit]. }
    eapply yields_bind with (P := fun rate => n = 0 ∨ (0.0 < rate)%float).
    { apply yields_lift. eexists. rewrite py_div_floor. split; [reflexivity|]. destruct (decide (n = 0)); [by left|right].
      apply (fdiv_pos _ _ 40); [lia|apply of_Z_ge_1; lia|exact Hfloor|exact Htop]. }
    intros rate [Hz|Hr].
    + rewrite Hz. apply yields_ret. by repeat constructor.
    + eapply yields_weaken; [apply poisson_yields; [exact Hr|exact Hd|]|by intros l [? _]].
      split; [apply of_lit_wf; flit|flit].
Qed.
End arrivals.

(** ** Generated requests *)

Record workload_ok (G : Type) `{Random G} (config : WorkloadConfig) : Prop := {
  wo_count : 0 <= wc_request_count config <= 2 ^ 50;
  wo_duration : duration_ok (wc_duration_s config);
  wo_tenants : weights_ok (wc_tenant_weights config);
  wo_models : weights_ok (wc_model_mix config);
  wo_sla : weights_ok (wc_sla_mix config) ∧ Forall (fun k => is_Some (dget latency_budget k)) (dkeys (wc_sla_mix config));
  wo_prompt : dist_ok (G := G) (wc_prompt_tokens config);
  wo_generation : dist_ok (G := G) (wc_generation_tokens config);
  wo_synthetic : wc_trace_path config = None
}.

(** What the request drawn for arrival [ia] is. *)
Record generated (config : WorkloadConfig) (seed : Z) (ia : Z * float) (r : InferenceRequest) : Prop := {
  ge_id : req_request_id r = "req-" +:+ fmt0 6 ia.1;
  ge_arrival : req_arrival_ts r = fround 4 ia.2;
  ge_tenant : req_tenant_id r ∈ dkeys (wc_tenant_weights config);
  ge_model : req_model_id r ∈ dkeys (wc_model_mix config);
  ge_sla : req_sla_class r ∈ dkeys (wc_sla_mix config);
  ge_prompt : dc_min (wc_prompt_tokens config) <= req_prompt_tokens r <= dc_max (wc_prompt_tokens config);
  ge_generation :
    dc_min (wc_generation_tokens config) <= req_generation_tokens r <= dc_max (wc_generation_tokens config);
  ge_budget : dget latency_budget (req_sla_class r) = Some (req_max_latency_ms r);
  ge_signature : is_Some (req_prefix_signature r) ∧ is_Some (req_session_id r);
  ge_seed : req_metadata r = [("seed", JInt seed)]
}.

Lemma budget_sla k b : dget latency_budget k = Some b →
  is_Some (dget SLA_PRIORITY k) ∧ (b <=? 0.0)%float = false.
Proof.
  intros Hb%dget_elem. unfold latency_budget in Hb.
  repeat (apply elem_of_cons in Hb as [[= -> ->]|Hb]; [split; [by eexists|flit]|]). by apply elem_of_nil in Hb.
Qed.

Lemma round_instant a : instant a → instant (fround 4 a).
Proof. intros [Wa A0]. split; [apply fround_wf; [lia|exact Wa]|apply fround_nonneg; [lia|exact A0]]. Qed.

Section requests.
Context {G : Type} `{LawfulRandom G}.

Lemma generate_request_yields config seed ia : workload_ok G config → instant ia.2 →
  yields (generate_request config seed ia : gen G InferenceRequest) (generated config seed ia).
Proof.
  intros [_ _ H1 H2 [H3 H3'] H4 H5 _] Hi. destruct ia as [i a]. unfold generate_request.
  eapply yields_bind; [by apply weighted_choice_yields|]. intros tenant Ht.
  eapply yields_bind; [by apply weighted_choice_yields|]. intros model Hm.
  eapply yields_bind; [by apply weighted_choice_yields|]. intros sla Hs.
  eapply yields_bind; [apply pick_session_yields|]. intros session _.
  eapply yields_bind; [by apply sample_tokens_yields|]. intros p Hp.
  eapply yields_bind; [by apply sample_tokens_yields|]. intros g Hg.
  eapply yields_bind; [apply random_yields|]. intros x _. cbv zeta.
  rewrite Forall_forall in H3'. destruct (H3' _ Hs) as [b Hb]. destruct (budget_sla _ _ Hb) as [Hsla Hb0].
  eapply yields_bind with (P := fun l => l = b); [apply yields_lift; rewrite Hb; by eexists|]. intros ? ->.
  apply yields_lift. destruct (round_instant a Hi) as [_ A0].
  cbv beta in Hp, Hg. pose proof (do_range _ H4) as Rp. pose proof (do_range _ H5) as Rg.
  match goal with |- context [make_request ?x1 ?x2 ?x3 ?x4 ?x5 ?x6 ?x7 ?x8 ?x9 ?y1 ?y2] =>
    destruct (make_request_total x1 x2 x3 x4 x5 x6 x7 x8 x9 y1 y2) as [r Er] end.
  - exact Hsla.
  - lia.
  - lia.
  - apply flt_nle; [exact (fle_not_nan_r _ _ A0)|nn|exact A0].
  - exact Hb0.
  - exists r. split; [exact Er|].
    destruct (make_request_inv _ _ _ _ _ _ _ _ _ _ _ _ Er) as ((_ & _ & _ & _ & _ & Hsig) & E1 & E2 & E3 & E4 & E5 & E6 & E7 & E8 & E9 & E10 & _).
    constructor; cbn [fst snd]; rewrite ?E2, ?E3, ?E4, ?E5, ?E7, ?E9; done.
Qed.

Lemma zip_indices_elem (l : list float) i a : (i, a) ∈ zip (indices (Z.of_nat (length l))) l → a ∈ l.
Proof. intros Hin. by apply elem_of_zip_r in Hin. Qed.

Lemma zip_indices_snd {A} (l : list A) : map snd (zip (indices (Z.of_nat (length l))) l) = l.
Proof.
  assert (Hl : (length l <= length (indices (Z.of_nat (length l))))%nat) by (rewrite indices_length; lia).
  exact (snd_zip _ _ Hl).
Qed.

(** The requests of a synthetic workload. *)
Record synthetic (config : WorkloadConfig) (seed : Z) (rs : list InferenceRequest) : Prop := {
  sy_count : Z.of_nat (length rs) = wc_request_count config;
  sy_each : ∃ arrivals, arrivals_ok (length rs) arrivals ∧
    Forall2 (generated config seed) (zip (indices (Z.of_nat (length rs))) arrivals) rs;
  sy_sorted : StronglySorted fle (map req_arrival_ts rs)
}.

Lemma generated_sorted config seed ias rs : Forall2 (generated config seed) ias rs →
  StronglySorted fle (map snd ias) → StronglySorted fle (map req_arrival_ts rs).
Proof.
  induction 1 as [|ia r ias rs Hr Hrs IH]; simpl; intros Hs; inversion Hs as [|? ? Hs' Hall]; subst; constructor.
  { by apply IH. }
  clear IH Hs Hs'. induction Hrs as [|ib q ias rs Hq Hrs IH]; simpl; [constructor|].
  inversion Hall as [|? ? Hab Hall']; subst. constructor; [|by apply IH].
  unfold fle. rewrite (ge_arrival _ _ _ _ Hr), (ge_arrival _ _ _ _ Hq). apply fround_mono; [lia|exact Hab].
Qed.

Lemma synthetic_yields config seed read_trace : workload_ok G config →
  yields (generate_requests config seed read_trace : gen G (list InferenceRequest)) (synthetic config seed).
Proof.
  intros Hw. unfold generate_requests. rewrite (wo_synthetic _ _ Hw).
  eapply yields_bind; [apply arrivals_yield; [exact (wo_duration _ _ Hw)|exact (wo_count _ _ Hw)]|]. intros l Hl.
  eapply yields_weaken.
  - apply (yields_mapG _ (generated config seed)). intros [i a] Hin. apply generate_request_yields; [exact Hw|].
    pose proof (ao_instants _ _ Hl) as Hi. rewrite Forall_forall in Hi. apply Hi. by eapply zip_indices_elem.
  - intros rs Hrs. pose proof (Forall2_length _ _ _ Hrs) as Hlen. rewrite length_zip, indices_length in Hlen.
    pose proof (ao_length _ _ Hl) as Hll. assert (E : length l = length rs) by lia.
    pose proof (proj1 (wo_count _ _ Hw)) as Hc. constructor.
    + lia.
    + exists l. split; [by rewrite <- E, Hll|]. by rewrite <- E.
    + eapply generated_sorted; [exact Hrs|]. rewrite zip_indices_snd. exact (ao_sorted _ _ Hl).
Qed.

(** C12: a synthetic workload is generated without an error, whatever the seed and
    the random draws: as many requests as configured, in arrival order, each
    with the tenant, model and class of the configured mixes, token counts
    within the configured bounds, the latency budget of its class, and an
    arrival time rounded from a non-negative time. *)
Theorem workload_generated (config : WorkloadConfig) (seed : Z) (read_trace : string → option trace) :
  workload_ok G config →
  ∃ rs g, generate_requests config seed read_trace (make_generator (G := G) seed) = Ok (rs, g) ∧
    synthetic config seed rs.
Proof. intros Hw. exact (synthetic_yields config seed read_trace Hw (make_generator seed)). Qed.
End requests.

(** ** Replayed requests *)

(** The cells a row needs: numbers, finite where they become token counts. *)
Record row_ok (row : dict string string) : Prop := {
  ro_time : ∃ t, float_cell row "timestamp" = Ok t;
  ro_prompt : ∃ x, float_cell row "prompt_length" = Ok x ∧ finite x = true;
  ro_output : ∃ x, float_cell row "expected_output_length" = Ok x ∧ finite x = true;
  ro_tenant : is_Some (dget row "tenant_id")
}.

Lemma token_cell_ok row k : (∃ x, float_cell row k = Ok x ∧ finite x = true) →
  ∃ n, token_cell row k = Ok n ∧ 1 <= n.
Proof.
  intros (x & Hx & Hf). unfold token_cell. rewrite Hx. destruct x as [z| | |]; try discriminate Hf.
  simpl. eexists. split; [done|lia].
Qed.

(** The instant a row is replayed at: the time since the first row, at the
    configured speed, never negative. *)
Definition replay_instant (config : WorkloadConfig) (t0 t : float) : float :=
  fround 4 (pymax 0.0 ((t - t0) / pymax 0.000000001 (wc_trace_replay_speed config)))%float.

(** The request a row becomes: valid, with the row's instant and lengths (at least
    one token), tenant, model, identifiers, and its class when it is a known one.
    [t0] is the time of the first row. *)
Record replayed (config : WorkloadConfig) (t0 : float) (row : dict string string) (r : InferenceRequest) : Prop := {
  rp_ok : request_ok r;
  rp_arrival : ∀ t, float_cell row "timestamp" = Ok t → req_arrival_ts r = replay_instant config t0 t;
  rp_prompt : token_cell row "prompt_length" = Ok (req_prompt_tokens r);
  rp_output : token_cell row "expected_output_length" = Ok (req_generation_tokens r);
  rp_tenant : ∃ s, dget row "tenant_id" = Some s ∧ req_tenant_id r = or_str s "tenant-unknown";
  rp_model : req_model_id r =
    or_str (dget_or (wc_trace_default_model config) row "model_id") (wc_trace_default_model config);
  rp_id : ∀ s, dget row "request_id" = Some s → req_request_id r = s;
  rp_class : ∀ s, dget row "priority_class" = Some s → is_Some (dget latency_budget s) → req_sla_class r = s;
  rp_session : ∀ s, dget row "session_id" = Some s → s ≠ "" → req_session_id r = Some s
}.

Section replay.
Context {G : Type} `{LawfulRandom G}.

Lemma trace_request_yields config seed path t0 ir : row_ok ir.2 →
  yields (trace_request config seed path t0 ir : gen G InferenceRequest) (replayed config t0 ir.2).
Proof.
  destruct ir as [i row]. intros [[t Ht] Hp Ho [tenant Hten]]. simpl in Ht, Hp, Ho, Hten. unfold trace_request.
  destruct (token_cell_ok _ _ Hp) as (p & Ep & Pp). destruct (token_cell_ok _ _ Ho) as (o & Eo & Po).
  eapply yields_bind with (P := fun raw => raw = t); [apply yields_lift; rewrite Ht; by eexists|]. intros ? ->.
  eapply yields_bind with (P := fun x => x = ((t - t0) / pymax 0.000000001 (wc_trace_replay_speed config))%float);
    [apply yields_lift; rewrite py_div_floor_l; by eexists|]. intros off Eoff.
  cbv zeta. eapply yields_bind with (P := fun n => n = p); [apply yields_lift; rewrite Ep; by eexists|]. intros ? ->.
  eapply yields_bind with (P := fun n => n = o); [apply yields_lift; rewrite Eo; by eexists|]. intros ? ->.
  eapply yields_bind with (P := fun s => s = tenant); [apply yields_lift; unfold cell; rewrite Hten; by eexists|]. intros ? ->.
  eapply yields_bind with (P := fun session => ∀ s, dget row "session_id" = Some s → s ≠ "" → session = s).
  { destruct (dget row "session_id") as [[|c s]|].
    - eapply yields_weaken; [apply pick_session_yields|]. by intros a _ s [= <-].
    - apply yields_ret. by intros s' [= <-].
    - eapply yields_weaken; [apply pick_session_yields|]. by intros a _ s. }
  intros session Hsession. apply yields_lift.
  set (cls := or_str _ (wc_trace_default_sla config)).
  assert (A0 : (0.0 <= fround 4 (pymax 0.0 off))%float) by (apply fround_nonneg; [lia|apply pymax_ge_l; nn]).
  assert (Hcls : is_Some (dget SLA_PRIORITY (match dget latency_budget cls with Some _ => cls | None => "interactive" end)) ∧
    (dget_or (of_lit 1800.0%float) latency_budget cls <=? 0.0)%float = false).
  { unfold dget_or. destruct (dget latency_budget cls) as [b|] eqn:Eb; simpl; [by apply (budget_sla _ b)|].
    split; [by eexists|flit]. }
  destruct Hcls as [Hsla Hml].
  match goal with |- context [make_request ?x1 ?x2 ?x3 ?x4 ?x5 ?x6 ?x7 ?x8 ?x9 ?y1 ?y2] =>
    destruct (make_request_total x1 x2 x3 x4 x5 x6 x7 x8 x9 y1 y2) as [r Er] end.
  - exact Hsla.
  - lia.
  - lia.
  - apply flt_nle; [exact (fle_not_nan_r _ _ A0)|nn|exact A0].
  - exact Hml.
  - exists r. split; [exact Er|].
    destruct (make_request_inv _ _ _ _ _ _ _ _ _ _ _ _ Er) as (Hok & Hid & Htid & Hmid & Hpt & Hgt & Hat & Hsc & Hsid & _).
    simpl. constructor; [exact Hok|intros t' Ht'; rewrite Ht in Ht'; injection Ht' as <-; rewrite Hat, Eoff; reflexivity|by rewrite Hpt|by rewrite Hgt|by exists tenant|exact Hmid| | |].
    + intros s Hs. rewrite Hid. unfold dget_or. by rewrite Hs.
    + intros s Hs [b Hb]. assert (Ecls : cls = s).
      { unfold cls, dget_or. rewrite Hs. by destruct s. }
      by rewrite Hsc, Ecls, Hb.
    + intros s Hs Hne. rewrite Hsid. f_equal. by apply Hsession.
Qed.

Lemma slice_length {A} n (l : list A) : 0 <= n → Z.of_nat (length (slice n l)) = Z.min n (Z.of_nat (length l)).
Proof. intros Hn. unfold slice. destruct (Z.ltb_spec n 0); [lia|]. rewrite length_take. lia. Qed.

Lemma slice_Forall {A} (P : A → Prop) n l : Forall P l → Forall P (slice n l).
Proof. intros Hl. unfold slice. destruct (n <? 0); by apply Forall_take. Qed.

Lemma slice_short {A} n (l : list A) : (length (slice n l) <= length l)%nat.
Proof. unfold slice. destruct (n <? 0); rewrite length_take; lia. Qed.

Lemma kept_rows_Forall config rows : Forall row_ok rows → Forall row_ok (kept_rows config rows).
Proof. intros Hr. unfold kept_rows. destruct (wc_trace_limit config); [by apply slice_Forall|done]. Qed.

(** The requests of a list of rows, and the final cut. *)
Definition replayed_count (config : WorkloadConfig) (rows : list (dict string string)) : Z :=
  let n := Z.of_nat (length (kept_rows config rows)) in
  if 0 <? wc_request_count config then Z.min (wc_request_count config) n else n.

Lemma replay_yields config seed read_trace c path fields rows :
  wc_trace_path config = Some (String c path) → read_trace (String c path) = Some (fields, rows) →
  (∀ k, k ∈ required_columns → k ∈ fields) → Forall row_ok rows →
  yields (generate_requests config seed read_trace : gen G (list InferenceRequest))
    (fun rs => Z.of_nat (length rs) = replayed_count config rows ∧
       ∃ t0, (∀ row, head (kept_rows config rows) = Some row → float_cell row "timestamp" = Ok t0) ∧
         Forall2 (replayed config t0) (take (length rs) (kept_rows config rows)) rs).
Proof.
  intros Hpath Hread Hcols Hrows. unfold generate_requests. rewrite Hpath. unfold _generate_requests_from_trace.
  eapply yields_bind with (P := fun x => x = (fields, rows)); [apply yields_lift; rewrite Hread; by eexists|].
  intros ? ->. eapply yields_bind with (P := fun _ => True).
  { apply yields_lift. exists tt. split; [|done]. unfold raise_if.
    assert (E : forallb (fun c => bool_decide (c ∈ fields)) required_columns = true).
    { apply forallb_forall. intros k Hk. apply bool_decide_eq_true. apply Hcols. by apply list_elem_of_In. }
    by rewrite E. }
  intros _ _. pose proof (kept_rows_Forall config rows Hrows) as Hk. unfold replayed_count.
  set (kept := kept_rows config rows) in *.
  eapply yields_bind with (P := fun t0 => ∀ row, head kept = Some row → float_cell row "timestamp" = Ok t0).
  { destruct kept as [|row kept']; [by apply yields_ret|]. inversion Hk as [|? ? [[t Ht] _ _ _] _]; subst.
    apply yields_lift. exists t. split; [exact Ht|]. by intros ? [= <-]. }
  intros t0 Ht0. eapply yields_bind.
  { apply (yields_mapG _ (fun ir => replayed config t0 ir.2)). intros [i row] Hin. apply trace_request_yields. simpl.
    rewrite Forall_forall in Hk. apply Hk. by apply elem_of_zip_r in Hin. }
  intros rs Hrs. apply (Forall2_fmap_2 snd id) in Hrs.
  rewrite list_fmap_id in Hrs. assert (Es : snd <$> zip (indices (Z.of_nat (length kept))) kept = kept) by apply zip_indices_snd.
  rewrite Es in Hrs. pose proof (Forall2_length _ _ _ Hrs) as E. apply yields_ret. cbv zeta.
  destruct (Z.ltb_spec 0 (wc_request_count config)); simpl.
  - destruct (Z.ltb_spec (wc_request_count config) (Z.of_nat (length rs))).
    + unfold slice. destruct (Z.ltb_spec (wc_request_count config) 0); [lia|]. rewrite length_take. split; [lia|].
      exists t0. split; [exact Ht0|]. rewrite Nat.min_l by lia. by apply Forall2_take.
    + rewrite <- E, take_ge by lia. split; [lia|]. by exists t0.
  - rewrite <- E, take_ge by lia. split; [done|]. by exists t0.
Qed.

(** C19: replaying a trace never fails on rows whose cells parse: from a file with
    the required columns, the rows kept by the trace limit become requests, one
    each and in order, up to the configured count when there is one.  Every
    request passes the constructor's checks (unknown classes are normalised,
    times before the first row are clipped, empty lengths are raised to one
    token), arrives at its row's time since the first row at the replay speed, and
    carries the row's lengths, tenant, model, identifiers and class. *)
Theorem replay_total (config : WorkloadConfig) (seed : Z) (read_trace : string → option trace)
    (c : Ascii.ascii) (path : string) (fields : list string) (rows : list (dict string string)) :
  wc_trace_path config = Some (String c path) → read_trace (String c path) = Some (fields, rows) →
  (∀ k, k ∈ required_columns → k ∈ fields) → Forall row_ok rows →
  ∃ rs g, generate_requests config seed read_trace (make_generator (G := G) seed) = Ok (rs, g) ∧
    Z.of_nat (length rs) = replayed_count config rows ∧
    ∃ t0, (∀ row, head (kept_rows config rows) = Some row → float_cell row "timestamp" = Ok t0) ∧
      Forall2 (replayed config t0) (take (length rs) (kept_rows config rows)) rs.
Proof.
  intros Hpath Hread Hcols Hrows.
  exact (replay_yields config seed read_trace c path fields rows Hpath Hread Hcols Hrows (make_generator seed)).
Qed.
End replay.

(** ** At concrete inputs *)

(** A source that alternates between two draws. *)
#[export] Instance toggle_random : Random Z := {|
  rng_seed n := n;
  rng_random g := (if Z.even g then of_lit 0.25%float else of_lit 0.75%float, g + 1);
  rng_below n g := ((Z.to_nat g mod n)%nat, g + 1);
  rng_expovariate rate g := if (rate =? 0.0)%float then Err ZeroDivisionError else Ok (of_lit 0.5%float, g + 1);
  rng_gauss mu sigma g := (mu, g);
  rng_lognormvariate mu sigma g := Ok (of_lit 700.0%float, g + 1);
  math_log x := x
|}.

#[export] Instance toggle_lawful : LawfulRandom Z.
Proof.
  split.
  - intros g. simpl. destruct (Z.even g); split; flit.
  - intros n g Hn. simpl. apply Nat.mod_upper_bound. lia.
  - intros rate g Hr. simpl. exists (of_lit 0.5%float), (g + 1). split; [|flit].
    destruct (rate =? 0.0)%float eqn:E; [|done]. apply feq_eq in E; [|exact (flt_not_nan_r _ _ Hr)].
    rewrite E in Hr. vm_compute in Hr. discriminate.
Qed.

Lemma sample_weights : weights_ok (wc_tenant_weights sample_workload) ∧ weights_ok (wc_model_mix sample_workload) ∧
  weights_ok (wc_sla_mix sample_workload).
Proof.
  assert (Hw : ∀ w t, last (accumulate (dvalues w)) = Some t → (0.0 <? t)%float = true → finite t = true → wf t → weights_ok w).
  { intros w t H1 H2 H3 H4. exists t. split; [exact H1|]. split; [exact H2|]. split; [exact H3|exact H4]. }
  split; [|split].
  - apply (Hw _ (of_lit 3.0%float)); [by vm_compute|flit|reflexivity|apply of_lit_wf; flit].
  - apply (Hw _ (of_lit 1.0%float)); [by vm_compute|flit|reflexivity|apply of_lit_wf; flit].
  - apply (Hw _ (of_lit 1.0%float)); [by vm_compute|flit|reflexivity|apply of_lit_wf; flit].
Qed.

Lemma sample_workload_ok : workload_ok Z sample_workload.
Proof.
  destruct sample_weights as (W1 & W2 & W3). constructor.
  - by vm_compute.
  - split; [apply of_lit_wf; flit|flit|flit].
  - exact W1.
  - exact W2.
  - split; [exact W3|]. constructor; [by eexists|constructor].
  - split; [simpl; lia|]. right. right. intros g. by eexists.
  - split; [simpl; lia|]. right. right. intros g. by eexists.
  - reflexivity.
Qed.

Lemma workload_generated_witness : ∃ rs g,
  generate_requests sample_workload 7 (fun _ => None) (make_generator (G := Z) 7) = Ok (rs, g) ∧
  synthetic sample_workload 7 rs.
Proof. apply workload_generated. exact sample_workload_ok. Defined.

Definition sample_trace : trace :=
  (required_columns,
   [[("timestamp", "100.5"); ("request_id", "q1"); ("prompt_length", "512.0"); ("expected_output_length", "64");
     ("tenant_id", ""); ("priority_class", "urgent")];
    [("timestamp", "99"); ("request_id", "q2"); ("prompt_length", "-3"); ("expected_output_length", "0");
     ("tenant_id", "t"); ("priority_class", "realtime")]]).

Definition replay_config : WorkloadConfig :=
  {| wc_request_count := 4; wc_duration_s := of_lit 60.0%float; wc_arrival_pattern := "poisson";
     wc_prompt_tokens := wc_prompt_tokens sample_workload; wc_generation_tokens := wc_generation_tokens sample_workload;
     wc_tenant_weights := []; wc_model_mix := []; wc_sla_mix := []; wc_trace_path := Some "trace.csv";
     wc_trace_replay_speed := of_lit 1.0%float; wc_trace_default_model := "m"; wc_trace_default_sla := "interactive";
     wc_trace_limit := None; wc_session_reuse_probability := of_lit 0.4%float; wc_burst_factor := of_lit 1.0%float;
     wc_cache_hostility := of_lit 0.0%float |}.

Lemma replay_total_witness : ∃ rs g,
  generate_requests replay_config 7 (fun _ => Some sample_trace) (make_generator (G := Z) 7) = Ok (rs, g) ∧
  Z.of_nat (length rs) = replayed_count replay_config sample_trace.2.
Proof.
  destruct (replay_total (G := Z) replay_config 7 (fun _ => Some sample_trace) (Ascii.ascii_of_N 116) "race.csv" required_columns sample_trace.2)
    as (rs & g & H1 & H2 & _).
  - reflexivity.
  - reflexivity.
  - done.
  - repeat constructor; try (eexists; vm_compute; reflexivity); eexists; split; vm_compute; reflexivity.
  - exists rs, g. split; [exact H1|exact H2].
Defined.
