(* ===== verification/Normalizers.v ===== *)
(** * [data_pipeline/]: raw datasets into workload rows

    [normalizers.py], [utils.py], [schema.py] and the job loop of
    [scripts/normalize_workloads.py].  The readers ([csv.DictReader],
    [json.loads], [yaml.safe_load]) are arguments; a CSV row is not shorter than
    its header.  The built-in [hash] of a value is an argument too: the
    interpreter randomises it for text.  White space and letter case are those
    of ASCII. *)

From S2P Require Import Prelude PyFloat PyDict PyStr PyJson PyNum PyParse PyRepr Files.
From S2P Require Import Config Types Samples Logs Workload.

Local Open Scope Z_scope.

(** ** Rows ([schema.py], [utils.py]) *)

Record NormalizedWorkloadRow := {
  nr_timestamp : float;
  nr_request_id : string;
  nr_prompt_length : Z;
  nr_expected_output_length : Z;
  nr_tenant_id : string;
  nr_priority_class : string;
  nr_model_id : string;
  nr_session_id : string
}.

Definition NORMALIZED_COLUMNS : list string :=
  ["timestamp"; "request_id"; "prompt_length"; "expected_output_length"; "tenant_id"; "priority_class";
   "model_id"; "session_id"].

(** The dictionary handed to the CSV writer. *)
Definition row_dict (r : NormalizedWorkloadRow) : dict string json :=
  [("timestamp", JFloat (fround 6 (nr_timestamp r))); ("request_id", JStr (nr_request_id r));
   ("prompt_length", JInt (nr_prompt_length r)); ("expected_output_length", JInt (nr_expected_output_length r));
   ("tenant_id", JStr (nr_tenant_id r)); ("priority_class", JStr (nr_priority_class r));
   ("model_id", JStr (nr_model_id r)); ("session_id", JStr (nr_session_id r))].

(** [open("w")], the header, the rows. *)
Definition write_normalized_rows (files : csv_files) (path : string) (rows : list NormalizedWorkloadRow) :
    result csv_files :=
  foldM (fun fs r => csv_append fs path NORMALIZED_COLUMNS (row_dict r))
    (dset files path [map JStr NORMALIZED_COLUMNS]) rows.

Definition clamp_priority (raw : string) : string :=
  let value := str_lower (str_strip raw) in
  if bool_decide (value ∈ ["realtime"; "interactive"; "best_effort"]) then value
  else if bool_decide (value ∈ ["high"; "p0"; "critical"]) then "realtime"
  else if bool_decide (value ∈ ["low"; "p2"; "batch"]) then "best_effort"
  else "interactive".

(** [(text or "").strip()]: only text has [strip]. *)
Definition stripped_text (text : json) : result string :=
  if truthy text then match text with JStr s => Ok (str_strip s) | _ => Err AttributeError end else Ok "".

Definition approx_token_length (text : json) : result Z :=
  stripped ← stripped_text text;
  if String.eqb stripped "" then Ok 1 else
  words ← float_of_int (Z.of_nat (length (split_words [] (chars stripped))));
  n ← ftrunc (words * 1.33)%float; Ok (Z.max 1 n).

(** ** Loops over a dataset ([normalizers.py]) *)

(** [for index, x in enumerate(l)] with the test of the limit first; a body that
    gives [None] is a [continue]. *)
Fixpoint collect {A} (limit : option Z) (body : Z → A → result (option NormalizedWorkloadRow)) (index : Z)
    (rows : list NormalizedWorkloadRow) (l : list A) : result (list NormalizedWorkloadRow) :=
  match l with
  | [] => Ok rows
  | x :: l' =>
      if match limit with Some n => n <=? Z.of_nat (length rows) | None => false end then Ok rows
      else
        row ← body index x;
        collect limit body (index + 1) (rows ++ option_list row) l'
  end.

(** [a or b] *)
Definition py_or (a b : json) : json := if truthy a then a else b.

(** A dataset file: a list, or an object with a [data] list. *)
Definition dataset_records (payload : json) : result (list json) :=
  records ← match payload with JList _ => Ok payload | _ => jfield payload "data" (JList []) end;
  jiter records.

(** [record.get]: only a dict has it. *)
Definition as_dict (record : json) : result (dict string json) :=
  match record with JObj d => Ok d | _ => Err AttributeError end.

(** [row.get(k, dflt)] of a CSV row. *)
Definition csv_get (row : dict string string) (k : string) (dflt : json) : json :=
  match dget row k with Some s => JStr s | None => dflt end.

Definition alibaba_row (default_model : string) (index : Z) (row : dict string string) :
    result (option NormalizedWorkloadRow) :=
  start_time ← py_float (csv_get row "start_time" (JInt index));
  duration ← py_float (csv_get row "task_duration" (csv_get row "duration" (JFloat (of_lit 1.0%float))));
  cpu ← py_float (csv_get row "cpu_usage" (csv_get row "plan_cpu" (JFloat (of_lit 1.0%float))));
  memory ← py_float (csv_get row "memory_usage" (csv_get row "plan_mem" (JFloat (of_lit 1.0%float))));
  prompt ← ftrunc ((cpu * 220.0) + (memory * 100.0))%float;
  output ← ftrunc (duration * 40.0)%float;
  let machine_id := dget_or "machine-unknown" row "machine_id" in
  let tenant_id := "tenant-" +:+ machine_id in
  Ok (Some {| nr_timestamp := start_time;
              nr_request_id := dget_or ("alibaba-" +:+ fmt0 7 index) row "task_id";
              nr_prompt_length := Z.max 32 prompt; nr_expected_output_length := Z.max 16 output;
              nr_tenant_id := tenant_id;
              nr_priority_class := clamp_priority (dget_or "interactive" row "priority");
              nr_model_id := default_model;
              nr_session_id := tenant_id +:+ "-session-" +:+ str_of_Z (index / 4) |}).

(** The loop over the turns of a conversation. *)
Fixpoint read_turns (prompt response : json) (turns : list json) : result (json * json) :=
  match turns with
  | [] => Ok (prompt, response)
  | turn :: rest =>
      d ← as_dict turn;
      role ← match py_or (py_or (jget d "from" JNull) (jget d "role" JNull)) (JStr "") with
             | JStr s => Ok (str_lower s) | _ => Err AttributeError end;
      let value := py_or (py_or (jget d "value" JNull) (jget d "content" JNull)) (JStr "") in
      let '(prompt', response') :=
        if negb (truthy prompt) && bool_decide (role ∈ ["human"; "user"]) then (value, response)
        else if negb (truthy response) && bool_decide (role ∈ ["gpt"; "assistant"]) then (prompt, value)
        else (prompt, response) in
      if truthy prompt' && truthy response' then Ok (prompt', response') else read_turns prompt' response' rest
  end.

Section normalizers.
(** [hash] of a hashable value, and the readers. *)
Context (py_hash : json → Z).
Context (read_csv : string → result (list (dict string string))) (read_json : string → result json).

Definition hash_of (x : json) : result Z :=
  match x with JList _ | JObj _ => Err TypeError | _ => Ok (py_hash x) end.

Definition sharegpt_row (default_model : string) (index : Z) (record : json) :
    result (option NormalizedWorkloadRow) :=
  d ← as_dict record;
  let conversations :=
    py_or (py_or (jget d "conversations" JNull) (jget d "conversation" JNull)) (JList []) in
  if negb (truthy conversations) then Ok None else
  turns ← jiter conversations;
  '(prompt, response) ← read_turns (JStr "") (JStr "") turns;
  prompt_length ← approx_token_length prompt;
  output_length ← approx_token_length response;
  let conv_id := jget d "id" (JStr ("sharegpt-" +:+ fmt0 6 index)) in
  h ← hash_of conv_id;
  let tenant_id := "sharegpt-" +:+ fmt0 3 (h mod 1000) in
  timestamp ← float_of_int index;
  Ok (Some {| nr_timestamp := timestamp; nr_request_id := py_str conv_id; nr_prompt_length := prompt_length;
              nr_expected_output_length := Z.max 16 output_length; nr_tenant_id := tenant_id;
              nr_priority_class := "interactive"; nr_model_id := default_model;
              nr_session_id := tenant_id +:+ "-session-" +:+ str_of_Z (index / 6) |}).

(** [record.get(k1) or record.get(k2) or ... or dflt] *)
Definition first_of (d : dict string json) (keys : list string) (dflt : json) : json :=
  foldr (fun k acc => py_or (jget d k JNull) acc) dflt keys.

Definition lmsys_row (default_model : string) (index : Z) (record : json) :
    result (option NormalizedWorkloadRow) :=
  d ← as_dict record;
  let prompt := first_of d ["prompt"; "conversation_a"; "input"; "question"] (JStr "") in
  let output := first_of d ["response"; "conversation_b"; "output"; "answer"] (JStr "") in
  prompt_length ← approx_token_length (JStr (py_str prompt));
  output_length ← approx_token_length (JStr (py_str output));
  let model_id := first_of d ["model"; "model_a"] (JStr default_model) in
  let tenant := first_of d ["user_id"] (JStr ("arena-" +:+ fmt0 3 (index mod 64))) in
  let priority := if index mod 5 =? 0 then "realtime" else "interactive" in
  timestamp ← float_of_int index;
  Ok (Some {| nr_timestamp := timestamp;
              nr_request_id := py_str (jget d "id" (JStr ("lmsys-" +:+ fmt0 6 index)));
              nr_prompt_length := prompt_length; nr_expected_output_length := Z.max 16 output_length;
              nr_tenant_id := py_str tenant; nr_priority_class := priority; nr_model_id := py_str model_id;
              nr_session_id := py_str tenant +:+ "-session-" +:+ str_of_Z (index / 8) |}).

Definition newline_char : string := String (chr 10) EmptyString.

Definition instruction_row (default_model : string) (index : Z) (record : json) :
    result (option NormalizedWorkloadRow) :=
  d ← as_dict record;
  let instruction := first_of d ["instruction"; "prompt"; "query"] (JStr "") in
  let context := first_of d ["context"] (JStr "") in
  let output := first_of d ["output"; "response"; "answer"] (JStr "") in
  prompt_length ← approx_token_length (JStr (str_strip (py_str instruction +:+ newline_char +:+ py_str context)));
  output_length ← approx_token_length (JStr (py_str output));
  let tenant := "open-llm-" +:+ fmt0 2 (index mod 48) in
  timestamp ← float_of_int index;
  Ok (Some {| nr_timestamp := timestamp;
              nr_request_id := py_str (jget d "id" (JStr ("open-llm-" +:+ fmt0 7 index)));
              nr_prompt_length := prompt_length; nr_expected_output_length := Z.max 16 output_length;
              nr_tenant_id := tenant; nr_priority_class := "interactive"; nr_model_id := default_model;
              nr_session_id := tenant +:+ "-session-" +:+ str_of_Z (index / 5) |}).

(** [max(1, int(float(row.get(k, 1))))] *)
Definition length_cell (row : dict string string) (k : string) : result Z :=
  x ← py_float (csv_get row k (JInt 1)); n ← ftrunc x; Ok (Z.max 1 n).

Definition generic_row (default_model : string) (index : Z) (row : dict string string) :
    result (option NormalizedWorkloadRow) :=
  timestamp ← py_float (csv_get row "timestamp" (JInt index));
  prompt_length ← length_cell row "prompt_length";
  output_length ← length_cell row "expected_output_length";
  Ok (Some {| nr_timestamp := timestamp;
              nr_request_id := dget_or ("generic-" +:+ fmt0 7 index) row "request_id";
              nr_prompt_length := prompt_length; nr_expected_output_length := output_length;
              nr_tenant_id := dget_or ("tenant-" +:+ str_of_Z (index mod 16)) row "tenant_id";
              nr_priority_class := clamp_priority (dget_or "interactive" row "priority_class");
              nr_model_id := dget_or default_model row "model_id";
              nr_session_id := dget_or ("session-" +:+ str_of_Z (index / 4)) row "session_id" |}).

(** ** The normalizers: path, limit, default model *)

Definition normalizer : Type := string → option Z → string → result (list NormalizedWorkloadRow).

Definition normalize_alibaba_cluster_trace : normalizer := fun input_csv limit default_model =>
  rows ← read_csv input_csv; collect limit (alibaba_row default_model) 0 [] rows.

Definition normalize_sharegpt_dataset : normalizer := fun input_json limit default_model =>
  payload ← read_json input_json; records ← dataset_records payload;
  collect limit (sharegpt_row default_model) 0 [] records.

(** The last component of a POSIX path, and its suffix. *)
Definition path_name (path : string) : string :=
  List.last (filter (fun s => s ∉ [""; "."]) (split_path "" (chars path))) "".

Fixpoint rfind_dot (i : nat) (found : option nat) (l : list Ascii.ascii) : option nat :=
  match l with
  | [] => found
  | c :: l' => rfind_dot (S i) (if code c =? 46 then Some i else found) l'
  end.
Definition path_suffix (path : string) : string :=
  let name := chars (path_name path) in
  match rfind_dot 0 None name with
  | Some i => if (0 <? i)%nat && (i <? length name - 1)%nat then unchars (drop i name) else ""
  | None => ""
  end.

Definition normalize_lmsys_dataset : normalizer := fun input_path limit default_model =>
  payload ← (if String.eqb (str_lower (path_suffix input_path)) ".json" then read_json input_path
             else rows ← read_csv input_path; Ok (JList (map (fun row => JObj (prod_map id JStr <$> row)) rows)));
  records ← dataset_records payload;
  collect limit (lmsys_row default_model) 0 [] records.

Definition normalize_instruction_dataset : normalizer := fun input_path limit default_model =>
  payload ← read_json input_path; records ← dataset_records payload;
  collect limit (instruction_row default_model) 0 [] records.

Definition normalize_generic_workload_csv : normalizer := fun input_csv limit default_model =>
  rows ← read_csv input_csv; collect limit (generic_row default_model) 0 [] rows.

Definition NORMALIZER_REGISTRY : dict string normalizer :=
  [("alibaba", normalize_alibaba_cluster_trace); ("sharegpt", normalize_sharegpt_dataset);
   ("lmsys", normalize_lmsys_dataset); ("openorca", normalize_instruction_dataset);
   ("ultrachat", normalize_instruction_dataset); ("dolly", normalize_instruction_dataset);
   ("mlperf", normalize_generic_workload_csv); ("azure_retail", normalize_generic_workload_csv);
   ("generic_csv", normalize_generic_workload_csv)].
End normalizers.

(** ** Jobs ([scripts/normalize_workloads.py]) *)

Section jobs.
(** The readers see the files the jobs have written. *)
Context (py_hash : json → Z).
Context (read_csv : csv_files → string → result (list (dict string string))) (read_json : string → result json).

Definition run_job (st : csv_files * list json) (job : json) : result (csv_files * list json) :=
  match job with
  | JObj d =>
      normalizer_name ← get_or KeyError (dget d "normalizer");
      input_path ← get_or KeyError (dget d "input");
      output_path ← get_or KeyError (dget d "output");
      limit ← match jget d "limit" JNull with JNull => Ok None | j => n ← py_int j; Ok (Some n) end;
      let default_model := py_str (jget d "default_model" (JStr "llama-3-8b")) in
      normalize ← get_or KeyError (dget (NORMALIZER_REGISTRY py_hash (read_csv st.1) read_json) (py_str normalizer_name));
      rows ← normalize (py_str input_path) limit default_model;
      files ← write_normalized_rows st.1 (py_str output_path) rows;
      Ok (files, st.2 ++ [JObj [("normalizer", JStr (py_str normalizer_name)); ("input", JStr (py_str input_path));
                                ("output", JStr (py_str output_path)); ("rows", JInt (Z.of_nat (length rows)))]])
  | _ => Ok st
  end.

(** [payload] is the parsed configuration, [None] without the YAML library. *)
Definition run_pipeline (payload : option json) (files : csv_files) : result (csv_files * list json) :=
  config ← get_or RuntimeError payload;
  d ← match config with JObj d => Ok d | _ => Err ValueError end;
  jobs ← match jget d "jobs" (JList []) with JList l => Ok l | _ => Err ValueError end;
  foldM run_job (files, []) jobs.
End jobs.

(** ** What a normalizer returns *)

Lemma ftrunc_finite x n : wf x → ftrunc x = Ok n → 1 <= n → finite (of_Z n) = true.
Proof.
  destruct x as [z| | |]; try discriminate. intros Hwf [= <-] Hn.
  pose proof unit_z_pos as Hu. simpl in Hn.
  assert (Hz : 0 < z) by (pose proof (Z.shiftr_nonneg (Z.abs z) 1074); destruct z; simpl Z.sgn in Hn; lia).
  rewrite (Z.sgn_pos z Hz), (Z.abs_eq z), Z.mul_1_l, Z.shiftr_div_pow2 in * by lia.
  replace (2 ^ 1074) with unit_z in * by reflexivity. pose proof (Z.mul_div_le z unit_z Hu) as Hle.
  apply (finite_between (of_Z (z / unit_z)) (of_Z 0) (Fin z)); [flit|done|apply of_Z_mono; lia|].
  pose proof (frnd_exact z 1 eq_refl Hwf) as E. rewrite Z.mul_1_r in E. rewrite <- E.
  with_strategy transparent [of_Z] unfold of_Z. apply frnd_mono; nia.
Qed.

(** A token count the replay can read back. *)
Definition length_ok (n : Z) : Prop := 1 <= n ∧ finite (of_Z n) = true.

Lemma length_ok_max k n x : 1 <= k <= 2 ^ 53 → wf x → ftrunc x = Ok n → length_ok (Z.max k n).
Proof.
  intros Hk Hwf Hn. split; [lia|]. destruct (Z.max_spec k n) as [[H1 ->]|[H1 ->]].
  - apply (ftrunc_finite x); [done|done|lia].
  - apply of_Z_fin. lia.
Qed.

Lemma length_ok_more k n : 1 <= k <= 2 ^ 53 → length_ok n → length_ok (Z.max k n).
Proof.
  intros Hk [H1 H2]. split; [lia|]. destruct (Z.max_spec k n) as [[H3 ->]|[H3 ->]]; [done|]. apply of_Z_fin. lia.
Qed.

Lemma approx_length_ok text n : approx_token_length text = Ok n → length_ok n.
Proof.
  unfold approx_token_length. intros H. apply bind_ok in H as (s & _ & H). destruct (String.eqb s "").
  - injection H as <-. split; [lia|]. apply of_Z_fin. lia.
  - apply bind_ok in H as (w & _ & H). apply bind_ok in H as (k & Hk & H). injection H as <-.
    eapply length_ok_max; [lia|apply fmul_wf|exact Hk].
Qed.

Lemma float_of_str_wf s x : float_of_str s = Ok x → wf x.
Proof.
  unfold float_of_str. destruct (scan_sign _) as [sg l]. cbv zeta.
  destruct (_ || _); [by intros [= <-]; destruct (0 <? sg)|]. destruct (String.eqb _ "nan"); [by intros [= <-]|].
  destruct (scan_digits false 0 0 l) as [[m1 n1] l1].
  assert (Hdec : ∀ m e, wf (float_of_decimal m e)).
  { intros m e. unfold float_of_decimal. case_test; apply frnd_wf; [done|]. apply Z.pow_pos_nonneg; [lia|].
    apply Z.leb_gt in Heqb. lia. }
  destruct l1 as [|c l1]; [|destruct (code c =? 46); [destruct (scan_digits false m1 0 l1) as [[m2 n2] l2]|]].
  all: destruct (scan_exponent _) as [e|]; [|discriminate]; destruct (_ =? 0)%nat; [discriminate|];
    intros [= <-]; apply Hdec.
Qed.

Lemma float_of_int_wf n x : float_of_int n = Ok x → wf x.
Proof. unfold float_of_int. destruct (finite _); [|discriminate]. intros [= <-]. apply of_Z_wf. Qed.

Lemma length_cell_ok row k n : length_cell row k = Ok n → length_ok n.
Proof.
  unfold length_cell, csv_get. intros H. apply bind_ok in H as (x & Hx & H). apply bind_ok in H as (m & Hm & H).
  injection H as <-. apply (length_ok_max 1 m x); [lia| |exact Hm].
  destruct (dget row k); [by eapply float_of_str_wf|by eapply float_of_int_wf].
Qed.

Record row_valid (r : NormalizedWorkloadRow) : Prop := {
  rv_time : wf (nr_timestamp r);
  rv_prompt : length_ok (nr_prompt_length r);
  rv_output : length_ok (nr_expected_output_length r);
  rv_class : is_Some (dget latency_budget (nr_priority_class r))
}.

Lemma clamp_priority_known raw : is_Some (dget latency_budget (clamp_priority raw)).
Proof.
  unfold clamp_priority. repeat case_bool_decide; try (by eexists).
  match goal with H : _ ∈ ["realtime"; _; _] |- _ => rename H into Hv end.
  repeat (apply elem_of_cons in Hv as [->|Hv]; [by eexists|]). by apply elem_of_nil in Hv.
Qed.

Lemma collect_ok {A} (P : NormalizedWorkloadRow → Prop) limit body index rows (l : list A) out :
  (∀ i x r, body i x = Ok (Some r) → P r) → Forall P rows → collect limit body index rows l = Ok out →
  Forall P out ∧ ∀ n, limit = Some n → Z.of_nat (length rows) <= n → Z.of_nat (length out) <= n.
Proof.
  intros Hb. revert index rows. induction l as [|x l IH]; intros index rows Hr; simpl; [by intros [= <-]|].
  destruct limit as [n|]; [destruct (Z.leb_spec n (Z.of_nat (length rows)))|]; simpl; [by intros [= <-]| |].
  all: intros Hc; apply bind_ok in Hc as (row & Hrow & Hc).
  all: apply IH in Hc as [H1 H2];
    [|apply Forall_app_2; [done|]; destruct row as [r|]; simpl; [by repeat constructor; apply (Hb index x)|constructor]].
  all: split; [exact H1|]; intros n' Hn' Hle; apply (H2 n' Hn').
  - injection Hn' as <-. rewrite length_app. destruct row; simpl; lia.
  - discriminate.
Qed.

Lemma csv_float_wf row k (n : Z) x : py_float (csv_get row k (JInt n)) = Ok x → wf x.
Proof. unfold csv_get. destruct (dget row k); [apply float_of_str_wf|apply float_of_int_wf]. Qed.

Lemma alibaba_row_valid model i row r : alibaba_row model i row = Ok (Some r) → row_valid r.
Proof.
  unfold alibaba_row. intros H. apply bind_ok in H as (t & Ht & H). do 3 (apply bind_ok in H as (? & _ & H)).
  apply bind_ok in H as (p & Hp & H). apply bind_ok in H as (o & Ho & H). injection H as <-. constructor; simpl.
  - by eapply csv_float_wf.
  - eapply length_ok_max; [lia|apply fadd_wf|exact Hp].
  - eapply length_ok_max; [lia|apply fmul_wf|exact Ho].
  - apply clamp_priority_known.
Qed.

Lemma generic_row_valid model i row r : generic_row model i row = Ok (Some r) → row_valid r.
Proof.
  unfold generic_row. intros H. apply bind_ok in H as (t & Ht & H). apply bind_ok in H as (p & Hp & H).
  apply bind_ok in H as (o & Ho & H). injection H as <-.
  constructor; simpl; [by eapply csv_float_wf|by eapply length_cell_ok|by eapply length_cell_ok|apply clamp_priority_known].
Qed.

(** The text datasets count words. *)
Lemma words_row_valid r i p o cls text out : float_of_int i = Ok (nr_timestamp r) →
  approx_token_length text = Ok p → approx_token_length out = Ok o →
  nr_prompt_length r = p → nr_expected_output_length r = Z.max 16 o → nr_priority_class r = cls →
  is_Some (dget latency_budget cls) → row_valid r.
Proof.
  intros Ht Hp Ho E1 E2 E3 Hc.
  constructor; rewrite ?E1, ?E2, ?E3; [by eapply float_of_int_wf|by eapply approx_length_ok| |done].
  apply length_ok_more; [lia|by eapply approx_length_ok].
Qed.

Lemma sharegpt_row_valid py_hash model i record r : sharegpt_row py_hash model i record = Ok (Some r) → row_valid r.
Proof.
  unfold sharegpt_row. intros H. apply bind_ok in H as (d & _ & H). cbv zeta in H.
  destruct (negb _); [discriminate|]. apply bind_ok in H as (turns & _ & H). apply bind_ok in H as ([pr re] & _ & H).
  apply bind_ok in H as (p & Hp & H). apply bind_ok in H as (o & Ho & H).
  apply bind_ok in H as (h & _ & H). apply bind_ok in H as (ts & Ht & H). injection H as <-.
  match goal with |- row_valid ?r => by apply (words_row_valid r i p o "interactive" _ _ Ht Hp Ho) end.
Qed.

Lemma lmsys_row_valid model i record r : lmsys_row model i record = Ok (Some r) → row_valid r.
Proof.
  unfold lmsys_row. intros H. apply bind_ok in H as (d & _ & H). cbv zeta in H.
  apply bind_ok in H as (p & Hp & H). apply bind_ok in H as (o & Ho & H).
  apply bind_ok in H as (ts & Ht & H). injection H as <-.
  match goal with |- row_valid ?r =>
    apply (words_row_valid r i p o (if i mod 5 =? 0 then "realtime" else "interactive") _ _ Ht Hp Ho); try done end.
  by destruct (i mod 5 =? 0).
Qed.

Lemma instruction_row_valid model i record r : instruction_row model i record = Ok (Some r) → row_valid r.
Proof.
  unfold instruction_row. intros H. apply bind_ok in H as (d & _ & H). cbv zeta in H.
  apply bind_ok in H as (p & Hp & H). apply bind_ok in H as (o & Ho & H).
  apply bind_ok in H as (ts & Ht & H). injection H as <-.
  match goal with |- row_valid ?r => by apply (words_row_valid r i p o "interactive" _ _ Ht Hp Ho) end.
Qed.

Section valid.
Context (py_hash : json → Z).
Context (read_csv : string → result (list (dict string string))) (read_json : string → result json).

Definition normalizer_ok (normalize : normalizer) : Prop := ∀ path limit model rows,
  normalize path limit model = Ok rows →
  Forall row_valid rows ∧ ∀ n, limit = Some n → 0 <= n → Z.of_nat (length rows) <= n.

Lemma collect_valid {A} limit body (l : list A) out :
  (∀ i x r, body i x = Ok (Some r) → row_valid r) → collect limit body 0 [] l = Ok out →
  Forall row_valid out ∧ ∀ n, limit = Some n → 0 <= n → Z.of_nat (length out) <= n.
Proof. intros Hb Hc. by apply (collect_ok row_valid) in Hc. Qed.

Lemma registry_ok name normalize :
  dget (NORMALIZER_REGISTRY py_hash read_csv read_json) name = Some normalize → normalizer_ok normalize.
Proof.
  intros Hn%dget_elem path limit model rows. unfold NORMALIZER_REGISTRY in Hn.
  repeat (apply elem_of_cons in Hn as [[= _ ->]|Hn]); [..|by apply elem_of_nil in Hn].
  all: intros H; apply bind_ok in H as (payload & _ & H); try (apply bind_ok in H as (records & _ & H)).
  all: eapply collect_valid in H; [exact H|]; intros *;
    first [apply alibaba_row_valid|apply sharegpt_row_valid|apply lmsys_row_valid|apply instruction_row_valid|apply generic_row_valid].
Qed.
End valid.

(** ** Normalized rows are replayed by the workload generator *)

(** The writers open their tables with [newline=""]; the readers do not, and
    so read them with universal newlines: a carriage return inside a cell, alone
    or before a line feed, comes back as a line feed. *)
Fixpoint newline_read (s : string) : string :=
  match s with
  | EmptyString => EmptyString
  | String c s' =>
      if code c =? 13 then
        String (chr 10) match s' with
                        | String c' s'' => if code c' =? 10 then newline_read s'' else newline_read s'
                        | EmptyString => EmptyString
                        end
      else String c (newline_read s')
  end.

(** What [csv.DictReader] reads from a file the CSV writer wrote and the reader
    opened as text: every cell as text, with the line breaks inside it
    translated.  (Cells are under the module's limit of 131072 characters.) *)
Definition read_cell (cell : json) : string := newline_read (py_str cell).

Definition csv_reread (files : csv_files) (path : string) : option trace :=
  match dget files path with
  | Some (header :: rows) =>
      Some (map read_cell header, map (fun row => zip (map read_cell header) (map read_cell row)) rows)
  | _ => None
  end.

Definition written_row (r : NormalizedWorkloadRow) : dict string string := prod_map id read_cell <$> row_dict r.

Example newlines : newline_read (unchars [chr 97; chr 13; chr 10; chr 98; chr 13; chr 13; chr 10; chr 99; chr 10]) =
  unchars [chr 97; chr 10; chr 98; chr 10; chr 10; chr 99; chr 10].
Proof. reflexivity. Qed.

(** *** Texts without a carriage return are read as they are *)

Definition no_cr (s : string) : Prop := Forall (fun c => code c ≠ 13) (chars s).

#[export] Instance no_cr_dec s : Decision (no_cr s).
Proof. unfold no_cr. apply _. Defined.

Lemma newline_read_plain s : no_cr s → newline_read s = s.
Proof.
  unfold no_cr. induction s as [|c s IH]; cbn [chars String.list_ascii_of_string newline_read]; [done|].
  intros [Hc Hs]%Forall_cons. destruct (Z.eqb_spec (code c) 13); [done|]. f_equal. by apply IH.
Qed.

Lemma newline_read_nonempty s : s ≠ "" → newline_read s ≠ "".
Proof. destruct s as [|c s]; [done|]. intros _. cbn [newline_read]. by destruct (code c =? 13). Qed.

(** Reading a text leaves no carriage return in it. *)
Lemma newline_read_no_cr s : no_cr (newline_read s).
Proof.
  unfold no_cr.
  assert (H : ∀ n s, (String.length s <= n)%nat → Forall (fun c => code c ≠ 13) (chars (newline_read s))); [|by apply (H (String.length s))].
  induction n as [|n IH]; intros [|c t] Hn; cbn [String.length] in Hn; try (by constructor); [lia|].
  cbn [newline_read]. destruct (Z.eqb_spec (code c) 13) as [|Hc]; constructor; [done| |exact Hc|apply IH; lia].
  destruct t as [|c' t']; [constructor|]. cbn [String.length] in Hn. destruct (code c' =? 10); apply IH; simpl; lia.
Qed.

(** A text cut before anything but a line feed is read piece by piece. *)
Lemma newline_read_app s c t : code c ≠ 10 →
  newline_read (s +:+ String c t) = newline_read s +:+ newline_read (String c t).
Proof.
  intros Hc. assert (H : ∀ n s, (String.length s <= n)%nat →
    newline_read (s +:+ String c t) = newline_read s +:+ newline_read (String c t)); [|by apply (H (String.length s))].
  clear s. induction n as [|n IH]; intros [|a s] Hn; cbn [String.length] in Hn; try done; [lia|].
  change (String a s +:+ String c t) with (String a (s +:+ String c t)). cbn [newline_read].
  destruct (code a =? 13).
  - destruct s as [|b s].
    + change ("" +:+ String c t) with (String c t). cbv iota. destruct (Z.eqb_spec (code c) 10); [done|reflexivity].
    + change (String b s +:+ String c t) with (String b (s +:+ String c t)). cbv iota. cbn [String.length] in Hn.
      destruct (code b =? 10).
      * rewrite (IH s) by lia. reflexivity.
      * change (String b (s +:+ String c t)) with (String b s +:+ String c t). rewrite (IH (String b s)) by (simpl; lia). reflexivity.
  - rewrite (IH s) by lia. reflexivity.
Qed.

Lemma no_cr_number s : Forall number_char (chars s) → no_cr s.
Proof. intros Hs. eapply Forall_impl; [exact Hs|]. intros c [Hc|Hc]; lia. Qed.

Lemma read_int n : 0 <= n → read_cell (JInt n) = str_of_Z n.
Proof. intros Hn. apply newline_read_plain, no_cr_number, number_char_digits. by apply str_of_nonneg. Qed.

Lemma read_float f : wf f → read_cell (JFloat f) = float_repr f.
Proof.
  intros Hf. apply newline_read_plain. change (no_cr (float_repr f)).
  destruct f as [[|p|p]| | |]; [| | |apply (bool_decide_unpack (no_cr _)); vm_compute; exact I..]; cbn [float_repr].
  - apply (bool_decide_unpack (no_cr _)). vm_compute. exact I.
  - by apply no_cr_number, number_shape_chars, repr_pos_shape.
  - unfold no_cr. rewrite chars_append. constructor; [done|].
    apply no_cr_number, number_shape_chars, repr_pos_shape; [done|]. exact (fopp_wf _ Hf).
Qed.

(** The class of a row is one of three words. *)
Lemma read_class r : row_valid r → newline_read (nr_priority_class r) = nr_priority_class r.
Proof.
  intros [_ _ _ [b Hc]]. apply newline_read_plain. apply dget_elem in Hc. unfold latency_budget in Hc.
  repeat (apply elem_of_cons in Hc as [[= -> _]|Hc]; [apply (bool_decide_unpack (no_cr _)); vm_compute; exact I|]).
  by apply elem_of_nil in Hc.
Qed.

Lemma write_rows_ok files path rows :
  ∃ files', write_normalized_rows files path rows = Ok files' ∧
    dget files' path = Some (map JStr NORMALIZED_COLUMNS :: map (fun r => map snd (row_dict r)) rows).
Proof.
  unfold write_normalized_rows.
  assert (Hf : ∀ l fs done, dget fs path = Some done →
    ∃ fs', foldM (fun fs r => csv_append fs path NORMALIZED_COLUMNS (row_dict r)) fs l = Ok fs' ∧
      dget fs' path = Some (done ++ map (fun r => map snd (row_dict r)) l)).
  { induction l as [|r l IH]; intros fs d Hd; simpl; [exists fs; by rewrite app_nil_r|].
    unfold csv_append at 1. cbn [mapR NORMALIZED_COLUMNS row_dict dget get_or mbind result_bind].
    change (mapR (fun k => get_or KeyError (dget (row_dict r) k)) NORMALIZED_COLUMNS) with (Ok (map snd (row_dict r))).
    cbn [mbind result_bind]. rewrite Hd.
    destruct (IH (dset fs path (d ++ [map snd (row_dict r)])) (d ++ [map snd (row_dict r)])) as (fs' & H1 & H2);
      [apply dget_set_eq|].
    exists fs'. split; [exact H1|]. by rewrite H2, <- app_assoc. }
  destruct (Hf rows (dset files path [map JStr NORMALIZED_COLUMNS]) [map JStr NORMALIZED_COLUMNS]) as (fs' & H1 & H2);
    [apply dget_set_eq|]. by exists fs'.
Qed.

Lemma reread_written files path rows : dget files path = Some (map JStr NORMALIZED_COLUMNS :: map (fun r => map snd (row_dict r)) rows) →
  csv_reread files path = Some (NORMALIZED_COLUMNS, map written_row rows).
Proof. intros Hd. unfold csv_reread. rewrite Hd. do 2 f_equal. rewrite map_map. by apply map_ext. Qed.

(** The numbers of a row are read as they were printed. *)
Lemma written_cells r : row_valid r →
  dget (written_row r) "timestamp" = Some (float_repr (fround 6 (nr_timestamp r))) ∧
  dget (written_row r) "prompt_length" = Some (str_of_Z (nr_prompt_length r)) ∧
  dget (written_row r) "expected_output_length" = Some (str_of_Z (nr_expected_output_length r)) ∧
  dget (written_row r) "priority_class" = Some (nr_priority_class r).
Proof.
  intros Hv. pose proof (read_class r Hv) as Ec. destruct Hv as [Hw [Hp _] [Ho _] _].
  pose proof (read_float _ (fround_wf 6 _ ltac:(done) Hw)) as Et.
  pose proof (read_int (nr_prompt_length r) ltac:(lia)) as Ep.
  pose proof (read_int (nr_expected_output_length r) ltac:(lia)) as Eo.
  split; [exact (f_equal Some Et)|]. split; [exact (f_equal Some Ep)|].
  split; [exact (f_equal Some Eo)|exact (f_equal Some Ec)].
Qed.

Lemma length_reads n : length_ok n → float_of_str (str_of_Z n) = Ok (of_Z n) ∧ finite (of_Z n) = true.
Proof. intros [H1 H2]. split; [apply float_of_int_text; lia|done]. Qed.

Lemma written_row_ok r : row_valid r → row_ok (written_row r).
Proof.
  intros Hv. destruct (written_cells r Hv) as (Ct & Cp & Co & _). destruct Hv as [_ Hp Ho _].
  apply length_reads in Hp as [Hp Fp], Ho as [Ho Fo]. constructor; unfold float_cell, cell; rewrite ?Ct, ?Cp, ?Co.
  - apply float_repr_reads.
  - by exists (of_Z (nr_prompt_length r)).
  - by exists (of_Z (nr_expected_output_length r)).
  - by eexists.
Qed.

(** The request that carries a row's work: at the row's time (in the file, to the
    microsecond) since the first row's, at the replay speed, rounded to a tenth
    of a millisecond; texts as the file gives them back. *)
Record carries (config : WorkloadConfig) (t0 : float) (row : NormalizedWorkloadRow) (r : InferenceRequest) : Prop := {
  ca_ok : request_ok r;
  ca_arrival : req_arrival_ts r = fround 4 (pymax 0.0
    ((fround 6 (nr_timestamp row) - t0) / pymax 0.000000001 (wc_trace_replay_speed config)))%float;
  ca_id : req_request_id r = newline_read (nr_request_id row);
  ca_prompt : nr_prompt_length row <= 2 ^ 53 → req_prompt_tokens r = nr_prompt_length row;
  ca_output : nr_expected_output_length row <= 2 ^ 53 → req_generation_tokens r = nr_expected_output_length row;
  ca_tenant : req_tenant_id r = or_str (newline_read (nr_tenant_id row)) "tenant-unknown";
  ca_class : req_sla_class r = nr_priority_class row;
  ca_model : req_model_id r = or_str (newline_read (nr_model_id row)) (wc_trace_default_model config);
  ca_session : nr_session_id row ≠ "" → req_session_id r = Some (newline_read (nr_session_id row))
}.

Lemma token_read row k n m : length_ok n → dget row k = Some (str_of_Z n) → token_cell row k = Ok m → n <= 2 ^ 53 → m = n.
Proof.
  intros Hn Hk Hm Hle. unfold token_cell, float_cell, cell in Hm. rewrite Hk in Hm. cbn [get_or mbind result_bind] in Hm.
  rewrite (proj1 (length_reads n Hn)) in Hm. cbn [mbind result_bind] in Hm. destruct Hn as [Hn _].
  rewrite of_Z_exact in Hm by lia. cbn [ftrunc mbind result_bind] in Hm. injection Hm as <-. pose proof unit_z_pos as Hu.
  rewrite Z.sgn_pos, Z.abs_eq, Z.mul_1_l, Z.shiftr_div_pow2 by nia.
  replace (2 ^ 1074) with unit_z by reflexivity. rewrite Z.div_mul by lia. lia.
Qed.

Lemma written_time row : row_valid row →
  float_cell (written_row row) "timestamp" = Ok (fround 6 (nr_timestamp row)).
Proof.
  intros Hv. unfold float_cell, cell. rewrite (proj1 (written_cells row Hv)). cbn [get_or mbind result_bind].
  apply float_repr_exact, fround_wf; [lia|exact (rv_time _ Hv)].
Qed.

Lemma replayed_carries config t0 row r : row_valid row → replayed config t0 (written_row row) r → carries config t0 row r.
Proof.
  intros Hv [R1 Ra R2 R3 (t & Ht & R4) R5 R6 R7 R8]. destruct (written_cells row Hv) as (_ & Cp & Co & Cc).
  constructor; [exact R1|exact (Ra _ (written_time row Hv))|by apply R6| | | | |exact R5|].
  - intros Hle. exact (token_read (written_row row) "prompt_length" _ _ (rv_prompt _ Hv) Cp R2 Hle).
  - intros Hle. exact (token_read (written_row row) "expected_output_length" _ _ (rv_output _ Hv) Co R3 Hle).
  - injection Ht as <-. exact R4.
  - apply R7; [exact Cc|exact (rv_class _ Hv)].
  - intros Hne. apply R8; [reflexivity|by apply newline_read_nonempty].
Qed.

Lemma replayed_all config t0 rows rs : Forall row_valid rows →
  Forall2 (replayed config t0) (map written_row rows) rs → Forall2 (carries config t0) rows rs.
Proof.
  intros Hv. revert rs. induction Hv as [|row rows H1 _ IH]; simpl; intros rs Hall; inversion Hall; subst; constructor.
  - by apply (replayed_carries config).
  - by apply IH.
Qed.

(** The instant of the first row, as the file has it. *)
Definition first_instant (rows : list NormalizedWorkloadRow) : float :=
  match rows with [] => 0.0%float | row :: _ => fround 6 (nr_timestamp row) end.

Section pipeline.
Context {G : Type} `{LawfulRandom G}.
Context (py_hash : json → Z).
Context (read_csv : string → result (list (dict string string))) (read_json : string → result json).

(** C21: whatever a registered normalizer returns, every row has positive token
    counts that are finite as floats and one of the three classes, and there are
    no more rows than the limit. *)
Theorem normalized_rows_valid (name : string) (normalize : normalizer) path limit model rows :
  dget (NORMALIZER_REGISTRY py_hash read_csv read_json) name = Some normalize →
  normalize path limit model = Ok rows →
  Forall row_valid rows ∧ ∀ n, limit = Some n → 0 <= n → Z.of_nat (length rows) <= n.
Proof. intros Hn Hr. exact (registry_ok py_hash read_csv read_json name normalize Hn path limit model rows Hr). Qed.

(** C20: a dataset that was normalized and written is replayed: the workload
    generator raises nothing on the written file, and its requests carry the
    rows in order (one each, up to the configured count), with the row's token
    counts and class, and its tenant, model, session and identifier as the text
    file gives them back (line breaks inside them as line feeds, the default for
    an empty tenant or model).  A request arrives at its row's time since the
    first row's, both to the microsecond in the file, divided by the replay speed
    and rounded to a tenth of a millisecond.  (The configuration sets no trace
    limit.) *)
Theorem normalized_rows_replay (name : string) (normalize : normalizer) path limit model rows
    (config : WorkloadConfig) (seed : Z) (c : Ascii.ascii) (out : string) (files : csv_files) :
  dget (NORMALIZER_REGISTRY py_hash read_csv read_json) name = Some normalize →
  normalize path limit model = Ok rows →
  wc_trace_path config = Some (String c out) → wc_trace_limit config = None →
  ∃ files', write_normalized_rows files (String c out) rows = Ok files' ∧
  ∃ rs g, generate_requests config seed (csv_reread files') (make_generator (G := G) seed) = Ok (rs, g) ∧
    Forall2 (carries config (first_instant rows)) (take (length rs) rows) rs ∧
    (wc_request_count config <= 0 → length rs = length rows).
Proof.
  intros Hn Hr Hp Hl. destruct (registry_ok _ _ _ _ _ Hn _ _ _ _ Hr) as [Hv _].
  destruct (write_rows_ok files (String c out) rows) as (files' & Hw & Hd). exists files'. split; [exact Hw|].
  apply reread_written in Hd.
  assert (Hok : Forall row_ok (map written_row rows)).
  { apply Forall_map. eapply Forall_impl; [exact Hv|]. apply written_row_ok. }
  destruct (replay_yields (G := G) config seed (csv_reread files') c out _ _ Hp Hd) with (s := make_generator (G := G) seed)
    as (rs & g & Hg & Hlen & t0 & Ht0 & Hall); [|exact Hok|].
  { intros k Hk. unfold required_columns, NORMALIZED_COLUMNS in *.
    repeat (apply elem_of_cons in Hk as [->|Hk]; [set_solver|]). by apply elem_of_nil in Hk. }
  assert (Hkept : kept_rows config (map written_row rows) = map written_row rows) by (unfold kept_rows; by rewrite Hl).
  unfold replayed_count in Hlen. rewrite Hkept, length_map in Hlen. rewrite Hkept in Hall, Ht0.
  exists rs, g. split; [exact Hg|]. split.
  - rewrite firstn_map in Hall. apply (replayed_all config) in Hall; [|by apply Forall_take].
    destruct Hv as [|row rows' Hrow _]; [by rewrite take_nil in *; inversion Hall|].
    specialize (Ht0 _ eq_refl).
    rewrite (written_time row Hrow) in Ht0. injection Ht0 as <-. exact Hall.
  - intros Hc. destruct (Z.ltb_spec 0 (wc_request_count config)); lia.
Qed.
End pipeline.

(** ** At concrete inputs ([data/raw/]) *)

Definition sample_csv (path : string) : result (list (dict string string)) :=
  if String.eqb path "sample_generic_trace.csv" then
    Ok (map (zip NORMALIZED_COLUMNS)
      [["0.0"; "req-000001"; "512"; "128"; "tenant-a"; "interactive"; "llama-3-8b"; "tenant-a-session-1"];
       ["0.4"; "req-000002"; "2048"; "400"; "tenant-b"; "P0"; "mixtral-8x7b"; "tenant-b-session-0"];
       ["1.1"; "req-000003"; "640.7"; "0"; "tenant-a"; " Batch "; "llama-3-8b"; "tenant-a-session-1"]])
  else Err FileNotFoundError.

Definition sample_sharegpt (path : string) : result json :=
  Ok (JList
    [JObj [("id", JStr "sg-1");
           ("conversations", JList
             [JObj [("from", JStr "human"); ("value", JStr "How can I improve cache hit ratio for long context prompts?")];
              JObj [("from", JStr "gpt"); ("value", JStr "Use session-aware prefix signatures.")]])];
     JObj [("id", JStr "empty")]]).

Example sharegpt_sample :
  normalize_sharegpt_dataset (fun _ => 4242) sample_sharegpt "sharegpt.json" None "llama-3-70b" =
  Ok [{| nr_timestamp := of_lit 0.0%float; nr_request_id := "sg-1"; nr_prompt_length := 14;
         nr_expected_output_length := 16; nr_tenant_id := "sharegpt-242"; nr_priority_class := "interactive";
         nr_model_id := "llama-3-70b"; nr_session_id := "sharegpt-242-session-0" |}].
Proof. vm_compute. reflexivity. Qed.

Example suffixes : map path_suffix ["a/b.JSON"; "raw.d/data"; ".json"; "x.json/"; "y."] = [".JSON"; ""; ""; ".json"; ""].
Proof. reflexivity. Qed.

Definition sample_rows : list NormalizedWorkloadRow :=
  match normalize_generic_workload_csv sample_csv "sample_generic_trace.csv" (Some 2) "m" with
  | Ok rows => rows | Err _ => []
  end.

Example sample_rows_read : map nr_priority_class sample_rows = ["interactive"; "realtime"].
Proof. vm_compute. reflexivity. Qed.

Lemma normalized_rows_valid_witness :
  normalize_generic_workload_csv sample_csv "sample_generic_trace.csv" (Some 2) "m" = Ok sample_rows ∧
  Forall row_valid sample_rows ∧ Z.of_nat (length sample_rows) <= 2.
Proof.
  assert (E : normalize_generic_workload_csv sample_csv "sample_generic_trace.csv" (Some 2) "m" = Ok sample_rows)
    by (vm_compute; reflexivity).
  destruct (normalized_rows_valid (fun _ => 0) sample_csv (fun _ => Err ValueError) "generic_csv" _ _ _ _ _ eq_refl E)
    as [H1 H2].
  split; [exact E|]. split; [exact H1|]. apply (H2 2); [reflexivity|lia].
Defined.

Lemma normalized_rows_replay_witness : ∃ files' rs g,
  generate_requests replay_config 7 (csv_reread files') (make_generator (G := Z) 7) = Ok (rs, g) ∧
  Forall2 (carries replay_config (first_instant sample_rows)) (take (length rs) sample_rows) rs.
Proof.
  assert (E : normalize_generic_workload_csv sample_csv "sample_generic_trace.csv" (Some 2) "m" = Ok sample_rows)
    by (vm_compute; reflexivity).
  destruct (normalized_rows_replay (G := Z) (fun _ => 0) sample_csv (fun _ => Err ValueError) "generic_csv" _ _ _ _ _
    replay_config 7 (Ascii.ascii_of_N 116) "race.csv" [] eq_refl E eq_refl eq_refl) as (files' & _ & rs & g & H1 & H2 & _).
  exists files', rs, g. split; [exact H1|exact H2].
Defined.
