(* ===== verification/Fetchers.v ===== *)
(** * [data_pipeline/fetchers.py] and [scripts/fetch_real_datasets.py]

    The fetchers put raw datasets on the disk, where the normalizers find them.
    The [datasets] package and the [git] process are not in the repository: the
    package is an argument (absent when it cannot be imported), and so is the
    process, with what [git clone] does to the disk as laws ([LawfulGit]).  What
    a fetcher prints or downloads is not modelled beyond the rows it gets. *)

From S2P Require Import Prelude PyFloat PyDict PyStr PyJson PyUtf8 JsonText Files.
From S2P Require Import Config Samples Workload Normalizers.

Local Open Scope Z_scope.

(** ** The process [git] *)

Definition process : Type := list string → io unit.

Definition clone_args (url : string) (target : path) : list string :=
  ["git"; "clone"; "--depth"; "1"; url; path_str target].

(** A clone changes no file that is there, and when it succeeds its target is. *)
Class LawfulGit (run_git : process) : Prop := {
  git_keeps args d q s : d !! q = Some (Text s) → (run_git args d).2 !! q = Some (Text s);
  git_makes url p d d' : path_ok p → run_git (clone_args url p) d = (Ok tt, d') → exists_on d' p = true
}.

Section fetchers.
(** [load_dataset(name, split=split).take(n)], as the list of its rows. *)
Context (load_dataset : option (string → string → Z → result (list (dict string json)))).
Context (run_git : process).

(** [{k: row[k] for k in row.keys()}] *)
Definition copy_row (row : dict string json) : json :=
  JObj (fold_left (fun d k => dset d k (dget_or JNull row k)) (dkeys row) []).

(** The body the five Hugging Face fetchers share, up to the names in it. *)
Definition fetch_dataset (name split file : string) (output_dir : string) (sample_size : Z) : io path :=
  load ← io_lift (get_or RuntimeError load_dataset);
  rows ← io_lift (load name split sample_size);
  let records := map copy_row rows in
  let target := child (to_path output_dir) file in
  _ ← io_mkdir (parent target);
  _ ← io_write target (dumps (JList records));
  mret target.

Definition fetch_sharegpt := fetch_dataset "ShareGPT_Vicuna_unfiltered" "train" "sharegpt_raw.json".
Definition fetch_lmsys := fetch_dataset "lmsys/chatbot_arena_conversations" "train" "lmsys_raw.json".
Definition fetch_openorca := fetch_dataset "Open-Orca/OpenOrca" "train" "openorca_raw.json".
Definition fetch_ultrachat := fetch_dataset "HuggingFaceH4/ultrachat_200k" "train_sft" "ultrachat_raw.json".
Definition fetch_dolly := fetch_dataset "databricks/databricks-dolly-15k" "train" "dolly_raw.json".

Definition fetch_alibaba_cluster_trace (output_dir repo_url : string) : io path :=
  let target_root := child (to_path output_dir) "alibaba_clusterdata" in
  there ← io_exists target_root;
  if there : bool then mret target_root else
  _ ← io_mkdir (parent target_root);
  _ ← run_git (clone_args repo_url target_root);
  mret target_root.

Definition fetch_azure_retail_prices (output_dir : string) : io path :=
  let target := child (to_path output_dir) "azure_retail_prices.json" in
  there ← io_exists target;
  if there : bool then mret target else io_raise RuntimeError.

Definition mlperf_note : string :=
  "Download MLPerf inference benchmark artifacts from https://mlcommons.org/en/inference-datacenter/ "
  +:+ "and place normalized CSV in data/raw/mlperf.csv for ingestion with generic_csv normalizer."
  +:+ newline_char.

Definition fetch_mlperf_reference (output_dir : string) : io path :=
  let target := child (to_path output_dir) "mlperf_reference.txt" in
  there ← io_exists target;
  if there : bool then mret target else
  _ ← io_mkdir (parent target);
  _ ← io_write target mlperf_note;
  mret target.

(** A fetcher called with the output directory and perhaps [sample_size=n]; the
    three without that parameter raise [TypeError] on it. *)
Definition fetcher : Type := string → option Z → io path.

Definition sampled (f : string → Z → io path) : fetcher := fun output_dir n =>
  f output_dir (default 10000 n).
Definition unsampled (f : string → io path) : fetcher := fun output_dir n =>
  match n with Some _ => io_raise TypeError | None => f output_dir end.

Definition default_repo : string := "https://github.com/alibaba/clusterdata".

Definition FETCH_REGISTRY : dict string fetcher :=
  [("sharegpt", sampled fetch_sharegpt); ("lmsys", sampled fetch_lmsys); ("openorca", sampled fetch_openorca);
   ("ultrachat", sampled fetch_ultrachat); ("dolly", sampled fetch_dolly);
   ("alibaba", unsampled (fun out => fetch_alibaba_cluster_trace out default_repo));
   ("azure_retail", unsampled fetch_azure_retail_prices); ("mlperf", unsampled fetch_mlperf_reference)].

(** [main] of the script, from its parsed arguments to what it prints: a dataset
    that is no choice ends the script. *)
Definition fetch_main (dataset output_dir : string) (sample_size : Z) : io string :=
  fetch ← io_lift (get_or SystemExit (dget FETCH_REGISTRY dataset));
  target ← (if bool_decide (dataset ∈ ["sharegpt"; "lmsys"]) then fetch output_dir (Some sample_size)
            else fetch output_dir None);
  mret (dumps_indent 2 (JObj [("dataset", JStr dataset); ("output", JStr (path_str target))])).

(** ** What a fetcher does to the disk *)

(** No file that is there changes, but for [p]. *)
Definition keeps_files {A} (p : path → Prop) (m : io A) : Prop :=
  ∀ d q s, ¬ p q → d !! q = Some (Text s) → (m d).2 !! q = Some (Text s).

Lemma keeps_bind {A B} p (m : io A) (f : A → io B) : keeps_files p m → (∀ a, keeps_files p (f a)) → keeps_files p (m ≫= f).
Proof.
  intros Hm Hf d q s Hp Hq. unfold mbind, io_bind. pose proof (Hm d q s Hp Hq) as H1.
  destruct (m d) as [[a|e] d1]; [|exact H1]. by apply (Hf a).
Qed.

Lemma keeps_still {A} p (m : io A) : (∀ d, (m d).2 = d) → keeps_files p m.
Proof. intros Hm d q s _ Hq. by rewrite Hm. Qed.

Lemma keeps_mkdir p q : keeps_files p (io_mkdir q).
Proof. intros d r s _ Hr. by apply make_dirs_files. Qed.

Lemma keeps_write (p : path → Prop) q s : p q → keeps_files p (io_write q s).
Proof. intros Hq d r t Hr. by rewrite (touches_write p q s Hq d r Hr). Qed.

Lemma keeps_git `{!LawfulGit run_git} p args : keeps_files p (run_git args).
Proof. intros d q s _. apply git_keeps. Qed.

(** A fetcher's promise: whatever happens, the only file it may replace is its
    target, and when it returns, it returns a path that exists, in the output
    directory. *)
Record fetches (output_dir : string) (m : io path) : Prop := {
  fe_files : ∃ name, keeps_files (fun q => q = child (to_path output_dir) name) m;
  fe_found d target d' : m d = (Ok target, d') → exists_on d' target = true ∧ parent target = to_path output_dir
}.

Lemma dataset_fetches name split file out n : fetches out (fetch_dataset name split file out n).
Proof.
  split.
  - exists file. unfold fetch_dataset. apply keeps_bind; [by apply keeps_still|]. intros load.
    apply keeps_bind; [by apply keeps_still|]. intros rows. cbv zeta. apply keeps_bind; [apply keeps_mkdir|]. intros _.
    apply keeps_bind; [by apply keeps_write|]. intros _. by apply keeps_still.
  - intros d target d' H. unfold fetch_dataset in H. cbv zeta in H. io_steps H. injection H as <- <-.
    split; [|by apply parent_child]. match goal with E : io_write _ _ _ = (Ok ?u, _) |- _ => destruct u; exact (write_exists _ _ _ _ E) end.
Qed.

Lemma unsampled_fetches out f n : (fetches out (f out)) → fetches out (unsampled f out n).
Proof.
  intros Hf. destruct n as [n|]; [|exact Hf]. split; [exists ""; by apply keeps_still|done].
Qed.

Lemma azure_fetches out : fetches out (fetch_azure_retail_prices out).
Proof.
  split.
  - exists "azure_retail_prices.json". apply keeps_bind; [by apply keeps_still|]. intros []; by apply keeps_still.
  - intros d target d' H. unfold fetch_azure_retail_prices in H. apply bind_io_ok in H as (b & d1 & H1 & H).
    injection H1 as <- <-. destruct (exists_on d _) eqn:E; [|done]. injection H as <- <-. split; [exact E|apply parent_child].
Qed.

Lemma mlperf_fetches out : fetches out (fetch_mlperf_reference out).
Proof.
  split.
  - exists "mlperf_reference.txt". apply keeps_bind; [by apply keeps_still|]. intros []; [by apply keeps_still|].
    apply keeps_bind; [apply keeps_mkdir|]. intros _. apply keeps_bind; [by apply keeps_write|]. intros _. by apply keeps_still.
  - intros d target d' H. unfold fetch_mlperf_reference in H. apply bind_io_ok in H as (b & d1 & H1 & H).
    injection H1 as <- <-. destruct (exists_on d _) eqn:E; [injection H as <- <-; split; [exact E|apply parent_child]|].
    io_steps H. injection H as <- <-. split; [|apply parent_child].
    match goal with E : io_write _ _ _ = (Ok ?u, _) |- _ => destruct u; exact (write_exists _ _ _ _ E) end.
Qed.

Lemma alibaba_fetches `{!LawfulGit run_git} out url : fetches out (fetch_alibaba_cluster_trace out url).
Proof.
  split.
  - exists "alibaba_clusterdata". apply keeps_bind; [by apply keeps_still|]. intros []; [by apply keeps_still|].
    apply keeps_bind; [apply keeps_mkdir|]. intros _. apply keeps_bind; [apply keeps_git|]. intros _. by apply keeps_still.
  - intros d target d' H. unfold fetch_alibaba_cluster_trace in H. apply bind_io_ok in H as (b & d1 & H1 & H).
    injection H1 as <- <-. destruct (exists_on d _) eqn:E; [injection H as <- <-; split; [exact E|apply parent_child]|].
    io_steps H. injection H as <- <-. split; [|apply parent_child].
    match goal with E : run_git _ _ = (Ok ?u, _) |- _ => destruct u; eapply git_makes; [|exact E] end.
    apply child_ok; [apply to_path_ok|by apply part_okb_ok].
Qed.
End fetchers.

(** ** Every registered fetcher *)

Section registry.
Context (load_dataset : option (string → string → Z → result (list (dict string json)))).
Context (run_git : process) `{!LawfulGit run_git}.

Lemma registered (P : fetcher → Prop) : Forall (fun kf => P kf.2) (FETCH_REGISTRY load_dataset run_git) →
  ∀ name fetch, dget (FETCH_REGISTRY load_dataset run_git) name = Some fetch → P fetch.
Proof. intros HP name fetch Hf. apply dget_elem in Hf. rewrite Forall_forall in HP. exact (HP _ Hf). Qed.

(** C39: every registered fetcher, run or failed, may replace one file only, its
    target in the output directory, and when it returns a path, the path exists
    and lies in that directory. *)
Theorem registered_fetcher_safe name fetch output_dir sample_size :
  dget (FETCH_REGISTRY load_dataset run_git) name = Some fetch → fetches output_dir (fetch output_dir sample_size).
Proof.
  revert name fetch. apply (registered (fun fetch => fetches output_dir (fetch output_dir sample_size))).
  repeat apply Forall_cons_2; try apply Forall_nil_2; cbn [snd]; try apply dataset_fetches; apply unsampled_fetches;
    [by apply alibaba_fetches|apply azure_fetches|apply mlperf_fetches].
Qed.
End registry.

(** The three fetchers that need no package run once: what they returned, they
    return again, and the disk stays as it is. *)
Lemma fetch_again run_git `{!LawfulGit run_git} (f : string → io path) out d target d' :
  f ∈ [fun out => fetch_alibaba_cluster_trace run_git out default_repo; fetch_azure_retail_prices; fetch_mlperf_reference] →
  f out d = (Ok target, d') → f out d' = (Ok target, d').
Proof.
  intros Hf H. assert (Hs : fetches out (f out)).
  { repeat (apply elem_of_cons in Hf as [->|Hf]); [by apply alibaba_fetches|apply azure_fetches|apply mlperf_fetches|].
    by apply not_elem_of_nil in Hf. }
  destruct (fe_found _ _ Hs _ _ _ H) as [He _].
  repeat (apply elem_of_cons in Hf as [->|Hf]); try (by apply not_elem_of_nil in Hf); cbv beta in *.
  - assert (E : target = child (to_path out) "alibaba_clusterdata").
    { unfold fetch_alibaba_cluster_trace in H. apply bind_io_ok in H as (b & d1 & H1 & H). destruct b;
        [by injection H|]. io_steps H. by injection H. }
    subst target. unfold fetch_alibaba_cluster_trace, mbind, io_bind, io_exists. by rewrite He.
  - assert (E : target = child (to_path out) "azure_retail_prices.json").
    { unfold fetch_azure_retail_prices in H. apply bind_io_ok in H as (b & d1 & H1 & H). by destruct b; [injection H|]. }
    subst target. unfold fetch_azure_retail_prices, mbind, io_bind, io_exists. by rewrite He.
  - assert (E : target = child (to_path out) "mlperf_reference.txt").
    { unfold fetch_mlperf_reference in H. apply bind_io_ok in H as (b & d1 & H1 & H). destruct b;
        [by injection H|]. io_steps H. by injection H. }
    subst target. unfold fetch_mlperf_reference, mbind, io_bind, io_exists. by rewrite He.
Qed.

(** Without the package, the five dataset fetchers raise and leave the disk. *)
Lemma fetch_without_package name split file out n d : fetch_dataset None name split file out n d = (Err RuntimeError, d).
Proof. reflexivity. Qed.

Lemma fetch_azure_absent out d : exists_on d (child (to_path out) "azure_retail_prices.json") = false →
  fetch_azure_retail_prices out d = (Err RuntimeError, d).
Proof. intros H. unfold fetch_azure_retail_prices, mbind, io_bind, io_exists. by rewrite H. Qed.

(** ** From the fetcher to the normalizer *)

(** [json.loads(Path(p).read_text())] *)
Definition read_json_on (d : disk) (p : string) : result json := text ← (io_read (to_path p) d).1; loads text.

(** What each choice downloads, and into which file; only two of them pass the
    sample size on. *)
Definition dataset_source (dataset : string) : option (string * string * string) :=
  dget [("sharegpt", ("ShareGPT_Vicuna_unfiltered", "train", "sharegpt_raw.json"));
        ("lmsys", ("lmsys/chatbot_arena_conversations", "train", "lmsys_raw.json"));
        ("openorca", ("Open-Orca/OpenOrca", "train", "openorca_raw.json"));
        ("ultrachat", ("HuggingFaceH4/ultrachat_200k", "train_sft", "ultrachat_raw.json"));
        ("dolly", ("databricks/databricks-dolly-15k", "train", "dolly_raw.json"))] dataset.

Definition taken (dataset : string) (sample_size : Z) : Z :=
  if bool_decide (dataset ∈ ["sharegpt"; "lmsys"]) then sample_size else 10000.

Definition row_reader (py_hash : json → Z) (dataset default_model : string) : Z → json → result (option NormalizedWorkloadRow) :=
  if String.eqb dataset "sharegpt" then sharegpt_row py_hash default_model
  else if String.eqb dataset "lmsys" then lmsys_row default_model
  else instruction_row default_model.

(** Nothing is in the way of [target]: no file where a directory must be, no
    directory where the file must be. *)
Definition way_free (d : disk) (target : path) : Prop :=
  (∀ k s, d !! take (S k) (parent target) ≠ Some (Text s)) ∧ d !! target ≠ Some Dir.

Lemma copy_keys (row : dict string json) l acc : NoDup (dkeys l) → (∀ k v, (k, v) ∈ l → dget row k = Some v) →
  (∀ k, k ∈ dkeys l → k ∉ dkeys acc) →
  fold_left (fun d k => dset d k (dget_or JNull row k)) (dkeys l) acc = acc ++ l.
Proof.
  revert acc. induction l as [|[k v] l IH]; intros acc Hnd Hl Hacc; [by rewrite app_nil_r|].
  unfold dkeys in *. cbn [map fst fold_left] in *. apply NoDup_cons in Hnd as [Hk Hnd].
  assert (E : dset acc k (dget_or JNull row k) = acc ++ [(k, v)]).
  { unfold dget_or. rewrite (Hl k v) by (by left). simpl. apply dset_new. apply Hacc. by left. }
  rewrite E, IH; [by rewrite <- app_assoc|done|intros; apply Hl; by right|].
  intros k' Hk'. rewrite map_app. simpl. rewrite elem_of_app, list_elem_of_singleton. intros [H| ->]; [|done].
  apply (Hacc k'); [by right|done].
Qed.

Lemma copy_row_same row : json_ok (JObj row) → copy_row row = JObj row.
Proof.
  intros [Hnd _]. unfold copy_row. f_equal. apply (copy_keys row row []); [exact Hnd| |].
  - intros k v Hkv. by apply elem_dget.
  - intros k _. apply not_elem_of_nil.
Qed.

Lemma way_free_write d target text : way_free d target → root_path target = false →
  ∃ d1, io_mkdir (parent target) d = (Ok tt, d1) ∧ io_write target text d1 = (Ok tt, <[target := Text text]> d1).
Proof.
  intros [Hp Ht] Hr. destruct (make_dirs_ok [] (parent target) d Hp) as [d1 E]. exists d1. split; [exact E|].
  apply write_ok; [|by apply (io_mkdir_done _ d)].
  unfold is_dir. rewrite Hr. simpl. apply bool_decide_eq_false. intros Hd. apply Ht.
  assert (F : (make_dirs [] (parent target) d).2 !! target = d !! target).
  { apply make_dirs_frame. intros k Ek. apply (f_equal length) in Ek. revert Ek. unfold parent.
    destruct target as [|a t]; [done|]. cbn [app]. rewrite removelast_firstn_len, !length_take.
    cbn [length Nat.pred]. lia. }
  rewrite E in F. cbn [snd] in F. by rewrite <- F.
Qed.

(** The five fetchers, from the rows of the package to the file. *)
Lemma fetch_dataset_written load name split file out n d rows :
  part_ok file → load name split n = Ok rows → way_free d (child (to_path out) file) →
  ∃ d1, (∀ q s, d !! q = Some (Text s) → d1 !! q = Some (Text s)) ∧
    fetch_dataset (Some load) name split file out n d =
    (Ok (child (to_path out) file), <[child (to_path out) file := Text (dumps (JList (map copy_row rows)))]> d1).
Proof.
  intros Hfile Hload Hfree.
  assert (Hr : root_path (child (to_path out) file) = false).
  { unfold root_path, child. apply bool_decide_eq_false. intros Hin.
    repeat (apply elem_of_cons in Hin as [Hin|Hin]); [by destruct (to_path out)| |by apply not_elem_of_nil in Hin].
    destruct (to_path out) as [|a [|b l]]; [|done..]. simpl in Hin. injection Hin as ->.
    destruct Hfile as [_ Hs]. apply Forall_cons in Hs as [Hs _]. by apply Hs. }
  destruct (way_free_write d _ (dumps (JList (map copy_row rows))) Hfree Hr) as (d1 & E1 & E2).
  exists d1. split.
  - intros q s Hq. change d1 with (Ok tt, d1).2. rewrite <- E1. by apply make_dirs_files.
  - unfold fetch_dataset, mbind, io_bind, mret, io_ret, io_lift. cbn [get_or]. rewrite Hload. rewrite E1. by rewrite E2.
Qed.

Lemma copied_rows rows : Forall (fun row => json_ok (JObj row)) rows → map copy_row rows = map JObj rows.
Proof. induction 1 as [|row rows Hrow _ IH]; [done|]. cbn [map]. by rewrite copy_row_same, IH. Qed.

Lemma rows_json_ok rows : Forall (fun row => json_ok (JObj row)) rows → json_ok (JList (map JObj rows)).
Proof. induction 1 as [|row rows Hrow _ IH]; [done|]. exact (conj Hrow IH). Qed.

(** The name and the suffix of a child's path, as the normalizers look at them. *)
Lemma path_name_child p file : path_ok p → part_ok file → path_name (path_str (child p file)) = file.
Proof.
  intros Hp Hf. pose proof (to_path_str _ (child_ok p file Hp Hf)) as E. unfold path_name.
  assert (Ef : ∀ l, filter (fun s : string => s ∉ [""; "."]) l = List.filter plain_part l).
  { intros l. induction l as [|s l IH]; [done|]. rewrite filter_cons. cbn [List.filter]. unfold plain_part at 1.
    rewrite IH. destruct (decide (s ∈ [""; "."])) as [H|H].
    - by rewrite decide_False, bool_decide_eq_true_2 by tauto.
    - by rewrite decide_True, bool_decide_eq_false_2. }
  rewrite Ef. unfold to_path in E. set (parts := List.filter plain_part _) in *. clearbody parts.
  assert (Hlast : ∀ l, l ++ [file] = parts → List.last parts "" = file) by (intros l <-; apply last_last).
  destruct (path_str (child p file)) as [|c s]; [exact (Hlast p (eq_sym E))|].
  destruct (code c =? 47); [|exact (Hlast p (eq_sym E))].
  destruct p as [|a p]; [|injection E as _ E; exact (Hlast p (eq_sym E))].
  injection E as <- E. destruct Hf as [_ Hf]. apply Forall_cons in Hf as [Hf _]. by destruct Hf.
Qed.

(** The script calls the fetcher of its dataset. *)
Lemma fetch_main_source load_dataset run_git dataset name split file out n :
  dataset_source dataset = Some (name, split, file) →
  fetch_main load_dataset run_git dataset out n =
  (target ← fetch_dataset load_dataset name split file out (taken dataset n);
   mret (dumps_indent 2 (JObj [("dataset", JStr dataset); ("output", JStr (path_str target))]))).
Proof.
  intros Hsrc. apply dget_elem in Hsrc.
  repeat (apply elem_of_cons in Hsrc as [[= -> -> -> ->]|Hsrc]; [reflexivity|]). by apply not_elem_of_nil in Hsrc.
Qed.

Section pipeline.
Context (load : string → string → Z → result (list (dict string json))).
Context (run_git : process).
Context (py_hash : json → Z) (read_csv : string → result (list (dict string string))).

(** C22: a dataset that the script fetched is what the normalizers read: when
    nothing is in the way of its file, the script succeeds and reports the path,
    the file parses to exactly the rows the package gave, no other file has
    changed, and the registered normalizer of that dataset, run on the reported
    path, goes through those rows; the sample size of the command line is used
    for two datasets only. *)
Theorem fetched_normalizes dataset name split file output_dir sample_size rows d :
  dataset_source dataset = Some (name, split, file) →
  load name split (taken dataset sample_size) = Ok rows →
  Forall (fun row => json_ok (JObj row)) rows →
  way_free d (child (to_path output_dir) file) →
  ∃ d', let target := path_str (child (to_path output_dir) file) in
    fetch_main (Some load) run_git dataset output_dir sample_size d =
      (Ok (dumps_indent 2 (JObj [("dataset", JStr dataset); ("output", JStr target)])), d') ∧
    read_json_on d' target = Ok (JList (map JObj rows)) ∧
    (∀ q s, q ≠ child (to_path output_dir) file → d !! q = Some (Text s) → d' !! q = Some (Text s)) ∧
    ∀ normalize limit model,
      dget (NORMALIZER_REGISTRY py_hash read_csv (read_json_on d')) dataset = Some normalize →
      normalize target limit model = collect limit (row_reader py_hash dataset model) 0 [] (map JObj rows).
Proof.
  intros Hsrc Hload Hrows Hfree.
  assert (Hfile : part_ok file).
  { apply dget_elem in Hsrc. apply part_okb_ok.
    repeat (apply elem_of_cons in Hsrc as [[= _ _ _ ->]|Hsrc]; [reflexivity|]). by apply not_elem_of_nil in Hsrc. }
  destruct (fetch_dataset_written load name split file output_dir _ d rows Hfile Hload Hfree) as (d1 & Hd1 & E).
  set (target := child (to_path output_dir) file) in *.
  set (d' := <[target := Text (dumps (JList (map copy_row rows)))]> d1) in *. exists d'. cbv zeta.
  assert (Hread : read_json_on d' (path_str target) = Ok (JList (map JObj rows))).
  { unfold read_json_on. rewrite to_path_str by (by apply child_ok; [apply to_path_ok|]). unfold io_read, d'.
    rewrite lookup_insert_eq. cbn [fst mbind result_bind]. rewrite copied_rows by done. by apply loads_dumps, rows_json_ok. }
  split; [|split; [exact Hread|split]].
  - rewrite (fetch_main_source _ _ _ _ _ _ _ _ Hsrc). unfold mbind, io_bind. rewrite E. reflexivity.
  - intros q s Hq Hs. unfold d'. rewrite lookup_insert_ne by done. by apply Hd1.
  - intros normalize limit model Hn. pose proof (path_name_child _ _ (to_path_ok output_dir) Hfile) as Hname. fold target in Hname.
    apply dget_elem in Hsrc.
    repeat (apply elem_of_cons in Hsrc as [[= -> -> -> ->]|Hsrc];
      [injection Hn as <-; unfold normalize_sharegpt_dataset, normalize_lmsys_dataset, normalize_instruction_dataset, path_suffix;
       rewrite ?Hname, Hread; reflexivity|]).
    by apply not_elem_of_nil in Hsrc.
Qed.
End pipeline.

(** ** At concrete inputs *)

(** A [git] that makes the directory it is told to clone into. *)
Definition sample_git : process := fun args => io_mkdir (to_path (List.last args "")).

#[export] Instance sample_git_lawful : LawfulGit sample_git.
Proof.
  split.
  - intros args d q s Hq. by apply make_dirs_files.
  - intros url p d d' Hp H. unfold sample_git, clone_args in H. cbn [List.last] in H. rewrite to_path_str in H by done.
    apply io_mkdir_done in H. unfold is_dir in H. unfold exists_on. destruct (root_path p); [done|]. simpl in *.
    apply bool_decide_eq_true in H. rewrite H. by apply bool_decide_eq_true.
Qed.

Definition sample_dataset (name split : string) (n : Z) : result (list (dict string json)) :=
  if bool_decide (name = "ShareGPT_Vicuna_unfiltered") && bool_decide (split = "train") then
    Ok (take (Z.to_nat n)
      [[("id", JStr "sg-1");
        ("conversations", JList [JObj [("from", JStr "human"); ("value", JStr "How can I improve the cache hit ratio?")]])];
       [("id", JStr "sg-2"); ("conversations", JList [])]])
  else Err LibraryError.

Definition raw_disk : disk := <[["data"] := Dir]> (<[["data"; "notes.txt"] := Text "keep"]> ∅).

Example fetch_clone_twice :
  let run := fetch_main None sample_git "alibaba" "data/raw" 5 raw_disk in
  (run.1 ≫= loads) = Ok (JObj [("dataset", JStr "alibaba"); ("output", JStr "data/raw/alibaba_clusterdata")]) ∧
  bool_decide ((fetch_main None sample_git "alibaba" "data/raw" 5 run.2).2 = run.2) = true.
Proof. vm_compute. split; reflexivity. Qed.

Example fetch_errors :
  ((fetch_main None sample_git "openorca" "data/raw" 5 raw_disk).1, (fetch_main None sample_git "pile" "data/raw" 5 raw_disk).1,
   (fetch_main None sample_git "azure_retail" "data/raw" 5 raw_disk).1,
   (fetch_main None sample_git "mlperf" "data/notes.txt" 5 raw_disk).1)
  = (Err RuntimeError, Err SystemExit, Err RuntimeError, Err OSError).
Proof. vm_compute. reflexivity. Qed.

Lemma registered_fetcher_safe_witness : ∃ fetch,
  dget (FETCH_REGISTRY (Some sample_dataset) sample_git) "mlperf" = Some fetch ∧
  exists_on (fetch "data/raw" None raw_disk).2 ["data"; "raw"; "mlperf_reference.txt"] = true.
Proof.
  eexists. split; [reflexivity|].
  pose proof (registered_fetcher_safe (Some sample_dataset) sample_git "mlperf" _ "data/raw" None eq_refl) as Hs.
  apply (fe_found _ _ Hs raw_disk ["data"; "raw"; "mlperf_reference.txt"]).
  assert (E : (fetch_mlperf_reference "data/raw" raw_disk).1 = Ok ["data"; "raw"; "mlperf_reference.txt"]) by (vm_compute; reflexivity).
  rewrite <- E. apply surjective_pairing.
Defined.

Lemma fetched_normalizes_witness : ∃ d' rows,
  (fetch_main (Some sample_dataset) sample_git "sharegpt" "data/raw" 1 raw_disk).2 = d' ∧
  normalize_sharegpt_dataset (fun _ => 7) (read_json_on d') "data/raw/sharegpt_raw.json" None "llama-3-8b" = Ok rows ∧
  map nr_request_id rows = ["sg-1"].
Proof.
  destruct (fetched_normalizes sample_dataset sample_git (fun _ => 7) (fun _ => Err OSError) "sharegpt" _ _ _ "data/raw" 1
    (take 1 (match sample_dataset "ShareGPT_Vicuna_unfiltered" "train" 2 with Ok l => l | Err _ => [] end)) raw_disk eq_refl)
    as (d' & H1 & _ & _ & H2).
  - reflexivity.
  - apply Forall_cons_2; [|by apply Forall_nil_2]. apply json_okb_ok. vm_compute. reflexivity.
  - split; [|vm_compute; discriminate]. intros [|[|k]] s; vm_compute; discriminate.
  - assert (E : (rows ← normalize_sharegpt_dataset (fun _ => 7) (read_json_on d') "data/raw/sharegpt_raw.json" None "llama-3-8b";
      Ok (map nr_request_id rows)) = Ok ["sg-1"]).
    { etrans; [apply (f_equal (fun m => rows ← m; Ok (map nr_request_id rows)));
        exact (H2 (normalize_sharegpt_dataset (fun _ => 7) (read_json_on d')) None "llama-3-8b" eq_refl)|].
      vm_compute. reflexivity. }
    apply bind_ok in E as (rows & E & [= Eids]). exists d', rows. split; [by rewrite H1|]. by split.
Defined.
