(* ===== verification/Hcl.v ===== *)
(** * [scripts/export_azure_to_tfvars.py]: the Azure inventory as Terraform variables

    The script prints the resource groups of a YAML inventory as an HCL literal.
    The YAML library is an argument.  What HCL reads is not modelled; the
    theorem is that the text determines the inventory it was printed from, for
    inventories of text, finite numbers, booleans, lists and mappings with
    identifiers as keys ([to_hcl_unambiguous]).  A null prints as [None], which
    HCL takes for a reference. *)

From S2P Require Import Prelude PyFloat PyDict PyJson PyParse PyRepr PyUtf8 JsonText Files.

Local Open Scope Z_scope.

#[local] Abbreviation text := (list Ascii.ascii).

Definition newline : text := [chr 10].

(** [_to_hcl_literal(value, indent)] *)
Fixpoint _to_hcl_literal (indent : nat) (value : json) : text :=
  let space := repeat (chr 32) indent in
  match value with
  | JObj d =>
      join_text newline (chars "{" ::
        map (fun kv => space ++ chars "  " ++ chars kv.1 ++ chars " = " ++ _to_hcl_literal (indent + 2) kv.2) d
        ++ [space ++ chars "}"])
  | JList [] => chars "[]"
  | JList l =>
      join_text newline (chars "[" ::
        map (fun item => space ++ chars "  " ++ _to_hcl_literal (indent + 2) item ++ chars ",") l
        ++ [space ++ chars "]"])
  | JStr s => chars (dumps (JStr s))
  | JBool b => chars (if b then "true" else "false")
  | _ => chars (py_str value)
  end.

(** [len(value)] *)
Definition py_len (value : json) : result Z :=
  match value with
  | JList l => Ok (Z.of_nat (length l))
  | JObj d => Ok (Z.of_nat (length d))
  | JStr s => Ok (Z.of_nat (length (code_points (chars s))))
  | _ => Err TypeError
  end.

Definition hcl_file (resource_groups : json) : string :=
  unchars (chars "resource_groups = " ++ _to_hcl_literal 0 resource_groups ++ newline).

(** [main], from its arguments to what it prints; without the YAML library the
    script ends at its import. *)
Definition export_main (yaml_load : option (string → result json)) (input output : string) : io string :=
  load ← io_lift (get_or SystemExit yaml_load);
  source ← io_read (to_path input);
  payload ← io_lift (load source);
  d ← io_lift (match payload with JObj d => Ok d | _ => Err AttributeError end);
  let resource_groups := jget d "resource_groups" (JList []) in
  _ ← io_write (to_path output) (hcl_file resource_groups);
  count ← io_lift (py_len resource_groups);
  mret (dumps_indent 2 (JObj [("output", JStr output); ("resource_groups", JInt count)])).

(** ** What can be printed without loss *)

Definition letter (c : Ascii.ascii) : bool :=
  ((65 <=? code c) && (code c <=? 90)) || ((97 <=? code c) && (code c <=? 122)) || (code c =? 95).

Definition identifier (s : string) : bool :=
  match chars s with
  | c :: l => letter c && forallb (fun c => letter c || is_digit c || (code c =? 45)) l
  | [] => false
  end.

Fixpoint hcl_ok (value : json) : Prop :=
  match value with
  | JNull => False
  | JFloat f => wf f ∧ finite f = true
  | JStr s => is_text (chars s)
  | JList l => foldr (fun x (acc : Prop) => hcl_ok x ∧ acc) True l
  | JObj d => foldr (fun kv (acc : Prop) => (identifier kv.1 = true ∧ hcl_ok kv.2) ∧ acc) True d
  | _ => True
  end.

Lemma hcl_ok_list l : hcl_ok (JList l) ↔ Forall hcl_ok l.
Proof. simpl. induction l as [|x l IH]; simpl; [by split|]. by rewrite Forall_cons, IH. Qed.

Lemma hcl_ok_obj d : hcl_ok (JObj d) ↔ Forall (fun kv => identifier kv.1 = true ∧ hcl_ok kv.2) d.
Proof. simpl. induction d as [|kv d IH]; simpl; [by split|]. by rewrite Forall_cons, IH. Qed.

(** ** The printed form of a container *)

Definition item_line (indent : nat) (item : json) : text :=
  repeat (chr 32) indent ++ chr 32 :: chr 32 :: _to_hcl_literal (indent + 2) item ++ [chr 44].
Definition member_line (indent : nat) (kv : string * json) : text :=
  repeat (chr 32) indent ++ chr 32 :: chr 32 :: chars kv.1 ++ chars " = " ++ _to_hcl_literal (indent + 2) kv.2.

Definition block (opening closing : Z) (indent : nat) (lines : list text) : text :=
  chr opening :: chr 10 :: flat_map (fun line => line ++ newline) lines ++ repeat (chr 32) indent ++ [chr closing].

Lemma join_lines opening closing indent lines :
  join_text newline ([chr opening] :: lines ++ [repeat (chr 32) indent ++ [chr closing]]) = block opening closing indent lines.
Proof.
  unfold block. rewrite <- (app_nil_l lines) at 1. assert (H : ∀ head, join_text newline (head :: lines ++ [repeat (chr 32) indent ++ [chr closing]])
    = head ++ chr 10 :: flat_map (fun line => line ++ newline) lines ++ repeat (chr 32) indent ++ [chr closing]).
  { induction lines as [|line lines IH]; intros head; [done|]. cbn [app flat_map]. cbn [app] in IH.
    change (join_text newline (head :: ?x :: ?l)) with (head ++ newline ++ join_text newline (x :: l)).
    rewrite IH. unfold newline. by rewrite <- !app_assoc. }
  apply H.
Qed.

Lemma hcl_list indent x l : _to_hcl_literal indent (JList (x :: l)) = block 91 93 indent (map (item_line indent) (x :: l)).
Proof. rewrite <- join_lines. reflexivity. Qed.

Lemma hcl_obj indent d : _to_hcl_literal indent (JObj d) = block 123 125 indent (map (member_line indent) d).
Proof. rewrite <- join_lines. reflexivity. Qed.

(** ** Reading the text back

    A scalar prints as JSON does. *)

Definition scalar (value : json) : Prop :=
  match value with JList _ | JObj _ | JNull => False | _ => True end.

Lemma scalar_json indent v : scalar v → hcl_ok v → _to_hcl_literal indent v = dumps_go None 0 v ∧ json_ok v.
Proof.
  intros Hs Hok. destruct v as [|b|n|f|s|l|d]; [destruct Hs| | | | |destruct Hs..]; cbn [_to_hcl_literal dumps_go].
  - split; [by destruct b|done].
  - by split.
  - destruct Hok as [Hwf Hfin]. split; [|exact Hwf]. by destruct f.
  - split; [|exact Hok]. unfold dumps. by rewrite chars_unchars.
Qed.

Lemma scalar_read indent v r : scalar v → hcl_ok v → ends_number r →
  parse_value 1 (_to_hcl_literal indent v ++ r) = Some (v, r).
Proof.
  intros Hs Hok Hr. destruct (scalar_json indent v Hs Hok) as [-> Hj]. apply (parse_dumps None v Hj); [|exact Hr].
  destruct v; simpl in Hs; try contradiction; simpl; lia.
Qed.

(** The text of a container opens with its bracket. *)
Lemma container_read indent v r x r' : ¬ scalar v → v ≠ JNull → scalar x →
  parse_value 1 (_to_hcl_literal indent v ++ r) ≠ Some (x, r').
Proof.
  intros Hv Hnn Hx.
  assert (Hc : ∀ c l, c = chr 91 ∨ c = chr 123 → parse_value 1 (c :: l) ≠ Some (x, r')).
  { intros c l [-> | ->]; cbn [parse_value parse_items parse_members].
    - change (code (chr 91)) with 91. cbn [Z.eqb Pos.eqb]. by destruct (expect 93 l), x.
    - change (code (chr 123)) with 123. cbn [Z.eqb Pos.eqb]. by destruct (expect 125 l), x. }
  destruct v as [|b|n|f|s|[|j l]|d]; try (by destruct Hv); rewrite ?hcl_list, ?hcl_obj; apply Hc; auto.
Qed.

(** The text up to the first space. *)
Lemma before_space a b l k : Forall (fun c => code c ≠ 32) a → Forall (fun c => code c ≠ 32) b →
  a ++ chr 32 :: l = b ++ chr 32 :: k → a = b ∧ l = k.
Proof.
  intros Ha. revert b. induction Ha as [|x a Hx Ha IH]; intros b Hb E.
  - destruct Hb as [|y b Hy Hb]; [by injection E|]. injection E as <- _. by destruct Hy.
  - destruct Hb as [|y b Hy Hb]; cbn [app] in E; [by injection E as -> _; destruct Hx|].
    injection E as -> E. by destruct (IH b Hb E) as [-> ->].
Qed.

Lemma identifier_solid s : identifier s = true → Forall (fun c => code c ≠ 32) (chars s).
Proof.
  assert (Hc : ∀ c, letter c || is_digit c || (code c =? 45) = true → code c ≠ 32).
  { intros c Hc E. unfold letter, is_digit in Hc. rewrite E in Hc. discriminate. }
  unfold identifier. destruct (chars s) as [|c l]; [done|]. intros [H1 H2]%andb_true_iff. constructor.
  - apply Hc. by rewrite H1.
  - apply Forall_forall. intros x Hx. rewrite forallb_forall in H2. by apply Hc, H2, list_elem_of_In.
Qed.

(** [v] is the only value whose text starts as its text does. *)
Definition unique (v : json) : Prop := ∀ indent w r r', hcl_ok w → ends_number r → ends_number r' →
  _to_hcl_literal indent v ++ r = _to_hcl_literal indent w ++ r' → v = w ∧ r = r'.

Section lines.
Context {A : Type} (line : A → text) (only : A → Prop) (ok : A → Prop).
Context (line_only : ∀ a b r r', only a → ok b → line a ++ chr 10 :: r = line b ++ chr 10 :: r' → a = b ∧ r = r').
Context (ending : text) (not_ending : ∀ a r r', line a ++ r ≠ ending ++ r').

Lemma lines_unique l k r r' : Forall only l → Forall ok k →
  flat_map (fun x => x ++ newline) (map line l) ++ ending ++ r = flat_map (fun x => x ++ newline) (map line k) ++ ending ++ r' →
  l = k ∧ r = r'.
Proof.
  intros Hl. revert k. induction Hl as [|a l Ha Hl IH]; intros k Hk E; destruct Hk as [|b k Hb Hk]; cbn [map flat_map app] in E.
  - split; [done|]. by apply app_inv_head in E.
  - exfalso. rewrite <- !app_assoc in E. by apply (not_ending b _ _ (eq_sym E)).
  - exfalso. rewrite <- !app_assoc in E. by apply (not_ending a _ _ E).
  - rewrite <- !app_assoc in E. apply line_only in E as [-> E]; [|done..].
    by destruct (IH k Hk E) as [-> ->].
Qed.
End lines.

Lemma line_ending indent (l : text) c r r' : c ≠ chr 32 →
  (repeat (chr 32) indent ++ chr 32 :: l) ++ r ≠ (repeat (chr 32) indent ++ [c]) ++ r'.
Proof. intros Hc E. rewrite <- !app_assoc in E. apply app_inv_head in E. by injection E as E _. Qed.

Lemma item_only indent a b r r' : unique a → hcl_ok b →
  item_line indent a ++ chr 10 :: r = item_line indent b ++ chr 10 :: r' → a = b ∧ r = r'.
Proof.
  intros Ha Hb E. unfold item_line in E. rewrite <- !app_assoc in E. apply app_inv_head in E. cbn [app] in E.
  injection E as E. rewrite <- !app_assoc in E. apply Ha in E as [-> E]; [|done..]. split; [done|]. by injection E.
Qed.

Lemma member_only indent (a b : string * json) r r' : identifier a.1 = true ∧ unique a.2 →
  identifier b.1 = true ∧ hcl_ok b.2 →
  member_line indent a ++ chr 10 :: r = member_line indent b ++ chr 10 :: r' → a = b ∧ r = r'.
Proof.
  intros [Hi Ha] [Hj Hb] E. unfold member_line in E. rewrite <- !app_assoc in E. apply app_inv_head in E. cbn [app] in E.
  injection E as E. rewrite <- !app_assoc in E. change (chars " = ") with [chr 32; chr 61; chr 32] in E. cbn [app] in E.
  apply before_space in E as [Hk E]; [|by apply identifier_solid..]. injection E as E.
  apply Ha in E as [Hv E]; [|done..]. injection E as E. split; [|done].
  destruct a as [k v], b as [k' v']. cbn [fst snd] in *. subst v'. f_equal.
  rewrite <- (unchars_chars k), <- (unchars_chars k'). by rewrite Hk.
Qed.

Lemma scalar_dec v : {scalar v} + {¬ scalar v}.
Proof. destruct v; simpl; tauto. Qed.

Lemma scalar_unique v : scalar v → hcl_ok v → unique v.
Proof.
  intros Hs Hok indent w r r' Hw Hr Hr' E. destruct (scalar_dec w) as [Hsw|Hsw].
  - apply (f_equal (parse_value 1)) in E. rewrite !scalar_read in E by done. by injection E.
  - destruct (container_read indent w r' v r Hsw ltac:(by intros ->) Hs). rewrite <- E. by apply scalar_read.
Qed.

Lemma ends_break r : ends_number (chr 10 :: r).
Proof. by vm_compute. Qed.

(** A container's text is no scalar's. *)
Lemma container_other indent v w r r' : ¬ scalar v → v ≠ JNull → hcl_ok w → ends_number r' →
  _to_hcl_literal indent v ++ r = _to_hcl_literal indent w ++ r' → ¬ scalar w.
Proof.
  intros Hv Hn Hw Hr' E Hs. apply (container_read indent v r w r' Hv Hn Hs). rewrite E. by apply scalar_read.
Qed.

Lemma block_lines opening closing indent lines lines' r r' : 
  block opening closing indent lines ++ r = block opening closing indent lines' ++ r' →
  flat_map (fun line => line ++ newline) lines ++ (repeat (chr 32) indent ++ [chr closing]) ++ r =
  flat_map (fun line => line ++ newline) lines' ++ (repeat (chr 32) indent ++ [chr closing]) ++ r'.
Proof. unfold block. cbn [app]. intros E. injection E as E. by rewrite <- !app_assoc in *. Qed.

Lemma list_unique l : Forall unique l → unique (JList l).
Proof.
  intros Hl indent w r r' Hw Hr Hr' E.
  pose proof (container_other indent (JList l) w r r' id ltac:(done) Hw Hr' E) as Hs.
  destruct w as [|b|n|f|s|k|d]; try (by destruct Hs); [destruct l, k|rewrite hcl_obj in E; by destruct l].
  - by injection E as ->.
  - rewrite hcl_list in E. discriminate.
  - rewrite hcl_list in E. discriminate.
  - rewrite !hcl_list in E. apply block_lines in E. apply hcl_ok_list in Hw.
    apply (lines_unique (item_line indent) unique hcl_ok) in E as [-> ->]; [done| | |exact Hl|exact Hw].
    + apply item_only.
    + intros a r1 r2. by apply line_ending.
Qed.

Lemma obj_unique d : Forall (fun kv => identifier kv.1 = true ∧ unique kv.2) d → unique (JObj d).
Proof.
  intros Hd indent w r r' Hw Hr Hr' E.
  pose proof (container_other indent (JObj d) w r r' id ltac:(done) Hw Hr' E) as Hs.
  destruct w as [|b|n|f|s|k|d']; try (by destruct Hs); [rewrite hcl_obj in E; by destruct k|].
  rewrite !hcl_obj in E. apply block_lines in E. apply hcl_ok_obj in Hw.
  apply (lines_unique (member_line indent) _ _ (member_only indent)) in E as [-> ->]; [done| |exact Hd|exact Hw].
  intros a r1 r2. by apply line_ending.
Qed.

Lemma hcl_unique v : hcl_ok v → unique v.
Proof.
  induction v as [|b|n|f|s|l IH|d IH] using json_nested_ind; intros Hok; [destruct Hok|by apply scalar_unique..| |].
  - apply list_unique. apply hcl_ok_list in Hok. induction IH; constructor; apply Forall_cons in Hok as [??]; auto.
  - apply obj_unique. apply hcl_ok_obj in Hok. induction IH; constructor; apply Forall_cons in Hok as [[??] ?]; auto.
Qed.

Lemma to_hcl_unambiguous v w : hcl_ok v → hcl_ok w → hcl_file v = hcl_file w → v = w.
Proof.
  intros Hv Hw E. apply (f_equal chars) in E. unfold hcl_file in E. rewrite !chars_unchars in E. apply app_inv_head in E.
  by apply (hcl_unique v Hv 0%nat w newline newline Hw) in E as [-> _].
Qed.

(** ** The script *)

Section export.
Context (load : string → result json).

(** C25: given a readable inventory whose resource groups are a list of printable
    values, and a writable output path, the script writes one file, reports its
    path and the number of groups, and changes nothing else; the text it writes
    determines the groups: no other printable value has it. *)
Theorem tfvars_exported (input output source : string) (payload : dict string json) (groups : list json) (d : disk) :
  (io_read (to_path input) d).1 = Ok source → load source = Ok (JObj payload) →
  jget payload "resource_groups" (JList []) = JList groups → hcl_ok (JList groups) →
  is_dir d (to_path output) = false → is_dir d (parent (to_path output)) = true →
  ∃ text, export_main (Some load) input output d =
      (Ok (dumps_indent 2 (JObj [("output", JStr output); ("resource_groups", JInt (Z.of_nat (length groups)))])),
       <[to_path output := Text text]> d) ∧
    ∀ value, hcl_ok value → hcl_file value = text → value = JList groups.
Proof.
  intros Hread Hload Hg Hok Hdir Hpar. exists (hcl_file (JList groups)). split.
  - unfold export_main, mbind, io_bind, io_lift, mret, io_ret. cbn [get_or].
    assert (E : io_read (to_path input) d = (Ok source, d)) by (rewrite <- Hread; reflexivity). rewrite E, Hload. cbv zeta.
    rewrite Hg, write_ok by done. reflexivity.
  - intros value Hv E. by apply to_hcl_unambiguous.
Qed.
End export.

(** A null is printed as the name [None]; HCL writes it [null]. *)
Example null_printed_as_name : _to_hcl_literal 0 (JObj [("zone", JNull)]) = chars "{" ++ newline ++ chars "  zone = None" ++ newline ++ chars "}".
Proof. reflexivity. Qed.

(** Groups that have no length are noticed after the file was overwritten. *)
Example null_groups_overwrite :
  export_main (Some (fun _ => Ok (JObj [("resource_groups", JNull)]))) "in" "out" (<[["out"] := Text "old"]> (<[["in"] := Text ""]> ∅)) =
  (Err TypeError, <[["out"] := Text (hcl_file JNull)]> (<[["out"] := Text "old"]> (<[["in"] := Text ""]> ∅))).
Proof. reflexivity. Qed.

(** ** At a concrete input *)

(** Values of ASCII text that are printable by computation. *)
Fixpoint hcl_okb (value : json) : bool :=
  match value with
  | JNull => false
  | JFloat f => float_okb f && finite f
  | JStr s => ascii_okb s
  | JList l => forallb hcl_okb l
  | JObj d => forallb (fun kv => identifier kv.1 && hcl_okb kv.2) d
  | _ => true
  end.

Lemma hcl_okb_ok value : hcl_okb value = true → hcl_ok value.
Proof.
  induction value as [|b|n|f|s|l IH|d IH] using json_nested_ind; intros Hok; [discriminate|done..| | | |].
  - apply andb_true_iff in Hok as [H1 H2]. split; [by apply float_okb_wf|exact H2].
  - by apply ascii_okb_text.
  - apply hcl_ok_list. cbn [hcl_okb] in Hok. induction IH as [|x l Hx _ IHl]; [constructor|].
    apply andb_true_iff in Hok as [H1 H2]. constructor; auto.
  - apply hcl_ok_obj. cbn [hcl_okb] in Hok. induction IH as [|x l Hx _ IHl]; [constructor|].
    apply andb_true_iff in Hok as [[H0 H1]%andb_true_iff H2]. constructor; auto.
Qed.

Definition inventory : json :=
  JList [JObj [("name", JStr "AI-cluster-east"); ("region", JStr "eastus");
    ("aks_clusters", JList [JObj [("name", JStr "aks-gpu-cluster-1"); ("zone", JStr "eastus-1");
      ("node_pools", JList [JObj [("memory_gb", JInt 640); ("cost_per_hour", JFloat (of_lit 32.5%float)); ("spot", JBool false)]])]])];
    JObj [("name", JStr "AI-cluster-west"); ("aks_clusters", JList [])]].

Definition inventory_disk : disk := <[["terraform"] := Dir]> (<[["azure.yaml"] := Text "resource_groups: ..."]> ∅).
Definition inventory_load (source : string) : result json := Ok (JObj [("resource_groups", inventory)]).

Lemma tfvars_exported_witness : ∃ text,
  export_main (Some inventory_load) "azure.yaml" "terraform/terraform.tfvars" inventory_disk =
    (Ok (dumps_indent 2 (JObj [("output", JStr "terraform/terraform.tfvars"); ("resource_groups", JInt 2)])),
     <[["terraform"; "terraform.tfvars"] := Text text]> inventory_disk) ∧
  hcl_file (JList []) ≠ text.
Proof.
  destruct (tfvars_exported inventory_load "azure.yaml" "terraform/terraform.tfvars" "resource_groups: ..."
    [("resource_groups", inventory)] (match inventory with JList l => l | _ => [] end) inventory_disk) as (text & H & Hu).
  - vm_compute. reflexivity.
  - reflexivity.
  - reflexivity.
  - apply hcl_okb_ok. vm_compute. reflexivity.
  - vm_compute. reflexivity.
  - vm_compute. reflexivity.
  - exists text. split; [exact H|]. intros E. by specialize (Hu (JList []) I E).
Defined.
