(* ===== verification/Predictor.v ===== *)
(** * [ml/latency_predictor.py] and [scripts/train_latency_predictor.py]

    The predictor turns the rows of a CSV file into features and labels and
    fits a small network to them.  PyTorch is an interface ([Torch]): layers, the
    optimizer, the loss and the step of a model, on tensors of binary32 numbers;
    nothing is assumed of it.  The theorem is about what the network is
    fitted to: on every dataset the normalizers write, the labels are all zero,
    because the schema has no latency column. *)

From S2P Require Import Prelude PyFloat PyDict PyStr PyJson PyNum PyParse Binary32 PyUtf8 JsonText Files.
From S2P Require Import Config Samples Types Logs Workload Normalizers.

Local Open Scope Z_scope.

(** ** PyTorch, as far as it is called *)

Inductive layer := Linear (in_features out_features : Z) | ReLU.

Abbreviation tensor := (list (list float)).

Class Torch (Model Optimizer : Type) := {
  Sequential : list layer → Model;
  Adam : Model → float → Optimizer;
  forward : Model → tensor → tensor;
  MSELoss : tensor → tensor → float;
  (** [zero_grad], [backward] on the loss of this batch, [step] *)
  optimize : Model → Optimizer → tensor → tensor → Model * Optimizer;
  state_dict_file : Model → string
}.

(** ** [LatencyPredictor] *)

Record LatencyPredictorConfig := { lp_epochs : Z; lp_learning_rate : float; lp_hidden_size : Z }.

Definition default_config (epochs : Z) : LatencyPredictorConfig :=
  {| lp_epochs := epochs; lp_learning_rate := of_lit 0.001%float; lp_hidden_size := 32 |}.

Section predictor.
Context {Model Optimizer : Type} `{Torch Model Optimizer}.

Record LatencyPredictor := { lp_config : LatencyPredictorConfig; lp_model : Model }.

(** [torch]: whether PyTorch can be imported. *)
Definition make_predictor (torch : bool) (config : LatencyPredictorConfig) : result LatencyPredictor :=
  _ ← raise_if (negb torch) RuntimeError;
  let h := lp_hidden_size config in
  Ok {| lp_config := config; lp_model := Sequential [Linear 5 h; ReLU; Linear h h; ReLU; Linear h 1] |}.

(** [float(row.get(k, 0))] *)
Definition number_cell (row : dict string string) (k : string) : result float := py_float (csv_get row k (JInt 0)).

Definition flag (b : bool) : float := if b then 1.0%float else 0.0%float.

Definition feature_row (row : dict string string) : result (list float) :=
  prompt ← number_cell row "prompt_length";
  output ← number_cell row "expected_output_length";
  tenant ← float_of_int (Z.of_nat (length (code_points (chars (dget_or "" row "tenant_id")))));
  Ok [prompt; output; flag (bool_decide (dget row "priority_class" = Some "realtime"));
      flag (bool_decide (dget row "priority_class" = Some "best_effort")); tenant].

Definition label (row : dict string string) : result float :=
  py_float (match dget row "observed_latency_ms" with
            | Some s => JStr s
            | None => csv_get row "latency_ms" (JInt 0)
            end).

(** The loop over the rows. *)
Definition examples (rows : list (dict string string)) : result (list (list float * float)) :=
  mapR (fun row => features ← feature_row row; l ← label row; Ok (features, l)) rows.

(** [torch.tensor(..., dtype=torch.float32)] *)
Definition to_tensor (rows : list (list float)) : tensor := map (map to_f32) rows.

(** One epoch: the loss it keeps is the one before its step. *)
Definition epoch (x y : tensor) (st : Model * Optimizer * float) : Model * Optimizer * float :=
  let '(model, optimizer, _) := st in
  let preds := forward model x in
  let loss := MSELoss preds y in
  let '(model', optimizer') := optimize model optimizer x y in
  (model', optimizer', loss).

Definition fit (self : LatencyPredictor) (x y : tensor) : LatencyPredictor * float :=
  let optimizer := Adam (lp_model self) (lp_learning_rate (lp_config self)) in
  let '(model, _, final_loss) :=
    Nat.iter (Z.to_nat (lp_epochs (lp_config self))) (epoch x y) (lp_model self, optimizer, of_lit 0.0%float) in
  ({| lp_config := lp_config self; lp_model := model |}, final_loss).

(** [read_csv] is [csv.DictReader] on an opened file. *)
Definition train_from_csv (read_csv : string → result (list (dict string string))) (torch : bool)
    (self : LatencyPredictor) (path : string) : result (LatencyPredictor * float) :=
  _ ← raise_if (negb torch) RuntimeError;
  rows ← read_csv path;
  _ ← raise_if (match rows with [] => true | _ => false end) ValueError;
  batch ← examples rows;
  Ok (fit self (to_tensor (map fst batch)) (to_tensor (map (fun l => [l.2]) batch))).

Definition save (torch : bool) (self : LatencyPredictor) (target : string) : io unit :=
  _ ← io_lift (raise_if (negb torch) RuntimeError);
  _ ← io_mkdir (parent (to_path target));
  io_write (to_path target) (state_dict_file (lp_model self)).

(** [main] of the script. *)
Definition train_main (read_csv : disk → string → result (list (dict string string))) (torch : bool)
    (input output : string) (epochs : Z) : io string := fun d =>
  (predictor ← io_lift (make_predictor torch (default_config epochs));
   '(predictor, loss) ← io_lift (train_from_csv (read_csv d) torch predictor input);
   _ ← save torch predictor output;
   mret (dumps_indent 2 (JObj [("output", JStr output); ("final_loss", JFloat loss)]))) d.

(** ** What a normalized dataset teaches *)

(** The length of the tenant's name, as the table gives it back. *)
Definition tenant_length (r : NormalizedWorkloadRow) : Z :=
  Z.of_nat (length (code_points (chars (newline_read (nr_tenant_id r))))).

(** The features of a normalized row, exact. *)
Definition row_features (r : NormalizedWorkloadRow) : list float :=
  [of_Z (nr_prompt_length r); of_Z (nr_expected_output_length r);
   flag (bool_decide (nr_priority_class r = "realtime")); flag (bool_decide (nr_priority_class r = "best_effort"));
   of_Z (tenant_length r)].

Definition tenant_short (r : NormalizedWorkloadRow) : Prop := tenant_length r <= 2 ^ 53.

Lemma written_features r : row_valid r → tenant_short r → feature_row (written_row r) = Ok (row_features r).
Proof.
  intros Hv Ht. destruct (written_cells r Hv) as (_ & Cp & Co & Cc). destruct Hv as [_ Hp Ho _].
  apply length_reads in Hp as [Hp _], Ho as [Ho _]. unfold feature_row.
  assert (Ep : number_cell (written_row r) "prompt_length" = Ok (of_Z (nr_prompt_length r))).
  { unfold number_cell, csv_get. rewrite Cp. exact Hp. }
  assert (Eo : number_cell (written_row r) "expected_output_length" = Ok (of_Z (nr_expected_output_length r))).
  { unfold number_cell, csv_get. rewrite Co. exact Ho. }
  rewrite Ep, Eo, Cc. cbn [mbind result_bind].
  change (dget_or "" (written_row r) "tenant_id") with (newline_read (nr_tenant_id r)).
  assert (Et : ∀ n, 0 <= n <= 2 ^ 53 → float_of_int n = Ok (of_Z n)).
  { intros n Hn. unfold float_of_int. by rewrite of_Z_exact by lia. }
  rewrite Et by (unfold tenant_short, tenant_length in Ht; lia). cbn [mbind result_bind]. unfold row_features. repeat f_equal.
  - apply bool_decide_ext. split; [by intros [= ?]|by intros ->].
  - apply bool_decide_ext. split; [by intros [= ?]|by intros ->].
Qed.

(** The schema has no latency column. *)
Lemma written_label r : label (written_row r) = Ok (of_lit 0.0%float).
Proof. reflexivity. Qed.

Lemma written_examples rows : Forall row_valid rows → Forall tenant_short rows →
  examples (map written_row rows) = Ok (map (fun r => (row_features r, of_lit 0.0%float)) rows).
Proof.
  unfold examples. induction 1 as [|r rows Hr _ IH]; intros Ht; [done|]. apply Forall_cons in Ht as [H1 H2].
  cbn [map mapR]. rewrite written_features, written_label by done. cbn [mbind result_bind]. by rewrite IH.
Qed.

(** [csv.DictReader] on what the normalizers wrote. *)
Definition read_written (files : csv_files) (path : string) : result (list (dict string string)) :=
  match csv_reread files path with Some (_, rows) => Ok rows | None => Err FileNotFoundError end.

(** C24: on any dataset a registered normalizer produced, training raises nothing
    unless the dataset is empty ([ValueError]), the features are the token counts,
    the class flags and the length of the tenant's name (as the table gives it
    back: a carriage return in it as a line feed), and the labels the
    network is fitted to are all zero: the predictor learns the constant zero. *)
Theorem normalized_labels_zero (py_hash : json → Z) (read_csv : string → result (list (dict string string)))
    (read_json : string → result json) name normalize path limit model rows (self : LatencyPredictor) files out :
  dget (NORMALIZER_REGISTRY py_hash read_csv read_json) name = Some normalize →
  normalize path limit model = Ok rows → Forall tenant_short rows →
  ∃ files', write_normalized_rows files out rows = Ok files' ∧
    train_from_csv (read_written files') true self out =
    match rows with
    | [] => Err ValueError
    | _ => Ok (fit self (to_tensor (map row_features rows)) (replicate (length rows) [of_lit 0.0%float]))
    end.
Proof.
  intros Hn Hr Ht. destruct (registry_ok _ _ _ _ _ Hn _ _ _ _ Hr) as [Hv _].
  destruct (write_rows_ok files out rows) as (files' & Hw & Hd). exists files'. split; [exact Hw|].
  apply reread_written in Hd. unfold train_from_csv, read_written. rewrite Hd. cbn [raise_if negb mbind result_bind].
  destruct rows as [|r rows]; [done|]. rewrite written_examples by done. cbn [map raise_if mbind result_bind].
  do 2 f_equal.
  - f_equal. f_equal. rewrite map_map. reflexivity.
  - unfold to_tensor. rewrite !map_map. clear. cbn [map length replicate]. f_equal.
    induction rows as [|r' rows IH]; [done|]. cbn [map length replicate]. f_equal. exact IH.
Qed.

(** Without an epoch nothing is learned. *)
Lemma no_epochs self x y : lp_epochs (lp_config self) <= 0 → fit self x y = (self, of_lit 0.0%float).
Proof.
  intros He. unfold fit. replace (Z.to_nat _) with O by lia. by destruct self.
Qed.
End predictor.

(** ** At a concrete input *)

(** A model that predicts its bias and moves it half way to the mean label. *)
#[export] Instance bias_torch : Torch float unit := {|
  Sequential := fun _ => of_lit 1.0%float;
  Adam := fun _ _ => tt;
  forward := fun b x => map (fun _ => [b]) x;
  MSELoss := fun p y => match p, y with [a] :: _, [b] :: _ => fmul32 (fsub32 a b) (fsub32 a b) | _, _ => NaN end;
  optimize := fun b o _ y => (match y with [l] :: _ => fdiv32 (fadd32 b l) 2.0%float | _ => b end, o);
  state_dict_file := float_repr
|}.

Definition sample_predictor : LatencyPredictor (Model := float) := {| lp_config := default_config 2; lp_model := of_lit 1.0%float |}.

Lemma normalized_labels_zero_witness : ∃ files',
  write_normalized_rows [] "trace.csv" sample_rows = Ok files' ∧
  snd <$> train_from_csv (read_written files') true sample_predictor "trace.csv" = Ok (of_lit 0.25%float).
Proof.
  assert (E : normalize_generic_workload_csv sample_csv "sample_generic_trace.csv" (Some 2) "m" = Ok sample_rows)
    by (vm_compute; reflexivity).
  destruct (normalized_labels_zero (fun _ => 0) sample_csv (fun _ => Err ValueError) "generic_csv" _ _ _ _ _
    sample_predictor [] "trace.csv" eq_refl E) as (files' & Hw & Ht).
  - assert (Hb : forallb (fun r => tenant_length r <=? 2 ^ 53) sample_rows = true)
      by (vm_compute; reflexivity).
    apply Forall_forall. intros r Hin. rewrite forallb_forall in Hb. exact (proj1 (Z.leb_le _ _) (Hb r (proj1 (list_elem_of_In _ _) Hin))).
  - exists files'. split; [exact Hw|]. rewrite Ht. vm_compute. reflexivity.
Defined.

(** The script on a disk, without and with PyTorch. *)
Example train_script :
  let read (d : disk) (path : string) := Ok [[("prompt_length", "512"); ("tenant_id", "a"); ("latency_ms", "3.5")]] in
  (train_main (Model := float) read false "in.csv" "models/p.pt" 2 ∅).1 = Err RuntimeError ∧
  (train_main (Model := float) read true "in.csv" "models/p.pt" 0 ∅).2 !! ["models"; "p.pt"] = Some (Text "1.0").
Proof. split; vm_compute; reflexivity. Qed.
