(* ===== verification/Backends.v ===== *)
(** * [serving_backends/]: latency estimators behind one interface

    [BackendAdapter] is the abstract base class; [MockBackend], [VLLMBackend]
    and [TritonBackend] are its three implementations.  [LawfulBackend] states
    what the control plane and the local scheduler rely on; each adapter is
    proved to be an instance.  The HTTP client behind [invoke] is an argument. *)

From S2P Require Import Prelude PyFloat PyOrder PyDict PyStr PyJson JsonText Types Samples.

Local Open Scope float_scope.

(** A response: what [raise_for_status] raises, and the body. *)
Record http_response := { rs_error : option exn; rs_body : string }.

(** [client.post(endpoint, json=payload)] of a client with a time-out. *)
Definition http_client : Type := float → string → json → result http_response.

Record BackendAdapter := {
  backend_name : string;
  latency_factor : float;
  (* client, endpoint, payload, timeout_s *)
  invoke : http_client → string → json → float → result json;
  (* request, pool, cache_hit_ratio, topology_affinity, network_cost, congestion_score *)
  estimate_latency_ms :
    InferenceRequest → PoolRuntime → float → float → float → float → float * float
}.

Definition mock_estimate (request : InferenceRequest) (pool : PoolRuntime)
    (cache_hit_ratio topology_affinity network_cost congestion_score : float) : float * float :=
  let effective_prompt :=
    pymax 1.0 (of_Z (req_prompt_tokens request) * (1.0 - (cache_hit_ratio * 0.8))) in
  let prefill_ms := (effective_prompt / pymax (pool_prefill_tps pool) 1.0) * 1000.0 in
  let decode_ms :=
    (of_Z (req_generation_tokens request) / pymax (pool_decode_tps pool) 1.0) * 1000.0 in
  let topology_multiplier := pymax 0.72 (1.10 - (topology_affinity * 0.22)) in
  let congestion_multiplier := 1.0 + (congestion_score * 0.35) in
  let network_penalty_ms :=
    network_cost * (5.0 + of_Z (req_prompt_tokens request) / 4096.0) in
  (fround 4 (prefill_ms * topology_multiplier * congestion_multiplier + network_penalty_ms),
   fround 4 (decode_ms * congestion_multiplier)).

Definition vllm_estimate (request : InferenceRequest) (pool : PoolRuntime)
    (cache_hit_ratio topology_affinity network_cost congestion_score : float) : float * float :=
  let prompt :=
    pymax 1.0 (of_Z (req_prompt_tokens request) * (1.0 - (cache_hit_ratio * 0.82))) in
  let prefill_ms := (prompt / pymax (pool_prefill_tps pool * 1.08) 1.0) * 1000.0 in
  let decode_ms :=
    (of_Z (req_generation_tokens request) / pymax (pool_decode_tps pool * 1.06) 1.0) * 1000.0 in
  let multiplier :=
    (1.0 + congestion_score * 0.28) * pymax 0.74 (1.08 - topology_affinity * 0.18) in
  (fround 4 (prefill_ms * multiplier + network_cost * 4.0),
   fround 4 (decode_ms * multiplier)).

Definition triton_estimate (request : InferenceRequest) (pool : PoolRuntime)
    (cache_hit_ratio topology_affinity network_cost congestion_score : float) : float * float :=
  let prompt :=
    pymax 1.0 (of_Z (req_prompt_tokens request) * (1.0 - (cache_hit_ratio * 0.75))) in
  let prefill_ms := (prompt / pymax (pool_prefill_tps pool * 1.12) 1.0) * 1000.0 in
  let decode_ms :=
    (of_Z (req_generation_tokens request) / pymax (pool_decode_tps pool * 1.03) 1.0) * 1000.0 in
  let multiplier :=
    (1.0 + congestion_score * 0.24) * pymax 0.70 (1.05 - topology_affinity * 0.2) in
  (fround 4 (prefill_ms * multiplier + network_cost * 3.5),
   fround 4 (decode_ms * multiplier)).

(** [HTTPBackendMixin.post_json] *)
Definition post_json (client : http_client) (endpoint : string) (payload : json) (timeout_s : float) : result json :=
  response ← client timeout_s endpoint payload;
  _ ← match rs_error response with Some e => Err e | None => Ok tt end;
  loads (rs_body response).

Definition mock_invoke (client : http_client) (endpoint : string) (payload : json) (timeout_s : float) : result json :=
  Ok (JObj [("backend", JStr "mock"); ("endpoint", JStr endpoint); ("payload", payload); ("timeout_s", JFloat timeout_s)]).

Definition MockBackend : BackendAdapter :=
  {| backend_name := "mock"; latency_factor := of_lit 1.0; invoke := mock_invoke; estimate_latency_ms := mock_estimate |}.
Definition VLLMBackend : BackendAdapter :=
  {| backend_name := "vllm"; latency_factor := of_lit 0.94; invoke := post_json; estimate_latency_ms := vllm_estimate |}.
Definition TritonBackend : BackendAdapter :=
  {| backend_name := "triton"; latency_factor := of_lit 0.9; invoke := post_json; estimate_latency_ms := triton_estimate |}.

(** ** The interface laws *)

(** A throughput figure a configuration can hold: not NaN, at most [10^15]. *)
Definition tps_ok (t : float) : Prop := finite t = true ∧ t <= 1000000000000000.0.

(** Token counts that a double holds exactly. *)
Definition tokens_ok (n : Z) : Prop := (0 < n <= 2 ^ 53)%Z.

(** The request and the pool an estimate is asked for. *)
Record estimate_ok (request : InferenceRequest) (pool : PoolRuntime) : Prop := {
  eo_prompt : tokens_ok (req_prompt_tokens request);
  eo_generation : tokens_ok (req_generation_tokens request);
  eo_prefill : tps_ok (pool_prefill_tps pool);
  eo_decode : tps_ok (pool_decode_tps pool)
}.

(** The signals an estimate is given: cache hit ratio and affinity in [[0, 1]],
    a non-negative network cost, a finite non-negative congestion. *)
Record signals_ok (hit affinity network congestion : float) : Prop := {
  so_hit : 0.0 <= hit ∧ hit <= 1.0;
  so_affinity : 0.0 <= affinity ∧ affinity <= 1.0;
  so_network : 0.0 <= network;
  so_congestion : 0.0 <= congestion ∧ congestion <= max_float
}.

(** Component-wise order on (prefill, decode). *)
Definition latency_le (a b : float * float) : Prop := a.1 <= b.1 ∧ a.2 <= b.2.

Class LawfulBackend (b : BackendAdapter) : Prop := {
  (* latencies are numbers, never negative *)
  est_nonneg req pool h a n c : estimate_ok req pool → signals_ok h a n c →
    0.0 <= (estimate_latency_ms b req pool h a n c).1 ∧
    0.0 <= (estimate_latency_ms b req pool h a n c).2;
  (* a better cache hit, a closer pool, a cheaper path, a calmer cluster: never slower *)
  est_mono req pool h h' a a' n n' c c' : estimate_ok req pool →
    signals_ok h a n c → signals_ok h' a' n' c' →
    h' <= h → a' <= a → n <= n' → c <= c' →
    latency_le (estimate_latency_ms b req pool h a n c)
               (estimate_latency_ms b req pool h' a' n' c')
}.

(** ** Building blocks shared by the three adapters *)

(** A factor that multiplies a latency: finite and positive. *)
Definition factor (x : float) : Prop := finite x = true ∧ 0.0 < x.

Lemma factor_lit (l : lit) : (0.0 <? l) = true → factor l.
Proof. done. Qed.

Lemma factor_between (x lo hi : float) : finite hi = true →
  0.0 < lo → finite lo = true → lo <= x → x <= hi → factor x.
Proof.
  intros Hh Hl Hfl H1 H2. split; [exact (finite_between _ _ _ Hfl Hh H1 H2)|exact (flt_of_le _ _ Hl H1)].
Qed.

Lemma scaled_nonneg (a x : float) : factor x → 0.0 <= a → 0.0 <= a * x.
Proof. intros [Hf Hp] Ha. by apply fmul_nonneg_pos. Qed.

Lemma scaled_mono (a b x y : float) : factor x → factor y → 0.0 <= a → a <= b → x <= y →
  a * x <= b * y.
Proof.
  intros [Hfx Hx] [Hfy Hy] Ha Hab Hxy.
  assert (Hb : 0.0 <= b) by exact (fle_trans _ _ _ Ha Hab).
  apply fle_trans with (b * x); [by apply scale_mono|].
  rewrite !(fmul_comm b). apply fmul_mono_r; try done; rewrite fmul_comm.
  - eapply fle_not_nan_r. by apply fmul_nonneg_pos.
  - eapply fle_not_nan_r. by apply fmul_nonneg_pos.
Qed.

Lemma sum_mono (a b c d : float) : 0.0 <= a → 0.0 <= b → a <= c → b <= d → a + b <= c + d.
Proof.
  intros Ha Hb Hac Hbd. apply fadd_mono; try done; eapply fle_not_nan_r; apply fadd_nonneg; try done.
  - exact (fle_trans _ _ _ Ha Hac).
  - exact (fle_trans _ _ _ Hb Hbd).
Qed.

(** [lit - x * k]: the decreasing affine terms. *)
Lemma affine_dec (u x y k : float) : finite u = true → finite k = true → 0.0 <= k →
  finite x = true → finite y = true → x <= y → u - y * k <= u - x * k.
Proof.
  intros Hu Hk Hk0 Hx Hy Hxy.
  assert (u ≠ NaN) by (by destruct u).
  assert (Hn : ∀ z, finite z = true → u - z * k ≠ NaN).
  { intros z Hz. apply fsub_finite_not_nan; [done|by apply fmul_finite_not_nan]. }
  apply fsub_mono; auto; [by apply fle_refl|].
  apply fmul_mono_r; try done; by apply fmul_finite_not_nan.
Qed.

Lemma unit_finite (x : float) : 0.0 <= x → x <= 1.0 → finite x = true.
Proof. by apply finite_between. Qed.

(** Decreasing affine terms of an argument in [[0, 1]] stay between their values
    at the end points. *)
Lemma affine_range (u x k : float) : finite u = true → finite k = true → 0.0 <= k →
  0.0 <= x → x <= 1.0 → u - 1.0 * k <= u - x * k ∧ u - x * k <= u - 0.0 * k.
Proof.
  intros. assert (finite x = true) by (by apply unit_finite).
  split; apply affine_dec; try done.
Qed.

(** The effective prompt after cache reuse, [max(1.0, prompt * (1.0 - hit * k))]. *)
Definition effective (k : lit) (p : Z) (hit : float) : float :=
  pymax 1.0 (of_Z p * (1.0 - hit * k)).

Lemma effective_nonneg (k : lit) (p : Z) (hit : float) : 0.0 <= effective k p hit.
Proof.
  unfold effective. apply fle_trans with 1.0; [flit|]. by apply pymax_ge_l.
Qed.

Lemma pymax_mono (a b c : float) : b ≠ NaN → a ≠ NaN → b <= c → pymax a b <= pymax a c.
Proof.
  intros Hb Ha Hbc. apply pymax_lub; [by apply pymax_ge_l|].
  apply fle_trans with c; [done|]. apply pymax_ge_r; [done|].
  exact (fle_not_nan_r _ _ Hbc).
Qed.

Lemma of_Z_finite (n : Z) : tokens_ok n → finite (of_Z n) = true.
Proof. intros [? ?]. rewrite of_Z_exact by lia. done. Qed.

Lemma effective_mono (k : lit) (p : Z) (h h' : float) : tokens_ok p →
  (0.0 <=? k) = true → (0.0 <=? 1.0 - 1.0 * k) = true → finite (1.0 - 0.0 * k) = true →
  0.0 <= h ∧ h <= 1.0 → 0.0 <= h' ∧ h' <= 1.0 → h' <= h →
  effective k p h <= effective k p h'.
Proof.
  intros Hp Hk Hk1 Hfk [Hh0 Hh1] [Hh0' Hh1'] Hle. unfold effective.
  assert (Hf : ∀ x, 0.0 <= x → x <= 1.0 → 0.0 <= 1.0 - x * k ∧ finite (1.0 - x * k) = true).
  { intros x H0 H1.
    destruct (affine_range 1.0 x k eq_refl eq_refl Hk H0 H1) as [A B].
    assert (H : 0.0 <= 1.0 - x * k) by exact (fle_trans _ _ _ Hk1 A).
    split; [exact H|]. exact (finite_between _ 0.0 _ eq_refl Hfk H B). }
  destruct (Hf h Hh0 Hh1) as [A1 A2]. destruct (Hf h' Hh0' Hh1') as [B1 B2].
  pose proof (of_Z_finite p Hp).
  apply pymax_mono; [by apply fmul_finite_not_nan|discriminate|].
  rewrite !(fmul_comm (of_Z p)).
  apply fmul_mono_r; [|apply of_Z_nonneg; destruct Hp; lia|by apply fmul_finite_not_nan..].
  apply affine_dec; [reflexivity|reflexivity|exact Hk|by apply unit_finite..|exact Hle].
Qed.

(** The divisor [max(tps * k, 1.0)]. *)
Lemma divisor_factor (t : float) : t ≠ NaN → t <= max_float → factor (pymax t 1.0).
Proof.
  intros Hn Hm. apply (factor_between _ 1.0 max_float); try fd.
  - apply pymax_ge_r; fd.
  - apply pymax_lub; fd.
Qed.

Lemma tps_scaled (t : float) (k : lit) : tps_ok t → (0.0 <=? k) = true →
  (1000000000000000.0 * k <=? max_float) = true → t * k ≠ NaN ∧ t * k <= max_float.
Proof.
  intros [Hf Ht] Hk Hm. assert (t * k ≠ NaN) by (by apply fmul_finite_not_nan).
  split; [fd|]. apply fle_trans with (1000000000000000.0 * k); [|fd].
  apply fmul_mono_r; fd || by apply fmul_finite_not_nan.
Qed.

Lemma tps_plain (t : float) : tps_ok t → t ≠ NaN ∧ t <= max_float.
Proof.
  intros [Hf Ht]. split; [by destruct t|]. eapply fle_trans; [exact Ht|flit].
Qed.

Lemma quotient_nonneg (x d : float) : factor d → 0.0 <= x → 0.0 <= (x / d) * 1000.0.
Proof.
  intros [Hf Hp] Hx. apply scaled_nonneg; [apply factor_lit; flit|]. by apply fdiv_nonneg.
Qed.

Lemma quotient_mono (x y d : float) : factor d → 0.0 <= x → x <= y →
  (x / d) * 1000.0 <= (y / d) * 1000.0.
Proof.
  intros [Hf Hp] Hx Hxy. apply scaled_mono; [apply factor_lit; flit..| | |flit].
  - by apply fdiv_nonneg.
  - by apply fdiv_mono_l.
Qed.

(** Congestion multipliers [1.0 + c * k]. *)
Lemma congestion_mono (c c' : float) (k : lit) : (0.0 <? k) = true →
  0.0 <= c → c <= c' → 1.0 + c * k <= 1.0 + c' * k.
Proof.
  intros Hk Hc Hcc. apply sum_mono; [flit|by apply scaled_nonneg|flit|].
  by apply scale_mono.
Qed.

Lemma congestion_factor (c : float) (k : lit) : (0.0 <? k) = true →
  finite (1.0 + max_float * k) = true → 0.0 <= c ∧ c <= max_float → factor (1.0 + c * k).
Proof.
  intros Hk Hf [Hc0 Hc1]. apply (factor_between _ 1.0 (1.0 + max_float * k)); [exact Hf|flit|reflexivity| |].
  - apply fadd_ge_l; [apply of_lit_wf; flit|flit|by apply scaled_nonneg].
  - by apply congestion_mono.
Qed.

(** Affinity multipliers [max(lo, u - a * k)]. *)
Lemma affinity_factor (lo u k : lit) (a : float) : (0.0 <? lo) = true → (0.0 <=? k) = true →
  finite (u - 0.0 * k) = true → (lo <=? u - 0.0 * k) = true →
  0.0 <= a ∧ a <= 1.0 → factor (pymax lo (u - a * k)).
Proof.
  intros Hlo Hk Hf Hle [H0 H1]. destruct (affine_range u a k eq_refl eq_refl Hk H0 H1) as [_ B].
  apply (factor_between _ lo (u - 0.0 * k)); [exact Hf|exact Hlo|reflexivity| |].
  - by apply pymax_ge_l.
  - by apply pymax_lub.
Qed.

Lemma affinity_mono (lo u k : lit) (a a' : float) : (0.0 <=? k) = true →
  0.0 <= a ∧ a <= 1.0 → 0.0 <= a' ∧ a' <= 1.0 → a' <= a →
  pymax lo (u - a * k) <= pymax lo (u - a' * k).
Proof.
  intros Hk [H0 H1] [H0' H1'] Hle.
  assert (H : u - a * k <= u - a' * k).
  { apply affine_dec; [reflexivity|reflexivity|exact Hk|by apply unit_finite..|exact Hle]. }
  apply pymax_mono; [exact (fle_not_nan_l _ _ H)|discriminate|exact H].
Qed.

(** A quotient term: numerator over a throughput divisor, in milliseconds. *)
Lemma work_nonneg (k : lit) (p : Z) (h d : float) : factor d →
  0.0 <= (effective k p h / d) * 1000.0.
Proof. intros. apply quotient_nonneg; [done|apply effective_nonneg]. Qed.

Lemma decode_nonneg (g : Z) (d : float) : tokens_ok g → factor d →
  0.0 <= (of_Z g / d) * 1000.0.
Proof. intros [Hg _] Hd. apply quotient_nonneg; [done|apply of_Z_nonneg; lia]. Qed.

(** The shape of every adapter: rounded [work * multiplier + network]. *)
Lemma rounded_nonneg (w m n : float) : factor m → 0.0 <= w → 0.0 <= n →
  0.0 <= fround 4 (w * m + n).
Proof.
  intros. apply fround_nonneg; [done|]. apply fadd_nonneg; [by apply scaled_nonneg|done].
Qed.

Lemma rounded_mono (w w' m m' n n' : float) : factor m → factor m' →
  0.0 <= w → 0.0 <= n → w <= w' → m <= m' → n <= n' →
  fround 4 (w * m + n) <= fround 4 (w' * m' + n').
Proof.
  intros. apply fround_mono; [done|]. apply sum_mono; try hyp.
  - by apply scaled_nonneg.
  - by apply scaled_mono.
Qed.

Lemma rounded_scaled_nonneg (w m : float) : factor m → 0.0 <= w → 0.0 <= fround 4 (w * m).
Proof. intros. apply fround_nonneg; [done|]. by apply scaled_nonneg. Qed.

Lemma rounded_scaled_mono (w m m' : float) : factor m → factor m' → 0.0 <= w → m <= m' →
  fround 4 (w * m) <= fround 4 (w * m').
Proof.
  intros. apply fround_mono; [done|]. apply scaled_mono; try hyp.
  apply fle_refl. eapply fle_not_nan_r; eassumption.
Qed.

(** Products of the two multipliers stay factors. *)
Lemma factor_mul (x y lo hi : float) : factor x → factor y →
  0.0 < lo → finite lo = true → finite hi = true → lo <= x * y → x * y <= hi → factor (x * y).
Proof. intros. by apply (factor_between _ lo hi). Qed.

Section multiplier.
(** [(1.0 + c * kc) * max(lo, u - a * ka)], for the constants of an adapter. *)
Context (kc lo u ka : lit).
Definition multiplier (c a : float) : float := (1.0 + c * kc) * pymax lo (u - a * ka).

Context (Hkc : (0.0 <? kc) = true) (Hfc : finite (1.0 + max_float * kc) = true).
Context (Hlo : (0.0 <? lo) = true) (Hka : (0.0 <=? ka) = true).
Context (Hfu : finite (u - 0.0 * ka) = true) (Hlu : (lo <=? u - 0.0 * ka) = true).
Context (Hfm : finite ((1.0 + max_float * kc) * (u - 0.0 * ka)) = true).
Context (Hpos : (0.0 <? 1.0 * lo) = true) (Hfin : finite (1.0 * lo) = true).

Lemma multiplier_factor c a : 0.0 <= c ∧ c <= max_float → 0.0 <= a ∧ a <= 1.0 →
  factor (multiplier c a).
Proof.
  intros Hc Ha.
  pose proof (congestion_factor c kc Hkc Hfc Hc) as F1.
  pose proof (affinity_factor lo u ka a Hlo Hka Hfu Hlu Ha) as F2.
  destruct Hc as [Hc0 Hc1], Ha as [Ha0 Ha1].
  assert (G1 : factor 1.0) by (apply factor_lit; flit).
  assert (L1 : 1.0 <= 1.0 + c * kc).
  { apply fadd_ge_l; [apply of_lit_wf; flit|flit|].
    apply scaled_nonneg; [exact (factor_lit _ Hkc)|hyp]. }
  assert (L2 : lo <= pymax lo (u - a * ka)) by (apply pymax_ge_l; fd).
  assert (U1 : 1.0 + c * kc <= 1.0 + max_float * kc) by (apply congestion_mono; hyp).
  assert (U2 : pymax lo (u - a * ka) <= u - 0.0 * ka).
  { destruct (affine_range u a ka eq_refl eq_refl Hka Ha0 Ha1) as [_ B]. by apply pymax_lub. }
  apply (factor_mul _ _ (1.0 * lo) ((1.0 + max_float * kc) * (u - 0.0 * ka)));
    [exact F1|exact F2|exact Hpos|exact Hfin|exact Hfm| |].
  - apply scaled_mono; [exact (factor_lit _ Hlo)|exact F2|flit|exact L1|exact L2].
  - assert (0.0 <= 1.0 + c * kc) by (eapply fle_trans; [|exact L1]; flit).
    apply scaled_mono; [exact F2| |hyp|exact U1|exact U2].
    apply (factor_between _ lo (u - 0.0 * ka)); [hyp|hyp|reflexivity|hyp|].
    apply fle_refl. exact (fle_not_nan_r _ _ Hlu).
Qed.

Lemma multiplier_mono c c' a a' : 0.0 <= c ∧ c <= max_float → 0.0 <= c' ∧ c' <= max_float →
  0.0 <= a ∧ a <= 1.0 → 0.0 <= a' ∧ a' <= 1.0 → c <= c' → a' <= a →
  multiplier c a <= multiplier c' a'.
Proof.
  intros Hc Hc' Ha Ha' Hcc Haa. unfold multiplier.
  apply scaled_mono; [apply affinity_factor; hyp..| | |].
  - apply flt_le. apply congestion_factor; hyp.
  - destruct Hc. apply congestion_mono; hyp.
  - apply affinity_mono; hyp.
Qed.
End multiplier.

(** *** The three instances *)

Ltac estimate_inputs :=
  repeat match goal with
  | H : estimate_ok _ _ |- _ => destruct H
  | H : signals_ok _ _ _ _ |- _ => destruct H
  end.

(** The divisor of an adapter that scales throughput by [k], and of one that
    does not. *)
Ltac divisor :=
  apply divisor_factor; first
    [ apply tps_plain; assumption
    | eapply tps_scaled; [eassumption|flit|flit] ].

#[export] Instance mock_lawful : LawfulBackend MockBackend.
Proof.
  assert (Hnet : ∀ p, tokens_ok p → factor (5.0 + of_Z p / 4096.0)).
  { intros p [Hp0 Hp1].
    apply (factor_between _ 5.0 (5.0 + of_Z (2 ^ 53) / 4096.0)); [flit|flit|reflexivity| |].
    - apply fadd_ge_l; [apply of_lit_wf; flit|flit|]. apply fdiv_nonneg; [done|flit|]. apply of_Z_nonneg; lia.
    - apply sum_mono; [flit| |flit|].
      + apply fdiv_nonneg; [done|flit|]. apply of_Z_nonneg; lia.
      + apply fdiv_mono_l; [done|flit|]. apply of_Z_mono; lia. }
  split; simpl; unfold mock_estimate; cbn [fst snd]; intros; estimate_inputs.
  - split.
    + apply rounded_nonneg; [apply congestion_factor; fd| |].
      * apply scaled_nonneg; [apply affinity_factor; fd|].
        apply work_nonneg. divisor.
      * apply scaled_nonneg; [by apply Hnet|hyp].
    + apply rounded_scaled_nonneg; [apply congestion_factor; fd|].
      apply decode_nonneg; [hyp|divisor].
  - split; cbn [fst snd].
    + apply rounded_mono; [apply congestion_factor; fd..| | | | |].
      * apply scaled_nonneg; [apply affinity_factor; fd|]. apply work_nonneg. divisor.
      * apply scaled_nonneg; [by apply Hnet|hyp].
      * apply scaled_mono; [apply affinity_factor; fd..| | |].
        -- apply work_nonneg. divisor.
        -- apply quotient_mono; [divisor|apply effective_nonneg|].
           apply (effective_mono 0.8); fd.
        -- apply affinity_mono; fd.
      * apply congestion_mono; [flit|apply so_congestion1|hyp].
      * apply scale_mono; [by apply Hnet..|assumption|hyp].
    + apply rounded_scaled_mono; [apply congestion_factor; fd..| |].
      * apply decode_nonneg; [hyp|divisor].
      * apply congestion_mono; [flit|apply so_congestion1|hyp].
Qed.

(** vLLM and Triton share one formula and differ in its constants. *)
Section scaled_adapter.
Context (name : string) (factor_ : float) (call : http_client → string → json → float → result json) (kh kp kd kc lo u ka kn : lit).

Definition scaled_estimate (request : InferenceRequest) (pool : PoolRuntime)
    (h a n c : float) : float * float :=
  let prefill_ms :=
    (effective kh (req_prompt_tokens request) h
     / pymax (pool_prefill_tps pool * kp) 1.0) * 1000.0 in
  let decode_ms :=
    (of_Z (req_generation_tokens request) / pymax (pool_decode_tps pool * kd) 1.0) * 1000.0 in
  (fround 4 (prefill_ms * multiplier kc lo u ka c a + n * kn),
   fround 4 (decode_ms * multiplier kc lo u ka c a)).

Context (Hkh : (0.0 <=? kh) = true) (Hkh1 : (0.0 <=? 1.0 - 1.0 * kh) = true).
Context (Hfh : finite (1.0 - 0.0 * kh) = true).
Context (Hkp : (0.0 <=? kp) = true) (Hmp : (1000000000000000.0 * kp <=? max_float) = true).
Context (Hkd : (0.0 <=? kd) = true) (Hmd : (1000000000000000.0 * kd <=? max_float) = true).
Context (Hkc : (0.0 <? kc) = true) (Hfc : finite (1.0 + max_float * kc) = true).
Context (Hlo : (0.0 <? lo) = true) (Hka : (0.0 <=? ka) = true).
Context (Hfu : finite (u - 0.0 * ka) = true) (Hlu : (lo <=? u - 0.0 * ka) = true).
Context (Hfm : finite ((1.0 + max_float * kc) * (u - 0.0 * ka)) = true).
Context (Hpos : (0.0 <? 1.0 * lo) = true) (Hfin : finite (1.0 * lo) = true).
Context (Hkn : (0.0 <? kn) = true).

Lemma scaled_lawful :
  LawfulBackend {| backend_name := name; latency_factor := factor_; invoke := call;
                   estimate_latency_ms := scaled_estimate |}.
Proof.
  assert (Hm : ∀ c a, 0.0 <= c ∧ c <= max_float → 0.0 <= a ∧ a <= 1.0 →
                 factor (multiplier kc lo u ka c a)).
  { intros. apply multiplier_factor; hyp. }
  assert (Hd : ∀ t, tps_ok t → factor (pymax (t * kp) 1.0)).
  { intros t Ht. destruct (tps_scaled t kp Ht Hkp Hmp). apply divisor_factor; hyp. }
  assert (He : ∀ t, tps_ok t → factor (pymax (t * kd) 1.0)).
  { intros t Ht. destruct (tps_scaled t kd Ht Hkd Hmd). apply divisor_factor; hyp. }
  split; simpl; unfold scaled_estimate; cbn [fst snd]; intros; estimate_inputs.
  - split.
    + apply rounded_nonneg; [apply Hm; hyp|apply work_nonneg, Hd; hyp|].
      apply scaled_nonneg; [exact (factor_lit _ Hkn)|hyp].
    + apply rounded_scaled_nonneg; [apply Hm; hyp|]. apply decode_nonneg; [hyp|apply He; hyp].
  - split; cbn [fst snd].
    + apply rounded_mono; [apply Hm; hyp..|apply work_nonneg, Hd; hyp| | | |].
      * apply scaled_nonneg; [exact (factor_lit _ Hkn)|hyp].
      * apply quotient_mono; [apply Hd; hyp|apply effective_nonneg|].
        apply effective_mono; hyp.
      * apply multiplier_mono; hyp.
      * apply scale_mono; [reflexivity|exact Hkn|hyp|hyp].
    + apply rounded_scaled_mono; [apply Hm; hyp..| |].
      * apply decode_nonneg; [hyp|apply He; hyp].
      * apply multiplier_mono; hyp.
Qed.
End scaled_adapter.

#[export] Instance vllm_lawful : LawfulBackend VLLMBackend.
Proof. apply (scaled_lawful "vllm" 0.94 post_json 0.82 1.08 1.06 0.28 0.74 1.08 0.18 4.0); fd. Qed.

#[export] Instance triton_lawful : LawfulBackend TritonBackend.
Proof. apply (scaled_lawful "triton" 0.9 post_json 0.75 1.12 1.03 0.24 0.70 1.05 0.2 3.5); fd. Qed.

(** ** The registry of [NimbusMeshControlPlane.__init__] *)

Definition backends : dict string BackendAdapter :=
  [("mock", MockBackend); ("vllm", VLLMBackend); ("triton", TritonBackend)].

Lemma backends_lawful n b : dget backends n = Some b → LawfulBackend b ∧ backend_name b = n.
Proof.
  intros H%dget_elem. unfold backends in H.
  repeat (apply elem_of_cons in H as [[= -> ->]|H]; [split; [apply _|reflexivity]|]).
  by apply elem_of_nil in H.
Qed.

(** [invoke] gives the value the server sent, and raises on an error status
    whatever the body; the mock echoes its call without one. *)
Lemma invoke_reads n b client endpoint payload timeout_s j k : dget backends n = Some b → n ≠ "mock" →
  client timeout_s endpoint payload = Ok {| rs_error := None; rs_body := dumps_indent k j |} → json_ok j →
  invoke b client endpoint payload timeout_s = Ok j.
Proof.
  intros H%dget_elem Hn Hc Hj. unfold backends in H.
  repeat (apply elem_of_cons in H as [[= -> ->]|H];
    [first [done|cbn [invoke VLLMBackend TritonBackend]; unfold post_json; rewrite Hc; by apply loads_dumps_indent]|]).
  by apply elem_of_nil in H.
Qed.

Lemma invoke_error n b client endpoint payload timeout_s e body : dget backends n = Some b → n ≠ "mock" →
  client timeout_s endpoint payload = Ok {| rs_error := Some e; rs_body := body |} →
  invoke b client endpoint payload timeout_s = Err e.
Proof.
  intros H%dget_elem Hn Hc. unfold backends in H.
  repeat (apply elem_of_cons in H as [[= -> ->]|H];
    [first [done|cbn [invoke VLLMBackend TritonBackend]; unfold post_json; rewrite Hc; reflexivity]|]).
  by apply elem_of_nil in H.
Qed.

(** C40: every registered serving backend projects non-negative prefill and
    decode latencies, and the projection never improves when the cache hit
    ratio or the topology affinity drops, or when the network cost or the
    congestion rises. *)
Theorem backend_latency_monotone (n : string) (b : BackendAdapter) (req : InferenceRequest)
    (pool : PoolRuntime) (h h' a a' net net' c c' : float) :
  dget backends n = Some b → estimate_ok req pool →
  signals_ok h a net c → signals_ok h' a' net' c' →
  h' <= h → a' <= a → net <= net' → c <= c' →
  let best := estimate_latency_ms b req pool h a net c in
  let worst := estimate_latency_ms b req pool h' a' net' c' in
  (0.0 <= best.1) ∧ (0.0 <= best.2) ∧ (best.1 <= worst.1) ∧ (best.2 <= worst.2).
Proof.
  intros Hb Hr Hs Hs' Hh Ha Hn Hc. destruct (backends_lawful n b Hb) as [Hl _].
  destruct (est_nonneg req pool h a net c Hr Hs) as [H1 H2].
  destruct (est_mono req pool h h' a a' net net' c c' Hr Hs Hs' Hh Ha Hn Hc) as [H3 H4].
  split; [exact H1|]. split; [exact H2|]. split; [exact H3|exact H4].
Qed.

Lemma sample_estimate_ok : estimate_ok sample_request sample_pool.
Proof. constructor; unfold tokens_ok, tps_ok; [vm_compute; split; [reflexivity|discriminate]..|split; flit|split; flit]. Qed.

Lemma backend_latency_monotone_witness :
  (estimate_latency_ms VLLMBackend sample_request sample_pool 0.9 1.0 0.1 0.2).1 <=
  (estimate_latency_ms VLLMBackend sample_request sample_pool 0.3 0.5 0.4 0.2).1.
Proof.
  apply (backend_latency_monotone "vllm" VLLMBackend sample_request sample_pool
    0.9 0.3 1.0 0.5 0.1 0.4 0.2 0.2);
    [reflexivity|apply sample_estimate_ok|constructor; [split; flit|split; flit|flit|split; flit]..
    |flit|flit|flit|flit].
Defined.
