(* ===== verification/RedisStore.v ===== *)
(** * [storage/redis_store.py]: the optional Redis side store

    The Redis server is a third-party service: it appears as the interface
    [RedisClient], whose law is the documented behaviour of HSET and HGET.  What
    is stored is the text of [json.dumps]. *)

From S2P Require Import Prelude PyFloat PyDict PyJson JsonText.

Class RedisClient (R : Type) := {
  hset : R → string → string → string → R;
  hget : R → string → string → option string
}.

Class LawfulRedis (R : Type) `{RedisClient R} : Prop := {
  hget_hset_eq r h f v : hget (hset r h f v) h f = Some v;
  hget_hset_ne r h f v h' f' : (h, f) ≠ (h', f') → hget (hset r h f v) h' f' = hget r h' f'
}.

(** A server as a finite map: the interface is inhabited. *)
#[export] Instance map_redis : RedisClient (gmap (string * string) string) := {
  hset r h f v := <[(h, f) := v]> r;
  hget r h f := r !! (h, f)
}.

#[export] Instance map_redis_lawful : LawfulRedis (gmap (string * string) string).
Proof. split; simpl; intros; [apply lookup_insert_eq|by apply lookup_insert_ne]. Qed.

Section store.
Context {R : Type} `{RedisClient R}.

Record RedisDecisionStore := {
  rs_enabled : bool;
  rs_client : option R
}.

(** The constructor: an explicit URL wins over the environment; the store is
    enabled when there is a URL and the client library can be imported. *)
Definition make_redis_store (redis_url env_url : string) (imported : bool)
    (from_url : string → R) : RedisDecisionStore :=
  let url := if String.eqb redis_url "" then env_url else redis_url in
  let enabled := negb (String.eqb url "") && imported in
  {| rs_enabled := enabled; rs_client := if enabled then Some (from_url url) else None |}.

Definition set_client (s : RedisDecisionStore) (r : R) : RedisDecisionStore :=
  {| rs_enabled := rs_enabled s; rs_client := Some r |}.

Definition write_decision (s : RedisDecisionStore) (result_dict : dict string json) :
    RedisDecisionStore :=
  match rs_enabled s, rs_client s with
  | true, Some client =>
      match jget result_dict "request" (JObj []) with
      | JObj request =>
          match dget request "request_id" with
          | Some (JStr request_id) =>
              set_client s (hset client "nimbusmesh:decisions" request_id (dumps (JObj result_dict)))
          | _ => s
          end
      | _ => s
      end
  | _, _ => s
  end.

Definition write_cache_affinity (s : RedisDecisionStore) (cache_key : string)
    (payload : json) : RedisDecisionStore :=
  match rs_enabled s, rs_client s with
  | true, Some client => set_client s (hset client "nimbusmesh:cache_affinity" cache_key (dumps payload))
  | _, _ => s
  end.

Definition fetch_cache_affinity (s : RedisDecisionStore) (cache_key : string) : result (option json) :=
  match rs_enabled s, rs_client s with
  | true, Some client =>
      match hget client "nimbusmesh:cache_affinity" cache_key with
      | Some value => payload ← loads value; Ok (Some payload)
      | None => Ok None
      end
  | _, _ => Ok None
  end.

(** A constructed store has a client exactly when it is enabled. *)
Definition store_wf (s : RedisDecisionStore) : Prop := rs_enabled s = true ↔ is_Some (rs_client s).

Lemma make_redis_store_wf u e i f : store_wf (make_redis_store u e i f).
Proof.
  unfold store_wf, make_redis_store. simpl.
  destruct (negb _ && i); simpl; split; try done; intros []; done.
Qed.

Lemma write_cache_affinity_wf s k p : store_wf s → store_wf (write_cache_affinity s k p).
Proof. unfold store_wf, write_cache_affinity. intros. repeat case_match; simpl; naive_solver. Qed.

Context `{!LawfulRedis R}.

(** What was written is read back, and only under its own key. *)
Lemma fetch_write_eq s k p : store_wf s → rs_enabled s = true → json_ok p →
  fetch_cache_affinity (write_cache_affinity s k p) k = Ok (Some p).
Proof.
  unfold store_wf, fetch_cache_affinity, write_cache_affinity. intros [Hw _] He Hp.
  destruct (Hw He) as [c Hc]. rewrite He, Hc. simpl. by rewrite He, hget_hset_eq, loads_dumps.
Qed.

Lemma fetch_write_ne s k k' p : k ≠ k' →
  fetch_cache_affinity (write_cache_affinity s k p) k' = fetch_cache_affinity s k'.
Proof.
  unfold fetch_cache_affinity, write_cache_affinity. intros.
  destruct (rs_enabled s) eqn:E, (rs_client s) eqn:E'; simpl; rewrite ?E, ?E'; try done.
  rewrite hget_hset_ne; [done|congruence].
Qed.
End store.

Arguments RedisDecisionStore R : clear implicits.

(** Without a URL the store is off and every operation is a no-op. *)
Lemma disabled_store {R} `{RedisClient R} (s : RedisDecisionStore R) (k : string) (p : json) :
  rs_enabled s = false → write_cache_affinity s k p = s ∧ fetch_cache_affinity s k = Ok None.
Proof. unfold write_cache_affinity, fetch_cache_affinity. by intros ->. Qed.
