(* ===== verification/Cache.v ===== *)
(** * [cache_directory/directory.py]: the KV cache directory

    The [defaultdict] of buckets is an association list in insertion order.  An
    entry's fields are assigned in place by [observe]; the entry objects are
    reachable only through their bucket, so the model replaces the entry.  The
    Redis side store is the interface of JsonText RedisStore.  An operation that raises
    returns [Err]; what it had already changed is not kept. *)

From S2P Require Import Prelude PyFloat PyOrder PyDict PyStr PyJson Types JsonText RedisStore Samples.

Local Open Scope Z_scope.

Record CacheEntry := {
  ce_key : string;
  ce_cluster_id : string;
  ce_pool_id : string;
  ce_size_tokens : Z;
  ce_size_gb : float;
  ce_available_ts : float;
  ce_last_touched : float;
  ce_hit_count : Z
}.

#[export] Instance CacheEntry_eq_dec : EqDecision CacheEntry.
Proof. solve_decision. Defined.

Notation buckets := (dict string (list CacheEntry)).

(** [KVCacheDirectory._key] *)
Definition _key (r : InferenceRequest) : string :=
  req_model_id r +:+ ":" +:+ req_tenant_id r +:+ ":" +:+
  default "None" (req_prefix_signature r).

(** ** Eviction *)

Definition fresh (ttl_s now : float) (e : CacheEntry) : bool :=
  (now - ce_last_touched e <=? ttl_s)%float.

(** One iteration of the loop over the snapshot [list(self.entries.items())]. *)
Definition evict_step (ttl_s now : float) (d : buckets) (kb : string * list CacheEntry) : buckets :=
  let survivors := filter (fun e => fresh ttl_s now e = true) kb.2 in
  match survivors with
  | [] => ddel d kb.1
  | _ :: _ => dset d kb.1 survivors
  end.

Definition evict_entries (ttl_s now : float) (d : buckets) : buckets :=
  fold_left (evict_step ttl_s now) d d.

(** ** Scoring *)

Definition location_bonus (cluster_id pool_id : string) (e : CacheEntry) : float :=
  if String.eqb (ce_cluster_id e) cluster_id && String.eqb (ce_pool_id e) pool_id then of_lit 1.0%float
  else if String.eqb (ce_cluster_id e) cluster_id then of_lit 0.7%float
  else of_lit 0.35%float.

Definition hit_ratio (ttl_s now : float) (cluster_id pool_id : string) (e : CacheEntry) : result float :=
  age ← py_div (now - ce_last_touched e)%float ttl_s;
  let freshness := pymax 0.1 (1.0 - age)%float in
  Ok (pymin 0.95 (freshness * location_bonus cluster_id pool_id e)%float).

Definition score_step (ttl_s now : float) (cluster_id pool_id : string) (prompt_tokens : Z)
    (best : float * Z) (e : CacheEntry) : result (float * Z) :=
  if (now <? ce_available_ts e)%float then Ok best else
  hit ← hit_ratio ttl_s now cluster_id pool_id e;
  reusable ← float_of_int (Z.min (ce_size_tokens e) prompt_tokens);
  saved_tokens ← ftrunc (reusable * hit)%float;
  Ok (if (best.1 <? hit)%float then (hit, saved_tokens) else best).

Definition score_bucket (ttl_s now : float) (cluster_id pool_id : string) (prompt_tokens : Z)
    (bucket : list CacheEntry) : result (float * Z) :=
  best ← foldM (score_step ttl_s now cluster_id pool_id prompt_tokens) (of_lit 0.0%float, 0) bucket;
  Ok (fround 4 best.1, best.2).

(** ** Trimming *)

Definition hot_key (e : CacheEntry) : Z * float := (ce_hit_count e, ce_last_touched e).
Definition hot_ltb : Z * float → Z * float → bool := lex_ltb Z.eqb Z.ltb fltb.

(** The tuples [(hit_count, last_touched, key, entry)], without repeating the
    two fields of the entry. *)
Definition entry_items (d : buckets) : list (string * CacheEntry) :=
  d ≫= fun kb => (fun e => (kb.1, e)) <$> kb.2.

Definition item_key (i : string * CacheEntry) : (Z * float) * string := (hot_key i.2, i.1).
Definition item_ltb : (Z * float) * string → (Z * float) * string → bool :=
  lex_ltb (lex_eqb Z.eqb feqb) hot_ltb str_ltb.
Definition item_eqb : (Z * float) * string → (Z * float) * string → bool :=
  lex_eqb (lex_eqb Z.eqb feqb) String.eqb.

(** Tuples whose first three components tie are compared on the entries, which
    have no order: the comparison raises unless they are equal. *)
Fixpoint has_conflict (items : list (string * CacheEntry)) : bool :=
  match items with
  | [] => false
  | x :: l => existsb (fun y => item_eqb (item_key x) (item_key y)
                                && bool_decide (x.2 ≠ y.2)) l || has_conflict l
  end.

Definition sort_items (items : list (string * CacheEntry)) : result (list (string * CacheEntry)) :=
  if has_conflict items then Err TypeError else Ok (sort_by item_ltb item_key items).

Definition remove_victim (d : buckets) (i : string * CacheEntry) : buckets * Z :=
  let d1 := dtouch [] d i.1 in
  let bucket := dget_or [] d1 i.1 in
  let '(bucket', removed) :=
    if decide (i.2 ∈ bucket) then (remove_first i.2 bucket, 1) else (bucket, 0) in
  let d2 := dset d1 i.1 bucket' in
  (match bucket' with [] => ddel d2 i.1 | _ :: _ => d2 end, removed).

(** The [while] loop pops the sorted items, so it ends with them. *)
Fixpoint trim_loop (max_entries total_entries : Z) (items : list (string * CacheEntry))
    (d : buckets) : buckets :=
  match items with
  | [] => d
  | i :: rest =>
      if max_entries <? total_entries then
        let '(d', removed) := remove_victim d i in
        trim_loop max_entries (total_entries - removed) rest d'
      else d
  end.

Definition total_entries (d : buckets) : Z :=
  fold_right Z.add 0 (map (fun b => Z.of_nat (length b)) (dvalues d)).

Definition trim_entries (max_entries : Z) (d : buckets) : result buckets :=
  if total_entries d <=? max_entries then Ok d else
  items ← sort_items (entry_items d);
  Ok (trim_loop max_entries (total_entries d) items d).

(** ** Observing a completed request *)

(** [int(result.cache_hit_ratio > 0.0)] *)
Definition hit_increment (r : RequestResult) : Z :=
  if (0.0 <? res_cache_hit_ratio r)%float then 1 else 0.

Definition touch_entry (r : RequestResult) (e : CacheEntry) : CacheEntry :=
  {| ce_key := ce_key e; ce_cluster_id := ce_cluster_id e; ce_pool_id := ce_pool_id e;
     ce_size_tokens := Z.max (ce_size_tokens e) (req_prompt_tokens (res_request r));
     ce_size_gb := pymax (ce_size_gb e) (res_memory_gb r * 0.55)%float;
     ce_available_ts := res_completion_ts r; ce_last_touched := res_completion_ts r;
     ce_hit_count := ce_hit_count e + hit_increment r |}.

Definition new_entry (key : string) (r : RequestResult) : CacheEntry :=
  {| ce_key := key; ce_cluster_id := dec_cluster_id (res_decision r);
     ce_pool_id := dec_pool_id (res_decision r);
     ce_size_tokens := req_prompt_tokens (res_request r);
     ce_size_gb := (res_memory_gb r * 0.55)%float;
     ce_available_ts := res_completion_ts r; ce_last_touched := res_completion_ts r;
     ce_hit_count := hit_increment r |}.

Definition at_location (r : RequestResult) (e : CacheEntry) : bool :=
  String.eqb (ce_cluster_id e) (dec_cluster_id (res_decision r)) &&
  String.eqb (ce_pool_id e) (dec_pool_id (res_decision r)).

(** The loop that stops at the first entry of the decision's pool; at the end
    of the bucket a new entry is appended. *)
Fixpoint touch_or_append (key : string) (r : RequestResult) (bucket : list CacheEntry) :
    list CacheEntry :=
  match bucket with
  | [] => [new_entry key r]
  | e :: rest =>
      if at_location r e then touch_entry r e :: rest else e :: touch_or_append key r rest
  end.

Definition cap_bucket (bucket : list CacheEntry) : list CacheEntry :=
  if (4 <? length bucket)%nat then take 4 (sort_by_desc hot_ltb hot_key bucket) else bucket.

Definition observe_entries (r : RequestResult) (d : buckets) : buckets :=
  let key := _key (res_request r) in
  let d1 := dtouch [] d key in
  dset d1 key (cap_bucket (touch_or_append key r (dget_or [] d1 key))).

(** ** Redis payloads *)

Definition entry_json (e : CacheEntry) : json :=
  JObj [("cluster_id", JStr (ce_cluster_id e)); ("pool_id", JStr (ce_pool_id e));
        ("size_tokens", JInt (ce_size_tokens e)); ("size_gb", JFloat (ce_size_gb e));
        ("available_ts", JFloat (ce_available_ts e));
        ("last_touched", JFloat (ce_last_touched e)); ("hit_count", JInt (ce_hit_count e))].

Definition bucket_payload (bucket : list CacheEntry) : json :=
  JObj [("entries", JList (map entry_json bucket))].

Definition hydrate_item (key : string) (item : json) : result (option CacheEntry) :=
  match item with
  | JObj d =>
      size_tokens ← py_int (jget d "size_tokens" (JInt 0));
      size_gb ← py_float (jget d "size_gb" (JFloat (of_lit 0.0%float)));
      available_ts ← py_float (jget d "available_ts" (JFloat (of_lit 0.0%float)));
      last_touched ← py_float (jget d "last_touched" (JFloat (of_lit 0.0%float)));
      hit_count ← py_int (jget d "hit_count" (JInt 0));
      Ok (Some {| ce_key := key; ce_cluster_id := py_str (jget d "cluster_id" (JStr ""));
                  ce_pool_id := py_str (jget d "pool_id" (JStr ""));
                  ce_size_tokens := size_tokens; ce_size_gb := size_gb;
                  ce_available_ts := available_ts; ce_last_touched := last_touched;
                  ce_hit_count := hit_count |})
  | _ => Ok None
  end.

Definition hydrate_payload (key : string) (payload : json) : result (list CacheEntry) :=
  if negb (truthy payload) then Ok [] else
  match payload with
  | JObj d =>
      match jget d "entries" (JList []) with
      | JList items => hydrated ← mapR (hydrate_item key) items; Ok (omap (M := list) id hydrated)
      | _ => Ok []
      end
  | _ => Err AttributeError
  end.

(** ** The directory *)

Section directory.
Context {R : Type} `{RedisClient R}.

Record KVCacheDirectory := {
  cd_ttl_s : float;
  cd_max_entries : Z;
  cd_entries : buckets;
  cd_redis_store : RedisDecisionStore R
}.

Definition make_directory (ttl_s : float) (max_entries : Z) (store : RedisDecisionStore R) :
    KVCacheDirectory :=
  {| cd_ttl_s := ttl_s; cd_max_entries := max_entries; cd_entries := [];
     cd_redis_store := store |}.

Definition set_entries (d : KVCacheDirectory) (es : buckets) : KVCacheDirectory :=
  {| cd_ttl_s := cd_ttl_s d; cd_max_entries := cd_max_entries d; cd_entries := es;
     cd_redis_store := cd_redis_store d |}.

Definition set_redis_store (d : KVCacheDirectory) (s : RedisDecisionStore R) : KVCacheDirectory :=
  {| cd_ttl_s := cd_ttl_s d; cd_max_entries := cd_max_entries d; cd_entries := cd_entries d;
     cd_redis_store := s |}.

Definition evict_stale (d : KVCacheDirectory) (now : float) : KVCacheDirectory :=
  set_entries d (evict_entries (cd_ttl_s d) now (cd_entries d)).

Definition _persist_to_redis (d : KVCacheDirectory) (key : string) : KVCacheDirectory :=
  if negb (rs_enabled (cd_redis_store d)) then d else
  set_redis_store d (write_cache_affinity (cd_redis_store d) key
                       (bucket_payload (dget_or [] (cd_entries d) key))).

Definition _hydrate_from_redis (d : KVCacheDirectory) (r : InferenceRequest) :
    result KVCacheDirectory :=
  if negb (rs_enabled (cd_redis_store d)) then Ok d else
  payload ← fetch_cache_affinity (cd_redis_store d) (_key r);
  match payload with
  | None => Ok d
  | Some payload =>
      hydrated ← hydrate_payload (_key r) payload;
      Ok (match hydrated with
          | [] => d
          | _ :: _ => set_entries d (dset (cd_entries d) (_key r) hydrated)
          end)
  end.

(** The directory after a lookup, and the answer. *)
Definition score (d : KVCacheDirectory) (r : InferenceRequest) (cluster_id pool_id : string)
    (now : float) : result (KVCacheDirectory * (float * Z)) :=
  let d1 := evict_stale d now in
  d2 ← match dget_or [] (cd_entries d1) (_key r) with
       | [] => _hydrate_from_redis d1 r
       | _ :: _ => Ok d1
       end;
  best ← score_bucket (cd_ttl_s d2) now cluster_id pool_id (req_prompt_tokens r)
           (dget_or [] (cd_entries d2) (_key r));
  Ok (d2, best).

Definition _trim (d : KVCacheDirectory) : result KVCacheDirectory :=
  es ← trim_entries (cd_max_entries d) (cd_entries d); Ok (set_entries d es).

Definition observe (d : KVCacheDirectory) (r : RequestResult) : result KVCacheDirectory :=
  if negb (res_admitted r) then Ok d else
  let d1 := set_entries d (observe_entries r (cd_entries d)) in
  _trim (_persist_to_redis d1 (_key (res_request r))).

Definition reserved_gb (d : KVCacheDirectory) (cluster_id pool_id : string) (now : float) :
    KVCacheDirectory * float :=
  let d1 := evict_stale d now in
  (d1, fold_left (fun total bucket =>
         fold_left (fun total e =>
             if String.eqb (ce_cluster_id e) cluster_id && String.eqb (ce_pool_id e) pool_id
             then (total + ce_size_gb e)%float else total) bucket total)
       (dvalues (cd_entries d1)) (of_lit 0.0%float)).

Definition offload_recommendation (d : KVCacheDirectory) (cluster_id pool_id : string)
    (memory_pressure now : float) : KVCacheDirectory * string :=
  let '(d1, reserved) := reserved_gb d cluster_id pool_id now in
  (d1, if (0.85 <? memory_pressure)%float && (8.0 <? reserved)%float then "offload-cold-cache"
       else if (0.7 <? memory_pressure)%float then "replicate-hot-prefix-only"
       else "retain").

Definition snapshot (d : KVCacheDirectory) (now : float) : KVCacheDirectory * json :=
  let d1 := evict_stale d now in
  (d1, JObj [("entries", JObj (map (fun kb =>
      (kb.1, JList (map (fun e =>
         JObj [("cluster_id", JStr (ce_cluster_id e)); ("pool_id", JStr (ce_pool_id e));
               ("size_tokens", JInt (ce_size_tokens e));
               ("size_gb", JFloat (fround 4 (ce_size_gb e)));
               ("available_ts", JFloat (ce_available_ts e));
               ("last_touched", JFloat (ce_last_touched e));
               ("hit_count", JInt (ce_hit_count e))]) kb.2))) (cd_entries d1)))]).
End directory.

Arguments KVCacheDirectory R : clear implicits.

(** ** Eviction: what is left *)

(** The entries that are still fresh, the buckets that still have one. *)
Definition fresh_entries (ttl_s now : float) (d : buckets) : buckets :=
  omap (fun kb => match filter (fun e => fresh ttl_s now e = true) kb.2 with
                  | [] => None
                  | (_ :: _) as s => Some (kb.1, s)
                  end) d.

Lemma fresh_entries_keys t n (d : buckets) k : k ∈ dkeys (fresh_entries t n d) → k ∈ dkeys d.
Proof.
  unfold dkeys, fresh_entries. intros [[k' s] [-> H]]%list_elem_of_fmap.
  apply list_elem_of_omap in H as ([k1 b] & Hin & Hf). simpl in *.
  case_match; [done|]. injection Hf as <- <-. apply list_elem_of_fmap. by exists (k1, b).
Qed.

Lemma dset_app_r {V} (d1 d2 : dict string V) k v : k ∉ dkeys d1 → dset (d1 ++ d2) k v = d1 ++ dset d2 k v.
Proof.
  induction d1 as [|[k1 v1] d1 IH]; simpl; [done|]. intros Hk.
  rewrite decide_False by set_solver. rewrite IH by set_solver. done.
Qed.

Lemma ddel_app_r {V} (d1 d2 : dict string V) k : k ∉ dkeys d1 → ddel (d1 ++ d2) k = d1 ++ ddel d2 k.
Proof.
  induction d1 as [|[k1 v1] d1 IH]; simpl; [done|]. intros Hk.
  rewrite decide_False by set_solver. rewrite IH by set_solver. done.
Qed.

Lemma evict_fold t n (d0 d : buckets) : dict_wf (d0 ++ d) →
  fold_left (evict_step t n) d (d0 ++ d) = d0 ++ fresh_entries t n d.
Proof.
  revert d0. induction d as [|[k b] d IH]; intros d0 Hwf; simpl; [done|].
  assert (Hk : k ∉ dkeys d0).
  { unfold dict_wf, dkeys in Hwf. rewrite map_app in Hwf. simpl in Hwf.
    apply NoDup_app in Hwf as (_ & Hd & _). intros Hin. apply (Hd k Hin). set_solver. }
  unfold fresh_entries. simpl. unfold evict_step at 2. simpl.
  destruct (filter _ b) as [|e s] eqn:E.
  - rewrite ddel_app_r by done. simpl. rewrite decide_True by done.
    rewrite IH; [done|]. eapply dict_wf_sublist; [|exact Hwf]. apply sublist_app; [done|by apply sublist_cons].
  - rewrite dset_app_r by done. simpl. rewrite decide_True by done.
    change ((k, e :: s) :: d) with ([(k, e :: s)] ++ d). rewrite app_assoc, IH.
    + by rewrite <- app_assoc.
    + revert Hwf. unfold dict_wf, dkeys. by rewrite !map_app, <- app_assoc.
Qed.

Lemma evict_entries_fresh t n (d : buckets) : dict_wf d → evict_entries t n d = fresh_entries t n d.
Proof. apply (evict_fold t n []). Qed.

(** ** Scoring: bounds and optimality *)

Section scoring.
Context (ttl now : float) (c p : string) (prompt : Z).
Context (Hfin : finite ttl = true) (Httl : (0.0 < ttl)%float) (Hprompt : 0 <= prompt <= 2 ^ 53).

Definition visible (e : CacheEntry) : bool := negb (now <? ce_available_ts e)%float.

Lemma location_bonus_cases e : location_bonus c p e = of_lit 1.0%float ∨
  location_bonus c p e = of_lit 0.7%float ∨ location_bonus c p e = of_lit 0.35%float.
Proof. unfold location_bonus. repeat case_match; auto. Qed.

Lemma ttl_nonzero : (ttl =? 0.0)%float = false.
Proof using Hfin Httl.
  apply not_true_iff_false. intros E. apply feq_eq in E; [|exact (flt_not_nan_r _ _ Httl)].
  rewrite E in Httl. rewrite flt_irrefl in Httl. discriminate Httl.
Qed.

Lemma hit_ratio_bounds e : ∃ h, hit_ratio ttl now c p e = Ok h ∧
  (0.0 < h)%float ∧ (h <= 0.95)%float.
Proof using Hfin Httl.
  unfold hit_ratio, py_div. rewrite ttl_nonzero. simpl.
  eexists; split; [reflexivity|].
  set (f := pymax 0.1 _). assert (Hf : (0.1 <= f)%float) by (apply pymax_ge_l; nn).
  assert (Hb : finite (location_bonus c p e) = true ∧ (0.35 <= location_bonus c p e)%float).
  { destruct (location_bonus_cases e) as [->|[->| ->]]; split; flit. }
  destruct Hb as [Hb1 Hb2].
  assert (Hbp : (0.0 < location_bonus c p e)%float) by (eapply flt_of_le; [|exact Hb2]; flit).
  assert (Hf0 : (0.0 <= f)%float) by (eapply fle_trans; [|exact Hf]; flit).
  pose proof (fmul_nonneg_pos f _ Hb1 Hf0 Hbp) as H0.
  split; [|apply pymin_le_l; nn].
  apply (flt_le_trans _ 0.03%float); [flit|]. apply pymin_glb; [flit|].
  apply (fle_trans _ (0.1 * location_bonus c p e)%float).
  { destruct (location_bonus_cases e) as [->|[->| ->]]; flit. }
  apply fmul_mono_r; [exact Hf|exact (flt_le _ _ Hbp)| |exact (fle_not_nan_r _ _ H0)].
  apply fmul_finite_not_nan; [reflexivity|exact Hb1].
Qed.

(** [int(min(size, prompt) * hit)] neither raises nor exceeds the prompt. *)
Lemma saved_bounds n h : 0 <= n → (0.0 < h)%float → (h <= 0.95)%float →
  ∃ x s, float_of_int (Z.min n prompt) = Ok x ∧ ftrunc (x * h)%float = Ok s ∧
         0 <= s <= Z.min n prompt.
Proof using Hprompt.
  intros Hn H0 H1. set (m := Z.min n prompt).
  assert (Hm : 0 <= m <= 2 ^ 53) by lia.
  assert (Hfm : finite (of_Z m) = true) by (rewrite of_Z_exact by lia; reflexivity).
  assert (Hfh : finite h = true).
  { apply (finite_between h 0.0 0.95); [reflexivity|reflexivity|exact (flt_le _ _ H0)|exact H1]. }
  unfold float_of_int. rewrite Hfm. pose proof (of_Z_nonneg m ltac:(lia)) as Hx.
  destruct (ftrunc_bounds (of_Z m * h)%float m Hm) as (k & Hk & Hkm).
  - apply fmul_nonneg_fin; [exact Hfm|exact Hfh|exact Hx|exact (flt_le _ _ H0)].
  - apply fmul_le_l; [apply of_Z_wf|exact Hfm|exact Hfh|exact Hx|].
    eapply fle_trans; [exact H1|flit].
  - by exists (of_Z m), k.
Qed.

(** An entry scored on its own: the ratio and the tokens it saves. *)
Definition entry_score (e : CacheEntry) : result (float * Z) :=
  h ← hit_ratio ttl now c p e;
  x ← float_of_int (Z.min (ce_size_tokens e) prompt);
  s ← ftrunc (x * h)%float;
  Ok (h, s).

Lemma entry_score_bounds e : 0 <= ce_size_tokens e → ∃ h s, entry_score e = Ok (h, s) ∧
  (0.0 < h)%float ∧ (h <= 0.95)%float ∧ 0 <= s <= prompt.
Proof using Hfin Httl Hprompt.
  intros Hn. destruct (hit_ratio_bounds e) as (h & Hh & H0 & H1).
  destruct (saved_bounds (ce_size_tokens e) h Hn H0 H1) as (x & s & Hx & Hs & Hb).
  exists h, s. unfold entry_score. rewrite Hh. simpl. rewrite Hx. simpl. rewrite Hs. simpl.
  split; [reflexivity|]. split; [exact H0|]. split; [exact H1|lia].
Qed.

Lemma score_step_alt best e : score_step ttl now c p prompt best e =
  if visible e then
    hs ← entry_score e; Ok (if (best.1 <? hs.1)%float then hs else best)
  else Ok best.
Proof.
  unfold score_step, visible, entry_score. destruct (now <? ce_available_ts e)%float; simpl; [done|].
  destruct (hit_ratio _ _ _ _ _) as [h|]; simpl; [|done].
  destruct (float_of_int _) as [x|]; simpl; [|done]. by destruct (ftrunc _).
Qed.

(** The loop's answer: the best visible entry, or [start] when none beats it. *)
Lemma score_fold (l : list CacheEntry) (start : float * Z) :
  Forall (fun e => 0 <= ce_size_tokens e) l → start.1 ≠ NaN →
  ∃ best, foldM (score_step ttl now c p prompt) start l = Ok best ∧
    (start.1 <= best.1)%float ∧
    (∀ e hs, e ∈ l → visible e = true → entry_score e = Ok hs → (hs.1 <= best.1)%float) ∧
    (best = start ∨ ∃ e, e ∈ l ∧ visible e = true ∧ entry_score e = Ok best).
Proof using Hfin Httl Hprompt.
  intros Hl. revert start. induction Hl as [|e l He Hl IH]; intros start Hs; simpl.
  { exists start. split; [reflexivity|]. split; [by apply fle_refl|]. split; [set_solver|by left]. }
  rewrite score_step_alt. destruct (visible e) eqn:Ev; simpl.
  2:{ destruct (IH start Hs) as (best & Hb & H1 & H2 & H3). exists best.
      split; [exact Hb|]. split; [exact H1|]. split.
      - intros e' hs [->|Hin]%elem_of_cons Hv; [congruence|by apply H2].
      - destruct H3 as [->|(e' & ? & ? & ?)]; [by left|]. right. exists e'. set_solver. }
  destruct (entry_score_bounds e He) as (h & s & Hes & H0 & H1 & _). rewrite Hes. simpl.
  pose proof (flt_not_nan_r _ _ H0) as Hh.
  set (start' := if (start.1 <? h)%float then (h, s) else start).
  assert (Hs' : start'.1 ≠ NaN ∧ (start.1 <= start'.1)%float ∧ (h <= start'.1)%float).
  { unfold start'. destruct (start.1 <? h)%float eqn:E; simpl.
    - split; [exact Hh|]. split; [exact (flt_le _ _ E)|exact (fle_refl _ Hh)].
    - split; [exact Hs|]. split; [exact (fle_refl _ Hs)|].
      apply flt_nle in E; [exact E|exact Hs|exact Hh]. }
  destruct Hs' as (Hn' & Hle & Hhe).
  destruct (IH start' Hn') as (best & Hb & G1 & G2 & G3). exists best.
  split; [exact Hb|]. split; [exact (fle_trans _ _ _ Hle G1)|]. split.
  - intros e' hs [->|Hin]%elem_of_cons Hv Hsc; [|by apply (G2 e')].
    rewrite Hes in Hsc. injection Hsc as <-. exact (fle_trans _ _ _ Hhe G1).
  - destruct G3 as [->|(e' & ? & ? & ?)]; [|right; exists e'; set_solver].
    unfold start'. destruct (start.1 <? h)%float; [right; exists e; set_solver|by left].
Qed.

Lemma score_fold_bounds (l : list CacheEntry) best :
  Forall (fun e => 0 <= ce_size_tokens e) l →
  foldM (score_step ttl now c p prompt) (of_lit 0.0%float, 0) l = Ok best →
  (0.0 <= best.1)%float ∧ (best.1 <= 0.95)%float ∧ 0 <= best.2 <= prompt.
Proof using Hfin Httl Hprompt.
  intros Hl Hf. destruct (score_fold l (of_lit 0.0%float, 0) Hl) as (b & Hb & H1 & _ & H3); [nn|].
  rewrite Hf in Hb. injection Hb as <-. destruct H3 as [->|(e & He & _ & Hs)].
  { simpl. split; [flit|]. split; [flit|lia]. }
  rewrite Forall_forall in Hl. destruct (entry_score_bounds e (Hl e He)) as (h & s & Hes & G0 & G1 & G2).
  rewrite Hs in Hes. injection Hes as ->. simpl. split; [exact (flt_le _ _ G0)|]. by split.
Qed.

Lemma score_fold_invisible (l : list CacheEntry) start :
  Forall (fun e => visible e = false) l →
  foldM (score_step ttl now c p prompt) start l = Ok start.
Proof.
  induction 1 as [|e l He _ IH]; simpl; [done|]. rewrite score_step_alt, He. done.
Qed.
End scoring.

(** ** The entries of a directory, and removing one *)

Lemma entry_items_cons k b (d : buckets) :
  entry_items ((k, b) :: d) = (map (fun e => (k, e)) b) ++ entry_items d.
Proof. done. Qed.

#[global] Arguments entry_items : simpl never.

Lemma entry_items_get (d : buckets) k b : dict_wf d → dget d k = Some b →
  entry_items d ≡ₚ map (fun e => (k, e)) b ++ entry_items (ddel d k).
Proof.
  induction d as [|[k1 b1] d IH]; simpl; [done|]. intros Hwf Hg.
  case_decide as Hk; [injection Hg as ->; subst k1; by rewrite entry_items_cons|].
  rewrite !entry_items_cons. inversion Hwf; subst. rewrite (IH H2 Hg).
  rewrite !app_assoc. f_equiv. apply Permutation_app_comm.
Qed.

Lemma ddel_set (d : buckets) k b : ddel (dset d k b) k = ddel d k.
Proof.
  induction d as [|[k1 b1] d IH]; simpl; [by rewrite decide_True|].
  case_decide; simpl; [by rewrite decide_True|by rewrite decide_False, IH].
Qed.

Lemma entry_items_set (d : buckets) k b : dict_wf d →
  entry_items (dset d k b) ≡ₚ map (fun e => (k, e)) b ++ entry_items (ddel d k).
Proof.
  intros Hwf. rewrite (entry_items_get (dset d k b) k b), ddel_set; [done|by apply dict_wf_set|].
  apply dget_set_eq.
Qed.

Lemma entry_items_elem (d : buckets) k e :
  (k, e) ∈ entry_items d ↔ ∃ b, (k, b) ∈ d ∧ e ∈ b.
Proof.
  unfold entry_items. rewrite list_elem_of_bind. split.
  - intros ([k1 b] & Hin & Hd). simpl in Hin. apply list_elem_of_fmap in Hin as (e' & [= <- <-] & He). eauto.
  - intros (b & Hd & He). exists (k, b). split; [|done]. simpl. apply list_elem_of_fmap. eauto.
Qed.

Lemma total_entries_items (d : buckets) : total_entries d = Z.of_nat (length (entry_items d)).
Proof.
  unfold total_entries. induction d as [|[k b] d IH]; [done|].
  simpl. rewrite IH, entry_items_cons, length_app, length_map. lia.
Qed.

Lemma Forall_sublist {A} (P : A → Prop) (l k : list A) : k `sublist_of` l → Forall P l → Forall P k.
Proof. rewrite !Forall_forall. intros Hs Hl x Hx. by apply Hl, (elem_of_sublist k). Qed.

(** A directory keeps distinct keys and no empty bucket. *)
Definition nonempty_buckets (d : buckets) : Prop := Forall (fun kb => kb.2 ≠ []) d.

Lemma nonempty_set d k b : b ≠ [] → nonempty_buckets d → nonempty_buckets (dset d k b).
Proof.
  unfold nonempty_buckets. rewrite !Forall_forall. intros Hb Hd [k1 b1] Hin.
  apply dset_elem in Hin as [[= -> ->]|Hin]; [done|by apply (Hd _ Hin)].
Qed.

Lemma nonempty_del d k : nonempty_buckets d → nonempty_buckets (ddel d k).
Proof. by apply Forall_sublist, ddel_sublist. Qed.

Section remove.
Context (d : buckets) (k : string) (e : CacheEntry).
Context (Hwf : dict_wf d) (Hne : nonempty_buckets d) (Hin : (k, e) ∈ entry_items d).

(** Popping an item that is present removes it and nothing else. *)
Lemma remove_victim_spec : ∃ b, dget d k = Some b ∧ e ∈ b ∧
  remove_victim d (k, e) = (match remove_first e b with
                            | [] => ddel d k
                            | b' => dset d k b'
                            end, 1).
Proof using Hwf Hin.
  apply entry_items_elem in Hin as (b & Hb & He).
  pose proof (elem_dget d k b Hwf Hb) as Hg. exists b. split; [done|]. split; [done|].
  unfold remove_victim, dtouch, dget_or. simpl. rewrite Hg. simpl. rewrite Hg. simpl.
  rewrite decide_True by done. destruct (remove_first e b) eqn:E; simpl; by rewrite ?ddel_set.
Qed.

Lemma remove_victim_wf : dict_wf (remove_victim d (k, e)).1 ∧
  nonempty_buckets (remove_victim d (k, e)).1.
Proof using Hwf Hne Hin.
  destruct remove_victim_spec as (b & Hg & He & ->). simpl.
  destruct (remove_first e b) eqn:E; split;
    auto using dict_wf_del, dict_wf_set, nonempty_del, nonempty_set.
Qed.

Lemma remove_victim_items : entry_items d ≡ₚ (k, e) :: entry_items (remove_victim d (k, e)).1.
Proof using Hwf Hne Hin.
  destruct remove_victim_spec as (b & Hg & He & ->). simpl.
  rewrite (entry_items_get d k b Hwf Hg), (remove_first_perm e b He) at 1. simpl.
  constructor. destruct (remove_first e b) eqn:E; [done|].
  by rewrite entry_items_set.
Qed.
End remove.

(** The loop pops victims in order until the total is within the limit. *)
Lemma trim_loop_spec m items (d : buckets) :
  dict_wf d → nonempty_buckets d → items ≡ₚ entry_items d →
  let d' := trim_loop m (Z.of_nat (length items)) items d in
  dict_wf d' ∧ nonempty_buckets d' ∧
  entry_items d' ≡ₚ drop (Z.to_nat (Z.of_nat (length items) - m)) items.
Proof.
  revert d. induction items as [|[k e] items IH]; intros d Hwf Hne Hp; simpl.
  { rewrite drop_nil. by rewrite <- Hp. }
  destruct (Z.ltb_spec m (Z.of_nat (S (length items)))) as [Hm|Hm].
  - assert (Hin : (k, e) ∈ entry_items d) by (rewrite <- Hp; set_solver).
    pose proof (remove_victim_wf d k e Hwf Hne Hin) as [Hwf' Hne'].
    pose proof (remove_victim_items d k e Hwf Hne Hin) as Hp'.
    destruct (remove_victim_spec d k e Hwf Hin) as (b & _ & _ & Hr).
    destruct (remove_victim d (k, e)) as [d' n] eqn:Ed. injection Hr as _ ->. simpl in *.
    replace (Z.of_nat (S (length items)) - 1) with (Z.of_nat (length items)) by lia.
    assert (Hq : items ≡ₚ entry_items d') by (apply (Permutation_cons_inv (a := (k, e))); by rewrite Hp).
    destruct (IH d' Hwf' Hne' Hq) as (G1 & G2 & G3). split; [done|]. split; [done|].
    rewrite G3. replace (Z.to_nat (Z.of_nat (S (length items)) - m))
      with (S (Z.to_nat (Z.of_nat (length items) - m))) by lia. done.
  - replace (Z.to_nat (Z.of_nat (S (length items)) - m)) with 0%nat by lia. by rewrite <- Hp.
Qed.

Lemma trim_entries_spec m (d d' : buckets) :
  dict_wf d → nonempty_buckets d → trim_entries m d = Ok d' →
  dict_wf d' ∧ nonempty_buckets d' ∧
  entry_items d' ≡ₚ drop (Z.to_nat (total_entries d - m))
                      (sort_by item_ltb item_key (entry_items d)).
Proof.
  intros Hwf Hne. unfold trim_entries. destruct (Z.leb_spec (total_entries d) m) as [Hm|Hm].
  - intros [= <-]. replace (Z.to_nat (total_entries d - m)) with 0%nat by lia. simpl.
    by rewrite sort_by_perm.
  - unfold sort_items. destruct (has_conflict _); [done|]. simpl. intros [= <-].
    rewrite total_entries_items, <- (sort_by_length item_ltb item_key (entry_items d)).
    apply trim_loop_spec; try done. apply sort_by_perm.
Qed.

(** ** The directory invariant *)

Definition location (e : CacheEntry) : string * string := (ce_cluster_id e, ce_pool_id e).

(** A bucket holds at most four entries, one per pool, all filed under its key. *)
Record bucket_inv (k : string) (b : list CacheEntry) : Prop := {
  bi_nonempty : b ≠ [];
  bi_size : (length b <= 4)%nat;
  bi_locations : NoDup (map location b);
  bi_keys : Forall (fun e => ce_key e = k) b
}.

Record entries_inv (d : buckets) : Prop := {
  ei_wf : dict_wf d;
  ei_buckets : Forall (fun kb => bucket_inv kb.1 kb.2) d
}.

Lemma entries_inv_nonempty d : entries_inv d → nonempty_buckets d.
Proof. intros []. eapply Forall_impl; [done|]. by intros ? []. Qed.

Lemma entries_inv_nil : entries_inv [].
Proof. split; [apply dict_wf_nil|constructor]. Qed.

Lemma entries_inv_set d k b : bucket_inv k b → entries_inv d → entries_inv (dset d k b).
Proof.
  intros Hb []. split; [by apply dict_wf_set|]. rewrite Forall_forall in *.
  intros [k1 b1] Hin. by apply dset_elem in Hin as [[= -> ->]|Hin]; [|apply ei_buckets0].
Qed.

Lemma entries_inv_del d k : entries_inv d → entries_inv (ddel d k).
Proof.
  intros []. split; [by apply dict_wf_del|]. by apply (Forall_sublist _ d), ei_buckets0; apply ddel_sublist.
Qed.

Lemma bucket_inv_sublist k b b' : b' ≠ [] → b' `sublist_of` b → bucket_inv k b → bucket_inv k b'.
Proof.
  intros Hne Hs []. split; [done| | |].
  - pose proof (sublist_length _ _ Hs). lia.
  - apply (sublist_NoDup _ (map location b)); [done|]. by apply (fmap_sublist location).
  - by eapply Forall_sublist.
Qed.

Lemma entries_inv_get d k b : entries_inv d → dget d k = Some b → bucket_inv k b.
Proof. intros [_ H] Hg%dget_elem. rewrite Forall_forall in H. by apply (H _ Hg). Qed.

Lemma evict_entries_inv t n d : entries_inv d → entries_inv (evict_entries t n d).
Proof.
  intros Hinv. unfold evict_entries.
  assert (Hsub : Forall (fun kb => bucket_inv kb.1 kb.2) d) by apply Hinv.
  revert Hinv. generalize d at 1 3 as acc. induction d as [|[k b] d IH]; intros acc Hacc; [done|].
  simpl. apply Forall_cons in Hsub as [Hb Hd]. apply IH; [done|].
  unfold evict_step. simpl. destruct (filter _ b) eqn:E; [by apply entries_inv_del|].
  apply entries_inv_set; [|done]. apply (bucket_inv_sublist k b); [done| |done].
  rewrite <- E. apply sublist_filter.
Qed.

Lemma location_inj_at r e : at_location r e = true ↔
  location e = (dec_cluster_id (res_decision r), dec_pool_id (res_decision r)).
Proof.
  unfold at_location, location. rewrite andb_true_iff, !String.eqb_eq. split; [by intros [-> ->]|by intros [= -> ->]].
Qed.

Lemma touch_or_append_locations key r b :
  map location (touch_or_append key r b) =
  let l := (dec_cluster_id (res_decision r), dec_pool_id (res_decision r)) in
  if decide (l ∈ map location b) then map location b else map location b ++ [l].
Proof.
  simpl. induction b as [|e b IH]; simpl; [done|]. destruct (at_location r e) eqn:E.
  - apply location_inj_at in E. rewrite decide_True by set_solver. simpl. done.
  - apply not_true_iff_false in E. rewrite location_inj_at in E. simpl. rewrite IH.
    repeat case_decide; try done; set_solver.
Qed.

Lemma touch_or_append_keys key r b : Forall (fun e => ce_key e = key) b →
  Forall (fun e => ce_key e = key) (touch_or_append key r b).
Proof. induction 1; simpl; [by repeat constructor|]. by destruct (at_location r x); constructor. Qed.

Lemma touch_or_append_nonempty key r b : touch_or_append key r b ≠ [].
Proof. destruct b; simpl; [done|]. by case_match. Qed.

Lemma cap_bucket_inv k b : b ≠ [] → NoDup (map location b) →
  Forall (fun e => ce_key e = k) b → bucket_inv k (cap_bucket b).
Proof.
  intros Hne Hn Hk. unfold cap_bucket. destruct (Nat.ltb_spec 4 (length b)); [|by split].
  set (s := sort_by_desc hot_ltb hot_key b).
  assert (Hp : s ≡ₚ b) by apply sort_by_desc_perm. split.
  - destruct s; [apply Permutation_nil_l in Hp; congruence|done].
  - rewrite length_take. lia.
  - apply (sublist_NoDup _ (map location s)); [|apply (fmap_sublist location), sublist_take].
    by rewrite (Permutation_map location Hp).
  - apply (Forall_sublist _ s); [apply sublist_take|]. by rewrite Hp.
Qed.

Lemma observe_entries_inv r d : entries_inv d → entries_inv (observe_entries r d).
Proof.
  intros Hinv. unfold observe_entries. set (key := _key (res_request r)).
  unfold dtouch, dget_or. destruct (dget d key) as [b|] eqn:E.
  - rewrite E. simpl. apply entries_inv_set; [|done].
    destruct (entries_inv_get d key b Hinv E) as [H1 H2 H3 H4].
    apply cap_bucket_inv; [apply touch_or_append_nonempty| |by apply touch_or_append_keys].
    rewrite touch_or_append_locations. simpl. case_decide; [done|].
    apply NoDup_app. split; [done|]. split; [set_solver|apply NoDup_singleton].
  - rewrite dget_set_eq. simpl.
    replace (dset (dset d key []) key (cap_bucket [new_entry key r]))
      with (dset d key [new_entry key r]).
    + apply entries_inv_set; [|done]. repeat split; try done; simpl; [lia|apply NoDup_singleton|by repeat constructor].
    + unfold cap_bucket. simpl. clear. induction d as [|[k1 b1] d IH]; simpl; [by rewrite decide_True|].
      case_decide; simpl; [by rewrite decide_True|]. by rewrite decide_False, IH.
Qed.

Lemma trim_loop_inv m total items d : entries_inv d → entries_inv (trim_loop m total items d).
Proof.
  revert total d. induction items as [|[k e] items IH]; intros total d Hinv; simpl; [done|].
  case_match; [|done]. destruct (remove_victim d (k, e)) as [d' n] eqn:E. apply IH.
  revert E. unfold remove_victim, dtouch, dget_or. simpl.
  destruct (dget d k) as [b|] eqn:Eg; simpl.
  - rewrite Eg. simpl. pose proof (entries_inv_get d k b Hinv Eg) as Hb.
    assert (Hgo : ∀ b', b' `sublist_of` b →
      entries_inv (match b' with [] => ddel (dset d k b') k | _ :: _ => dset d k b' end)).
    { intros b' Hs. destruct b' eqn:Eb; [rewrite ddel_set; by apply entries_inv_del|].
      apply entries_inv_set; [|done]. by eapply bucket_inv_sublist. }
    destruct (decide (e ∈ b)); intros [= <- _]; apply Hgo; [apply remove_first_sublist|done].
  - rewrite dget_set_eq. cbn [default]. destruct (decide (e ∈ [])) as [Hin|_]; [set_solver|].
    intros [= <- _]. rewrite !ddel_set. by apply entries_inv_del.
Qed.

Lemma trim_entries_inv m d d' : trim_entries m d = Ok d' → entries_inv d → entries_inv d'.
Proof.
  unfold trim_entries. case_match; [by intros [= <-]|]. intros H' ?. inv_ok. by apply trim_loop_inv.
Qed.

(** ** Redis round trip *)

Lemma hydrate_entry_json key e : ce_key e = key → hydrate_item key (entry_json e) = Ok (Some e).
Proof. destruct e; simpl. by intros ->. Qed.

Lemma hydrate_bucket_payload key b : Forall (fun e => ce_key e = key) b →
  hydrate_payload key (bucket_payload b) = Ok b.
Proof.
  intros Hk. unfold hydrate_payload, bucket_payload. simpl.
  assert (mapR (hydrate_item key) (map entry_json b) = Ok (map Some b)) as ->.
  { induction Hk as [|e b He Hb IH]; [done|]. cbn [map mapR]. rewrite (hydrate_entry_json key e He). simpl. by rewrite IH. }
  simpl. f_equal. clear. induction b as [|e b IH]; [done|]. exact (f_equal (cons e) IH).
Qed.

(** ** What the directory promises *)

Lemma fresh_entries_cons t n k b (d : buckets) : fresh_entries t n ((k, b) :: d) =
  match filter (fun e => fresh t n e = true) b with
  | [] => fresh_entries t n d
  | e :: s => (k, e :: s) :: fresh_entries t n d
  end.
Proof. unfold fresh_entries at 1. simpl. by destruct (filter _ b). Qed.

#[global] Arguments fresh_entries : simpl never.

Lemma fresh_entries_get t n (d : buckets) k : dict_wf d →
  dget_or [] (fresh_entries t n d) k = filter (fun e => fresh t n e = true) (dget_or [] d k).
Proof.
  unfold dget_or. induction d as [|[k1 b1] d IH]; simpl; [done|]. intros Hwf. inversion Hwf; subst.
  rewrite fresh_entries_cons. destruct (filter _ b1) as [|e s] eqn:E; simpl.
  - destruct (decide (k = k1)) as [->|Hne]; simpl; [|by apply IH].
    rewrite E. assert (dget (fresh_entries t n d) k1 = None) as ->; [|done].
    apply dget_None. by intros ?%fresh_entries_keys.
  - destruct (decide (k = k1)); simpl; [done|by apply IH].
Qed.

Lemma evict_entries_get t n (d : buckets) k : dict_wf d →
  dget_or [] (evict_entries t n d) k = filter (fun e => fresh t n e = true) (dget_or [] d k).
Proof. intros. rewrite evict_entries_fresh by done. by apply fresh_entries_get. Qed.

Lemma fresh_entries_idem t n (d : buckets) : fresh_entries t n (fresh_entries t n d) = fresh_entries t n d.
Proof.
  induction d as [|[k b] d IH]; [done|]. rewrite fresh_entries_cons.
  destruct (filter _ b) as [|e s] eqn:E; [exact IH|]. rewrite fresh_entries_cons, IH.
  assert (filter (fun e => fresh t n e = true) (e :: s) = e :: s) as ->; [|done].
  rewrite <- E, list_filter_filter. apply list_filter_iff. tauto.
Qed.

(** A store that is never consulted, for witnesses. *)
Definition no_store : RedisDecisionStore (gmap (string * string) string) :=
  {| rs_enabled := false; rs_client := None |}.

Section promises.
Context {R : Type} `{RedisClient R}.
Implicit Types (d : KVCacheDirectory R) (r : InferenceRequest).

Lemma score_disabled d r c p now : rs_enabled (cd_redis_store d) = false →
  dict_wf (cd_entries d) →
  score d r c p now =
    (best ← score_bucket (cd_ttl_s d) now c p (req_prompt_tokens r)
       (filter (fun e => fresh (cd_ttl_s d) now e = true) (dget_or [] (cd_entries d) (_key r)));
     Ok (evict_stale d now, best)).
Proof.
  intros Hoff Hwf. unfold score. simpl.
  rewrite (evict_entries_get (cd_ttl_s d) now (cd_entries d) (_key r) Hwf).
  set (b := filter _ _). unfold _hydrate_from_redis. simpl. rewrite Hoff. simpl.
  replace (match b with [] => Ok (evict_stale d now) | _ :: _ => Ok (evict_stale d now) end)
    with (Ok (evict_stale d now)) by (by destruct b).
  simpl. rewrite (evict_entries_get (cd_ttl_s d) now (cd_entries d) (_key r) Hwf). done.
Qed.

(** The entries of the request's prefix that are still fresh. *)
Definition kept_bucket d r (now : float) : list CacheEntry :=
  filter (fun e => fresh (cd_ttl_s d) now e = true) (dget_or [] (cd_entries d) (_key r)).

(** The directory a lookup leaves, and the bucket it scores: the fresh entries
    when there is one, what the side store hands back when there is none.  The
    entries that come from the store are not filtered: stale ones are scored. *)
Inductive consulted d r (now : float) : KVCacheDirectory R → list CacheEntry → Prop :=
  | consulted_kept : kept_bucket d r now ≠ [] →
      consulted d r now (evict_stale d now) (kept_bucket d r now)
  | consulted_nothing : kept_bucket d r now = [] →
      _hydrate_from_redis (evict_stale d now) r = Ok (evict_stale d now) →
      consulted d r now (evict_stale d now) []
  | consulted_store payload bucket : kept_bucket d r now = [] →
      rs_enabled (cd_redis_store d) = true →
      fetch_cache_affinity (cd_redis_store d) (_key r) = Ok (Some payload) →
      hydrate_payload (_key r) payload = Ok bucket → bucket ≠ [] →
      consulted d r now
        (set_entries (evict_stale d now) (dset (cd_entries (evict_stale d now)) (_key r) bucket)) bucket.

Lemma consulted_score d r c p now d' bucket : dict_wf (cd_entries d) →
  consulted d r now d' bucket →
  score d r c p now = (best ← score_bucket (cd_ttl_s d) now c p (req_prompt_tokens r) bucket; Ok (d', best)).
Proof.
  intros Hwf Hc. unfold score. simpl.
  pose proof (evict_entries_get (cd_ttl_s d) now (cd_entries d) (_key r) Hwf) as Hg.
  fold (kept_bucket d r now) in Hg. rewrite Hg.
  destruct Hc as [Hne|He Hh|payload bucket He Hon Hf Hb Hne].
  - destruct (kept_bucket d r now) eqn:E; [done|]. simpl. by rewrite Hg.
  - rewrite He, Hh. simpl. by rewrite Hg, He.
  - rewrite He. unfold _hydrate_from_redis. simpl. rewrite Hon, Hf. simpl. rewrite Hb. simpl.
    destruct bucket as [|e0 b0]; [done|]. cbn [mbind result_bind set_entries cd_entries cd_ttl_s].
    unfold dget_or. by rewrite dget_set_eq.
Qed.

(** A lookup that returns has scored the fresh bucket or the stored one. *)
Lemma score_consulted d r c p now d' best : dict_wf (cd_entries d) →
  score d r c p now = Ok (d', best) → ∃ bucket, consulted d r now d' bucket.
Proof.
  intros Hwf Hs. unfold score in Hs. simpl in Hs.
  rewrite (evict_entries_get (cd_ttl_s d) now (cd_entries d) (_key r) Hwf) in Hs.
  fold (kept_bucket d r now) in Hs. apply bind_ok in Hs as (d2 & Hd & Hs).
  apply bind_ok in Hs as (b & _ & Hs). injection Hs as -> _.
  destruct (kept_bucket d r now) as [|e0 l] eqn:E.
  - pose proof Hd as Hd0. unfold _hydrate_from_redis in Hd0. simpl in Hd0.
    destruct (rs_enabled (cd_redis_store d)) eqn:Hon; simpl in Hd0;
      [|injection Hd0 as <-; exists []; by apply consulted_nothing].
    apply bind_ok in Hd0 as ([payload|] & Hf & Hd0); [|injection Hd0 as <-; exists []; by apply consulted_nothing].
    apply bind_ok in Hd0 as (bucket & Hb & Hd0). injection Hd0 as <-.
    destruct bucket as [|e0 b0]; [exists []; by apply consulted_nothing|].
    exists (e0 :: b0). by apply (consulted_store _ _ _ payload).
  - injection Hd as <-. exists (kept_bucket d r now). apply consulted_kept. by rewrite E.
Qed.

(** With the side store off, the fresh entries are all there is. *)
Lemma consulted_disabled d r now : rs_enabled (cd_redis_store d) = false →
  consulted d r now (evict_stale d now) (kept_bucket d r now).
Proof.
  intros Hoff. destruct (kept_bucket d r now) eqn:E.
  - apply consulted_nothing; [done|]. unfold _hydrate_from_redis. simpl. by rewrite Hoff.
  - rewrite <- E. apply consulted_kept. by rewrite E.
Qed.

(** C10: a lookup scores the fresh entries of the request's prefix, or, when
    there is none and Redis is on, the entries Redis hands back, fresh or not;
    a lookup that returns has done one or the other, and without Redis it
    always scores the fresh ones.  Whichever bucket it scores, the lookup does
    not raise, and its ratio and saved tokens are those of the best visible
    entry of that bucket ([(0.0, 0)] when there is none): at least as good as
    every such entry, with a ratio between 0 and 0.95 and no more tokens than
    the prompt has.  The lookup changes the directory only by evicting stale
    entries and by installing the bucket Redis handed back.  (The time to live is
    positive, sizes are not negative, the prompt has at most [2 ^ 53] tokens.) *)
Theorem score_best d r c p now : dict_wf (cd_entries d) →
  finite (cd_ttl_s d) = true → (0.0 < cd_ttl_s d)%float →
  0 <= req_prompt_tokens r <= 2 ^ 53 →
  let outcome := entry_score (cd_ttl_s d) now c p (req_prompt_tokens r) in
  (rs_enabled (cd_redis_store d) = false →
     consulted d r now (evict_stale d now) (kept_bucket d r now)) ∧
  (∀ d' best, score d r c p now = Ok (d', best) → ∃ bucket, consulted d r now d' bucket) ∧
  (∀ d' bucket, consulted d r now d' bucket → Forall (fun e => 0 <= ce_size_tokens e) bucket →
     let eligible e := e ∈ bucket ∧ visible now e = true in
     ∃ ratio saved,
       score d r c p now = Ok (d', (fround 4 ratio, saved)) ∧
       (0.0 <= ratio)%float ∧ (ratio <= 0.95)%float ∧ 0 <= saved <= req_prompt_tokens r ∧
       (∀ e h s, eligible e → outcome e = Ok (h, s) → (h <= ratio)%float) ∧
       ((ratio = 0.0%float ∧ saved = 0) ∨ ∃ e, eligible e ∧ outcome e = Ok (ratio, saved))).
Proof.
  intros Hwf Hf Ht Hp outcome. split; [apply consulted_disabled|].
  split; [intros d' best; by apply score_consulted|]. intros d' l Hc Hl eligible.
  rewrite (consulted_score d r c p now d' l Hwf Hc). unfold score_bucket.
  destruct (score_fold (cd_ttl_s d) now c p _ Hf Ht Hp l (of_lit 0.0%float, 0) Hl)
    as ([ratio saved] & Hr & _ & Hmax & Hwit); [nn|].
  destruct (score_fold_bounds (cd_ttl_s d) now c p _ Hf Ht Hp l _ Hl Hr) as (H1 & H2 & H3).
  rewrite Hr. simpl in *. exists ratio, saved. split; [reflexivity|].
  split; [exact H1|]. split; [exact H2|]. split; [exact H3|]. split.
  - intros e h s (He & Hv) Ho. exact (Hmax e (h, s) He Hv Ho).
  - destruct Hwit as [Heq|(e & He & Hv & Ho)].
    + left. injection Heq as -> ->. by split.
    + right. exists e. by split.
Qed.

(** A prefix is not visible before the request that computed it has
    completed: when every entry of the bucket completes after [now], the
    lookup answers [(0.0, 0)]. *)
Theorem score_before_completion d r c p now :
  rs_enabled (cd_redis_store d) = false → dict_wf (cd_entries d) →
  Forall (fun e => (now < ce_available_ts e)%float) (dget_or [] (cd_entries d) (_key r)) →
  score d r c p now = Ok (evict_stale d now, (of_lit 0.0%float, 0)).
Proof.
  intros Hoff Hwf Hall. rewrite score_disabled by done. unfold score_bucket.
  rewrite score_fold_invisible.
  - simpl. rewrite (fround_0 4) by lia. reflexivity.
  - rewrite Forall_forall in *. intros e [_ He]%list_elem_of_filter. unfold visible.
    by rewrite (Hall e He).
Qed.

(** Eviction leaves in each bucket exactly the entries touched within
    [ttl_s], in their order, keeps the directory's invariant (so no empty
    bucket is left behind) and evicting twice is evicting once. *)
Theorem evict_stale_spec d now : entries_inv (cd_entries d) →
  entries_inv (cd_entries (evict_stale d now)) ∧
  (∀ k, dget_or [] (cd_entries (evict_stale d now)) k =
        filter (fun e => (now - ce_last_touched e <= cd_ttl_s d)%float)
          (dget_or [] (cd_entries d) k)) ∧
  evict_stale (evict_stale d now) now = evict_stale d now.
Proof.
  intros Hinv. pose proof (evict_entries_inv (cd_ttl_s d) now _ Hinv) as Hinv'.
  split; [exact Hinv'|]. split; [intros k; apply evict_entries_get, Hinv|].
  unfold evict_stale, set_entries. simpl. f_equal.
  rewrite (evict_entries_fresh _ _ _ (ei_wf _ Hinv')).
  rewrite !(evict_entries_fresh _ _ _ (ei_wf _ Hinv)). apply fresh_entries_idem.
Qed.

Lemma persist_entries d k : cd_entries (_persist_to_redis d k) = cd_entries d ∧
  cd_max_entries (_persist_to_redis d k) = cd_max_entries d.
Proof. unfold _persist_to_redis. by destruct (negb _). Qed.

(** C11: recording a result keeps the directory's invariant (distinct keys, at
    most four entries per prefix, one per pool, filed under their own key) and
    leaves at most [max_entries] entries; a rejected request changes nothing. *)
Theorem observe_inv d (res : RequestResult) d' : observe d res = Ok d' →
  entries_inv (cd_entries d) →
  entries_inv (cd_entries d') ∧
  (if res_admitted res then total_entries (cd_entries d') <= Z.max 0 (cd_max_entries d)
   else d' = d).
Proof.
  unfold observe. destruct (res_admitted res); simpl; [|by intros [= <-]].
  unfold _trim. intros Hok Hinv. inv_ok. simpl.
  set (d1 := set_entries d _) in *. destruct (persist_entries d1 (_key (res_request res))) as [E1 E2].
  rewrite E1, E2 in *. simpl in *.
  pose proof (observe_entries_inv res _ Hinv) as Hinv1.
  split; [by eapply trim_entries_inv|].
  destruct (trim_entries_spec _ _ _ (ei_wf _ Hinv1) (entries_inv_nonempty _ Hinv1) H0) as (_ & _ & Hp).
  rewrite total_entries_items, Hp, length_drop, sort_by_length, total_entries_items. lia.
Qed.

(** C13: trimming removes exactly the surplus over [max_entries], and what it
    removes is coldest: no removed entry is above a kept one in the order of
    hit count, last touch and key. *)
Theorem trim_removes_coldest d d' : _trim d = Ok d' → entries_inv (cd_entries d) →
  Forall (fun i => ce_last_touched i.2 ≠ NaN) (entry_items (cd_entries d)) →
  ∃ removed,
    entry_items (cd_entries d) ≡ₚ removed ++ entry_items (cd_entries d') ∧
    Z.of_nat (length removed) =
      Z.min (total_entries (cd_entries d)) (Z.max 0 (total_entries (cd_entries d) - cd_max_entries d)) ∧
    ∀ x y, x ∈ removed → y ∈ entry_items (cd_entries d') →
      item_ltb (item_key y) (item_key x) = false.
Proof.
  unfold _trim. intros Hok Hinv Hnan. inv_ok. simpl.
  destruct (trim_entries_spec _ _ _ (ei_wf _ Hinv) (entries_inv_nonempty _ Hinv) H0) as (_ & _ & Hp).
  set (n := Z.to_nat _) in Hp. set (s := sort_by item_ltb item_key _) in Hp.
  assert (Hs : s ≡ₚ entry_items (cd_entries d)) by apply sort_by_perm.
  exists (take n s). rewrite Hp, take_drop. split; [done|]. split.
  - rewrite length_take. unfold s, n. rewrite sort_by_length, total_entries_items. lia.
  - intros u v Hx Hy. rewrite Hp in Hy.
    assert (HS : StronglySorted (ordered item_ltb item_key) s).
    { apply (sort_by_sorted item_ltb item_key
        (P := pair_dom (pair_dom (fun _ => True) (fun a => a ≠ NaN)) (fun _ => True))).
      eapply Forall_impl; [exact Hnan|]. intros i Hi. by repeat split. }
    rewrite <- (take_drop n s) in HS.
    apply StronglySorted_app in HS as (Hall & _). by apply (Hall u v).
Qed.

Context `{!LawfulRedis R}.

(** C14: a bucket survives a restart through Redis, where it is JSON text: a new
    directory on the same store recovers for the request exactly the bucket that
    was persisted. *)
Theorem redis_restart_roundtrip d r ttl maxe bucket :
  store_wf (cd_redis_store d) → rs_enabled (cd_redis_store d) = true →
  entries_inv (cd_entries d) → dget (cd_entries d) (_key r) = Some bucket →
  json_ok (bucket_payload bucket) →
  let store := cd_redis_store (_persist_to_redis d (_key r)) in
  _hydrate_from_redis (make_directory ttl maxe store) r =
  Ok (set_entries (make_directory ttl maxe store) [(_key r, bucket)]).
Proof.
  intros Hs He Hinv Hg Hok. destruct (entries_inv_get _ _ _ Hinv Hg) as [Hne _ _ Hk].
  unfold _hydrate_from_redis, _persist_to_redis, make_directory. rewrite He. simpl.
  unfold dget_or. rewrite Hg. simpl.
  set (st := write_cache_affinity _ _ _).
  assert (rs_enabled st = true) as ->.
  { unfold st, write_cache_affinity. rewrite He. by destruct (rs_client _). }
  simpl. unfold st. rewrite fetch_write_eq by done. cbn [mbind result_bind].
  rewrite hydrate_bucket_payload by done. simpl. by destruct bucket.
Qed.
End promises.

(** ** The promises at concrete inputs *)

Definition sample_entry (pool_id : string) (ts : float) (hits : Z) : CacheEntry :=
  {| ce_key := "m:t:s"; ce_cluster_id := "c0"; ce_pool_id := pool_id; ce_size_tokens := 400;
     ce_size_gb := of_lit 0.5%float; ce_available_ts := ts; ce_last_touched := ts;
     ce_hit_count := hits |}.

Definition sample_directory (maxe : Z) (store : RedisDecisionStore (gmap (string * string) string))
    (bucket : list CacheEntry) : KVCacheDirectory (gmap (string * string) string) :=
  {| cd_ttl_s := of_lit 180.0%float; cd_max_entries := maxe; cd_entries := [("m:t:s", bucket)];
     cd_redis_store := store |}.

Definition two_entries : list CacheEntry :=
  [sample_entry "p0" (of_lit 5.0%float) 2; sample_entry "p1" (of_lit 8.0%float) 0].

Lemma sample_inv maxe st : entries_inv (cd_entries (sample_directory maxe st two_entries)).
Proof.
  split; [apply NoDup_singleton|]. repeat constructor; simpl; try done; try set_solver.
Qed.

(** The lookup on the other pool of the same cluster, ten seconds in. *)
Example score_sample :
  score (sample_directory 20 no_store two_entries) sample_request "c0" "p1" (of_lit 10.0%float) =
  Ok (sample_directory 20 no_store two_entries, (of_lit 0.95%float, 380)).
Proof. vm_compute. reflexivity. Qed.

Definition live_store : RedisDecisionStore (gmap (string * string) string) :=
  {| rs_enabled := true; rs_client := Some ∅ |}.

(** A restarted directory whose only knowledge of the prefix is in Redis. *)
Definition restarted_directory : KVCacheDirectory (gmap (string * string) string) :=
  make_directory (of_lit 60.0%float) 20
    (cd_redis_store (_persist_to_redis (sample_directory 20 live_store two_entries) "m:t:s")).

Lemma restarted_consulted : consulted restarted_directory sample_request (of_lit 300.0%float)
  (set_entries restarted_directory [("m:t:s", two_entries)]) two_entries.
Proof.
  assert (set_entries restarted_directory [("m:t:s", two_entries)] =
    set_entries (evict_stale restarted_directory (of_lit 300.0%float))
      (dset (cd_entries (evict_stale restarted_directory (of_lit 300.0%float)))
        (_key sample_request) two_entries)) as -> by (vm_compute; reflexivity).
  apply (consulted_store _ _ _ (bucket_payload two_entries)); [reflexivity|reflexivity| | |discriminate];
    vm_compute; reflexivity.
Qed.

(** Five minutes later the stored entries are stale, and are scored. *)
Lemma score_best_witness : ∃ ratio saved,
  score restarted_directory sample_request "c0" "p1" (of_lit 300.0%float) =
  Ok (set_entries restarted_directory [("m:t:s", two_entries)], (fround 4 ratio, saved)).
Proof.
  destruct (score_best restarted_directory sample_request "c0" "p1" (of_lit 300.0%float))
    as (_ & _ & H); [apply NoDup_nil_2|flit|flit|simpl; lia|].
  destruct (H _ _ restarted_consulted) as (ratio & saved & Hs & _); [repeat constructor; simpl; lia|].
  exists ratio, saved. exact Hs.
Defined.

Lemma score_before_completion_witness :
  score (sample_directory 20 no_store two_entries) sample_request "c0" "p1" (of_lit 4.0%float) =
  Ok (evict_stale (sample_directory 20 no_store two_entries) (of_lit 4.0%float), (of_lit 0.0%float, 0)).
Proof.
  apply (score_before_completion (sample_directory 20 no_store two_entries) sample_request);
    [reflexivity|apply sample_inv|]. repeat constructor; flit.
Defined.

Lemma evict_stale_spec_witness :
  entries_inv (cd_entries (evict_stale (sample_directory 20 no_store two_entries) (of_lit 187.0%float))).
Proof. apply (evict_stale_spec (sample_directory 20 no_store two_entries)), sample_inv. Defined.

(** A third pool completes into a directory limited to two entries. *)
Lemma observe_inv_witness : ∃ d',
  observe (sample_directory 2 no_store two_entries) (sample_result "p2" (of_lit 12.0%float)) = Ok d' ∧
  entries_inv (cd_entries d') ∧ total_entries (cd_entries d') <= 2.
Proof.
  destruct (observe (sample_directory 2 no_store two_entries)
    (sample_result "p2" (of_lit 12.0%float))) as [d'|e] eqn:E.
  - exists d'. split; [reflexivity|]. exact (observe_inv _ _ _ E (sample_inv 2 no_store)).
  - exfalso. revert E. vm_compute. discriminate.
Defined.

Lemma trim_removes_coldest_witness : ∃ d' removed,
  _trim (sample_directory 1 no_store two_entries) = Ok d' ∧
  entry_items (cd_entries (sample_directory 1 no_store two_entries))
    ≡ₚ removed ++ entry_items (cd_entries d').
Proof.
  destruct (_trim (sample_directory 1 no_store two_entries)) as [d'|e] eqn:E.
  - destruct (trim_removes_coldest _ _ E (sample_inv 1 no_store)) as (removed & H & _).
    + repeat constructor; discriminate.
    + exists d', removed. split; [reflexivity|exact H].
  - exfalso. revert E. vm_compute. discriminate.
Defined.

Lemma redis_restart_roundtrip_witness :
  let store := cd_redis_store (_persist_to_redis (sample_directory 20 live_store two_entries) "m:t:s") in
  _hydrate_from_redis (make_directory (of_lit 60.0%float) 20 store) sample_request =
  Ok (set_entries (make_directory (of_lit 60.0%float) 20 store) [("m:t:s", two_entries)]).
Proof.
  apply (redis_restart_roundtrip (sample_directory 20 live_store two_entries) sample_request);
    [by split; [eexists|]|reflexivity|apply sample_inv|reflexivity|apply json_okb_ok; vm_compute; reflexivity].
Defined.

(** A full directory holding two different entries with the same hit count,
    last touch and key cannot be trimmed: sorting the tuples compares the
    entries themselves, and recording the result raises [TypeError]. *)
Theorem trim_tie_raises :
  observe (sample_directory 1 no_store [sample_entry "p0" (of_lit 12.0%float) 1])
    (sample_result "p1" (of_lit 12.0%float)) = Err TypeError.
Proof. vm_compute. reflexivity. Qed.
