(* ===== verification/CacheReady.v ===== *)
(** * A cache directory that cannot fail

    The directory raises in two places only: when trimming compares two equally
    hot entries (there is no order between them), and when it reads a malformed
    payload from the side store.  [directory_ready room d] is the state in which
    neither can happen for the next [room] observations: no side store, and room
    for that many entries below [max_entries].  Every operation keeps it. *)

From S2P Require Import Prelude PyFloat PyOrder PyDict PyJson Types Backends RedisStore Cache.

Local Open Scope Z_scope.

Section ready.
Context {R : Type} `{RedisClient R}.
Implicit Types (d : KVCacheDirectory R) (r : InferenceRequest).

Definition entry_sized (e : CacheEntry) : Prop := 0 <= ce_size_tokens e ∧ (0.0 <= ce_size_gb e)%float.
Definition sized (i : string * CacheEntry) : Prop := entry_sized i.2.

Record directory_ready (room : Z) d : Prop := {
  dr_inv : entries_inv (cd_entries d);
  dr_store : rs_enabled (cd_redis_store d) = false;
  dr_ttl : finite (cd_ttl_s d) = true ∧ (0.0 < cd_ttl_s d)%float;
  dr_sizes : Forall sized (entry_items (cd_entries d));
  dr_room : total_entries (cd_entries d) + room <= cd_max_entries d
}.

(** ** Eviction *)

Lemma fresh_items_sublist t n (d : buckets) : entry_items (fresh_entries t n d) `sublist_of` entry_items d.
Proof.
  induction d as [|[k b] d IH]; [done|]. rewrite fresh_entries_cons, entry_items_cons.
  assert (Hb : map (fun e => (k, e)) (filter (fun e => fresh t n e = true) b) `sublist_of` map (fun e => (k, e)) b).
  { clear. induction b as [|e b IHb]; simpl; [done|]. rewrite filter_cons.
    case_decide; simpl; [by apply sublist_skip|by apply sublist_cons]. }
  destruct (filter _ b) as [|e s]; [by apply sublist_inserts_l|].
  rewrite entry_items_cons. by apply sublist_app.
Qed.

Lemma evict_stale_ready room d now : directory_ready room d → directory_ready room (evict_stale d now).
Proof.
  intros [H1 H2 H3 H4 H5]. pose proof (evict_entries_inv (cd_ttl_s d) now _ H1) as Hi.
  pose proof (fresh_items_sublist (cd_ttl_s d) now (cd_entries d)) as Hs.
  rewrite <- evict_entries_fresh in Hs by apply H1.
  constructor; simpl; try done.
  - by eapply Forall_sublist.
  - rewrite !total_entries_items in *. apply sublist_length in Hs. lia.
Qed.

Lemma reserved_ready room d c p now : directory_ready room d → directory_ready room (reserved_gb d c p now).1.
Proof. apply evict_stale_ready. Qed.

(** ** Lookup *)

Lemma bucket_sized (d : buckets) k : Forall sized (entry_items d) →
  Forall entry_sized (dget_or [] d k).
Proof.
  intros Hs. apply Forall_forall. intros e He. unfold dget_or in He.
  destruct (dget d k) as [b|] eqn:E; simpl in He; [|set_solver].
  rewrite Forall_forall in Hs. apply (Hs (k, e)). apply entry_items_elem. exists b.
  split; [by apply dget_elem|done].
Qed.

Lemma score_ready room d r c p now : directory_ready room d → 0 <= req_prompt_tokens r <= 2 ^ 53 →
  ∃ h s, score d r c p now = Ok (evict_stale d now, (h, s)) ∧
    (0.0 <= h)%float ∧ (h <= 1.0)%float ∧ 0 <= s <= req_prompt_tokens r.
Proof.
  intros [H1 H2 [Hf Ht] H4 H5] Hp. rewrite score_disabled by (try done; apply H1). unfold score_bucket.
  set (l := filter _ _).
  assert (Hl : Forall (fun e => 0 <= ce_size_tokens e) l).
  { pose proof (bucket_sized _ (_key r) H4) as Hb. rewrite Forall_forall in *. intros e [_ He]%list_elem_of_filter. by apply Hb. }
  destruct (score_fold (cd_ttl_s d) now c p _ Hf Ht Hp l (of_lit 0.0%float, 0) Hl)
    as ([ratio saved] & Hr & _ & _ & _); [nn|].
  destruct (score_fold_bounds (cd_ttl_s d) now c p _ Hf Ht Hp l _ Hl Hr) as (G1 & G2 & G3).
  rewrite Hr. cbn [fst snd mbind result_bind]. exists (fround 4 ratio), saved. split; [reflexivity|].
  cbn [fst snd] in *. split; [apply fround_nonneg; [lia|exact G1]|]. split; [|exact G3].
  assert (E : fround 4 1.0%float = of_lit 1.0%float) by flit. rewrite <- E. apply fround_mono; [lia|].
  eapply fle_trans; [exact G2|]. flit.
Qed.

(** ** Observation *)

Lemma touch_or_append_length key res b : (length (touch_or_append key res b) <= S (length b))%nat.
Proof. induction b as [|e b IH]; simpl; [lia|]. destruct (at_location res e); simpl; lia. Qed.

(** A result with sizes an entry can record. *)
Definition result_sized (res : RequestResult) : Prop :=
  0 <= req_prompt_tokens (res_request res) ∧ (0.0 <= res_memory_gb res)%float.

Lemma entry_size_nonneg res : result_sized res → (0.0 <= res_memory_gb res * 0.55)%float.
Proof. intros [_ Hm]. apply fmul_nonneg_pos; [reflexivity|exact Hm|flit]. Qed.

Lemma touch_or_append_sized key res b : result_sized res →
  Forall entry_sized b → Forall entry_sized (touch_or_append key res b).
Proof.
  intros Hr Hb. pose proof (entry_size_nonneg res Hr) as Hg. destruct Hr as [Hp _].
  induction Hb as [|e b He Hb IH]; cbn [touch_or_append].
  - constructor; [|constructor]. split; [exact Hp|exact Hg].
  - destruct (at_location res e); (constructor; [|first [exact Hb|exact IH]]); [|exact He].
    destruct He as [He1 He2]. split; [cbn; lia|]. cbn [touch_entry ce_size_gb].
    eapply fle_trans; [exact He2|]. apply pymax_ge_l. exact (fle_not_nan_r _ _ He2).
Qed.

Lemma cap_bucket_elem b e : e ∈ cap_bucket b → e ∈ b.
Proof.
  unfold cap_bucket. case_match; [|done]. intros He.
  rewrite <- (sort_by_desc_perm hot_ltb hot_key b). by eapply elem_of_take in He as (i & He & _); eapply list_elem_of_lookup_2.
Qed.

Lemma cap_bucket_length b : (length (cap_bucket b) <= length b)%nat.
Proof.
  unfold cap_bucket. case_match; [|done]. rewrite length_take.
  rewrite (Permutation_length (sort_by_desc_perm hot_ltb hot_key b)). lia.
Qed.

Lemma observe_entries_count res (d : buckets) : dict_wf d →
  total_entries (observe_entries res d) <= total_entries d + 1.
Proof.
  intros Hwf. unfold observe_entries. set (k := _key (res_request res)).
  set (b' := cap_bucket _).
  assert (Hlen : (length b' <= S (length (dget_or [] d k)))%nat).
  { unfold b'. rewrite dget_or_touch. etrans; [apply cap_bucket_length|apply touch_or_append_length]. }
  rewrite !total_entries_items. unfold dget_or in Hlen.
  destruct (dget d k) as [b|] eqn:E; simpl in Hlen.
  - unfold dtouch. rewrite E. rewrite (entry_items_set _ _ _ Hwf), (entry_items_get _ _ _ Hwf E).
    rewrite !length_app, !length_map. lia.
  - rewrite (entry_items_set _ _ _ (dict_wf_touch _ _ _ Hwf)). unfold dtouch. rewrite E, ddel_set.
    rewrite length_app, length_map.
    assert (E' : ddel d k = d).
    { clear -E. induction d as [|[k' v] d IH]; simpl in *; [done|]. case_decide; [done|]. by rewrite IH. }
    rewrite E'. lia.
Qed.

Lemma observe_entries_sized res (d : buckets) : dict_wf d → result_sized res →
  Forall sized (entry_items d) → Forall sized (entry_items (observe_entries res d)).
Proof.
  intros Hwf Hp Hs. unfold observe_entries. set (k := _key (res_request res)).
  rewrite (entry_items_set _ _ _ (dict_wf_touch _ _ _ Hwf)). apply Forall_app. split.
  - apply Forall_fmap, Forall_forall. intros e He%cap_bucket_elem. unfold sized. cbn [snd].
    revert e He. apply Forall_forall. apply touch_or_append_sized; [done|]. rewrite dget_or_touch.
    by apply bucket_sized.
  - rewrite Forall_forall in *. intros [k' e] (b & Hin & He)%entry_items_elem. apply (Hs (k', e)).
    apply entry_items_elem. exists b. split; [|done]. unfold dtouch in Hin.
    destruct (dget d k); [|rewrite ddel_set in Hin]; eapply elem_of_sublist; try exact Hin; apply ddel_sublist.
Qed.

Lemma observe_ready room d res : directory_ready (room + 1) d → 0 <= room →
  ∃ d', observe d res = Ok d' ∧
    (result_sized res → directory_ready room d').
Proof.
  intros [H1 H2 H3 H4 H5] Hroom. unfold observe. destruct (res_admitted res); simpl.
  2:{ eexists. split; [reflexivity|]. intros _. constructor; try done. lia. }
  unfold _persist_to_redis. simpl. rewrite H2. simpl. unfold _trim, trim_entries. simpl.
  pose proof (observe_entries_count res _ (ei_wf _ H1)) as Hc.
  destruct (Z.leb_spec (total_entries (observe_entries res (cd_entries d))) (cd_max_entries d)); [|lia].
  simpl. eexists. split; [reflexivity|]. intros Hp. constructor; simpl; try done.
  - by apply observe_entries_inv.
  - apply observe_entries_sized; try done. apply H1.
  - lia.
Qed.

Lemma observe_never_raises d res : directory_ready 1 d → is_Ok (observe d res).
Proof. intros Hd. destruct (observe_ready 0 d res Hd ltac:(lia)) as (d' & E & _). by exists d'. Qed.

Lemma directory_ready_weaken n m d : m <= n → directory_ready n d → directory_ready m d.
Proof. intros ? []. constructor; try done. lia. Qed.

Lemma make_directory_ready store n : rs_enabled store = false → n <= 20000 →
  directory_ready n (make_directory (of_lit 180.0%float) 20000 store).
Proof.
  intros Hs Hn. constructor; simpl; try done.
  apply entries_inv_nil.
Qed.

(** ** The memory reserved for a pool's entries is not negative *)

Lemma reserved_nonneg room d c p now : directory_ready room d → (0.0 <= (reserved_gb d c p now).2)%float.
Proof.
  intros Hd%(evict_stale_ready _ _ now). destruct Hd as [Hi _ _ Hs _]. unfold reserved_gb. cbn [snd].
  set (es := cd_entries (evict_stale d now)) in *.
  assert (Hb : Forall (Forall entry_sized) (dvalues es)).
  { apply Forall_forall. intros b Hb. apply Forall_forall. intros e He. rewrite Forall_forall in Hs.
    apply list_elem_of_fmap in Hb as ([k b'] & -> & Hin). apply (Hs (k, e)). apply entry_items_elem. by exists b'. }
  clear -Hb. match goal with |- (_ <= fold_left ?f ?l _)%float =>
    enough (Hacc : ∀ acc, (0.0 <= acc)%float → (0.0 <= fold_left f l acc)%float) by (apply Hacc; flit) end.
  induction Hb as [|b bs Hb _ IH]; intros acc Ha; [exact Ha|]. cbn [fold_left]. apply IH. clear IH.
  revert acc Ha. induction Hb as [|e b [_ He] _ IH]; intros acc Ha; [exact Ha|]. cbn [fold_left]. apply IH.
  destruct (_ && _); [by apply fadd_nonneg|exact Ha].
Qed.
End ready.
