(* ===== verification/Scheduler.v ===== *)
(** * [cluster_scheduler/local_scheduler.py]: placing a request on a pool

    [place_request] assigns to the pool it was given and tells the cache
    directory about the result; the model returns the pool, the directory and
    the result.  The backend is used through [LawfulBackend]. *)

From S2P Require Import Prelude PyFloat PyOrder PyDict PyJson Types Backends RedisStore Samples Cache.

Local Open Scope Z_scope.

(** [min(range(len(l)), key=l.__getitem__)] *)
Definition earliest_slot (slots : list float) : result nat :=
  get_or ValueError (min_by fltb (fun i => default NaN (slots !! i)) (seq 0 (length slots))).

(** The assignments to the pool: the slot is busy until [completion_ts]. *)
Definition occupy (pool : PoolRuntime) (slot_index : nat) (completion_ts memory_gb : float) :
    PoolRuntime :=
  pool_update pool (pool_congestion_score pool)
    (<[slot_index := completion_ts]> (pool_slot_available_at pool))
    (pool_active_memory_gb pool + memory_gb)%float (pool_cache_reserved_gb pool)
    (pool_decision_count pool + 1) (pool_completed_count pool)
    (pool_inflight_memory pool ++ [(completion_ts, memory_gb)]).

Section place.
Context {R : Type} `{RedisClient R}.

Definition place_request (cache_directory : KVCacheDirectory R) (request : InferenceRequest)
    (candidate : CandidatePlacement) (decision : RoutingDecision) (pool : PoolRuntime)
    (backend : BackendAdapter) (now : float) :
    result (KVCacheDirectory R * PoolRuntime * RequestResult) :=
  slot_index ← earliest_slot (pool_slot_available_at pool);
  slot ← get_or IndexError (pool_slot_available_at pool !! slot_index);
  let actual_start_ts := pymax now slot in
  let queue_delay_ms := (pymax 0.0 (actual_start_ts - now) * 1000.0)%float in
  let '(prefill_ms, decode_ms) :=
    estimate_latency_ms backend request pool
      (cand_expected_cache_hit_ratio candidate) (cand_topology_affinity candidate)
      (cand_network_cost candidate) (cand_congestion_score candidate) in
  let memory_gb :=
    estimate_request_memory_gb (req_prompt_tokens request) (req_generation_tokens request)
      (req_model_id request) (cand_expected_cache_saved_tokens candidate) in
  let completion_ts := (actual_start_ts + ((prefill_ms + decode_ms) / 1000.0))%float in
  let pool' := occupy pool slot_index completion_ts memory_gb in
  let total_latency_ms := (queue_delay_ms + prefill_ms + decode_ms)%float in
  let cost_usd := (pool_cost_per_1m_tokens pool * (of_Z (total_tokens request) / 1000000.0))%float in
  let energy_proxy := (pool_energy_proxy pool * (of_Z (total_tokens request) / 1000.0))%float in
  let sla_met := (total_latency_ms <=? req_max_latency_ms request)%float in
  let res :=
    {| res_request := request; res_decision := decision; res_admitted := true;
       res_actual_start_ts := actual_start_ts; res_completion_ts := completion_ts;
       res_queue_delay_ms := fround 4 queue_delay_ms;
       res_prefill_latency_ms := fround 4 prefill_ms;
       res_decode_latency_ms := fround 4 decode_ms;
       res_total_latency_ms := fround 4 total_latency_ms;
       res_cache_hit_ratio := cand_expected_cache_hit_ratio candidate;
       res_cache_saved_tokens := cand_expected_cache_saved_tokens candidate;
       res_memory_gb := fround 4 memory_gb; res_cost_usd := fround 6 cost_usd;
       res_energy_proxy := fround 4 energy_proxy;
       res_network_cost := fround 4 (cand_network_cost candidate);
       res_sla_met := sla_met; res_rejection_reason := None |} in
  directory ← observe cache_directory res;
  Ok (directory, pool', res).
End place.

(** ** The earliest slot *)

Lemma earliest_slot_spec (slots : list float) : slots ≠ [] →
  Forall (fun t => t ≠ NaN) slots →
  ∃ i t, earliest_slot slots = Ok i ∧ slots !! i = Some t ∧
         Forall (fun u => (t <= u)%float) slots.
Proof.
  intros Hne Hn. unfold earliest_slot.
  set (key := fun i => default NaN (slots !! i)).
  assert (Hkey : ∀ i, i ∈ seq 0 (length slots) → ∃ t, slots !! i = Some t ∧ key i = t ∧ t ≠ NaN).
  { intros i Hi%elem_of_seq. destruct (lookup_lt_is_Some_2 slots i) as [t Ht]; [lia|].
    exists t. unfold key. rewrite Ht. split; [done|]. split; [done|].
    rewrite Forall_forall in Hn. apply Hn. by apply list_elem_of_lookup_2 in Ht. }
  assert (Hall : Forall (fun i => key i ≠ NaN) (seq 0 (length slots))).
  { rewrite Forall_forall. intros i Hi. by destruct (Hkey i Hi) as (t & _ & -> & ?). }
  destruct (min_by_is_Some fltb key (seq 0 (length slots))) as [i Hi]; [by destruct slots|].
  pose proof (min_by_elem fltb key _ _ Hi) as Hin. destruct (Hkey i Hin) as (t & Ht & Hk & Hnt).
  exists i, t. rewrite Hi. split; [done|]. split; [done|].
  rewrite Forall_forall. intros u [j Hj]%list_elem_of_lookup_1.
  assert (Hjin : j ∈ seq 0 (length slots)) by (apply elem_of_seq; apply lookup_lt_Some in Hj; lia).
  pose proof (min_by_least fltb key (P := fun a => a ≠ NaN) _ _ _ Hall Hi Hjin) as Hle.
  destruct (Hkey j Hjin) as (u' & Hu' & Hk' & Hnu). rewrite Hj in Hu'. injection Hu' as <-.
  rewrite Hk, Hk' in Hle. apply flt_nle in Hle; [exact Hle|exact Hnu|exact Hnt].
Qed.

(** Slot times a run produces: doubles, never negative. *)
Definition slots_ok (slots : list float) : Prop :=
  slots ≠ [] ∧ Forall (fun t => wf t ∧ (0.0 <= t)%float) slots.

Lemma slots_ok_not_nan slots : slots_ok slots → Forall (fun t => t ≠ NaN) slots.
Proof. intros [_ Hs]. eapply Forall_impl; [exact Hs|]. intros t [_ Ht]. exact (fle_not_nan_r _ _ Ht). Qed.

Lemma post_init_slots_ok (p : PoolRuntime) : 0 < pool_parallel_slots p →
  pool_slot_available_at p = [] → slots_ok (pool_slot_available_at (pool_post_init p)).
Proof.
  intros Hp He. unfold pool_post_init. rewrite He. simpl. unfold slots_ok. split.
  - destruct (Z.to_nat (pool_parallel_slots p)) eqn:E; [lia|done].
  - apply Forall_forall. intros t [-> _]%elem_of_replicate. split; [apply of_lit_wf; flit|flit].
Qed.

(** The signals a candidate carries and the inputs of one placement. *)
Record placement_ok (request : InferenceRequest) (candidate : CandidatePlacement)
    (pool : PoolRuntime) (now : float) : Prop := {
  po_estimate : estimate_ok request pool;
  po_signals : signals_ok (cand_expected_cache_hit_ratio candidate)
                 (cand_topology_affinity candidate) (cand_network_cost candidate)
                 (cand_congestion_score candidate);
  po_slots : slots_ok (pool_slot_available_at pool);
  po_now : wf now ∧ (0.0 <= now)%float
}.

(** ** One placement *)

Lemma latency_seconds_nonneg (a b : float) : (0.0 <= a)%float → (0.0 <= b)%float →
  (0.0 <= (a + b) / 1000.0)%float.
Proof. intros. apply fdiv_nonneg; [reflexivity|flit|]. apply fadd_nonneg; hyp. Qed.

Lemma pymax_wf (a b : float) : wf a → wf b → wf (pymax a b).
Proof. apply pymax_case. Qed.

Section placement.
Context {R : Type} `{RedisClient R} {b : BackendAdapter} `{!LawfulBackend b}.

(** What a successful placement did, piece by piece. *)
Record placed (d : KVCacheDirectory R) (request : InferenceRequest)
    (candidate : CandidatePlacement) (decision : RoutingDecision) (p : PoolRuntime) (now : float)
    (d' : KVCacheDirectory R) (p' : PoolRuntime) (r : RequestResult)
    (i : nat) (t memory : float) : Prop := {
  pl_slot : pool_slot_available_at p !! i = Some t;
  pl_earliest : Forall (fun u => (t <= u)%float) (pool_slot_available_at p);
  pl_start : res_actual_start_ts r = pymax now t;
  pl_now : (now <= res_actual_start_ts r)%float;
  pl_free : (t <= res_actual_start_ts r)%float;
  pl_completion : (res_actual_start_ts r <= res_completion_ts r)%float;
  pl_wf : wf (res_completion_ts r);
  pl_pool : p' = occupy p i (res_completion_ts r) memory;
  pl_memory : memory = estimate_request_memory_gb (req_prompt_tokens request)
    (req_generation_tokens request) (req_model_id request)
    (cand_expected_cache_saved_tokens candidate);
  pl_admitted : res_admitted r = true;
  pl_latency : ∃ prefill decode,
    estimate_latency_ms b request p (cand_expected_cache_hit_ratio candidate)
      (cand_topology_affinity candidate) (cand_network_cost candidate)
      (cand_congestion_score candidate) = (prefill, decode) ∧
    res_completion_ts r = (res_actual_start_ts r + (prefill + decode) / 1000.0)%float;
  pl_delay : res_queue_delay_ms r =
    fround 4 (pymax 0.0 (res_actual_start_ts r - now) * 1000.0);
  pl_request : res_request r = request ∧ res_decision r = decision;
  pl_observed : observe d r = Ok d'
}.

Lemma place_request_placed d request candidate decision p now d' p' r :
  placement_ok request candidate p now →
  place_request d request candidate decision p b now = Ok (d', p', r) →
  ∃ i t memory, placed d request candidate decision p now d' p' r i t memory.
Proof using LawfulBackend0.
  intros [He Hs Hsl [Hnw Hn0]] Hp. unfold place_request in Hp.
  destruct (earliest_slot_spec _ (proj1 Hsl) (slots_ok_not_nan _ Hsl)) as (i & t & Hi & Ht & Hmin).
  rewrite Hi in Hp. simpl in Hp. rewrite Ht in Hp. simpl in Hp.
  destruct (est_nonneg request p _ _ _ _ He Hs) as [Hpre Hdec].
  destruct (estimate_latency_ms b request p _ _ _ _) as [prefill decode] eqn:Hlat.
  simpl in Hpre, Hdec. apply bind_ok in Hp as (d1 & Hobs & Hp). injection Hp as <- <- <-.
  destruct Hsl as [_ Hall]. rewrite Forall_forall in Hall.
  destruct (Hall t ltac:(by apply list_elem_of_lookup_2 in Ht)) as [Hwt Ht0].
  pose proof (fle_not_nan_r _ _ Hn0) as Hnn. pose proof (fle_not_nan_r _ _ Ht0) as Htn.
  exists i, t. eexists. constructor; cbn; try reflexivity.
  - exact Ht.
  - exact Hmin.
  - exact (pymax_ge_l now t Hnn).
  - exact (pymax_ge_r now t Hnn Htn).
  - apply fadd_ge_l; [by apply pymax_wf| |by apply latency_seconds_nonneg].
    exact (fle_trans _ _ _ Hn0 (pymax_ge_l now t Hnn)).
  - apply fadd_wf.
  - exists prefill, decode. split; [exact Hlat|reflexivity].
  - by split.
  - exact Hobs.
Qed.

(** A placement can only fail in the cache directory. *)
Lemma place_request_ok d request candidate decision p now :
  slots_ok (pool_slot_available_at p) →
  (∀ r, is_Ok (observe d r)) →
  is_Ok (place_request d request candidate decision p b now).
Proof.
  intros Hsl Hobs. unfold place_request.
  destruct (earliest_slot_spec _ (proj1 Hsl) (slots_ok_not_nan _ Hsl)) as (i & t & Hi & Ht & _).
  rewrite Hi. simpl. rewrite Ht. simpl.
  destruct (estimate_latency_ms b request p _ _ _ _) as [prefill decode].
  match goal with |- context [observe d ?r] => destruct (Hobs r) as [d' ->] end.
  simpl. by eexists.
Qed.

Lemma estimate_memory_nonneg p g s m : (0.0 <= estimate_request_memory_gb p g m s)%float.
Proof. rewrite estimate_request_memory_gb_alt. apply memory_of_tokens_nonneg. lia. Qed.

Lemma placed_slots_ok d request candidate decision p now d' p' r i t m :
  placed d request candidate decision p now d' p' r i t m → (0.0 <= now)%float →
  slots_ok (pool_slot_available_at p) → slots_ok (pool_slot_available_at p').
Proof.
  intros [] Hn [Hne Hall]. subst p'. simpl. split.
  - intros E. apply (f_equal length) in E. rewrite length_insert in E. by destruct (pool_slot_available_at p).
  - apply Forall_insert; [exact Hall|]. split; [exact pl_wf0|].
    exact (fle_trans _ _ _ Hn (fle_trans _ _ _ pl_now0 pl_completion0)).
Qed.

Lemma placed_pool_inv d request candidate decision p now d' p' r i t m :
  placed d request candidate decision p now d' p' r i t m → (0.0 <= now)%float →
  pool_inv p → pool_inv p'.
Proof.
  intros [] Hn [H1 H2 H3 H4 H5]. subst p'. constructor; simpl.
  - intros E. apply (f_equal length) in E. rewrite length_insert in E. by destruct (pool_slot_available_at p).
  - apply Forall_insert; [exact H2|].
    exact (fle_trans _ _ _ Hn (fle_trans _ _ _ pl_now0 pl_completion0)).
  - rewrite map_app. simpl. rewrite fsum_snoc, H3. reflexivity.
  - apply Forall_app. split; [exact H4|]. apply Forall_singleton. simpl. subst m.
    apply estimate_memory_nonneg.
  - lia.
Qed.
End placement.

(** ** A pool over time

    Between placements the control plane refreshes the pool and assigns its
    congestion, its cache reservation and its completion count; none of these
    touches the slots.  [pool_run p rs p'] says that [p] became [p'] while the
    requests with results [rs] were placed, in that order. *)
Section capacity.
Context {R : Type} `{RedisClient R} (b : BackendAdapter) `{!LawfulBackend b}.

Inductive pool_run (p : PoolRuntime) : list RequestResult → PoolRuntime → Prop :=
  | run_start : pool_run p [] p
  | run_refresh rs q now : pool_run p rs q → pool_run p rs (pool_refresh q now)
  | run_congestion rs q c : pool_run p rs q → pool_run p rs (set_congestion_score q c)
  | run_reserved rs q g : pool_run p rs q → pool_run p rs (set_cache_reserved_gb q g)
  | run_completed rs q : pool_run p rs q →
      pool_run p rs (set_completed_count q (pool_completed_count q + 1))
  | run_place rs q (d d' : KVCacheDirectory R) request candidate decision now q' r :
      pool_run p rs q → placement_ok request candidate q now →
      place_request d request candidate decision q b now = Ok (d', q', r) →
      pool_run p (rs ++ [r]) q'.

(** [r] occupies a slot at time [t]. *)
Definition running_at (t : float) (r : RequestResult) : Prop :=
  (res_actual_start_ts r <= t)%float ∧ (t < res_completion_ts r)%float.

#[export] Instance running_at_dec t r : Decision (running_at t r).
Proof. unfold running_at. apply _. Defined.

(** The history of the slots: who ran where; runs on one slot follow each
    other, and every one is over by the time the slot is free. *)
Definition follows (x y : nat * RequestResult) : Prop :=
  x.1 = y.1 → (res_completion_ts x.2 <= res_actual_start_ts y.2)%float.

Record schedule (n : nat) (slots : list float) (h : list (nat * RequestResult)) : Prop := {
  sc_length : length slots = n;
  sc_ok : slots_ok slots;
  sc_free : Forall (fun x => ∃ t, slots !! x.1 = Some t ∧ (res_completion_ts x.2 <= t)%float) h;
  sc_order : StronglySorted follows h
}.

Lemma schedule_place n slots h i t r :
  schedule n slots h → slots !! i = Some t → (t <= res_actual_start_ts r)%float →
  (res_actual_start_ts r <= res_completion_ts r)%float →
  slots_ok (<[i := res_completion_ts r]> slots) →
  schedule n (<[i := res_completion_ts r]> slots) (h ++ [(i, r)]).
Proof.
  intros [Hlen Hok Hfree Hord] Ht Hfr Hdur Hok'. constructor; [by rewrite length_insert|done| |].
  - pose proof (lookup_lt_Some _ _ _ Ht) as Hlt.
    apply Forall_app. split.
    + eapply Forall_impl; [exact Hfree|]. intros [j x] (u & Hu & Hle). simpl in *.
      destruct (decide (i = j)) as [<-|Hne].
      * exists (res_completion_ts r). split; [by apply list_lookup_insert_eq|].
        rewrite Ht in Hu. injection Hu as <-.
        exact (fle_trans _ _ _ Hle (fle_trans _ _ _ Hfr Hdur)).
      * exists u. split; [by rewrite list_lookup_insert_ne|exact Hle].
    + apply Forall_singleton. exists (res_completion_ts r). simpl.
      split; [by apply list_lookup_insert_eq|]. exact (fle_refl _ (fle_not_nan_r _ _ Hdur)).
  - apply StronglySorted_app. split; [|split; [exact Hord|repeat constructor]].
    intros [j x] [k y] Hx Hy. apply list_elem_of_singleton in Hy as [= -> ->].
    unfold follows. simpl. intros ->. rewrite Forall_forall in Hfree.
    destruct (Hfree _ Hx) as (u & Hu & Hle). simpl in *. rewrite Ht in Hu. injection Hu as <-.
    exact (fle_trans _ _ _ Hle Hfr).
Qed.

Lemma pool_run_schedule p rs q : slots_ok (pool_slot_available_at p) → pool_run p rs q →
  ∃ h, map snd h = rs ∧
    schedule (length (pool_slot_available_at p)) (pool_slot_available_at q) h.
Proof using LawfulBackend0.
  intros Hok. induction 1 as [|rs q now Hr IH|rs q c Hr IH|rs q g Hr IH|rs q Hr IH|
    rs q d d' request candidate decision now q' r Hr IH Hpo Hp].
  - exists []. split; [done|]. split; [done|done|constructor|constructor].
  - destruct IH as (h & ? & ?). exists h. rewrite pool_refresh_alt. by split.
  - destruct IH as (h & ? & ?). exists h. by split.
  - destruct IH as (h & ? & ?). exists h. by split.
  - destruct IH as (h & ? & ?). exists h. by split.
  - destruct IH as (h & <- & Hs).
    destruct (place_request_placed _ _ _ _ _ _ _ _ _ Hpo Hp) as (i & t & m & Hpl).
    pose proof (placed_slots_ok _ _ _ _ _ _ _ _ _ _ _ _ Hpl (proj2 (po_now _ _ _ _ Hpo)) (po_slots _ _ _ _ Hpo)) as Hok'.
    destruct Hpl. exists (h ++ [(i, r)]). rewrite map_app. split; [done|].
    subst q'. simpl in *. by eapply schedule_place.
Qed.

Lemma running_slots_nodup t (h : list (nat * RequestResult)) : StronglySorted follows h →
  NoDup (map fst (filter (fun x => running_at t x.2) h)).
Proof.
  induction 1 as [|[i r] h Hh IH Hf]; [constructor|]. rewrite filter_cons.
  case_decide as Hrun; [|done]. simpl. constructor; [|done].
  intros ([j x] & -> & Hx)%list_elem_of_fmap. apply list_elem_of_filter in Hx as [[Hs Hc] Hx].
  rewrite Forall_forall in Hf. pose proof (Hf _ Hx eq_refl) as Hle. simpl in *.
  destruct Hrun as [_ Hlt]. pose proof (flt_le_trans _ _ _ Hlt Hle) as H1.
  pose proof (flt_le_trans _ _ _ H1 Hs) as H2. rewrite flt_irrefl in H2. discriminate H2.
Qed.

(** C4: a pool never runs more requests at once than it has slots: at every
    time, at most [length slot_available_at] of the requests placed on it have
    started and not yet completed, whatever the order of placements,
    refreshes and other assignments. *)
Theorem pool_capacity p rs q t : slots_ok (pool_slot_available_at p) → pool_run p rs q →
  (length (filter (running_at t) rs) <= length (pool_slot_available_at p))%nat.
Proof using LawfulBackend0.
  intros Hok Hrun. destruct (pool_run_schedule p rs q Hok Hrun) as (h & <- & [_ _ Hfree Hord]).
  assert (length (filter (running_at t) (map snd h)) =
          length (map fst (filter (fun x => running_at t x.2) h))) as ->.
  { clear. induction h as [|[i r] h IH]; [done|]. cbn [map]. rewrite !filter_cons. simpl.
    case_decide; simpl; by rewrite IH. }
  rewrite <- (length_seq (length (pool_slot_available_at p)) 0).
  destruct (pool_run_schedule p (map snd h) q Hok Hrun) as (_ & _ & [Hlen _ _ _]).
  apply NoDup_incl_length; [by apply NoDup_ListNoDup, running_slots_nodup|].
  intros i Hi. apply list_elem_of_In, list_elem_of_fmap in Hi as ([j r] & -> & Hx).
  apply list_elem_of_filter in Hx as [_ Hx]. rewrite Forall_forall in Hfree.
  destruct (Hfree _ Hx) as (u & Hu & _). apply list_elem_of_In, elem_of_seq.
  apply lookup_lt_Some in Hu. rewrite Hlen in Hu. simpl in *. lia.
Qed.
End capacity.

Section placement_spec.
Context {R : Type} `{RedisClient R} {b : BackendAdapter} `{!LawfulBackend b}.
Implicit Types (d : KVCacheDirectory R).

(** C7: a placement takes the earliest slot and starts the request exactly
    when that slot is free: at [now] when the slot is free by then, at the
    slot's own time [t] otherwise, and the reported queue delay is that wait in
    milliseconds.  The request completes after the backend's prefill and
    decode time and not before it starts; the placement occupies that slot and
    no other until the completion, adds the request's estimated footprint to
    the in-flight list, and keeps the pool invariant ([active_memory_gb] is
    the sum over the in-flight requests). *)
Theorem place_request_correct d request candidate decision p now d' p' r :
  place_request d request candidate decision p b now = Ok (d', p', r) →
  placement_ok request candidate p now → pool_inv p →
  pool_inv p' ∧
  ∃ i t memory prefill decode,
    pool_slot_available_at p !! i = Some t ∧
    Forall (fun u => (t <= u)%float) (pool_slot_available_at p) ∧
    pool_slot_available_at p' = <[i := res_completion_ts r]> (pool_slot_available_at p) ∧
    res_actual_start_ts r = (if (now <? t)%float then t else now) ∧
    (now <= res_actual_start_ts r)%float ∧ (t <= res_actual_start_ts r)%float ∧
    ((∃ u, u ∈ pool_slot_available_at p ∧ (u <= now)%float) → res_actual_start_ts r = now) ∧
    res_queue_delay_ms r = fround 4 (pymax 0.0 (res_actual_start_ts r - now) * 1000.0) ∧
    estimate_latency_ms b request p (cand_expected_cache_hit_ratio candidate)
      (cand_topology_affinity candidate) (cand_network_cost candidate)
      (cand_congestion_score candidate) = (prefill, decode) ∧
    res_completion_ts r = (res_actual_start_ts r + (prefill + decode) / 1000.0)%float ∧
    (res_actual_start_ts r <= res_completion_ts r)%float ∧
    memory = estimate_request_memory_gb (req_prompt_tokens request)
      (req_generation_tokens request) (req_model_id request)
      (cand_expected_cache_saved_tokens candidate) ∧
    pool_inflight_memory p' = pool_inflight_memory p ++ [(res_completion_ts r, memory)] ∧
    (0.0 <= memory)%float ∧
    pool_decision_count p' = pool_decision_count p + 1 ∧
    observe d r = Ok d'.
Proof using LawfulBackend0.
  intros Hp Hok Hinv. destruct (place_request_placed _ _ _ _ _ _ _ _ _ Hok Hp) as (i & t & m & Hpl).
  split; [exact (placed_pool_inv _ _ _ _ _ _ _ _ _ _ _ _ Hpl (proj2 (po_now _ _ _ _ Hok)) Hinv)|].
  destruct Hpl. subst p'. destruct pl_latency0 as (prefill & decode & Hlat & Hdone).
  exists i, t, m, prefill, decode. simpl.
  split; [exact pl_slot0|]. split; [exact pl_earliest0|]. split; [reflexivity|].
  split; [rewrite pl_start0; reflexivity|].
  split; [exact pl_now0|]. split; [exact pl_free0|]. split; [|split; [exact pl_delay0|]].
  { intros (u & Hu & Hle). rewrite Forall_forall in pl_earliest0.
    rewrite pl_start0. exact (pymax_l _ _ (fle_trans _ _ _ (pl_earliest0 u Hu) Hle)). }
  split; [exact Hlat|]. split; [exact Hdone|]. split; [exact pl_completion0|].
  split; [exact pl_memory0|]. split; [reflexivity|].
  split; [subst m; apply estimate_memory_nonneg|by split].
Qed.
End placement_spec.

(** ** The promises at concrete inputs *)

Lemma sample_placement_ok : placement_ok sample_request sample_candidate sample_pool (of_lit 10.0%float).
Proof.
  constructor.
  - constructor; unfold tokens_ok, tps_ok; [vm_compute; split; [reflexivity|discriminate]..|split; flit|split; flit].
  - constructor; [split; flit|split; flit|flit|split; flit].
  - split; [vm_compute; discriminate|]. cbn. repeat (constructor; [split; [apply of_lit_wf; flit|flit]|]). constructor.
  - split; [apply of_lit_wf; flit|flit].
Qed.

Definition sample_placement :=
  place_request (sample_directory 20 no_store []) sample_request sample_candidate
    (sample_decision "p0") sample_pool MockBackend (of_lit 10.0%float).

Lemma place_request_correct_witness : ∃ d' p' r, sample_placement = Ok (d', p', r) ∧ pool_inv p'.
Proof.
  destruct sample_placement as [[[d' p'] r]|e] eqn:E; unfold sample_placement in E.
  - exists d', p', r. split; [reflexivity|].
    exact (proj1 (place_request_correct (b := MockBackend) _ _ _ _ _ _ _ _ _ E sample_placement_ok sample_pool_inv)).
  - exfalso. revert E. vm_compute. discriminate.
Defined.

Lemma pool_capacity_witness : ∃ d' p' r, sample_placement = Ok (d', p', r) ∧
  (length (filter (running_at (of_lit 10.0%float)) [r]) <= 2)%nat.
Proof.
  destruct sample_placement as [[[d' p'] r]|e] eqn:E; unfold sample_placement in E.
  - exists d', p', r. split; [reflexivity|].
    apply (pool_capacity MockBackend sample_pool [r] p'); [apply sample_placement_ok|].
    apply (run_place MockBackend sample_pool [] sample_pool _ _ _ _ _ _ _ _
      (run_start _ _) sample_placement_ok E).
  - exfalso. revert E. vm_compute. discriminate.
Defined.
