(* ===== verification/Cuda.v ===== *)
(** * [cuda_kernels/]: scoring features of the candidates

    [runtime.py] computes three features per candidate, on the CPU or, when CUDA
    is asked for and can be loaded, by the three kernels of the [.cu] files.
    pycuda and the compiler are not in the repository: a launch runs the threads
    of the grid in some order, each thread once ([launch_step]), on arrays of
    binary32 numbers; an empty grid is refused, as the CUDA driver documents.
    The arithmetic of the kernels is IEEE binary32, rounded operation by
    operation (their products are never summed, so contraction changes
    nothing). *)

From S2P Require Import Prelude PyFloat PyDict PyJson Binary32 Types Samples.
From stdpp Require Import relations.

Local Open Scope float_scope.

(** ** The kernels

    What thread [idx] stores at its index: nothing when it returns early. *)

Definition cache_score_kernel (base_hits saved_tokens : list float) (count idx : nat) : option float :=
  if (count <=? idx)%nat then None else
  hit ← base_hits !! idx; saved ← saved_tokens !! idx;
  let normalized_saved := fdiv32 saved 8192.0 in
  Some (fmul32 hit (fadd32 1.0 normalized_saved)).

Definition topology_cost_kernel (topology_affinity network_cost : list float) (count idx : nat) : option float :=
  if (count <=? idx)%nat then None else
  net ← network_cost !! idx; affinity ← topology_affinity !! idx;
  let penalty := fsub32 net affinity in
  Some (if (0.0 <? penalty)%float then penalty else of_lit 0.0).

Definition load_balance_kernel (queue_delay_ms congestion_score memory_headroom_gb : list float) (count idx : nat) :
    option float :=
  if (count <=? idx)%nat then None else
  queue ← queue_delay_ms !! idx; congestion ← congestion_score !! idx; memory ← memory_headroom_gb !! idx;
  let queue_component := fdiv32 queue 1000.0 in
  let memory_component := fsub32 1.0 (fdiv32 memory 64.0) in
  let memory_component := if (memory_component <? 0.0)%float then of_lit 0.0 else memory_component in
  Some (fadd32 (fadd32 queue_component congestion) memory_component).

(** ** A launch *)

Section launch.
Context (body : nat → option float).

(** The threads that have not run and the output array. *)
Record launch_state := { ls_waiting : list nat; ls_out : list float }.

Definition store (out : list float) (idx : nat) : list float :=
  match body idx with Some v => <[idx := v]> out | None => out end.

(** Any waiting thread runs next. *)
Inductive launch_step : launch_state → launch_state → Prop :=
  | thread_runs before idx after out :
      launch_step {| ls_waiting := before ++ idx :: after; ls_out := out |}
                  {| ls_waiting := before ++ after; ls_out := store out idx |}.

(** Blocks of 256 threads, as many as cover the array. *)
Definition grid (count : nat) : nat := (count + 255) / 256.
Definition threads (count : nat) : list nat := seq 0 (256 * grid count).
Definition launch_start (count : nat) : launch_state :=
  {| ls_waiting := threads count; ls_out := replicate count (of_lit 0.0) |}.

(** One order of the threads. *)
Definition launch (count : nat) : result (list float) :=
  if (grid count =? 0)%nat then Err LibraryError
  else Ok (fold_left store (threads count) (replicate count (of_lit 0.0))).

(** *** Every order gives the same array *)

Lemma store_length out idx : length (store out idx) = length out.
Proof. unfold store. by destruct (body idx); rewrite ?length_insert. Qed.

Lemma store_same out idx x : out !! idx = Some x → store out idx !! idx = Some (default x (body idx)).
Proof.
  intros Hi. unfold store. destruct (body idx); simpl; [|exact Hi].
  apply list_lookup_insert_eq. by eapply lookup_lt_Some.
Qed.

Lemma store_other out idx i : idx ≠ i → store out idx !! i = out !! i.
Proof. intros Hi. unfold store. destruct (body idx); [by rewrite list_lookup_insert_ne|done]. Qed.

(** What the array holds while threads wait. *)
Definition progress (out0 : list float) (st : launch_state) : Prop :=
  NoDup (ls_waiting st) ∧ length (ls_out st) = length out0 ∧
  ∀ i x, out0 !! i = Some x →
    ls_out st !! i = Some (if decide (i ∈ ls_waiting st) then x else default x (body i)).

Lemma step_progress out0 (all : list nat) st st' : (∀ i, i ∈ ls_waiting st → i ∈ all) → progress out0 st → launch_step st st' →
  progress out0 st' ∧ (∀ i, i ∈ ls_waiting st' → i ∈ all).
Proof.
  intros Hall (Hnd & Hlen & Hi) Hstep. destruct Hstep as [before idx after out]. cbn [ls_waiting ls_out] in *.
  assert (Hp : before ++ idx :: after ≡ₚ idx :: before ++ after) by (symmetry; apply Permutation_middle).
  rewrite Hp in Hnd. apply NoDup_cons in Hnd as [Hnew Hnd].
  split; [|intros i Hw; apply Hall; rewrite Hp; by right]. split; [exact Hnd|]. cbn [ls_waiting ls_out].
  split; [by rewrite store_length|]. intros i x Hx. specialize (Hi i x Hx).
  destruct (decide (idx = i)) as [<-|Hne].
  - rewrite decide_True in Hi by (rewrite Hp; by left). rewrite decide_False by done.
    by apply store_same.
  - rewrite store_other by done. rewrite Hi. f_equal.
    destruct (decide (i ∈ before ++ after)) as [Hin|Hin].
    + rewrite decide_True; [done|]. rewrite Hp. by right.
    + rewrite decide_False; [done|]. rewrite Hp. intros [E|E]%elem_of_cons; [by subst|done].
Qed.

Lemma steps_progress out0 st st' : progress out0 st → rtc launch_step st st' → progress out0 st'.
Proof.
  intros Hp Hs. induction Hs as [|st st1 st' H1 _ IH]; [done|]. apply IH.
  by apply (step_progress out0 (ls_waiting st) st st1).
Qed.

(** Each thread runs once, so a launch ends. *)
Lemma launch_terminates st : Acc (flip launch_step) st.
Proof.
  remember (length (ls_waiting st)) as n eqn:En. revert st En. induction n as [n IH] using lt_wf_ind. intros st ->.
  constructor. intros st' Hs. unfold flip in Hs. apply (IH (length (ls_waiting st'))); [|done].
  destruct Hs. simpl. rewrite !length_app. simpl. lia.
Qed.

Lemma run_in_order l out : rtc launch_step {| ls_waiting := l; ls_out := out |} {| ls_waiting := []; ls_out := fold_left store l out |}.
Proof.
  revert out. induction l as [|i l IH]; intros out; [apply rtc_refl|]. cbn [fold_left].
  eapply rtc_l; [exact (thread_runs [] i l out)|apply IH].
Qed.

Lemma start_progress count : progress (replicate count (of_lit 0.0)) (launch_start count).
Proof.
  split; [apply NoDup_seq|]. split; [done|]. intros i x Hx. cbn [launch_start ls_out ls_waiting]. rewrite Hx.
  apply lookup_replicate in Hx as [-> Hi]. rewrite decide_True; [done|]. apply elem_of_seq. split; [lia|].
  unfold grid. pose proof (Nat.div_mod_eq (count + 255) 256). pose proof (Nat.mod_upper_bound (count + 255) 256). lia.
Qed.

(** The array a launch of [count] threads' worth of work leaves, in any order. *)
Lemma launch_result count out : rtc launch_step (launch_start count) {| ls_waiting := []; ls_out := out |} →
  out = map (fun i => default (of_lit 0.0) (body i)) (seq 0 count).
Proof.
  intros Hs. destruct (steps_progress _ _ _ (start_progress count) Hs) as (_ & Hlen & Hi). cbn [ls_out ls_waiting] in *.
  rewrite length_replicate in Hlen. apply list_eq. intros i. destruct (decide (i < count)%nat) as [Hlt|Hge].
  - rewrite (Hi i (of_lit 0.0)) by (by apply lookup_replicate). rewrite decide_False by apply not_elem_of_nil.
    change (map ?f ?l) with (f <$> l). rewrite list_lookup_fmap, lookup_seq_lt by done. done.
  - rewrite !lookup_ge_None_2; [done|rewrite length_map, length_seq; lia|lia].
Qed.

Lemma launch_any_order count out : (0 < count)%nat →
  rtc launch_step (launch_start count) {| ls_waiting := []; ls_out := out |} → launch count = Ok out.
Proof.
  intros Hc Hs. unfold launch. destruct (Nat.eqb_spec (grid count) 0) as [H0|_].
  { exfalso. unfold grid in H0. apply Nat.div_small_iff in H0; lia. }
  f_equal. rewrite (launch_result count out Hs). apply launch_result. apply run_in_order.
Qed.

Lemma launch_values count : (0 < count)%nat → launch count = Ok (map (fun i => default (of_lit 0.0) (body i)) (seq 0 count)).
Proof.
  intros Hc. apply launch_any_order; [done|]. pose proof (run_in_order (threads count) (replicate count (of_lit 0.0))) as Hr.
  rewrite <- (launch_result count _ Hr). exact Hr.
Qed.
End launch.

(** ** [CudaScoringEngine]

    An engine is its flag [available]; when it is set, the constructor has
    compiled the three modules. *)
Definition CudaScoringEngine := bool.

Definition kernel_files : list string := ["cache_score_kernel.cu"; "topology_cost_kernel.cu"; "load_balance_kernel.cu"].

(** [_compile_modules]: [read] reads a file of the kernel directory,
    [source_module] compiles it. *)
Definition _compile_modules (read : string → result string) (source_module : string → result unit) : result unit :=
  foldM (fun _ file => source ← read file; source_module source) tt kernel_files.

(** The constructor: [use_cuda] is the environment variable; numpy and pycuda
    are there or not. *)
Definition make_cuda_engine (use_cuda : string) (numpy : bool) (source_module : option (string → result unit))
    (read : string → result string) : result CudaScoringEngine :=
  let enabled := String.eqb use_cuda "1" in
  match enabled && numpy, source_module with
  | true, Some compile => _ ← _compile_modules read compile; Ok true
  | _, _ => Ok false
  end.

Definition _gpu_cache_bonus (cache_hits saved_tokens : list float) : result (list float) :=
  let count := length cache_hits in
  let hits := map to_f32 cache_hits in
  let saved := map to_f32 saved_tokens in
  launch (cache_score_kernel hits saved count) count.

Definition _gpu_topology_penalty (topology_affinity network_costs : list float) : result (list float) :=
  let count := length topology_affinity in
  let affinity := map to_f32 topology_affinity in
  let network := map to_f32 network_costs in
  launch (topology_cost_kernel affinity network count) count.

Definition _gpu_load_penalty (queue_delay congestion memory_headroom : list float) : result (list float) :=
  let count := length queue_delay in
  let queue := map to_f32 queue_delay in
  let cong := map to_f32 congestion in
  let memory := map to_f32 memory_headroom in
  launch (load_balance_kernel queue cong memory count) count.

Definition cache_bonus (hit saved : float) : float := fround 4 (hit * (1.0 + (saved / 8192.0))).

Definition topology_penalty (affinity net : float) : float := fround 4 (pymax 0.0 (net - affinity)).

Definition load_penalty (queue cong mem : float) : float :=
  fround 4 ((queue / 1000.0) + cong + pymax 0.0 (1.0 - (mem / 64.0))).

(** [zip] stops at the shortest list. *)
Definition zip3 {A B C} (l : list A) (k : list B) (m : list C) : list (A * B * C) :=
  zip (zip l k) m.

(** The three assignments to [candidate.score_breakdown]. *)
Definition set_features (c : CandidatePlacement) (cache topo load : float) : CandidatePlacement :=
  set_score_breakdown c
    (dset (dset (dset (cand_score_breakdown c) "cuda_cache_bonus" cache)
      "cuda_topology_penalty" topo) "cuda_load_penalty" load).

(** The final loop: candidates beyond the shortest column are left alone. *)
Fixpoint assign_features (candidates : list CandidatePlacement) (cache topo load : list float) :
    list CandidatePlacement :=
  match candidates, cache, topo, load with
  | c :: cs, x :: xs, y :: ys, z :: zs => set_features c x y z :: assign_features cs xs ys zs
  | _, _, _, _ => candidates
  end.

Definition enrich_candidates (available : CudaScoringEngine) (candidates : list CandidatePlacement) :
    result (list CandidatePlacement) :=
  let cache_hits := map cand_expected_cache_hit_ratio candidates in
  saved_tokens ← mapR float_of_int (map cand_expected_cache_saved_tokens candidates);
  let network_costs := map cand_network_cost candidates in
  let topology_affinity := map cand_topology_affinity candidates in
  let queue_delay := map cand_queue_delay_ms candidates in
  let congestion := map cand_congestion_score candidates in
  let memory_headroom := map cand_memory_headroom_gb candidates in
  '(cache, topo, load) ←
    (if available : bool then
       cache ← _gpu_cache_bonus cache_hits saved_tokens;
       topo ← _gpu_topology_penalty topology_affinity network_costs;
       load ← _gpu_load_penalty queue_delay congestion memory_headroom;
       Ok (cache, topo, load)
     else
       Ok (map (fun hs => cache_bonus hs.1 hs.2) (zip cache_hits saved_tokens),
           map (fun an => topology_penalty an.1 an.2) (zip topology_affinity network_costs),
           map (fun qcm => load_penalty qcm.1.1 qcm.1.2 qcm.2)
             (zip3 queue_delay congestion memory_headroom)));
  Ok (assign_features candidates cache topo load).

(** ** The CPU path, candidate by candidate *)

Definition with_cpu_features (c : CandidatePlacement) : CandidatePlacement :=
  set_features c
    (cache_bonus (cand_expected_cache_hit_ratio c) (of_Z (cand_expected_cache_saved_tokens c)))
    (topology_penalty (cand_topology_affinity c) (cand_network_cost c))
    (load_penalty (cand_queue_delay_ms c) (cand_congestion_score c) (cand_memory_headroom_gb c)).

Definition saved_ok (c : CandidatePlacement) : Prop :=
  (0 <= cand_expected_cache_saved_tokens c <= 2 ^ 53)%Z.

Lemma float_of_int_small (n : Z) : (0 <= n <= 2 ^ 53)%Z → float_of_int n = Ok (of_Z n).
Proof. intros. unfold float_of_int. by rewrite of_Z_exact by lia. Qed.

Lemma enrich_cpu (cs : list CandidatePlacement) : Forall saved_ok cs →
  enrich_candidates false cs = Ok (map with_cpu_features cs).
Proof.
  intros Hs. unfold enrich_candidates.
  assert (mapR float_of_int (map cand_expected_cache_saved_tokens cs) =
          Ok (map (fun c => of_Z (cand_expected_cache_saved_tokens c)) cs)) as ->.
  { induction Hs as [|c cs Hc Hs IH]; [reflexivity|]. cbn [map mapR].
    rewrite float_of_int_small by exact Hc. cbn. rewrite IH. reflexivity. }
  cbn. f_equal. clear Hs. induction cs as [|c cs IH]; [reflexivity|].
  cbn. unfold with_cpu_features at 1. f_equal. exact IH.
Qed.

(** Enrichment touches nothing but the three features. *)
Lemma set_features_get c x y z k :
  k ∉ ["cuda_cache_bonus"; "cuda_topology_penalty"; "cuda_load_penalty"] →
  dget (cand_score_breakdown (set_features c x y z)) k = dget (cand_score_breakdown c) k.
Proof. intros Hk. simpl. rewrite !dget_set_ne; [done|set_solver..]. Qed.

(** On the CPU path every candidate keeps its place and all its fields; its
    breakdown gains the three features computed from its own numbers, and keeps
    every other entry; the topology penalty is never negative. *)
Theorem enrich_candidates_cpu (cs : list CandidatePlacement) :
  Forall saved_ok cs →
  ∃ cs', enrich_candidates false cs = Ok cs' ∧ Forall2 (fun c c' =>
    c' = set_score_breakdown c (cand_score_breakdown c') ∧
    dget (cand_score_breakdown c') "cuda_cache_bonus" =
      Some (cache_bonus (cand_expected_cache_hit_ratio c) (of_Z (cand_expected_cache_saved_tokens c))) ∧
    dget (cand_score_breakdown c') "cuda_topology_penalty" =
      Some (topology_penalty (cand_topology_affinity c) (cand_network_cost c)) ∧
    dget (cand_score_breakdown c') "cuda_load_penalty" =
      Some (load_penalty (cand_queue_delay_ms c) (cand_congestion_score c) (cand_memory_headroom_gb c)) ∧
    (0.0 <= topology_penalty (cand_topology_affinity c) (cand_network_cost c)) ∧
    (∀ k, k ∉ ["cuda_cache_bonus"; "cuda_topology_penalty"; "cuda_load_penalty"] →
      dget (cand_score_breakdown c') k = dget (cand_score_breakdown c) k)) cs cs'.
Proof.
  intros Hs. exists (map with_cpu_features cs). split; [exact (enrich_cpu cs Hs)|].
  clear Hs. induction cs as [|c cs IH]; cbn [map]; constructor; [|exact IH].
  unfold with_cpu_features. cbn [set_features set_score_breakdown cand_score_breakdown].
  split; [reflexivity|]. split; [by rewrite 2!dget_set_ne, dget_set_eq|].
  split; [by rewrite dget_set_ne, dget_set_eq|]. split; [apply dget_set_eq|].
  split; [apply fround_nonneg; [lia|]; apply pymax_ge_l; nn|].
  intros k Hk. rewrite !dget_set_ne; [reflexivity|set_solver..].
Qed.

Lemma enrich_candidates_cpu_witness : ∃ cs',
  enrich_candidates false [sample_candidate] = Ok cs' ∧ length cs' = 1%nat.
Proof.
  destruct (enrich_candidates_cpu [sample_candidate]) as (cs' & H & Hf).
  - repeat constructor; vm_compute; discriminate.
  - exists cs'. split; [exact H|]. symmetry. exact (Forall2_length _ _ _ Hf).
Defined.

(** ** The device path, candidate by candidate

    The numbers go to the device as binary32 and come back unrounded. *)

Definition device_cache_bonus (c : CandidatePlacement) : float :=
  fmul32 (to_f32 (cand_expected_cache_hit_ratio c))
    (fadd32 1.0 (fdiv32 (to_f32 (of_Z (cand_expected_cache_saved_tokens c))) 8192.0)).

Definition device_topology_penalty (c : CandidatePlacement) : float :=
  let penalty := fsub32 (to_f32 (cand_network_cost c)) (to_f32 (cand_topology_affinity c)) in
  if (0.0 <? penalty)%float then penalty else of_lit 0.0.

Definition device_load_penalty (c : CandidatePlacement) : float :=
  let headroom := fsub32 1.0 (fdiv32 (to_f32 (cand_memory_headroom_gb c)) 64.0) in
  fadd32 (fadd32 (fdiv32 (to_f32 (cand_queue_delay_ms c)) 1000.0) (to_f32 (cand_congestion_score c)))
    (if (headroom <? 0.0)%float then of_lit 0.0 else headroom).

Definition with_device_features (c : CandidatePlacement) : CandidatePlacement :=
  set_features c (device_cache_bonus c) (device_topology_penalty c) (device_load_penalty c).

(** The columns that go to the device. *)
Definition column32 (f : CandidatePlacement → float) (cs : list CandidatePlacement) : list float := map to_f32 (map f cs).
Definition saved_column (c : CandidatePlacement) : float := of_Z (cand_expected_cache_saved_tokens c).

Definition cache_body (cs : list CandidatePlacement) : nat → option float :=
  cache_score_kernel (column32 cand_expected_cache_hit_ratio cs) (column32 saved_column cs) (length cs).
Definition topology_body (cs : list CandidatePlacement) : nat → option float :=
  topology_cost_kernel (column32 cand_topology_affinity cs) (column32 cand_network_cost cs) (length cs).
Definition load_body (cs : list CandidatePlacement) : nat → option float :=
  load_balance_kernel (column32 cand_queue_delay_ms cs) (column32 cand_congestion_score cs)
    (column32 cand_memory_headroom_gb cs) (length cs).

Lemma saved_tokens_column (cs : list CandidatePlacement) : Forall saved_ok cs →
  mapR float_of_int (map cand_expected_cache_saved_tokens cs) = Ok (map saved_column cs).
Proof.
  induction 1 as [|c cs Hc Hs IH]; [reflexivity|]. cbn [map mapR].
  rewrite float_of_int_small by exact Hc. cbn. rewrite IH. reflexivity.
Qed.

Lemma column32_lookup f cs (i : nat) : column32 f cs !! i = (fun c => to_f32 (f c)) <$> cs !! i.
Proof.
  unfold column32. rewrite map_map. exact (list_lookup_fmap (fun c => to_f32 (f c)) cs i).
Qed.

(** A kernel that gives every candidate its value fills the array with them. *)
Lemma body_column (body : nat → option float) (f : CandidatePlacement → float) (cs : list CandidatePlacement) :
  (∀ i c, cs !! i = Some c → body i = Some (f c)) →
  map (fun i => default (of_lit 0.0) (body i)) (seq 0 (length cs)) = map f cs.
Proof.
  intros Hb. apply list_eq. intros i.
  etrans; [exact (list_lookup_fmap _ (seq 0 (length cs)) i)|]. etrans; [|symmetry; exact (list_lookup_fmap f cs i)].
  destruct (cs !! i) as [c|] eqn:E.
  - rewrite lookup_seq_lt by (by eapply lookup_lt_Some). simpl. by rewrite (Hb i c E).
  - rewrite lookup_ge_None_2; [done|]. rewrite length_seq. by apply lookup_ge_None.
Qed.

Ltac kernel_at i := match goal with H : ?cs !! i = Some ?c |- _ =>
  let Hlt := fresh in pose proof (lookup_lt_Some _ _ _ H) as Hlt;
  destruct (Nat.leb_spec (length cs) i); [lia|]; rewrite !column32_lookup, H; reflexivity end.

Lemma cache_body_at cs i c : cs !! i = Some c → cache_body cs i = Some (device_cache_bonus c).
Proof. intros H. unfold cache_body, cache_score_kernel. kernel_at i. Qed.
Lemma topology_body_at cs i c : cs !! i = Some c → topology_body cs i = Some (device_topology_penalty c).
Proof. intros H. unfold topology_body, topology_cost_kernel. kernel_at i. Qed.
Lemma load_body_at cs i c : cs !! i = Some c → load_body cs i = Some (device_load_penalty c).
Proof. intros H. unfold load_body, load_balance_kernel. kernel_at i. Qed.

(** A launch over the candidates, in any order of its threads. *)
Definition launch_gives (body : nat → option float) (count : nat) (out : list float) : Prop :=
  ∀ out', rtc (launch_step body) (launch_start count) {| ls_waiting := []; ls_out := out' |} → out' = out.

Lemma launch_column body (f : CandidatePlacement → float) (cs : list CandidatePlacement) : cs ≠ [] → (∀ i c, cs !! i = Some c → body i = Some (f c)) →
  launch body (length cs) = Ok (map f cs) ∧ launch_gives body (length cs) (map f cs).
Proof.
  intros Hne Hb. assert (0 < length cs)%nat by (destruct cs; [done|simpl; lia]). split.
  - rewrite launch_values by done. f_equal. by apply body_column.
  - intros out' Hs. rewrite (launch_result body _ _ Hs). by apply body_column.
Qed.

Lemma gpu_columns cs : cs ≠ [] →
  _gpu_cache_bonus (map cand_expected_cache_hit_ratio cs) (map saved_column cs) = Ok (map device_cache_bonus cs) ∧
  _gpu_topology_penalty (map cand_topology_affinity cs) (map cand_network_cost cs) = Ok (map device_topology_penalty cs) ∧
  _gpu_load_penalty (map cand_queue_delay_ms cs) (map cand_congestion_score cs) (map cand_memory_headroom_gb cs) =
    Ok (map device_load_penalty cs).
Proof.
  intros Hne. unfold _gpu_cache_bonus, _gpu_topology_penalty, _gpu_load_penalty. rewrite !length_map.
  repeat split.
  - apply (launch_column (cache_body cs) _ cs Hne), cache_body_at.
  - apply (launch_column (topology_body cs) _ cs Hne), topology_body_at.
  - apply (launch_column (load_body cs) _ cs Hne), load_body_at.
Qed.

Lemma enrich_device (cs : list CandidatePlacement) : Forall saved_ok cs → cs ≠ [] →
  enrich_candidates true cs = Ok (map with_device_features cs).
Proof.
  intros Hs Hne. unfold enrich_candidates. rewrite (saved_tokens_column cs Hs). cbn [mbind result_bind].
  destruct (gpu_columns cs Hne) as (-> & -> & ->). cbn [mbind result_bind]. f_equal.
  clear Hs Hne. induction cs as [|c cs IH]; [reflexivity|]. cbn [map assign_features]. f_equal. exact IH.
Qed.

(** Without a candidate the device has no block to run. *)
Lemma enrich_device_empty : enrich_candidates true [] = Err LibraryError.
Proof. reflexivity. Qed.

(** C23: on the device, every candidate gains exactly the three features the
    kernels compute from its own numbers in binary32, the topology penalty never
    negative; each launch ends, and whatever the order in which its threads run,
    it leaves the same array. *)
Theorem enrich_candidates_device (cs : list CandidatePlacement) :
  Forall saved_ok cs → cs ≠ [] →
  enrich_candidates true cs = Ok (map with_device_features cs) ∧
  (launch_gives (cache_body cs) (length cs) (map device_cache_bonus cs) ∧
   launch_gives (topology_body cs) (length cs) (map device_topology_penalty cs) ∧
   launch_gives (load_body cs) (length cs) (map device_load_penalty cs)) ∧
  Forall (fun body => Acc (flip (launch_step body)) (launch_start (length cs))) [cache_body cs; topology_body cs; load_body cs] ∧
  Forall (fun c => (0.0 <= device_topology_penalty c)) cs.
Proof.
  intros Hs Hne. split; [by apply enrich_device|]. split; [|split].
  - split_and!; apply launch_column; try exact Hne; [apply cache_body_at|apply topology_body_at|apply load_body_at].
  - repeat apply Forall_cons_2; [apply launch_terminates..|apply Forall_nil_2].
  - apply Forall_forall. intros c _. unfold device_topology_penalty. cbv zeta.
    destruct (0.0 <? _)%float eqn:E; [by apply flt_le|flit].
Qed.

Lemma enrich_candidates_device_witness : ∃ c,
  enrich_candidates true [sample_candidate] = Ok [c] ∧
  launch_gives (cache_body [sample_candidate]) 1 [device_cache_bonus sample_candidate] ∧
  dget (cand_score_breakdown c) "cuda_load_penalty" = Some (to_f32 (of_lit 0.1)).
Proof.
  destruct (enrich_candidates_device [sample_candidate]) as (H & (Hc & _ & _) & _ & _);
    [repeat constructor; vm_compute; discriminate|discriminate|].
  eexists. split; [exact H|]. split; [exact Hc|]. vm_compute. reflexivity.
Defined.
