(* ===== verification/GpuTopo.v ===== *)
(** * [topology/gpu_topology_parser.py]: parsing [nvidia-smi topo -m]

    The text is a byte string; line and word boundaries are the ASCII ones, the
    digits of the two regular expressions the decimal digits.  Reading the file
    and the command line are in [Scripts]. *)

From S2P Require Import Prelude PyFloat PyOrder PyDict PyJson.

Local Open Scope Z_scope.

Definition BANDWIDTH_TIERS : dict string float :=
  [("X", of_lit 0.0%float); ("NV1", of_lit 1.0%float); ("NV2", of_lit 1.2%float);
   ("NV4", of_lit 1.4%float); ("NV8", of_lit 1.8%float); ("NV12", of_lit 2.0%float);
   ("NV16", of_lit 2.2%float); ("NV18", of_lit 2.3%float); ("NVSW", of_lit 2.5%float);
   ("PIX", of_lit 0.65%float); ("PXB", of_lit 0.45%float); ("PHB", of_lit 0.35%float);
   ("NODE", of_lit 0.28%float); ("SYS", of_lit 0.18%float); ("SOC", of_lit 0.12%float)].

Definition LATENCY_WEIGHTS : dict string float :=
  [("X", of_lit 0.0%float); ("NV1", of_lit 0.15%float); ("NV2", of_lit 0.12%float);
   ("NV4", of_lit 0.1%float); ("NV8", of_lit 0.08%float); ("NV12", of_lit 0.07%float);
   ("NV16", of_lit 0.06%float); ("NV18", of_lit 0.05%float); ("NVSW", of_lit 0.04%float);
   ("PIX", of_lit 0.4%float); ("PXB", of_lit 0.55%float); ("PHB", of_lit 0.72%float);
   ("NODE", of_lit 0.88%float); ("SYS", of_lit 1.0%float); ("SOC", of_lit 1.1%float)].

Record GpuTopologySnapshot := {
  gt_devices : list string;
  gt_relations : dict string (dict string string);
  gt_adjacency_matrix : list (list float);
  gt_latency_weights : list (list float);
  gt_bandwidth_tiers : list (list float)
}.

(** ** Text *)

Notation text := (list Ascii.ascii).

Definition is_line_break (c : Ascii.ascii) : bool :=
  let n := code c in (10 <=? n) && (n <=? 13) || (28 <=? n) && (n <=? 30).

(** [text.splitlines()]; [current] is the line read so far, [after_cr] says a
    carriage return has just ended a line. *)
Fixpoint split_lines (current : text) (after_cr : bool) (l : text) : list text :=
  match l with
  | [] => match current with [] => [] | _ :: _ => [current] end
  | c :: l' =>
      if after_cr && (code c =? 10) then split_lines [] false l'
      else if is_line_break c then current :: split_lines [] (code c =? 13) l'
      else split_lines (current ++ [c]) false l'
  end.

(** [line.rstrip()] *)
Definition rstrip (l : text) : text := reverse (drop_spaces (reverse l)).

(** [l.startswith(p)] and [p in l] *)
Fixpoint starts_with (p l : text) : bool :=
  match p, l with
  | [], _ => true
  | a :: p', b :: l' => Ascii.eqb a b && starts_with p' l'
  | _, [] => false
  end.

Fixpoint contains (p l : text) : bool :=
  starts_with p l || match l with [] => false | _ :: l' => contains p l' end.

Fixpoint digits_prefix (l : text) : nat :=
  match l with
  | c :: l' => if is_digit c then S (digits_prefix l') else O
  | [] => O
  end.

(** The length of a match of [GPU\d+|NIC\d+] at the head of [l]. *)
Definition device_at (l : text) : option nat :=
  if starts_with (chars "GPU") l || starts_with (chars "NIC") l then
    match digits_prefix (drop 3 l) with O => None | n => Some (3 + n)%nat end
  else None.

(** [re.findall]: after a match the scan resumes behind it. *)
Fixpoint find_devices (skip : nat) (l : text) : list string :=
  match l with
  | [] => []
  | _ :: l' =>
      match skip with
      | S k => find_devices k l'
      | O =>
          match device_at l with
          | Some n => unchars (take n l) :: find_devices (n - 1) l'
          | None => find_devices 0 l'
          end
      end
  end.

(** [re.match(r"^(GPU\d+|NIC\d+)\s", line)] *)
Definition device_line (line : text) : bool :=
  match device_at line with
  | Some n => match line !! n with Some c => is_space c | None => false end
  | None => false
  end.

Definition is_gpu (device : string) : bool := starts_with (chars "GPU") (chars device).

(** ** The parser *)

Definition text_lines (t : string) : list text :=
  map rstrip (filter (fun l => strip_chars l ≠ []) (split_lines [] false (chars t))).

Definition header_line (lines : list text) : result text :=
  get_or StopIteration
    (head (filter (fun l => contains (chars "GPU") l && contains (chars "CPU Affinity") l = true) lines)).

(** The loop over the lines, up to the legend. *)
Fixpoint read_relations (devices : list string) (lines : list text)
    (relations : dict string (dict string string)) : dict string (dict string string) :=
  match lines with
  | [] => relations
  | line :: rest =>
      if starts_with (chars "Legend") line then relations
      else if negb (device_line line) then read_relations devices rest relations
      else
        let parts := map unchars (split_words [] line) in
        let source := default "" (head parts) in
        let edges := take (length devices) (drop 1 parts) in
        if is_gpu source
        then read_relations devices rest
               (dset relations source
                  (fold_left (fun d te => dset d te.1 te.2) (zip devices edges) []))
        else read_relations devices rest relations
  end.

Definition relation_cost (relation : string) : float :=
  let bw := dget_or (of_lit 0.1%float) BANDWIDTH_TIERS relation in
  let lat := dget_or (of_lit 1.2%float) LATENCY_WEIGHTS relation in
  if String.eqb relation "X" then of_lit 0.0%float
  else pymax 0.01 (1.2 - bw + lat)%float.

(** One cell: the rounded cost, the latency weight, the bandwidth tier. *)
Definition matrix_cell (relations : dict string (dict string string)) (source target : string) :
    result (float * float * float) :=
  row ← get_or KeyError (dget relations source);
  relation ← get_or KeyError (dget row target);
  Ok (fround 4 (relation_cost relation),
      dget_or (of_lit 1.2%float) LATENCY_WEIGHTS relation,
      dget_or (of_lit 0.1%float) BANDWIDTH_TIERS relation).

Definition from_text (t : string) : result GpuTopologySnapshot :=
  let lines := text_lines t in
  header ← header_line lines;
  let devices := find_devices 0 header in
  let relations := read_relations devices lines [] in
  let gpu_devices := filter (fun d => is_gpu d = true) devices in
  rows ← mapR (fun source => mapR (matrix_cell relations source) gpu_devices) gpu_devices;
  Ok {| gt_devices := gpu_devices;
        gt_relations :=
          map (fun sm => (sm.1, filter (fun te => te.1 ∈ gpu_devices) sm.2))
            (filter (fun sm => sm.1 ∈ gpu_devices) relations);
        gt_adjacency_matrix := map (map (fun c => c.1.1)) rows;
        gt_latency_weights := map (map (fun c => c.1.2)) rows;
        gt_bandwidth_tiers := map (map (fun c => c.2)) rows |}.

(** The positive cells of a matrix, row by row. *)
Definition positive_cells (m : list (list float)) : list float :=
  filter (fun x => (0.0 < x)%float) (concat m).

Definition max_bandwidth : float := default NaN (max_by fltb id (dvalues BANDWIDTH_TIERS)).

Definition overall_affinity (s : GpuTopologySnapshot) : result float :=
  match positive_cells (gt_bandwidth_tiers s) with
  | [] => Ok (of_lit 0.0%float)
  | (_ :: _) as values =>
      mean ← py_div (fsum values) (of_Z (Z.of_nat (length values)));
      scaled ← py_div mean max_bandwidth;
      Ok (fround 4 scaled)
  end.

Definition average_cost (s : GpuTopologySnapshot) : result float :=
  match positive_cells (gt_adjacency_matrix s) with
  | [] => Ok (of_lit 1.0%float)
  | (_ :: _) as values =>
      mean ← py_div (fsum values) (of_Z (Z.of_nat (length values)));
      Ok (fround 4 mean)
  end.

Definition gt_to_dict (s : GpuTopologySnapshot) : result json :=
  affinity ← overall_affinity s;
  cost ← average_cost s;
  let matrix m := JList (map (fun row => JList (map JFloat row)) m) in
  Ok (JObj [("devices", JList (map JStr (gt_devices s)));
            ("relations", JObj (map (fun sm =>
               (sm.1, JObj (map (fun te => (te.1, JStr te.2)) sm.2))) (gt_relations s)));
            ("adjacency_matrix", matrix (gt_adjacency_matrix s));
            ("latency_weights", matrix (gt_latency_weights s));
            ("bandwidth_tiers", matrix (gt_bandwidth_tiers s));
            ("overall_affinity", JFloat affinity); ("average_cost", JFloat cost)]).

(** ** The parsed matrices *)

Lemma table_keys : dkeys LATENCY_WEIGHTS = dkeys BANDWIDTH_TIERS.
Proof. reflexivity. Qed.

(** A relation of the tables, or an unknown one. *)
Lemma relation_cases (r : string) :
  r ∈ dkeys BANDWIDTH_TIERS ∨ (dget BANDWIDTH_TIERS r = None ∧ dget LATENCY_WEIGHTS r = None).
Proof.
  destruct (decide (r ∈ dkeys BANDWIDTH_TIERS)) as [H|H]; [by left|right].
  split; apply dget_None; [exact H|]. by rewrite table_keys.
Qed.

Definition in_range (x : float) : Prop := (0.0 <= x)%float ∧ (x <= 2.5)%float.

Lemma bandwidth_range (r : string) : in_range (dget_or (of_lit 0.1%float) BANDWIDTH_TIERS r).
Proof.
  destruct (relation_cases r) as [H|[H _]].
  - unfold dkeys, BANDWIDTH_TIERS in H. cbn [map fst] in H.
    repeat (apply elem_of_cons in H as [->|H]; [split; flit|]). by apply elem_of_nil in H.
  - unfold dget_or. rewrite H. split; flit.
Qed.

Lemma latency_range (r : string) :
  (0.0 <= dget_or (of_lit 1.2%float) LATENCY_WEIGHTS r)%float ∧ (dget_or (of_lit 1.2%float) LATENCY_WEIGHTS r <= 1.2)%float.
Proof.
  destruct (relation_cases r) as [H|[_ H]].
  - unfold dkeys, BANDWIDTH_TIERS in H. cbn [map fst] in H.
    repeat (apply elem_of_cons in H as [->|H]; [split; flit|]). by apply elem_of_nil in H.
  - unfold dget_or. rewrite H. split; flit.
Qed.

Lemma relation_cost_range (r : string) : in_range (fround 4 (relation_cost r)) ∧
  (r ≠ "X" → (0.01 <= fround 4 (relation_cost r))%float).
Proof.
  destruct (relation_cases r) as [H|[H1 H2]].
  - unfold dkeys, BANDWIDTH_TIERS in H. cbn [map fst] in H.
    repeat (apply elem_of_cons in H as [->|H]; [split; [split; flit|intros; first [flit|congruence]]|]).
    by apply elem_of_nil in H.
  - unfold relation_cost, dget_or. rewrite H1, H2. simpl.
    destruct (String.eqb_spec r "X") as [->|Hn]; [discriminate|]. split; [split; flit|intros; flit].
Qed.

(** A square matrix over the devices, cell by cell. *)
Definition square {A} (P : string → string → A → Prop) (devices : list string) (m : list (list A)) : Prop :=
  Forall2 (fun source row => Forall2 (P source) devices row) devices m.

(** What a parsed snapshot is: GPUs only, square matrices in device order, each
    cell read from the relation of its row and column. *)
Record snapshot_wf (s : GpuTopologySnapshot) : Prop := {
  sw_gpus : Forall (fun d => is_gpu d = true) (gt_devices s);
  sw_cost : square (fun _ _ c => in_range c) (gt_devices s) (gt_adjacency_matrix s);
  sw_latency : square (fun _ _ l => (0.0 <= l)%float ∧ (l <= 1.2)%float) (gt_devices s) (gt_latency_weights s);
  sw_bandwidth : square (fun _ _ b => in_range b) (gt_devices s) (gt_bandwidth_tiers s);
  sw_relations : ∀ a row, (a, row) ∈ gt_relations s →
    a ∈ gt_devices s ∧ Forall (fun te => te.1 ∈ gt_devices s) row
}.

Lemma Forall2_map_r {A B C} (P : A → C → Prop) (f : B → C) l k :
  Forall2 (fun x y => P x (f y)) l k → Forall2 P l (map f k).
Proof. induction 1; simpl; by constructor. Qed.

Lemma square_map {A B} (P : string → string → B → Prop) (f : A → B) ds m :
  square (fun s t x => P s t (f x)) ds m → square P ds (map (map f) m).
Proof.
  unfold square. intros H. apply Forall2_map_r. eapply Forall2_impl; [exact H|].
  intros s row Hr. by apply Forall2_map_r.
Qed.

(** What [from_text] computes, piece by piece. *)
Lemma from_text_rows (t : string) (s : GpuTopologySnapshot) : from_text t = Ok s →
  ∃ header rel rows, header_line (text_lines t) = Ok header ∧
    gt_devices s = filter (fun d => is_gpu d = true) (find_devices 0 header) ∧
    rel = read_relations (find_devices 0 header) (text_lines t) [] ∧
    square (fun a b x => matrix_cell rel a b = Ok x) (gt_devices s) rows ∧
    gt_adjacency_matrix s = map (map (fun c => c.1.1)) rows ∧
    gt_latency_weights s = map (map (fun c => c.1.2)) rows ∧
    gt_bandwidth_tiers s = map (map (fun c => c.2)) rows ∧
    gt_relations s = map (fun sm => (sm.1, filter (fun te => te.1 ∈ gt_devices s) sm.2))
      (filter (fun sm => sm.1 ∈ gt_devices s) rel).
Proof.
  unfold from_text. intros H. apply bind_ok in H as (h & Hh & H). apply bind_ok in H as (rows & Hr & H).
  injection H as <-. simpl. eexists h, _, rows.
  split; [exact Hh|]. split; [done|]. split; [reflexivity|]. split; [|done].
  apply mapR_ok in Hr. eapply Forall2_impl; [exact Hr|]. intros src row Hrow. by apply mapR_ok in Hrow.
Qed.

Lemma matrix_cell_ok rel a b x : matrix_cell rel a b = Ok x →
  in_range x.1.1 ∧ ((0.0 <= x.1.2)%float ∧ (x.1.2 <= 1.2)%float) ∧ in_range x.2.
Proof.
  unfold matrix_cell. intros H. apply bind_ok in H as (row & _ & H). apply bind_ok in H as (r & _ & H).
  injection H as <-. cbn [fst snd].
  split; [apply relation_cost_range|]. split; [apply latency_range|apply bandwidth_range].
Qed.

Lemma from_text_wf (t : string) (s : GpuTopologySnapshot) : from_text t = Ok s → snapshot_wf s.
Proof.
  intros H. destruct (from_text_rows t s H) as (h & rel & rows & _ & Hg & _ & Hsq & E1 & E2 & E3 & Er).
  assert (Himp : ∀ P : float * float * float → Prop,
    (∀ a b x, matrix_cell rel a b = Ok x → P x) → square (fun _ _ x => P x) (gt_devices s) rows).
  { intros P HP. eapply Forall2_impl; [exact Hsq|]. intros a row Hrow.
    eapply Forall2_impl; [exact Hrow|]. intros b x Hx. exact (HP a b x Hx). }
  constructor; [|rewrite E1; apply square_map|rewrite E2; apply square_map|rewrite E3; apply square_map|].
  - rewrite Hg. apply Forall_forall. intros d Hd. by apply list_elem_of_filter in Hd as [? _].
  - apply (Himp (fun x => in_range x.1.1)). intros a b x Hx. exact (proj1 (matrix_cell_ok _ _ _ _ Hx)).
  - apply (Himp (fun x => (0.0 <= x.1.2)%float ∧ (x.1.2 <= 1.2)%float)).
    intros a b x Hx. exact (proj1 (proj2 (matrix_cell_ok _ _ _ _ Hx))).
  - apply (Himp (fun x => in_range x.2)). intros a b x Hx. exact (proj2 (proj2 (matrix_cell_ok _ _ _ _ Hx))).
  - rewrite Er. intros a row ([a1 row1] & [= -> ->] & [Ha _]%list_elem_of_filter)%list_elem_of_fmap.
    split; [exact Ha|]. apply Forall_forall. intros te Hte. by apply list_elem_of_filter in Hte as [? _].
Qed.

(** ** The two summaries *)

Lemma rows_cells {A} (P : A → Prop) (cols : list string) (rows : list string) (m : list (list A)) :
  Forall2 (fun _ row => Forall2 (fun _ x => P x) cols row) rows m →
  Forall P (concat m) ∧ length (concat m) = (length rows * length cols)%nat.
Proof.
  induction 1 as [|d row rows m Hrow Hm [IH1 IH2]]; [done|]. simpl. split.
  - apply Forall_app. split; [|exact IH1]. clear -Hrow. induction Hrow; by constructor.
  - rewrite length_app, IH2. by rewrite <- (Forall2_length _ _ _ Hrow).
Qed.

Lemma square_cells {A} (P : A → Prop) ds (m : list (list A)) : square (fun _ _ x => P x) ds m →
  Forall P (concat m) ∧ length (concat m) = (length ds * length ds)%nat.
Proof. exact (rows_cells P ds ds m). Qed.

Lemma two_and_a_half : of_lit 2.5%float = Fin (5 * 2 ^ 1073).
Proof. vm_compute. reflexivity. Qed.

(** The mean of values in [[0, 2.5]] is in [[0, 2.5]]. *)
Lemma mean_range (l : list float) : l ≠ [] → Z.of_nat (length l) <= 2 ^ 50 → Forall in_range l →
  ∃ mean, py_div (fsum l) (of_Z (Z.of_nat (length l))) = Ok mean ∧ in_range mean.
Proof.
  intros Hne Hn Hl. set (n := Z.of_nat (length l)) in *.
  assert (Hn1 : 1 <= n) by (destruct l; [done|unfold n; simpl; lia]).
  assert (Hlim : 2 ^ 1130 < limit_z) by (apply Z.ltb_lt; vm_compute; reflexivity).
  assert (Hpow : n * 5 * 2 ^ 1073 <= 2 ^ 1130).
  { replace (2 ^ 1130) with (2 ^ 57 * 2 ^ 1073) by (rewrite <- Z.pow_add_r by lia; f_equal; lia).
    apply Z.mul_le_mono_nonneg_r; lia. }
  destruct (fsum_upper l 5 1073) as [H0 H1]; [lia|lia|fold n; lia|fold n; lia| |].
  { eapply Forall_impl; [exact Hl|]. intros x [Ha Hb]. rewrite two_and_a_half in Hb. split; [exact Ha|exact Hb]. }
  fold n in H1. rewrite <- Z.mul_assoc in H1.
  assert (Hex : (Fin (n * (5 * 2 ^ 1073)) / of_Z n)%float = of_lit 2.5%float).
  { rewrite two_and_a_half. apply mean_exact; [lia|]. rewrite <- two_and_a_half. apply of_lit_wf. flit. }
  assert (Hfin : finite (of_Z n) = true) by (rewrite of_Z_exact by lia; reflexivity).
  assert (Hpos : (0.0 < of_Z n)%float).
  { eapply flt_of_le; [|exact (of_Z_mono 1 n Hn1)]. flit. }
  unfold py_div. assert ((of_Z n =? 0.0)%float = false) as ->.
  { apply not_true_iff_false. intros E. apply feq_eq in E; [|exact (flt_not_nan_r _ _ Hpos)].
    rewrite E in Hpos. rewrite flt_irrefl in Hpos. discriminate Hpos. }
  eexists; split; [reflexivity|]. split; [exact (fdiv_nonneg _ _ Hfin Hpos H0)|].
  rewrite <- Hex. exact (fdiv_mono_l _ _ _ Hfin Hpos H1).
Qed.

Lemma positive_cells_range (ds : list string) m :
  square (fun _ _ x => in_range x) ds m → Z.of_nat (length ds) <= 2 ^ 25 →
  Forall in_range (positive_cells m) ∧ Z.of_nat (length (positive_cells m)) <= 2 ^ 50.
Proof.
  intros Hsq Hn. destruct (square_cells in_range ds m Hsq) as [H1 H2]. unfold positive_cells. split.
  - rewrite Forall_forall in *. intros x [_ Hx]%list_elem_of_filter. by apply H1.
  - pose proof (length_filter (fun x => (0.0 < x)%float) (concat m)). rewrite H2 in H. nia.
Qed.

Lemma summaries_range (t : string) (s : GpuTopologySnapshot) : from_text t = Ok s →
  Z.of_nat (length (gt_devices s)) <= 2 ^ 25 →
  ∃ a c, overall_affinity s = Ok a ∧ average_cost s = Ok c ∧
    (0.0 <= a)%float ∧ (a <= 1.0)%float ∧ (0.0 <= c)%float ∧ (c <= 2.5)%float.
Proof.
  intros Ht Hn. pose proof (from_text_wf t s Ht) as [_ Hc _ Hb].
  destruct (positive_cells_range _ _ Hc Hn) as [C1 C2]. destruct (positive_cells_range _ _ Hb Hn) as [B1 B2].
  assert (Ha : ∃ a, overall_affinity s = Ok a ∧ (0.0 <= a)%float ∧ (a <= 1.0)%float).
  { unfold overall_affinity. destruct (positive_cells (gt_bandwidth_tiers s)) as [|x l] eqn:E.
    - eexists; split; [reflexivity|]. split; flit.
    - destruct (mean_range (x :: l)) as (m & Hm & M0 & M1); [done|exact B2|exact B1|].
      rewrite Hm. cbn [mbind result_bind].
      assert (Hmax : max_bandwidth = of_lit 2.5%float) by (vm_compute; reflexivity). rewrite Hmax.
      assert (Hd : py_div m 2.5 = Ok (m / 2.5)%float) by (unfold py_div; replace (2.5 =? 0.0)%float with false by flit; reflexivity).
      rewrite Hd. cbn [mbind result_bind]. eexists; split; [reflexivity|]. split.
      + apply fround_nonneg; [lia|]. apply fdiv_nonneg; [reflexivity|flit|exact M0].
      + assert (H1 : fround 4 (2.5 / 2.5)%float = of_lit 1.0%float) by flit. rewrite <- H1.
        apply fround_mono; [lia|]. apply fdiv_mono_l; [reflexivity|flit|exact M1]. }
  assert (Hv : ∃ c, average_cost s = Ok c ∧ (0.0 <= c)%float ∧ (c <= 2.5)%float).
  { unfold average_cost. destruct (positive_cells (gt_adjacency_matrix s)) as [|x l] eqn:E.
    - eexists; split; [reflexivity|]. split; flit.
    - destruct (mean_range (x :: l)) as (m & Hm & M0 & M1); [done|exact C2|exact C1|].
      rewrite Hm. cbn [mbind result_bind]. eexists; split; [reflexivity|]. split.
      + apply fround_nonneg; [lia|exact M0].
      + assert (H1 : fround 4 2.5%float = of_lit 2.5%float) by flit. rewrite <- H1.
        apply fround_mono; [lia|exact M1]. }
  destruct Ha as (a & Ha & A0 & A1), Hv as (c & Hv & V0 & V1). exists a, c.
  split; [exact Ha|]. split; [exact Hv|]. split; [exact A0|]. split; [exact A1|]. split; [exact V0|exact V1].
Qed.

(** The affinity of a parsed topology (of at most [2 ^ 25] devices) is a
    number between 0 and 1, and its average cost a number between 0 and 2.5;
    neither ever raises. *)
Theorem parsed_summaries (t : string) (s : GpuTopologySnapshot) : from_text t = Ok s →
  Z.of_nat (length (gt_devices s)) <= 2 ^ 25 →
  ∃ a c, overall_affinity s = Ok a ∧ average_cost s = Ok c ∧
    (0.0 <= a)%float ∧ (a <= 1.0)%float ∧ (0.0 <= c)%float ∧ (c <= 2.5)%float.
Proof. apply summaries_range. Qed.

(** The relations a snapshot keeps are the parsed ones, on its devices. *)
Lemma dget_kept {V} (ds : list string) (d : dict string V) k :
  k ∈ ds → dget (filter (fun kv => kv.1 ∈ ds) d) k = dget d k.
Proof.
  intros Hk. induction d as [|[k1 v] d IH]; [done|]. rewrite filter_cons. simpl.
  destruct (decide (k1 ∈ ds)) as [H1|H1]; simpl; destruct (decide (k = k1)) as [->|Hne]; done.
Qed.

Lemma dget_map_snd {V W} (f : V → W) (d : dict string V) k :
  dget (map (fun kv => (kv.1, f kv.2)) d) k = f <$> dget d k.
Proof. induction d as [|[k1 v] d IH]; [done|]. simpl. by destruct (decide (k = k1)). Qed.

(** *** The lines of the text, as a reader of the table sees them *)

(** The words of a line. *)
Definition line_words (line : text) : list string := map unchars (split_words [] line).

(** The lines above the legend. *)
Fixpoint before_legend (lines : list text) : list text :=
  match lines with
  | [] => []
  | line :: rest => if starts_with (chars "Legend") line then [] else line :: before_legend rest
  end.

(** The row of device [a]. *)
Definition row_of (a : string) (line : text) : Prop :=
  device_line line = true ∧ head (line_words line) = Some a.

#[export] Instance row_of_dec a line : Decision (row_of a line).
Proof. unfold row_of. apply _. Defined.

(** The cell of a matrix at row [i], column [k]. *)
Definition cell_at {A} (m : list (list A)) (i k : nat) : option A := row ← m !! i; row !! k.

(** What the code reads from one row of the table. *)
Definition row_relations (devices : list string) (line : text) : dict string string :=
  fold_left (fun d te => dset d te.1 te.2) (zip devices (take (length devices) (drop 1 (line_words line)))) [].

(** The relations of a device are those of its last row above the legend. *)
Lemma read_relations_row devices a lines rel : is_gpu a = true →
  dget (read_relations devices lines rel) a =
  match last (filter (row_of a) (before_legend lines)) with
  | Some line => Some (row_relations devices line)
  | None => dget rel a
  end.
Proof.
  intros Ha. revert rel. induction lines as [|line lines IH]; intros rel; cbn [read_relations before_legend]; [done|].
  destruct (starts_with (chars "Legend") line); [done|].
  destruct (device_line line) eqn:Hd; cbn [negb].
  2: { rewrite filter_cons_False by (intros [Hdl _]; congruence). apply IH. }
  change (map unchars (split_words [] line)) with (line_words line).
  change (fold_left _ (zip devices _) []) with (row_relations devices line).
  destruct (decide (row_of a line)) as [Hr|Hr].
  - rewrite filter_cons_True by done. destruct Hr as [_ Hr]. rewrite Hr. simpl. rewrite Ha, IH.
    rewrite last_cons. destruct (last _); [done|]. by rewrite dget_set_eq.
  - rewrite filter_cons_False by done. destruct (is_gpu (default "" (head (line_words line)))) eqn:Hg; [|apply IH].
    rewrite IH. destruct (last _); [done|]. apply dget_set_ne.
    intros E. apply Hr. split; [exact Hd|]. destruct (head (line_words line)); simpl in E; [by rewrite E|].
  subst a. discriminate Ha.
Qed.

(** Distinct keys are set once: key number [j] gets value number [j]. *)
Lemma dget_fold_zip (ks vs : list string) (d : dict string string) j k : NoDup ks → ks !! j = Some k →
  dget (fold_left (fun d te => dset d te.1 te.2) (zip ks vs) d) k =
  match vs !! j with Some v => Some v | None => dget d k end.
Proof.
  intros Hnd. revert vs d j. induction Hnd as [|k1 ks Hk1 Hnd IH]; intros vs d j Hj; [done|].
  destruct vs as [|v vs]; simpl; [done|]. destruct j as [|j]; simpl in Hj |- *.
  - injection Hj as ->. clear IH. revert vs d Hk1. clear Hnd.
    assert (H : ∀ vs d, k ∉ ks → dget (fold_left (fun (d : dict string string) te => dset d te.1 te.2) (zip ks vs) d) k = dget d k).
    { induction ks as [|k2 ks IH]; intros [|v2 vs] d Hk; simpl; try done.
      rewrite IH by set_solver. apply dget_set_ne. set_solver. }
    intros vs d Hk. rewrite H by done. by rewrite dget_set_eq.
  - rewrite (IH vs _ j Hj). destruct (vs !! j); [done|]. apply dget_set_ne.
    intros ->. apply Hk1. by eapply list_elem_of_lookup_2.
Qed.

(** Column [j] of a row is its word number [j + 1]. *)
Lemma row_relations_word devices line j b rel : NoDup devices → devices !! j = Some b →
  dget (row_relations devices line) b = Some rel → line_words line !! S j = Some rel.
Proof.
  intros Hnd Hj. unfold row_relations. rewrite (dget_fold_zip _ _ _ j b Hnd Hj).
  rewrite lookup_take_lt by (by apply lookup_lt_Some in Hj). rewrite lookup_drop. simpl.
  destruct (line_words line !! S j); [done|discriminate].
Qed.

Lemma square_at {A} (P : string → string → A → Prop) ds m i k a b : square P ds m →
  ds !! i = Some a → ds !! k = Some b → ∃ x, cell_at m i k = Some x ∧ P a b x.
Proof.
  intros Hsq Ha Hb. destruct (Forall2_lookup_l _ _ _ _ _ Hsq Ha) as (row & Hrow & Hr).
  destruct (Forall2_lookup_l _ _ _ _ _ Hr Hb) as (x & Hx & HP). exists x. unfold cell_at. by rewrite Hrow.
Qed.

Lemma cell_at_map {A B} (f : A → B) m i k : cell_at (map (map f) m) i k = f <$> cell_at m i k.
Proof.
  unfold cell_at. rewrite list_lookup_fmap. destruct (m !! i) as [row|]; simpl; [|done].
  by rewrite list_lookup_fmap.
Qed.

(** C35: parsing reads the table of the text.  The devices are the GPUs of the
    first line that names GPUs and a CPU affinity, in its order (NICs are left
    out).  When that line names no device twice, the relation of two GPUs is the
    word of the first one's row (its last one above the legend) under the second
    one's column, NIC columns counted; the snapshot keeps that relation, and the
    three matrices hold at that row and column its rounded cost, its latency
    weight and its bandwidth tier.  The matrices are square in device order, with
    costs and bandwidths between 0 and 2.5 and latency weights between 0 and 1.2. *)
Theorem parsed_matrices (t : string) (s : GpuTopologySnapshot) : from_text t = Ok s →
  snapshot_wf s ∧
  ∃ header, header_line (text_lines t) = Ok header ∧
    let columns := find_devices 0 header in
    gt_devices s = filter (fun d => is_gpu d = true) columns ∧
    (NoDup columns → ∀ i j k a b,
       gt_devices s !! i = Some a → gt_devices s !! k = Some b → columns !! j = Some b →
       ∃ line row relation,
         last (filter (row_of a) (before_legend (text_lines t))) = Some line ∧
         line_words line !! 0%nat = Some a ∧ line_words line !! S j = Some relation ∧
         dget (gt_relations s) a = Some row ∧ dget row b = Some relation ∧
         cell_at (gt_adjacency_matrix s) i k = Some (fround 4 (relation_cost relation)) ∧
         cell_at (gt_latency_weights s) i k = Some (dget_or (of_lit 1.2%float) LATENCY_WEIGHTS relation) ∧
         cell_at (gt_bandwidth_tiers s) i k = Some (dget_or (of_lit 0.1%float) BANDWIDTH_TIERS relation)).
Proof.
  intros Ht. split; [exact (from_text_wf t s Ht)|].
  destruct (from_text_rows t s Ht) as (h & rel & rows & Hh & Hg & Hrel & Hsq & E1 & E2 & E3 & Er).
  exists h. split; [exact Hh|]. split; [exact Hg|]. intros Hnd i j k a b Ha Hb Hj.
  destruct (square_at _ _ _ i k a b Hsq Ha Hb) as (x & Hx & Hcell).
  assert (Hgpu : is_gpu a = true).
  { apply list_elem_of_lookup_2 in Ha. rewrite Hg in Ha. by apply list_elem_of_filter in Ha as [? _]. }
  unfold matrix_cell in Hcell. apply bind_ok in Hcell as (row & Hrow & Hcell). apply get_or_ok in Hrow.
  apply bind_ok in Hcell as (relation & Hr & Hcell). apply get_or_ok in Hr. injection Hcell as <-.
  pose proof Hrow as Hrow0. rewrite Hrel, (read_relations_row _ a _ _ Hgpu) in Hrow0.
  destruct (last _) as [line|] eqn:Hlast; [|discriminate]. injection Hrow0 as Erow.
  exists line, (filter (fun te => te.1 ∈ gt_devices s) row), relation. split; [reflexivity|].
  assert (Hline : row_of a line).
  { apply last_Some_elem_of in Hlast. by apply list_elem_of_filter in Hlast as [? _]. }
  split; [destruct Hline as [_ Hl]; destruct (line_words line); [done|exact Hl]|].
  split; [apply (row_relations_word _ _ _ b relation Hnd Hj); by rewrite Erow|].
  apply list_elem_of_lookup_2 in Ha, Hb.
  split; [rewrite Er, dget_map_snd, dget_kept by done; by rewrite Hrow|]. split; [by rewrite dget_kept|].
  rewrite E1, E2, E3, !cell_at_map, Hx. by repeat split.
Qed.

(** ** The sample of the repository ([topology/sample_nvidia_smi_topo.txt]) *)

Definition sample_topology : string :=
  join (String (chr 10) EmptyString)
    ["        GPU0    GPU1    GPU2    GPU3    CPU Affinity    NUMA Affinity";
     "GPU0     X      NV4     PHB     SYS    0-47            N/A";
     "GPU1    NV4      X      PHB     SYS    0-47            N/A";
     "GPU2    PHB     PHB      X      NV4    48-95           N/A";
     "GPU3    SYS     SYS     NV4      X     48-95           N/A";
     ""; "Legend:"; "  X    = Self";
     "  NV4  = Connection traversing a bonded set of 4 NVLinks"].

Example sample_parses :
  match from_text sample_topology with
  | Ok s => gt_devices s = ["GPU0"; "GPU1"; "GPU2"; "GPU3"] ∧
      overall_affinity s = Ok (of_lit 0.2573%float) ∧ average_cost s = Ok (of_lit 1.2%float)
  | Err _ => False
  end.
Proof. vm_compute. by repeat split. Qed.

Lemma parsed_summaries_witness : ∃ s a, from_text sample_topology = Ok s ∧
  overall_affinity s = Ok a ∧ (a <= 1.0)%float.
Proof.
  destruct (from_text sample_topology) as [s|e] eqn:E.
  - destruct (parsed_summaries sample_topology s E) as (a & c & Ha & _ & _ & H1 & _).
    + assert (H : match from_text sample_topology with
        | Ok s => (Z.of_nat (length (gt_devices s)) <=? 2 ^ 25) | Err _ => false end = true) by flit.
      rewrite E in H. by apply Z.leb_le.
    + exists s, a. split; [reflexivity|]. split; [exact Ha|exact H1].
  - exfalso. revert E. vm_compute. discriminate.
Defined.

(** Row GPU2, column GPU3: the fourth word after the device's name. *)
Lemma parsed_matrices_witness : ∃ s line, from_text sample_topology = Ok s ∧ snapshot_wf s ∧
  line_words line !! 4%nat = Some "NV4" ∧ cell_at (gt_bandwidth_tiers s) 2 3 = Some (of_lit 1.4%float).
Proof.
  destruct (from_text sample_topology) as [s|e] eqn:E.
  - destruct (parsed_matrices sample_topology s E) as (Hwf & h & Hh & Hg & Hcells).
    assert (Eh : find_devices 0 h = ["GPU0"; "GPU1"; "GPU2"; "GPU3"]).
    { assert (H : match header_line (text_lines sample_topology) with Ok h => find_devices 0 h | Err _ => [] end =
        ["GPU0"; "GPU1"; "GPU2"; "GPU3"]) by (vm_compute; reflexivity). rewrite Hh in H. exact H. }
    rewrite Eh in Hg, Hcells. assert (Ed : gt_devices s = ["GPU0"; "GPU1"; "GPU2"; "GPU3"]) by (rewrite Hg; reflexivity).
    assert (Hnd : NoDup ["GPU0"; "GPU1"; "GPU2"; "GPU3"]) by (apply NoDup_ListNoDup; repeat constructor; simpl; intuition discriminate).
    destruct (Hcells Hnd 2%nat 3%nat 3%nat "GPU2" "GPU3")
      as (line & row & relation & Hl & _ & Hw & _ & _ & _ & _ & Hb); [rewrite Ed; reflexivity..|reflexivity|].
    assert (Hn : relation = "NV4").
    { assert (H : (last (filter (row_of "GPU2") (before_legend (text_lines sample_topology)))
        ≫= fun line => line_words line !! 4%nat) = Some "NV4") by (vm_compute; reflexivity).
      rewrite Hl in H. simpl in H. simpl in Hw. rewrite Hw in H. by injection H. }
    subst relation. exists s, line. split; [reflexivity|]. split; [exact Hwf|]. split; [exact Hw|].
    rewrite Hb. vm_compute. reflexivity.
  - exfalso. revert E. vm_compute. discriminate.
Defined.
