(* ===== verification/Topology.v ===== *)
(** * [topology_service/graph.py]: the topology graph and its shortest paths

    Node identifiers are strings; the adjacency [defaultdict] is read with
    [get].  The GPU topology files a configuration names are read through
    [read_text], a parameter standing for the file system. *)

From S2P Require Import Prelude PyFloat PyOrder PyDict PyJson Config GpuTopo Types Samples.

Local Open Scope Z_scope.

Record TopologyService := {
  tp_nodes : dict string TopologyNode;
  tp_adjacency : dict string (list TopologyLink);
  tp_cluster_gateways : dict string string;
  tp_cluster_probe_affinity : dict string float;
  tp_cluster_probe_cost_factor : dict string float
}.

Definition empty_topology : TopologyService :=
  {| tp_nodes := []; tp_adjacency := []; tp_cluster_gateways := [];
     tp_cluster_probe_affinity := []; tp_cluster_probe_cost_factor := [] |}.

Definition add_node (t : TopologyService) (n : TopologyNode) : TopologyService :=
  {| tp_nodes := dset (tp_nodes t) (node_id n) n; tp_adjacency := tp_adjacency t;
     tp_cluster_gateways := tp_cluster_gateways t;
     tp_cluster_probe_affinity := tp_cluster_probe_affinity t;
     tp_cluster_probe_cost_factor := tp_cluster_probe_cost_factor t |}.

Definition set_gateway (t : TopologyService) (cluster_id gateway_id : string) : TopologyService :=
  {| tp_nodes := tp_nodes t; tp_adjacency := tp_adjacency t;
     tp_cluster_gateways := dset (tp_cluster_gateways t) cluster_id gateway_id;
     tp_cluster_probe_affinity := tp_cluster_probe_affinity t;
     tp_cluster_probe_cost_factor := tp_cluster_probe_cost_factor t |}.

Definition set_probe (t : TopologyService) (cluster_id : string) (affinity cost : float) :
    TopologyService :=
  {| tp_nodes := tp_nodes t; tp_adjacency := tp_adjacency t;
     tp_cluster_gateways := tp_cluster_gateways t;
     tp_cluster_probe_affinity := dset (tp_cluster_probe_affinity t) cluster_id affinity;
     tp_cluster_probe_cost_factor := dset (tp_cluster_probe_cost_factor t) cluster_id cost |}.

Definition _add_edge (t : TopologyService) (source target : string)
    (bandwidth_gbps latency_us cost : float) : TopologyService :=
  let link := {| link_source := source; link_target := target;
                 link_bandwidth_gbps := bandwidth_gbps; link_latency_us := latency_us;
                 link_cost := cost |} in
  {| tp_nodes := tp_nodes t;
     tp_adjacency := dset (tp_adjacency t) source (dget_or [] (tp_adjacency t) source ++ [link]);
     tp_cluster_gateways := tp_cluster_gateways t;
     tp_cluster_probe_affinity := tp_cluster_probe_affinity t;
     tp_cluster_probe_cost_factor := tp_cluster_probe_cost_factor t |}.

Definition gateway_node_id (cluster_id : string) : string := "gateway:" +:+ cluster_id.

Definition pool_node_id (cluster_id pool_id : string) : string :=
  "pool:" +:+ cluster_id +:+ ":" +:+ pool_id.

(** [TOPOLOGY_TIER_SCORE.get(tier, 0.6)] *)
Definition tier_score (tier : string) : float := dget_or (of_lit 0.6%float) TOPOLOGY_TIER_SCORE tier.

(** ** Building the graph *)

(** One pool: its node, and an edge each way between it and the gateway. *)
Definition add_pool (cluster : ClusterSpec) (t : TopologyService) (pool : PoolSpec) : TopologyService :=
  let gateway_id := gateway_node_id (cs_cluster_id cluster) in
  let id := pool_node_id (cs_cluster_id cluster) (ps_pool_id pool) in
  let t1 := add_node t
    {| node_id := id; node_kind := "pool"; node_cluster_id := cs_cluster_id cluster;
       node_zone := cs_zone cluster;
       node_metadata := Some (ps_accelerator_type pool, ps_topology_tier pool, ps_gpu_count pool) |} in
  let score := tier_score (ps_topology_tier pool) in
  let internal_cost := pymax 0.05 (1.2 - score)%float in
  let bandwidth := (800.0 * score)%float in
  let latency := (8.0 + (1.0 - score) * 35.0)%float in
  _add_edge (_add_edge t1 gateway_id id bandwidth latency internal_cost)
    id gateway_id bandwidth latency internal_cost.

Definition add_cluster (read_text : string → result string) (t : TopologyService)
    (cluster : ClusterSpec) : result TopologyService :=
  let gateway_id := gateway_node_id (cs_cluster_id cluster) in
  let t1 := set_gateway t (cs_cluster_id cluster) gateway_id in
  let t2 := add_node t1
    {| node_id := gateway_id; node_kind := "gateway"; node_cluster_id := cs_cluster_id cluster;
       node_zone := cs_zone cluster; node_metadata := None |} in
  let t3 := fold_left (add_pool cluster) (cs_pools cluster) t2 in
  match cs_gpu_topology_file cluster with
  | Some ((String _ _) as path) =>
      contents ← read_text path;
      parsed ← from_text contents;
      affinity ← overall_affinity parsed;
      cost ← average_cost parsed;
      Ok (set_probe t3 (cs_cluster_id cluster) affinity cost)
  | _ => Ok t3
  end.

(** The edges between gateways, once every gateway is known. *)
Definition link_cluster (t : TopologyService) (cluster : ClusterSpec) : result TopologyService :=
  source_gateway ← get_or KeyError (dget (tp_cluster_gateways t) (cs_cluster_id cluster));
  Ok (fold_left (fun t tc =>
        if String.eqb tc.1 "ingress" then t else
        match dget (tp_cluster_gateways t) tc.1 with
        | Some ((String _ _) as target_gateway) =>
            _add_edge t source_gateway target_gateway (400.0 / pymax tc.2 0.5)%float
              (25.0 * tc.2)%float tc.2
        | _ => t
        end) (cs_network_costs cluster) t).

Definition _build_from_config (read_text : string → result string) (config : ExperimentConfig) :
    result TopologyService :=
  t ← foldM (add_cluster read_text) empty_topology (ec_clusters config);
  foldM link_cluster t (ec_clusters config).

(** ** Shortest paths *)

Notation adjacency := (dict string (list TopologyLink)).

(** [heapq] compares the pairs [(cost, node)]. *)
Definition frontier_ltb : float * string → float * string → bool := lex_ltb feqb fltb str_ltb.

(** Relaxing one edge of the node popped at [cost]. *)
Definition relax (cost : float) (st : gmap string float * list (float * string))
    (edge : TopologyLink) : gmap string float * list (float * string) :=
  let '(distances, frontier) := st in
  let new_cost := (cost + link_cost edge)%float in
  if (new_cost <? default PInf (distances !! link_target edge))%float
  then (<[link_target edge := new_cost]> distances, frontier ++ [(new_cost, link_target edge)])
  else (distances, frontier).

(** The [while] loop; [None] is running out of fuel. *)
Fixpoint search (fuel : nat) (adj : adjacency) (target : string)
    (frontier : list (float * string)) (visited : gset string) (distances : gmap string float) :
    option float :=
  match fuel with
  | O => None
  | S fuel =>
      match heappop frontier_ltb frontier with
      | None => Some PInf
      | Some ((cost, node), rest) =>
          if decide (node ∈ visited) then search fuel adj target rest visited distances
          else
            if decide (node = target) then Some cost
            else
              let '(distances', frontier') :=
                fold_left (relax cost) (dget_or [] adj node) (distances, rest) in
              search fuel adj target frontier' ({[node]} ∪ visited) distances'
      end
  end.

Definition edge_count (adj : adjacency) : nat :=
  foldr Nat.add O (map (fun kb => length kb.2) adj).

(** Every pop either discards an entry or expands a node for the first time:
    one pop per edge, one for the source and one to find the frontier empty. *)
Definition search_fuel (adj : adjacency) : nat := (edge_count adj + 2)%nat.

Definition shortest_path_search (adj : adjacency) (source target : string) : option float :=
  search (search_fuel adj) adj target [(of_lit 0.0%float, source)] ∅
    {[source := of_lit 0.0%float]}.

(** Out of fuel never happens ([shortest_path_terminates]). *)
Definition shortest_path_cost (t : TopologyService) (source target : string) : float :=
  default PInf (shortest_path_search (tp_adjacency t) source target).

(** ** What the control plane asks *)

Definition pool_affinity (t : TopologyService) (cluster_id pool_id : string) (prompt_tokens : Z) :
    result float :=
  node ← get_or KeyError (dget (tp_nodes t) (pool_node_id cluster_id pool_id));
  '(_, tier, _) ← get_or KeyError (node_metadata node);
  let score := tier_score tier in
  let long_context_factor := pymin 1.0 (of_Z prompt_tokens / 8192.0)%float in
  let probe_affinity := dget_or score (tp_cluster_probe_affinity t) cluster_id in
  let blended := ((score * 0.8) + (probe_affinity * 0.2))%float in
  Ok (fround 4 (blended * (0.65 + 0.35 * long_context_factor))%float).

Definition route_cost (t : TopologyService) (cluster_id pool_id : string) : result float :=
  gateway_id ← get_or KeyError (dget (tp_cluster_gateways t) cluster_id);
  let base_cost := shortest_path_cost t gateway_id (pool_node_id cluster_id pool_id) in
  Ok (fround 4 (base_cost * dget_or (of_lit 1.0%float) (tp_cluster_probe_cost_factor t) cluster_id)%float).

Definition tp_snapshot (t : TopologyService) : json :=
  JObj [("nodes", JObj (map (fun n =>
           (n.1, JObj (match node_metadata n.2 with
                       | Some (acc, tier, gpus) =>
                           [("accelerator_type", JStr acc); ("topology_tier", JStr tier);
                            ("gpu_count", JInt gpus)]
                       | None => []
                       end ++ [("kind", JStr (node_kind n.2));
                               ("cluster_id", JStr (node_cluster_id n.2))]))) (tp_nodes t)));
        ("edges", JObj (map (fun ne =>
           (ne.1, JList (map (fun e =>
              JObj [("target", JStr (link_target e)); ("bandwidth_gbps", JFloat (link_bandwidth_gbps e));
                    ("latency_us", JFloat (link_latency_us e)); ("cost", JFloat (link_cost e))]) ne.2)))
           (tp_adjacency t)))].

(** ** Termination of the search *)

(** The edges of the nodes that are still to be expanded. *)
Definition pending_edges (adj : adjacency) (visited : gset string) : nat :=
  foldr Nat.add O (map (fun kb => length kb.2) (filter (fun kb => kb.1 ∉ visited) adj)).

Lemma pending_empty adj : pending_edges adj ∅ = edge_count adj.
Proof.
  unfold pending_edges, edge_count. do 2 f_equal. induction adj as [|[k b] adj IH]; [done|].
  rewrite filter_cons_True by set_solver. by rewrite IH.
Qed.

(** Expanding a node takes its edges off the pending ones. *)
Lemma pending_mono adj visited node :
  (pending_edges adj ({[node]} ∪ visited) <= pending_edges adj visited)%nat.
Proof.
  unfold pending_edges. induction adj as [|[k b] adj IH]; [done|]. rewrite !filter_cons.
  repeat case_decide; simpl in *; try lia; set_solver.
Qed.

Lemma pending_expand adj visited node : node ∉ visited →
  (length (dget_or [] adj node) + pending_edges adj ({[node]} ∪ visited) <= pending_edges adj visited)%nat.
Proof.
  intros Hn. induction adj as [|[k b] adj IH]; [done|].
  unfold dget_or, pending_edges. simpl. rewrite !filter_cons. destruct (decide (node = k)) as [->|Hne].
  - rewrite (decide_True (P := k ∉ visited)), decide_False by set_solver. simpl.
    pose proof (pending_mono adj visited k) as H. unfold pending_edges in H. lia.
  - unfold dget_or, pending_edges in IH. simpl. repeat case_decide; simpl in *; try lia; set_solver.
Qed.

Lemma relax_length cost edges st :
  (length (fold_left (relax cost) edges st).2 <= length st.2 + length edges)%nat.
Proof.
  revert st. induction edges as [|e edges IH]; intros [d f]; simpl; [lia|].
  destruct (_ <? _)%float; etrans; [apply IH| |apply IH|]; simpl; rewrite ?length_app; simpl; lia.
Qed.

Lemma heappop_length {K} `{EqDecision K} (lt : K → K → bool) (q rest : list K) x :
  heappop lt q = Some (x, rest) → length q = S (length rest).
Proof.
  unfold heappop. destruct (min_by lt id q) as [y|] eqn:E; [|done]. intros [= -> <-].
  rewrite (remove_first_perm x q) at 1; [done|]. by eapply min_by_elem.
Qed.

(** Each iteration pops one entry, and pushes at most the edges it takes off. *)
Lemma search_enough fuel adj target frontier visited distances :
  (length frontier + pending_edges adj visited < fuel)%nat →
  is_Some (search fuel adj target frontier visited distances).
Proof.
  revert frontier visited distances. induction fuel as [|fuel IH]; intros f v d Hf; [lia|]. simpl.
  destruct (heappop frontier_ltb f) as [[[cost node] rest]|] eqn:E; [|by eexists].
  apply heappop_length in E. case_decide as Hv; [apply IH; lia|]. case_decide; [by eexists|].
  destruct (fold_left (relax cost) _ _) as [d' f'] eqn:Er.
  pose proof (relax_length cost (dget_or [] adj node) (d, rest)) as Hl. rewrite Er in Hl. simpl in Hl.
  pose proof (pending_expand adj v node Hv). apply IH. lia.
Qed.

(** ** Paths *)

Section shortest.
Context (adj : adjacency) (source : string).
Context (Hcosts : ∀ u e, e ∈ dget_or [] adj u → (0.0 <= link_cost e)%float).

(** [path v c]: a path from [source] to [v] whose costs add up to [c], in the
    order of the path. *)
Inductive path : string → float → Prop :=
  | path_source : path source (of_lit 0.0%float)
  | path_edge u c e : path u c → e ∈ dget_or [] adj u →
      path (link_target e) (c + link_cost e)%float.

Lemma path_cost v c : path v c → wf c ∧ (0.0 <= c)%float.
Proof using Hcosts.
  induction 1 as [|u c e _ [_ IH] He]; [split; [apply of_lit_wf; flit|flit]|].
  split; [apply fadd_wf|]. apply fadd_nonneg; [exact IH|by eapply Hcosts].
Qed.

(** The tentative distance; infinite when there is none yet. *)
Definition dist (d : gmap string float) (v : string) : float := default PInf (d !! v).

(** The loop invariant, while [todo] are the edges of the node expanded last
    that are still to be relaxed. *)
Record search_inv (frontier : list (float * string)) (visited : gset string)
    (d : gmap string float) (last : string) (todo : list TopologyLink) : Prop := {
  si_paths c v : (c, v) ∈ frontier → path v c;
  si_above c v : (c, v) ∈ frontier → (dist d v <= c)%float;
  si_dist c v : d !! v = Some c → path v c;
  si_open c v : d !! v = Some c → v ∉ visited → (c, v) ∈ frontier;
  si_source : (dist d source <= 0.0)%float;
  si_final v c : v ∈ visited → path v c → (dist d v <= c)%float;
  si_relaxed u e : u ∈ visited → e ∈ dget_or [] adj u →
    (u = last ∧ e ∈ todo) ∨ (dist d (link_target e) <= dist d u + link_cost e)%float
}.

Lemma dist_nonneg frontier visited d last todo v :
  search_inv frontier visited d last todo → (0.0 <= dist d v)%float.
Proof using Hcosts.
  intros Hinv. unfold dist. destruct (d !! v) as [c|] eqn:E; [|flit]. simpl.
  exact (proj2 (path_cost v c (si_dist _ _ _ _ _ Hinv _ _ E))).
Qed.

(** Every path has left the visited nodes by at least the least frontier
    cost, or ends in a visited node. *)
Lemma path_cut frontier visited d last (bound : float) :
  search_inv frontier visited d last [] → bound ≠ NaN →
  (∀ c v, (c, v) ∈ frontier → (bound <= c)%float) → (bound <= PInf)%float →
  ∀ v c, path v c → (v ∈ visited ∧ (dist d v <= c)%float) ∨ (bound <= c)%float.
Proof using Hcosts.
  intros Hinv Hnan Hbound Hinf.
  assert (Hout : ∀ v c, v ∉ visited → (dist d v <= c)%float → (bound <= c)%float).
  { intros v c Hv Hc. unfold dist in Hc. destruct (d !! v) as [k|] eqn:E; simpl in Hc.
    - exact (fle_trans _ _ _ (Hbound _ _ (si_open _ _ _ _ _ Hinv _ _ E Hv)) Hc).
    - exact (fle_trans _ _ _ Hinf Hc). }
  induction 1 as [|u c e Hp IH He].
  - destruct (decide (source ∈ visited)) as [Hv|Hv]; [left|right].
    + split; [exact Hv|exact (si_source _ _ _ _ _ Hinv)].
    + exact (Hout _ _ Hv (si_source _ _ _ _ _ Hinv)).
  - destruct (path_cost u c Hp) as [Hwf H0]. pose proof (Hcosts u e He) as Hce.
    destruct IH as [[Hu Hle]|Hb].
    + assert (Hd : (dist d (link_target e) <= c + link_cost e)%float).
      { destruct (si_relaxed _ _ _ _ _ Hinv u e Hu He) as [[_ Hin]|Hr]; [by apply elem_of_nil in Hin|].
        eapply fle_trans; [exact Hr|]. pose proof (dist_nonneg _ _ _ _ _ u Hinv) as Hd0.
        apply fadd_mono; [exact Hle|exact (fle_refl _ (fle_not_nan_r _ _ Hce))| |];
          eapply fle_not_nan_r, fadd_nonneg; first [exact Hd0|exact H0|exact Hce]. }
      destruct (decide (link_target e ∈ visited)) as [Hv|Hv]; [by left|right; exact (Hout _ _ Hv Hd)].
    + right. exact (fle_trans _ _ _ Hb (fadd_ge_l _ _ Hwf H0 Hce)).
Qed.

Lemma path_not_nan v c : path v c → c ≠ NaN.
Proof using Hcosts. intros H. exact (fle_not_nan_r _ _ (proj2 (path_cost v c H))). Qed.

Lemma fle_PInf (c : float) : c ≠ NaN → (c <= PInf)%float.
Proof. by destruct c. Qed.

(** Relaxing an edge of the node expanded last. *)
Lemma relax_inv f visited d last cost e todo :
  search_inv f visited d last (e :: todo) → last ∈ visited → path last cost →
  dist d last = cost → e ∈ dget_or [] adj last →
  let '(d', f') := relax cost (d, f) e in
  search_inv f' visited d' last todo ∧ dist d' last = cost.
Proof using Hcosts.
  intros Hinv Hlast Hp Hd He. simpl. fold (dist d (link_target e)).
  set (t := link_target e). set (new := (cost + link_cost e)%float).
  assert (Hnew : path t new) by (by eapply path_edge).
  pose proof (path_not_nan _ _ Hnew) as Hnn.
  pose proof (fle_not_nan_r _ _ (dist_nonneg _ _ _ _ _ t Hinv)) as Hdn.
  destruct (new <? dist d t)%float eqn:Elt.
  - assert (Ht : t ∉ visited).
    { intros Ht. pose proof (fle_lt_trans _ _ _ (si_final _ _ _ _ _ Hinv t new Ht Hnew) Elt) as Hc.
      rewrite flt_irrefl in Hc. discriminate Hc. }
    assert (Hsame : ∀ v, v ≠ t → dist (<[t := new]> d) v = dist d v).
    { intros v Hv. unfold dist. by rewrite lookup_insert_ne. }
    assert (Hhit : dist (<[t := new]> d) t = new) by (unfold dist; by rewrite lookup_insert_eq).
    assert (Hle : ∀ v c, (dist d v <= c)%float → (dist (<[t := new]> d) v <= c)%float).
    { intros v c Hc. destruct (decide (v = t)) as [->|Hv].
      - rewrite Hhit. exact (fle_trans _ _ _ (flt_le _ _ Elt) Hc).
      - rewrite (Hsame v Hv). exact Hc. }
    assert (Hvis : ∀ v, v ∈ visited → v ≠ t) by (intros v Hv ->; contradiction).
    split; [constructor|].
    + intros c v [Hin|Hin%list_elem_of_singleton]%elem_of_app; [by apply (si_paths _ _ _ _ _ Hinv)|].
      by injection Hin as -> ->.
    + intros c v [Hin|Hin%list_elem_of_singleton]%elem_of_app.
      * exact (Hle v c (si_above _ _ _ _ _ Hinv c v Hin)).
      * injection Hin as -> ->. rewrite Hhit. exact (fle_refl _ Hnn).
    + intros c v [[<- <-]|[_ Hin]]%lookup_insert_Some; [exact Hnew|by apply (si_dist _ _ _ _ _ Hinv)].
    + intros c v [[<- <-]|[Hne Hin]]%lookup_insert_Some Hv; apply elem_of_app; [right; by left|left].
      by apply (si_open _ _ _ _ _ Hinv).
    + exact (Hle _ _ (si_source _ _ _ _ _ Hinv)).
    + intros v c Hv Hc. exact (Hle _ _ (si_final _ _ _ _ _ Hinv v c Hv Hc)).
    + intros u e' Hu He'. rewrite (Hsame u (Hvis u Hu)).
      destruct (si_relaxed _ _ _ _ _ Hinv u e' Hu He') as [[-> [->|Hin]%elem_of_cons]|Hr];
        [|by left|right; exact (Hle _ _ Hr)].
      right. fold t. rewrite Hhit, Hd. exact (fle_refl _ Hnn).
    + rewrite (Hsame last (Hvis last Hlast)). exact Hd.
  - apply flt_nle in Elt; [|exact Hnn|exact Hdn]. split; [|exact Hd].
    destruct Hinv as [H1 H2 H3 H4 H5 H6 H7]. constructor; [exact H1|exact H2|exact H3|exact H4|exact H5|exact H6|].
    intros u e' Hu He'. destruct (H7 u e' Hu He') as [[-> [->|Hin]%elem_of_cons]|Hr];
      [|by left|right; exact Hr]. right. rewrite Hd. exact Elt.
Qed.

Lemma relax_all f visited d last cost todo :
  search_inv f visited d last todo → last ∈ visited → path last cost →
  dist d last = cost → (∀ e, e ∈ todo → e ∈ dget_or [] adj last) →
  let '(d', f') := fold_left (relax cost) todo (d, f) in search_inv f' visited d' last [].
Proof using Hcosts.
  revert d f. induction todo as [|e todo IH]; intros d f Hinv Hlast Hp Hd He; [exact Hinv|].
  cbn [fold_left]. pose proof (relax_inv f visited d last cost e todo Hinv Hlast Hp Hd
    (He e (list_elem_of_here _ _))) as Hstep.
  destruct (relax cost (d, f) e) as [d1 f1]. destruct Hstep as [Hinv1 Hd1].
  apply IH; [exact Hinv1|exact Hlast|exact Hp|exact Hd1|]. intros e' He'. apply He. by right.
Qed.

Lemma frontier_least (a b : float) (u v : string) : a ≠ NaN → b ≠ NaN →
  frontier_ltb (a, u) (b, v) = false → (b <= a)%float.
Proof.
  unfold frontier_ltb, lex_ltb. cbn [fst snd]. intros Ha Hb. destruct (a =? b)%float eqn:E.
  - intros _. apply feq_eq in E; [|exact Ha]. rewrite E. exact (fle_refl _ Hb).
  - intros H. apply flt_nle in H; [exact H|exact Ha|exact Hb].
Qed.

(** Popping: a least entry, whose node — if it is new — is now settled. *)
Lemma pop_inv f visited d last cost node rest :
  search_inv f visited d last [] → heappop frontier_ltb f = Some ((cost, node), rest) →
  f ≡ₚ (cost, node) :: rest ∧ path node cost ∧ (∀ c v, (c, v) ∈ f → (cost <= c)%float).
Proof using Hcosts.
  intros Hinv Hpop.
  assert (Hnn : ∀ c v, (c, v) ∈ f → c ≠ NaN).
  { intros c v Hin. exact (path_not_nan _ _ (si_paths _ _ _ _ _ Hinv c v Hin)). }
  destruct (heappop_spec (pair_dom (fun a => a ≠ NaN) (fun _ => True)) frontier_ltb f (cost, node) rest) as [Hp Hmin];
    [|exact Hpop|].
  { apply Forall_forall. intros [c v] Hin. split; [exact (Hnn c v Hin)|done]. }
  assert (Hin : (cost, node) ∈ f) by (rewrite Hp; by left).
  split; [exact Hp|]. split; [exact (si_paths _ _ _ _ _ Hinv _ _ Hin)|].
  intros c v Hcv. exact (frontier_least c cost v node (Hnn c v Hcv) (Hnn _ _ Hin) (Hmin _ Hcv)).
Qed.

Lemma settle_inv f visited d last cost node rest :
  search_inv f visited d last [] → heappop frontier_ltb f = Some ((cost, node), rest) →
  node ∉ visited →
  search_inv rest ({[node]} ∪ visited) d node (dget_or [] adj node) ∧ dist d node = cost.
Proof using Hcosts.
  intros Hinv Hpop Hv. destruct (pop_inv _ _ _ _ _ _ _ Hinv Hpop) as (Hp & Hpath & Hmin).
  pose proof (path_not_nan _ _ Hpath) as Hcn.
  assert (Hin : (cost, node) ∈ f) by (rewrite Hp; by left).
  assert (Hsub : ∀ x, x ∈ rest → x ∈ f) by (intros x Hx; rewrite Hp; by right).
  assert (Hd : dist d node = cost).
  { apply fle_antisym; [exact (si_above _ _ _ _ _ Hinv _ _ Hin)|].
    unfold dist. destruct (d !! node) as [k|] eqn:E; [|exact (fle_PInf _ Hcn)].
    exact (Hmin _ _ (si_open _ _ _ _ _ Hinv _ _ E Hv)). }
  split; [|exact Hd]. constructor.
  - intros c v Hx. exact (si_paths _ _ _ _ _ Hinv c v (Hsub _ Hx)).
  - intros c v Hx. exact (si_above _ _ _ _ _ Hinv c v (Hsub _ Hx)).
  - exact (si_dist _ _ _ _ _ Hinv).
  - intros c v Hc Hn. assert (Hvn : v ∉ visited) by set_solver.
    pose proof (si_open _ _ _ _ _ Hinv c v Hc Hvn) as Hf. rewrite Hp in Hf.
    apply elem_of_cons in Hf as [[= -> ->]|Hf]; [set_solver|exact Hf].
  - exact (si_source _ _ _ _ _ Hinv).
  - intros v c [->%elem_of_singleton|Hvis]%elem_of_union Hc; [|exact (si_final _ _ _ _ _ Hinv v c Hvis Hc)].
    rewrite Hd.
    destruct (path_cut f visited d last cost Hinv Hcn Hmin (fle_PInf _ Hcn) node c Hc) as [[Hx _]|Hb];
      [contradiction|exact Hb].
  - intros u e [->%elem_of_singleton|Hvis]%elem_of_union He; [by left|].
    destruct (si_relaxed _ _ _ _ _ Hinv u e Hvis He) as [[_ Hx]|Hr]; [by apply elem_of_nil in Hx|by right].
Qed.

Lemma discard_inv f visited d last cost node rest :
  search_inv f visited d last [] → heappop frontier_ltb f = Some ((cost, node), rest) →
  node ∈ visited → search_inv rest visited d last [].
Proof using Hcosts.
  intros Hinv Hpop Hv. destruct (pop_inv _ _ _ _ _ _ _ Hinv Hpop) as (Hp & _ & _).
  assert (Hsub : ∀ x, x ∈ rest → x ∈ f) by (intros x Hx; rewrite Hp; by right).
  destruct Hinv as [H1 H2 H3 H4 H5 H6 H7]. constructor; [| |exact H3| |exact H5|exact H6|exact H7].
  - intros c v Hx. exact (H1 c v (Hsub _ Hx)).
  - intros c v Hx. exact (H2 c v (Hsub _ Hx)).
  - intros c v Hc Hn. pose proof (H4 c v Hc Hn) as Hf. rewrite Hp in Hf.
    apply elem_of_cons in Hf as [[= -> ->]|Hf]; [contradiction|exact Hf].
Qed.

(** What the search answers: the least cost of a path, infinite when there
    is none of finite cost. *)
Definition least_cost (target : string) (r : float) : Prop :=
  (∀ c, path target c → (r <= c)%float) ∧ (r = PInf ∨ path target r).

Lemma search_least fuel target f visited d last r :
  search fuel adj target f visited d = Some r →
  search_inv f visited d last [] → target ∉ visited → least_cost target r.
Proof using Hcosts.
  revert f visited d last. induction fuel as [|fuel IH]; intros f visited d last; [done|]. cbn [search].
  destruct (heappop frontier_ltb f) as [[[cost node] rest]|] eqn:E; intros Hs Hinv Ht.
  2:{ injection Hs as <-. apply heappop_None in E as ->. split; [|by left]. intros c Hc.
      destruct (path_cut [] visited d last PInf Hinv ltac:(discriminate)) with (v := target) (c := c)
        as [[Hx _]|Hb]; [intros ? ? Hx; by apply elem_of_nil in Hx|exact (fle_refl PInf ltac:(discriminate))|exact Hc|contradiction|exact Hb]. }
  destruct (decide (node ∈ visited)) as [Hv|Hv].
  { exact (IH _ _ _ _ Hs (discard_inv _ _ _ _ _ _ _ Hinv E Hv) Ht). }
  destruct (pop_inv _ _ _ _ _ _ _ Hinv E) as (_ & Hpath & Hmin).
  destruct (decide (node = target)) as [->|Hnt].
  { injection Hs as <-. split; [|by right]. intros c Hc. pose proof (path_not_nan _ _ Hpath) as Hcn.
    destruct (path_cut f visited d last cost Hinv Hcn Hmin (fle_PInf _ Hcn) target c Hc) as [[Hx _]|Hb];
      [contradiction|exact Hb]. }
  destruct (settle_inv _ _ _ _ _ _ _ Hinv E Hv) as [Hinv' Hd].
  pose proof (relax_all rest ({[node]} ∪ visited) d node cost (dget_or [] adj node) Hinv'
    ltac:(set_solver) Hpath Hd (fun e He => He)) as Hall.
  destruct (fold_left (relax cost) _ _) as [d' f']. apply (IH _ _ _ _ Hs Hall). set_solver.
Qed.

Lemma initial_inv : search_inv [(of_lit 0.0%float, source)] ∅ {[source := of_lit 0.0%float]} source [].
Proof.
  assert (H0 : dist {[source := of_lit 0.0%float]} source = of_lit 0.0%float).
  { unfold dist. by rewrite lookup_singleton_eq. }
  constructor.
  - intros c v Hin%list_elem_of_singleton. injection Hin as -> ->. apply path_source.
  - intros c v Hin%list_elem_of_singleton. injection Hin as -> ->. rewrite H0. flit.
  - intros c v [<- <-]%lookup_singleton_Some. apply path_source.
  - intros c v [<- <-]%lookup_singleton_Some _. by left.
  - rewrite H0. flit.
  - intros v c Hv. set_solver.
  - intros u e Hu. set_solver.
Qed.
End shortest.

(** ** The graph a configuration describes *)

(** What building keeps: gateways under their own identifier, no negative edge,
    probe affinities and cost factors in the ranges a parsed topology gives. *)
Record topology_inv (t : TopologyService) : Prop := {
  ti_gateways k g : dget (tp_cluster_gateways t) k = Some g → g = gateway_node_id k;
  ti_costs u e : e ∈ dget_or [] (tp_adjacency t) u → (0.0 <= link_cost e)%float;
  ti_affinity k a : dget (tp_cluster_probe_affinity t) k = Some a → (0.0 <= a)%float ∧ (a <= 1.0)%float;
  ti_factor k c : dget (tp_cluster_probe_cost_factor t) k = Some c → (0.0 <= c)%float ∧ (c <= 2.5)%float
}.

Definition pool_known (t : TopologyService) (c p : string) : Prop :=
  ∃ n m, dget (tp_nodes t) (pool_node_id c p) = Some n ∧ node_metadata n = Some m.

Definition has_edge (t : TopologyService) (e : TopologyLink) (u : string) : Prop :=
  e ∈ dget_or [] (tp_adjacency t) u.

(** Building only adds. *)
Record extends (t t' : TopologyService) : Prop := {
  ex_gateways k : is_Some (dget (tp_cluster_gateways t) k) → is_Some (dget (tp_cluster_gateways t') k);
  ex_pools c p : pool_known t c p → pool_known t' c p;
  ex_edges u e : has_edge t e u → has_edge t' e u
}.

#[export] Instance extends_preorder : PreOrder extends.
Proof.
  split; [by intros t; split|]. intros a b c [H1 H2 H3] [G1 G2 G3]. split; auto.
Qed.

Lemma empty_topology_inv : topology_inv empty_topology.
Proof. split; simpl; try done. intros u e. unfold dget_or. simpl. intros H. by apply elem_of_nil in H. Qed.

Lemma add_edge_inv t s d bw lat cost : topology_inv t → (0.0 <= cost)%float →
  topology_inv (_add_edge t s d bw lat cost).
Proof.
  intros [H1 H2 H3 H4] Hc. split; simpl; try done. intros u e.
  unfold dget_or at 1. destruct (decide (s = u)) as [->|Hne].
  - rewrite dget_set_eq. simpl. intros [Hin|Hin%list_elem_of_singleton]%elem_of_app; [by apply (H2 u)|].
    subst e. exact Hc.
  - rewrite dget_set_ne by done. apply H2.
Qed.

Lemma add_edge_extends t s d bw lat cost : extends t (_add_edge t s d bw lat cost).
Proof.
  split; simpl; try done. intros u e. unfold has_edge. simpl. unfold dget_or at 2.
  destruct (decide (s = u)) as [->|Hne]; [rewrite dget_set_eq; simpl; set_solver|by rewrite dget_set_ne].
Qed.

Lemma add_edge_has t s d bw lat cost :
  ∃ e, has_edge (_add_edge t s d bw lat cost) e s ∧ link_target e = d ∧ link_cost e = cost.
Proof.
  eexists {| link_source := s; link_target := d; link_bandwidth_gbps := bw;
             link_latency_us := lat; link_cost := cost |}.
  split; [|done]. unfold has_edge, dget_or. simpl. rewrite dget_set_eq. simpl. set_solver.
Qed.

Lemma add_node_inv t n : topology_inv t → topology_inv (add_node t n).
Proof. by intros []. Qed.

Lemma add_pool_node_extends t n : is_Some (node_metadata n) → extends t (add_node t n).
Proof.
  intros [m Hm]. split; simpl; try done. intros c p (k & m' & Hk & Hm'). unfold pool_known. simpl.
  destruct (decide (node_id n = pool_node_id c p)) as [E|E].
  - rewrite E, dget_set_eq. by exists n, m.
  - rewrite dget_set_ne by done. by exists k, m'.
Qed.

Lemma gateway_not_pool c d p : gateway_node_id c ≠ pool_node_id d p.
Proof. discriminate. Qed.

Lemma add_gateway_extends t c n : node_id n = gateway_node_id c → extends t (add_node t n).
Proof.
  intros Hn. split; simpl; try done. intros d p (k & m & Hk & Hm). exists k, m. simpl.
  rewrite Hn, dget_set_ne by apply gateway_not_pool. done.
Qed.

Lemma tier_score_cases (tier : string) (P : float → Prop) :
  P (of_lit 1.0%float) → P (of_lit 0.92%float) → P (of_lit 0.72%float) → P (of_lit 0.55%float) →
  P (of_lit 0.2%float) → P (of_lit 0.6%float) → P (tier_score tier).
Proof.
  intros. unfold tier_score, dget_or. destruct (dget TOPOLOGY_TIER_SCORE tier) as [x|] eqn:E; [|done].
  apply dget_elem in E. unfold TOPOLOGY_TIER_SCORE in E. simpl.
  repeat (apply elem_of_cons in E as [[= -> ->]|E]; [done|]). by apply elem_of_nil in E.
Qed.

Definition internal_cost (tier : string) : float := pymax 0.05 (1.2 - tier_score tier)%float.

Lemma internal_cost_range tier : (0.05 <= internal_cost tier)%float ∧ (internal_cost tier <= 1.0)%float.
Proof. unfold internal_cost. apply (tier_score_cases tier (fun s => (0.05 <= pymax 0.05 (1.2 - s))%float ∧ (pymax 0.05 (1.2 - s) <= 1.0)%float)); split; flit. Qed.

Lemma internal_cost_nonneg tier : (0.0 <= internal_cost tier)%float.
Proof. eapply fle_trans; [|exact (proj1 (internal_cost_range tier))]. flit. Qed.

(** A pool of a cluster has a node, and an edge from the cluster's gateway. *)
Definition pool_wired (t : TopologyService) (c : string) (p : PoolSpec) : Prop :=
  pool_known t c (ps_pool_id p) ∧
  ∃ e, has_edge t e (gateway_node_id c) ∧ link_target e = pool_node_id c (ps_pool_id p) ∧
       link_cost e = internal_cost (ps_topology_tier p).

Lemma pool_wired_extends t t' c p : extends t t' → pool_wired t c p → pool_wired t' c p.
Proof. intros [_ H2 H3] [Hk (e & He & Ht)]. split; [auto|]. exists e. auto. Qed.

Lemma add_pool_spec cl t p : topology_inv t →
  topology_inv (add_pool cl t p) ∧ extends t (add_pool cl t p) ∧ pool_wired (add_pool cl t p) (cs_cluster_id cl) p.
Proof.
  intros Hinv. unfold add_pool. cbv zeta. fold (internal_cost (ps_topology_tier p)).
  set (g := gateway_node_id (cs_cluster_id cl)). set (id := pool_node_id _ _).
  set (t1 := add_node t _). set (bw := (800.0 * _)%float). set (lat := (8.0 + _)%float).
  set (ic := internal_cost _). pose proof (internal_cost_nonneg (ps_topology_tier p)) as Hic. fold ic in Hic.
  assert (H1 : extends t t1) by (apply add_pool_node_extends; by eexists).
  assert (Hk : pool_known t1 (cs_cluster_id cl) (ps_pool_id p)).
  { eexists _, _. unfold t1. simpl. rewrite dget_set_eq. done. }
  set (t2 := _add_edge t1 g id bw lat ic).
  assert (H2 : extends t1 t2) by apply add_edge_extends.
  assert (H3 : extends t2 (_add_edge t2 id g bw lat ic)) by apply add_edge_extends.
  split; [|split].
  - apply add_edge_inv; [|exact Hic]. apply add_edge_inv; [by apply add_node_inv|exact Hic].
  - by etrans; [exact H1|]; etrans; [exact H2|].
  - apply (pool_wired_extends t2); [exact H3|]. split; [by apply H2|].
    destruct (add_edge_has t1 g id bw lat ic) as (e & He & Ht & Hc). by exists e.
Qed.

Lemma add_pools_spec cl ps t : topology_inv t →
  let t' := fold_left (add_pool cl) ps t in
  topology_inv t' ∧ extends t t' ∧ ∀ p, p ∈ ps → pool_wired t' (cs_cluster_id cl) p.
Proof.
  revert t. induction ps as [|p ps IH]; intros t Hinv; simpl; [split; [done|]; split; [done|set_solver]|].
  destruct (add_pool_spec cl t p Hinv) as (Hinv1 & He1 & Hp). destruct (IH _ Hinv1) as (Hinv2 & He2 & Hps).
  split; [done|]. split; [by etrans|]. intros q [->|Hq]%elem_of_cons; [by eapply pool_wired_extends|auto].
Qed.

Section build.
Context (read_text : string → result string).

(** The topology files the configuration names are of a size that exists. *)
Context (Hfiles : ∀ path contents s, read_text path = Ok contents → from_text contents = Ok s →
  Z.of_nat (length (gt_devices s)) <= 2 ^ 25).

(** What the building of one cluster leaves, and later steps keep. *)
Definition cluster_known (t : TopologyService) (cl : ClusterSpec) : Prop :=
  is_Some (dget (tp_cluster_gateways t) (cs_cluster_id cl)) ∧
  ∀ p, p ∈ cs_pools cl → pool_wired t (cs_cluster_id cl) p.

Lemma cluster_known_extends t t' cl : extends t t' → cluster_known t cl → cluster_known t' cl.
Proof. intros He [Hg Hp]. split; [by apply He|]. intros p Hin. eapply pool_wired_extends; eauto. Qed.

Lemma set_gateway_spec t c : topology_inv t →
  topology_inv (set_gateway t c (gateway_node_id c)) ∧ extends t (set_gateway t c (gateway_node_id c)) ∧
  is_Some (dget (tp_cluster_gateways (set_gateway t c (gateway_node_id c))) c).
Proof.
  intros [H1 H2 H3 H4]. split; [|split].
  - split; simpl; try done. intros k g. destruct (decide (c = k)) as [->|Hne].
    + rewrite dget_set_eq. congruence.
    + rewrite dget_set_ne by done. apply H1.
  - split; simpl; try done. intros k. destruct (decide (c = k)) as [->|Hne].
    + rewrite dget_set_eq. by eexists.
    + by rewrite dget_set_ne.
  - simpl. rewrite dget_set_eq. by eexists.
Qed.

Lemma set_probe_spec t c a f : topology_inv t → (0.0 <= a)%float → (a <= 1.0)%float →
  (0.0 <= f)%float → (f <= 2.5)%float → topology_inv (set_probe t c a f) ∧ extends t (set_probe t c a f).
Proof.
  intros [H1 H2 H3 H4] Ha Ha' Hf Hf'. split; [split; simpl; try done|by split].
  - intros k x. destruct (decide (c = k)) as [->|Hne]; [|by rewrite dget_set_ne; eauto].
    rewrite dget_set_eq. intros [= <-]. split; hyp.
  - intros k x. destruct (decide (c = k)) as [->|Hne]; [|by rewrite dget_set_ne; eauto].
    rewrite dget_set_eq. intros [= <-]. split; hyp.
Qed.

Lemma add_cluster_spec t cl t' : topology_inv t → add_cluster read_text t cl = Ok t' →
  topology_inv t' ∧ extends t t' ∧ cluster_known t' cl.
Proof using Hfiles.
  intros Hinv. unfold add_cluster.
  set (g := gateway_node_id (cs_cluster_id cl)).
  destruct (set_gateway_spec t (cs_cluster_id cl) Hinv) as (Hi1 & He1 & Hg1). fold g in Hi1, He1, Hg1.
  set (n := {| node_id := g; node_kind := "gateway"; node_cluster_id := cs_cluster_id cl;
               node_zone := cs_zone cl; node_metadata := None |}).
  set (t1 := set_gateway t (cs_cluster_id cl) g) in *. set (t2 := add_node t1 n).
  assert (Hi2 : topology_inv t2) by (by apply add_node_inv).
  assert (He2 : extends t1 t2) by (by apply (add_gateway_extends _ (cs_cluster_id cl))).
  pose proof (add_pools_spec cl (cs_pools cl) t2 Hi2) as (Hi3 & He3 & Hp3).
  set (t3 := fold_left (add_pool cl) (cs_pools cl) t2) in *.
  assert (He : extends t t3) by (etrans; [exact He1|]; by etrans).
  assert (Hk : cluster_known t3 cl).
  { split; [|exact Hp3]. apply He3, He2. exact Hg1. }
  destruct (cs_gpu_topology_file cl) as [[|a path]|]; try (by intros [= <-]).
  intros H. apply bind_ok in H as (contents & Hr & H). apply bind_ok in H as (s & Hs & H).
  apply bind_ok in H as (x & Hx & H). apply bind_ok in H as (y & Hy & H). injection H as <-.
  pose proof (Hfiles _ _ _ Hr Hs) as Hn.
  destruct (summaries_range contents s Hs Hn) as (x' & y' & Hx' & Hy' & R1 & R2 & R3 & R4).
  rewrite Hx in Hx'. rewrite Hy in Hy'. injection Hx' as <-. injection Hy' as <-.
  destruct (set_probe_spec t3 (cs_cluster_id cl) x y Hi3 R1 R2 R3 R4) as [Hi4 He4].
  split; [exact Hi4|]. split; [by etrans|]. by apply (cluster_known_extends t3).
Qed.

Definition costs_ok (cl : ClusterSpec) : Prop :=
  Forall (fun tc => (0.0 <= tc.2)%float) (cs_network_costs cl).

Lemma link_cluster_spec t cl t' : topology_inv t → costs_ok cl → link_cluster t cl = Ok t' →
  topology_inv t' ∧ extends t t'.
Proof.
  intros Hinv Hc. unfold link_cluster. destruct (dget _ _) as [g|]; [|done]. simpl. intros [= <-].
  revert t Hinv. unfold costs_ok in Hc. induction Hc as [|[k c] l Hc Hl IH]; intros t Hinv; [by split|].
  simpl. destruct (String.eqb k "ingress"); [by apply IH|].
  destruct (dget (tp_cluster_gateways t) k) as [[|a g']|]; [by apply IH| |by apply IH].
  destruct (IH (_add_edge t g (String a g') (400.0 / pymax c 0.5)%float (25.0 * c)%float c)) as [H1 H2].
  - by apply add_edge_inv.
  - split; [exact H1|]. etrans; [apply add_edge_extends|exact H2].
Qed.

Lemma add_clusters_spec cls t t' : topology_inv t → foldM (add_cluster read_text) t cls = Ok t' →
  topology_inv t' ∧ extends t t' ∧ ∀ cl, cl ∈ cls → cluster_known t' cl.
Proof using Hfiles.
  revert t. induction cls as [|cl cls IH]; intros t Hinv; simpl; [intros [= <-]; split; [done|split; [done|set_solver]]|].
  intros H. apply bind_ok in H as (t1 & H1 & H). destruct (add_cluster_spec t cl t1 Hinv H1) as (Hi & He & Hk).
  destruct (IH t1 Hi H) as (Hi' & He' & Hk'). split; [done|]. split; [by etrans|].
  intros c [->|Hc]%elem_of_cons; [by eapply cluster_known_extends|auto].
Qed.

Lemma link_clusters_spec cls t t' : topology_inv t → Forall costs_ok cls →
  foldM link_cluster t cls = Ok t' → topology_inv t' ∧ extends t t'.
Proof.
  intros Hinv Hc. revert t Hinv. induction Hc as [|cl cls Hcl Hcls IH]; intros t Hinv; simpl; [by intros [= <-]|].
  intros H. apply bind_ok in H as (t1 & H1 & H). destruct (link_cluster_spec t cl t1 Hinv Hcl H1) as [Hi He].
  destruct (IH t1 Hi H) as [Hi' He']. split; [done|by etrans].
Qed.

Lemma build_spec config t : _build_from_config read_text config = Ok t →
  Forall costs_ok (ec_clusters config) →
  topology_inv t ∧ ∀ cl, cl ∈ ec_clusters config → cluster_known t cl.
Proof using Hfiles.
  unfold _build_from_config. intros H Hc. apply bind_ok in H as (t1 & H1 & H2).
  destruct (add_clusters_spec _ _ _ empty_topology_inv H1) as (Hi & _ & Hk).
  destruct (link_clusters_spec _ _ _ Hi Hc H2) as [Hi' He]. split; [done|].
  intros cl Hcl. by apply (cluster_known_extends t1), Hk.
Qed.
End build.

(** ** Affinity and route cost *)

Lemma long_context_range (n : Z) : 0 <= n →
  (0.65 <= 0.65 + 0.35 * pymin 1.0 (of_Z n / 8192.0))%float ∧
  (0.65 + 0.35 * pymin 1.0 (of_Z n / 8192.0) <= 1.0)%float.
Proof.
  intros Hn. set (x := pymin 1.0 _).
  assert (H0 : (0.0 <= x)%float).
  { apply pymin_glb; [flit|]. apply fdiv_nonneg; [reflexivity|flit|by apply of_Z_nonneg]. }
  assert (H1 : (x <= 1.0)%float) by (apply pymin_le_l; nn).
  assert (Hf : finite x = true) by (apply (finite_between x 0.0 1.0); [reflexivity|reflexivity|hyp|hyp]).
  assert (Hm : (0.35 * x <= 0.35 * 1.0)%float).
  { rewrite !(fmul_comm 0.35). apply fmul_mono_r; [hyp|flit| |vm_compute; discriminate].
    apply fmul_finite_not_nan; [exact Hf|reflexivity]. }
  assert (Hm0 : (0.0 <= 0.35 * x)%float).
  { apply fmul_nonneg_fin; [reflexivity|exact Hf|flit|hyp]. }
  assert (Hn1 : (0.65 + 0.35 * x)%float ≠ NaN).
  { apply fadd_finite_not_nan; [reflexivity|exact (fle_not_nan_r _ _ Hm0)]. }
  split.
  - apply fadd_ge_l; [apply of_lit_wf; flit|flit|exact Hm0].
  - apply (fle_trans _ (0.65 + 0.35 * 1.0)%float); [|flit].
    apply fadd_mono; [flit|exact Hm|exact Hn1|vm_compute; discriminate].
Qed.

Lemma blend_range (s p : float) : (0.2 <= s)%float → (s <= 1.0)%float → (0.0 <= p)%float → (p <= 1.0)%float →
  (0.0 <= s * 0.8 + p * 0.2)%float ∧ (s * 0.8 + p * 0.2 <= 1.0)%float.
Proof.
  intros Hs0 Hs1 Hp0 Hp1.
  assert (Hs : (0.0 <= s)%float) by (eapply fle_trans; [|exact Hs0]; flit).
  assert (Hfs : finite s = true) by (apply (finite_between s 0.0 1.0); [reflexivity|reflexivity|hyp|hyp]).
  assert (Hfp : finite p = true) by (apply (finite_between p 0.0 1.0); [reflexivity|reflexivity|hyp|hyp]).
  assert (A0 : (0.0 <= s * 0.8)%float) by (apply fmul_nonneg_fin; [exact Hfs|reflexivity|hyp|flit]).
  assert (B0 : (0.0 <= p * 0.2)%float) by (apply fmul_nonneg_fin; [exact Hfp|reflexivity|hyp|flit]).
  assert (A1 : (s * 0.8 <= 1.0 * 0.8)%float).
  { apply fmul_mono_r; [hyp|flit|exact (fle_not_nan_r _ _ A0)|vm_compute; discriminate]. }
  assert (B1 : (p * 0.2 <= 1.0 * 0.2)%float).
  { apply fmul_mono_r; [hyp|flit|exact (fle_not_nan_r _ _ B0)|vm_compute; discriminate]. }
  pose proof (fadd_nonneg _ _ A0 B0) as H0. split; [exact H0|].
  apply (fle_trans _ (1.0 * 0.8 + 1.0 * 0.2)%float); [|flit].
  apply fadd_mono; [exact A1|exact B1|exact (fle_not_nan_r _ _ H0)|vm_compute; discriminate].
Qed.

Lemma tier_score_range tier : (0.2 <= tier_score tier)%float ∧ (tier_score tier <= 1.0)%float.
Proof. apply (tier_score_cases tier (fun s => (0.2 <= s)%float ∧ (s <= 1.0)%float)); split; flit. Qed.

Lemma pool_affinity_range t c p n : topology_inv t → pool_known t c p → 0 <= n →
  ∃ a, pool_affinity t c p n = Ok a ∧ (0.0 <= a)%float ∧ (a <= 1.0)%float.
Proof.
  intros Hinv (k & [[acc tier] gpus] & Hk & Hm) Hn. unfold pool_affinity. rewrite Hk. cbn [get_or mbind result_bind].
  rewrite Hm. cbn [get_or mbind result_bind]. eexists; split; [reflexivity|].
  destruct (tier_score_range tier) as [S0 S1]. destruct (long_context_range n Hn) as [L0 L1].
  set (probe := dget_or (tier_score tier) (tp_cluster_probe_affinity t) c).
  assert (HP : (0.0 <= probe)%float ∧ (probe <= 1.0)%float).
  { unfold probe, dget_or. destruct (dget (tp_cluster_probe_affinity t) c) as [a|] eqn:E; simpl.
    - exact (ti_affinity _ Hinv c a E).
    - split; [|exact S1]. eapply fle_trans; [|exact S0]. flit. }
  destruct HP as [P0 P1]. destruct (blend_range _ _ S0 S1 P0 P1) as [B0 B1].
  set (bl := (tier_score tier * 0.8 + probe * 0.2)%float) in *. set (lc := (0.65 + _)%float) in *.
  assert (Hfb : finite bl = true) by (apply (finite_between bl 0.0 1.0); [reflexivity|reflexivity|hyp|hyp]).
  assert (Hl0 : (0.0 <= lc)%float) by (eapply fle_trans; [|exact L0]; flit).
  assert (Hfl : finite lc = true) by (apply (finite_between lc 0.0 1.0); [reflexivity|reflexivity|hyp|hyp]).
  pose proof (fmul_nonneg_fin bl lc Hfb Hfl B0 Hl0) as M0.
  split; [apply fround_nonneg; [lia|exact M0]|].
  assert (H1 : fround 4 1.0%float = of_lit 1.0%float) by flit. rewrite <- H1. apply fround_mono; [lia|].
  apply (fle_trans _ bl); [|exact B1]. apply fmul_le_l; [apply fadd_wf|exact Hfb|exact Hfl|exact B0|exact L1].
Qed.

Lemma search_terminates adj source target : is_Some (shortest_path_search adj source target).
Proof.
  apply search_enough. rewrite pending_empty. unfold search_fuel. simpl. lia.
Qed.

Lemma search_least_cost adj source target r :
  (∀ u e, e ∈ dget_or [] adj u → (0.0 <= link_cost e)%float) →
  shortest_path_search adj source target = Some r → least_cost adj source target r.
Proof.
  intros Hc Hr. apply (search_least adj source Hc _ _ _ _ _ source r Hr (initial_inv adj source Hc)). set_solver.
Qed.

(** The route of a wired pool is bounded by its direct edge. *)
Lemma route_cost_range t c p : topology_inv t → is_Some (dget (tp_cluster_gateways t) c) →
  pool_wired t c p →
  ∃ r, route_cost t c (ps_pool_id p) = Ok r ∧ (0.0 <= r)%float ∧ (r <= 5.0)%float.
Proof.
  intros Hinv [g Hg] [_ (e & He & Ht & Hce)]. unfold route_cost. rewrite Hg. cbn [get_or mbind result_bind].
  pose proof (ti_gateways _ Hinv c g Hg) as ->. eexists; split; [reflexivity|].
  unfold shortest_path_cost.
  destruct (search_terminates (tp_adjacency t) (gateway_node_id c) (pool_node_id c (ps_pool_id p))) as [d Hd].
  rewrite Hd. cbn [default]. destruct (search_least_cost _ _ _ _ (ti_costs _ Hinv) Hd) as [Hmin Hatt].
  set (f := dget_or (of_lit 1.0%float) (tp_cluster_probe_cost_factor t) c).
  assert (Hf : (0.0 <= f)%float ∧ (f <= 2.5)%float).
  { unfold f, dget_or. destruct (dget (tp_cluster_probe_cost_factor t) c) as [x|] eqn:E; simpl.
    - exact (ti_factor _ Hinv c x E).
    - split; flit. }
  destruct Hf as [F0 F1]. destruct (internal_cost_range (ps_topology_tier p)) as [_ I1].
  assert (Hp : path (tp_adjacency t) (gateway_node_id c) (pool_node_id c (ps_pool_id p)) (0.0 + link_cost e)%float).
  { rewrite <- Ht. apply (path_edge _ _ (gateway_node_id c)); [apply path_source|exact He]. }
  pose proof (Hmin _ Hp) as H1. pose proof (path_cost _ _ (ti_costs _ Hinv) _ _ Hp) as [_ Hp0].
  assert (D1 : (d <= 2.0)%float).
  { eapply fle_trans; [exact H1|]. apply (fle_trans _ (0.0 + 1.0)%float); [|flit].
    apply fadd_mono; [flit|rewrite Hce; exact I1|exact (fle_not_nan_r _ _ Hp0)|vm_compute; discriminate]. }
  assert (D0 : (0.0 <= d)%float).
  { destruct Hatt as [->|Hatt]; [flit|]. exact (proj2 (path_cost _ _ (ti_costs _ Hinv) _ _ Hatt)). }
  assert (Fd : finite d = true) by (apply (finite_between d 0.0 2.0); [reflexivity|reflexivity|hyp|hyp]).
  assert (Ff : finite f = true) by (apply (finite_between f 0.0 2.5); [reflexivity|reflexivity|hyp|hyp]).
  pose proof (fmul_nonneg_fin d f Fd Ff D0 F0) as M0. split; [apply fround_nonneg; [lia|exact M0]|].
  assert (H5 : fround 4 5.0%float = of_lit 5.0%float) by flit. rewrite <- H5. apply fround_mono; [lia|].
  apply (fle_trans _ (2.0 * 2.5)%float); [|flit].
  apply fmul_mono_nonneg; [reflexivity|reflexivity|exact Ff|exact D0|flit|exact D1|exact F1].
Qed.

(** ** The properties of the topology service *)

(** C16: the shortest-path search always ends with an answer: one pop per edge
    of the graph, one for the source and one for the empty frontier are enough,
    on every graph, whatever its edge costs. *)
Theorem shortest_path_terminates (adj : adjacency) (source target : string) :
  ∃ r, shortest_path_search adj source target = Some r.
Proof. apply search_terminates. Qed.

(** C9: on a graph without negative edges, the shortest-path cost is the least
    cost of a path from [source] to [target], the costs of a path being added in
    floating point along the path: no path costs less, and the answer is the
    cost of a path unless it is infinite. *)
Theorem shortest_path_optimal (t : TopologyService) (source target : string) :
  (∀ u e, e ∈ dget_or [] (tp_adjacency t) u → (0.0 <= link_cost e)%float) →
  let r := shortest_path_cost t source target in
  (∀ c, path (tp_adjacency t) source target c → (r <= c)%float) ∧
  (r = PInf ∨ path (tp_adjacency t) source target r).
Proof.
  intros Hc. unfold shortest_path_cost. destruct (search_terminates (tp_adjacency t) source target) as [r Hr].
  rewrite Hr. exact (search_least_cost _ _ _ _ Hc Hr).
Qed.

(** C28: the topology built from a configuration without negative network costs
    answers for every configured pool: its route cost is between 0 and 5 (in
    particular finite, for the gateway is linked to it directly) and its
    affinity between 0 and 1, whatever the prompt. *)
Theorem topology_answers (read_text : string → result string) (config : ExperimentConfig)
    (t : TopologyService) (cl : ClusterSpec) (p : PoolSpec) (n : Z) :
  (∀ path contents s, read_text path = Ok contents → from_text contents = Ok s →
     Z.of_nat (length (gt_devices s)) <= 2 ^ 25) →
  _build_from_config read_text config = Ok t → Forall costs_ok (ec_clusters config) →
  cl ∈ ec_clusters config → p ∈ cs_pools cl → 0 <= n →
  ∃ r a, route_cost t (cs_cluster_id cl) (ps_pool_id p) = Ok r ∧
         pool_affinity t (cs_cluster_id cl) (ps_pool_id p) n = Ok a ∧
         (0.0 <= r)%float ∧ (r <= 5.0)%float ∧ (0.0 <= a)%float ∧ (a <= 1.0)%float.
Proof.
  intros Hf Hb Hc Hcl Hp Hn. destruct (build_spec read_text Hf config t Hb Hc) as [Hinv Hk].
  destruct (Hk cl Hcl) as [Hg Hw]. destruct (route_cost_range t _ p Hinv Hg (Hw p Hp)) as (r & Hr & R0 & R1).
  destruct (pool_affinity_range t _ _ n Hinv (proj1 (Hw p Hp)) Hn) as (a & Ha & A0 & A1).
  exists r, a. split; [exact Hr|]. split; [exact Ha|]. split; [exact R0|]. split; [exact R1|]. split; [exact A0|exact A1].
Qed.

(** ** At concrete inputs *)

(** The file system of the samples: one topology file. *)
Definition sample_files (path : string) : result string :=
  if String.eqb path "topo.txt" then Ok sample_topology else Err FileNotFoundError.

Lemma sample_files_small path contents s : sample_files path = Ok contents → from_text contents = Ok s →
  Z.of_nat (length (gt_devices s)) <= 2 ^ 25.
Proof.
  unfold sample_files. destruct (String.eqb path "topo.txt"); [|done]. intros [= <-] Hs.
  assert (H : match from_text sample_topology with
    | Ok s => (Z.of_nat (length (gt_devices s)) <=? 2 ^ 25) | Err _ => false end = true) by flit.
  rewrite Hs in H. by apply Z.leb_le.
Qed.

Definition sample_topology_service : TopologyService :=
  match _build_from_config sample_files (sample_config "least_queue") with
  | Ok t => t | Err _ => empty_topology end.

Lemma sample_builds : _build_from_config sample_files (sample_config "least_queue") = Ok sample_topology_service.
Proof. vm_compute. reflexivity. Qed.

Lemma sample_costs policy : Forall costs_ok (ec_clusters (sample_config policy)).
Proof. repeat (constructor; [repeat (constructor; [flit|]); constructor|]). constructor. Qed.

(** The far pool of the other cluster is two hops away. *)
Example two_hops :
  shortest_path_cost sample_topology_service "gateway:c0" "pool:c1:p0" = (0.0 + 0.4 + internal_cost "pcie-fabric")%float.
Proof. vm_compute. reflexivity. Qed.

Lemma shortest_path_optimal_witness :
  let r := shortest_path_cost sample_topology_service "gateway:c0" "pool:c1:p0" in
  r = PInf ∨ path (tp_adjacency sample_topology_service) "gateway:c0" "pool:c1:p0" r.
Proof.
  apply (shortest_path_optimal sample_topology_service "gateway:c0" "pool:c1:p0").
  apply ti_costs, (build_spec sample_files sample_files_small (sample_config "least_queue"));
    [exact sample_builds|apply sample_costs].
Defined.

Lemma topology_answers_witness : ∃ r a,
  route_cost sample_topology_service "c0" "p1" = Ok r ∧
  pool_affinity sample_topology_service "c0" "p1" 512 = Ok a ∧ (r <= 5.0)%float ∧ (a <= 1.0)%float.
Proof.
  destruct (topology_answers sample_files (sample_config "least_queue") sample_topology_service
    (sample_cluster "c0" "c1" (of_lit 0.4%float) (Some "topo.txt")
       [sample_spec "p0" "nvlink-mesh"; sample_spec "p1" "ethernet"]) (sample_spec "p1" "ethernet") 512)
    as (r & a & Hr & Ha & _ & R1 & _ & A1).
  - exact sample_files_small.
  - exact sample_builds.
  - apply sample_costs.
  - left.
  - right. left.
  - lia.
  - exists r, a. split; [exact Hr|]. split; [exact Ha|]. split; [exact R1|exact A1].
Defined.
