(* ===== verification/Policies.v ===== *)
(** * [policies/]: the ten routing policies

    [RoutingPolicy] is the abstract base class: a policy is a type of states
    with [choose] and [observe_result]; the attributes a policy assigns are its
    state.  [LawfulPolicy] is what the control plane relies on: the choice is
    one of the candidates, an available one whenever there is one.  The
    [defaultdict]s of counters are total maps over [gmap]: reading an absent key
    inserts the default, which no operation can observe. *)

From S2P Require Import Prelude PyFloat PyOrder PyDict Types Samples.

Local Open Scope float_scope.

(** ** The interface *)

Class RoutingPolicy (S : Type) := {
  policy_name : S → string;
  choose : S → InferenceRequest → list CandidatePlacement → result (S * CandidatePlacement);
  observe_result : S → RequestResult → result S
}.

Definition sla_known (r : InferenceRequest) : Prop := is_Some (dget SLA_PRIORITY (req_sla_class r)).

Class LawfulPolicy (S : Type) `{RoutingPolicy S} := {
  policy_wf : S → Prop;
  choose_safe s r cs s' c : choose s r cs = Ok (s', c) →
    c ∈ cs ∧ (∀ a, a ∈ cs → cand_available a = true → cand_available c = true);
  choose_total s r cs : policy_wf s → sla_known r → cs ≠ [] →
    ∃ s' c, choose s r cs = Ok (s', c) ∧ policy_wf s';
  observe_total s res : policy_wf s → ∃ s', observe_result s res = Ok s' ∧ policy_wf s'
}.

(** [_available_candidates], and [[...] or candidates] of the other policies. *)
Definition _available_candidates (candidates : list CandidatePlacement) : list CandidatePlacement :=
  match filter (fun c => cand_available c = true) candidates with
  | [] => candidates
  | (_ :: _) as usable => usable
  end.

(** [min(usable, key=key)] *)
Definition pick_min {K} (lt : K → K → bool) (key : CandidatePlacement → K)
    (candidates : list CandidatePlacement) : result CandidatePlacement :=
  get_or ValueError (min_by lt key (_available_candidates candidates)).

(** [observe_result] of the base class. *)
Definition ignore_result {S} (s : S) (_ : RequestResult) : result S := Ok s.

(** Tuples of floats. *)
Definition ltb2 : float * float → float * float → bool := lex_ltb feqb fltb fltb.
Definition ltb3 : float * (float * float) → float * (float * float) → bool := lex_ltb feqb fltb ltb2.
Definition ltb4 := lex_ltb (A := float) feqb fltb ltb3.

(** ** [policies/heuristics/simple.py] *)

Record RoundRobinPolicy := { rr_cursor : Z }.

Definition rr_choose (s : RoundRobinPolicy) (request : InferenceRequest)
    (candidates : list CandidatePlacement) : result (RoundRobinPolicy * CandidatePlacement) :=
  let usable := _available_candidates candidates in
  match usable with
  | [] => Err ZeroDivisionError
  | _ :: _ =>
      choice ← get_or IndexError
        (usable !! Z.to_nat (rr_cursor s mod Z.of_nat (length usable))%Z);
      Ok ({| rr_cursor := (rr_cursor s + 1)%Z |}, choice)
  end.

Inductive LeastQueuePolicy : Type := LeastQueue.

Definition least_queue_key (item : CandidatePlacement) : float * (float * float) :=
  (cand_queue_delay_ms item, (cand_network_cost item, cand_accelerator_cost_per_1m_tokens item)).

Inductive TopologyGreedyPolicy : Type := TopologyGreedy.

Definition topology_greedy_key (item : CandidatePlacement) : float :=
  cand_queue_delay_ms item + (cand_network_cost item * 14.0)
  - (cand_topology_affinity item * 110.0) + (cand_congestion_score item * 80.0).

Inductive CacheAwarePolicy : Type := CacheAware.

Definition cache_aware_key (item : CandidatePlacement) : float * (float * (float * float)) :=
  (- (cand_expected_cache_hit_ratio item * 1000.0),
   (cand_queue_delay_ms item,
    (cand_network_cost item, cand_accelerator_cost_per_1m_tokens item))).

Inductive MultiObjectivePolicy : Type := MultiObjective.

Definition breakdown_get (item : CandidatePlacement) (k : string) : float :=
  dget_or (of_lit 0.0) (cand_score_breakdown item) k.

Definition premium_penalty (request : InferenceRequest) (item : CandidatePlacement) : float :=
  let p := if String.eqb (req_sla_class request) "best_effort" && cand_premium item
           then of_lit 70.0 else of_lit 0.0 in
  if String.eqb (req_sla_class request) "realtime" && negb (cand_premium item)
  then of_lit 25.0 else p.

Definition objective (request : InferenceRequest) (sla_priority : Z) (item : CandidatePlacement) :
    float :=
  let latency_weight := if (sla_priority =? 3)%Z then of_lit 1.4
                        else if (sla_priority =? 2)%Z then of_lit 1.1 else of_lit 0.75 in
  let cost_weight := if (sla_priority =? 3)%Z then of_lit 0.25 else of_lit 0.55 in
  estimated_total_latency_ms item * latency_weight
  + cand_network_cost item * 18.0
  + cand_accelerator_cost_per_1m_tokens item * cost_weight
  + cand_congestion_score item * 90.0
  - cand_expected_cache_hit_ratio item * 450.0
  - cand_topology_affinity item * 85.0
  + cand_fairness_penalty item * 110.0
  - breakdown_get item "cuda_cache_bonus" * 70.0
  + breakdown_get item "cuda_topology_penalty" * 65.0
  + breakdown_get item "cuda_load_penalty" * 55.0
  + premium_penalty request item.

Definition multi_objective_choose (request : InferenceRequest)
    (candidates : list CandidatePlacement) : result CandidatePlacement :=
  sla_priority ← get_or KeyError (dget SLA_PRIORITY (req_sla_class request));
  pick_min fltb (objective request sla_priority) candidates.

Notation counters V := (gmap (string * string) V).

Definition counter_get {V} (dflt : V) (m : counters V) (k : string * string) : V := default dflt (m !! k).

Definition cand_key (c : CandidatePlacement) : string * string := (cand_cluster_id c, cand_pool_id c).
Definition result_key (r : RequestResult) : string * string :=
  (dec_cluster_id (res_decision r), dec_pool_id (res_decision r)).

Record FailureAwareSpreadPolicy := { sp_pool_counts : counters Z }.

Definition spread_key (counts : counters Z) (item : CandidatePlacement) : Z * (float * float) :=
  (counter_get 0%Z counts (cand_key item), (cand_queue_delay_ms item, cand_network_cost item)).
Definition spread_ltb : Z * (float * float) → Z * (float * float) → bool := lex_ltb Z.eqb Z.ltb ltb2.

Definition sp_choose (s : FailureAwareSpreadPolicy) (request : InferenceRequest)
    (candidates : list CandidatePlacement) : result (FailureAwareSpreadPolicy * CandidatePlacement) :=
  let counts := sp_pool_counts s in
  choice ← pick_min spread_ltb (spread_key counts) candidates;
  Ok ({| sp_pool_counts :=
           <[cand_key choice := (counter_get 0 counts (cand_key choice) + 1)%Z]> counts |}, choice).

Definition sp_observe (s : FailureAwareSpreadPolicy) (r : RequestResult) :
    result FailureAwareSpreadPolicy :=
  let counts := sp_pool_counts s in
  let key := result_key r in
  Ok {| sp_pool_counts := <[key := (Z.max 0 (counter_get 0 counts key - 1))%Z]> counts |}.

(** ** [policies/rl/] and [policies/gnn/] *)

Record ContextualBanditPolicy := {
  cb_exploration_bonus : float;
  cb_counts : counters Z;
  cb_value : counters float
}.

Definition make_bandit (exploration_bonus : float) : ContextualBanditPolicy :=
  {| cb_exploration_bonus := exploration_bonus; cb_counts := ∅; cb_value := ∅ |}.

Definition bandit_score (s : ContextualBanditPolicy) (candidate : CandidatePlacement) : result float :=
  let key := cand_key candidate in
  let mean_reward := counter_get (of_lit 0.0) (cb_value s) key in
  let pulls := counter_get 0%Z (cb_counts s) key in
  exploration ← py_div (cb_exploration_bonus s) (of_Z (1 + pulls));
  let heuristic_hint :=
    cand_expected_cache_hit_ratio candidate * 120.0
    + cand_topology_affinity candidate * 60.0
    - cand_queue_delay_ms candidate * 0.08
    - cand_accelerator_cost_per_1m_tokens candidate * 0.08 in
  Ok (mean_reward + heuristic_hint + exploration).

Definition cb_choose (s : ContextualBanditPolicy) (request : InferenceRequest)
    (candidates : list CandidatePlacement) : result (ContextualBanditPolicy * CandidatePlacement) :=
  scored ← mapR (fun c => x ← bandit_score s c; Ok (x, c)) (_available_candidates candidates);
  best ← get_or ValueError (max_by fltb fst scored);
  Ok (s, best.2).

Definition reward (r : RequestResult) : float :=
  (if res_sla_met r then of_lit 1.0 else - 0.9) * 120.0
  + res_cache_hit_ratio r * 60.0
  - res_total_latency_ms r * 0.08
  - res_cost_usd r * 9.0.

Definition cb_observe (s : ContextualBanditPolicy) (r : RequestResult) :
    result ContextualBanditPolicy :=
  let key := result_key r in
  let count := (counter_get 0 (cb_counts s) key + 1)%Z in
  alpha ← py_div 1.0 (of_Z count);
  Ok {| cb_exploration_bonus := cb_exploration_bonus s;
        cb_counts := <[key := count]> (cb_counts s);
        cb_value := <[key := (1.0 - alpha) * counter_get (of_lit 0.0) (cb_value s) key
                             + alpha * reward r]> (cb_value s) |}.

(** [available] records whether the optional library could be imported. *)
Record SB3Policy := { sb3_available : bool }.

Inductive GNNPlaceholderPolicy : Type := GNNPlaceholder.

Definition gnn_key (item : CandidatePlacement) : float :=
  estimated_total_latency_ms item
  - cand_expected_cache_hit_ratio item * 300.0
  - cand_topology_affinity item * 75.0.

Record PyGGNNPolicy := { pyg_available : bool }.

Definition pyg_key (item : CandidatePlacement) : float :=
  estimated_total_latency_ms item
  - cand_topology_affinity item * 120.0
  - cand_expected_cache_hit_ratio item * 320.0.

(** ** The instances of the interface *)

(** A policy without state. *)
Definition stateless {S} (f : InferenceRequest → list CandidatePlacement → result CandidatePlacement)
    (s : S) (r : InferenceRequest) (cs : list CandidatePlacement) : result (S * CandidatePlacement) :=
  c ← f r cs; Ok (s, c).

#[export] Instance round_robin_policy : RoutingPolicy RoundRobinPolicy := {
  policy_name _ := "round_robin"; choose := rr_choose; observe_result := ignore_result }.
#[export] Instance least_queue_policy : RoutingPolicy LeastQueuePolicy := {
  policy_name _ := "least_queue"; choose := stateless (fun _ => pick_min ltb3 least_queue_key);
  observe_result := ignore_result }.
#[export] Instance topology_greedy_policy : RoutingPolicy TopologyGreedyPolicy := {
  policy_name _ := "topology_greedy"; choose := stateless (fun _ => pick_min fltb topology_greedy_key);
  observe_result := ignore_result }.
#[export] Instance cache_aware_policy : RoutingPolicy CacheAwarePolicy := {
  policy_name _ := "cache_aware"; choose := stateless (fun _ => pick_min ltb4 cache_aware_key);
  observe_result := ignore_result }.
#[export] Instance multi_objective_policy : RoutingPolicy MultiObjectivePolicy := {
  policy_name _ := "multi_objective"; choose := stateless multi_objective_choose;
  observe_result := ignore_result }.
#[export] Instance spread_policy : RoutingPolicy FailureAwareSpreadPolicy := {
  policy_name _ := "spread"; choose := sp_choose; observe_result := sp_observe }.
#[export] Instance bandit_policy : RoutingPolicy ContextualBanditPolicy := {
  policy_name _ := "contextual_bandit"; choose := cb_choose; observe_result := cb_observe }.
#[export] Instance sb3_policy : RoutingPolicy SB3Policy := {
  policy_name _ := "sb3_placeholder";
  choose := stateless (fun _ => pick_min fltb estimated_total_latency_ms);
  observe_result := ignore_result }.
#[export] Instance gnn_policy : RoutingPolicy GNNPlaceholderPolicy := {
  policy_name _ := "gnn_placeholder"; choose := stateless (fun _ => pick_min fltb gnn_key);
  observe_result := ignore_result }.
#[export] Instance pyg_policy : RoutingPolicy PyGGNNPolicy := {
  policy_name _ := "pyg_placeholder"; choose := stateless (fun _ => pick_min fltb pyg_key);
  observe_result := ignore_result }.

(** ** The registry of [NimbusMeshControlPlane._build_policy] *)

Inductive registered_policy : Type :=
  | P_round_robin (s : RoundRobinPolicy) | P_least_queue (s : LeastQueuePolicy)
  | P_topology_greedy (s : TopologyGreedyPolicy) | P_cache_aware (s : CacheAwarePolicy)
  | P_multi_objective (s : MultiObjectivePolicy) | P_contextual_bandit (s : ContextualBanditPolicy)
  | P_sb3_placeholder (s : SB3Policy) | P_spread (s : FailureAwareSpreadPolicy)
  | P_gnn_placeholder (s : GNNPlaceholderPolicy) | P_pyg_placeholder (s : PyGGNNPolicy).

(** [_build_policy]; the two flags say which optional libraries import. *)
Definition policy_registry (ppo pyg : bool) : dict string registered_policy :=
  [("round_robin", P_round_robin {| rr_cursor := 0 |}); ("least_queue", P_least_queue LeastQueue);
   ("topology_greedy", P_topology_greedy TopologyGreedy); ("cache_aware", P_cache_aware CacheAware);
   ("multi_objective", P_multi_objective MultiObjective);
   ("contextual_bandit", P_contextual_bandit (make_bandit 18.0));
   ("sb3_placeholder", P_sb3_placeholder {| sb3_available := ppo |});
   ("spread", P_spread {| sp_pool_counts := ∅ |});
   ("gnn_placeholder", P_gnn_placeholder GNNPlaceholder);
   ("pyg_placeholder", P_pyg_placeholder {| pyg_available := pyg |})].

Definition _build_policy (ppo pyg : bool) (name : string) : result registered_policy :=
  get_or ValueError (dget (policy_registry ppo pyg) name).

Definition lift_choice {S} (wrap : S → registered_policy) (r : result (S * CandidatePlacement)) :
    result (registered_policy * CandidatePlacement) :=
  sc ← r; Ok (wrap sc.1, sc.2).

Definition any_choose (p : registered_policy) (r : InferenceRequest) (cs : list CandidatePlacement) :
    result (registered_policy * CandidatePlacement) :=
  match p with
  | P_round_robin s => lift_choice P_round_robin (choose s r cs)
  | P_least_queue s => lift_choice P_least_queue (choose s r cs)
  | P_topology_greedy s => lift_choice P_topology_greedy (choose s r cs)
  | P_cache_aware s => lift_choice P_cache_aware (choose s r cs)
  | P_multi_objective s => lift_choice P_multi_objective (choose s r cs)
  | P_contextual_bandit s => lift_choice P_contextual_bandit (choose s r cs)
  | P_sb3_placeholder s => lift_choice P_sb3_placeholder (choose s r cs)
  | P_spread s => lift_choice P_spread (choose s r cs)
  | P_gnn_placeholder s => lift_choice P_gnn_placeholder (choose s r cs)
  | P_pyg_placeholder s => lift_choice P_pyg_placeholder (choose s r cs)
  end.

Definition any_observe (p : registered_policy) (res : RequestResult) : result registered_policy :=
  match p with
  | P_contextual_bandit s => P_contextual_bandit <$> observe_result s res
  | P_spread s => P_spread <$> observe_result s res
  | _ => Ok p
  end.

Definition any_name (p : registered_policy) : string :=
  match p with
  | P_round_robin s => policy_name s | P_least_queue s => policy_name s
  | P_topology_greedy s => policy_name s | P_cache_aware s => policy_name s
  | P_multi_objective s => policy_name s | P_contextual_bandit s => policy_name s
  | P_sb3_placeholder s => policy_name s | P_spread s => policy_name s
  | P_gnn_placeholder s => policy_name s | P_pyg_placeholder s => policy_name s
  end.

#[export] Instance any_policy : RoutingPolicy registered_policy := {
  policy_name := any_name; choose := any_choose; observe_result := any_observe }.

(** ** The laws *)

(** A choice among the usable candidates is safe. *)
Definition safe_choice (cs : list CandidatePlacement) (c : CandidatePlacement) : Prop :=
  c ∈ cs ∧ (∀ a, a ∈ cs → cand_available a = true → cand_available c = true).

Lemma usable_safe cs c : c ∈ _available_candidates cs → safe_choice cs c.
Proof.
  unfold _available_candidates, safe_choice.
  assert (Hf : ∀ x, x ∈ filter (fun c => cand_available c = true) cs ↔ cand_available x = true ∧ x ∈ cs)
    by (intros; by rewrite list_elem_of_filter).
  destruct (filter _ cs) as [|x l] eqn:E.
  - intros Hc. split; [done|]. intros a Ha Hav. exfalso.
    apply (not_elem_of_nil (A := CandidatePlacement) a). by apply Hf.
  - intros Hc. apply Hf in Hc as [? ?]. done.
Qed.

Lemma usable_nonempty cs : cs ≠ [] → _available_candidates cs ≠ [].
Proof. unfold _available_candidates. by destruct (filter _ cs). Qed.

Lemma pick_min_safe {K} (lt : K → K → bool) key cs c :
  pick_min lt key cs = Ok c → safe_choice cs c.
Proof. unfold pick_min. intros H. apply get_or_ok, min_by_elem in H. by apply usable_safe. Qed.

Lemma pick_min_total {K} (lt : K → K → bool) key cs : cs ≠ [] → is_Ok (pick_min lt key cs).
Proof.
  intros Hne. unfold pick_min.
  destruct (min_by_is_Some lt key _ (usable_nonempty cs Hne)) as [c ->]. by exists c.
Qed.

(** The choice is least among the usable candidates. *)
Lemma pick_min_least {K} (P : K → Prop) (lt : K → K → bool) `{!StrictWeakOn P lt} key cs c a :
  Forall (fun x => P (key x)) cs → pick_min lt key cs = Ok c → a ∈ _available_candidates cs →
  lt (key a) (key c) = false.
Proof.
  intros Hp H Ha. apply get_or_ok in H. eapply (min_by_least lt key (P := P)); [|exact H|exact Ha].
  rewrite Forall_forall in *. intros x Hx. apply Hp. by apply usable_safe.
Qed.

Lemma stateless_inv {S} f (s : S) r cs s' c : stateless f s r cs = Ok (s', c) → s' = s ∧ f r cs = Ok c.
Proof. unfold stateless. intros H. apply bind_ok in H as (c' & Hf & H). by injection H as <- <-. Qed.

(** The six policies that only compare keys. *)
Ltac stateless_law :=
  unshelve econstructor;
  [ exact (fun _ => True)
  | intros ????? H; simpl in H; apply stateless_inv in H as [_ H]; by eapply pick_min_safe
  | let Hne := fresh "Hne" in let s := fresh "s" in let r := fresh "r" in let cs := fresh "cs" in
    intros s r cs _ _ Hne; simpl; unfold stateless;
    match goal with |- context [pick_min ?lt ?key cs] =>
      destruct (pick_min_total lt key cs Hne) as [? ->] end;
    by eexists s, _
  | let s := fresh "s" in intros s ? _; by exists s ].

#[export] Instance least_queue_lawful : LawfulPolicy LeastQueuePolicy.
Proof. stateless_law. Defined.
#[export] Instance topology_greedy_lawful : LawfulPolicy TopologyGreedyPolicy.
Proof. stateless_law. Defined.
#[export] Instance cache_aware_lawful : LawfulPolicy CacheAwarePolicy.
Proof. stateless_law. Defined.
#[export] Instance sb3_lawful : LawfulPolicy SB3Policy.
Proof. stateless_law. Defined.
#[export] Instance gnn_lawful : LawfulPolicy GNNPlaceholderPolicy.
Proof. stateless_law. Defined.
#[export] Instance pyg_lawful : LawfulPolicy PyGGNNPolicy.
Proof. stateless_law. Defined.

#[export] Instance multi_objective_lawful : LawfulPolicy MultiObjectivePolicy.
Proof.
  unshelve econstructor.
  - exact (fun _ => True).
  - intros s r cs s' c H. simpl in H. apply stateless_inv in H as [_ H]. unfold multi_objective_choose in H.
    apply bind_ok in H as (p & _ & H). by eapply pick_min_safe.
  - intros s r cs _ [p Hp] Hne. simpl. unfold stateless, multi_objective_choose. rewrite Hp. simpl.
    destruct (pick_min_total fltb (objective r p) cs Hne) as [c ->]. by exists s, c.
  - intros s ? _. by exists s.
Defined.

#[export] Instance spread_lawful : LawfulPolicy FailureAwareSpreadPolicy.
Proof.
  unshelve econstructor.
  - exact (fun _ => True).
  - intros s r cs s' c H. simpl in H. unfold sp_choose in H. inv_ok. by eapply pick_min_safe.
  - intros s r cs _ _ Hne. simpl. unfold sp_choose.
    destruct (pick_min_total spread_ltb (spread_key (sp_pool_counts s)) cs Hne) as [c ->]. simpl.
    by eexists _, c.
  - intros s res _. by eexists.
Defined.

Lemma rr_index_lt (cursor : Z) (n : nat) : n ≠ 0%nat → (Z.to_nat (cursor mod Z.of_nat n) < n)%nat.
Proof. intros. pose proof (Z.mod_pos_bound cursor (Z.of_nat n)). lia. Qed.

Lemma rr_choose_alt s r cs : cs ≠ [] →
  ∃ c, rr_choose s r cs = Ok ({| rr_cursor := (rr_cursor s + 1)%Z |}, c) ∧
    _available_candidates cs
      !! Z.to_nat (rr_cursor s mod Z.of_nat (length (_available_candidates cs)))%Z = Some c.
Proof.
  intros Hne. unfold rr_choose. pose proof (usable_nonempty cs Hne) as Hu.
  destruct (_available_candidates cs) as [|x l] eqn:E; [done|]. rewrite <- E.
  assert (Hl : (length (_available_candidates cs) ≠ 0)%nat) by (by rewrite E).
  destruct (lookup_lt_is_Some_2 (_available_candidates cs) _ (rr_index_lt (rr_cursor s) _ Hl)) as [c Hc].
  exists c. rewrite Hc. done.
Qed.

#[export] Instance round_robin_lawful : LawfulPolicy RoundRobinPolicy.
Proof.
  unshelve econstructor.
  - exact (fun _ => True).
  - intros s r cs s' c H. simpl in H. unfold rr_choose in H.
    destruct (_available_candidates cs) as [|x l] eqn:E; [done|]. rewrite <- E in H. inv_ok.
    apply usable_safe. by eapply list_elem_of_lookup_2.
  - intros s r cs _ _ Hne. destruct (rr_choose_alt s r cs Hne) as (c & H & _). simpl. rewrite H. by eexists _, c.
  - intros s res _. by exists s.
Defined.

(** Pull counts are never negative, so no division by zero. *)
Definition counts_nonneg (m : counters Z) : Prop := ∀ k, (0 <= counter_get 0 m k)%Z.

Lemma counts_nonneg_insert m k n : counts_nonneg m → (0 <= n)%Z → counts_nonneg (<[k := n]> m).
Proof.
  intros Hm Hn k'. unfold counter_get. destruct (decide (k = k')) as [->|Hk].
  - by rewrite lookup_insert_eq.
  - rewrite lookup_insert_ne by done. apply Hm.
Qed.

Lemma div_count (x : float) (n : Z) : (1 <= n)%Z → py_div x (of_Z n) = Ok (x / of_Z n).
Proof.
  intros Hn. unfold py_div. assert ((of_Z n =? 0.0) = false) as ->; [|reflexivity].
  pose proof (of_Z_mono 1 n Hn) as H1. apply not_true_iff_false. intros E.
  apply feq_eq in E; [|exact (fle_not_nan_r _ _ H1)]. rewrite E in H1.
  assert (H2 : (of_Z 1 <=? 0.0) = false) by flit. rewrite H2 in H1. discriminate H1.
Qed.

Lemma bandit_score_total s c : counts_nonneg (cb_counts s) → is_Ok (bandit_score s c).
Proof.
  intros Hs. unfold bandit_score. rewrite div_count by (specialize (Hs (cand_key c)); lia).
  simpl. by eexists.
Qed.

Lemma mapR_total {A B} (f : A → result B) l : (∀ x, is_Ok (f x)) → is_Ok (mapR f l).
Proof.
  intros Hf. induction l as [|x l [ys Hys]]; simpl; [by eexists|].
  destruct (Hf x) as [y ->]. simpl. rewrite Hys. by eexists.
Qed.

Lemma scored_fst {X} (f : CandidatePlacement → result X) l ys :
  mapR (fun c => x ← f c; Ok (x, c)) l = Ok ys → map snd ys = l ∧ Forall (fun y => f y.2 = Ok y.1) ys.
Proof.
  intros H%mapR_ok. induction H as [|c y l ys Hc _ [IH1 IH2]]; [done|].
  apply bind_ok in Hc as (x & Hx & [= <-]). simpl. rewrite IH1. split; [done|by constructor].
Qed.

#[export] Instance bandit_lawful : LawfulPolicy ContextualBanditPolicy.
Proof.
  unshelve econstructor.
  - exact (fun s => counts_nonneg (cb_counts s)).
  - intros s r cs s' c H. simpl in H. unfold cb_choose in H. apply bind_ok in H as (ys & Hys & H).
    inv_ok. apply scored_fst in Hys as [Hu _]. apply usable_safe. rewrite <- Hu.
    apply list_elem_of_fmap_2, (max_by_elem fltb fst). done.
  - intros s r cs Hwf _ Hne. simpl. unfold cb_choose.
    destruct (mapR_total (fun c => x ← bandit_score s c; Ok (x, c)) (_available_candidates cs)) as [ys Hys].
    { intros c. destruct (bandit_score_total s c Hwf) as [x ->]. by eexists. }
    rewrite Hys. simpl. apply scored_fst in Hys as [Hu _].
    destruct (max_by_is_Some fltb fst ys) as [y Hy].
    { intros ->. by apply (usable_nonempty cs Hne). }
    rewrite Hy. simpl. by exists s, y.2.
  - intros s res Hwf. simpl. unfold cb_observe.
    rewrite div_count by (specialize (Hwf (result_key res)); lia). simpl.
    eexists; split; [done|]. simpl. apply counts_nonneg_insert; [done|]. specialize (Hwf (result_key res)). lia.
Defined.

Definition any_wf (p : registered_policy) : Prop :=
  match p with P_contextual_bandit s => counts_nonneg (cb_counts s) | _ => True end.

Lemma lift_choice_ok {S} (wrap : S → registered_policy) (x : result (S * CandidatePlacement)) p' c :
  lift_choice wrap x = Ok (p', c) ↔ ∃ s', p' = wrap s' ∧ x = Ok (s', c).
Proof. unfold lift_choice. destruct x as [[s c']|]; simpl; naive_solver. Qed.

Lemma lift_choice_safe {S} `{LawfulPolicy S} (wrap : S → registered_policy) s r cs p' c :
  lift_choice wrap (choose s r cs) = Ok (p', c) → safe_choice cs c.
Proof. intros (s' & _ & Hc)%lift_choice_ok. by eapply choose_safe. Qed.

Lemma lift_choice_total {S} `{LawfulPolicy S} (wrap : S → registered_policy) s r cs :
  policy_wf s → (∀ s', policy_wf s' → any_wf (wrap s')) → sla_known r → cs ≠ [] →
  ∃ p' c, lift_choice wrap (choose s r cs) = Ok (p', c) ∧ any_wf p'.
Proof.
  intros Hs Hw Hr Hne. destruct (choose_total s r cs Hs Hr Hne) as (s' & c & Hc & Hs').
  rewrite Hc. simpl. exists (wrap s'), c. auto.
Qed.

#[export] Instance any_lawful : LawfulPolicy registered_policy.
Proof.
  unshelve econstructor.
  - exact any_wf.
  - intros p r cs p' c H. change (any_choose p r cs = Ok (p', c)) in H.
    destruct p; cbn [any_choose] in H; exact (lift_choice_safe _ _ _ _ _ _ H).
  - intros p r cs Hp Hr Hne. change (∃ p' c, any_choose p r cs = Ok (p', c) ∧ any_wf p').
    destruct p; cbn [any_choose]; apply lift_choice_total; try done; exact Hp.
  - intros p res Hp. simpl. destruct p; simpl; try (by eexists).
    pose proof (observe_total s res) as Ho.
    destruct (Ho Hp) as (s' & Hs' & Hwf). simpl in Hs'. rewrite Hs'. by eexists.
Defined.

(** C8: whatever policy is registered, choosing among at least one candidate
    for a request of a known SLA class never raises, returns one of the
    candidates, and never an unavailable one while another is available; the
    policy is still able to choose afterwards. *)
Theorem registered_choice_safe (p : registered_policy) (r : InferenceRequest)
    (cs : list CandidatePlacement) :
  policy_wf p → sla_known r → cs ≠ [] →
  ∃ p' c, choose p r cs = Ok (p', c) ∧ policy_wf p' ∧ c ∈ cs ∧
    (∀ a, a ∈ cs → cand_available a = true → cand_available c = true).
Proof.
  intros Hp Hr Hne. destruct (choose_total p r cs Hp Hr Hne) as (p' & c & Hc & Hp').
  exists p', c. destruct (choose_safe p r cs p' c Hc). auto.
Qed.

Lemma registry_elem ppo pyg name p : dget (policy_registry ppo pyg) name = Some p →
  policy_name p = name ∧ policy_wf p.
Proof.
  intros E%dget_elem. unfold policy_registry in E.
  repeat (apply elem_of_cons in E as [[= -> ->]|E];
    [split; [done|first [exact I|intros k; unfold counter_get; simpl; by rewrite lookup_empty]]|]).
  by apply elem_of_nil in E.
Qed.

Lemma build_policy_wf ppo pyg name p : _build_policy ppo pyg name = Ok p → policy_wf p.
Proof. intros Hb%get_or_ok. by eapply registry_elem. Qed.

(** Building a policy succeeds exactly on the ten registered names (any
    other name is a [ValueError]); the policy built answers to its name and
    starts in a well-formed state. *)
Theorem build_policy_spec (ppo pyg : bool) (name : string) :
  match _build_policy ppo pyg name with
  | Ok p => policy_name p = name ∧ policy_wf p
  | Err e => e = ValueError ∧ name ∉ dkeys (policy_registry ppo pyg)
  end.
Proof.
  unfold _build_policy. destruct (dget _ name) as [p|] eqn:E; simpl.
  - by eapply registry_elem.
  - split; [done|]. exact (proj1 (dget_None _ _) E).
Qed.

(** ** Round robin *)

(** The choices of [k] calls on the same candidates. *)
Fixpoint choices {S} `{RoutingPolicy S} (k : nat) (s : S) (r : InferenceRequest)
    (cs : list CandidatePlacement) : result (list CandidatePlacement) :=
  match k with
  | O => Ok []
  | Datatypes.S k' => sc ← choose s r cs; l ← choices k' sc.1 r cs; Ok (sc.2 :: l)
  end.

Lemma rr_choices k s r cs : cs ≠ [] → (0 <= rr_cursor s)%Z →
  ∃ l, choices k s r cs = Ok l ∧ length l = k ∧
    let us := _available_candidates cs in
    ∀ i c, l !! i = Some c →
      us !! (((Z.to_nat (rr_cursor s) + i) mod length us)%nat) = Some c.
Proof.
  intros Hne. revert s. induction k as [|k IH]; intros s Hs; [by exists []|].
  destruct (rr_choose_alt s r cs Hne) as (c & Hc & Hidx).
  destruct (IH {| rr_cursor := (rr_cursor s + 1)%Z |}) as (l & Hl & Hlen & Hall); [simpl; lia|].
  exists (c :: l). simpl. rewrite Hc. simpl. rewrite Hl. simpl. split; [done|]. split; [by rewrite Hlen|].
  assert (Hn : (length (_available_candidates cs) ≠ 0)%nat).
  { intros E. by apply (usable_nonempty cs Hne), nil_length_inv. }
  intros [|i] c'; simpl.
  - intros [= <-]. rewrite Nat.add_0_r. rewrite <- Hidx. f_equal.
    rewrite <- (Z2Nat.id (rr_cursor s) Hs) at 2. rewrite <- Nat2Z.inj_mod. by rewrite Nat2Z.id.
  - intros Hi. rewrite <- (Hall i c' Hi). f_equal. simpl. f_equal. lia.
Qed.

Lemma rotation_lookup {A} (l : list A) m i : (m < length l)%nat → (i < length l)%nat →
  (drop m l ++ take m l) !! i = l !! ((m + i) mod length l)%nat.
Proof.
  intros Hm Hi. destruct (decide (m + i < length l)%nat).
  - rewrite lookup_app_l by (rewrite length_drop; lia). by rewrite lookup_drop, Nat.mod_small.
  - rewrite lookup_app_r by (rewrite length_drop; lia). rewrite length_drop, lookup_take_lt by lia.
    f_equal. replace (m + i)%nat with (1 * length l + (m + i - length l))%nat by lia.
    rewrite Nat.add_comm, Nat.Div0.mod_add, Nat.mod_small by lia. lia.
Qed.

(** Round robin is fair: as many consecutive calls as there are usable
    candidates choose each of them exactly once. *)
Theorem round_robin_fair (s : RoundRobinPolicy) (r : InferenceRequest) (cs : list CandidatePlacement) :
  cs ≠ [] → (0 <= rr_cursor s)%Z →
  ∃ l, choices (length (_available_candidates cs)) s r cs = Ok l ∧ l ≡ₚ _available_candidates cs.
Proof.
  intros Hne Hs. set (us := _available_candidates cs).
  destruct (rr_choices (length us) s r cs Hne Hs) as (l & Hl & Hlen & Hall).
  exists l. split; [exact Hl|]. fold us in Hall.
  assert (Hn : (length us ≠ 0)%nat).
  { intros E. by apply (usable_nonempty cs Hne), nil_length_inv. }
  set (m := (Z.to_nat (rr_cursor s) mod length us)%nat).
  assert (Hm : (m < length us)%nat) by (by apply Nat.mod_upper_bound).
  assert (l = drop m us ++ take m us) as ->.
  { apply list_eq. intros i. destruct (l !! i) as [c|] eqn:E.
    - assert (Hi : (i < length us)%nat) by (apply lookup_lt_Some in E; lia).
      rewrite rotation_lookup by done. unfold m. rewrite Nat.Div0.add_mod_idemp_l. symmetry. by apply Hall.
    - symmetry. apply lookup_ge_None. apply lookup_ge_None in E.
      rewrite length_app, length_drop, length_take. lia. }
  rewrite Permutation_app_comm. by rewrite take_drop.
Qed.

(** ** What the greedy policies minimise *)

Definition nums3 : float * (float * float) → Prop :=
  pair_dom (fun a => a ≠ NaN) (pair_dom (fun a => a ≠ NaN) (fun a => a ≠ NaN)).

(** The least-queue policy picks, among the usable candidates, one with the
    smallest queue delay, then network cost, then accelerator cost. *)
Theorem least_queue_least (r : InferenceRequest) (cs : list CandidatePlacement) s' c a :
  choose LeastQueue r cs = Ok (s', c) →
  Forall (fun x => nums3 (least_queue_key x)) cs → a ∈ _available_candidates cs →
  (cand_queue_delay_ms c <= cand_queue_delay_ms a) ∧
  ltb3 (least_queue_key a) (least_queue_key c) = false.
Proof.
  intros H Hn Ha. cbn [choose least_queue_policy] in H. apply stateless_inv in H as [_ H].
  pose proof (pick_min_least nums3 ltb3 least_queue_key cs c a Hn H Ha) as Hl.
  split; [|exact Hl]. rewrite Forall_forall in Hn.
  destruct (Hn a (proj1 (usable_safe _ _ Ha))) as [Hna _].
  destruct (Hn c (proj1 (pick_min_safe _ _ _ _ H))) as [Hnc _]. simpl in Hna, Hnc.
  unfold ltb3, lex_ltb in Hl. simpl in Hl.
  destruct (cand_queue_delay_ms a =? cand_queue_delay_ms c) eqn:E.
  - apply feq_eq in E; [|exact Hna]. rewrite E. exact (fle_refl _ Hnc).
  - apply flt_nle in Hl; [exact Hl|exact Hna|exact Hnc].
Qed.

(** The multi-objective policy picks a usable candidate of least objective,
    for the weights of the request's SLA class. *)
Theorem multi_objective_least (r : InferenceRequest) (cs : list CandidatePlacement) s' c a p :
  choose MultiObjective r cs = Ok (s', c) → dget SLA_PRIORITY (req_sla_class r) = Some p →
  Forall (fun x => objective r p x ≠ NaN) cs → a ∈ _available_candidates cs →
  objective r p c <= objective r p a.
Proof.
  intros H Hp Hn Ha. cbn [choose multi_objective_policy] in H. apply stateless_inv in H as [_ H]. unfold multi_objective_choose in H.
  rewrite Hp in H. simpl in H.
  pose proof (pick_min_least (fun x => x ≠ NaN) fltb (objective r p) cs c a Hn H Ha) as Hl.
  rewrite Forall_forall in Hn.
  apply flt_nle in Hl; [exact Hl|exact (Hn a (proj1 (usable_safe _ _ Ha)))|].
  exact (Hn c (proj1 (pick_min_safe _ _ _ _ H))).
Qed.

(** The spread policy forgets a placement as soon as its result is
    observed: choosing a pool and observing the admitted result leaves every
    pool count as it was, so the counts never spread successive requests. *)
Theorem spread_forgets (s s' : FailureAwareSpreadPolicy) (r : InferenceRequest)
    (cs : list CandidatePlacement) (c : CandidatePlacement) (res : RequestResult) :
  counts_nonneg (sp_pool_counts s) → choose s r cs = Ok (s', c) → result_key res = cand_key c →
  ∃ s'', observe_result s' res = Ok s'' ∧
    ∀ k, counter_get 0%Z (sp_pool_counts s'') k = counter_get 0%Z (sp_pool_counts s) k.
Proof.
  intros Hs Hc Hk. simpl in Hc. unfold sp_choose in Hc. inv_ok.
  eexists; split; [reflexivity|]. intros k. simpl. rewrite Hk.
  specialize (Hs (cand_key c)). unfold counter_get in *.
  rewrite lookup_insert_eq. simpl. destruct (decide (cand_key c = k)) as [<-|Hne].
  - rewrite lookup_insert_eq. simpl. lia.
  - by rewrite !lookup_insert_ne.
Qed.

(** ** The promises at concrete inputs *)

Definition sample_choices : list CandidatePlacement :=
  [sample_candidate; set_score_breakdown sample_candidate [("cuda_load_penalty", of_lit 0.2)]].

Lemma registered_choice_safe_witness :
  ∃ p' c, choose (P_contextual_bandit (make_bandit 18.0)) sample_request sample_choices = Ok (p', c).
Proof.
  destruct (registered_choice_safe (P_contextual_bandit (make_bandit 18.0)) sample_request sample_choices)
    as (p' & c & H & _).
  - intros k. unfold counter_get. simpl. by rewrite lookup_empty.
  - by eexists.
  - discriminate.
  - exists p', c. exact H.
Defined.

Lemma round_robin_fair_witness : ∃ l,
  choices 2 {| rr_cursor := 5 |} sample_request sample_choices = Ok l ∧ l ≡ₚ sample_choices.
Proof. apply (round_robin_fair {| rr_cursor := 5 |} sample_request sample_choices); [discriminate|simpl; lia]. Defined.

Lemma least_queue_least_witness :
  cand_queue_delay_ms sample_candidate <= cand_queue_delay_ms sample_candidate.
Proof.
  apply (least_queue_least sample_request sample_choices LeastQueue sample_candidate sample_candidate).
  - vm_compute. reflexivity.
  - repeat constructor; discriminate.
  - left.
Defined.

Lemma multi_objective_least_witness :
  objective sample_request 2 sample_candidate <= objective sample_request 2 (set_score_breakdown sample_candidate [("cuda_load_penalty", of_lit 0.2)]).
Proof.
  apply (multi_objective_least sample_request sample_choices MultiObjective sample_candidate).
  - vm_compute. reflexivity.
  - reflexivity.
  - repeat constructor; vm_compute; discriminate.
  - right. left.
Defined.

Lemma spread_forgets_witness : ∃ s',
  choose {| sp_pool_counts := ∅ |} sample_request sample_choices = Ok (s', sample_candidate) ∧
  ∃ s'', observe_result s' (sample_result "p0" (of_lit 12.0)) = Ok s'' ∧
    counter_get 0%Z (sp_pool_counts s'') ("c0", "p0") = 0%Z.
Proof.
  destruct (choose {| sp_pool_counts := ∅ |} sample_request sample_choices) as [[s' c]|e] eqn:E.
  - assert (c = sample_candidate) as ->.
    { revert E. vm_compute. intros [= _ <-]. reflexivity. }
    exists s'. split; [reflexivity|].
    destruct (spread_forgets {| sp_pool_counts := ∅ |} s' sample_request sample_choices
      sample_candidate (sample_result "p0" (of_lit 12.0))) as (s'' & H1 & H2).
    + intros k. unfold counter_get. simpl. by rewrite lookup_empty.
    + exact E.
    + reflexivity.
    + exists s''. split; [exact H1|]. exact (H2 ("c0", "p0")).
  - exfalso. revert E. vm_compute. discriminate.
Defined.
