(* ===== verification/RemoteScorer.v ===== *)
(** * Scoring outside the control plane

    [grpc_layer/client.py] sends the candidates to [grpc_layer/server.py];
    [scheduler_core/cpp_bridge.py] hands them to the C++ function
    [choose_candidate] of [scheduler_core_cpp/scheduler_core.cpp] in arrays of
    doubles.  The network between client and server is a parameter (a call may
    raise); the messages carry doubles and are passed as they are.  The C++ sums
    are rounded operation by operation (no fused multiply-add).  What makes
    them available is in [Stubs]. *)

From S2P Require Import Prelude PyFloat PyOrder PyDict Types Samples.

Local Open Scope Z_scope.

(** ** The scan both scorers share

    Walk the list from index [i]; an eligible element strictly below the best
    score so far becomes the best. *)
Section scan.
Context {A : Type} (eligible : A → bool) (score : A → float).

Fixpoint scan (i : Z) (l : list A) (best : Z * float) : Z * float :=
  match l with
  | [] => best
  | a :: l' =>
      scan (i + 1) l'
        (if eligible a && (score a <? best.2)%float then (i, score a) else best)
  end.

(** The scan keeps what it started with, or finds an element of least score. *)
Lemma scan_spec (l : list A) (i : Z) (best : Z * float) :
  best.2 ≠ NaN → (∀ a, a ∈ l → eligible a = true → score a ≠ NaN) →
  let r := scan i l best in
  (r.2 <= best.2)%float ∧
  (∀ a, a ∈ l → eligible a = true → (r.2 <= score a)%float) ∧
  (r = best ∨ ∃ (k : nat) a, r.1 = i + Z.of_nat k ∧ l !! k = Some a ∧ eligible a = true ∧
     r.2 = score a ∧ (score a < best.2)%float).
Proof.
  revert i best. induction l as [|a l IH]; intros i best Hb Hs; cbn [scan].
  { split; [exact (fle_refl _ Hb)|]. split; [intros a Ha; by apply elem_of_nil in Ha|by left]. }
  set (best' := if eligible a && (score a <? best.2)%float then (i, score a) else best).
  assert (Hstep : best'.2 ≠ NaN ∧ (best'.2 <= best.2)%float ∧
    (eligible a = true → (best'.2 <= score a)%float)).
  { unfold best'. destruct (eligible a) eqn:Ea; cbn [andb].
    - pose proof (Hs a ltac:(by left) Ea) as Ha. destruct (score a <? best.2)%float eqn:El; cbn [snd].
      + split; [exact Ha|]. split; [exact (flt_le _ _ El)|]. intros _. exact (fle_refl _ Ha).
      + split; [exact Hb|]. split; [exact (fle_refl _ Hb)|]. intros _.
        apply flt_nle in El; [exact El|exact Ha|exact Hb].
    - split; [exact Hb|]. split; [exact (fle_refl _ Hb)|]. discriminate. }
  destruct Hstep as (Hn & Hle & Hea).
  destruct (IH (i + 1) best' Hn ltac:(intros b Hin; apply Hs; by right)) as (R1 & R2 & R3).
  set (r := scan (i + 1) l best') in *. split; [exact (fle_trans _ _ _ R1 Hle)|]. split.
  - intros b [->|Hin]%elem_of_cons Hel; [exact (fle_trans _ _ _ R1 (Hea Hel))|exact (R2 b Hin Hel)].
  - destruct R3 as [->|(k & b & Hk & Hlk & Hel & Hsc & Hlt)].
    + unfold best'. destruct (eligible a && (score a <? best.2)%float) eqn:E; [right|by left].
      apply andb_true_iff in E as [Ea El]. exists O, a. split; [simpl; lia|]. split; [reflexivity|].
      split; [exact Ea|]. split; [reflexivity|exact El].
    + right. exists (S k), b. split; [lia|]. split; [exact Hlk|]. split; [exact Hel|].
      split; [exact Hsc|]. exact (flt_le_trans _ _ _ Hlt Hle).
Qed.
End scan.

(** ** The gRPC messages ([grpc_layer/scheduler.proto]) *)

Record Candidate := {
  msg_cluster_id : string;
  msg_pool_id : string;
  msg_estimated_latency_ms : float;
  msg_queue_delay_ms : float;
  msg_cache_hit_ratio : float;
  msg_topology_affinity : float;
  msg_network_cost : float;
  msg_accelerator_cost_per_1m_tokens : float;
  msg_fairness_penalty : float;
  msg_available : bool
}.

Record PlacementRequest := {
  pr_request_id : string;
  pr_tenant_id : string;
  pr_model_id : string;
  pr_sla_class : string;
  pr_policy_name : string;
  pr_candidates : list Candidate
}.

Record PlacementResponse := {
  resp_chosen_index : Z;
  resp_reason : string
}.

(** ** The server *)

Definition grpc_score (sla : string) (c : Candidate) : float :=
  let latency_weight := if String.eqb sla "realtime" then of_lit 1.5%float
                        else if String.eqb sla "interactive" then of_lit 1.1%float else of_lit 0.8%float in
  let cost_weight := if String.eqb sla "realtime" then of_lit 0.2%float else of_lit 0.6%float in
  ((msg_estimated_latency_ms c * latency_weight)
   + (msg_queue_delay_ms c * 0.1)
   + (msg_network_cost c * 18.0)
   + (msg_accelerator_cost_per_1m_tokens c * cost_weight)
   + (msg_fairness_penalty c * 110.0)
   - (msg_cache_hit_ratio c * 450.0)
   - (msg_topology_affinity c * 85.0))%float.

Definition ChoosePlacement (request : PlacementRequest) : PlacementResponse :=
  match pr_candidates request with
  | [] => {| resp_chosen_index := -1; resp_reason := "no-candidates" |}
  | _ :: _ =>
      let best := scan msg_available (grpc_score (pr_sla_class request)) 0
                    (pr_candidates request) (0, PInf) in
      {| resp_chosen_index := best.1; resp_reason := "grpc-score" |}
  end.

(** ** The client *)

(** [Some stub] when enabled, importable and connected. *)
Definition GrpcSchedulerClient := option (PlacementRequest → result PlacementResponse).

Definition to_message (c : CandidatePlacement) : Candidate :=
  {| msg_cluster_id := cand_cluster_id c; msg_pool_id := cand_pool_id c;
     msg_estimated_latency_ms := estimated_total_latency_ms c;
     msg_queue_delay_ms := cand_queue_delay_ms c;
     msg_cache_hit_ratio := cand_expected_cache_hit_ratio c;
     msg_topology_affinity := cand_topology_affinity c;
     msg_network_cost := cand_network_cost c;
     msg_accelerator_cost_per_1m_tokens := cand_accelerator_cost_per_1m_tokens c;
     msg_fairness_penalty := cand_fairness_penalty c; msg_available := cand_available c |}.

Definition placement_request (request : InferenceRequest) (candidates : list CandidatePlacement) :
    PlacementRequest :=
  {| pr_request_id := req_request_id request; pr_tenant_id := req_tenant_id request;
     pr_model_id := req_model_id request; pr_sla_class := req_sla_class request;
     pr_policy_name := "grpc"; pr_candidates := map to_message candidates |}.

(** [None] from an index outside the candidates. *)
Definition in_bounds (index : Z) {A} (l : list A) : option nat :=
  if (index <? 0) || (Z.of_nat (length l) <=? index) then None else Some (Z.to_nat index).

Definition grpc_choose (client : GrpcSchedulerClient) (request : InferenceRequest)
    (candidates : list CandidatePlacement) : result (option nat) :=
  match client with
  | None => Ok None
  | Some stub =>
      response ← stub (placement_request request candidates);
      Ok (in_bounds (resp_chosen_index response) candidates)
  end.

(** ** The C++ core *)

Definition cpp_score (sla_priority : Z) (c : CandidatePlacement) : float :=
  let latency_weight := if sla_priority =? 3 then of_lit 1.5%float
                        else if sla_priority =? 2 then of_lit 1.1%float else of_lit 0.8%float in
  let cost_weight := if sla_priority =? 3 then of_lit 0.2%float else of_lit 0.6%float in
  ((estimated_total_latency_ms c * latency_weight) + (cand_queue_delay_ms c * 0.1)
   + (cand_network_cost c * 18.0) + (cand_accelerator_cost_per_1m_tokens c * cost_weight)
   + (cand_fairness_penalty c * 120.0) - (cand_expected_cache_hit_ratio c * 450.0)
   - (cand_topology_affinity c * 90.0))%float.

(** [choose_candidate]: the arrays are the columns of the candidates. *)
Definition choose_candidate (candidates : list CandidatePlacement) (sla_priority : Z) : Z :=
  match candidates with
  | [] => -1
  | first :: rest =>
      let best := scan cand_available (cpp_score sla_priority) 0 candidates (-1, PInf) in
      if 0 <=? best.1 then best.1
      else (scan (fun _ => true) estimated_total_latency_ms 1 rest
              (0, estimated_total_latency_ms first)).1
  end.

(** [CppSchedulerCore.choose]; [available] is the flag of the constructor. *)
Definition cpp_choose (available : bool) (request : InferenceRequest)
    (candidates : list CandidatePlacement) : option nat :=
  match available, candidates with
  | true, _ :: _ =>
      let sla_priority := dget_or 2 SLA_PRIORITY (req_sla_class request) in
      in_bounds (choose_candidate candidates sla_priority) candidates
  | _, _ => None
  end.

(** ** What the remote choices are *)

Lemma in_bounds_lt {A} (i : Z) (l : list A) n : in_bounds i l = Some n → (n < length l)%nat ∧ i = Z.of_nat n.
Proof.
  unfold in_bounds. destruct (Z.ltb_spec i 0), (Z.leb_spec (Z.of_nat (length l)) i); simpl; try done.
  intros [= <-]. lia.
Qed.

Lemma in_bounds_ok {A} (l : list A) (n : nat) : (n < length l)%nat → in_bounds (Z.of_nat n) l = Some n.
Proof.
  intros H. unfold in_bounds. destruct (Z.ltb_spec (Z.of_nat n) 0); [lia|].
  destruct (Z.leb_spec (Z.of_nat (length l)) (Z.of_nat n)); [lia|]. simpl. by rewrite Nat2Z.id.
Qed.

(** Scores that are numbers below infinity, for the available candidates. *)
Definition finite_scores (score : CandidatePlacement → float) (cs : list CandidatePlacement) : Prop :=
  Forall (fun c => cand_available c = true → (score c < PInf)%float) cs.

Lemma scan_available score cs k0 : finite_scores score cs →
  (∃ c, c ∈ cs ∧ cand_available c = true) →
  ∃ n c, (scan cand_available score 0 cs (k0, PInf)).1 = Z.of_nat n ∧ cs !! n = Some c ∧
    cand_available c = true ∧ ∀ a, a ∈ cs → cand_available a = true → (score c <= score a)%float.
Proof.
  intros Hf (a & Ha & Hav). unfold finite_scores in Hf. rewrite Forall_forall in Hf.
  destruct (scan_spec cand_available score cs 0 (k0, PInf)) as (R1 & R2 & R3); [discriminate| |].
  { intros c Hc Hcv. exact (flt_not_nan_l _ _ (Hf c Hc Hcv)). }
  destruct R3 as [E|(n & c & Hn & Hc & Hcv & Hsc & _)].
  - exfalso. pose proof (fle_lt_trans _ _ _ (R2 a Ha Hav) (Hf a Ha Hav)) as Hlt. rewrite E in Hlt.
    cbn [snd] in Hlt. rewrite flt_irrefl in Hlt. discriminate Hlt.
  - exists n, c. split; [lia|]. split; [exact Hc|]. split; [exact Hcv|].
    intros b Hb Hbv. rewrite <- Hsc. exact (R2 b Hb Hbv).
Qed.

Lemma scan_map {A B} (f : A → B) (el : B → bool) (score : B → float) i l best :
  scan el score i (map f l) best = scan (fun a => el (f a)) (fun a => score (f a)) i l best.
Proof. revert i best. induction l as [|a l IH]; intros i best; [done|]. cbn [map scan]. apply IH. Qed.

(** C31: with the repository's own server behind it, the gRPC router picks an
    available candidate of least score whenever some candidate is available
    and the scores are below infinity. *)
Theorem grpc_picks_best (request : InferenceRequest) (cs : list CandidatePlacement) :
  finite_scores (fun c => grpc_score (req_sla_class request) (to_message c)) cs →
  (∃ c, c ∈ cs ∧ cand_available c = true) →
  ∃ n c, grpc_choose (Some (fun r => Ok (ChoosePlacement r))) request cs = Ok (Some n) ∧
    cs !! n = Some c ∧ cand_available c = true ∧
    ∀ a, a ∈ cs → cand_available a = true →
      (grpc_score (req_sla_class request) (to_message c) <= grpc_score (req_sla_class request) (to_message a))%float.
Proof.
  intros Hf Hex. destruct (scan_available _ cs 0 Hf Hex) as (n & c & Hn & Hc & Hav & Hmin).
  exists n, c. split; [|by repeat split]. cbn [grpc_choose mbind result_bind]. f_equal.
  unfold ChoosePlacement. cbn [placement_request pr_candidates pr_sla_class].
  destruct (map to_message cs) as [|m ms] eqn:E.
  { destruct cs; [done|discriminate]. }
  rewrite <- E. cbn [resp_chosen_index]. rewrite scan_map.
  replace (scan _ _ 0 cs (0, PInf)).1 with (Z.of_nat n) by (symmetry; exact Hn).
  apply in_bounds_ok. by eapply lookup_lt_Some.
Qed.

(** C32: the C++ core always picks one of the candidates; an available one of
    least score when there is one and the scores are below infinity, else one of
    least estimated latency. *)
Theorem cpp_picks_best (request : InferenceRequest) (cs : list CandidatePlacement) :
  let p := dget_or 2 SLA_PRIORITY (req_sla_class request) in
  cs ≠ [] → finite_scores (cpp_score p) cs →
  Forall (fun c => estimated_total_latency_ms c ≠ NaN) cs →
  ∃ n c, cpp_choose true request cs = Some n ∧ cs !! n = Some c ∧
    if existsb cand_available cs
    then cand_available c = true ∧
         ∀ a, a ∈ cs → cand_available a = true → (cpp_score p c <= cpp_score p a)%float
    else ∀ a, a ∈ cs → (estimated_total_latency_ms c <= estimated_total_latency_ms a)%float.
Proof.
  intros p Hne Hf Hl. unfold cpp_choose. destruct cs as [|first rest]; [done|]. fold p.
  unfold choose_candidate. set (cs := first :: rest) in *.
  destruct (existsb cand_available cs) eqn:Ex.
  - apply existsb_exists in Ex as (x & Hx & Hxv). apply list_elem_of_In in Hx.
    destruct (scan_available (cpp_score p) cs (-1) Hf) as (n & c & Hn & Hc & Hav & Hmin); [by exists x|].
    exists n, c. rewrite Hn. destruct (Z.leb_spec 0 (Z.of_nat n)); [|lia].
    split; [apply in_bounds_ok; by eapply lookup_lt_Some|]. by repeat split.
  - assert (Hno : ∀ a, a ∈ cs → cand_available a = false).
    { intros a Ha. apply not_true_iff_false. intros Hav. apply not_true_iff_false in Ex. apply Ex.
      apply existsb_exists. exists a. split; [by apply list_elem_of_In|exact Hav]. }
    destruct (scan_spec cand_available (cpp_score p) cs 0 (-1, PInf)) as (_ & _ & R3); [discriminate| |].
    { intros a Ha Hav. rewrite (Hno a Ha) in Hav. discriminate Hav. }
    destruct R3 as [E|(k & a & _ & Hk & Hav & _)].
    2:{ rewrite (Hno a) in Hav; [discriminate Hav|]. by eapply list_elem_of_lookup_2. }
    rewrite E. cbn [fst]. change (0 <=? -1) with false. cbn iota.
    rewrite Forall_forall in Hl.
    destruct (scan_spec (fun _ => true) estimated_total_latency_ms rest 1 (0, estimated_total_latency_ms first))
      as (R1 & R2 & R3').
    { apply Hl. by left. }
    { intros a Ha _. apply Hl. by right. }
    set (r := scan _ _ 1 rest _) in *. cbn [snd] in R1.
    assert (Hr : ∃ n c, r.1 = Z.of_nat n ∧ cs !! n = Some c ∧ r.2 = estimated_total_latency_ms c).
    { destruct R3' as [->|(k & a & Hk & Hlk & _ & Hsc & _)].
      - by exists O, first.
      - exists (S k), a. split; [lia|]. by split. }
    destruct Hr as (n & c & Hn & Hc & Hs). exists n, c. rewrite Hn.
    split; [apply in_bounds_ok; by eapply lookup_lt_Some|]. split; [exact Hc|].
    intros a [->|Ha]%elem_of_cons; rewrite <- Hs; [exact R1|exact (R2 a Ha eq_refl)].
Qed.

(** ** At concrete inputs *)

Lemma grpc_picks_best_witness : ∃ n c,
  grpc_choose (Some (fun r => Ok (ChoosePlacement r))) sample_request [sample_candidate] = Ok (Some n) ∧
  [sample_candidate] !! n = Some c ∧ cand_available c = true.
Proof.
  destruct (grpc_picks_best sample_request [sample_candidate]) as (n & c & H1 & H2 & H3 & _).
  - constructor; [intros _; flit|constructor].
  - exists sample_candidate. split; [by left|reflexivity].
  - exists n, c. split; [exact H1|]. split; [exact H2|exact H3].
Defined.

Lemma cpp_picks_best_witness : ∃ n c,
  cpp_choose true sample_request [sample_candidate] = Some n ∧ [sample_candidate] !! n = Some c.
Proof.
  destruct (cpp_picks_best sample_request [sample_candidate]) as (n & c & H1 & H2 & _).
  - discriminate.
  - constructor; [intros _; flit|constructor].
  - constructor; [vm_compute; discriminate|constructor].
  - exists n, c. split; [exact H1|exact H2].
Defined.
