(* ===== verification/Stubs.v ===== *)
(** * Start-up of the remote scorers

    [grpc_layer/stub_loader.py] generates the gRPC stubs once and imports them;
    the constructors of [grpc_layer/client.py], [grpc_layer/server.py] and
    [scheduler_core/cpp_bridge.py] decide what is available.  The interpreter is
    its disk, its [sys.path] and its loaded modules.  The process that runs
    [protoc], the finder of modules, the grpc package and [dlopen] are
    arguments; of [protoc] it is assumed that it writes what it is asked for
    when it succeeds ([LawfulProtoc]). *)

From S2P Require Import Prelude PyStr PyJson PyParse JsonText Files Types RemoteScorer.

(** ** The interpreter *)

Section stubs.
Context {M : Type}.

Record interp := { in_disk : disk; in_path : list string; in_modules : gmap string M }.

Definition set_disk (st : interp) (d : disk) : interp :=
  {| in_disk := d; in_path := in_path st; in_modules := in_modules st |}.

Definition py (A : Type) : Type := interp → result A * interp.

#[local] Instance py_ret : MRet py := fun A a st => (Ok a, st).
#[local] Instance py_bind : MBind py := fun A B f m st =>
  match m st with (Ok a, st') => f a st' | (Err e, st') => (Err e, st') end.

Definition py_raise {A} (e : exn) : py A := fun st => (Err e, st).
Definition py_lift {A} (r : result A) : py A := fun st => (r, st).
Definition py_io {A} (m : io A) : py A := fun st => let '(r, d) := m (in_disk st) in (r, set_disk st d).

(** [except Exception]: a script that gives up is not caught. *)
Definition py_except {A} (m : py A) (handler : py A) : py A := fun st =>
  match m st with
  | (Err SystemExit, st') => (Err SystemExit, st')
  | (Err _, st') => handler st'
  | r => r
  end.

(** [sys.path.insert(0, entry)] *)
Definition path_insert (entry : string) : py unit := fun st =>
  (Ok tt, {| in_disk := in_disk st; in_path := entry :: in_path st; in_modules := in_modules st |}).
Definition path_has (entry : string) : py bool := fun st => (Ok (bool_decide (entry ∈ in_path st)), st).

Context (find_module : disk → list string → string → result M).

(** A module is looked for once. *)
Definition import_module (name : string) : py M := fun st =>
  match in_modules st !! name with
  | Some m => (Ok m, st)
  | None =>
      match find_module (in_disk st) (in_path st) name with
      | Ok m => (Ok m, {| in_disk := in_disk st; in_path := in_path st; in_modules := <[name := m]> (in_modules st) |})
      | Err e => (Err e, st)
      end
  end.

(** ** [load_stubs] *)

Context (root : path) (executable : string) (run : list string → io unit).

Definition grpc_dir : path := child root "grpc_layer".
Definition generated_dir : path := child grpc_dir "generated".
Definition pb2_file : path := child generated_dir "scheduler_pb2.py".
Definition pb2_grpc_file : path := child generated_dir "scheduler_pb2_grpc.py".

Definition protoc_args (proto_path out : path) : list string :=
  [executable; "-m"; "grpc_tools.protoc"; "-I" +:+ path_str (parent proto_path); "--python_out=" +:+ path_str out;
   "--grpc_python_out=" +:+ path_str out; path_str proto_path].

(** Whatever [protoc] fails with, the error is [RuntimeError]. *)
Definition _generate_stubs (generated : path) : py unit :=
  let proto_path := child grpc_dir "scheduler.proto" in
  py_except (py_io (run (protoc_args proto_path generated))) (py_raise RuntimeError).

Definition load_stubs : py (M * M) :=
  _ ← py_io (io_mkdir generated_dir);
  there ← py_io (io_exists pb2_file);
  there_grpc ← (if there : bool then py_io (io_exists pb2_grpc_file) else mret false);
  _ ← (if there_grpc : bool then mret tt else _generate_stubs generated_dir);
  has ← path_has (path_str generated_dir);
  _ ← (if has : bool then mret tt else path_insert (path_str generated_dir));
  scheduler_pb2 ← import_module "scheduler_pb2";
  scheduler_pb2_grpc ← import_module "scheduler_pb2_grpc";
  mret (scheduler_pb2, scheduler_pb2_grpc).

(** ** The client's constructor *)

(** [grpc]: when the package can be imported, what opening a channel and making
    a stub of the second module on it do. *)
Context (grpc : option (string → M → result (PlacementRequest → result PlacementResponse))).
Context (getenv : string → string → string).

Record grpc_client := {
  gc_target : string;
  gc_enabled : bool;
  gc_available : bool;
  gc_stub : GrpcSchedulerClient
}.

Definition _init_client (connect : string → M → result (PlacementRequest → result PlacementResponse))
    (target : string) : py (bool * GrpcSchedulerClient) :=
  py_except
    ('(_, scheduler_pb2_grpc) ← load_stubs;
     stub ← py_lift (connect target scheduler_pb2_grpc);
     mret (true, Some stub))
    (mret (false, None)).

Definition make_grpc_client (target : option string) : py grpc_client :=
  let target := match target with Some (String _ _ as t) => t | _ => getenv "NIMBUS_GRPC_TARGET" "127.0.0.1:50051" end in
  let enabled := String.eqb (getenv "NIMBUS_USE_GRPC_ROUTER" "0") "1" in
  '(available, stub) ← match enabled, grpc with
                       | true, Some connect => _init_client connect target
                       | _, _ => mret (false, None)
                       end;
  mret {| gc_target := target; gc_enabled := enabled; gc_available := available; gc_stub := stub |}.

(** ** The server *)

(** What [serve] asks of a [grpc.server]. *)
Inductive server_call :=
  | new_server (max_workers : Z) | add_servicer | add_insecure_port (address : string)
  | start | wait_for_termination | stop (grace : Z).

(** The servicer's constructor loads the stubs again. *)
Definition make_servicer : py (M * M) := load_stubs.

(** The calls [serve] makes, with or without an interrupt while it waits. *)
Definition serve (host : string) (port : Z) (interrupted : bool) : py (list server_call) :=
  _ ← load_stubs;
  _ ← make_servicer;
  mret ([new_server 16; add_servicer; add_insecure_port (host +:+ ":" +:+ str_of_Z port); start; wait_for_termination]
        ++ (if interrupted then [stop 0] else [])).

(** ** The C++ core *)

Record cpp_core := { cc_library_path : string; cc_enabled : bool; cc_available : bool }.

Definition default_candidates : list path :=
  let build := child (child root "scheduler_core_cpp") "build" in
  [child build "libscheduler_core.dylib"; child build "libscheduler_core.so"].

(** [cdll] loads a library and looks [choose_candidate] up in it. *)
Definition make_cpp_core (cdll : string → result unit) (library_path : option string) : io cpp_core := fun d =>
  let given := match library_path with Some (String _ _ as p) => p | _ => getenv "NIMBUS_CPP_CORE_PATH" "" end in
  let library_path := if String.eqb given "" then
                        match List.filter (exists_on d) default_candidates with
                        | candidate :: _ => path_str candidate
                        | [] => given
                        end
                      else given in
  let enabled := String.eqb (getenv "NIMBUS_USE_CPP_CORE" "0") "1" in
  let available := enabled && negb (String.eqb library_path "") && exists_on d (to_path library_path) in
  let core := {| cc_library_path := library_path; cc_enabled := enabled; cc_available := available |} in
  if available then match cdll library_path with Ok _ => (Ok core, d) | Err e => (Err e, d) end else (Ok core, d).

(** ** The stubs are generated and imported once *)

(** [protoc] writes the two files it is asked for when it succeeds, and removes
    no directory. *)
Class LawfulProtoc : Prop := {
  protoc_writes out d d' : path_ok out → run (protoc_args (child grpc_dir "scheduler.proto") out) d = (Ok tt, d') →
    exists_on d' (child out "scheduler_pb2.py") = true ∧ exists_on d' (child out "scheduler_pb2_grpc.py") = true;
  protoc_keeps args d q : is_dir d q = true → is_dir (run args d).2 q = true
}.

Lemma py_bind_ok {A B} (m : py A) (f : A → py B) b st st' :
  (m ≫= f) st = (Ok b, st') ↔ ∃ a st1, m st = (Ok a, st1) ∧ f a st1 = (Ok b, st').
Proof.
  unfold mbind, py_bind. destruct (m st) as [[a|e] st1].
  - split; [intros H; by exists a, st1|]. by intros (a' & st2 & [= <- <-] & H).
  - split; [done|]. by intros (a' & st2 & ? & _).
Qed.

Lemma py_io_ok {A} (m : io A) a st st' : py_io m st = (Ok a, st') →
  ∃ d, m (in_disk st) = (Ok a, d) ∧ st' = set_disk st d.
Proof. unfold py_io. destruct (m (in_disk st)) as [r d]. intros [= -> <-]. by exists d. Qed.

Lemma import_ok name m st st' : import_module name st = (Ok m, st') →
  in_disk st' = in_disk st ∧ in_path st' = in_path st ∧ in_modules st' !! name = Some m ∧
  ∀ k x, in_modules st !! k = Some x → in_modules st' !! k = Some x.
Proof.
  unfold import_module. destruct (in_modules st !! name) as [m'|] eqn:E; [by intros [= <- <-]|].
  destruct (find_module _ _ _) as [m'|e]; [|done]. intros [= <- <-]. cbn [in_modules in_disk in_path].
  split_and!; [done..|by rewrite lookup_insert_eq|].
  intros k x Hk. rewrite lookup_insert_ne; [done|]. intros <-. by rewrite E in Hk.
Qed.

Lemma import_again name m st : in_modules st !! name = Some m → import_module name st = (Ok m, st).
Proof. intros H. unfold import_module. by rewrite H. Qed.

Lemma generate_ok st st' : _generate_stubs generated_dir st = (Ok tt, st') →
  ∃ d, run (protoc_args (child grpc_dir "scheduler.proto") generated_dir) (in_disk st) = (Ok tt, d) ∧ st' = set_disk st d.
Proof.
  unfold _generate_stubs, py_except, py_io, py_raise.
  destruct (run _ (in_disk st)) as [[[]|[]] d]; [intros [= <-]; by exists d|done..].
Qed.

(** The state a successful load leaves. *)
Record loaded (ms : M * M) (st : interp) : Prop := {
  ld_pb2 : exists_on (in_disk st) pb2_file = true;
  ld_grpc : exists_on (in_disk st) pb2_grpc_file = true;
  ld_path : path_str generated_dir ∈ in_path st;
  ld_modules : in_modules st !! "scheduler_pb2" = Some ms.1 ∧ in_modules st !! "scheduler_pb2_grpc" = Some ms.2;
  ld_dir : io_mkdir generated_dir (in_disk st) = (Ok tt, in_disk st)
}.

Lemma set_disk_same st : set_disk st (in_disk st) = st.
Proof. by destruct st. Qed.

Lemma load_again ms st : loaded ms st → load_stubs st = (Ok ms, st).
Proof.
  intros [H1 H2 H3 [H4 H5] H6]. unfold load_stubs, mbind, py_bind, py_io, io_exists, mret, py_ret, path_has.
  rewrite H6. cbn [in_disk]. rewrite set_disk_same, H1. rewrite set_disk_same, H2. rewrite set_disk_same.
  rewrite bool_decide_eq_true_2 by done. rewrite (import_again _ _ _ H4), (import_again _ _ _ H5). by destruct ms.
Qed.

Lemma generated_ok : path_ok root → path_ok generated_dir.
Proof. intros Hr. repeat apply child_ok; [exact Hr|by apply part_okb_ok..]. Qed.

Lemma load_loaded {HP : LawfulProtoc} ms st st1 : path_ok root → load_stubs st = (Ok ms, st1) →
  loaded ms st1 ∧ (in_path st1 = in_path st ∨ in_path st1 = path_str generated_dir :: in_path st).
Proof.
  intros Hok%generated_ok H. unfold load_stubs in H.
  apply py_bind_ok in H as ([] & st2 & Hdir & H). apply py_io_ok in Hdir as (d2 & Hdir & ->).
  apply py_bind_ok in H as (b1 & st3 & Hb1 & H). injection Hb1 as <- <-.
  apply py_bind_ok in H as (b2 & st4 & Hb2 & H).
  assert (E4 : st4 = set_disk st d2 ∧ b2 = exists_on d2 pb2_file && exists_on d2 pb2_grpc_file).
  { cbn [in_disk set_disk] in Hb2. destruct (exists_on d2 pb2_file); by injection Hb2 as <- <-. }
  destruct E4 as [-> ->]. clear Hb2.
  apply py_bind_ok in H as ([] & st5 & Hgen & H).
  assert (E5 : ∃ d, st5 = set_disk st d ∧ exists_on d pb2_file = true ∧ exists_on d pb2_grpc_file = true ∧
    ∀ q, is_dir d2 q = true → is_dir d q = true).
  { destruct (exists_on d2 pb2_file && exists_on d2 pb2_grpc_file) eqn:Eb.
    - injection Hgen as <-. apply andb_true_iff in Eb as [Ea Eb]. by exists d2.
    - apply generate_ok in Hgen as (d & Hrun & ->). exists d. split; [done|]. cbn [in_disk set_disk] in Hrun.
      destruct (protoc_writes _ _ _ Hok Hrun) as [Ha Hb]. split_and!; [exact Ha|exact Hb|]. intros q Hq.
      change d with (Ok tt, d).2. rewrite <- Hrun. by apply protoc_keeps. }
  destruct E5 as (d & -> & Hpb & Hgrpc & Hkeep). clear Hgen.
  apply py_bind_ok in H as (has & st6 & Hhas & H). injection Hhas as <- <-.
  apply py_bind_ok in H as ([] & st7 & Hins & H).
  assert (E7 : in_disk st7 = d ∧ path_str generated_dir ∈ in_path st7 ∧
    (in_path st7 = in_path st ∨ in_path st7 = path_str generated_dir :: in_path st)).
  { cbn [in_path set_disk] in Hins. destruct (bool_decide _) eqn:Eb; injection Hins as <-; cbn [in_disk in_path set_disk].
    - apply bool_decide_eq_true in Eb. auto.
    - split; [done|]. split; [by left|by right]. }
  destruct E7 as (Hd7 & Hin7 & Hp7). clear Hins.
  apply py_bind_ok in H as (m1 & st8 & Hm1 & H). apply import_ok in Hm1 as (D8 & P8 & M8 & _).
  apply py_bind_ok in H as (m2 & st9 & Hm2 & H). apply import_ok in Hm2 as (D9 & P9 & M9 & K9).
  injection H as <- <-. rewrite P9, P8. split; [|exact Hp7].
  constructor; rewrite ?D9, ?D8, ?Hd7, ?P9, ?P8; try done; [by split; [apply K9|]|].
  by apply (io_mkdir_again _ _ _ Hdir).
Qed.

(** C38: after a successful load the two stub files are on the disk, their
    directory is on [sys.path], put there at most once, and loading again gives
    the same modules and changes nothing: no process runs.  So [serve], which
    loads twice, generates at most once. *)
Theorem stubs_loaded_once {HP : LawfulProtoc} ms st st1 host port interrupted : path_ok root → load_stubs st = (Ok ms, st1) →
  exists_on (in_disk st1) pb2_file = true ∧ exists_on (in_disk st1) pb2_grpc_file = true ∧
  path_str generated_dir ∈ in_path st1 ∧
  (in_path st1 = in_path st ∨ in_path st1 = path_str generated_dir :: in_path st) ∧
  load_stubs st1 = (Ok ms, st1) ∧
  (serve host port interrupted st).2 = st1 ∧ is_Ok (serve host port interrupted st).1.
Proof.
  intros Hok Hl. destruct (load_loaded ms st st1 Hok Hl) as [Hs Hp].
  split_and!; try apply Hs; [exact Hp|by apply load_again|..]; unfold serve, make_servicer, mbind, py_bind; rewrite Hl;
    rewrite (load_again ms st1 Hs); [done|by eexists].
Qed.

(** ** The client falls back *)

Definition no_exit {A} (m : py A) : Prop := ∀ st, (m st).1 ≠ Err SystemExit.

Lemma no_exit_bind {A B} (m : py A) (f : A → py B) : no_exit m → (∀ a, no_exit (f a)) → no_exit (m ≫= f).
Proof.
  intros Hm Hf st. unfold mbind, py_bind. specialize (Hm st). destruct (m st) as [[a|e] st1]; [apply Hf|].
  cbn [fst] in *. congruence.
Qed.

Lemma no_exit_ret {A} (a : A) : no_exit (mret a).
Proof. intros st. done. Qed.

Lemma make_dirs_no_exit above rest d : (make_dirs above rest d).1 ≠ Err SystemExit.
Proof.
  revert above d. induction rest as [|part rest IH]; intros above d; [done|]. cbn [make_dirs].
  destruct (exists_on _ _); [destruct (is_dir _ _); [apply IH|done]|apply IH].
Qed.

Lemma load_no_exit : (∀ args d, (run args d).1 ≠ Err SystemExit) → (∀ d p n, find_module d p n ≠ Err SystemExit) → no_exit load_stubs.
Proof.
  intros Hrun Hfind.
  assert (Hio : ∀ A (m : io A), (∀ d, (m d).1 ≠ Err SystemExit) → no_exit (py_io m)).
  { intros A m Hm st. unfold py_io. specialize (Hm (in_disk st)). by destruct (m (in_disk st)). }
  assert (Himp : ∀ name, no_exit (import_module name)).
  { intros name st. unfold import_module. destruct (in_modules st !! name); [done|].
    specialize (Hfind (in_disk st) (in_path st) name). destruct (find_module _ _ _); [done|]. cbn [fst]. congruence. }
  assert (Hgen : no_exit (_generate_stubs generated_dir)).
  { intros st. unfold _generate_stubs, py_except, py_io.
    pose proof (Hrun (protoc_args (child grpc_dir "scheduler.proto") generated_dir) (in_disk st)) as H1.
    destruct (run _ (in_disk st)) as [[[]|[]] d]; done. }
  unfold load_stubs. repeat first [apply no_exit_bind; [|intros []]|apply no_exit_bind; [|intros ?]];
    try apply no_exit_ret; try apply Himp; try exact Hgen; try (apply Hio; intros; try apply make_dirs_no_exit; done); intros st; cbn; discriminate.
Qed.

(** Building a client raises nothing; it is available exactly when it has a
    stub, only when it is enabled, and an unavailable client leaves the choice
    to the policy. *)
Lemma grpc_client_built target st :
  (∀ args d, (run args d).1 ≠ Err SystemExit) → (∀ d p n, find_module d p n ≠ Err SystemExit) →
  (∀ connect t m, grpc = Some connect → connect t m ≠ Err SystemExit) →
  ∃ client st', make_grpc_client target st = (Ok client, st') ∧
    (gc_available client = true ↔ is_Some (gc_stub client)) ∧
    (gc_available client = true → gc_enabled client = true ∧ is_Some grpc ∧ is_Ok (load_stubs st).1) ∧
    (gc_available client = false → ∀ r cs, grpc_choose (gc_stub client) r cs = Ok None).
Proof.
  intros Hrun Hfind Hcon. unfold make_grpc_client. set (t := match target with Some (String _ _ as t) => t | _ => _ end).
  clearbody t. destruct (String.eqb _ "1") eqn:Een, grpc as [connect|] eqn:Eg;
    try (eexists _, _; split; [reflexivity|]; cbn; split; [split; [done|by intros []]|by split]).
  pose proof (load_no_exit Hrun Hfind st) as Hl. unfold _init_client, py_except, mbind, py_bind, py_lift.
  destruct (load_stubs st) as [[[m1 m2]|e] st1]; cbn [fst] in *.
  - pose proof (Hcon connect t m2 eq_refl) as Hc. destruct (connect t m2) as [stub|e].
    + eexists _, _. split; [reflexivity|]. cbn. split; [split; [by eexists|done]|].
      split; [intros _; split_and!; [done|by eexists|by eexists]|done].
    + destruct e; try done; (eexists _, _; split; [reflexivity|]; cbn; split; [split; [done|by intros []]|by split]).
  - destruct e; try done; (eexists _, _; split; [reflexivity|]; cbn; split; [split; [done|by intros []]|by split]).
Qed.
End stubs.

(** ** At a concrete input

    A [protoc] that writes two files where it is told, and a finder of the
    modules of the directories on the path. *)

Definition out_of (arg : string) : path := to_path (unchars (drop 13 (chars arg))).

Definition sample_protoc (args : list string) : io unit :=
  match args with
  | [_; _; _; _; out; _; _] =>
      _ ← io_write (child (out_of out) "scheduler_pb2.py") "messages";
      io_write (child (out_of out) "scheduler_pb2_grpc.py") "services"
  | _ => io_raise RuntimeError
  end.

Fixpoint sample_find (d : disk) (entries : list string) (name : string) : result string :=
  match entries with
  | [] => Err LibraryError
  | entry :: entries' =>
      match (io_read (child (to_path entry) (name +:+ ".py")) d).1 with
      | Ok source => Ok source
      | Err _ => sample_find d entries' name
      end
  end.

Definition sample_root : path := ["/"; "srv"].

Lemma out_of_arg p : path_ok p → out_of ("--python_out=" +:+ path_str p) = p.
Proof.
  intros Hp. unfold out_of. rewrite chars_append. change (drop 13 (chars "--python_out=" ++ ?l)) with l.
  by rewrite unchars_chars, to_path_str.
Qed.

#[export] Instance sample_protoc_lawful : LawfulProtoc sample_root "python3" sample_protoc.
Proof.
  split.
  - intros out d d' Hp H. unfold sample_protoc, protoc_args in H. rewrite out_of_arg in H by done.
    apply bind_io_ok in H as ([] & d1 & H1 & H2). pose proof (write_exists _ _ _ _ H1) as E1.
    split; [|exact (write_exists _ _ _ _ H2)]. unfold io_write in H2. destruct (is_dir d1 _); [done|].
    destruct (is_dir d1 _); [|done]. injection H2 as <-. revert E1. unfold exists_on.
    destruct (root_path (child out "scheduler_pb2.py")); [done|]. simpl. rewrite lookup_insert_ne; [done|].
    intros E. apply app_inv_head in E. discriminate.
  - intros args d q Hq. unfold sample_protoc. destruct args as [|a1 [|a2 [|a3 [|a4 [|a5 [|a6 [|a7 [|]]]]]]]]; try done.
    unfold mbind, io_bind. pose proof (write_keeps (child (out_of a5) "scheduler_pb2.py") "messages" d q Hq) as H1.
    destruct (io_write _ _ d) as [[[]|e] d1]; [|done]. by apply write_keeps.
Qed.

Definition sample_interp : interp (M := string) := {| in_disk := <[["/"; "srv"] := Dir]> ∅; in_path := ["/srv"]; in_modules := ∅ |}.
Definition sample_load := load_stubs sample_find sample_root "python3" sample_protoc.

Lemma stubs_loaded_once_witness : ∃ st1,
  sample_load sample_interp = (Ok ("messages", "services"), st1) ∧ sample_load st1 = (Ok ("messages", "services"), st1) ∧
  path_str (generated_dir sample_root) ∈ in_path st1.
Proof.
  assert (E : (sample_load sample_interp).1 = Ok ("messages", "services")) by (vm_compute; reflexivity).
  assert (H : sample_load sample_interp = (Ok ("messages", "services"), (sample_load sample_interp).2))
    by (rewrite <- E; apply surjective_pairing).
  destruct (stubs_loaded_once sample_find sample_root "python3" sample_protoc ("messages", "services") _ _ "0.0.0.0" 50051 true
    ltac:(by repeat (constructor; [by apply part_okb_ok|])) H) as (_ & _ & H3 & _ & H5 & _).
  exists (sample_load sample_interp).2. split; [exact H|]. split; [exact H5|exact H3].
Defined.

(** Without [protoc] the load fails, whatever the process failed with, and an
    enabled client is built all the same, unavailable. *)
Example no_protoc :
  let load := load_stubs sample_find sample_root "python3" (fun _ => io_raise FileNotFoundError) in
  (load sample_interp).1 = Err RuntimeError ∧
  ∃ client, (make_grpc_client sample_find sample_root "python3" (fun _ => io_raise FileNotFoundError)
    (Some (fun _ _ => Ok (fun _ => Err LibraryError))) (fun k dflt => if String.eqb k "NIMBUS_USE_GRPC_ROUTER" then "1" else dflt)
    None sample_interp).1 = Ok client ∧ gc_enabled client = true ∧ gc_available client = false ∧ gc_target client = "127.0.0.1:50051".
Proof. split; [vm_compute; reflexivity|]. eexists. split; [vm_compute; reflexivity|]. split_and!; reflexivity. Qed.

Example cpp_default_path :
  let d : disk := <[["/"; "srv"; "scheduler_core_cpp"; "build"; "libscheduler_core.so"] := Text "ELF"]> ∅ in
  let getenv k dflt := if String.eqb k "NIMBUS_USE_CPP_CORE" then "1" else dflt in
  (make_cpp_core sample_root getenv (fun _ => Ok tt) None d).1 =
    Ok {| cc_library_path := "/srv/scheduler_core_cpp/build/libscheduler_core.so"; cc_enabled := true; cc_available := true |} ∧
  (make_cpp_core sample_root getenv (fun _ => Err OSError) None d).1 = Err OSError ∧
  (make_cpp_core sample_root getenv (fun _ => Ok tt) (Some "lib.so") d).1 =
    Ok {| cc_library_path := "lib.so"; cc_enabled := true; cc_available := false |}.
Proof. split_and!; vm_compute; reflexivity. Qed.
