(* ===== verification/ControlPlane.v ===== *)
(** * [control_plane/service.py]: the control plane

    [NimbusMeshControlPlane] is a record of the attributes the code assigns;
    the cache directory it shares with the local scheduler is one field.  Every
    method takes the state and returns the new one.  The environment gives the
    constructor its optional parts: the file system ([read_text]), the Redis
    side store, the CUDA kernels, the gRPC stub, and whether the C++ library and
    the two optional policy libraries load. *)

From S2P Require Import Prelude PyFloat PyOrder PyDict PyJson Config Types Backends RedisStore Cache.
From S2P Require Import Scheduler Cuda GpuTopo Topology Policies RemoteScorer.

Local Open Scope Z_scope.

Section control_plane.
Context {R : Type} `{RedisClient R}.

Record NimbusMeshControlPlane := {
  cp_config : ExperimentConfig;
  cp_topology : TopologyService;
  cp_cache_directory : KVCacheDirectory R;
  cp_cuda_engine : CudaScoringEngine;
  cp_grpc_client : GrpcSchedulerClient;
  cp_cpp_core : bool;
  cp_clusters : dict string ClusterRuntime;
  cp_tenant_stats : dict string TenantStats;
  cp_tenant_weights : dict string float;
  cp_policy : registered_policy
}.

(** Assignment to the fields that change after construction. *)
Definition cp_update (cp : NimbusMeshControlPlane) (directory : KVCacheDirectory R)
    (clusters : dict string ClusterRuntime) (stats : dict string TenantStats)
    (policy : registered_policy) : NimbusMeshControlPlane :=
  {| cp_config := cp_config cp; cp_topology := cp_topology cp; cp_cache_directory := directory;
     cp_cuda_engine := cp_cuda_engine cp; cp_grpc_client := cp_grpc_client cp;
     cp_cpp_core := cp_cpp_core cp; cp_clusters := clusters; cp_tenant_stats := stats;
     cp_tenant_weights := cp_tenant_weights cp; cp_policy := policy |}.

(** ** Construction *)

Definition build_pool (cluster : ClusterSpec) (pool_spec : PoolSpec) : PoolRuntime :=
  pool_post_init
  {| pool_cluster_id := cs_cluster_id cluster; pool_zone := cs_zone cluster;
     pool_pool_id := ps_pool_id pool_spec; pool_backend_name := ps_backend_name pool_spec;
     pool_accelerator_type := ps_accelerator_type pool_spec;
     pool_supported_models := ps_supported_models pool_spec;
     pool_prefill_tps := ps_prefill_tps pool_spec; pool_decode_tps := ps_decode_tps pool_spec;
     pool_memory_gb := ps_memory_gb pool_spec; pool_gpu_count := ps_gpu_count pool_spec;
     pool_parallel_slots := ps_parallel_slots pool_spec;
     pool_cost_per_1m_tokens := ps_cost_per_1m_tokens pool_spec;
     pool_energy_proxy := ps_energy_proxy pool_spec; pool_topology_tier := ps_topology_tier pool_spec;
     pool_premium := ps_premium pool_spec; pool_queue_limit := ps_queue_limit pool_spec;
     pool_congestion_score := of_lit 0.0%float; pool_slot_available_at := [];
     pool_active_memory_gb := of_lit 0.0%float; pool_cache_reserved_gb := of_lit 0.0%float;
     pool_decision_count := 0; pool_completed_count := 0; pool_inflight_memory := [] |}.

Definition build_cluster (cluster_spec : ClusterSpec) : ClusterRuntime :=
  {| cl_cluster_id := cs_cluster_id cluster_spec; cl_zone := cs_zone cluster_spec;
     cl_ingress_cost := cs_ingress_cost cluster_spec;
     cl_network_costs := cs_network_costs cluster_spec;
     cl_base_congestion := cs_base_congestion cluster_spec;
     cl_failure_windows := cs_failure_windows cluster_spec;
     cl_congestion_windows := cs_congestion_windows cluster_spec;
     cl_pools := fold_left (fun pools ps => dset pools (ps_pool_id ps) (build_pool cluster_spec ps))
                   (cs_pools cluster_spec) [] |}.

Definition _build_runtime_clusters (config : ExperimentConfig) : dict string ClusterRuntime :=
  fold_left (fun clusters cs => dset clusters (cs_cluster_id cs) (build_cluster cs))
    (ec_clusters config) [].

(** What the process environment provides. *)
Record Environment := {
  env_read_text : string → result string;
  env_redis_store : RedisDecisionStore R;
  env_cuda : CudaScoringEngine;
  env_grpc : GrpcSchedulerClient;
  env_cpp : bool;
  env_ppo : bool;
  env_pyg : bool
}.

(** [NimbusMeshControlPlane(config)] *)
Definition make_control_plane (env : Environment) (config : ExperimentConfig) :
    result NimbusMeshControlPlane :=
  topology ← _build_from_config (env_read_text env) config;
  policy ← _build_policy (env_ppo env) (env_pyg env) (ec_policy config);
  Ok {| cp_config := config; cp_topology := topology;
        cp_cache_directory := make_directory (of_lit 180.0%float) 20000 (env_redis_store env);
        cp_cuda_engine := env_cuda env; cp_grpc_client := env_grpc env; cp_cpp_core := env_cpp env;
        cp_clusters := _build_runtime_clusters config; cp_tenant_stats := [];
        cp_tenant_weights := wc_tenant_weights (ec_workload config); cp_policy := policy |}.

(** ** [refresh] and [note_submission] *)

Definition refresh_pool (cluster_id : string) (congestion now : float) (d : KVCacheDirectory R)
    (pool : PoolRuntime) : KVCacheDirectory R * PoolRuntime :=
  let p1 := pool_refresh (set_congestion_score pool congestion) now in
  let '(d', reserved) := reserved_gb d cluster_id (pool_pool_id p1) now in
  (d', set_cache_reserved_gb p1 reserved).

(** Loops that thread a state through the values of a dict. *)
Fixpoint map_values {S V W : Type} (f : S → V → S * W) (s : S) (d : dict string V) : S * dict string W :=
  match d with
  | [] => (s, [])
  | (k, v) :: d' =>
      let '(s1, w) := f s v in
      let '(s2, d2) := map_values f s1 d' in (s2, (k, w) :: d2)
  end.

Definition refresh_cluster (now : float) (d : KVCacheDirectory R) (cluster : ClusterRuntime) :
    KVCacheDirectory R * ClusterRuntime :=
  let cluster_congestion := effective_congestion cluster now in
  let '(d', pools) :=
    map_values (refresh_pool (cl_cluster_id cluster) cluster_congestion now) d (cl_pools cluster) in
  (d', set_pools cluster pools).

Definition refresh (cp : NimbusMeshControlPlane) (now : float) : NimbusMeshControlPlane :=
  let '(d, clusters) := map_values (refresh_cluster now) (cp_cache_directory cp) (cp_clusters cp) in
  cp_update cp d clusters (cp_tenant_stats cp) (cp_policy cp).

(** The stats of a tenant; an absent tenant reads as the default. *)
Definition stats_of (stats : dict string TenantStats) (tenant_id : string) : TenantStats :=
  dget_or new_tenant_stats stats tenant_id.

Definition note_submission (cp : NimbusMeshControlPlane) (r : InferenceRequest) : NimbusMeshControlPlane :=
  let s := stats_of (cp_tenant_stats cp) (req_tenant_id r) in
  cp_update cp (cp_cache_directory cp) (cp_clusters cp)
    (dset (cp_tenant_stats cp) (req_tenant_id r)
       {| ts_submitted := ts_submitted s + 1; ts_completed := ts_completed s;
          ts_total_latency_ms := ts_total_latency_ms s; ts_sla_misses := ts_sla_misses s |})
    (cp_policy cp).

(** ** Fairness *)

Definition total_completed (stats : dict string TenantStats) : Z :=
  fold_right Z.add 0 (map ts_completed (dvalues stats)).

(** The penalty, and the stats with the tenant's entry the lookup creates. *)
Definition _fairness_penalty (cp : NimbusMeshControlPlane) (stats : dict string TenantStats)
    (tenant_id : string) : result (dict string TenantStats * float) :=
  let total := total_completed stats in
  if total =? 0 then Ok (stats, of_lit 0.0%float) else
  let stats' := dtouch new_tenant_stats stats tenant_id in
  actual_share ← int_div (ts_completed (stats_of stats' tenant_id)) total;
  expected_share ← py_div (dget_or (of_lit 1.0%float) (cp_tenant_weights cp) tenant_id)
                     (pymax 0.000000001 (fsum (dvalues (cp_tenant_weights cp))));
  Ok (stats', (pymax 0.0 (actual_share - expected_share) * ec_fairness_strength (cp_config cp))%float).

(** ** [build_candidates] *)

Definition model_supported (pool : PoolRuntime) (model_id : string) : bool :=
  match pool_supported_models pool with
  | [] => true
  | (_ :: _) as models => bool_decide (model_id ∈ models)
  end.

(** The first reason to refuse a pool, [None] when it is available. *)
Definition rejection (cluster_down : bool) (pool : PoolRuntime) (r : InferenceRequest)
    (memory_headroom needed_memory now : float) : option string :=
  if cluster_down then Some "cluster-unavailable"
  else if negb (model_supported pool (req_model_id r)) then Some "unsupported-model"
  else if pool_queue_limit pool <=? inflight_count pool now then Some "queue-limit"
  else if (memory_headroom <? needed_memory)%float then Some "memory-pressure"
  else None.

(** The body of the inner loop. *)
Definition build_candidate (cp : NimbusMeshControlPlane) (r : InferenceRequest) (now : float)
    (cluster : ClusterRuntime) (st : KVCacheDirectory R * dict string TenantStats)
    (pool : PoolRuntime) :
    result (KVCacheDirectory R * dict string TenantStats * CandidatePlacement) :=
  let '(directory, stats) := st in
  let memory_headroom := memory_headroom_gb pool in
  '(directory', (cache_hit_ratio, cache_saved_tokens)) ←
    score directory r (cl_cluster_id cluster) (pool_pool_id pool) now;
  let needed_memory :=
    estimate_request_memory_gb (req_prompt_tokens r) (req_generation_tokens r) (req_model_id r)
      cache_saved_tokens in
  let rejection_reason :=
    rejection (unavailable cluster now) pool r memory_headroom needed_memory now in
  topology_affinity ←
    pool_affinity (cp_topology cp) (cl_cluster_id cluster) (pool_pool_id pool) (req_prompt_tokens r);
  route ← route_cost (cp_topology cp) (cl_cluster_id cluster) (pool_pool_id pool);
  let network_cost := (cl_ingress_cost cluster + route)%float in
  backend ← get_or KeyError (dget backends (pool_backend_name pool));
  let '(projected_prefill_ms, projected_decode_ms) :=
    estimate_latency_ms backend r pool cache_hit_ratio topology_affinity network_cost
      (pool_congestion_score pool) in
  '(stats', fairness_penalty) ← _fairness_penalty cp stats (req_tenant_id r);
  delay ← queue_delay_ms pool now;
  let score_breakdown :=
    [("queue_delay_ms", fround 4 delay); ("cache_hit_ratio", cache_hit_ratio);
     ("topology_affinity", topology_affinity); ("network_cost", fround 4 network_cost);
     ("congestion_score", fround 4 (pool_congestion_score pool));
     ("memory_headroom_gb", fround 4 memory_headroom);
     ("fairness_penalty", fround 4 fairness_penalty)] in
  Ok (directory', stats',
      {| cand_cluster_id := cl_cluster_id cluster; cand_pool_id := pool_pool_id pool;
         cand_backend_name := pool_backend_name pool;
         cand_accelerator_type := pool_accelerator_type pool;
         cand_queue_delay_ms := fround 4 delay;
         cand_projected_prefill_ms := projected_prefill_ms;
         cand_projected_decode_ms := projected_decode_ms;
         cand_expected_cache_hit_ratio := cache_hit_ratio;
         cand_expected_cache_saved_tokens := cache_saved_tokens;
         cand_topology_affinity := topology_affinity; cand_network_cost := fround 4 network_cost;
         cand_congestion_score := fround 4 (pool_congestion_score pool);
         cand_memory_headroom_gb := fround 4 memory_headroom;
         cand_accelerator_cost_per_1m_tokens := pool_cost_per_1m_tokens pool;
         cand_fairness_penalty := fairness_penalty; cand_premium := pool_premium pool;
         cand_available := match rejection_reason with None => true | Some _ => false end;
         cand_rejection_reason := rejection_reason; cand_score_breakdown := score_breakdown |}).

(** The two nested loops, as one loop over the pools with their clusters. *)
Definition cluster_pools (clusters : dict string ClusterRuntime) : list (ClusterRuntime * PoolRuntime) :=
  dvalues clusters ≫= fun cluster => (fun pool => (cluster, pool)) <$> dvalues (cl_pools cluster).

Definition add_candidate (cp : NimbusMeshControlPlane) (r : InferenceRequest) (now : float)
    (st : KVCacheDirectory R * dict string TenantStats * list CandidatePlacement)
    (x : ClusterRuntime * PoolRuntime) :
    result (KVCacheDirectory R * dict string TenantStats * list CandidatePlacement) :=
  '(directory, stats, c) ← build_candidate cp r now x.1 st.1 x.2;
  Ok (directory, stats, st.2 ++ [c]).

Definition build_candidates (cp : NimbusMeshControlPlane) (r : InferenceRequest) (now : float) :
    result (NimbusMeshControlPlane * list CandidatePlacement) :=
  '(directory, stats, candidates) ←
    foldM (add_candidate cp r now) (cp_cache_directory cp, cp_tenant_stats cp, [])
      (cluster_pools (cp_clusters cp));
  enriched ← enrich_candidates (cp_cuda_engine cp) candidates;
  Ok (cp_update cp directory (cp_clusters cp) stats (cp_policy cp), enriched).

(** ** Routing *)

Definition _choose_candidate (cp : NimbusMeshControlPlane) (r : InferenceRequest)
    (candidates : list CandidatePlacement) : result (registered_policy * CandidatePlacement) :=
  grpc_index ← grpc_choose (cp_grpc_client cp) r candidates;
  match grpc_index with
  | Some i => c ← get_or IndexError (candidates !! i); Ok (cp_policy cp, c)
  | None =>
      match cpp_choose (cp_cpp_core cp) r candidates with
      | Some i => c ← get_or IndexError (candidates !! i); Ok (cp_policy cp, c)
      | None => choose (cp_policy cp) r candidates
      end
  end.

Definition make_decision (policy_name : string) (r : InferenceRequest) (choice : CandidatePlacement) :
    RoutingDecision :=
  {| dec_request_id := req_request_id r; dec_policy_name := policy_name;
     dec_cluster_id := cand_cluster_id choice; dec_pool_id := cand_pool_id choice;
     dec_backend_name := cand_backend_name choice;
     dec_estimated_latency_ms := fround 4 (estimated_total_latency_ms choice);
     dec_estimated_queue_delay_ms := fround 4 (cand_queue_delay_ms choice);
     dec_estimated_cache_hit_ratio := cand_expected_cache_hit_ratio choice;
     dec_topology_affinity := cand_topology_affinity choice;
     dec_network_cost := cand_network_cost choice;
     dec_accelerator_cost_per_1m_tokens := cand_accelerator_cost_per_1m_tokens choice;
     dec_fairness_penalty := cand_fairness_penalty choice;
     dec_score_breakdown := cand_score_breakdown choice |}.

Definition route (cp : NimbusMeshControlPlane) (r : InferenceRequest) (now : float) :
    result (NimbusMeshControlPlane * CandidatePlacement * RoutingDecision) :=
  '(cp1, candidates) ← build_candidates cp r now;
  '(policy, choice) ← _choose_candidate cp1 r candidates;
  let cp2 := cp_update cp1 (cp_cache_directory cp1) (cp_clusters cp1) (cp_tenant_stats cp1) policy in
  Ok (cp2, choice, make_decision (policy_name policy) r choice).

(** ** Execution *)

Definition rejected_result (r : InferenceRequest) (decision : RoutingDecision)
    (candidate : CandidatePlacement) (now : float) : RequestResult :=
  {| res_request := r; res_decision := decision; res_admitted := false;
     res_actual_start_ts := now; res_completion_ts := now;
     res_queue_delay_ms := of_lit 0.0%float; res_prefill_latency_ms := of_lit 0.0%float;
     res_decode_latency_ms := of_lit 0.0%float; res_total_latency_ms := of_lit 0.0%float;
     res_cache_hit_ratio := of_lit 0.0%float; res_cache_saved_tokens := 0;
     res_memory_gb := of_lit 0.0%float; res_cost_usd := of_lit 0.0%float;
     res_energy_proxy := of_lit 0.0%float; res_network_cost := cand_network_cost candidate;
     res_sla_met := false; res_rejection_reason := cand_rejection_reason candidate |}.

(** The three updates of the tenant's stats. *)
Definition count_completion (stats : dict string TenantStats) (r : RequestResult) : dict string TenantStats :=
  let tenant_id := req_tenant_id (res_request r) in
  let s := stats_of stats tenant_id in
  dset stats tenant_id
    {| ts_submitted := ts_submitted s; ts_completed := ts_completed s + 1;
       ts_total_latency_ms := (ts_total_latency_ms s + res_total_latency_ms r)%float;
       ts_sla_misses := ts_sla_misses s + (if res_sla_met r then 0 else 1) |}.

Definition execute (cp : NimbusMeshControlPlane) (r : InferenceRequest) (now : float) :
    result (NimbusMeshControlPlane * RequestResult) :=
  '(cp1, candidate, decision) ← route cp r now;
  cluster ← get_or KeyError (dget (cp_clusters cp1) (cand_cluster_id candidate));
  pool ← get_or KeyError (dget (cl_pools cluster) (cand_pool_id candidate));
  backend ← get_or KeyError (dget backends (cand_backend_name candidate));
  if negb (cand_available candidate) then Ok (cp1, rejected_result r decision candidate now) else
  '(directory, pool', res) ←
    place_request (cp_cache_directory cp1) r candidate decision pool backend now;
  let stats := count_completion (cp_tenant_stats cp1) res in
  let pool'' := set_completed_count pool' (pool_completed_count pool' + 1) in
  let cluster' := set_pools cluster (dset (cl_pools cluster) (cand_pool_id candidate) pool'') in
  policy ← observe_result (cp_policy cp1) res;
  Ok (cp_update cp1 directory (dset (cp_clusters cp1) (cand_cluster_id candidate) cluster') stats policy,
      res).

Definition topology_snapshot (cp : NimbusMeshControlPlane) : json := tp_snapshot (cp_topology cp).

Definition cache_snapshot (cp : NimbusMeshControlPlane) (now : float) : NimbusMeshControlPlane * json :=
  let '(d, j) := snapshot (cp_cache_directory cp) now in
  (cp_update cp d (cp_clusters cp) (cp_tenant_stats cp) (cp_policy cp), j).
End control_plane.

Arguments NimbusMeshControlPlane R : clear implicits.
Arguments Environment R : clear implicits.

(** ** Candidates describe their pools *)

Section candidates.
Context {R : Type} `{RedisClient R}.
Implicit Types (cp : NimbusMeshControlPlane R) (r : InferenceRequest).

(** The memory a request needs on a candidate's pool, given its cache hits. *)
Definition needed_memory r (c : CandidatePlacement) : float :=
  estimate_request_memory_gb (req_prompt_tokens r) (req_generation_tokens r) (req_model_id r)
    (cand_expected_cache_saved_tokens c).

(** [c] is the candidate of pool [x.2] of cluster [x.1]. *)
Record describes r (now : float) (x : ClusterRuntime * PoolRuntime) (c : CandidatePlacement) : Prop := {
  de_cluster : cand_cluster_id c = cl_cluster_id x.1;
  de_pool : cand_pool_id c = pool_pool_id x.2;
  de_backend : cand_backend_name c = pool_backend_name x.2;
  de_reason : cand_rejection_reason c =
    rejection (unavailable x.1 now) x.2 r (memory_headroom_gb x.2) (needed_memory r c) now;
  de_available : cand_available c = true ↔ cand_rejection_reason c = None
}.

Lemma describes_breakdown r now x c b : describes r now x c → describes r now x (set_score_breakdown c b).
Proof. by intros []. Qed.

Lemma build_candidate_describes cp r now cl st pool st' c :
  build_candidate cp r now cl st pool = Ok (st', c) → describes r now (cl, pool) c.
Proof.
  unfold build_candidate. destruct st as [d stats]. intros Hb.
  apply bind_ok in Hb as ([d' [hit saved]] & _ & Hb). apply bind_ok in Hb as (aff & _ & Hb).
  apply bind_ok in Hb as (rt & _ & Hb). apply bind_ok in Hb as (b & _ & Hb).
  destruct (estimate_latency_ms _ _ _ _ _ _ _) as [pre dec].
  apply bind_ok in Hb as ([s' pen] & _ & Hb). apply bind_ok in Hb as (delay & _ & Hb).
  injection Hb as <- <-. constructor; simpl; try done.
  by destruct (rejection _ _ _ _ _ _).
Qed.

Lemma add_candidates_describe cp r now l st st' :
  foldM (add_candidate cp r now) st l = Ok st' →
  ∃ cs, st'.2 = st.2 ++ cs ∧ Forall2 (describes r now) l cs.
Proof.
  revert st. induction l as [|x l IH]; intros st; cbn [foldM].
  { intros [= <-]. exists []. by rewrite app_nil_r. }
  intros Hf. apply bind_ok in Hf as (st1 & H1 & Hf). unfold add_candidate in H1.
  apply bind_ok in H1 as ([[d s] c] & Hb & H1). injection H1 as <-.
  destruct (IH _ Hf) as (cs & E & Hcs). simpl in E. exists (c :: cs).
  split; [by rewrite E, <- app_assoc|]. constructor; [|exact Hcs].
  apply build_candidate_describes in Hb. by destruct x.
Qed.

(** Enrichment keeps every candidate but for its breakdown. *)
Definition same_but_breakdown (c c' : CandidatePlacement) : Prop :=
  ∃ b, c' = set_score_breakdown c b.

Lemma assign_features_frame cs xs ys zs : Forall2 same_but_breakdown cs (assign_features cs xs ys zs).
Proof.
  revert xs ys zs.
  assert (Hid : ∀ cs, Forall2 same_but_breakdown cs cs).
  { intros l. induction l as [|c l IH]; constructor; [|exact IH]. exists (cand_score_breakdown c). by destruct c. }
  induction cs as [|c cs IH]; intros [|x xs] [|y ys] [|z zs]; try apply Hid.
  cbn [assign_features]. constructor; [by eexists|apply IH].
Qed.

Lemma enrich_frame engine cs cs' : enrich_candidates engine cs = Ok cs' → Forall2 same_but_breakdown cs cs'.
Proof.
  unfold enrich_candidates. intros He. apply bind_ok in He as (saved & _ & He).
  apply bind_ok in He as ([[x y] z] & _ & He). injection He as <-. apply assign_features_frame.
Qed.

Lemma Forall2_trans {A B C} (P : A → B → Prop) (Q : B → C → Prop) (S : A → C → Prop) l k m :
  (∀ x y z, P x y → Q y z → S x z) → Forall2 P l k → Forall2 Q k m → Forall2 S l m.
Proof.
  intros HS HP. revert m. induction HP; intros m HQ; inversion HQ; subst; constructor; eauto.
Qed.

Lemma build_candidates_describe cp r now cp' cs : build_candidates cp r now = Ok (cp', cs) →
  Forall2 (describes r now) (cluster_pools (cp_clusters cp)) cs ∧
  cp_clusters cp' = cp_clusters cp ∧ cp_policy cp' = cp_policy cp.
Proof.
  unfold build_candidates. intros Hb. apply bind_ok in Hb as ([[d s] cs0] & Hf & Hb).
  apply bind_ok in Hb as (cs1 & He & Hb). injection Hb as <- <-.
  apply add_candidates_describe in Hf as (cs2 & E & Hd). simpl in E. subst cs0.
  split; [|done]. eapply Forall2_trans; [|exact Hd|eapply enrich_frame, He].
  intros x c c' Hx [b ->]. by apply describes_breakdown.
Qed.

(** Whoever chooses, the choice is a candidate. *)
Lemma choose_candidate_elem cp r cs p c : _choose_candidate cp r cs = Ok (p, c) → c ∈ cs.
Proof.
  unfold _choose_candidate. intros Hc. apply bind_ok in Hc as ([i|] & _ & Hc).
  { apply bind_ok in Hc as (x & Hx & Hc). apply get_or_ok in Hx. injection Hc as _ <-.
    by eapply list_elem_of_lookup_2. }
  destruct (cpp_choose _ _ _) as [i|].
  { apply bind_ok in Hc as (x & Hx & Hc). apply get_or_ok in Hx. injection Hc as _ <-.
    by eapply list_elem_of_lookup_2. }
  by apply choose_safe in Hc as [? _].
Qed.

(** ** Consistent clusters *)

Record cluster_wf (k : string) (cl : ClusterRuntime) : Prop := {
  cw_id : cl_cluster_id cl = k;
  cw_pools : dict_wf (cl_pools cl);
  cw_pool_ids : Forall (fun kp => pool_pool_id kp.2 = kp.1) (cl_pools cl)
}.

Record clusters_wf (d : dict string ClusterRuntime) : Prop := {
  cs_wf : dict_wf d;
  cs_clusters : Forall (fun kc => cluster_wf kc.1 kc.2) d
}.

Lemma cluster_pools_elem (d : dict string ClusterRuntime) cl p : (cl, p) ∈ cluster_pools d ↔
  ∃ k pk, (k, cl) ∈ d ∧ (pk, p) ∈ cl_pools cl.
Proof.
  unfold cluster_pools, dvalues. rewrite list_elem_of_bind. split.
  - intros (cl' & Hin & Hcl). apply list_elem_of_fmap in Hin as (p' & [= <- <-] & Hp).
    apply list_elem_of_fmap in Hcl as ([k cl'] & -> & Hk). apply list_elem_of_fmap in Hp as ([pk p'] & -> & Hp). eauto.
  - intros (k & pk & Hk & Hp). exists cl. split.
    + apply list_elem_of_fmap. exists p. split; [done|]. apply list_elem_of_fmap. by exists (pk, p).
    + apply list_elem_of_fmap. by exists (k, cl).
Qed.

(** The identifiers of a candidate lead back to its pool. *)
Lemma cluster_pools_get (d : dict string ClusterRuntime) cl p : clusters_wf d → (cl, p) ∈ cluster_pools d →
  dget d (cl_cluster_id cl) = Some cl ∧ dget (cl_pools cl) (pool_pool_id p) = Some p.
Proof.
  intros [Hd Hc] (k & pk & Hk & Hp)%cluster_pools_elem. rewrite Forall_forall in Hc.
  destruct (Hc _ Hk) as [Hid Hpd Hpi]. simpl in *. rewrite Forall_forall in Hpi.
  split; apply elem_dget; try done.
  - by rewrite Hid.
  - pose proof (Hpi _ Hp) as E. simpl in E. by rewrite E.
Qed.

Lemma get_cluster_wf (d : dict string ClusterRuntime) k cl : clusters_wf d → dget d k = Some cl → cluster_wf k cl.
Proof. intros [_ Hc] Hg%dget_elem. rewrite Forall_forall in Hc. exact (Hc _ Hg). Qed.

Lemma clusters_wf_set (d : dict string ClusterRuntime) k cl : clusters_wf d → cluster_wf k cl → clusters_wf (dset d k cl).
Proof.
  intros [H1 H2] Hc. split; [by apply dict_wf_set|]. rewrite Forall_forall in *.
  intros [k' cl'] Hin. apply dset_elem in Hin as [[= -> ->]|Hin]; [done|by apply H2].
Qed.

Lemma cluster_wf_set_pool k cl pk p : cluster_wf k cl → pool_pool_id p = pk →
  cluster_wf k (set_pools cl (dset (cl_pools cl) pk p)).
Proof.
  intros [H1 H2 H3] Hp. split; simpl; [done|by apply dict_wf_set|]. rewrite Forall_forall in *.
  intros [k' p'] Hin. apply dset_elem in Hin as [[= -> ->]|Hin]; [done|by apply H3].
Qed.

Lemma fold_dset_wf {A V} (key : A → string) (val : A → V) (P : string → V → Prop) l (d : dict string V) :
  (∀ a, a ∈ l → P (key a) (val a)) → dict_wf d → Forall (fun kv => P kv.1 kv.2) d →
  let d' := fold_left (fun d a => dset d (key a) (val a)) l d in
  dict_wf d' ∧ Forall (fun kv => P kv.1 kv.2) d'.
Proof.
  revert d. induction l as [|a l IH]; intros d Hl Hwf Hd; simpl; [done|]. apply IH.
  - intros b Hb. apply Hl. by right.
  - by apply dict_wf_set.
  - rewrite Forall_forall in *. intros [k v] Hin. apply dset_elem in Hin as [[= -> ->]|Hin]; [|by apply Hd].
    apply Hl. by left.
Qed.

Lemma pool_post_init_id p : pool_pool_id (pool_post_init p) = pool_pool_id p.
Proof. unfold pool_post_init. by destruct (pool_slot_available_at p). Qed.

Lemma build_clusters_wf config : clusters_wf (_build_runtime_clusters config).
Proof.
  destruct (fold_dset_wf cs_cluster_id build_cluster cluster_wf (ec_clusters config) []) as [H1 H2];
    [|apply dict_wf_nil|constructor|by split].
  intros cs _. split; [done| |]; simpl;
    destruct (fold_dset_wf ps_pool_id (build_pool cs) (fun k p => pool_pool_id p = k) (cs_pools cs) [])
      as [G1 G2]; try done; try apply dict_wf_nil; try constructor.
  all: intros ps _; unfold build_pool; by rewrite pool_post_init_id.
Qed.
End candidates.
