(* ===== verification/CpReady.v ===== *)
(** * A control plane that never fails

    [cp_ready room cp] is the state from which the next [room] requests are
    executed without an exception: consistent clusters, pools with a known
    backend, a place in the topology and figures a configuration can hold, a
    directory with room, a well-formed policy, and a remote scorer that answers.
    [build_candidates], [route], [execute] and [refresh] keep it. *)

From S2P Require Import Prelude PyFloat PyOrder PyDict PyJson PyNum Config Types Backends RedisStore.
From S2P Require Import Cache CacheReady Scheduler Cuda GpuTopo Topology Policies RemoteScorer.
From S2P Require Import ControlPlane.

Local Open Scope Z_scope.

(** ** The congestion a cluster's windows can build up *)

Fixpoint cap (n : nat) : float :=
  match n with O => of_lit 65536.0%float | S n' => (cap n' * 65536.0)%float end.

Record cluster_calm (cl : ClusterRuntime) : Prop := {
  calm_base : (0.0 <= cl_base_congestion cl)%float ∧ (cl_base_congestion cl <= 65536.0)%float;
  calm_count : (length (cl_congestion_windows cl) <= 32)%nat;
  calm_windows : Forall (fun w => (0.0 <= w.2)%float ∧ (w.2 <= 65536.0)%float) (cl_congestion_windows cl);
  calm_ingress : (0.0 <= cl_ingress_cost cl)%float
}.

Definition congestion_ok (c : float) : Prop := (0.0 <= c)%float ∧ (c <= max_float)%float.

Lemma cap_step n : (n < 32)%nat → finite (cap n) = true ∧ (cap n <= cap (S n))%float.
Proof.
  intros Hn. assert (H : forallb (fun n => finite (cap n) && fleb (cap n) (cap (S n))) (seq 0 32) = true) by flit.
  rewrite forallb_forall in H. specialize (H n). apply andb_true_iff in H as [H1 H2]; [split; hyp|].
  apply in_seq. lia.
Qed.

Lemma cap_32 : (cap 32 <= max_float)%float.
Proof. flit. Qed.

Lemma congestion_fold now ws k acc : (k + length ws <= 32)%nat →
  Forall (fun w => (0.0 <= w.2)%float ∧ (w.2 <= 65536.0)%float) ws →
  (0.0 <= acc)%float → (acc <= cap k)%float →
  congestion_ok (fold_left (fun congestion w =>
      let '(start, end_, multiplier) := w in
      if in_window start end_ now then (congestion * multiplier)%float else congestion) ws acc).
Proof.
  revert k acc. induction ws as [|[[s e] m] ws IH]; intros k acc Hk Hws H0 H1; simpl.
  - split; [exact H0|]. assert (Hle : ∀ j, (k + j <= 32)%nat → (cap k <= cap (k + j))%float).
    { induction j as [|j IHj]; intros Hj.
      - rewrite Nat.add_0_r. exact (fle_refl _ (fle_not_nan_r _ _ H1)).
      - rewrite Nat.add_succ_r. eapply fle_trans; [apply IHj; lia|apply cap_step; lia]. }
    eapply fle_trans; [exact H1|]. eapply fle_trans; [|exact cap_32].
    simpl in Hk. replace 32%nat with (k + (32 - k))%nat by lia. apply Hle. lia.
  - inversion Hws as [|? ? [M0 M1] Hws']; subst. simpl in Hk, M0, M1.
    destruct (cap_step k ltac:(lia)) as [Ck Cs].
    assert (Hfa : finite acc = true) by (apply (finite_between acc 0.0 (cap k)); [reflexivity|exact Ck|exact H0|exact H1]).
    assert (Hfm : finite m = true) by (apply (finite_between m 0.0 65536.0); [reflexivity|reflexivity|exact M0|exact M1]).
    apply (IH (S k)); [lia|exact Hws'| |]; destruct (in_window s e now).
    + exact (fmul_nonneg_fin acc m Hfa Hfm H0 M0).
    + exact H0.
    + cbn [cap]. apply fmul_mono_nonneg; [exact Ck|reflexivity|exact Hfm|exact H0|flit|exact H1|exact M1].
    + eapply fle_trans; [exact H1|exact Cs].
Qed.

Lemma congestion_range cl now : cluster_calm cl → congestion_ok (effective_congestion cl now).
Proof. intros [[B0 B1] Hn Hw _]. apply (congestion_fold now _ 0); simpl; try done. Qed.

(** ** The state *)

Record pool_ready (t : TopologyService) (cl : ClusterRuntime) (p : PoolRuntime) : Prop := {
  pr_inv : pool_inv p;
  pr_slots : slots_ok (pool_slot_available_at p);
  pr_tps : tps_ok (pool_prefill_tps p) ∧ tps_ok (pool_decode_tps p);
  pr_backend : is_Some (dget backends (pool_backend_name p));
  pr_known : pool_known t (cl_cluster_id cl) (pool_pool_id p);
  pr_route : ∃ c, route_cost t (cl_cluster_id cl) (pool_pool_id p) = Ok c ∧ (0.0 <= c)%float;
  pr_congestion : congestion_ok (pool_congestion_score p)
}.

(** A request whose token counts a double holds exactly, of a known SLA class. *)
Record request_ready (r : InferenceRequest) : Prop := {
  rr_prompt : tokens_ok (req_prompt_tokens r);
  rr_generation : tokens_ok (req_generation_tokens r);
  rr_sla : sla_known r
}.

(** A time of the simulation. *)
Definition time_ok (now : float) : Prop := wf now ∧ (0.0 <= now)%float.

(** The remote scorer answers whenever it is asked. *)
Definition answers (client : GrpcSchedulerClient) : Prop :=
  match client with None => True | Some stub => ∀ m, is_Ok (stub m) end.

Section ready.
Context {R : Type} `{RedisClient R}.
Implicit Types (cp : NimbusMeshControlPlane R) (r : InferenceRequest).

Record cp_ready (room : Z) cp : Prop := {
  cr_wf : clusters_wf (cp_clusters cp);
  cr_topology : topology_inv (cp_topology cp);
  cr_calm : Forall cluster_calm (dvalues (cp_clusters cp));
  cr_pools : Forall (fun x => pool_ready (cp_topology cp) x.1 x.2) (cluster_pools (cp_clusters cp));
  cr_some : cluster_pools (cp_clusters cp) ≠ [];
  cr_directory : directory_ready room (cp_cache_directory cp);
  cr_policy : policy_wf (cp_policy cp);
  cr_remote : answers (cp_grpc_client cp)
}.

(** ** Fairness *)

Lemma fairness_ok cp stats t : ∃ stats' x, _fairness_penalty cp stats t = Ok (stats', x) ∧
  (stats' = stats ∨ stats' = dtouch new_tenant_stats stats t).
Proof.
  unfold _fairness_penalty. destruct (Z.eqb_spec (total_completed stats) 0) as [|Hne]; [eexists _, _; eauto|].
  rewrite py_div_floor_l. destruct (total_completed stats) as [|n|n]; [done| |]; simpl; eexists _, _; split; eauto.
Qed.

(** ** One candidate *)

(** What the scheduler needs of a candidate. *)
Definition cand_signals (c : CandidatePlacement) : Prop :=
  signals_ok (cand_expected_cache_hit_ratio c) (cand_topology_affinity c) (cand_network_cost c)
    (cand_congestion_score c).

Definition same_stats (a b : dict string TenantStats) : Prop := ∀ k, stats_of a k = stats_of b k.

Lemma same_stats_touch stats k : same_stats (dtouch new_tenant_stats stats k) stats.
Proof. intros k'. apply dget_or_touch. Qed.

#[export] Instance same_stats_equiv : Equivalence same_stats.
Proof. split; [done| |]; intros a b; [intros Hab k; by rewrite Hab|intros c Hab Hbc k; by rewrite Hab]. Qed.

Lemma congestion_rounded c : congestion_ok c → congestion_ok (fround 4 c).
Proof.
  intros [C0 C1]. split; [apply fround_nonneg; [lia|exact C0]|].
  assert (E : fround 4 max_float = max_float) by flit. rewrite <- E at 1. apply fround_mono; [lia|exact C1].
Qed.

Lemma queue_delay_ok p now : slots_ok (pool_slot_available_at p) → is_Ok (queue_delay_ms p now).
Proof.
  intros [Hne _]. unfold queue_delay_ms. destruct (min_by_is_Some fltb id _ Hne) as [t Ht].
  eexists. unfold min_by in *. rewrite Ht. reflexivity.
Qed.

Lemma build_candidate_ready cp r now room cl p d stats :
  request_ready r → topology_inv (cp_topology cp) → cluster_calm cl → pool_ready (cp_topology cp) cl p →
  directory_ready room d →
  ∃ d' stats' c, build_candidate cp r now cl (d, stats) p = Ok (d', stats', c) ∧
    directory_ready room d' ∧ same_stats stats' stats ∧ cand_signals c ∧
    0 <= cand_expected_cache_saved_tokens c <= req_prompt_tokens r.
Proof.
  intros [Hpt _ _] Ht Hcl [_ Hs _ [b Hb] Hk (rc & Hrc & R0) Hc] Hd. unfold build_candidate.
  destruct (score_ready room d r (cl_cluster_id cl) (pool_pool_id p) now Hd ltac:(unfold tokens_ok in Hpt; lia))
    as (h & s & Es & S0 & S1 & Ss). rewrite Es. cbn [mbind result_bind].
  destruct (pool_affinity_range _ _ _ (req_prompt_tokens r) Ht Hk ltac:(unfold tokens_ok in Hpt; lia))
    as (a & Ea & A0 & A1). rewrite Ea. cbn [mbind result_bind].
  rewrite Hrc. cbn [mbind result_bind]. rewrite Hb. cbn [mbind result_bind get_or].
  destruct (estimate_latency_ms _ _ _ _ _ _ _) as [pre dec].
  destruct (fairness_ok cp stats (req_tenant_id r)) as (stats' & x & -> & Hst). cbn [mbind result_bind].
  destruct (queue_delay_ok p now Hs) as [delay ->]. cbn [mbind result_bind].
  eexists _, _, _. split; [reflexivity|]. split; [by apply evict_stale_ready|].
  split; [destruct Hst as [->| ->]; [reflexivity|apply same_stats_touch]|].
  split; [|exact Ss]. constructor; cbn [cand_expected_cache_hit_ratio cand_topology_affinity cand_network_cost cand_congestion_score].
  - split; [exact S0|exact S1].
  - split; [exact A0|exact A1].
  - apply fround_nonneg; [lia|]. apply fadd_nonneg; [exact (calm_ingress _ Hcl)|exact R0].
  - exact (congestion_rounded _ Hc).
Qed.
End ready.

(** ** Every candidate, and the choice *)

Section steps.
Context {R : Type} `{RedisClient R}.
Implicit Types (cp : NimbusMeshControlPlane R) (r : InferenceRequest).

(** What [add_candidate] keeps of its state. *)
Definition adding (room : Z) r stats0
    (st : KVCacheDirectory R * dict string TenantStats * list CandidatePlacement) : Prop :=
  directory_ready room st.1.1 ∧ same_stats st.1.2 stats0 ∧ Forall cand_signals st.2 ∧
  Forall (fun c => 0 <= cand_expected_cache_saved_tokens c <= req_prompt_tokens r) st.2.

Lemma add_candidates_ready cp r now room stats0 l st :
  request_ready r → topology_inv (cp_topology cp) →
  Forall (fun x => cluster_calm x.1) l → Forall (fun x => pool_ready (cp_topology cp) x.1 x.2) l →
  adding room r stats0 st →
  ∃ st', foldM (add_candidate cp r now) st l = Ok st' ∧ adding room r stats0 st'.
Proof.
  intros Hr Ht Hc Hp. revert st. induction l as [|[cl p] l IH]; intros [[d stats] cs] Hst; simpl; [by eexists|].
  inversion Hc as [|? ? Hc1 Hc2]; inversion Hp as [|? ? Hp1 Hp2]; subst. destruct Hst as (Hd & Hs & H1 & H2).
  destruct (build_candidate_ready cp r now room cl p d stats Hr Ht Hc1 Hp1 Hd) as (d' & stats' & c & E & Hd' & Hs' & G1 & G2).
  assert (Ea : add_candidate cp r now (d, stats, cs) (cl, p) = Ok (d', stats', cs ++ [c])).
  { unfold add_candidate. cbn [fst snd]. by rewrite E. }
  rewrite Ea. cbn [mbind result_bind]. apply (IH Hc2 Hp2).
  split; [exact Hd'|]. split; [simpl in *; by rewrite Hs'|].
  split; apply Forall_app; split; try done; by apply Forall_singleton.
Qed.

Lemma cluster_pools_calm (d : dict string ClusterRuntime) : Forall cluster_calm (dvalues d) →
  Forall (fun x => cluster_calm x.1) (cluster_pools d).
Proof.
  intros Hd. apply Forall_forall. intros [cl p] (k & pk & Hk & Hp)%cluster_pools_elem. rewrite Forall_forall in Hd.
  apply Hd. apply list_elem_of_fmap. by exists (k, cl).
Qed.

Lemma breakdown_signals c c' : same_but_breakdown c c' → cand_signals c → cand_signals c'.
Proof. by intros [b ->]. Qed.

Lemma enrich_ready (engine : CudaScoringEngine) r cs :
  Forall (fun c => 0 <= cand_expected_cache_saved_tokens c <= req_prompt_tokens r) cs → tokens_ok (req_prompt_tokens r) →
  cs ≠ [] → is_Ok (enrich_candidates engine cs).
Proof.
  intros Hs Hp Hne. assert (Hok : Forall saved_ok cs).
  { eapply Forall_impl; [exact Hs|]. unfold tokens_ok in Hp. unfold saved_ok. simpl. lia. }
  destruct engine; [rewrite enrich_device by done|rewrite enrich_cpu by done]; eexists; reflexivity.
Qed.

Lemma build_candidates_ready cp r now room : cp_ready room cp → request_ready r →
  ∃ cp' cs, build_candidates cp r now = Ok (cp', cs) ∧ cp_ready room cp' ∧ Forall cand_signals cs ∧
    same_stats (cp_tenant_stats cp') (cp_tenant_stats cp) ∧ cp_grpc_client cp' = cp_grpc_client cp ∧
    cp_topology cp' = cp_topology cp ∧ Forall (fun c => 0 <= cand_expected_cache_saved_tokens c) cs.
Proof.
  intros [H1 H2 H3 H4 H5 H6 H7 H8] Hr. unfold build_candidates.
  destruct (add_candidates_ready cp r now room (cp_tenant_stats cp) (cluster_pools (cp_clusters cp))
    (cp_cache_directory cp, cp_tenant_stats cp, []) Hr H2 (cluster_pools_calm _ H3) H4)
    as ([[d stats] cs] & Eadd & Hd & Hs & Hsig & Hsaved).
  { split; [exact H6|]. split; [reflexivity|]. split; constructor. }
  assert (Hne : cs ≠ []).
  { destruct (add_candidates_describe _ _ _ _ _ _ Eadd) as (cs2 & E & Hdesc). simpl in E. subst cs2. intros ->.
    inversion Hdesc as [E|]. by apply H5. }
  rewrite Eadd. cbn [mbind result_bind].
  destruct (enrich_ready (cp_cuda_engine cp) r cs Hsaved (rr_prompt _ Hr) Hne) as [cs' Ecs].
  rewrite Ecs. cbn [mbind result_bind]. eexists _, _. split; [reflexivity|]. split; [by constructor|].
  apply enrich_frame in Ecs.
  assert (Hkeep : ∀ P : CandidatePlacement → Prop, (∀ c c', same_but_breakdown c c' → P c → P c') → Forall P cs → Forall P cs').
  { intros P HP HF. clear -Ecs HP HF. induction Ecs as [|c c' cs cs' Hc Hcs IH]; [constructor|].
    inversion HF; subst. constructor; [by eapply HP|by apply IH]. }
  split; [exact (Hkeep _ breakdown_signals Hsig)|]. do 3 (split; [done|]).
  apply Hkeep; [by intros c c' [b ->]|]. eapply Forall_impl; [exact Hsaved|]. simpl. lia.
Qed.

Lemma choose_ready cp r cs : answers (cp_grpc_client cp) → policy_wf (cp_policy cp) → request_ready r → cs ≠ [] →
  ∃ p c, _choose_candidate cp r cs = Ok (p, c) ∧ policy_wf p.
Proof.
  intros Hg Hp Hr Hcs. unfold _choose_candidate.
  assert (Hget : ∀ (i : nat), (i < length cs)%nat → ∃ c, get_or IndexError (cs !! i) = Ok c).
  { intros i Hi. apply lookup_lt_is_Some in Hi as [c Hc]. rewrite Hc. by exists c. }
  assert (Hidx : ∀ z n, in_bounds z cs = Some n → (n < length cs)%nat) by (intros z n Hz; by destruct (in_bounds_lt z cs n Hz)).
  assert (Hgi : ∃ gi, grpc_choose (cp_grpc_client cp) r cs = Ok gi ∧ ∀ i, gi = Some i → (i < length cs)%nat).
  { unfold grpc_choose. destruct (cp_grpc_client cp) as [stub|]; [|by exists None].
    destruct (Hg (placement_request r cs)) as [m ->]. simpl. eexists. split; [done|]. intros i. apply Hidx. }
  destruct Hgi as ([i|] & -> & Hi); cbn [mbind result_bind].
  { destruct (Hget i (Hi _ eq_refl)) as [c ->]. simpl. eauto. }
  destruct (cpp_choose (cp_cpp_core cp) r cs) as [i|] eqn:Ec.
  - assert (Hic : (i < length cs)%nat).
    { unfold cpp_choose in Ec. destruct (cp_cpp_core cp), cs; try discriminate Ec. exact (Hidx _ _ Ec). }
    destruct (Hget i Hic) as [c ->]. simpl. eauto.
  - destruct (choose_total (cp_policy cp) r cs Hp (rr_sla _ Hr) Hcs) as (p & c & E & Hw). eauto.
Qed.
End steps.

(** ** [refresh]: the loop is a map

    Every pool asks the shared directory for its reserved memory, and the
    directory evicts at each question.  As evicting twice is evicting once, the
    pools' answers do not depend on their order. *)

Lemma map_values_pointwise {S V W} (I : S → Prop) (f : S → V → S * W) (h : V → W) s d :
  (∀ s v, I s → I (f s v).1 ∧ (f s v).2 = h v) → I s →
  I (map_values f s d).1 ∧ (map_values f s d).2 = map (fun kv => (kv.1, h kv.2)) d.
Proof.
  intros Hf. revert s. induction d as [|[k v] d IH]; intros s Hs; simpl; [done|].
  destruct (Hf s v Hs) as [H1 H2]. destruct (f s v) as [s1 w]. simpl in H1, H2. subst w.
  destruct (IH s1 H1) as [H3 H4]. destruct (map_values f s1 d) as [s2 d2]. simpl in *. by subst d2.
Qed.

Lemma Forall_dvalues {V} (P : V → Prop) (d : dict string V) :
  Forall P (dvalues d) ↔ ∀ k v, (k, v) ∈ d → P v.
Proof.
  unfold dvalues. rewrite Forall_forall. split.
  - intros Hd k v Hin. apply Hd. apply list_elem_of_fmap. by exists (k, v).
  - intros Hd v Hin. apply list_elem_of_fmap in Hin as ([k v'] & -> & Hin). by eapply Hd.
Qed.

Section refresh.
Context {R : Type} `{RedisClient R}.
Implicit Types (cp : NimbusMeshControlPlane R) (d : KVCacheDirectory R).

(** One pool, as if it were the only one. *)
Definition refreshed_pool d now (cl : ClusterRuntime) (p : PoolRuntime) : PoolRuntime :=
  set_cache_reserved_gb (pool_refresh (set_congestion_score p (effective_congestion cl now)) now)
    (reserved_gb d (cl_cluster_id cl) (pool_pool_id p) now).2.

Definition refreshed_cluster d now (cl : ClusterRuntime) : ClusterRuntime :=
  set_pools cl (map (fun kp => (kp.1, refreshed_pool d now cl kp.2)) (cl_pools cl)).

(** The directory before its first eviction or after. *)
Definition evicted d now (d' : KVCacheDirectory R) : Prop := d' = d ∨ d' = evict_stale d now.

Lemma evict_again d now : dict_wf (cd_entries d) → evict_stale (evict_stale d now) now = evict_stale d now.
Proof.
  intros Hwf. unfold evict_stale. simpl. unfold set_entries. simpl. f_equal.
  rewrite (evict_entries_fresh _ _ (cd_entries d)) by done.
  rewrite evict_entries_fresh; [apply fresh_entries_idem|].
  rewrite <- evict_entries_fresh by done. rewrite evict_entries_fresh by done.
  unfold dict_wf. clear -Hwf. induction (cd_entries d) as [|[k b] es IH]; [constructor|].
  inversion Hwf as [|? ? Hk Hes]; subst. rewrite fresh_entries_cons.
  destruct (filter _ b); [by apply IH|]. constructor; [|by apply IH].
  intros Hin. apply Hk. by eapply fresh_entries_keys.
Qed.

Lemma evicted_reserved d now d' c p : dict_wf (cd_entries d) → evicted d now d' →
  reserved_gb d' c p now = (evict_stale d now, (reserved_gb d c p now).2).
Proof.
  intros Hwf [->| ->]; unfold reserved_gb; [done|]. by rewrite evict_again.
Qed.

Lemma refresh_alt cp now : dict_wf (cd_entries (cp_cache_directory cp)) →
  ∃ d', evicted (cp_cache_directory cp) now d' ∧
    refresh cp now =
    cp_update cp d'
      (map (fun kc => (kc.1, refreshed_cluster (cp_cache_directory cp) now kc.2)) (cp_clusters cp))
      (cp_tenant_stats cp) (cp_policy cp).
Proof.
  intros Hwf. set (d := cp_cache_directory cp) in *. unfold refresh. fold d.
  destruct (map_values_pointwise (evicted d now) (refresh_cluster now) (refreshed_cluster d now) d (cp_clusters cp))
    as [H1 H2].
  - intros s cl Hs. unfold refresh_cluster.
    destruct (map_values_pointwise (evicted d now)
      (refresh_pool (cl_cluster_id cl) (effective_congestion cl now) now) (refreshed_pool d now cl) s (cl_pools cl))
      as [G1 G2]; [|done|].
    + intros s' p Hs'. unfold refresh_pool.
      assert (Eid : pool_pool_id (pool_refresh (set_congestion_score p (effective_congestion cl now)) now) = pool_pool_id p).
      { by rewrite pool_refresh_alt. }
      rewrite Eid, (evicted_reserved d now s') by done. split; [by right|reflexivity].
    + destruct (map_values _ s (cl_pools cl)) as [s' ps]. simpl in *. by subst ps.
  - by left.
  - destruct (map_values _ d (cp_clusters cp)) as [d' cls]. simpl in *. subst cls. by exists d'.
Qed.

Lemma refreshed_pool_id d now cl p : pool_pool_id (refreshed_pool d now cl p) = pool_pool_id p.
Proof. unfold refreshed_pool. by rewrite pool_refresh_alt. Qed.

Lemma refreshed_wf d now (cls : dict string ClusterRuntime) : clusters_wf cls →
  clusters_wf (map (fun kc => (kc.1, refreshed_cluster d now kc.2)) cls).
Proof.
  intros [H1 H2]. split.
  - unfold dict_wf, dkeys in *. rewrite map_map. exact H1.
  - apply Forall_fmap. eapply Forall_impl; [exact H2|]. intros [k cl] [G1 G2 G3]. simpl in *. split; simpl; [done| |].
    + unfold dict_wf, dkeys in *. rewrite map_map. exact G2.
    + apply Forall_fmap. eapply Forall_impl; [exact G3|]. intros [pk p] Hp. exact (eq_trans (refreshed_pool_id d now cl p) Hp).
Qed.

Lemma refreshed_pools_elem d now (cls : dict string ClusterRuntime) cl p :
  (cl, p) ∈ cluster_pools (map (fun kc => (kc.1, refreshed_cluster d now kc.2)) cls) ↔
  ∃ cl0 p0, (cl0, p0) ∈ cluster_pools cls ∧ cl = refreshed_cluster d now cl0 ∧ p = refreshed_pool d now cl0 p0.
Proof.
  rewrite cluster_pools_elem. split.
  - intros (k & pk & Hk & Hp). apply list_elem_of_fmap in Hk as ([k0 cl0] & [= -> ->] & Hk).
    simpl in Hp. apply list_elem_of_fmap in Hp as ([pk0 p0] & [= -> ->] & Hp). simpl in *.
    exists cl0, p0. split; [|done]. apply cluster_pools_elem. eauto.
  - intros (cl0 & p0 & (k & pk & Hk & Hp)%cluster_pools_elem & -> & ->). exists k, pk. split.
    + apply list_elem_of_fmap. by exists (k, cl0).
    + simpl. apply list_elem_of_fmap. by exists (pk, p0).
Qed.

Lemma refreshed_pool_ready t d now cl p : cluster_calm cl → pool_ready t cl p →
  pool_ready t (refreshed_cluster d now cl) (refreshed_pool d now cl p).
Proof.
  intros Hc [H1 H2 H3 H4 H5 H6 H7]. unfold refreshed_pool.
  assert (Hi : pool_inv (pool_refresh (set_congestion_score p (effective_congestion cl now)) now)).
  { apply pool_refresh_inv. by destruct H1. }
  rewrite pool_refresh_alt in *. constructor; simpl; try done; [by destruct Hi|by apply congestion_range].
Qed.

Lemma refresh_ready room cp now : cp_ready room cp → cp_ready room (refresh cp now).
Proof.
  intros [H1 H2 H3 H4 H5 H6 H7 H8]. destruct (refresh_alt cp now) as (d' & Hd' & ->); [apply H6|].
  set (d := cp_cache_directory cp) in *. constructor; simpl; try done.
  - by apply refreshed_wf.
  - apply Forall_dvalues. intros k cl Hin. apply list_elem_of_fmap in Hin as ([k0 cl0] & [= -> ->] & Hin).
    rewrite Forall_dvalues in H3. destruct (H3 _ _ Hin). by constructor.
  - apply Forall_forall. intros [cl p] (cl0 & p0 & Hin & -> & ->)%refreshed_pools_elem. simpl.
    assert (Hcl : cluster_calm cl0).
    { pose proof (cluster_pools_calm _ H3) as Hc. rewrite Forall_forall in Hc. exact (Hc _ Hin). }
    rewrite Forall_forall in H4. by apply refreshed_pool_ready, (H4 (cl0, p0)).
  - destruct (cluster_pools (cp_clusters cp)) as [|[cl p] l] eqn:E; [done|].
    intros Hnil. assert (Hin : (cl, p) ∈ cluster_pools (cp_clusters cp)) by (rewrite E; left).
    assert (Hin' : (refreshed_cluster d now cl, refreshed_pool d now cl p) ∈
      cluster_pools (map (fun kc => (kc.1, refreshed_cluster d now kc.2)) (cp_clusters cp))).
    { apply refreshed_pools_elem. eauto. }
    rewrite Hnil in Hin'. by apply elem_of_nil in Hin'.
  - destruct Hd' as [->| ->]; [done|by apply evict_stale_ready].
Qed.
End refresh.

(** ** [execute]: what it returns *)

Section execute.
Context {R : Type} `{RedisClient R}.
Implicit Types (cp : NimbusMeshControlPlane R) (r : InferenceRequest).

Lemma route_inv cp r now cp' c dec : route cp r now = Ok (cp', c, dec) →
  cp_clusters cp' = cp_clusters cp ∧
  dec = make_decision (policy_name (cp_policy cp')) r c ∧
  ∃ cl p, (cl, p) ∈ cluster_pools (cp_clusters cp) ∧ describes r now (cl, p) c.
Proof.
  unfold route. intros Hr. apply bind_ok in Hr as ([cp1 cs] & Hb & Hr).
  apply bind_ok in Hr as ([pol c'] & Hc & Hr). injection Hr as <- <- <-. simpl.
  destruct (build_candidates_describe _ _ _ _ _ Hb) as (Hd & Hcl & Hpol).
  apply choose_candidate_elem in Hc. apply list_elem_of_lookup in Hc as [i Hi].
  destruct (Forall2_lookup_r _ _ _ _ _ Hd Hi) as ([cl p] & Hx & Hdx).
  split; [done|]. split; [done|]. exists cl, p. split; [by eapply list_elem_of_lookup_2|done].
Qed.

(** The two outcomes of an execution that returns: pool [p] of cluster [cl] was
    chosen, through candidate [c]. *)
Inductive outcome cp r now (cl : ClusterRuntime) (p : PoolRuntime) (c : CandidatePlacement) :
    NimbusMeshControlPlane R → RequestResult → Prop :=
  | Rejected cp1 dec :
      route cp r now = Ok (cp1, c, dec) → cand_available c = false →
      outcome cp r now cl p c cp1 (rejected_result r dec c now)
  | Placed cp1 dec b d' p' res pol :
      route cp r now = Ok (cp1, c, dec) → cand_available c = true →
      dget backends (pool_backend_name p) = Some b →
      place_request (cp_cache_directory cp1) r c dec p b now = Ok (d', p', res) →
      observe_result (cp_policy cp1) res = Ok pol →
      outcome cp r now cl p c
        (cp_update cp1 d'
           (dset (cp_clusters cp1) (cl_cluster_id cl)
              (set_pools cl (dset (cl_pools cl) (pool_pool_id p)
                 (set_completed_count p' (pool_completed_count p' + 1)))))
           (count_completion (cp_tenant_stats cp1) res) pol) res.

Lemma execute_outcome cp r now cp' res : clusters_wf (cp_clusters cp) →
  execute cp r now = Ok (cp', res) →
  ∃ cl p c, (cl, p) ∈ cluster_pools (cp_clusters cp) ∧ describes r now (cl, p) c ∧
    outcome cp r now cl p c cp' res.
Proof.
  intros Hwf. unfold execute. intros He. apply bind_ok in He as ([[cp1 c] dec] & Hr & He).
  destruct (route_inv _ _ _ _ _ _ Hr) as (Hcl & -> & cl & p & Hin & Hd).
  pose proof Hd as [D1 D2 D3 _ _]. simpl in D1, D2, D3. destruct (cluster_pools_get _ _ _ Hwf Hin) as [G1 G2].
  rewrite Hcl, D1, D2, D3, G1 in He. cbn [mbind result_bind get_or] in He. rewrite G2 in He.
  cbn [mbind result_bind get_or] in He. apply bind_ok in He as (b & Hb & He). apply get_or_ok in Hb.
  exists cl, p, c. split; [done|]. split; [done|].
  destruct (cand_available c) eqn:Ha; simpl in He.
  - apply bind_ok in He as ([[d' p'] res'] & Hp & He). apply bind_ok in He as (pol & Ho & He).
    injection He as <- <-. rewrite <- Hcl. by eapply Placed.
  - injection He as <- <-. by apply Rejected.
Qed.

Lemma outcome_admitted cp r now cl p c cp' res : outcome cp r now cl p c cp' res →
  res_admitted res = cand_available c.
Proof.
  intros [cp1 dec _ ->|cp1 dec b d' p' res' pol _ -> _ Hp _]; [done|].
  unfold place_request in Hp. apply bind_ok in Hp as (i & _ & Hp). apply bind_ok in Hp as (t & _ & Hp).
  destruct (estimate_latency_ms _ _ _ _ _ _ _) as [x y]. apply bind_ok in Hp as (d1 & _ & Hp).
  by injection Hp as _ _ <-.
Qed.

(** ** [execute] keeps the state ready *)

Lemma route_ready cp r now room : cp_ready room cp → request_ready r →
  ∃ cp' c dec, route cp r now = Ok (cp', c, dec) ∧ cp_ready room cp' ∧ cand_signals c ∧
    same_stats (cp_tenant_stats cp') (cp_tenant_stats cp) ∧ cp_topology cp' = cp_topology cp.
Proof.
  intros Hcp Hr. unfold route.
  destruct (build_candidates_ready cp r now room Hcp Hr) as (cp1 & cs & E & Hcp1 & Hsig & Hst & Hg & Ht & _).
  rewrite E. cbn [mbind result_bind].
  destruct (build_candidates_describe _ _ _ _ _ E) as (Hd & _).
  assert (Hne : cs ≠ []).
  { intros ->. apply (cr_some _ _ Hcp). by inversion Hd. }
  destruct (choose_ready cp1 r cs (cr_remote _ _ Hcp1) (cr_policy _ _ Hcp1) Hr Hne) as (pol & c & Ec & Hpol).
  rewrite Ec. cbn [mbind result_bind]. eexists _, _, _. split; [reflexivity|].
  apply choose_candidate_elem in Ec. rewrite Forall_forall in Hsig.
  split; [by destruct Hcp1|]. split; [by apply Hsig|]. by split.
Qed.

(** The fields a placement copies. *)
Lemma placed_occupies d r c dec p (b : BackendAdapter) now d' p' res :
  place_request (R := R) d r c dec p b now = Ok (d', p', res) →
  res_decision res = dec ∧ res_cache_saved_tokens res = cand_expected_cache_saved_tokens c ∧ res_request res = r ∧
  res_cache_hit_ratio res = cand_expected_cache_hit_ratio c ∧
  ∃ i, p' = occupy p i (res_completion_ts res) (estimate_request_memory_gb (req_prompt_tokens r)
    (req_generation_tokens r) (req_model_id r) (cand_expected_cache_saved_tokens c)).
Proof.
  intros Hp. unfold place_request in Hp. apply bind_ok in Hp as (i & _ & Hp). apply bind_ok in Hp as (t & _ & Hp).
  destruct (estimate_latency_ms _ _ _ _ _ _ _) as [x y]. apply bind_ok in Hp as (d1 & _ & Hp).
  injection Hp as _ <- <-. simpl. repeat split; try done. by exists i.
Qed.

Lemma placed_memory d r c dec p (b : BackendAdapter) now d' p' res :
  place_request (R := R) d r c dec p b now = Ok (d', p', res) → (0.0 <= res_memory_gb res)%float.
Proof.
  intros Hp. unfold place_request in Hp. apply bind_ok in Hp as (i & _ & Hp). apply bind_ok in Hp as (t & _ & Hp).
  destruct (estimate_latency_ms _ _ _ _ _ _ _) as [x y]. apply bind_ok in Hp as (d1 & _ & Hp).
  injection Hp as _ _ <-. apply fround_nonneg; [lia|]. apply estimate_memory_nonneg.
Qed.

Lemma set_pool_elem (d : dict string ClusterRuntime) cl pk p' cl2 p2 :
  (cl2, p2) ∈ cluster_pools (dset d (cl_cluster_id cl) (set_pools cl (dset (cl_pools cl) pk p'))) →
  (cl2, p2) ∈ cluster_pools d ∨
  cl2 = set_pools cl (dset (cl_pools cl) pk p') ∧ (p2 = p' ∨ ∃ k, (k, p2) ∈ cl_pools cl).
Proof.
  intros (k & k2 & Hk & Hp)%cluster_pools_elem. apply dset_elem in Hk as [[= -> ->]|Hk].
  - right. split; [done|]. simpl in Hp. apply dset_elem in Hp as [[= -> ->]|Hp]; [by left|right; eauto].
  - left. apply cluster_pools_elem. eauto.
Qed.

Lemma placed_pool_ready t cl p p'' b d r c dec now d' p' res room : pool_ready t cl p → dget backends (pool_backend_name p) = Some b →
  request_ready r → cand_signals c → time_ok now → directory_ready room d →
  place_request d r c dec p b now = Ok (d', p', res) →
  p'' = set_completed_count p' (pool_completed_count p' + 1) →
  pool_ready t cl p'' ∧ pool_pool_id p'' = pool_pool_id p ∧ observe d res = Ok d' ∧ res_request res = r.
Proof.
  intros [H1 H2 [H3 H3'] H4 H5 H6 H7] Hb [Q1 Q2 _] Hsig Hnow Hd Hp ->. destruct (backends_lawful _ _ Hb) as [HL _].
  assert (Hok : placement_ok r c p now) by (split; [by split|exact Hsig|exact H2|exact Hnow]).
  destruct (place_request_placed _ _ _ _ _ _ _ _ _ Hok Hp) as (i & tt & m & Hpl).
  pose proof (placed_slots_ok _ _ _ _ _ _ _ _ _ _ _ _ Hpl (proj2 Hnow) H2) as Hs.
  pose proof (placed_pool_inv _ _ _ _ _ _ _ _ _ _ _ _ Hpl (proj2 Hnow) H1) as Hi.
  pose proof (pl_pool _ _ _ _ _ _ _ _ _ _ _ _ Hpl) as Epool.
  split; [|split; [rewrite Epool; reflexivity|split; [exact (pl_observed _ _ _ _ _ _ _ _ _ _ _ _ Hpl)|exact (proj1 (pl_request _ _ _ _ _ _ _ _ _ _ _ _ Hpl))]]].
  destruct Hi as [I1 I2 I3 I4 I5], H1 as [J1 J2 J3 J4 J5]. subst p'. constructor; simpl in *; try done.
  constructor; simpl; try done. lia.
Qed.

Lemma stats_touch stats k : same_stats (dtouch new_tenant_stats stats k) stats.
Proof. intros k'. apply dget_or_touch. Qed.

Lemma build_candidate_stats cp r now cl st p st' c :
  build_candidate cp r now cl st p = Ok (st', c) → same_stats st'.2 st.2.
Proof.
  unfold build_candidate. destruct st as [d stats]. intros Hb.
  apply bind_ok in Hb as ([d' [hit saved]] & _ & Hb). apply bind_ok in Hb as (aff & _ & Hb).
  apply bind_ok in Hb as (rt & _ & Hb). apply bind_ok in Hb as (b & _ & Hb).
  destruct (estimate_latency_ms _ _ _ _ _ _ _) as [pre dec].
  apply bind_ok in Hb as ([s' pen] & Hf & Hb). apply bind_ok in Hb as (delay & _ & Hb).
  injection Hb as <- _. simpl. destruct (fairness_ok cp stats (req_tenant_id r)) as (s2 & x & Hf2 & Hs).
  rewrite Hf in Hf2. injection Hf2 as -> ->. destruct Hs as [->| ->]; [reflexivity|apply stats_touch].
Qed.

Lemma route_stats cp r now cp' c dec : route cp r now = Ok (cp', c, dec) →
  same_stats (cp_tenant_stats cp') (cp_tenant_stats cp).
Proof.
  unfold route, build_candidates. intros Hr. apply bind_ok in Hr as ([cp1 cs] & Hb & Hr).
  apply bind_ok in Hr as ([pol c'] & _ & Hr). injection Hr as <- <- <-. simpl.
  apply bind_ok in Hb as ([[d s] cs0] & Hf & Hb). apply bind_ok in Hb as (cs1 & _ & Hb). injection Hb as <- _. simpl.
  apply (foldM_inv (fun st => same_stats st.1.2 (cp_tenant_stats cp))) in Hf; [done|reflexivity|].
  intros [st cs2] [cl p] st' _ Hst Ha. unfold add_candidate in Ha. apply bind_ok in Ha as ([st1 c1] & Hb & Ha).
  apply build_candidate_stats in Hb. destruct st1 as [d1 s1]. injection Ha as <-. simpl in *. by rewrite Hb.
Qed.

Lemma outcome_stats cp r now cl p c cp' res : outcome cp r now cl p c cp' res → res_request res = r →
  ∀ k, stats_of (cp_tenant_stats cp') k =
    let s := stats_of (cp_tenant_stats cp) k in
    if res_admitted res && String.eqb k (req_tenant_id r)
    then {| ts_submitted := ts_submitted s; ts_completed := ts_completed s + 1;
            ts_total_latency_ms := (ts_total_latency_ms s + res_total_latency_ms res)%float;
            ts_sla_misses := ts_sla_misses s + (if res_sla_met res then 0 else 1) |}
    else s.
Proof.
  intros Ho Hreq k. pose proof (outcome_admitted _ _ _ _ _ _ _ _ Ho) as ->.
  destruct Ho as [cp1 dec Hr ->|cp1 dec b d' p' res' pol Hr -> _ _ _]; simpl; [by apply (route_stats _ _ _ _ _ _ Hr)|].
  unfold count_completion. rewrite Hreq. unfold stats_of at 1, dget_or. destruct (String.eqb_spec k (req_tenant_id r)) as [->|Hne].
  - rewrite dget_set_eq. simpl. by rewrite (route_stats _ _ _ _ _ _ Hr).
  - rewrite dget_set_ne by done. exact (route_stats _ _ _ _ _ _ Hr k).
Qed.

Lemma placed_clusters_ready t (d : dict string ClusterRuntime) cl p p'' : clusters_wf d →
  Forall cluster_calm (dvalues d) → Forall (fun x => pool_ready t x.1 x.2) (cluster_pools d) →
  (cl, p) ∈ cluster_pools d → pool_pool_id p'' = pool_pool_id p → pool_ready t cl p'' →
  let cl' := set_pools cl (dset (cl_pools cl) (pool_pool_id p) p'') in
  let d' := dset d (cl_cluster_id cl) cl' in
  clusters_wf d' ∧ Forall cluster_calm (dvalues d') ∧
  Forall (fun x => pool_ready t x.1 x.2) (cluster_pools d') ∧ cluster_pools d' ≠ [].
Proof.
  intros Hwf Hc Hp Hin Hid Hr cl' d'. destruct (cluster_pools_get _ _ _ Hwf Hin) as [G1 G2].
  pose proof (get_cluster_wf _ _ _ Hwf G1) as Hclw.
  assert (Hcw : cluster_wf (cl_cluster_id cl) cl') by (by apply cluster_wf_set_pool).
  split; [by apply clusters_wf_set|]. rewrite Forall_dvalues in *. rewrite Forall_forall in *. split; [|split].
  - intros k v [[= -> ->]|Hv]%dset_elem; [|by eapply Hc]. destruct (Hc _ _ (dget_elem _ _ _ G1)). by constructor.
  - intros [cl2 p2] [Hold|[-> Hnew]]%set_pool_elem; [by apply Hp|]. simpl.
    assert (Hr2 : pool_ready t cl p2).
    { destruct Hnew as [->|[k Hk]]; [done|]. apply (Hp (cl, p2)). apply cluster_pools_elem.
      exists (cl_cluster_id cl), k. split; [by apply dget_elem|done]. }
    by destruct Hr2.
  - intros Hnil. assert (Hin' : (cl', p'') ∈ cluster_pools d').
    { apply cluster_pools_elem. exists (cl_cluster_id cl), (pool_pool_id p).
      split; apply dget_elem; [apply dget_set_eq|]. simpl. apply dget_set_eq. }
    rewrite Hnil in Hin'. by apply elem_of_nil in Hin'.
Qed.

Lemma execute_ready cp r now room : cp_ready (room + 1) cp → 0 <= room → request_ready r → time_ok now →
  ∃ cp' res, execute cp r now = Ok (cp', res) ∧ cp_ready room cp' ∧ res_request res = r ∧
    unit_range (res_cache_hit_ratio res).
Proof.
  intros Hcp Hroom Hr Hnow.
  destruct (route_ready cp r now (room + 1) Hcp Hr) as (cp1 & c & dec & Er & Hcp1 & Hsig & _ & Ht).
  destruct (route_inv _ _ _ _ _ _ Er) as (Hcl & _ & cl & p & Hin & [D1 D2 D3 _ _]). simpl in D1, D2, D3.
  unfold execute. rewrite Er. cbn [mbind result_bind]. destruct Hcp1 as [H1 H2 H3 H4 H5 H6 H7 H8].
  rewrite <- Hcl in Hin. destruct (cluster_pools_get _ _ _ H1 Hin) as [G1 G2].
  rewrite D1, D2, D3, G1. cbn [mbind result_bind get_or]. rewrite G2. cbn [mbind result_bind get_or].
  assert (Hp : pool_ready (cp_topology cp1) cl p) by (rewrite Forall_forall in H4; exact (H4 _ Hin)).
  destruct (pr_backend _ _ _ Hp) as [b Hb]. rewrite Hb. cbn [mbind result_bind get_or].
  destruct (cand_available c); cbn [negb].
  2:{ eexists _, _. split; [reflexivity|]. split; [|split; [reflexivity|split; flit]]. constructor; try done.
      eapply directory_ready_weaken; [|exact H6]. lia. }
  assert (Hobs : ∀ res, is_Ok (observe (cp_cache_directory cp1) res)).
  { intros res. apply observe_never_raises. eapply directory_ready_weaken; [|exact H6]. lia. }
  destruct (place_request_ok (b := b) (cp_cache_directory cp1) r c dec p now (pr_slots _ _ _ Hp) Hobs) as [[[d' p'] res] Epl].
  rewrite Epl. cbn [mbind result_bind].
  destruct (placed_pool_ready _ _ _ _ _ _ _ _ _ _ _ _ _ _ Hp Hb Hr Hsig Hnow H6 Epl eq_refl) as (Hp'' & Hid & Hd' & Hreq).
  destruct (observe_total (cp_policy cp1) res H7) as (pol & Epol & Hpol). rewrite Epol. cbn [mbind result_bind].
  destruct (placed_occupies _ _ _ _ _ _ _ _ _ _ Epl) as (_ & _ & _ & Ehit & _).
  eexists _, _. split; [reflexivity|]. split; [|split; [exact Hreq|rewrite Ehit; exact (so_hit _ _ _ _ Hsig)]].
  destruct (placed_clusters_ready _ _ _ _ _ H1 H3 H4 Hin Hid Hp'') as (K1 & K2 & K3 & K4).
  constructor; simpl; try done.
  destruct (observe_ready room _ res H6 Hroom) as (d2 & E2 & Hd2). rewrite Hd' in E2. injection E2 as <-.
  apply Hd2. split; [|exact (placed_memory _ _ _ _ _ _ _ _ _ _ Epl)].
  rewrite Hreq. destruct Hr as [Hpt _ _]. unfold tokens_ok in Hpt. lia.
Qed.
End execute.
