(* ===== verification/Admission.v ===== *)
(** * Admission control: what a request may be placed on

    The properties of [NimbusMeshControlPlane] one request at a time: whoever
    chooses the candidate (the gRPC scorer, the C++ core, a policy), a request is
    admitted only to a pool that is up, serves the model, has queue room and has
    the memory; a refused request changes nothing; a request some pool can take
    is admitted. *)

From S2P Require Import Prelude PyFloat PyOrder PyDict PyJson Config Types Samples Backends RedisStore.
From S2P Require Import Cache CacheReady Scheduler Cuda GpuTopo Topology Policies RemoteScorer.
From S2P Require Import ControlPlane CpReady.

Local Open Scope Z_scope.

(** ** The admission conditions *)

(** Pool [p] of cluster [cl] may take [r] now, if the cache saves it [saved] tokens. *)
Record can_take (now : float) (r : InferenceRequest) (saved : Z) (cl : ClusterRuntime) (p : PoolRuntime) : Prop := {
  ct_up : unavailable cl now = false;
  ct_model : model_supported p (req_model_id r) = true;
  ct_queue : inflight_count p now < pool_queue_limit p;
  ct_memory : (memory_headroom_gb p <?
    estimate_request_memory_gb (req_prompt_tokens r) (req_generation_tokens r) (req_model_id r) saved)%float = false
}.

Lemma rejection_None now r saved cl p :
  rejection (unavailable cl now) p r (memory_headroom_gb p)
    (estimate_request_memory_gb (req_prompt_tokens r) (req_generation_tokens r) (req_model_id r) saved) now = None ↔
  can_take now r saved cl p.
Proof.
  unfold rejection. destruct (unavailable cl now) eqn:E1; [split; [done|intros [H1]; congruence]|].
  destruct (model_supported p (req_model_id r)) eqn:E2; [|split; [done|intros [_ H1]; congruence]].
  simpl. destruct (Z.leb_spec (pool_queue_limit p) (inflight_count p now)); [split; [done|intros []; lia]|].
  destruct (_ <? _)%float eqn:E3; [split; [done|intros []; congruence]|]. by split.
Qed.

Lemma describes_can_take r now cl p c : describes r now (cl, p) c →
  cand_available c = true ↔ can_take now r (cand_expected_cache_saved_tokens c) cl p.
Proof. intros [_ _ _ Hr Ha]. rewrite Ha, Hr. apply rejection_None. Qed.

(** Pool [p] of cluster [cl] refuses [r] for [reason]: its condition fails and
    the conditions tested before it hold. *)
Inductive refused_for (now : float) (r : InferenceRequest) (saved : Z) (cl : ClusterRuntime) (p : PoolRuntime) :
    string → Prop :=
  | refused_cluster : unavailable cl now = true → refused_for now r saved cl p "cluster-unavailable"
  | refused_model : unavailable cl now = false → model_supported p (req_model_id r) = false →
      refused_for now r saved cl p "unsupported-model"
  | refused_queue : unavailable cl now = false → model_supported p (req_model_id r) = true →
      pool_queue_limit p <= inflight_count p now → refused_for now r saved cl p "queue-limit"
  | refused_memory : unavailable cl now = false → model_supported p (req_model_id r) = true →
      inflight_count p now < pool_queue_limit p →
      (memory_headroom_gb p < estimate_request_memory_gb (req_prompt_tokens r) (req_generation_tokens r)
         (req_model_id r) saved)%float →
      refused_for now r saved cl p "memory-pressure".

Lemma rejection_refused now r saved cl p reason :
  rejection (unavailable cl now) p r (memory_headroom_gb p)
    (estimate_request_memory_gb (req_prompt_tokens r) (req_generation_tokens r) (req_model_id r) saved) now = Some reason →
  refused_for now r saved cl p reason.
Proof.
  unfold rejection. destruct (unavailable cl now) eqn:E1; [intros [= <-]; by constructor|].
  destruct (model_supported p (req_model_id r)) eqn:E2; simpl; [|intros [= <-]; by constructor].
  destruct (Z.leb_spec (pool_queue_limit p) (inflight_count p now)); [intros [= <-]; by constructor|].
  destruct (_ <? _)%float eqn:E3; [intros [= <-]; by constructor|discriminate].
Qed.

(** A pool that can take the request cold can take it with cache hits. *)
Lemma can_take_warm now r cl p saved : 0 <= saved → (memory_headroom_gb p) ≠ NaN →
  can_take now r 0 cl p → can_take now r saved cl p.
Proof.
  intros Hs Hn [H1 H2 H3 H4]. constructor; try done.
  rewrite estimate_request_memory_gb_alt in *.
  set (a := memory_of_tokens _ _) in H4. set (b := memory_of_tokens _ _).
  assert (Hab : (b <= a)%float) by (apply memory_of_tokens_mono; lia).
  pose proof (fle_not_nan_l _ _ Hab) as Nb. pose proof (fle_not_nan_r _ _ Hab) as Na.
  apply flt_nle; [exact Hn|exact Nb|]. apply (flt_nle _ _ Hn Na) in H4. eapply fle_trans; [exact Hab|exact H4].
Qed.

Lemma headroom_not_nan p : memory_headroom_gb p ≠ NaN.
Proof.
  unfold memory_headroom_gb. assert (H : (0.0 <= pymax 0.0 (pool_memory_gb p - pool_active_memory_gb p - pool_cache_reserved_gb p))%float).
  { apply pymax_ge_l. nn. }
  exact (fle_not_nan_r _ _ H).
Qed.

Section admission.
Context {R : Type} `{RedisClient R}.
Implicit Types (cp : NimbusMeshControlPlane R) (r : InferenceRequest).

(** Every cluster refreshed on its own, against the same directory. *)
Definition refreshed_clusters (d : KVCacheDirectory R) (now : float) (cls : dict string ClusterRuntime) :
    dict string ClusterRuntime := map (fun kc => (kc.1, refreshed_cluster d now kc.2)) cls.

Definition pool_at (cls : dict string ClusterRuntime) (c p : string) : option PoolRuntime :=
  cl ← dget cls c; dget (cl_pools cl) p.

(** ** The properties *)

(** C2: admission control.  A request is admitted only to a configured pool
    whose cluster is in no failure window, that supports the model, has fewer
    requests in flight than its queue limit, and whose memory headroom holds the
    request given the cache hits it is credited with.  The admitted request is
    then in flight there with exactly that footprint, and every other pool is
    left as it was.  This holds whatever the policy, the gRPC scorer and the
    C++ core answer. *)
Theorem admission_sound cp r now cp' res : clusters_wf (cp_clusters cp) →
  execute cp r now = Ok (cp', res) → res_admitted res = true →
  let c := dec_cluster_id (res_decision res) in
  let k := dec_pool_id (res_decision res) in
  ∃ cl p p', dget (cp_clusters cp) c = Some cl ∧ pool_at (cp_clusters cp) c k = Some p ∧
    pool_at (cp_clusters cp') c k = Some p' ∧
    can_take now r (res_cache_saved_tokens res) cl p ∧
    pool_inflight_memory p' = pool_inflight_memory p ++
      [(res_completion_ts res,
        estimate_request_memory_gb (req_prompt_tokens r) (req_generation_tokens r) (req_model_id r)
          (res_cache_saved_tokens res))] ∧
    ∀ c2 k2, (c2, k2) ≠ (c, k) → pool_at (cp_clusters cp') c2 k2 = pool_at (cp_clusters cp) c2 k2.
Proof.
  intros Hwf He Ha. destruct (execute_outcome _ _ _ _ _ Hwf He) as (cl & p & x & Hin & Hd & Ho).
  pose proof (outcome_admitted _ _ _ _ _ _ _ _ Ho) as Hax. rewrite Ha in Hax. symmetry in Hax.
  destruct (cluster_pools_get _ _ _ Hwf Hin) as [G1 G2].
  destruct Ho as [cp1 dec Hr Hx|cp1 dec b d' p' res pol Hr _ _ Hp _]; [congruence|].
  destruct (route_inv _ _ _ _ _ _ Hr) as (Hcl & -> & _).
  destruct (placed_occupies _ _ _ _ _ _ _ _ _ _ Hp) as (-> & -> & _ & _ & i & ->).
  simpl. rewrite Hcl. pose proof Hd as [D1 D2 _ _ _]. simpl in D1, D2. rewrite D1, D2. unfold pool_at.
  exists cl, p, (set_completed_count (occupy p i (res_completion_ts res) (estimate_request_memory_gb
    (req_prompt_tokens r) (req_generation_tokens r) (req_model_id r) (cand_expected_cache_saved_tokens x)))
    (pool_completed_count p + 1)).
  split; [done|]. split; [by rewrite G1|]. split; [rewrite dget_set_eq; simpl; by rewrite dget_set_eq|].
  split; [by apply (describes_can_take _ _ _ _ _ Hd)|]. split; [done|].
  intros c2 k2 Hne. destruct (decide (c2 = cl_cluster_id cl)) as [->|Hc].
  - rewrite dget_set_eq, G1. simpl. apply dget_set_ne. intros E. apply Hne. by rewrite E.
  - by rewrite dget_set_ne.
Qed.

(** C15: a refused request costs nothing.  A request that is not admitted leaves
    every cluster and pool as it was and every tenant's statistics.  The result
    names the pool that was chosen and why it refuses: the first of the four
    conditions (cluster up, model served, queue room, memory for what the cache
    does not save) that fails there, the ones before it holding.  It spends no
    time, no memory and no money. *)
Theorem rejection_frame cp r now cp' res : clusters_wf (cp_clusters cp) →
  execute cp r now = Ok (cp', res) → res_admitted res = false →
  cp_clusters cp' = cp_clusters cp ∧
  (∀ tenant, stats_of (cp_tenant_stats cp') tenant = stats_of (cp_tenant_stats cp) tenant) ∧
  (∃ c dec cl p reason, route cp r now = Ok (cp', c, dec) ∧ res_decision res = dec ∧
     dget (cp_clusters cp) (dec_cluster_id dec) = Some cl ∧ dget (cl_pools cl) (dec_pool_id dec) = Some p ∧
     res_rejection_reason res = Some reason ∧
     refused_for now r (cand_expected_cache_saved_tokens c) cl p reason) ∧
  res_request res = r ∧ res_completion_ts res = now ∧ res_total_latency_ms res = of_lit 0.0%float ∧
  res_memory_gb res = of_lit 0.0%float ∧ res_cost_usd res = of_lit 0.0%float ∧ res_sla_met res = false.
Proof.
  intros Hwf He Ha. destruct (execute_outcome _ _ _ _ _ Hwf He) as (cl & p & x & Hin & Hd & Ho).
  pose proof (outcome_admitted _ _ _ _ _ _ _ _ Ho) as Hax. rewrite Ha in Hax.
  destruct (cluster_pools_get _ _ _ Hwf Hin) as [G1 G2].
  destruct Ho as [cp1 dec Hr Hx|cp1 dec b d' p' res pol Hr Hx _ _ _]; [|congruence].
  destruct (route_inv _ _ _ _ _ _ Hr) as (Hcl & Hdec & _). split; [exact Hcl|].
  split; [exact (route_stats _ _ _ _ _ _ Hr)|]. simpl. split; [|done].
  destruct Hd as [D1 D2 _ Hr' Hav]. simpl in D1, D2, Hr'.
  destruct (cand_rejection_reason x) as [reason|]; [|by rewrite (proj2 Hav eq_refl) in Hx].
  exists x, dec, cl, p, reason. subst dec. simpl. rewrite D1, D2.
  split; [exact Hr|]. split; [done|]. split; [exact G1|]. split; [exact G2|]. split; [done|].
  by apply rejection_refused.
Qed.

(** C30: every pool of every cluster is considered: the candidates are one per
    pool, in the order of the clusters and their pools, each with its pool's
    identifiers, and available exactly when the pool can take the request. *)
Theorem one_candidate_per_pool cp r now cp' cs : build_candidates cp r now = Ok (cp', cs) →
  Forall2 (fun x c => cand_cluster_id c = cl_cluster_id x.1 ∧ cand_pool_id c = pool_pool_id x.2 ∧
      cand_backend_name c = pool_backend_name x.2 ∧
      (cand_available c = true ↔ can_take now r (cand_expected_cache_saved_tokens c) x.1 x.2))
    (cluster_pools (cp_clusters cp)) cs.
Proof.
  intros Hb. destruct (build_candidates_describe _ _ _ _ _ Hb) as (Hd & _).
  eapply Forall2_impl; [exact Hd|]. intros [cl p] c Hc. pose proof Hc as [D1 D2 D3 _ _].
  do 3 (split; [done|]). by apply describes_can_take.
Qed.

(** C6: a request that some pool can take without any cache hit is admitted,
    when the configured policy decides (no remote scorer, no C++ core): the
    policies never choose a refused pool over an available one. *)
Theorem fit_request_admitted cp r now room cl p :
  cp_ready (room + 1) cp → 0 <= room → request_ready r → time_ok now →
  cp_grpc_client cp = None → cp_cpp_core cp = false →
  (cl, p) ∈ cluster_pools (cp_clusters cp) → can_take now r 0 cl p →
  ∃ cp' res, execute cp r now = Ok (cp', res) ∧ res_admitted res = true.
Proof.
  intros Hcp Hroom Hr Hnow Hg Hc Hin Hct.
  destruct (execute_ready cp r now room Hcp Hroom Hr Hnow) as (cp' & res & He & _ & _).
  exists cp', res. split; [done|].
  destruct (execute_outcome _ _ _ _ _ (cr_wf _ _ Hcp) He) as (cl2 & p2 & x & _ & _ & Ho).
  rewrite (outcome_admitted _ _ _ _ _ _ _ _ Ho).
  assert (Hroute : ∃ cp1 dec, route cp r now = Ok (cp1, x, dec)) by (destruct Ho; eauto).
  destruct Hroute as (cp1 & dec & Hro). unfold route in Hro.
  destruct (build_candidates_ready cp r now (room + 1) Hcp Hr) as (cp2 & cs & Hb & _ & _ & _ & Hg2 & _ & Hsav).
  destruct (build_candidates_describe _ _ _ _ _ Hb) as (Hd & _). rewrite Hb in Hro. cbn [mbind result_bind] in Hro.
  apply bind_ok in Hro as ([pol c] & Hch & Hro). injection Hro as _ <- _.
  unfold _choose_candidate in Hch. rewrite Hg2, Hg in Hch. cbn [grpc_choose mbind result_bind] in Hch.
  assert (Hcpp : cp_cpp_core cp2 = false).
  { unfold build_candidates in Hb. apply bind_ok in Hb as ([[? ?] ?] & _ & Hb). apply bind_ok in Hb as (? & _ & Hb).
    by injection Hb as <- _. }
  rewrite Hcpp in Hch. cbn [cpp_choose] in Hch.
  apply list_elem_of_lookup in Hin as [i Hi]. destruct (Forall2_lookup_l _ _ _ _ _ Hd Hi) as (a & Hia & Hda).
  destruct (choose_safe _ _ _ _ _ Hch) as [_ Hsafe]. apply (Hsafe a); [by eapply list_elem_of_lookup_2|].
  apply (describes_can_take _ _ _ _ _ Hda). apply can_take_warm; [|apply headroom_not_nan|exact Hct].
  rewrite Forall_forall in Hsav. apply Hsav. by eapply list_elem_of_lookup_2.
Qed.

(** C27: refreshing is pointwise.  The loop over clusters and pools, which asks the
    shared directory to evict before each answer, gives every pool what it would
    give it alone: the cluster's congestion at [now], the requests still in
    flight and their memory, and the cache memory reserved for it; nothing else
    of the control plane changes but evicted cache entries. *)
Theorem refresh_pointwise cp now : dict_wf (cd_entries (cp_cache_directory cp)) →
  let d := cp_cache_directory cp in
  cp_clusters (refresh cp now) = refreshed_clusters d now (cp_clusters cp) ∧
  cp_tenant_stats (refresh cp now) = cp_tenant_stats cp ∧ cp_policy (refresh cp now) = cp_policy cp ∧
  (cp_cache_directory (refresh cp now) = d ∨ cp_cache_directory (refresh cp now) = evict_stale d now).
Proof. intros Hwf d. by destruct (refresh_alt cp now Hwf) as (d' & Hd' & ->). Qed.
End admission.
