(* ===== verification/Assembly.v ===== *)
(** * From a configuration to a running control plane

    [config_ok] is what a configuration has to satisfy for the control plane
    built from it to be [cp_ready]: positive slot counts, known backends, figures
    a double holds, no negative cost.  The topology, the clusters and the policy
    are built by three different parts of the code from the same configuration;
    the theorems here say the parts agree. *)

From S2P Require Import Prelude PyFloat PyOrder PyDict PyJson Config Types Samples Backends RedisStore.
From S2P Require Import Cache CacheReady Scheduler Cuda GpuTopo Topology Policies RemoteScorer.
From S2P Require Import ControlPlane CpReady Admission.

Local Open Scope Z_scope.

Record pool_spec_ok (p : PoolSpec) : Prop := {
  pso_slots : 0 < ps_parallel_slots p;
  pso_tps : tps_ok (ps_prefill_tps p) ∧ tps_ok (ps_decode_tps p);
  pso_backend : is_Some (dget backends (ps_backend_name p))
}.

Record cluster_spec_ok (cs : ClusterSpec) : Prop := {
  cso_calm : cluster_calm (build_cluster cs);
  cso_costs : costs_ok cs;
  cso_pools : Forall pool_spec_ok (cs_pools cs);
  cso_some : cs_pools cs ≠ []
}.

Record config_ok (config : ExperimentConfig) : Prop := {
  co_clusters : Forall cluster_spec_ok (ec_clusters config);
  co_some : ec_clusters config ≠ []
}.

(** ** Every runtime pool comes from a specification *)

Lemma fold_dset_from {A V} (key : A → string) (val : A → V) l (d : dict string V) k v :
  (k, v) ∈ fold_left (fun d a => dset d (key a) (val a)) l d →
  (k, v) ∈ d ∨ ∃ a, a ∈ l ∧ k = key a ∧ v = val a.
Proof.
  revert d. induction l as [|a l IH]; intros d; simpl; [by left|]. intros Hin.
  destruct (IH _ Hin) as [Hd|(b & Hb & ? & ?)]; [|right; exists b; by split; [right|]].
  apply dset_elem in Hd as [[= -> ->]|Hd]; [|by left]. right. exists a. by split; [left|].
Qed.

Lemma fold_dset_last {A V} (key : A → string) (val : A → V) l (d : dict string V) a :
  a ∈ l → is_Some (dget (fold_left (fun d a => dset d (key a) (val a)) l d) (key a)).
Proof.
  assert (Hkeep : ∀ l d k, is_Some (dget d k) → is_Some (dget (fold_left (fun d a => dset d (key a) (val a)) l d) k)).
  { clear. induction l as [|a l IH]; intros d k Hk; simpl; [done|]. apply IH.
    destruct (decide (key a = k)) as [<-|Hne]; [rewrite dget_set_eq; by eexists|by rewrite dget_set_ne]. }
  revert d. induction l as [|b l IH]; intros d Hin; simpl; [by apply elem_of_nil in Hin|].
  apply elem_of_cons in Hin as [->|Hin]; [|by apply IH]. apply Hkeep. rewrite dget_set_eq. by eexists.
Qed.

Lemma build_pools_from config cl p : (cl, p) ∈ cluster_pools (_build_runtime_clusters config) →
  ∃ cs ps, cs ∈ ec_clusters config ∧ ps ∈ cs_pools cs ∧ cl = build_cluster cs ∧ p = build_pool cs ps.
Proof.
  intros (k & pk & Hk & Hp)%cluster_pools_elem.
  apply fold_dset_from in Hk as [Hk|(cs & Hcs & -> & ->)]; [by apply elem_of_nil in Hk|].
  simpl in Hp. apply fold_dset_from in Hp as [Hp|(ps & Hps & -> & ->)]; [by apply elem_of_nil in Hp|].
  by exists cs, ps.
Qed.

Lemma build_pools_some config : config_ok config → cluster_pools (_build_runtime_clusters config) ≠ [].
Proof.
  intros [Hc Hsome] Hnil. destruct (ec_clusters config) as [|cs l] eqn:El; [done|].
  destruct (fold_dset_last cs_cluster_id build_cluster (cs :: l) [] cs ltac:(left)) as [cl Hcl].
  rewrite <- El in Hcl. pose proof (dget_elem _ _ _ Hcl) as Hin.
  pose proof Hin as [Hn|(cs' & Hcs' & _ & Ecl)]%fold_dset_from; [by apply elem_of_nil in Hn|].
  rewrite El, Forall_forall in *. pose proof (cso_some _ (Hc _ Hcs')) as Hps.
  destruct (cs_pools cs') as [|ps pss] eqn:Eps; [done|].
  destruct (fold_dset_last ps_pool_id (build_pool cs') (ps :: pss) [] ps ltac:(left)) as [p Hp].
  rewrite <- Eps in Hp. pose proof (dget_elem _ _ _ Hp) as Hp'.
  assert (Hcp : (cl, p) ∈ cluster_pools (_build_runtime_clusters config)).
  { apply cluster_pools_elem. exists (cs_cluster_id cs), (ps_pool_id ps).
    unfold _build_runtime_clusters. rewrite El. split; [exact Hin|]. by rewrite Ecl. }
  rewrite Hnil in Hcp. by apply elem_of_nil in Hcp.
Qed.

Lemma build_pool_inv cs ps : pool_spec_ok ps → pool_inv (build_pool cs ps) ∧
  slots_ok (pool_slot_available_at (build_pool cs ps)).
Proof.
  intros [Hs _ _]. assert (Hok : slots_ok (pool_slot_available_at (build_pool cs ps))).
  { unfold build_pool. by apply post_init_slots_ok. }
  split; [|exact Hok]. destruct Hok as [Hne Hall]. constructor; [exact Hne| |flit|constructor|by vm_compute].
  eapply Forall_impl; [exact Hall|]. intros t [_ Ht]. hyp.
Qed.

Section assembly.
Context {R : Type} `{RedisClient R}.

(** ** The control plane built is ready *)

Lemma build_pool_ready t cs ps : topology_inv t → cluster_known t cs → ps ∈ cs_pools cs → pool_spec_ok ps →
  pool_ready t (build_cluster cs) (build_pool cs ps).
Proof.
  intros Ht [Hg Hw] Hin Hps. destruct (build_pool_inv cs ps Hps) as [Hi Hs].
  destruct (route_cost_range t _ ps Ht Hg (Hw _ Hin)) as (c & Hc & C0 & _).
  constructor; try done.
  - exact (pso_tps _ Hps).
  - exact (pso_backend _ Hps).
  - exact (proj1 (Hw _ Hin)).
  - exists c. split; [exact Hc|exact C0].
Qed.

Lemma construction_ready_from (env : Environment R) (config : ExperimentConfig) cp :
  make_control_plane env config = Ok cp → config_ok config →
  (∀ path contents s, env_read_text env path = Ok contents → from_text contents = Ok s →
     Z.of_nat (length (gt_devices s)) <= 2 ^ 25) →
  rs_enabled (env_redis_store env) = false → answers (env_grpc env) →
  cp_ready 20000 cp.
Proof.
  unfold make_control_plane. intros Hm Hco Hf Hs Hg. pose proof Hco as [Hc Hsome].
  apply bind_ok in Hm as (t & Ht & Hm). apply bind_ok in Hm as (pol & Hpol & Hm). injection Hm as <-.
  assert (Hcosts : Forall costs_ok (ec_clusters config)) by (eapply Forall_impl; [exact Hc|by intros ? []]).
  destruct (build_spec _ Hf config t Ht Hcosts) as [Hti Hk]. rewrite Forall_forall in Hc.
  constructor; simpl; try done.
  - apply build_clusters_wf.
  - apply Forall_dvalues. intros k cl Hin. apply fold_dset_from in Hin as [Hin|(cs' & Hcs' & _ & ->)].
    + by apply elem_of_nil in Hin.
    + exact (cso_calm _ (Hc _ Hcs')).
  - apply Forall_forall. intros [cl q] (cs' & ps & Hcs' & Hps & -> & ->)%build_pools_from. simpl.
    apply build_pool_ready; [done|by apply Hk|done|].
    pose proof (cso_pools _ (Hc _ Hcs')) as Hall. rewrite Forall_forall in Hall. by apply Hall.
  - by apply build_pools_some.
  - apply make_directory_ready; [exact Hs|reflexivity].
  - by eapply build_policy_wf.
Qed.

(** C29: a control plane built from a sound configuration, with no side store and
    a remote scorer that answers, is ready for the 20000 requests its directory
    has room for: the topology knows every pool the clusters have, and every
    pool has its backend and its slots. *)
Theorem construction_ready (env : Environment R) (config : ExperimentConfig) cp :
  make_control_plane env config = Ok cp → config_ok config →
  (∀ path contents s, env_read_text env path = Ok contents → from_text contents = Ok s →
     Z.of_nat (length (gt_devices s)) <= 2 ^ 25) →
  rs_enabled (env_redis_store env) = false → answers (env_grpc env) →
  cp_ready 20000 cp.
Proof. apply construction_ready_from. Qed.
End assembly.

(** ** At a concrete configuration *)

Definition sample_environment : Environment (gmap (string * string) string) :=
  {| env_read_text := sample_files; env_redis_store := no_store; env_cuda := false; env_grpc := None;
     env_cpp := false; env_ppo := false; env_pyg := false |}.

Definition sample_plane : result (NimbusMeshControlPlane (gmap (string * string) string)) :=
  make_control_plane sample_environment (sample_config "least_queue").

Lemma sample_config_ok policy : config_ok (sample_config policy).
Proof.
  assert (Hps : ∀ id tier, pool_spec_ok (sample_spec id tier)).
  { intros id tier. constructor; [reflexivity| |by eexists]. split; split; flit. }
  assert (Hcalm : ∀ id other c f ps, cluster_calm (build_cluster (sample_cluster id other c f ps))).
  { intros. constructor; [split; flit|simpl; lia|constructor|flit]. }
  pose proof (sample_costs policy) as Hcosts. rewrite Forall_forall in Hcosts.
  constructor; [|done]. apply Forall_forall. intros cs Hcs. specialize (Hcosts cs Hcs).
  simpl in Hcs. apply elem_of_cons in Hcs as [->|[->|Hcs]%elem_of_cons]; [| |by apply elem_of_nil in Hcs].
  all: constructor; [apply Hcalm|exact Hcosts| |done]; repeat constructor; apply Hps.
Qed.

Lemma sample_plane_ready cp : sample_plane = Ok cp → cp_ready 20000 cp.
Proof.
  intros Hp. apply (construction_ready_from sample_environment (sample_config "least_queue"));
    [exact Hp|apply sample_config_ok|exact sample_files_small|reflexivity|exact I].
Qed.

Lemma sample_plane_made : ∃ cp, sample_plane = Ok cp.
Proof.
  assert (Hok : match sample_plane with Ok _ => true | Err _ => false end = true) by flit.
  destruct sample_plane as [cp|]; [by exists cp|discriminate].
Qed.

Lemma construction_ready_witness : ∃ cp, sample_plane = Ok cp ∧ cp_ready 20000 cp.
Proof.
  destruct sample_plane_made as [cp E]. exists cp. split; [exact E|].
  apply (construction_ready sample_environment (sample_config "least_queue")); [exact E|apply sample_config_ok| | |].
  - exact sample_files_small.
  - reflexivity.
  - exact I.
Defined.

(** A request no pool of the sample can hold. *)
Definition huge_request : InferenceRequest :=
  {| req_request_id := "r9"; req_tenant_id := "t"; req_model_id := "m"; req_prompt_tokens := 2 ^ 40;
     req_generation_tokens := 64; req_arrival_ts := of_lit 10.0%float; req_sla_class := "interactive";
     req_session_id := None; req_prefix_signature := Some "s"; req_max_latency_ms := of_lit 2000.0%float;
     req_metadata := [] |}.

Definition sample_execution (r : InferenceRequest) :
    result (NimbusMeshControlPlane (gmap (string * string) string) * NimbusMeshControlPlane _ * RequestResult) :=
  cp ← sample_plane;
  let cp0 := refresh cp (of_lit 10.0%float) in
  '(cp', res) ← execute cp0 r (of_lit 10.0%float); Ok (cp0, cp', res).

Lemma sample_execution_ok r admitted :
  match sample_execution r with Ok (_, _, res) => Bool.eqb (res_admitted res) admitted | Err _ => false end = true →
  ∃ cp cp' res, cp_ready 20000 cp ∧ execute cp r (of_lit 10.0%float) = Ok (cp', res) ∧ res_admitted res = admitted.
Proof.
  unfold sample_execution. destruct sample_plane as [cp|] eqn:E; [|discriminate]. cbn [mbind result_bind].
  destruct (execute _ r _) as [[cp' res]|] eqn:Ex; [|discriminate]. cbn [mbind result_bind]. intros Ha.
  exists (refresh cp (of_lit 10.0%float)), cp', res. split; [by apply refresh_ready, sample_plane_ready|].
  split; [exact Ex|]. by apply Bool.eqb_prop.
Qed.

Lemma admission_sound_witness : ∃ cp cp' res cl p,
  execute cp sample_request (of_lit 10.0%float) = Ok (cp', res) ∧
  dget (cp_clusters cp) (dec_cluster_id (res_decision res)) = Some cl ∧
  can_take (of_lit 10.0%float) sample_request (res_cache_saved_tokens res) cl p.
Proof.
  destruct (sample_execution_ok sample_request true) as (cp & cp' & res & Hcp & He & Ha); [flit|].
  destruct (admission_sound cp sample_request (of_lit 10.0%float) cp' res (cr_wf _ _ Hcp) He Ha)
    as (cl & p & p' & Hcl & _ & _ & Hct & _).
  exists cp, cp', res, cl, p. split; [exact He|]. split; [exact Hcl|exact Hct].
Defined.

Lemma rejection_frame_witness : ∃ (cp cp' : NimbusMeshControlPlane (gmap (string * string) string)) res reason,
  execute cp huge_request (of_lit 10.0%float) = Ok (cp', res) ∧ cp_clusters cp' = cp_clusters cp ∧
  res_rejection_reason res = Some reason ∧
  ∃ saved cl p, refused_for (of_lit 10.0%float) huge_request saved cl p reason.
Proof.
  destruct (sample_execution_ok huge_request false) as (cp & cp' & res & Hcp & He & Ha); [flit|].
  destruct (rejection_frame cp huge_request (of_lit 10.0%float) cp' res (cr_wf _ _ Hcp) He Ha)
    as (Hcl & _ & (c & dec & cl & p & reason & _ & _ & _ & _ & Hr & Hf) & _).
  exists cp, cp', res, reason. split; [exact He|]. split; [exact Hcl|]. split; [exact Hr|].
  exists (cand_expected_cache_saved_tokens c), cl, p. exact Hf.
Defined.

Lemma sample_request_ready : request_ready sample_request.
Proof. split; [unfold tokens_ok; simpl; lia|unfold tokens_ok; simpl; lia|eexists; reflexivity]. Qed.

Lemma fit_request_admitted_witness : ∃ (cp cp' : NimbusMeshControlPlane (gmap (string * string) string)) res,
  execute cp sample_request (of_lit 10.0%float) = Ok (cp', res) ∧ res_admitted res = true.
Proof.
  assert (Hok : match sample_plane with
    | Ok cp => match cp_grpc_client cp with None => true | Some _ => false end && negb (cp_cpp_core cp) &&
        existsb (fun x => match rejection (unavailable x.1 10.0%float) x.2 sample_request (memory_headroom_gb x.2)
                    (estimate_request_memory_gb 512 64 "m" 0) 10.0%float with None => true | Some _ => false end)
          (cluster_pools (cp_clusters cp))
    | Err _ => false end = true) by flit.
  destruct sample_plane as [cp|] eqn:E; [|discriminate].
  apply andb_true_iff in Hok as [[Hg Hc]%andb_true_iff Hex].
  apply existsb_exists in Hex as ([cl p] & Hin & Hrej). apply list_elem_of_In in Hin.
  destruct (fit_request_admitted cp sample_request (of_lit 10.0%float) 19999 cl p) as (cp' & res & He & Ha).
  - by apply sample_plane_ready.
  - lia.
  - exact sample_request_ready.
  - split; [apply of_lit_wf; flit|flit].
  - by destruct (cp_grpc_client cp).
  - by destruct (cp_cpp_core cp).
  - exact Hin.
  - apply rejection_None. simpl in Hrej. destruct (rejection _ _ _ _ _ _) eqn:Er in Hrej; [discriminate|exact Er].
  - exists cp, cp', res. split; [exact He|exact Ha].
Defined.

Lemma one_candidate_per_pool_witness : ∃ (cp cp' : NimbusMeshControlPlane (gmap (string * string) string)) cs,
  build_candidates cp sample_request (of_lit 10.0%float) = Ok (cp', cs) ∧
  Forall2 (fun x c => cand_pool_id c = pool_pool_id x.2) (cluster_pools (cp_clusters cp)) cs.
Proof.
  assert (Hok : match sample_plane with
    | Ok cp => match build_candidates cp sample_request (of_lit 10.0%float) with Ok _ => true | Err _ => false end
    | Err _ => false end = true) by flit.
  destruct sample_plane as [cp|] eqn:E; [|discriminate].
  destruct (build_candidates cp sample_request (of_lit 10.0%float)) as [[cp' cs]|] eqn:Eb; [|discriminate].
  exists cp, cp', cs. split; [exact Eb|].
  apply (Forall2_impl _ _ _ _ (one_candidate_per_pool cp sample_request (of_lit 10.0%float) cp' cs Eb)).
  intros x c (_ & Hp & _). exact Hp.
Defined.

Lemma refresh_pointwise_witness : ∃ cp : NimbusMeshControlPlane (gmap (string * string) string),
  cp_policy (refresh cp (of_lit 10.0%float)) = cp_policy cp.
Proof.
  assert (Hok : match sample_plane with Ok _ => true | Err _ => false end = true) by flit.
  destruct sample_plane as [cp|] eqn:E; [|discriminate]. exists cp.
  pose proof (cr_directory _ _ (sample_plane_ready cp E)) as Hd.
  apply (refresh_pointwise cp (of_lit 10.0%float) (ei_wf _ (dr_inv _ _ Hd))).
Defined.
