(* ===== verification/Engine.v ===== *)
(** * [simulators/engine.py]: the simulation engine

    [SimulationEngine] drives every other component: it generates the workload,
    and for each request refreshes the control plane, notes the submission,
    executes, and records the result in the metrics, the logs, the Azure
    simulator and the two optional stores; at the end it reports. *)

From S2P Require Import Prelude PyFloat PyOrder PyDict PyStr PyJson PyNum Config Types Samples Records.
From S2P Require Import Metrics Azure Logs Workload Backends RedisStore Cache CacheReady Scheduler Cuda.
From S2P Require Import GpuTopo Topology Policies RemoteScorer ControlPlane CpReady Admission Assembly.

Local Open Scope Z_scope.

(** The files a process writes: logs, CSV tables, JSON documents. *)
Record files := { fs_logs : log_files; fs_csv : csv_files; fs_json : dict string json }.

Definition set_logs (fs : files) (l : log_files) : files :=
  {| fs_logs := l; fs_csv := fs_csv fs; fs_json := fs_json fs |}.

Section engine.
Context {R : Type} `{RedisClient R} {Q : Type} `{BatchQueue Q} {C : Type} `{SqlConnection C} {G : Type} `{Random G}.

(** What the process environment gives to an engine. *)
Record EngineEnv := {
  ee_control : Environment R;
  ee_azure : option json;
  ee_queue : option Q;
  ee_dsn : string;
  ee_psycopg : bool;
  ee_connection : C;
  ee_redis_store : RedisDecisionStore R;
  ee_read_trace : string → option trace
}.

Record SimulationEngine := {
  se_config : ExperimentConfig;
  se_control_plane : NimbusMeshControlPlane R;
  se_metrics : MetricsCollector;
  se_azure : AzureInfraSimulator Q;
  se_postgres_store : PostgresExperimentStore C;
  se_redis_store : RedisDecisionStore R;
  se_files : files
}.

Definition log_dir : string := "logs".
Definition csv_dir : string := "results".

(** [SimulationEngine(config)] *)
Definition make_engine (env : EngineEnv) (config : ExperimentConfig) (fs : files) : result SimulationEngine :=
  cp ← make_control_plane (ee_control env) config;
  let logs1 := make_logger (ec_decision_log_path config) (fs_logs fs) in
  let logs2 := make_fanout log_dir logs1 in
  '(azure, logs3) ← make_azure (ee_azure env) (ee_queue env) log_dir logs2;
  postgres ← make_postgres "" (ee_dsn env) (ee_psycopg env) (ee_connection env);
  Ok {| se_config := config; se_control_plane := cp; se_metrics := new_collector; se_azure := azure;
        se_postgres_store := postgres; se_redis_store := ee_redis_store env; se_files := set_logs fs logs3 |}.

(** The body of the loop of [run]. *)
Definition handle (e : SimulationEngine) (r : InferenceRequest) : result SimulationEngine :=
  let now := req_arrival_ts r in
  let cp1 := refresh (se_control_plane e) now in
  let cp2 := note_submission cp1 r in
  let m1 := mc_note_submission (se_metrics e) (req_tenant_id r) in
  let '(az1, logs1) := az_note_submission (se_azure e) r (fs_logs (se_files e)) in
  '(cp3, res) ← execute cp2 r now;
  let m2 := record m1 res in
  let payload := to_dict res in
  let logs2 := emit (ec_decision_log_path (se_config e)) logs1 payload in
  let logs3 := emit_result log_dir logs2 res in
  let '(az2, logs4) := az_record_result az1 res logs3 in
  let redis := write_decision (se_redis_store e) payload in
  pg ← write_result (se_postgres_store e) (ec_name (se_config e)) res;
  Ok {| se_config := se_config e; se_control_plane := cp3; se_metrics := m2; se_azure := az2;
        se_postgres_store := pg; se_redis_store := redis; se_files := set_logs (se_files e) logs4 |}.

Definition all_pools (cp : NimbusMeshControlPlane R) : list PoolRuntime := map snd (cluster_pools (cp_clusters cp)).

(** What follows the loop. *)
Definition report (e : SimulationEngine) : result (SimulationEngine * dict string json) :=
  let cp := se_control_plane e in
  let config := se_config e in
  let total_slots := zsum (map pool_parallel_slots (all_pools cp)) in
  let total_memory_gb := fsum (map pool_memory_gb (all_pools cp)) in
  let policy := policy_name (cp_policy cp) in
  '(metrics, summary0) ←
    summary (se_metrics e) (wc_duration_s (ec_workload config)) policy (ec_name config) total_slots total_memory_gb;
  let summary1 := dset summary0 "azure_summary" (az_summary (se_azure e)) in
  let documents := write_summary (fs_json (se_files e)) (ec_metrics_output_path config) summary1 in
  csv ← export_summary csv_dir (fs_csv (se_files e)) summary1;
  pg ← pg_write_summary (se_postgres_store e) (ec_name config) policy summary1;
  Ok ({| se_config := config; se_control_plane := cp; se_metrics := metrics; se_azure := se_azure e;
         se_postgres_store := pg; se_redis_store := se_redis_store e;
         se_files := {| fs_logs := fs_logs (se_files e); fs_csv := csv; fs_json := documents |} |}, summary1).

Definition run (env : EngineEnv) (e : SimulationEngine) : result (SimulationEngine * dict string json) :=
  let workload := ec_workload (se_config e) in
  let seed := ec_seed (se_config e) in
  '(requests, _) ← generate_requests workload seed (ee_read_trace env) (make_generator (G := G) seed);
  e' ← foldM handle e requests;
  report e'.

(** [SimulationEngine(config).run()] *)
Definition simulate (env : EngineEnv) (config : ExperimentConfig) (fs : files) :
    result (SimulationEngine * dict string json) :=
  e ← make_engine env config fs; run env e.

End engine.

Arguments SimulationEngine R Q C : clear implicits.
Arguments EngineEnv R Q C : clear implicits.

(** ** What does not change while an engine runs *)

(** The slots of the pools, cluster by cluster. *)
Definition cluster_slots (cl : ClusterRuntime) : list Z := map pool_parallel_slots (dvalues (cl_pools cl)).
Definition pool_slots (clusters : dict string ClusterRuntime) : list (list Z) := map cluster_slots (dvalues clusters).

Lemma dset_image {V W} (f : V → W) (d : dict string V) k v v' : dget d k = Some v → f v' = f v →
  map f (dvalues (dset d k v')) = map f (dvalues d).
Proof.
  unfold dvalues. induction d as [|[k1 v1] d IH]; simpl; [done|]. case_decide as Hk.
  - intros [= ->] Hf. simpl. by rewrite Hf.
  - intros Hg Hf. simpl. by rewrite IH.
Qed.

Lemma all_pools_slots {R} `{RedisClient R} (cp : NimbusMeshControlPlane R) :
  map pool_parallel_slots (all_pools cp) = mjoin (pool_slots (cp_clusters cp)).
Proof.
  unfold all_pools, cluster_pools, pool_slots. induction (dvalues (cp_clusters cp)) as [|cl l IH]; [done|].
  rewrite bind_cons, !map_app. change (mjoin (map cluster_slots (cl :: l))) with (cluster_slots cl ++ mjoin (map cluster_slots l)). rewrite <- IH. f_equal.
  unfold cluster_slots. induction (dvalues (cl_pools cl)) as [|p ps IHp]; [done|].
  cbn [fmap list_fmap map]. by rewrite IHp.
Qed.

Section frames.
Context {R : Type} `{RedisClient R}.
Implicit Types (cp : NimbusMeshControlPlane R) (r : InferenceRequest).

Lemma refresh_slots cp now : dict_wf (cd_entries (cp_cache_directory cp)) →
  pool_slots (cp_clusters (refresh cp now)) = pool_slots (cp_clusters cp) ∧
  cp_tenant_stats (refresh cp now) = cp_tenant_stats cp.
Proof.
  intros Hwf. destruct (refresh_alt cp now Hwf) as (d' & _ & ->). simpl. split; [|done].
  unfold pool_slots, dvalues. rewrite !map_map. apply map_ext. intros [k cl]. simpl.
  unfold cluster_slots, dvalues. simpl. rewrite !map_map. apply map_ext. intros [pk p]. simpl.
  unfold refreshed_pool. by rewrite pool_refresh_alt.
Qed.

Lemma execute_slots cp r now cp' res : clusters_wf (cp_clusters cp) → execute cp r now = Ok (cp', res) →
  pool_slots (cp_clusters cp') = pool_slots (cp_clusters cp).
Proof.
  intros Hwf He. destruct (execute_outcome _ _ _ _ _ Hwf He) as (cl & p & c & Hin & _ & Ho).
  destruct (cluster_pools_get _ _ _ Hwf Hin) as [G1 G2].
  destruct Ho as [cp1 dec Hr _|cp1 dec b d' p' res pol Hr _ _ Hp _].
  - by destruct (route_inv _ _ _ _ _ _ Hr) as (-> & _).
  - destruct (route_inv _ _ _ _ _ _ Hr) as (-> & _). simpl.
    destruct (placed_occupies _ _ _ _ _ _ _ _ _ _ Hp) as (_ & _ & _ & _ & i & ->).
    apply (dset_image cluster_slots _ _ cl); [done|]. apply (dset_image _ _ _ p); [exact G2|done].
Qed.

Lemma execute_stats cp r now cp' res : clusters_wf (cp_clusters cp) → execute cp r now = Ok (cp', res) →
  res_request res = r → ∀ k,
  ts_submitted (stats_of (cp_tenant_stats cp') k) = ts_submitted (stats_of (cp_tenant_stats cp) k) ∧
  ts_completed (stats_of (cp_tenant_stats cp') k) =
    ts_completed (stats_of (cp_tenant_stats cp) k) + Z.b2z (res_admitted res && String.eqb k (req_tenant_id r)).
Proof.
  intros Hwf He Hreq k. destruct (execute_outcome _ _ _ _ _ Hwf He) as (cl & p & c & _ & _ & Ho).
  rewrite (outcome_stats _ _ _ _ _ _ _ _ Ho Hreq k). cbv zeta.
  destruct (_ && _); simpl; [done|]. split; [done|lia].
Qed.

Lemma note_submission_stats cp r k :
  stats_of (cp_tenant_stats (note_submission cp r)) k =
  let s := stats_of (cp_tenant_stats cp) k in
  {| ts_submitted := ts_submitted s + Z.b2z (String.eqb k (req_tenant_id r)); ts_completed := ts_completed s;
     ts_total_latency_ms := ts_total_latency_ms s; ts_sla_misses := ts_sla_misses s |}.
Proof.
  unfold note_submission. simpl. unfold stats_of at 1, dget_or. destruct (String.eqb_spec k (req_tenant_id r)) as [->|Hne].
  - by rewrite dget_set_eq.
  - rewrite dget_set_ne by done. unfold stats_of, dget_or. simpl. rewrite Z.add_0_r. by destruct (default _ _).
Qed.

Lemma note_submission_ready cp r room : cp_ready room cp → cp_ready room (note_submission cp r).
Proof. by intros []. Qed.
End frames.

(** ** The metrics collector, step by step *)

Lemma dget_or_add (d : dict string Z) k n k' : dget_or 0 (dadd d k n) k' = dget_or 0 d k' + (if String.eqb k' k then n else 0).
Proof.
  unfold dadd, dget_or. destruct (String.eqb_spec k' k) as [->|Hne].
  - by rewrite dget_set_eq.
  - rewrite dget_set_ne by done. lia.
Qed.

Lemma dadd_length (d : dict string Z) k n : (length (dadd d k n) <= S (length d))%nat.
Proof.
  unfold dadd. generalize (dget_or 0 d k + n). intros v. induction d as [|[k1 v1] d IH]; simpl; [lia|].
  case_decide; simpl; lia.
Qed.

Lemma collector_step m r res : collector_ok m → res_request res = r →
  Z.of_nat (length (mc_results m)) < 2 ^ 53 → Z.of_nat (length (mc_tenant_submitted m)) < 2 ^ 53 →
  0 <= total_tokens r <= 2 ^ 54 → unit_range (res_cache_hit_ratio res) →
  collector_ok (record (mc_note_submission m (req_tenant_id r)) res).
Proof.
  intros [H1 H2 H3 H4 H5] Hreq L1 L2 Ht Hh. constructor; simpl.
  - rewrite length_app. simpl. lia.
  - apply Forall_app. split; [exact H2|]. apply Forall_singleton. rewrite Hreq. split; [exact Ht|exact Hh].
  - pose proof (dadd_length (mc_tenant_submitted m) (req_tenant_id r) 1). lia.
  - by apply dict_wf_set.
  - intros t. unfold completed_of, submitted_of. simpl. rewrite !dget_or_add, Hreq.
    specialize (H5 t). unfold completed_of, submitted_of in H5.
    destruct (String.eqb t (req_tenant_id r)), (res_admitted res); simpl; lia.
Qed.

(** ** The invariant of the loop *)

Section invariant.
Context {R : Type} `{RedisClient R} {Q : Type} `{BatchQueue Q} {C : Type} `{SqlConnection C}.
Implicit Types (e : SimulationEngine R Q C) (r : InferenceRequest).

(** The SQL server accepts what it is sent. *)
Context (Hsql : ∀ (c : C) st l, is_Ok (sql_execute c st l)).

(** After [n] requests, with room for [room] more: the three places that count
    submissions and completions agree, tenant by tenant. *)
Record running (n : nat) (room : Z) e : Prop := {
  ru_ready : cp_ready room (se_control_plane e);
  ru_metrics : collector_ok (se_metrics e);
  ru_results : length (mc_results (se_metrics e)) = n;
  ru_tenants : (length (mc_tenant_submitted (se_metrics e)) <= n)%nat;
  ru_submitted t : ts_submitted (stats_of (cp_tenant_stats (se_control_plane e)) t) = submitted_of (se_metrics e) t;
  ru_completed t : ts_completed (stats_of (cp_tenant_stats (se_control_plane e)) t) = completed_of (se_metrics e) t;
  ru_azure : az_available (se_azure e) = true → az_submitted (se_azure e) = Z.of_nat n ∧
    az_completed (se_azure e) = Z.of_nat (length (admitted_results (se_metrics e)))
}.

(** A request the engine can be given. *)
Record engine_request r : Prop := {
  er_ready : request_ready r;
  er_time : time_ok (req_arrival_ts r);
  er_tokens : 0 <= total_tokens r <= 2 ^ 54
}.

Lemma azure_step az r res fs fs' az1 fs1 az2 fs2 n k : az_note_submission az r fs = (az1, fs1) →
  az_record_result az1 res fs' = (az2, fs2) →
  (az_available az = true → az_submitted az = n ∧ az_completed az = k) →
  az_available az2 = true → az_submitted az2 = n + 1 ∧ az_completed az2 = k + Z.b2z (res_admitted res).
Proof.
  unfold az_note_submission, az_record_result. destruct (az_available az) eqn:Ea; simpl.
  - intros [= <- <-]. simpl. rewrite Ea. simpl. intros [= <- <-] Hn _. simpl. destruct (Hn eq_refl). lia.
  - intros [= <- <-]. rewrite Ea. simpl. intros [= <- <-]. congruence.
Qed.

Lemma admitted_snoc m t res : length (admitted_results (record (mc_note_submission m t) res)) =
  (length (admitted_results m) + (if res_admitted res then 1 else 0))%nat.
Proof.
  unfold admitted_results. simpl. rewrite filter_app, length_app. f_equal. rewrite filter_cons, filter_nil.
  by case_decide; destruct (res_admitted res).
Qed.

Lemma handle_ok n room e r : running n (room + 1) e → 0 <= room → Z.of_nat n < 2 ^ 53 → engine_request r →
  ∃ e', handle e r = Ok e' ∧ running (S n) room e' ∧ se_config e' = se_config e ∧
    pool_slots (cp_clusters (se_control_plane e')) = pool_slots (cp_clusters (se_control_plane e)) ∧
    ∃ res, mc_results (se_metrics e') = mc_results (se_metrics e) ++ [res] ∧ res_request res = r.
Proof.
  intros [U1 U2 U3 U4 U5 U6 U7] Hroom Hn [Q1 Q2 Q3]. unfold handle.
  destruct (az_note_submission (se_azure e) r (fs_logs (se_files e))) as [az1 logs1] eqn:Eaz.
  set (cp1 := refresh (se_control_plane e) (req_arrival_ts r)). set (cp2 := note_submission cp1 r).
  destruct (refresh_slots (se_control_plane e) (req_arrival_ts r)) as [F1 F2]; [apply U1|].
  assert (Hcp2 : cp_ready (room + 1) cp2) by (by apply note_submission_ready, refresh_ready).
  destruct (execute_ready cp2 r (req_arrival_ts r) room Hcp2 Hroom Q1 Q2) as (cp3 & res & Ex & Hcp3 & Hreq & Hhit).
  rewrite Ex. cbn [mbind result_bind].
  destruct (az_record_result az1 res _) as [az2 logs4] eqn:Eaz2.
  assert (Hpg : is_Ok (write_result (se_postgres_store e) (ec_name (se_config e)) res)).
  { unfold write_result. destruct (pg_enabled _); simpl; [|by eexists].
    match goal with |- context [sql_execute ?c ?st ?l] => destruct (Hsql c st l) as [c' ->] end. by eexists. }
  destruct Hpg as [pg ->]. cbn [mbind result_bind]. eexists. split; [reflexivity|]. simpl.
  pose proof (execute_stats _ _ _ _ _ (cr_wf _ _ Hcp2) Ex Hreq) as Hst.
  split; [|split; [done|split]].
  - constructor; cbn [se_control_plane se_metrics se_azure].
    + exact Hcp3.
    + by apply collector_step; try done; lia.
    + simpl. rewrite length_app. simpl. lia.
    + simpl. pose proof (dadd_length (mc_tenant_submitted (se_metrics e)) (req_tenant_id r) 1). lia.
    + intros t. destruct (Hst t) as [-> _]. unfold cp2. rewrite note_submission_stats. simpl. unfold cp1. rewrite F2, U5.
      unfold submitted_of. simpl. rewrite dget_or_add. by destruct (String.eqb t (req_tenant_id r)).
    + intros t. destruct (Hst t) as [_ ->]. unfold cp2. rewrite note_submission_stats. simpl. unfold cp1. rewrite F2, U6.
      unfold completed_of. simpl. rewrite dget_or_add, Hreq.
      by destruct (res_admitted res), (String.eqb t (req_tenant_id r)).
    + intros Ha. destruct (azure_step _ _ _ _ _ _ _ _ _ _ _ Eaz Eaz2 U7 Ha) as [-> ->]. rewrite admitted_snoc.
      split; [lia|]. destruct (res_admitted res); simpl; lia.
  - rewrite (execute_slots _ _ _ _ _ (cr_wf _ _ Hcp2) Ex). exact F1.
  - exists res. by split.
Qed.

Lemma handle_all rs n room e : running n (Z.of_nat (length rs) + room) e → 0 <= room →
  Z.of_nat (n + length rs) < 2 ^ 53 → Forall engine_request rs →
  ∃ e', foldM handle e rs = Ok e' ∧ running (n + length rs) room e' ∧ se_config e' = se_config e ∧
    pool_slots (cp_clusters (se_control_plane e')) = pool_slots (cp_clusters (se_control_plane e)) ∧
    map res_request (mc_results (se_metrics e')) = map res_request (mc_results (se_metrics e)) ++ rs.
Proof.
  intros Hrun Hroom Hn Hrs. revert n e Hrun Hn. induction Hrs as [|r rs Hr Hrs IH]; intros n e Hrun Hn.
  { exists e. simpl in *. rewrite Nat.add_0_r, app_nil_r. split; [done|]. split; [exact Hrun|done]. }
  simpl in Hn, Hrun. replace (Z.of_nat (S (length rs)) + room) with (Z.of_nat (length rs) + room + 1) in Hrun by lia.
  destruct (handle_ok n _ e r Hrun ltac:(lia) ltac:(lia) Hr) as (e1 & E1 & Hrun1 & Hc1 & Hp1 & res & Hres & Hreq).
  cbn [foldM]. rewrite E1. cbn [mbind result_bind].
  destruct (IH (S n) e1 Hrun1 ltac:(lia)) as (e' & E' & Hrun' & Hc' & Hp' & Hmap).
  exists e'. split; [exact E'|]. simpl. rewrite Nat.add_succ_r. split; [exact Hrun'|].
  split; [congruence|]. split; [congruence|]. rewrite Hmap, Hres, map_app, <- app_assoc. simpl. by rewrite Hreq.
Qed.
End invariant.

(** ** The report *)

Lemma fields_export (rep : dict string json) (j : json) : dkeys rep = report_fields → ∀ t k, t ∈ csv_tables → k ∈ t.2 →
  is_Some (dget (dset rep "azure_summary" j) k).
Proof.
  intros Hk t k Ht Hin. destruct (decide ("azure_summary" = k)) as [<-|Hne]; [rewrite dget_set_eq; by eexists|].
  rewrite dget_set_ne by done. destruct (dget rep k) as [v|] eqn:E; [by eexists|]. exfalso.
  apply dget_None in E. apply E. rewrite Hk.
  assert (Hall : forallb (fun t => forallb (fun k => bool_decide (k ∈ report_fields)) t.2) csv_tables = true) by (by vm_compute).
  rewrite forallb_forall in Hall. apply list_elem_of_In in Ht. apply Hall in Ht. rewrite forallb_forall in Ht.
  apply list_elem_of_In in Hin. apply Ht in Hin. by apply bool_decide_eq_true in Hin.
Qed.

Section simulation.
Context {R : Type} `{RedisClient R} {Q : Type} `{BatchQueue Q} {C : Type} `{SqlConnection C} {G : Type} `{LawfulRandom G}.
Implicit Types (e : SimulationEngine R Q C).

Lemma report_ok_engine e : collector_ok (se_metrics e) →
  (∀ (c : C) st l, is_Ok (sql_execute c st l)) →
  Z.abs (zsum (map pool_parallel_slots (all_pools (se_control_plane e)))) <= 2 ^ 53 →
  ∃ e' summary, report e = Ok (e', summary) ∧
    mc_results (se_metrics e') = mc_results (se_metrics e) ∧
    dget summary "requests_total" = Some (JInt (Z.of_nat (length (mc_results (se_metrics e))))) ∧
    dget summary "requests_admitted" = Some (JInt (Z.of_nat (length (admitted_results (se_metrics e))))) ∧
    dget summary "azure_summary" = Some (az_summary (se_azure e)).
Proof.
  intros Hm Hsql Hs. unfold report.
  match goal with |- context [summary ?m ?a ?b ?c ?d ?f] =>
    destruct (summary_ok m a b c d f Hm Hs) as (m' & rep & Es & Hrep & Hres & _) end.
  rewrite Es. cbn [mbind result_bind]. pose proof (summary_fields _ _ _ _ _ _ _ _ Es) as Hk.
  destruct (export_tables_ok csv_dir (dset rep "azure_summary" (az_summary (se_azure e))) csv_tables (fs_csv (se_files e))
    csv_tables_distinct) as (csv & Ecsv & _).
  { intros t k Ht Hin. by apply (fields_export rep _ Hk t). }
  unfold export_summary. rewrite Ecsv. cbn [mbind result_bind].
  assert (Hpg : ∀ a b c, is_Ok (pg_write_summary (se_postgres_store e) a b c)).
  { intros a b c. unfold pg_write_summary. destruct (pg_enabled _); simpl; [|by eexists].
    match goal with |- context [sql_execute ?c ?st ?l] => destruct (Hsql c st l) as [c' ->] end. by eexists. }
  match goal with |- context [pg_write_summary _ ?a ?b ?c] => destruct (Hpg a b c) as [pg ->] end.
  cbn [mbind result_bind]. eexists _, _. split; [reflexivity|]. split; [exact Hres|].
  split; [rewrite dget_set_ne by done; exact (ro_total _ _ _ _ Hrep)|].
  split; [rewrite dget_set_ne by done; exact (ro_admitted _ _ _ _ Hrep)|]. apply dget_set_eq.
Qed.

Lemma make_engine_running env config fs e : make_engine env config fs = Ok e → config_ok config →
  (∀ path contents s, env_read_text (ee_control env) path = Ok contents → from_text contents = Ok s →
     Z.of_nat (length (gt_devices s)) <= 2 ^ 25) →
  rs_enabled (env_redis_store (ee_control env)) = false → answers (env_grpc (ee_control env)) →
  running 0 20000 e ∧ se_config e = config ∧
  pool_slots (cp_clusters (se_control_plane e)) = pool_slots (_build_runtime_clusters config).
Proof.
  unfold make_engine. intros He Hc Hf Hs Hg. apply bind_ok in He as (cp & Ecp & He).
  apply bind_ok in He as ([az logs] & Eaz & He). apply bind_ok in He as (pg & _ & He). injection He as <-.
  pose proof (construction_ready_from _ _ _ Ecp Hc Hf Hs Hg) as Hready.
  unfold make_control_plane in Ecp. apply bind_ok in Ecp as (t & _ & Ecp). apply bind_ok in Ecp as (pol & _ & Ecp).
  injection Ecp as <-. unfold make_azure in Eaz. apply bind_ok in Eaz as (groups & _ & Eaz). injection Eaz as <- _.
  split; [|done]. constructor; cbn [se_control_plane se_metrics se_azure]; try done.
  constructor; simpl; try done. apply dict_wf_nil.
Qed.

(** The requests of a synthetic workload are requests an engine can be given. *)
Lemma synthetic_requests config seed rs : workload_ok G config → synthetic config seed rs →
  Forall engine_request rs ∧ Z.of_nat (length rs) = wc_request_count config.
Proof.
  intros Hw [Hn (arrivals & Ha & Hall) _]. split; [|exact Hn].
  destruct (do_range _ (wo_prompt _ _ Hw)) as (P1 & P2 & P3), (do_range _ (wo_generation _ _ Hw)) as (G1 & G2 & G3).
  apply Forall_forall. intros r Hr. apply list_elem_of_lookup in Hr as [i Hi].
  destruct (Forall2_lookup_r _ _ _ _ _ Hall Hi) as ([j a] & Hz & Hg).
  apply list_elem_of_lookup_2, elem_of_zip_r in Hz. pose proof (ao_instants _ _ Ha) as Hinst.
  rewrite Forall_forall in Hinst. pose proof (round_instant a (Hinst a Hz)) as Hi'.
  pose proof (ge_prompt _ _ _ _ Hg). pose proof (ge_generation _ _ _ _ Hg).
  destruct (budget_sla _ _ (ge_budget _ _ _ _ Hg)) as [Hsla _]. constructor.
  - constructor; [unfold tokens_ok; lia|unfold tokens_ok; lia|exact Hsla].
  - rewrite (ge_arrival _ _ _ _ Hg). exact Hi'.
  - unfold total_tokens. lia.
Qed.

(** ** The properties of a simulation *)

(** C1: a simulation runs to its report.  From a sound configuration and a
    synthetic workload of at most 20000 requests, with no Redis side store, a
    remote scorer that answers and an SQL server that accepts, [run] raises
    nothing: every generated request is executed exactly once, in order, and
    the report counts them. *)
Theorem simulation_completes env config fs e : make_engine env config fs = Ok e → config_ok config →
  (∀ path contents s, env_read_text (ee_control env) path = Ok contents → from_text contents = Ok s →
     Z.of_nat (length (gt_devices s)) <= 2 ^ 25) →
  rs_enabled (env_redis_store (ee_control env)) = false → answers (env_grpc (ee_control env)) →
  (∀ (c : C) st l, is_Ok (sql_execute c st l)) →
  workload_ok G (ec_workload config) → wc_request_count (ec_workload config) <= 20000 →
  Z.abs (zsum (mjoin (pool_slots (_build_runtime_clusters config)))) <= 2 ^ 53 →
  ∃ e' summary requests g,
    generate_requests (ec_workload config) (ec_seed config) (ee_read_trace env)
      (make_generator (G := G) (ec_seed config)) = Ok (requests, g) ∧
    run (G := G) env e = Ok (e', summary) ∧
    map res_request (mc_results (se_metrics e')) = requests ∧
    dget summary "requests_total" = Some (JInt (wc_request_count (ec_workload config))).
Proof.
  intros He Hc Hf Hs Hg Hsql Hw Hn Hslots.
  destruct (make_engine_running env config fs e He Hc Hf Hs Hg) as (Hrun & Ec & Ep).
  destruct (synthetic_yields (G := G) (ec_workload config) (ec_seed config) (ee_read_trace env) Hw (make_generator (ec_seed config)))
    as (rs & g & Egen & Hsyn).
  destruct (synthetic_requests _ _ _ Hw Hsyn) as [Hreqs Hlen].
  assert (Hrun' : running 0 (Z.of_nat (length rs) + (20000 - Z.of_nat (length rs))) e)
    by (by replace (Z.of_nat (length rs) + (20000 - Z.of_nat (length rs))) with 20000 by lia).
  destruct (handle_all Hsql rs 0 _ e Hrun' ltac:(lia) ltac:(simpl; lia) Hreqs) as (e1 & E1 & Hrun1 & Hc1 & Hp1 & Hmap).
  assert (Hslots1 : Z.abs (zsum (map pool_parallel_slots (all_pools (se_control_plane e1)))) <= 2 ^ 53).
  { rewrite all_pools_slots, Hp1, Ep. exact Hslots. }
  destruct (report_ok_engine e1 (ru_metrics _ _ _ Hrun1) Hsql Hslots1) as (e' & sm & Er & Hres & Htot & _).
  exists e', sm, rs, g. split; [exact Egen|]. unfold run. rewrite Ec, Egen. cbn [mbind result_bind].
  rewrite E1. cbn [mbind result_bind]. split; [exact Er|]. split.
  - rewrite Hres, Hmap. rewrite (nil_length_inv _ (ru_results _ _ _ Hrun)). done.
  - rewrite Htot, (ru_results _ _ _ Hrun1), <- Hlen. done.
Qed.

(** C5: the books agree.  Whatever requests an engine has executed, and whatever
    was admitted, the control plane's tenant statistics and the metrics
    collector have the same submissions and completions for every tenant, no
    tenant has more completions than submissions, and the Azure simulator, when
    it is available, has counted the same totals. *)
Theorem accounts_agree n room e rs : running n (Z.of_nat (length rs) + room) e → 0 <= room →
  Z.of_nat (n + length rs) < 2 ^ 53 → (∀ (c : C) st l, is_Ok (sql_execute c st l)) → Forall engine_request rs →
  ∃ e', foldM handle e rs = Ok e' ∧
    (∀ t, let s := stats_of (cp_tenant_stats (se_control_plane e')) t in
       ts_submitted s = submitted_of (se_metrics e') t ∧ ts_completed s = completed_of (se_metrics e') t ∧
       0 <= ts_completed s <= ts_submitted s) ∧
    length (mc_results (se_metrics e')) = (n + length rs)%nat ∧
    (az_available (se_azure e') = true →
       az_submitted (se_azure e') = Z.of_nat (n + length rs) ∧
       az_completed (se_azure e') = Z.of_nat (length (admitted_results (se_metrics e')))).
Proof.
  intros Hrun Hroom Hn Hsql Hrs. destruct (handle_all Hsql rs n room e Hrun Hroom Hn Hrs) as (e' & E & Hrun' & _).
  exists e'. split; [exact E|]. destruct Hrun' as [U1 U2 U3 U4 U5 U6 U7]. split; [|by split].
  intros t. cbv zeta. rewrite U5, U6. split; [done|]. split; [done|]. apply (co_completed _ U2).
Qed.
End simulation.

(** ** At a concrete configuration *)

(** An SQL server as the list of what it executed. *)
#[export] Instance list_sql : SqlConnection (list (statement * list json)) :=
  {| sql_execute c st l := Ok (c ++ [(st, l)]) |}.

Abbreviation sample_redis := (gmap (string * string) string).
Abbreviation sample_queue := (list (dict string json)).
Abbreviation sample_sql := (list (statement * list json)).

Definition sample_engine_env : EngineEnv sample_redis sample_queue sample_sql :=
  {| ee_control := sample_environment; ee_azure := Some sample_azure_payload; ee_queue := Some []; ee_dsn := "dsn";
     ee_psycopg := true; ee_connection := []; ee_redis_store := no_store; ee_read_trace := fun _ => None |}.

Definition no_files : files := {| fs_logs := []; fs_csv := []; fs_json := [] |}.

Definition sample_engine : result (SimulationEngine sample_redis sample_queue sample_sql) :=
  make_engine sample_engine_env (sample_config "least_queue") no_files.

Lemma sample_engine_made : ∃ e, sample_engine = Ok e.
Proof.
  assert (Hok : match sample_engine with Ok _ => true | Err _ => false end = true) by flit.
  destruct sample_engine as [e|]; [by exists e|discriminate].
Qed.

Lemma sample_engine_request : engine_request sample_request.
Proof.
  split; [exact sample_request_ready|split; [apply of_lit_wf; flit|flit]|unfold total_tokens; simpl; lia].
Qed.

Lemma huge_engine_request : engine_request huge_request.
Proof.
  split; [split; [unfold tokens_ok; simpl; lia|unfold tokens_ok; simpl; lia|eexists; reflexivity]
         |split; [apply of_lit_wf; flit|flit]|unfold total_tokens; simpl; lia].
Qed.

Lemma sql_accepts (c : sample_sql) st l : is_Ok (sql_execute c st l).
Proof. by eexists. Qed.

Lemma simulation_completes_witness : ∃ e e' summary,
  sample_engine = Ok e ∧ run (G := Z) sample_engine_env e = Ok (e', summary) ∧
  dget summary "requests_total" = Some (JInt 4).
Proof.
  destruct sample_engine_made as [e He].
  destruct (simulation_completes (G := Z) sample_engine_env (sample_config "least_queue") no_files e)
    as (e' & sm & rs & g & _ & Hrun & _ & Htot).
  - exact He.
  - apply sample_config_ok.
  - exact sample_files_small.
  - reflexivity.
  - exact I.
  - exact sql_accepts.
  - exact sample_workload_ok.
  - by vm_compute.
  - by vm_compute.
  - exists e, e', sm. split; [exact He|]. split; [exact Hrun|exact Htot].
Defined.

Lemma accounts_agree_witness : ∃ e e', sample_engine = Ok e ∧ foldM handle e [sample_request; huge_request] = Ok e' ∧
  length (mc_results (se_metrics e')) = 2%nat.
Proof.
  destruct sample_engine_made as [e He].
  assert (Hrun : running 0 20000 e).
  { apply (make_engine_running sample_engine_env (sample_config "least_queue") no_files e);
      [exact He|apply sample_config_ok|exact sample_files_small|reflexivity|exact I]. }
  destruct (accounts_agree 0 19998 e [sample_request; huge_request] Hrun) as (e' & E & _ & Hlen & _).
  - lia.
  - by vm_compute.
  - exact sql_accepts.
  - constructor; [exact sample_engine_request|constructor; [exact huge_engine_request|constructor]].
  - exists e, e'. split; [exact He|]. split; [exact E|exact Hlen].
Defined.
