(* ===== verification/Sweeps.v ===== *)
(** * [benchmarks/harness.py], [simulators/ray_engine.py]: runs after runs

    A sweep makes one engine per policy and seed.  The runs share what is outside
    them: the files, the Redis server, the SQL server, the Ray queue.  Each run
    starts from what the one before left there ([world]). *)

From S2P Require Import Prelude PyFloat PyOrder PyDict PyStr PyJson PyNum Config Types Samples Records.
From S2P Require Import Metrics Azure Logs Workload Backends RedisStore Cache CacheReady Scheduler Cuda.
From S2P Require Import GpuTopo Topology Policies RemoteScorer ControlPlane CpReady Admission Assembly Engine.

Local Open Scope Z_scope.

Section sweep.
Context {R : Type} `{RedisClient R} {Q : Type} `{BatchQueue Q} {C : Type} `{SqlConnection C} {G : Type} `{Random G}.

(** What outlives a run and the next run finds.  An engine is twice a client of
    the Redis server: its directory reads and writes one hash there, the engine
    itself only writes another; each has its own view of the server. *)
Record world := {
  wo_cache : RedisDecisionStore R;
  wo_decisions : RedisDecisionStore R;
  wo_connection : C;
  wo_queue : option Q;
  wo_files : files
}.

(** The world of an environment that nothing has run in yet. *)
Definition untouched (env : EngineEnv R Q C) (fs : files) : world :=
  {| wo_cache := env_redis_store (ee_control env); wo_decisions := ee_redis_store env;
     wo_connection := ee_connection env; wo_queue := ee_queue env; wo_files := fs |}.

Definition set_world_files (w : world) (fs : files) : world :=
  {| wo_cache := wo_cache w; wo_decisions := wo_decisions w; wo_connection := wo_connection w;
     wo_queue := wo_queue w; wo_files := fs |}.

(** The environment of a run that finds [w]. *)
Definition found (env : EngineEnv R Q C) (w : world) : EngineEnv R Q C :=
  {| ee_control :=
       {| env_read_text := env_read_text (ee_control env); env_redis_store := wo_cache w;
          env_cuda := env_cuda (ee_control env); env_grpc := env_grpc (ee_control env);
          env_cpp := env_cpp (ee_control env); env_ppo := env_ppo (ee_control env);
          env_pyg := env_pyg (ee_control env) |};
     ee_azure := ee_azure env; ee_queue := wo_queue w; ee_dsn := ee_dsn env; ee_psycopg := ee_psycopg env;
     ee_connection := wo_connection w; ee_redis_store := wo_decisions w; ee_read_trace := ee_read_trace env |}.

(** What a finished engine leaves. *)
Definition left_by (e : SimulationEngine R Q C) : world :=
  {| wo_cache := cd_redis_store (cp_cache_directory (se_control_plane e)); wo_decisions := se_redis_store e;
     wo_connection := pg_connection (se_postgres_store e); wo_queue := az_batch_queue (se_azure e);
     wo_files := se_files e |}.

(** One engine in the world [w]: what it leaves and its report. *)
Definition simulate_in (env : EngineEnv R Q C) (w : world) (config : ExperimentConfig) :
    result (world * dict string json) :=
  '(e, summary) ← simulate (G := G) (found env w) config (wo_files w); Ok (left_by e, summary).

(** ** [BenchmarkHarness] and [run_ray_sweep] *)

(** One iteration of the loops of [BenchmarkHarness.run]. *)
Definition sweep_run (env : EngineEnv R Q C) (config : ExperimentConfig) (st : world * list json)
    (policy : string) (seed : Z) : result (world * list json) :=
  '(w, summary) ← simulate_in env st.1 (with_seed (with_policy config policy) seed);
  Ok (w, st.2 ++ [JObj (dset summary "seed" (JInt seed))]).

Definition report_path (output_dir : string) (config : ExperimentConfig) : string :=
  output_dir +:+ "/" +:+ ec_name config +:+ "-benchmark.json".

Definition _write_reports (output_dir : string) (config : ExperimentConfig) (w : world) (reports : list json) : world :=
  let fs := wo_files w in
  set_world_files w
    {| fs_logs := fs_logs fs; fs_csv := fs_csv fs;
       fs_json := dset (fs_json fs) (report_path output_dir config) (JList reports) |}.

(** The pairs in the order of the loops: seeds outside, policies inside. *)
Definition sweep_order (policies : list string) (seeds : list Z) : list (string * Z) :=
  seeds ≫= fun seed => (fun policy => (policy, seed)) <$> policies.

(** [BenchmarkHarness(config, output_dir).run(policies, seeds)] *)
Definition harness_run (env : EngineEnv R Q C) (output_dir : string) (config : ExperimentConfig) (w : world)
    (policies : list string) (seeds : list Z) : result (world * list json) :=
  '(w', reports) ←
    foldM (fun st ps => sweep_run env config st ps.1 ps.2) (w, []) (sweep_order policies seeds);
  Ok (_write_reports output_dir config w' reports, reports).

(** [_run_single]: [load] is [load_config(config_path)]; the report gets the seed
    and the policy. *)
Definition _run_single (env : EngineEnv R Q C) (load : result ExperimentConfig) (w : world)
    (policy : string) (seed : Z) : result (world * json) :=
  config ← load;
  '(w', summary) ← simulate_in env w (with_seed (with_policy config policy) seed);
  Ok (w', JObj (dmerge summary [("seed", JInt seed); ("policy_name", JStr policy)])).

(** [run_ray_sweep] without Ray: policies outside, seeds inside. *)
Definition ray_order (policies : list string) (seeds : list Z) : list (string * Z) :=
  policies ≫= fun policy => (fun seed => (policy, seed)) <$> seeds.

Definition ray_step (env : EngineEnv R Q C) (load : result ExperimentConfig) (st : world * list json) (ps : string * Z) :
    result (world * list json) :=
  '(w, report) ← _run_single env load st.1 ps.1 ps.2; Ok (w, st.2 ++ [report]).

Definition run_ray_sweep (env : EngineEnv R Q C) (load : result ExperimentConfig) (w : world)
    (policies : list string) (seeds : list Z) : result (world * list json) :=
  foldM (ray_step env load) (w, []) (ray_order policies seeds).

(** A Ray cluster: what [ray.init] does, the world each task finds on its worker
    when it starts, and the world the driver is left with.  These are arguments:
    what one task sees of another (they run side by side, on the same servers)
    depends on their timing; while a task runs, its view of the servers is its
    own. *)
Record RayCluster := {
  ray_init : result unit;
  ray_found : nat → world;
  ray_left : world
}.

(** Every pair is a task, in the same order; [ray.get] keeps the order of the
    tasks and raises what a task raised. *)
Definition remote_run (env : EngineEnv R Q C) (load : result ExperimentConfig) (cluster : RayCluster)
    (task : nat * (string * Z)) : result json :=
  snd <$> _run_single env load (ray_found cluster task.1) task.2.1 task.2.2.

(** [(item["policy_name"], item["seed"])] *)
Definition report_key (item : json) : string * Z :=
  match item with
  | JObj d => (match dget d "policy_name" with Some (JStr p) => p | _ => "" end,
               match dget d "seed" with Some (JInt n) => n | _ => 0%Z end)
  | _ => ("", 0%Z)
  end.
Definition report_ltb : string * Z → string * Z → bool := lex_ltb String.eqb str_ltb Z.ltb.

Definition run_ray_remote (env : EngineEnv R Q C) (load : result ExperimentConfig) (cluster : RayCluster)
    (policies : list string) (seeds : list Z) : result (list json) :=
  _ ← ray_init cluster;
  reports ← mapR (remote_run env load cluster) (imap pair (ray_order policies seeds));
  Ok (sort_by report_ltb report_key reports).

(** [run_distributed]: [load] is there when the harness has a path, [ray] when
    the package can be imported. *)
Definition run_distributed (env : EngineEnv R Q C) (output_dir : string) (config : ExperimentConfig)
    (load : option (result ExperimentConfig)) (ray : option RayCluster) (w : world)
    (policies : list string) (seeds : list Z) : result (world * list json) :=
  match load, ray with
  | None, _ => harness_run env output_dir config w policies seeds
  | Some load, None =>
      '(w', reports) ← run_ray_sweep env load w policies seeds;
      Ok (_write_reports output_dir config w' reports, reports)
  | Some load, Some cluster =>
      reports ← run_ray_remote env load cluster policies seeds;
      Ok (_write_reports output_dir config (ray_left cluster) reports, reports)
  end.

(** [run_benchmark_suite] *)
Definition run_benchmark_suite (env : EngineEnv R Q C) (load : result ExperimentConfig) (w : world)
    (policies : list string) (seeds : list Z) : result (world * list json) :=
  config ← load; harness_run env "experiments/results" config w policies seeds.
End sweep.

Arguments world R Q C : clear implicits.
Arguments RayCluster R Q C : clear implicits.

(** ** A store that is off is left alone *)

Section store_frames.
Context {R : Type} `{RedisClient R}.
Implicit Types (d : KVCacheDirectory R) (cp : NimbusMeshControlPlane R).

(** The cache directory's view of the server, in a control plane. *)
Abbreviation cache_store cp := (cd_redis_store (cp_cache_directory cp)).

Lemma score_store d r c p now d' best : score d r c p now = Ok (d', best) → cd_redis_store d' = cd_redis_store d.
Proof.
  unfold score. cbv zeta. intros Hs. apply bind_ok in Hs as (d2 & Hd & Hs). apply bind_ok in Hs as (b & _ & Hs).
  injection Hs as <- <-. assert (Hh : ∀ d0 d1, _hydrate_from_redis d0 r = Ok d1 → cd_redis_store d1 = cd_redis_store d0).
  { intros d0 d1. unfold _hydrate_from_redis. destruct (negb _); [by intros [= <-]|]. intros Hy.
    apply bind_ok in Hy as ([payload|] & _ & Hy); [|by injection Hy as <-].
    apply bind_ok in Hy as (bucket & _ & Hy). injection Hy as <-. by destruct bucket. }
  destruct (dget_or [] _ _); [by apply Hh in Hd|by injection Hd as <-].
Qed.

Lemma observe_store d res d' : rs_enabled (cd_redis_store d) = false → observe d res = Ok d' →
  cd_redis_store d' = cd_redis_store d.
Proof.
  intros Hoff. unfold observe. destruct (negb (res_admitted res)); [by intros [= <-]|]. unfold _trim, _persist_to_redis.
  cbn [set_entries cd_redis_store]. rewrite Hoff. cbn [negb]. intros Hy. apply bind_ok in Hy as (es & _ & Hy). by injection Hy as <-.
Qed.

Lemma candidates_store cp r now l st st' : foldM (add_candidate cp r now) st l = Ok st' →
  cd_redis_store st'.1.1 = cd_redis_store st.1.1.
Proof.
  revert st. induction l as [|x l IH]; intros st; cbn [foldM]; [by intros [= <-]|]. intros Hf.
  apply bind_ok in Hf as (st1 & H1 & Hf). rewrite (IH _ Hf). clear IH Hf. unfold add_candidate in H1.
  apply bind_ok in H1 as ([[d s] c] & Hb & H1). injection H1 as <-. cbn [fst]. destruct st as [[d0 s0] cs0]. cbn [fst] in Hb |- *.
  unfold build_candidate in Hb. apply bind_ok in Hb as ([d1 [hit saved]] & Hs & Hb). apply score_store in Hs. rewrite <- Hs.
  apply bind_ok in Hb as (aff & _ & Hb). apply bind_ok in Hb as (rt & _ & Hb). apply bind_ok in Hb as (b & _ & Hb).
  destruct (estimate_latency_ms _ _ _ _ _ _ _) as [pre dec].
  apply bind_ok in Hb as ([s' pen] & _ & Hb). apply bind_ok in Hb as (delay & _ & Hb). by injection Hb as <- <- <-.
Qed.

Lemma route_store cp r now cp' c dec : route cp r now = Ok (cp', c, dec) → cache_store cp' = cache_store cp.
Proof.
  unfold route. intros Hr. apply bind_ok in Hr as ([cp1 cs] & Hb & Hr). apply bind_ok in Hr as ([pol c'] & _ & Hr).
  injection Hr as <- _ _. unfold build_candidates in Hb. apply bind_ok in Hb as ([[d s] cs0] & Hf & Hb).
  apply bind_ok in Hb as (en & _ & Hb). injection Hb as <- _. exact (candidates_store _ _ _ _ _ _ Hf).
Qed.

Lemma place_store d r c dec p b now d' p' res : rs_enabled (cd_redis_store d) = false →
  place_request d r c dec p b now = Ok (d', p', res) → cd_redis_store d' = cd_redis_store d.
Proof.
  intros Hoff. unfold place_request. intros Hp. apply bind_ok in Hp as (i & _ & Hp). apply bind_ok in Hp as (t & _ & Hp).
  destruct (estimate_latency_ms _ _ _ _ _ _ _) as [pre de]. apply bind_ok in Hp as (d1 & Ho & Hp). injection Hp as <- _ _.
  exact (observe_store _ _ _ Hoff Ho).
Qed.

Lemma execute_store cp r now cp' res : rs_enabled (cache_store cp) = false → execute cp r now = Ok (cp', res) →
  cache_store cp' = cache_store cp.
Proof.
  intros Hoff. unfold execute. intros He. apply bind_ok in He as ([[cp1 c] dec] & Hr & He). apply route_store in Hr.
  apply bind_ok in He as (cl & _ & He). apply bind_ok in He as (p & _ & He). apply bind_ok in He as (b & _ & He).
  destruct (negb (cand_available c)); [by injection He as <- _|].
  apply bind_ok in He as ([[d p'] res'] & Hp & He). apply place_store in Hp; [|by rewrite Hr].
  apply bind_ok in He as (pol & _ & He). injection He as <- _. cbn [cp_update cp_cache_directory]. by rewrite Hp.
Qed.

Lemma map_values_store {V W} (f : KVCacheDirectory R → V → KVCacheDirectory R * W) d vs :
  (∀ d v, cd_redis_store (f d v).1 = cd_redis_store d) → cd_redis_store (map_values f d vs).1 = cd_redis_store d.
Proof.
  intros Hf. revert d. induction vs as [|[k v] vs IH]; intros d; cbn [map_values]; [done|].
  pose proof (Hf d v) as H1. destruct (f d v) as [d1 w]. specialize (IH d1).
  destruct (map_values f d1 vs) as [d2 ws]. cbn [fst] in *. congruence.
Qed.

Lemma refresh_store cp now : cache_store (refresh cp now) = cache_store cp.
Proof.
  unfold refresh. pose proof (map_values_store (refresh_cluster now) (cp_cache_directory cp) (cp_clusters cp)) as Hm.
  destruct (map_values _ _ _) as [d cls]. apply Hm. clear. intros d cl. unfold refresh_cluster.
  pose proof (map_values_store (refresh_pool (cl_cluster_id cl) (effective_congestion cl now) now) d (cl_pools cl)) as Hp.
  destruct (map_values _ _ _) as [d1 ps]. by apply Hp.
Qed.
End store_frames.

(** ** What a run finds outside does not reach its report

    No step of an engine reads a file, the SQL server, the queue or the recorded
    decisions: two engines that differ only there stay alike and report the same. *)

Section alike.
Context {R : Type} `{RedisClient R} {Q : Type} `{BatchQueue Q} {C : Type} `{SqlConnection C} {G : Type} `{Random G}.
Implicit Types (e : SimulationEngine R Q C) (az : AzureInfraSimulator Q) (w : world R Q C).

(** The SQL server accepts what it is sent. *)
Context (Hsql : ∀ (c : C) st l, is_Ok (sql_execute c st l)).

(** The Azure simulator without its queue. *)
Definition unqueued az : AzureInfraSimulator Q := az_update az (az_submitted az) (az_completed az) (az_cluster_costs az) None.

(** Engines that differ at most in the decision store, the SQL connection, the
    queue and the files. *)
Record alike e e' : Prop := {
  al_config : se_config e' = se_config e;
  al_plane : se_control_plane e' = se_control_plane e;
  al_metrics : se_metrics e' = se_metrics e;
  al_azure : unqueued (se_azure e') = unqueued (se_azure e);
  al_sql : pg_enabled (se_postgres_store e') = pg_enabled (se_postgres_store e)
}.

Lemma azure_note_alike az az' r fs fs' : unqueued az' = unqueued az →
  unqueued (az_note_submission az' r fs').1 = unqueued (az_note_submission az r fs).1.
Proof.
  destruct az, az'. unfold unqueued, az_note_submission. cbn. intros [= -> -> -> -> -> ->].
  by destruct (negb _).
Qed.

Lemma azure_record_alike az az' res fs fs' : unqueued az' = unqueued az →
  unqueued (az_record_result az' res fs').1 = unqueued (az_record_result az res fs).1.
Proof.
  destruct az, az'. unfold unqueued, az_record_result. cbn. intros [= -> -> -> -> -> ->].
  by destruct (negb _).
Qed.

Lemma azure_summary_alike az az' : unqueued az' = unqueued az → az_summary az' = az_summary az.
Proof. destruct az, az'. unfold unqueued, az_summary. cbn. by intros [= -> -> -> -> -> ->]. Qed.

Lemma write_result_alike (s s' : PostgresExperimentStore C) name res : pg_enabled s' = pg_enabled s →
  ∀ s1, write_result s name res = Ok s1 → ∃ s1', write_result s' name res = Ok s1' ∧ pg_enabled s1' = pg_enabled s1.
Proof using Hsql.
  intros E s1. unfold write_result. rewrite E. destruct (pg_enabled s) eqn:Es; cbn [negb].
  - intros Hw. apply bind_ok in Hw as (c & _ & Hw). injection Hw as <-.
    match goal with |- context [sql_execute ?a ?b ?l] => destruct (Hsql a b l) as [c' ->] end. by eexists.
  - intros [= <-]. exists s'. by rewrite Es.
Qed.

Lemma write_summary_alike (s s' : PostgresExperimentStore C) name policy rep : pg_enabled s' = pg_enabled s →
  is_Ok (pg_write_summary s' name policy rep).
Proof using Hsql.
  intros _. unfold pg_write_summary. destruct (pg_enabled s'); cbn [negb]; [|by eexists].
  match goal with |- context [sql_execute ?a ?b ?l] => destruct (Hsql a b l) as [c' ->] end. by eexists.
Qed.

Lemma handle_alike e e' r e1 : alike e e' → handle e r = Ok e1 → ∃ e1', handle e' r = Ok e1' ∧ alike e1 e1'.
Proof using Hsql.
  intros [A1 A2 A3 A4 A5]. unfold handle. rewrite A1, A2, A3.
  pose proof (azure_note_alike _ _ r (fs_logs (se_files e)) (fs_logs (se_files e')) A4) as N.
  destruct (az_note_submission (se_azure e) _ _) as [az1 l1]. destruct (az_note_submission (se_azure e') _ _) as [az1' l1'].
  cbn [fst] in N. intros Hh. apply bind_ok in Hh as ([cp3 res] & -> & Hh). cbn [mbind result_bind].
  match type of Hh with context [az_record_result az1 res ?a] => match goal with |- context [az_record_result az1' res ?b] =>
    pose proof (azure_record_alike az1 az1' res a b N) as N2; destruct (az_record_result az1 res a) as [az2 l2];
    destruct (az_record_result az1' res b) as [az2' l2'] end end. cbn [fst] in N2.
  apply bind_ok in Hh as (pg & Hpg & Hh). destruct (write_result_alike _ _ _ _ A5 _ Hpg) as (pg' & -> & E). injection Hh as <-.
  cbn [mbind result_bind]. eexists. split; [reflexivity|]. by constructor.
Qed.

Lemma handles_alike rs e e' e1 : alike e e' → foldM handle e rs = Ok e1 →
  ∃ e1', foldM handle e' rs = Ok e1' ∧ alike e1 e1'.
Proof using Hsql.
  revert e e'. induction rs as [|r rs IH]; intros e e' Ha; cbn [foldM]; [intros [= <-]; by exists e'|].
  intros Hf. apply bind_ok in Hf as (e2 & K2 & Hf). destruct (handle_alike _ _ _ _ Ha K2) as (e2' & -> & Ha2).
  cbn [mbind result_bind]. by apply (IH e2).
Qed.

Lemma export_alike base fs rep tables fs1 : foldM (export_table base rep) fs tables = Ok fs1 →
  ∀ fs', is_Ok (foldM (export_table base rep) fs' tables).
Proof.
  revert fs. induction tables as [|t ts IH]; intros fs; cbn [foldM]; [intros _ fs'; by exists fs'|].
  intros Hf fs'. apply bind_ok in Hf as (fs2 & K2 & Hf). unfold export_table, csv_append in K2 |- *.
  apply bind_ok in K2 as (row & -> & K2). apply bind_ok in K2 as (cells & Ec & _). cbn [mbind result_bind].
  rewrite Ec. cbn [mbind result_bind]. by eapply IH.
Qed.

Lemma report_alike e e' e1 s : alike e e' → report e = Ok (e1, s) → ∃ e1', report e' = Ok (e1', s).
Proof using Hsql.
  intros [A1 A2 A3 A4 A5] Hr. unfold report in *. rewrite A1, A2, A3, (azure_summary_alike _ _ A4).
  apply bind_ok in Hr as ([m s0] & -> & Hr). cbn [mbind result_bind]. apply bind_ok in Hr as (csv & Ecsv & Hr).
  destruct (export_alike _ _ _ _ _ Ecsv (fs_csv (se_files e'))) as [csv' Ecsv']. unfold export_summary at 1. rewrite Ecsv'.
  cbn [mbind result_bind]. apply bind_ok in Hr as (pg & _ & Hr). injection Hr as <- <-.
  match goal with |- context [pg_write_summary ?a ?b ?c ?d] => destruct (write_summary_alike _ _ b c d A5) as [pg' ->] end.
  cbn [mbind result_bind]. eexists. reflexivity.
Qed.
End alike.

(** ** Runs that do not meet *)

Section meet.
Context {R : Type} `{RedisClient R} {Q : Type} `{BatchQueue Q} {C : Type} `{SqlConnection C} {G : Type} `{Random G}.
Implicit Types (env : EngineEnv R Q C) (w : world R Q C) (cluster : RayCluster R Q C).
Context (Hsql : ∀ (c : C) st l, is_Ok (sql_execute c st l)).

Lemma make_engine_alike env w w' config fs fs' e : wo_cache w' = wo_cache w →
  make_engine (found env w) config fs = Ok e → ∃ e', make_engine (found env w') config fs' = Ok e' ∧ alike e e'.
Proof using Hsql.
  intros Ew Hm. unfold make_engine in *.
  assert (Ec : ee_control (found env w') = ee_control (found env w)) by (unfold found; cbn [ee_control]; by rewrite Ew).
  rewrite Ec. apply bind_ok in Hm as (cp & -> & Hm). cbn [mbind result_bind].
  apply bind_ok in Hm as ([az l] & Ha & Hm). cbn [found ee_azure ee_queue ee_dsn ee_psycopg ee_connection ee_redis_store] in *.
  unfold make_azure in *. apply bind_ok in Ha as (groups & -> & Ha). injection Ha as <- <-. cbn [mbind result_bind].
  apply bind_ok in Hm as (pg & Hpg & Hm). injection Hm as <-.
  assert (Hpg' : ∃ pg', make_postgres "" (ee_dsn env) (ee_psycopg env) (wo_connection w') = Ok pg' ∧ pg_enabled pg' = pg_enabled pg).
  { unfold make_postgres in *. cbn [String.eqb pg_enabled] in *. destruct (negb _ && _) eqn:E.
    - unfold _ensure_tables in *. cbn [pg_enabled negb pg_connection] in *.
      apply bind_ok in Hpg as (c1 & _ & Hpg). apply bind_ok in Hpg as (c2 & _ & Hpg). injection Hpg as <-.
      destruct (Hsql (wo_connection w') CreateResults []) as [c1' ->]. cbn [mbind result_bind].
      destruct (Hsql c1' CreateSummaries []) as [c2' ->]. by eexists.
    - injection Hpg as <-. by eexists. }
  destruct Hpg' as (pg' & -> & E). cbn [mbind result_bind]. eexists. split; [reflexivity|]. by constructor.
Qed.

Lemma simulate_alike env w w' config fs fs' e s : wo_cache w' = wo_cache w →
  simulate (G := G) (found env w) config fs = Ok (e, s) → ∃ e', simulate (G := G) (found env w') config fs' = Ok (e', s).
Proof using Hsql.
  intros Ew Hs. unfold simulate in *. apply bind_ok in Hs as (e0 & K0 & Hs).
  destruct (make_engine_alike env w w' config fs fs' e0 Ew K0) as (e0' & -> & Ha). cbn [mbind result_bind].
  unfold run in *. rewrite (al_config _ _ Ha). cbn [found ee_read_trace] in *. apply bind_ok in Hs as ([rs g] & -> & Hs).
  cbn [mbind result_bind]. apply bind_ok in Hs as (e1 & K1 & Hs).
  destruct (handles_alike Hsql rs _ _ _ Ha K1) as (e1' & -> & Ha1). cbn [mbind result_bind].
  exact (report_alike Hsql _ _ _ _ Ha1 Hs).
Qed.

Lemma handles_store rs (e e1 : SimulationEngine R Q C) :
  rs_enabled (cd_redis_store (cp_cache_directory (se_control_plane e))) = false → foldM handle e rs = Ok e1 →
  cd_redis_store (cp_cache_directory (se_control_plane e1)) = cd_redis_store (cp_cache_directory (se_control_plane e)).
Proof.
  revert e. induction rs as [|r rs IH]; intros e Hoff; cbn [foldM]; [by intros [= <-]|]. intros Hf.
  apply bind_ok in Hf as (e2 & K & Hf). assert (E : cd_redis_store (cp_cache_directory (se_control_plane e2)) =
    cd_redis_store (cp_cache_directory (se_control_plane e))).
  { unfold handle in K. destruct (az_note_submission _ _ _) as [az1 l1]. apply bind_ok in K as ([cp3 res] & He & K).
    destruct (az_record_result _ _ _) as [az2 l2]. apply bind_ok in K as (pg & _ & K). injection K as <-. cbn [se_control_plane].
    pose proof (refresh_store (se_control_plane e) (req_arrival_ts r)) as Hr.
    apply execute_store in He; [|cbn [note_submission cp_update cp_cache_directory]; by rewrite Hr].
    rewrite He. cbn [note_submission cp_update cp_cache_directory]. exact Hr. }
  rewrite (IH _ ltac:(by rewrite E) Hf). exact E.
Qed.

(** With Redis off, a run leaves the store it found. *)
Lemma simulate_store env w config fs e s : rs_enabled (wo_cache w) = false →
  simulate (G := G) (found env w) config fs = Ok (e, s) → wo_cache (left_by e) = wo_cache w.
Proof.
  intros Hoff Hs. unfold simulate in Hs. apply bind_ok in Hs as (e0 & K0 & Hs).
  assert (E0 : cd_redis_store (cp_cache_directory (se_control_plane e0)) = wo_cache w).
  { unfold make_engine in K0. apply bind_ok in K0 as (cp & Hcp & K0). apply bind_ok in K0 as ([az l] & _ & K0).
    apply bind_ok in K0 as (pg & _ & K0). injection K0 as <-. unfold make_control_plane in Hcp.
    apply bind_ok in Hcp as (t & _ & Hcp). apply bind_ok in Hcp as (pol & _ & Hcp). by injection Hcp as <-. }
  unfold run in Hs. apply bind_ok in Hs as ([rs g] & _ & Hs). apply bind_ok in Hs as (e1 & K1 & Hs).
  apply handles_store in K1; [|by rewrite E0]. unfold report in Hs. apply bind_ok in Hs as ([m s0] & _ & Hs).
  apply bind_ok in Hs as (csv & _ & Hs). apply bind_ok in Hs as (pg & _ & Hs). injection Hs as <- _. cbn. congruence.
Qed.

(** [s] is the report of run [ps], in whatever world has the cache store of [w]. *)
Definition run_summary env config w (ps : string * Z) (s : dict string json) : Prop :=
  ∀ w', wo_cache w' = wo_cache w →
    ∃ w1, simulate_in (G := G) env w' (with_seed (with_policy config ps.1) ps.2) = Ok (w1, s) ∧ wo_cache w1 = wo_cache w.

Lemma run_summary_intro env config w ps w0 w1 s : rs_enabled (wo_cache w) = false → wo_cache w0 = wo_cache w →
  simulate_in (G := G) env w0 (with_seed (with_policy config ps.1) ps.2) = Ok (w1, s) → run_summary env config w ps s.
Proof using Hsql.
  intros Hoff E0 Hs w' E'. unfold simulate_in in *. apply bind_ok in Hs as ([e s0] & Hs & Hr). injection Hr as _ <-.
  destruct (simulate_alike env w0 w' _ _ (wo_files w') _ _ ltac:(congruence) Hs) as [e' E1].
  exists (left_by e'). split; [by rewrite E1|]. rewrite <- E'. by eapply simulate_store; [congruence|].
Qed.

Lemma harness_reports env config w l st st' : rs_enabled (wo_cache w) = false → wo_cache st.1 = wo_cache w →
  foldM (fun st ps => sweep_run (G := G) env config st ps.1 ps.2) st l = Ok st' →
  ∃ ss, Forall2 (run_summary env config w) l ss ∧
    st'.2 = st.2 ++ zip_with (fun ps s => JObj (dset s "seed" (JInt ps.2))) l ss.
Proof using Hsql.
  intros Hoff. revert st. induction l as [|[p n] l IH]; intros st Hst; cbn [foldM]; [intros [= <-]; exists []; by rewrite app_nil_r|].
  intros Hf. apply bind_ok in Hf as (st1 & K1 & Hf). unfold sweep_run in K1. cbn [fst snd] in K1.
  apply bind_ok in K1 as ([w1 s] & Hs & K1). injection K1 as <-.
  pose proof (run_summary_intro env config w (p, n) _ _ _ Hoff Hst Hs) as Hsum.
  destruct (Hsum st.1 Hst) as (w1' & E1 & Ew). cbn [fst snd] in E1. rewrite Hs in E1. injection E1 as <-.
  destruct (IH (w1, st.2 ++ [JObj (dset s "seed" (JInt n))]) Ew Hf) as (ss & Hss & E).
  exists (s :: ss). split; [by constructor|]. rewrite E. simpl. by rewrite <- app_assoc.
Qed.

Lemma ray_reports env config w l ss : Forall2 (run_summary env config w) l ss → ∀ st, wo_cache st.1 = wo_cache w →
  ∃ w', foldM (ray_step (G := G) env (Ok config)) st l =
    Ok (w', st.2 ++ zip_with (fun ps s => JObj (dmerge s [("seed", JInt ps.2); ("policy_name", JStr ps.1)])) l ss).
Proof.
  induction 1 as [|[p n] s l ss Hs Hl IH]; intros st Hst; cbn [foldM].
  { exists st.1. rewrite app_nil_r. by destruct st. }
  unfold ray_step at 2. unfold _run_single. cbn [fst snd mbind result_bind].
  destruct (Hs st.1 Hst) as (w1 & E & Ew). cbn [fst snd] in E. rewrite E. cbn [mbind result_bind].
  destruct (IH (w1, st.2 ++ [JObj (dmerge s [("seed", JInt n); ("policy_name", JStr p)])]) Ew) as [w' ->].
  exists w'. simpl. by rewrite <- app_assoc.
Qed.

Lemma orders_perm ps ss : sweep_order ps ss ≡ₚ ray_order ps ss.
Proof.
  unfold sweep_order, ray_order. revert ps. induction ss as [|s ss IH]; intros ps.
  { simpl. induction ps as [|p ps IHp]; [done|]. rewrite bind_cons. by simpl. }
  rewrite bind_cons, IH. clear IH. induction ps as [|p ps IHp]; [done|]. rewrite !bind_cons. cbn [fmap list_fmap].
  rewrite <- app_comm_cons. cbn [app]. rewrite <- IHp. apply perm_skip.
  rewrite !app_assoc. f_equiv. apply Permutation_app_comm.
Qed.

(** The summary of one run of a sweep, alone. *)
Definition alone env config w (ps : string * Z) : dict string json :=
  match simulate_in (G := G) env w (with_seed (with_policy config ps.1) ps.2) with Ok (_, s) => s | Err _ => [] end.

Lemma run_summary_alone env config w l ss : Forall2 (run_summary env config w) l ss → ss = map (alone env config w) l.
Proof.
  induction 1 as [|x s l ss Hs Hl IH]; [done|]. simpl. rewrite <- IH. f_equal. unfold alone.
  by destruct (Hs w eq_refl) as (w1 & -> & _).
Qed.

Lemma zip_with_map {A B D} (f : A → B → D) (g : A → B) l : zip_with f l (map g l) = map (fun x => f x (g x)) l.
Proof. induction l as [|x l IH]; [done|]. simpl. by rewrite IH. Qed.

Lemma runs_reorder env config w l k : l ≡ₚ k → Forall2 (run_summary env config w) l (map (alone env config w) l) →
  Forall2 (run_summary env config w) k (map (alone env config w) k).
Proof.
  intros Hp Hl. assert (Hall : Forall (fun x => run_summary env config w x (alone env config w x)) k).
  { rewrite <- Hp. clear Hp. induction l as [|x l IH]; [constructor|]. simpl in Hl. inversion Hl; subst. constructor; auto. }
  clear Hl Hp. induction Hall; simpl; by constructor.
Qed.

Lemma remote_run_report env config w cluster i ps s : wo_cache (ray_found cluster i) = wo_cache w →
  run_summary env config w ps s → remote_run (G := G) env (Ok config) cluster (i, ps) =
    Ok (JObj (dmerge s [("seed", JInt ps.2); ("policy_name", JStr ps.1)])).
Proof.
  intros Hc Hs. unfold remote_run, _run_single. cbn [fst snd mbind result_bind].
  destruct (Hs _ Hc) as (w1 & -> & _). reflexivity.
Qed.

Lemma remote_reports env config w cluster (f : nat → nat) l ss : (∀ i, wo_cache (ray_found cluster i) = wo_cache w) →
  Forall2 (run_summary env config w) l ss →
  mapR (remote_run (G := G) env (Ok config) cluster) (imap (fun i ps => (f i, ps)) l) =
    Ok (zip_with (fun ps s => JObj (dmerge s [("seed", JInt ps.2); ("policy_name", JStr ps.1)])) l ss).
Proof.
  intros Hc Hl. revert f. induction Hl as [|ps s l ss Hs Hl IH]; intros f; [done|].
  rewrite imap_cons. cbn [mapR]. rewrite (remote_run_report _ _ w _ _ _ _ (Hc _) Hs). cbn [mbind result_bind].
  change (imap _ l) with (imap (fun i ps => ((f ∘ S) i, ps)) l). by rewrite IH.
Qed.

(** C17: with Redis off, the runs of a sweep do not affect one another, and the
    local sweep and the distributed one report the same runs.  With an SQL server
    that accepts: if the harness completes its sweep, every report is the summary
    its engine gives alone, in the world the sweep started from, with the seed
    added, and the reports are written; the sweep of the distributed engine
    without Ray completes too and reports the summaries of the same runs, in its
    own order; and so does the sweep on a Ray cluster, with Redis off there too,
    whatever files, decisions, tables and queue its workers find, sorted by policy
    and seed. *)
Theorem sweeps_agree env output_dir config w ps ss w1 reports :
  rs_enabled (wo_cache w) = false →
  harness_run (G := G) env output_dir config w ps ss = Ok (w1, reports) →
  reports = map (fun x => JObj (dset (alone env config w x) "seed" (JInt x.2))) (sweep_order ps ss) ∧
  dget (fs_json (wo_files w1)) (report_path output_dir config) = Some (JList reports) ∧
  sweep_order ps ss ≡ₚ ray_order ps ss ∧
  ∃ w2, run_ray_sweep (G := G) env (Ok config) w ps ss =
    Ok (w2, map (fun x => JObj (dmerge (alone env config w x) [("seed", JInt x.2); ("policy_name", JStr x.1)]))
               (ray_order ps ss)) ∧
  ∀ cluster, ray_init cluster = Ok tt → (∀ i, wo_cache (ray_found cluster i) = wo_cache w) →
    ∃ remote, run_ray_remote (G := G) env (Ok config) cluster ps ss = Ok remote ∧
    remote ≡ₚ map (fun x => JObj (dmerge (alone env config w x) [("seed", JInt x.2); ("policy_name", JStr x.1)])) (sweep_order ps ss) ∧
    StronglySorted (ordered report_ltb report_key) remote.
Proof using Hsql.
  intros Hoff. unfold harness_run. intros Hh. apply bind_ok in Hh as ([w' rep] & Hf & Hh). injection Hh as <- <-.
  destruct (harness_reports env config w _ (w, []) _ Hoff eq_refl Hf) as (sums & Hss & E). simpl in E.
  pose proof (run_summary_alone env config w _ _ Hss) as Es. subst sums rep. rewrite zip_with_map.
  split; [done|]. split; [simpl; apply dget_set_eq|]. split; [apply orders_perm|].
  pose proof (runs_reorder env config w _ _ (orders_perm ps ss) Hss) as Hray.
  destruct (ray_reports env config w _ _ Hray (w, []) eq_refl) as [w2 E2].
  exists w2. split; [unfold run_ray_sweep; rewrite E2; by rewrite zip_with_map|]. intros cluster Hinit Hc. eexists.
  unfold run_ray_remote. rewrite Hinit. cbn [mbind result_bind]. change (imap pair ?l) with (imap (fun i ps => (id i, ps)) l).
  rewrite (remote_reports env config w cluster id _ _ Hc Hray). cbn [mbind result_bind].
  split; [reflexivity|]. rewrite zip_with_map.
  split; [rewrite sort_by_perm; apply Permutation_map; symmetry; apply orders_perm|].
  apply (sort_by_sorted report_ltb report_key (P := pair_dom (fun _ => True) (fun _ => True))).
  apply Forall_forall. by split.
Qed.
End meet.

(** ** At a concrete configuration *)

Abbreviation sample_world := (world sample_redis sample_queue sample_sql).

Definition fresh_world : sample_world := untouched sample_engine_env no_files.

Definition sample_sweep : result (sample_world * list json) :=
  harness_run (G := Z) sample_engine_env "out" (sample_config "least_queue") fresh_world ["least_queue"; "round_robin"] [1; 2].

(** A cluster whose workers find the tables and the files the local sweep left. *)
Definition sample_ray (w : sample_world) : RayCluster sample_redis sample_queue sample_sql :=
  {| ray_init := Ok tt; ray_found i := set_world_files fresh_world (wo_files w); ray_left := w |}.

Lemma sweeps_agree_witness : ∃ w1 reports w2 reports2 remote, sample_sweep = Ok (w1, reports) ∧
  run_ray_sweep (G := Z) sample_engine_env (Ok (sample_config "least_queue")) fresh_world ["least_queue"; "round_robin"] [1; 2] =
    Ok (w2, reports2) ∧
  run_ray_remote (G := Z) sample_engine_env (Ok (sample_config "least_queue")) (sample_ray w1)
    ["least_queue"; "round_robin"] [1; 2] = Ok remote.
Proof.
  assert (Hok : match sample_sweep with Ok _ => true | Err _ => false end = true) by flit.
  destruct sample_sweep as [[w1 reports]|] eqn:E; [|discriminate Hok].
  destruct (sweeps_agree (G := Z) sql_accepts sample_engine_env "out" (sample_config "least_queue") fresh_world _ _ _ _ eq_refl E)
    as (_ & _ & _ & w2 & E2 & Hremote).
  destruct (Hremote (sample_ray w1) eq_refl (fun _ => eq_refl)) as (remote & E3 & _).
  eexists w1, reports, w2, _, remote. split; [reflexivity|]. split; [exact E2|exact E3].
Defined.
