(* ===== verification/RunLog.v ===== *)
(** * The decision log of a run

    [SimulationEngine] hands every result to its [StructuredDecisionLogger],
    whether the request was admitted or refused; the fan-out and the Azure
    simulator write other files meanwhile.  After a run the text of the decision
    log reads back as the results, in the order of the requests. *)

From S2P Require Import Prelude PyFloat PyDict PyStr PyJson PyUtf8 JsonText Files Config Types Samples Records.
From S2P Require Import Metrics Azure Logs LogText Workload Backends RedisStore Cache CacheReady Scheduler Cuda.
From S2P Require Import GpuTopo Topology Policies RemoteScorer ControlPlane CpReady Admission Assembly Engine.

Local Open Scope Z_scope.

(** The log files a run writes besides its decision log. *)
Definition other_logs : list string :=
  fanout_paths log_dir ++
  map (fun n => log_dir +:+ n) ["/azure_monitor.log"; "/azure_cost.log"; "/azure_batch.log"].

(** The lines of a file. *)
Definition lines_of (fs : log_files) (path : string) : list json := dget_or [] fs path.

Section frames.
Context {Q : Type} `{BatchQueue Q}.
Context (path : string) (Hpath : path ∉ other_logs).

Lemma append_line_other fs p payload : p ∈ other_logs → lines_of (append_line fs p payload) path = lines_of fs path.
Proof using Hpath. intros Hp. unfold lines_of, append_line, dget_or. rewrite dget_set_ne; [done|]. by intros ->. Qed.

Lemma truncate_other fs p : p ∈ other_logs → lines_of (truncate fs p) path = lines_of fs path.
Proof using Hpath. intros Hp. unfold lines_of, truncate, dget_or. rewrite dget_set_ne; [done|]. by intros ->. Qed.

Ltac in_logs := apply (bool_decide_unpack (_ ∈ other_logs)); vm_compute; exact I.

Lemma emit_result_other fs r : lines_of (emit_result log_dir fs r) path = lines_of fs path.
Proof using Hpath.
  unfold emit_result, append_both. cbv zeta. destruct (0.0 <? res_cache_hit_ratio r)%float;
    rewrite !append_line_other by in_logs; done.
Qed.

Lemma note_submission_other (az : AzureInfraSimulator Q) r fs : az_log_dir az = log_dir →
  lines_of (az_note_submission az r fs).2 path = lines_of fs path ∧ az_log_dir (az_note_submission az r fs).1 = log_dir.
Proof using Hpath.
  intros Hd. unfold az_note_submission. destruct (negb _); [done|]. split; [|exact Hd].
  cbn [snd]. unfold batch_log. rewrite Hd. apply append_line_other. in_logs.
Qed.

Lemma record_result_other (az : AzureInfraSimulator Q) res fs : az_log_dir az = log_dir →
  lines_of (az_record_result az res fs).2 path = lines_of fs path ∧ az_log_dir (az_record_result az res fs).1 = log_dir.
Proof using Hpath.
  intros Hd. unfold az_record_result. destruct (negb _); [done|]. split; [|exact Hd].
  cbn [snd]. unfold monitor_log, cost_log. rewrite Hd, !append_line_other by in_logs. done.
Qed.

Lemma make_azure_other payload (queue : option Q) fs az fs' : make_azure payload queue log_dir fs = Ok (az, fs') →
  lines_of fs' path = lines_of fs path ∧ az_log_dir az = log_dir.
Proof using Hpath.
  unfold make_azure. intros Hm. apply bind_ok in Hm as (groups & _ & Hm). injection Hm as <- <-.
  split; [|done]. by rewrite !truncate_other by in_logs.
Qed.

Lemma make_fanout_other fs : lines_of (make_fanout log_dir fs) path = lines_of fs path.
Proof using Hpath.
  unfold make_fanout. assert (Hl : Forall (fun p => p ≠ path) (fanout_paths log_dir)).
  { apply Forall_forall. intros p Hp ->. apply Hpath, elem_of_app. by left. }
  revert fs. induction Hl as [|p l Hp _ IH]; intros fs; cbn [fold_left]; [done|]. rewrite IH. unfold lines_of, dtouch, dget_or.
  destruct (dget fs p) eqn:E; [done|]. by rewrite dget_set_ne.
Qed.
End frames.

Section run.
Context {R : Type} `{RedisClient R} {Q : Type} `{BatchQueue Q} {C : Type} `{SqlConnection C} {G : Type} `{Random G}.
Implicit Types (e : SimulationEngine R Q C).

(** A result is that of the request that was executed. *)
Lemma execute_request (cp cp' : NimbusMeshControlPlane R) r now res : execute cp r now = Ok (cp', res) → res_request res = r.
Proof.
  unfold execute. intros He. apply bind_ok in He as ([[cp1 c] dec] & _ & He). apply bind_ok in He as (cl & _ & He).
  apply bind_ok in He as (p & _ & He). apply bind_ok in He as (b & _ & He).
  destruct (negb (cand_available c)); [by injection He as _ <-|]. apply bind_ok in He as ([[d p'] res'] & Hp & He).
  apply bind_ok in He as (pol & _ & He). injection He as _ <-. unfold place_request in Hp.
  apply bind_ok in Hp as (i & _ & Hp). apply bind_ok in Hp as (t & _ & Hp).
  destruct (estimate_latency_ms _ _ _ _ _ _ _) as [pre de]. apply bind_ok in Hp as (d1 & _ & Hp). by injection Hp as _ _ <-.
Qed.

(** What an engine has logged so far. *)
Record logging path e : Prop := {
  lg_path : logger_path (ec_decision_log_path (se_config e)) = Some path;
  lg_azure : az_log_dir (se_azure e) = log_dir;
  lg_lines : lines_of (fs_logs (se_files e)) path = map (fun r => JObj (to_dict r)) (mc_results (se_metrics e))
}.

Lemma handle_logging path e r e1 : path ∉ other_logs → logging path e → handle e r = Ok e1 →
  logging path e1 ∧ map res_request (mc_results (se_metrics e1)) = map res_request (mc_results (se_metrics e)) ++ [r].
Proof.
  intros Hp [L1 L2 L3]. unfold handle. destruct (note_submission_other path Hp (se_azure e) r (fs_logs (se_files e)) L2) as [N1 N2].
  destruct (az_note_submission _ _ _) as [az1 l1]. cbn [fst snd] in N1, N2. intros Hh.
  apply bind_ok in Hh as ([cp3 res] & Hx & Hh). apply execute_request in Hx.
  match type of Hh with context [az_record_result az1 res ?l] =>
    destruct (record_result_other path Hp az1 res l N2) as [M1 M2]; destruct (az_record_result az1 res l) as [az2 l4] end.
  cbn [fst snd] in M1, M2. apply bind_ok in Hh as (pg & _ & Hh). injection Hh as <-. split.
  - constructor; cbn [se_config se_azure se_files se_metrics set_logs fs_logs]; [exact L1|exact M2|].
    rewrite M1, emit_result_other by done. unfold emit. rewrite L1. unfold lines_of, append_line, dget_or in *.
    rewrite dget_set_eq. cbn [from_option id]. rewrite N1, L3. cbn [record mc_note_submission mc_results]. by rewrite map_app.
  - cbn [se_metrics record mc_note_submission mc_results]. by rewrite map_app, <- Hx.
Qed.

Lemma handles_logging path rs e e1 : path ∉ other_logs → logging path e → foldM handle e rs = Ok e1 →
  logging path e1 ∧ map res_request (mc_results (se_metrics e1)) = map res_request (mc_results (se_metrics e)) ++ rs.
Proof.
  intros Hp. revert e. induction rs as [|r rs IH]; intros e Hl; cbn [foldM]; [intros [= <-]; by rewrite app_nil_r|].
  intros Hf. apply bind_ok in Hf as (e2 & K & Hf). destruct (handle_logging path e r e2 Hp Hl K) as [Hl2 E2].
  destruct (IH e2 Hl2 Hf) as [Hl1 E1]. split; [exact Hl1|]. by rewrite E1, E2, <- app_assoc.
Qed.

Lemma make_engine_logging (env : EngineEnv R Q C) config fs e path : path ∉ other_logs → path ≠ "" →
  ec_decision_log_path config = Some path → make_engine env config fs = Ok e →
  logging path e ∧ mc_results (se_metrics e) = [] ∧ se_config e = config.
Proof.
  intros Hp Hne Hc Hm. unfold make_engine in Hm. apply bind_ok in Hm as (cp & _ & Hm). cbv zeta in Hm.
  apply bind_ok in Hm as ([az l] & Ha & Hm). apply bind_ok in Hm as (pg & _ & Hm). injection Hm as <-.
  destruct (make_azure_other path Hp _ _ _ _ _ Ha) as [A1 A2].
  assert (Hl : logger_path (Some path) = Some path) by (by destruct path).
  split; [|done]. constructor; cbn [se_config se_azure se_files se_metrics set_logs fs_logs new_collector mc_results map].
  - by rewrite Hc.
  - exact A2.
  - rewrite A1, make_fanout_other by done. unfold make_logger. rewrite Hc, Hl. unfold lines_of, truncate, dget_or. by rewrite dget_set_eq.
Qed.

(** C37: a run's decision log reads back as its results.  Whenever a simulation
    returns, whatever the file held before, its decision log has one line of text
    per generated request, admitted or refused, in the order of the requests;
    parsing a line gives the recorded result of its request, under the same keys.
    (The log is a file of its own, not one the fan-out or the Azure simulator
    writes, and the results print as JSON: their texts are UTF-8.) *)
Theorem decision_log_read (env : EngineEnv R Q C) config fs e report path :
  simulate (G := G) env config fs = Ok (e, report) →
  ec_decision_log_path config = Some path → path ≠ "" → to_path path ∉ map to_path other_logs →
  Forall (fun r => json_ok (JObj (to_dict r))) (mc_results (se_metrics e)) →
  ∃ requests g lines,
    generate_requests (ec_workload config) (ec_seed config) (ee_read_trace env)
      (make_generator (G := G) (ec_seed config)) = Ok (requests, g) ∧
    map res_request (mc_results (se_metrics e)) = requests ∧
    read_log (log_text (lines_of (fs_logs (se_files e)) path)) = Ok lines ∧
    Forall2 (fun res line => ∃ d, line = JObj d ∧ ∀ k, dget d k = sort_keys <$> dget (to_dict res) k)
      (mc_results (se_metrics e)) lines.
Proof.
  intros Hs Hc Hne Hp Hok. assert (Hp' : path ∉ other_logs).
  { intros Hin. apply Hp. apply list_elem_of_fmap. by exists path. }
  unfold simulate in Hs. apply bind_ok in Hs as (e0 & K0 & Hs).
  destruct (make_engine_logging env config fs e0 path Hp' Hne Hc K0) as (L0 & R0 & C0).
  unfold run in Hs. rewrite C0 in Hs. apply bind_ok in Hs as ([rs g] & Hg & Hs). apply bind_ok in Hs as (e1 & K1 & Hs).
  destruct (handles_logging path rs e0 e1 Hp' L0 K1) as [[_ _ L1] E1]. rewrite R0 in E1.
  assert (E : mc_results (se_metrics e) = mc_results (se_metrics e1) ∧ fs_logs (se_files e) = fs_logs (se_files e1)).
  { unfold Engine.report in Hs. apply bind_ok in Hs as ([m s0] & Hsum & Hs). apply bind_ok in Hs as (csv & _ & Hs).
    apply bind_ok in Hs as (pg & _ & Hs). injection Hs as <- _. split; [|done]. exact (summary_results _ _ _ _ _ _ _ _ Hsum). }
  destruct E as [Er El]. rewrite Er in Hok |- *. exists rs, g. eexists. split; [exact Hg|]. split; [exact E1|].
  rewrite El, L1. split; [by apply log_read, Forall_map|]. rewrite map_map. clear -Hok.
  induction Hok as [|res l Hr _ IH]; cbn [map]; [constructor|]. constructor; [|exact IH].
  eexists. split; [reflexivity|]. intros k. apply sort_keys_get. by destruct Hr.
Qed.
End run.

(** ** At a concrete configuration *)

Definition logged_config : ExperimentConfig :=
  let c := sample_config "least_queue" in
  {| ec_name := ec_name c; ec_seed := ec_seed c; ec_policy := ec_policy c; ec_workload := ec_workload c;
     ec_clusters := ec_clusters c; ec_decision_log_path := Some "logs/sample.jsonl";
     ec_metrics_output_path := ec_metrics_output_path c; ec_fairness_strength := ec_fairness_strength c;
     ec_target_fairness := ec_target_fairness c |}.

Definition sample_run : result (SimulationEngine sample_redis sample_queue sample_sql * dict string json) :=
  simulate (G := Z) sample_engine_env logged_config no_files.

Lemma decision_log_read_witness : ∃ e report path lines, sample_run = Ok (e, report) ∧
  read_log (log_text (lines_of (fs_logs (se_files e)) path)) = Ok lines ∧ length lines = 4%nat.
Proof.
  assert (Hok : match sample_run with
    | Ok (e, _) => forallb (fun r => json_okb (JObj (to_dict r))) (mc_results (se_metrics e)) &&
        (length (mc_results (se_metrics e)) =? 4)%nat
    | Err _ => false end = true) by flit.
  destruct sample_run as [[e report]|] eqn:E; [|discriminate Hok]. apply andb_prop in Hok as [Hj Hn%Nat.eqb_eq].
  unfold sample_run in E. destruct (decision_log_read (G := Z) sample_engine_env logged_config no_files e report "logs/sample.jsonl" E)
    as (requests & g & lines & _ & _ & Hl & Hall); [reflexivity|intros Hp; discriminate Hp| | |].
  - apply (bool_decide_unpack (to_path "logs/sample.jsonl" ∉ map to_path other_logs)). vm_compute. exact I.
  - apply Forall_forall. intros r Hr. rewrite forallb_forall in Hj. apply json_okb_ok, Hj. by apply list_elem_of_In.
  - exists e, report, "logs/sample.jsonl", lines. split; [reflexivity|]. split; [exact Hl|]. rewrite <- Hn. symmetry. exact (Forall2_length _ _ _ Hall).
Defined.
