(* ===== verification/Ledger.v ===== *)
(** * The admission contract

    An abstract machine that knows nothing of caches, topologies, policies,
    scorers, tenants or logs: per pool, the books of what it serves, and one
    step per request, which is refused or booked on the earliest slot of some
    pool that may take it.  The simulation engine refines it: every run of the
    engine is a run of the machine on the results it records, so everything the
    engine adds only chooses among the steps the contract allows. *)

From S2P Require Import Prelude PyFloat PyOrder PyDict PyJson Config Types Samples Records Metrics.
From S2P Require Import Azure Logs Workload Backends RedisStore Cache CacheReady Scheduler Cuda.
From S2P Require Import GpuTopo Topology Policies RemoteScorer ControlPlane CpReady Admission.
From S2P Require Import Assembly Engine.

Local Open Scope Z_scope.

(** ** The machine *)

(** What a pool offers, when its slots fall free, and the footprints of the
    requests it is serving with their completion times. *)
Record books := {
  bk_models : list string;
  bk_outages : list (float * float);
  bk_limit : Z;
  bk_capacity : float;
  bk_slots : list float;
  bk_jobs : list (float * float)
}.

Definition ledger : Type := string → string → option books.

(** At [now], the finished requests are forgotten. *)
Definition expire (now : float) (b : books) : books :=
  {| bk_models := bk_models b; bk_outages := bk_outages b; bk_limit := bk_limit b; bk_capacity := bk_capacity b;
     bk_slots := bk_slots b; bk_jobs := Types.running now (bk_jobs b) |}.

Definition busy (now : float) (b : books) : Z :=
  Z.of_nat (length (filter (fun ts => (now <? ts)%float = true) (bk_slots b))).

(** The memory the requests in service leave. *)
Definition spare (b : books) : float := pymax 0.0 (bk_capacity b - fsum (map snd (bk_jobs b)))%float.

(** The pool may take a request of footprint [m] for [model]. *)
Record fits (now : float) (model : string) (m : float) (b : books) : Prop := {
  fi_up : Forall (fun w => in_window w.1 w.2 now = false) (bk_outages b);
  fi_model : bk_models b = [] ∨ model ∈ bk_models b;
  fi_limit : busy now b < bk_limit b;
  fi_memory : (0.0 <= m)%float ∧ (m <= spare b)%float
}.

(** The request is served by the slot that falls free first, from then on. *)
Inductive booked (now finish m : float) (b : books) : books → Prop :=
  | Booked i t : bk_slots b !! i = Some t → Forall (fun u => (t <= u)%float) (bk_slots b) →
      (now <= finish)%float → (t <= finish)%float →
      booked now finish m b
        {| bk_models := bk_models b; bk_outages := bk_outages b; bk_limit := bk_limit b; bk_capacity := bk_capacity b;
           bk_slots := <[i := finish]> (bk_slots b); bk_jobs := bk_jobs b ++ [(finish, m)] |}.

(** The footprint of a served request. *)
Definition footprint (res : RequestResult) : float :=
  let r := res_request res in
  estimate_request_memory_gb (req_prompt_tokens r) (req_generation_tokens r) (req_model_id r) (res_cache_saved_tokens res).

(** One request, of which [res] is the result. *)
Inductive serve (L : ledger) (res : RequestResult) : ledger → Prop :=
  | Refused L' : res_admitted res = false →
      (∀ c k, L' c k = expire (req_arrival_ts (res_request res)) <$> L c k) → serve L res L'
  | Served L' b b' :
      let now := req_arrival_ts (res_request res) in
      let c := dec_cluster_id (res_decision res) in
      let k := dec_pool_id (res_decision res) in
      res_admitted res = true → L c k = Some b →
      fits now (req_model_id (res_request res)) (footprint res) (expire now b) →
      booked now (res_completion_ts res) (footprint res) (expire now b) b' →
      (∀ c2 k2, L' c2 k2 = if decide ((c2, k2) = (c, k)) then Some b' else expire now <$> L c2 k2) →
      serve L res L'.

Inductive serve_all : ledger → list RequestResult → ledger → Prop :=
  | Serve_nil L : serve_all L [] L
  | Serve_cons L L1 L2 res results : serve L res L1 → serve_all L1 results L2 → serve_all L (res :: results) L2.

(** ** The books of a control plane *)

Definition books_of (cl : ClusterRuntime) (p : PoolRuntime) : books :=
  {| bk_models := pool_supported_models p; bk_outages := cl_failure_windows cl; bk_limit := pool_queue_limit p;
     bk_capacity := pool_memory_gb p; bk_slots := pool_slot_available_at p; bk_jobs := pool_inflight_memory p |}.

Definition ledger_of (cls : dict string ClusterRuntime) : ledger :=
  fun c k => cl ← dget cls c; p ← dget (cl_pools cl) k; Some (books_of cl p).

(** ** The steps of the control plane *)

Lemma headroom_spare cl p m : pool_inv p → (0.0 <= pool_cache_reserved_gb p)%float →
  (memory_headroom_gb p <? m)%float = false → (0.0 <= m)%float → (m <= spare (books_of cl p))%float.
Proof.
  intros Hi Hr Hm H0. eapply fle_trans.
  { apply (flt_nle _ _ (headroom_not_nan p) (fle_not_nan_r _ _ H0)). exact Hm. }
  unfold memory_headroom_gb, spare. simpl. rewrite <- (pi_active _ Hi).
  set (a := (pool_memory_gb p - pool_active_memory_gb p)%float).
  assert (Hzero : (0.0 <= pymax 0.0 a)%float) by (apply pymax_ge_l; nn).
  set (s := (a - pool_cache_reserved_gb p)%float). unfold pymax at 1. destruct (0.0 <? s)%float eqn:Es; [|exact Hzero].
  assert (Ns : s ≠ NaN) by exact (flt_not_nan_r _ _ Es).
  assert (Na : a ≠ NaN) by (intros Ea; apply Ns; unfold s; by rewrite Ea).
  assert (Hsub : (a - 0.0)%float = a).
  { assert (Wa : wf a) by apply fsub_wf. rewrite <- (fadd_0_r a Wa) at 2. with_strategy transparent [fsub] unfold fsub. f_equal; flit. }
  assert (Hsa : (s <= a)%float).
  { rewrite <- Hsub. apply fsub_mono; [by apply fle_refl|exact Hr|exact Ns|by rewrite Hsub]. }
  eapply fle_trans; [exact Hsa|]. by apply pymax_ge_r; [nn|].
Qed.

Section steps.
Context {R : Type} `{RedisClient R}.
Implicit Types (cp : NimbusMeshControlPlane R) (r : InferenceRequest).

Lemma ledger_refresh cp now c k : dict_wf (cd_entries (cp_cache_directory cp)) →
  ledger_of (cp_clusters (refresh cp now)) c k = expire now <$> ledger_of (cp_clusters cp) c k.
Proof.
  intros Hwf. destruct (refresh_alt cp now Hwf) as (d' & _ & ->). unfold ledger_of. simpl.
  rewrite (dget_map_snd (refreshed_cluster (cp_cache_directory cp) now)).
  destruct (dget (cp_clusters cp) c) as [cl|]; [|done]. simpl.
  rewrite (dget_map_snd (refreshed_pool (cp_cache_directory cp) now cl)).
  destruct (dget (cl_pools cl) k) as [p|]; [|done]. simpl. f_equal.
  unfold refreshed_pool, books_of, expire. by rewrite pool_refresh_alt.
Qed.

Lemma refreshed_reserved room cp now cl p : cp_ready room cp →
  (cl, p) ∈ cluster_pools (cp_clusters (refresh cp now)) → (0.0 <= pool_cache_reserved_gb p)%float.
Proof.
  intros Hcp. destruct (refresh_alt cp now) as (d' & _ & ->); [apply Hcp|]. simpl.
  intros (cl0 & p0 & _ & _ & ->)%refreshed_pools_elem. simpl.
  by apply (reserved_nonneg room), Hcp.
Qed.

(** The pool an execution chose takes the request, when it is admitted. *)
Lemma execute_serves cp r now room cp' res : cp_ready (room + 1) cp → 0 <= room → request_ready r → time_ok now →
  (∀ cl p, (cl, p) ∈ cluster_pools (cp_clusters cp) → (0.0 <= pool_cache_reserved_gb p)%float) →
  execute cp r now = Ok (cp', res) → res_request res = r →
  if res_admitted res then
    let c := dec_cluster_id (res_decision res) in
    let k := dec_pool_id (res_decision res) in
    ∃ b b', ledger_of (cp_clusters cp) c k = Some b ∧ fits now (req_model_id r) (footprint res) b ∧
      booked now (res_completion_ts res) (footprint res) b b' ∧
      ∀ c2 k2, ledger_of (cp_clusters cp') c2 k2 =
        if decide ((c2, k2) = (c, k)) then Some b' else ledger_of (cp_clusters cp) c2 k2
  else cp_clusters cp' = cp_clusters cp.
Proof.
  intros Hcp Hroom Hrr Hnow Hres He Hreq. pose proof (cr_wf _ _ Hcp) as Hwf.
  destruct (execute_outcome _ _ _ _ _ Hwf He) as (cl & p & x & Hin & Hd & Ho).
  pose proof (outcome_admitted _ _ _ _ _ _ _ _ Ho) as Hax.
  destruct (cluster_pools_get _ _ _ Hwf Hin) as [G1 G2].
  destruct Ho as [cp1 dec Hr Hx|cp1 dec b d' p' res pol Hr Hx Hb Hp _].
  { simpl. by destruct (route_inv _ _ _ _ _ _ Hr) as (-> & _). }
  rewrite Hax, Hx. destruct (route_inv _ _ _ _ _ _ Hr) as (Hcl & Edec & _).
  destruct (route_ready cp r now (room + 1) Hcp Hrr) as (cp2 & x2 & dec2 & Er & _ & Hsig & _).
  rewrite Hr in Er. injection Er as <- <- <-.
  assert (Hpr : pool_ready (cp_topology cp) cl p).
  { pose proof (cr_pools _ _ Hcp) as Hps. rewrite Forall_forall in Hps. exact (Hps _ Hin). }
  destruct Hpr as [H1 H2 [H3 H3'] H4 H5 H6 H7], Hrr as [Q1 Q2 _]. destruct (backends_lawful _ _ Hb) as [HL _].
  assert (Hok : placement_ok r x p now) by (split; [by split|exact Hsig|exact H2|exact Hnow]).
  destruct (place_request_placed _ _ _ _ _ _ _ _ _ Hok Hp) as (i & t & m & [P1 P2 P3 P4 P5 P6 P7 P8 P9 P10 _ _ [P11 P12] P13]).
  destruct (placed_occupies _ _ _ _ _ _ _ _ _ _ Hp) as (_ & Esv & _).
  pose proof Hd as [D1 D2 _ _ _]. simpl in D1, D2. rewrite P12, Edec. simpl. rewrite D1, D2.
  assert (Em : footprint res = m) by (unfold footprint; by rewrite P11, Esv).
  rewrite Em. exists (books_of cl p). eexists. split; [unfold ledger_of; rewrite G1; simpl; by rewrite G2|].
  assert (Hct : can_take now r (cand_expected_cache_saved_tokens x) cl p) by by apply (describes_can_take _ _ _ _ _ Hd).
  destruct Hct as [C1 C2 C3 C4]. rewrite <- P9 in C4.
  assert (Hm0 : (0.0 <= m)%float) by (rewrite P9; apply estimate_memory_nonneg).
  split; [|split].
  - constructor; [|..|split; [exact Hm0|by apply headroom_spare; [..|exact Hm0]; try done; apply (Hres cl)]].
    + apply Forall_forall. intros w Hw. apply not_true_iff_false. intros E.
      enough (unavailable cl now = true) by congruence. apply existsb_exists. exists w. by rewrite <- list_elem_of_In.
    + unfold model_supported in C2. simpl. destruct (pool_supported_models p); [by left|right]. by apply bool_decide_eq_true in C2.
    + exact C3.
  - apply (Booked _ _ _ _ i t); [exact P1|exact P2|eapply fle_trans; [exact P4|exact P6]|eapply fle_trans; [exact P5|exact P6]].
  - intros c2 k2. subst p'. unfold ledger_of. simpl. rewrite Hcl.
    destruct (decide (c2 = cl_cluster_id cl)) as [->|Hc].
    + rewrite dget_set_eq, G1. simpl. destruct (decide (k2 = pool_pool_id p)) as [->|Hk].
      * rewrite dget_set_eq. by rewrite decide_True.
      * rewrite dget_set_ne by done. rewrite decide_False by congruence. done.
    + rewrite dget_set_ne by done. by rewrite decide_False by congruence.
Qed.
End steps.

(** ** The engine *)

Section refinement.
Context {R : Type} `{RedisClient R}.
Context {Q : Type} `{BatchQueue Q} {C : Type} `{SqlConnection C}.
Context (Hsql : ∀ (c : C) st l, is_Ok (sql_execute c st l)).
Implicit Types (e : SimulationEngine R Q C) (r : InferenceRequest).

Definition engine_ledger e : ledger := ledger_of (cp_clusters (se_control_plane e)).

(** What [handle] did, once it returned. *)
Lemma handle_executes e r e' : handle e r = Ok e' → ∃ res,
  execute (note_submission (refresh (se_control_plane e) (req_arrival_ts r)) r) r (req_arrival_ts r) =
    Ok (se_control_plane e', res) ∧
  mc_results (se_metrics e') = mc_results (se_metrics e) ++ [res].
Proof.
  unfold handle. intros He. destruct (az_note_submission _ _ _) as [az1 logs1].
  apply bind_ok in He as ([cp3 res] & Ex & He). destruct (az_record_result _ _ _) as [az2 logs4].
  apply bind_ok in He as (pg & _ & He). injection He as <-. by exists res.
Qed.

Lemma handle_serves n room e r : running n (room + 1) e → 0 <= room → Z.of_nat n < 2 ^ 53 → engine_request r →
  ∃ e' res, handle e r = Ok e' ∧ running (S n) room e' ∧ res_request res = r ∧
    mc_results (se_metrics e') = mc_results (se_metrics e) ++ [res] ∧
    serve (engine_ledger e) res (engine_ledger e').
Proof.
  intros Hrun Hroom Hn Hr. destruct (handle_ok Hsql n room e r Hrun Hroom Hn Hr) as (e' & Eh & Hrun' & _ & _ & res & Hres & Hreq).
  destruct (handle_executes e r e' Eh) as (res' & Ex & Hres'). rewrite Hres in Hres'. apply (inj (app _)) in Hres'.
  injection Hres' as <-. exists e', res. do 4 (split; [done|]).
  pose proof (ru_ready _ _ _ Hrun) as Hcp. destruct Hr as [Q1 Q2 _].
  set (now := req_arrival_ts r) in *. set (cp1 := refresh (se_control_plane e) now) in *.
  assert (Hcp1 : cp_ready (room + 1) (note_submission cp1 r)) by by apply note_submission_ready, refresh_ready.
  assert (Hres1 : ∀ cl p, (cl, p) ∈ cluster_pools (cp_clusters (note_submission cp1 r)) → (0.0 <= pool_cache_reserved_gb p)%float).
  { intros cl p Hin. exact (refreshed_reserved (room + 1) (se_control_plane e) now cl p Hcp Hin). }
  pose proof (execute_serves _ r now room _ res Hcp1 Hroom Q1 Q2 Hres1 Ex Hreq) as Hs.
  assert (Hexp : ∀ c k, ledger_of (cp_clusters (note_submission cp1 r)) c k = expire now <$> engine_ledger e c k).
  { intros c k. apply (ledger_refresh (se_control_plane e) now c k). apply Hcp. }
  destruct (res_admitted res) eqn:Ha.
  - destruct Hs as (b1 & b' & Hb & Hfit & Hbook & Hother). rewrite Hexp in Hb.
    apply fmap_Some in Hb as (b & Hb & ->). eapply (Served _ _ _ b b'); rewrite ?Hreq; try done.
    intros c2 k2. unfold engine_ledger at 1. rewrite Hother. case_decide; [done|]. apply Hexp.
  - apply Refused; [done|]. intros c k. unfold engine_ledger at 1. rewrite Hs, Hreq. apply Hexp.
Qed.

(** C3: refinement.  Whatever the configuration, the policy, the scorers, the
    cache and the topology, a run of the engine over any requests is a run of
    the admission machine on the results the engine records, from the books of
    its pools to the books of its pools: every request is refused and books
    nothing, or is booked once, on the first slot to fall free of a pool that is
    up, supports the model, is under its limit of busy slots and has the memory
    to spare for the request's footprint. *)
Theorem engine_refines_ledger n room e rs : running n (Z.of_nat (length rs) + room) e → 0 <= room →
  Z.of_nat (n + length rs) < 2 ^ 53 → Forall engine_request rs →
  ∃ e' results, foldM handle e rs = Ok e' ∧ map res_request results = rs ∧
    mc_results (se_metrics e') = mc_results (se_metrics e) ++ results ∧
    serve_all (engine_ledger e) results (engine_ledger e').
Proof.
  intros Hrun Hroom Hn Hrs. revert n e Hrun Hn. induction Hrs as [|r rs Hr Hrs IH]; intros n e Hrun Hn.
  { exists e, []. rewrite app_nil_r. split; [done|]. split; [done|]. split; [done|constructor]. }
  simpl in Hn, Hrun. replace (Z.of_nat (S (length rs)) + room) with (Z.of_nat (length rs) + room + 1) in Hrun by lia.
  destruct (handle_serves n _ e r Hrun ltac:(lia) ltac:(lia) Hr) as (e1 & res & E1 & Hrun1 & Hreq & Hres & Hserve).
  destruct (IH (S n) e1 Hrun1 ltac:(lia)) as (e' & results & E' & Hmap & Hresults & Hall).
  exists e', (res :: results). cbn [foldM]. rewrite E1. cbn [mbind result_bind]. split; [exact E'|].
  split; [simpl; by rewrite Hreq, Hmap|]. split; [by rewrite Hresults, Hres, <- app_assoc|]. by econstructor.
Qed.
End refinement.

(** ** At concrete requests *)

Lemma engine_refines_ledger_witness : ∃ e e' results, sample_engine = Ok e ∧
  foldM handle e [sample_request; huge_request] = Ok e' ∧ length results = 2%nat ∧
  serve_all (engine_ledger e) results (engine_ledger e').
Proof.
  destruct sample_engine_made as [e He].
  assert (Hrun : Engine.running 0 20000 e).
  { apply (make_engine_running sample_engine_env (sample_config "least_queue") no_files e);
      [exact He|apply sample_config_ok|exact sample_files_small|reflexivity|exact I]. }
  destruct (engine_refines_ledger sql_accepts 0 19998 e [sample_request; huge_request] Hrun)
    as (e' & results & E & Hmap & _ & Hall).
  - lia.
  - by vm_compute.
  - constructor; [exact sample_engine_request|constructor; [exact huge_engine_request|constructor]].
  - exists e, e', results. split; [exact He|]. split; [exact E|]. split; [|exact Hall].
    rewrite <- (length_map res_request), Hmap. reflexivity.
Defined.
