(* ===== verification/Scripts.v ===== *)
(** * The command lines over the engine and the pipeline ([scripts/])

    Each [main] is a function from its parsed arguments to what it prints.  What
    a run writes is in the engine's files; a report printed with sorted keys is
    read back as the same report ([printed_report]), and the plot of a sweep
    shows the reported figures ([sweep_plotted]). *)

From S2P Require Import Prelude PyFloat PyOrder PyDict PyStr PyJson PyNum PyRepr JsonText Files Config Types Samples Records.
From S2P Require Import Metrics Azure Logs Workload Normalizers Backends RedisStore Cache CacheReady Scheduler Cuda.
From S2P Require Import GpuTopo Topology Policies RemoteScorer ControlPlane CpReady Admission Assembly Engine Sweeps.

Local Open Scope Z_scope.

(** [json.dumps(value, indent=2, sort_keys=True)] *)
Definition pretty_json (value : json) : string := dumps_sorted (Some 2%nat) value.

Section engine_scripts.
Context {R : Type} `{RedisClient R} {Q : Type} `{BatchQueue Q} {C : Type} `{SqlConnection C} {G : Type} `{Random G}.
Context (env : EngineEnv R Q C).

(** [run_simulation.py]: [load] is [load_config] of the given path. *)
Definition simulation_main (load : result ExperimentConfig) (policy : option string) (w : world R Q C) :
    result (world R Q C * string) :=
  config ← load;
  let config := match policy with Some (String _ _ as p) => with_policy config p | _ => config end in
  '(w', report) ← simulate_in (G := G) env w config;
  Ok (w', pretty_json (JObj report)).

(** [run_benchmarks.py] *)
Definition benchmarks_main (load : result ExperimentConfig) (policies : list string) (seeds : list Z) (distributed : bool)
    (ray : option (RayCluster R Q C)) (w : world R Q C) : result (world R Q C * string) :=
  config ← load;
  let output_dir := "experiments/results" in
  '(w', reports) ←
    (if distributed : bool then run_distributed (G := G) env output_dir config (Some load) ray w policies seeds
     else harness_run (G := G) env output_dir config w policies seeds);
  Ok (w', pretty_json (JList reports)).

(** [run_ray_benchmarks.py] *)
Definition ray_benchmarks_main (load : result ExperimentConfig) (policies : list string) (seeds : list Z) (output : string)
    (ray : option (RayCluster R Q C)) (w : world R Q C) : result (world R Q C * string) :=
  '(w', reports) ← match ray with
                   | None => run_ray_sweep (G := G) env load w policies seeds
                   | Some cluster =>
                       reports ← run_ray_remote (G := G) env load cluster policies seeds; Ok (ray_left cluster, reports)
                   end;
  let fs := wo_files w' in
  let fs' := {| fs_logs := fs_logs fs; fs_csv := fs_csv fs; fs_json := dset (fs_json fs) output (JList reports) |} in
  Ok (set_world_files w' fs',
      dumps_indent 2 (JObj [("output", JStr (path_str (to_path output))); ("reports", JInt (Z.of_nat (length reports)))])).

(** What the script prints is the report: parsing it gives the same values under
    the same keys. *)
Lemma printed_report load policy w w' text : simulation_main load policy w = Ok (w', text) →
  ∃ report, (json_ok (JObj report) → ∃ read, loads text = Ok (JObj read) ∧
    ∀ k, dget read k = sort_keys <$> dget report k) ∧
    ∃ config, simulate_in (G := G) env w config = Ok (w', report).
Proof.
  unfold simulation_main. intros Hm. apply bind_ok in Hm as (config & _ & Hm). cbv zeta in Hm.
  apply bind_ok in Hm as ([w1 report] & Hs & Hm). injection Hm as <- <-. exists report. split; [|by eexists].
  intros Hok. unfold pretty_json. rewrite loads_dumps_sorted by done. cbn [sort_keys]. eexists. split; [reflexivity|].
  intros k. apply sort_keys_get. by destruct Hok.
Qed.
End engine_scripts.

(** [normalize_workloads.py]: the configuration file is read, parsed and has to be
    a mapping. *)
Definition _load_pipeline_config (yaml_load : option (string → result json)) (path : string) : io (dict string json) :=
  load ← io_lift (get_or RuntimeError yaml_load);
  source ← io_read (to_path path);
  payload ← io_lift (load source);
  io_lift (match payload with JObj d => Ok d | _ => Err ValueError end).

Definition normalize_main (py_hash : json → Z) (read_csv : csv_files → string → result (list (dict string string)))
    (read_json : string → result json) (yaml_load : option (string → result json)) (config : string) (files : csv_files) :
    io (csv_files * string) :=
  d ← _load_pipeline_config yaml_load config;
  '(files', outputs) ← io_lift (run_pipeline py_hash read_csv read_json (Some (JObj d)) files);
  mret (files', dumps_indent 2 (JList outputs)).

(** [topology/gpu_topology_parser.py]: [from_file] and the command line, which
    writes the snapshot or prints it. *)
Definition from_file (path : string) : io GpuTopologySnapshot :=
  contents ← io_read (to_path path); io_lift (from_text contents).

Definition gpu_topology_main (input : string) (output : option string) : io (option string) :=
  parsed ← from_file input;
  snapshot ← io_lift (gt_to_dict parsed);
  let payload := pretty_json snapshot in
  match output with
  | Some (String _ _ as path) => _ ← io_write (to_path path) payload; mret None
  | _ => mret (Some payload)
  end.

(** A parsed topology written to a file is read back from it. *)
Lemma topology_written input output d d' : gpu_topology_main input (Some output) d = (Ok None, d') →
  ∃ contents s snapshot, (io_read (to_path input) d).1 = Ok contents ∧ from_text contents = Ok s ∧
    gt_to_dict s = Ok snapshot ∧
    (json_ok snapshot → (text ← (io_read (to_path output) d').1; loads text) = Ok (sort_keys snapshot)).
Proof.
  intros Hm. unfold gpu_topology_main, from_file in Hm. apply bind_io_ok in Hm as (s & d1 & Hs & Hm).
  apply bind_io_ok in Hs as (contents & d2 & Hr & Hs). injection Hs as Hs <-.
  apply bind_io_ok in Hm as (snapshot & d3 & Hg & Hm). injection Hg as Hg <-. cbv zeta in Hm.
  assert (E : d2 = d) by (unfold io_read in Hr; by injection Hr). subst d2.
  exists contents, s, snapshot. split; [by rewrite Hr|]. split; [done|]. split; [done|]. intros Hok.
  destruct output as [|c output]; [done|]. apply bind_io_ok in Hm as ([] & d4 & Hw & Hm). injection Hm as <-.
  rewrite (write_read _ _ _ _ Hw). cbn [fst mbind result_bind]. by apply loads_dumps_sorted.
Qed.

(** ** On a disk *)

Example topology_script :
  let matrix := "        GPU0 GPU1
GPU0    X    NV2
GPU1    NV2  X" in
  let d : disk := <[["topo.txt"] := Text matrix]> ∅ in
  (gpu_topology_main "topo.txt" None d).1 =
    (s ← from_text matrix; j ← gt_to_dict s; Ok (Some (pretty_json j))) ∧
  (gpu_topology_main "missing" None d).1 = Err FileNotFoundError.
Proof. vm_compute. split; reflexivity. Qed.

(** ** [plot_results.py]

    What is drawn is the list of labels and the list of bar heights. *)

Definition latency_csv : string := "results/latency.csv".

Definition plot_label (row : dict string string) : result string :=
  config ← get_or KeyError (dget row "config_name"); policy ← get_or KeyError (dget row "policy_name");
  Ok (config +:+ ":" +:+ policy).
Definition plot_height (row : dict string string) : result float :=
  cell ← get_or KeyError (dget row "p95_latency_ms"); float_of_str cell.

(** [main]: without matplotlib, or without results, the script gives up. *)
Definition plot_main (matplotlib : bool) (files : csv_files) : result (list string * list float * string) :=
  _ ← raise_if (negb matplotlib) SystemExit;
  _ ← get_or SystemExit (dget files latency_csv);
  let rows := match csv_reread files latency_csv with Some (_, rows) => rows | None => [] end in
  labels ← mapR plot_label rows;
  p95 ← mapR plot_height rows;
  Ok (labels, p95, "wrote results/latency_comparison.png").

(** Two names joined by a colon are read one by one. *)
Lemma newline_read_colon a b : newline_read (a +:+ ":" +:+ b) = newline_read a +:+ ":" +:+ newline_read b.
Proof. exact (newline_read_app a (chr 58) b ltac:(discriminate)). Qed.

(** A report with the fields of the tables, that says what the plot needs. *)
Record plottable (report : dict string json) (bar : string * float) : Prop := {
  pl_fields t k : t ∈ csv_tables → k ∈ t.2 → is_Some (dget report k);
  pl_label : ∃ config policy, dget report "config_name" = Some (JStr config) ∧
    dget report "policy_name" = Some (JStr policy) ∧ bar.1 = newline_read (config +:+ ":" +:+ policy);
  pl_height : dget report "p95_latency_ms" = Some (JFloat bar.2);
  pl_float : wf bar.2
}.

Definition latency_fields : list string :=
  ["config_name"; "policy_name"; "p50_latency_ms"; "p95_latency_ms"; "p99_latency_ms"; "mean_absolute_latency_error_ms"].

(** The table of latencies after some exports. *)
Definition latency_table (files : csv_files) (rows : list (list json)) : Prop :=
  dget files latency_csv = Some (map JStr latency_fields :: rows) ∨ (rows = [] ∧ dget files latency_csv = None).

Lemma latency_exported files rows report bar : latency_table files rows → plottable report bar →
  ∃ files' row, export_summary csv_dir files report = Ok files' ∧ latency_table files' (rows ++ [row]) ∧
    plot_label (zip latency_fields (map read_cell row)) = Ok bar.1 ∧ plot_height (zip latency_fields (map read_cell row)) = Ok bar.2.
Proof.
  intros Ht [Hf (config & policy & Hc & Hp & ->) Hh Hw].
  destruct (export_rows csv_dir files report Hf) as (files' & He & Hrows).
  destruct (Hrows ("latency.csv", latency_fields)) as (row & Hrow & Hd); [by left|]. cbn [fst snd] in Hrow, Hd.
  change (csv_dir +:+ "/" +:+ "latency.csv") with latency_csv in Hd. exists files', row. split; [exact He|]. split.
  { left. rewrite Hd. destruct Ht as [-> | [-> ->]]; reflexivity. }
  unfold latency_fields in Hrow.
  repeat match goal with H : Forall2 _ (_ :: _) ?l |- _ => inversion H; clear H; subst | H : Forall2 _ [] ?l |- _ => inversion H; clear H; subst end.
  repeat match goal with H : dget report ?k = Some ?v, H' : dget report ?k = Some ?w |- _ => rewrite H in H'; injection H' as -> end.
  split; [rewrite newline_read_colon; reflexivity|].
  change (float_of_str (read_cell (JFloat bar.2)) = Ok bar.2). rewrite read_float by done. exact (float_repr_exact bar.2 Hw).
Qed.

(** The bar of a report: the two names, as the table's text gives them back. *)
Definition report_bar (report : json) : string * float :=
  match report with
  | JObj d => (newline_read (py_str (jget d "config_name" JNull) +:+ ":" +:+ py_str (jget d "policy_name" JNull)),
               match dget d "p95_latency_ms" with Some (JFloat x) => x | _ => NaN end)
  | _ => ("", NaN)
  end.

(** The rows of a table against the reports they come from. *)
Definition table_of (rows : list (list json)) (reports : list json) : Prop :=
  Forall2 (fun row report => plot_label (zip latency_fields (map read_cell row)) = Ok (report_bar report).1 ∧
    plot_height (zip latency_fields (map read_cell row)) = Ok (report_bar report).2) rows reports.

Lemma plot_table files rows reports : latency_table files rows → table_of rows reports → reports ≠ [] →
  plot_main true files =
    Ok (map (fun r => (report_bar r).1) reports, map (fun r => (report_bar r).2) reports, "wrote results/latency_comparison.png").
Proof.
  intros Ht Hr Hne. assert (Hd : dget files latency_csv = Some (map JStr latency_fields :: rows)).
  { destruct Ht as [Ht|[-> _]]; [exact Ht|]. exfalso. apply Hne. by inversion Hr. }
  unfold plot_main, csv_reread. rewrite Hd. cbn [raise_if negb mbind result_bind get_or].
  change (map read_cell (map JStr latency_fields)) with latency_fields.
  assert (E : mapR plot_label (map (fun row => zip latency_fields (map read_cell row)) rows) = Ok (map (fun r => (report_bar r).1) reports) ∧
    mapR plot_height (map (fun row => zip latency_fields (map read_cell row)) rows) = Ok (map (fun r => (report_bar r).2) reports)).
  { clear -Hr. induction Hr as [|row report rows reports [H1 H2] _ [IH1 IH2]]; [done|]. cbn [map mapR].
    rewrite H1, H2, IH1, IH2. done. }
  destruct E as [-> ->]. reflexivity.
Qed.

(** ** A benchmark and its plot *)

Lemma fround_wf_any nd a : 0 <= nd → wf (fround nd a).
Proof.
  intros Hn. with_strategy transparent [fround] unfold fround. destruct a; try done. apply frnd_wf. by apply Z.pow_pos_nonneg.
Qed.

Lemma summary_plottable m d policy config slots memory m' report azure :
  summary m d policy config slots memory = Ok (m', report) →
  plottable (dset report "azure_summary" azure) (report_bar (JObj (dset report "azure_summary" azure))).
Proof.
  unfold summary. cbv zeta. intros H.
  repeat match type of H with (_ ≫= _) = Ok _ => apply bind_ok in H as (? & _ & H) | (let '(_, _) := ?x in _) = _ => destruct x as [? ?] end.
  injection H as _ <-. constructor.
  - intros t k Ht Hk. unfold csv_tables in Ht.
    repeat (apply elem_of_cons in Ht as [->|Ht];
      [repeat (apply elem_of_cons in Hk as [->|Hk]; [eexists; reflexivity|]); by apply elem_of_nil in Hk|]).
    by apply elem_of_nil in Ht.
  - eexists _, _. split; [reflexivity|]. split; reflexivity.
  - reflexivity.
  - apply fround_wf_any. done.
Qed.

Section plotted.
Context {R : Type} `{RedisClient R} {Q : Type} `{BatchQueue Q} {C : Type} `{SqlConnection C} {G : Type} `{Random G}.

(** A request writes no table. *)
Lemma handle_csv (e e' : SimulationEngine R Q C) r : handle e r = Ok e' → fs_csv (se_files e') = fs_csv (se_files e).
Proof.
  unfold handle. cbv zeta. intros H3. destruct (az_note_submission _ _ _) as [az1 l1].
  apply bind_ok in H3 as ([cp3 res] & _ & H3). destruct (az_record_result _ _ _) as [az2 l2].
  apply bind_ok in H3 as (pg & _ & H3). by injection H3 as <-.
Qed.

Lemma handles_csv rs (e e' : SimulationEngine R Q C) : foldM handle e rs = Ok e' → fs_csv (se_files e') = fs_csv (se_files e).
Proof.
  revert e. induction rs as [|r rs IH]; intros e; cbn [foldM]; [by intros [= <-]|].
  intros Hf. apply bind_ok in Hf as (e1 & He & Hf). rewrite (IH _ Hf). by eapply handle_csv.
Qed.

(** A run exports its report. *)
Lemma simulate_csv (env : EngineEnv R Q C) config fs e report : simulate (G := G) env config fs = Ok (e, report) →
  export_summary csv_dir (fs_csv fs) report = Ok (fs_csv (se_files e)) ∧ plottable report (report_bar (JObj report)).
Proof.
  unfold simulate, make_engine, run, Engine.report. cbv zeta. intros Hs. apply bind_ok in Hs as (e0 & He0 & Hs).
  apply bind_ok in He0 as (cp & _ & He0). apply bind_ok in He0 as ([az l] & _ & He0). apply bind_ok in He0 as (pg & _ & He0).
  assert (E0 : fs_csv (se_files e0) = fs_csv fs) by (by injection He0 as <-).
  apply bind_ok in Hs as ([rs g] & _ & Hs). apply bind_ok in Hs as (e1 & He1 & Hs). apply handles_csv in He1.
  apply bind_ok in Hs as ([m s0] & Hsum & Hs). apply bind_ok in Hs as (csv & Hcsv & Hs). apply bind_ok in Hs as (pg1 & _ & Hs).
  injection Hs as <- <-. cbn [se_files fs_csv]. rewrite He1, E0 in Hcsv. split; [exact Hcsv|]. by eapply summary_plottable.
Qed.

(** C36: after a benchmark sweep that started without a latency table, the plot
    of the results shows one bar per run, in the order of the runs, labelled with
    the configuration and the policy of its report (as the table's text gives
    them back), at exactly the reported p95. *)
Theorem sweep_plotted (env : EngineEnv R Q C) output_dir config w ps ss w1 reports :
  harness_run (G := G) env output_dir config w ps ss = Ok (w1, reports) →
  dget (fs_csv (wo_files w)) latency_csv = None → reports ≠ [] →
  plot_main true (fs_csv (wo_files w1)) =
    Ok (map (fun r => (report_bar r).1) reports, map (fun r => (report_bar r).2) reports, "wrote results/latency_comparison.png").
Proof.
  intros Hh Hnone Hne. unfold harness_run in Hh. apply bind_ok in Hh as ([w' reps] & Hf & Hh). injection Hh as <- <-.
  cbn [_write_reports set_world_files wo_files fs_csv].
  assert (Hgen : ∀ l (st st' : world R Q C * list json) rows, foldM (fun st ps => sweep_run (G := G) env config st ps.1 ps.2) st l = Ok st' →
    latency_table (fs_csv (wo_files st.1)) rows → table_of rows st.2 →
    ∃ rows', latency_table (fs_csv (wo_files st'.1)) rows' ∧ table_of rows' st'.2).
  { clear. induction l as [|[p n] l IH]; intros st st' rows Hf Ht Hr; cbn [foldM] in Hf; [injection Hf as <-; by exists rows|].
    apply bind_ok in Hf as (st1 & Hrun & Hf). unfold sweep_run, simulate_in in Hrun. cbn [fst snd] in Hrun.
    apply bind_ok in Hrun as ([w1 s] & Hs & Hrun). injection Hrun as <-. apply bind_ok in Hs as ([e s1] & Hs & Hw). injection Hw as <- ->.
    apply simulate_csv in Hs as [Hcsv Hp]. destruct (latency_exported _ rows _ _ Ht Hp) as (files & row & E & Ht1 & Hrow).
    rewrite Hcsv in E. injection E as <-. apply (IH _ _ (rows ++ [row]) Hf); [exact Ht1|]. cbn [fst snd].
    apply Forall2_app; [exact Hr|]. constructor; [|constructor].
    assert (Eb : report_bar (JObj (dset s "seed" (JInt n))) = report_bar (JObj s)) by
      (unfold report_bar, jget, dget_or; by rewrite !dget_set_ne). rewrite Eb. exact Hrow. }
  destruct (Hgen _ _ _ [] Hf ltac:(right; by split) ltac:(constructor)) as (rows & Ht & Hr). exact (plot_table _ _ _ Ht Hr Hne).
Qed.
End plotted.

Lemma sweep_plotted_witness : ∃ w1 reports, sample_sweep = Ok (w1, reports) ∧
  plot_main true (fs_csv (wo_files w1)) =
    Ok (map (fun r => (report_bar r).1) reports, map (fun r => (report_bar r).2) reports, "wrote results/latency_comparison.png") ∧
  plot_main true (fs_csv no_files) = Err SystemExit.
Proof.
  assert (Hok : match sample_sweep with Ok (_, _ :: _) => true | _ => false end = true) by flit.
  destruct sample_sweep as [[w1 reports]|] eqn:E; [|discriminate Hok]. exists w1, reports. split; [reflexivity|].
  split; [|reflexivity]. apply (sweep_plotted (G := Z) _ _ _ _ _ _ _ _ E); [reflexivity|].
  intros ->. discriminate Hok.
Defined.
