(* ===== verification/Api.v ===== *)
(** * [control_plane/api.py]: the HTTP service

    The application keeps a control plane and a metrics collector; its handlers
    are functions of that state.  Decoding the HTTP request into a dictionary
    and sending the answer are FastAPI's.  The keyword arguments of
    [InferenceRequest] are taken at their declared types (an int where a float
    is declared is read as that float); any other value is refused. *)

From S2P Require Import Prelude PyFloat PyOrder PyDict PyStr PyJson Config Types Samples Records Metrics.
From S2P Require Import Azure Logs Workload Backends RedisStore Cache CacheReady Scheduler Cuda.
From S2P Require Import GpuTopo Topology Policies RemoteScorer ControlPlane CpReady Admission.
From S2P Require Import Assembly Engine Sweeps.

Local Open Scope Z_scope.

(** ** [InferenceRequest( **payload )] *)

Definition request_fields : list string :=
  ["request_id"; "tenant_id"; "model_id"; "prompt_tokens"; "generation_tokens"; "arrival_ts"; "sla_class";
   "session_id"; "prefix_signature"; "max_latency_ms"; "metadata"].

Definition the_int (j : json) : result Z := match j with JInt n => Ok n | _ => Err TypeError end.
Definition the_float (j : json) : result float :=
  match j with JInt n => float_of_int n | JFloat f => Ok f | _ => Err TypeError end.
Definition the_dict (j : json) : result (dict string json) := match j with JObj d => Ok d | _ => Err TypeError end.

(** A keyword without a default, and one with a default. *)
Definition required {A} (get : json → result A) (payload : dict string json) (k : string) : result A :=
  v ← get_or TypeError (dget payload k); get v.
Definition optional {A} (get : json → result A) (dflt : A) (payload : dict string json) (k : string) : result A :=
  match dget payload k with Some v => get v | None => Ok dflt end.

Definition request_of_payload (payload : dict string json) : result InferenceRequest :=
  _ ← raise_if (negb (forallb (fun k => bool_decide (k ∈ request_fields)) (dkeys payload))) TypeError;
  request_id ← required the_str payload "request_id";
  tenant_id ← required the_str payload "tenant_id";
  model_id ← required the_str payload "model_id";
  prompt_tokens ← required the_int payload "prompt_tokens";
  generation_tokens ← required the_int payload "generation_tokens";
  arrival_ts ← required the_float payload "arrival_ts";
  sla_class ← optional the_str "interactive" payload "sla_class";
  session_id ← optional the_opt_str None payload "session_id";
  prefix_signature ← optional the_opt_str None payload "prefix_signature";
  max_latency_ms ← optional the_float (of_lit 1800.0%float) payload "max_latency_ms";
  metadata ← optional the_dict [] payload "metadata";
  make_request request_id tenant_id model_id prompt_tokens generation_tokens arrival_ts sla_class session_id
    prefix_signature max_latency_ms metadata.

(** ** The application *)

Section api.
Context {R : Type} `{RedisClient R} {Q : Type} `{BatchQueue Q} {C : Type} `{SqlConnection C} {G : Type} `{Random G}.

Record App := {
  app_config_path : string;
  app_control_plane : NimbusMeshControlPlane R;
  app_metrics : MetricsCollector
}.

Definition set_plane (app : App) (cp : NimbusMeshControlPlane R) : App :=
  {| app_config_path := app_config_path app; app_control_plane := cp; app_metrics := app_metrics app |}.

(** [load] is [load_config]. *)
Definition create_app (load : string → result ExperimentConfig) (env : Environment R) (config_path : string) : result App :=
  config ← load config_path;
  control_plane ← make_control_plane env config;
  Ok {| app_config_path := config_path; app_control_plane := control_plane; app_metrics := new_collector |}.

Definition healthz : json := JObj [("status", JStr "ok")].

Definition topology (app : App) : json := topology_snapshot (app_control_plane app).

Definition cache (app : App) : App * json :=
  let '(cp, j) := cache_snapshot (app_control_plane app) (of_lit 0.0%float) in (set_plane app cp, j).

(** The body of [/v1/route] after the request is built. *)
Definition route_request (app : App) (request : InferenceRequest) :
    result (App * CandidatePlacement * RoutingDecision) :=
  let now := req_arrival_ts request in
  let cp1 := note_submission (refresh (app_control_plane app) now) request in
  '(cp2, candidate, decision) ← route cp1 request now;
  Ok (set_plane app cp2, candidate, decision).

Definition route_endpoint (app : App) (payload : dict string json) : result (App * json) :=
  request ← request_of_payload payload;
  '(app', candidate, decision) ← route_request app request;
  Ok (app', JObj [("decision", JObj (decision_dict decision)); ("candidate", JObj (candidate_dict candidate))]).

(** [/v1/simulate] runs an engine of its own, in the world it finds; [load] also
    refuses what is no path. *)
Definition simulate_endpoint (load : json → result ExperimentConfig) (env : EngineEnv R Q C) (app : App)
    (payload : dict string json) (w : world R Q C) : result (world R Q C * dict string json) :=
  config_to_use ← load (jget payload "config_path" (JStr (app_config_path app)));
  let config := match jget payload "policy" JNull with
                | JStr policy_name => with_policy config_to_use policy_name
                | _ => config_to_use
                end in
  simulate_in (G := G) env w config.

Definition metrics_endpoint (app : App) : result string := render_prometheus (app_metrics app).

(** A handler that answered, and the application it left. *)
Inductive answered (app : App) : App → Prop :=
  | Answered_healthz : answered app app
  | Answered_topology : answered app app
  | Answered_cache : answered app (cache app).1
  | Answered_route payload app' j : route_endpoint app payload = Ok (app', j) → answered app app'
  | Answered_simulate : answered app app
  | Answered_metrics : answered app app.

Inductive serving (app : App) : App → Prop :=
  | Serving_start : serving app app
  | Serving_next app1 app2 : serving app app1 → answered app1 app2 → serving app app2.
End api.
Arguments App R : clear implicits.

(** ** Properties *)

Section properties.
Context {R : Type} `{RedisClient R}.

(** C26: a routing query answers and places nothing.  On an application whose
    control plane is ready, [/v1/route] answers every valid request with the
    decision for one pool of the cluster state, available exactly when that
    pool can take the request; the pools are only refreshed, no tenant gains a
    completion, the submission is counted once, and the application is ready
    for as many placements as before. *)
Theorem route_places_nothing (app : App R) (request : InferenceRequest) room :
  let cp := app_control_plane app in
  let now := req_arrival_ts request in
  cp_ready room cp → request_ready request →
  ∃ app' candidate decision, route_request app request = Ok (app', candidate, decision) ∧
    let cp' := app_control_plane app' in
    cp_ready room cp' ∧ cp_clusters cp' = refreshed_clusters (cp_cache_directory cp) now (cp_clusters cp) ∧
    (∀ t, ts_completed (stats_of (cp_tenant_stats cp') t) = ts_completed (stats_of (cp_tenant_stats cp) t) ∧
          ts_submitted (stats_of (cp_tenant_stats cp') t) =
          ts_submitted (stats_of (cp_tenant_stats cp) t) + Z.b2z (String.eqb t (req_tenant_id request))) ∧
    (∃ cl p, (cl, p) ∈ cluster_pools (cp_clusters cp') ∧ dec_cluster_id decision = cl_cluster_id cl ∧
       dec_pool_id decision = pool_pool_id p ∧
       (cand_available candidate = true ↔
        can_take now request (cand_expected_cache_saved_tokens candidate) cl p)).
Proof.
  intros cp now Hcp Hr. destruct (refresh_alt cp now) as (d' & _ & Eref); [apply Hcp|].
  assert (Hcp1 : cp_ready room (note_submission (refresh cp now) request)) by by apply note_submission_ready, refresh_ready.
  destruct (route_ready _ request now room Hcp1 Hr) as (cp2 & c & dec & Er & Hcp2 & _ & Hst & _).
  exists (set_plane app cp2), c, dec. unfold route_request. fold cp now. rewrite Er. cbn [mbind result_bind].
  split; [reflexivity|]. cbn [app_control_plane set_plane]. split; [exact Hcp2|].
  destruct (route_inv _ _ _ _ _ _ Er) as (Hcl & -> & cl & p & Hin & Hd). rewrite Hcl. simpl.
  assert (Href : cp_clusters (refresh cp now) = refreshed_clusters (cp_cache_directory cp) now (cp_clusters cp)) by by rewrite Eref.
  split; [exact Href|]. split.
  - intros t. rewrite (Hst t), note_submission_stats. simpl. by rewrite Eref.
  - exists cl, p. split; [exact Hin|]. pose proof Hd as [D1 D2 _ _ _]. split; [exact D1|]. split; [exact D2|].
    by apply describes_can_take.
Qed.

(** The service never records a result, so its Prometheus page never changes. *)
Theorem metrics_never_change (load : string → result ExperimentConfig) env path (app app' : App R) :
  create_app load env path = Ok app → serving app app' → metrics_endpoint app' = render_prometheus new_collector.
Proof.
  intros Hc Hs. enough (Hm : app_metrics app' = new_collector) by (unfold metrics_endpoint; by rewrite Hm).
  induction Hs as [|app1 app2 _ IH Ha].
  - unfold create_app in Hc. apply bind_ok in Hc as (config & _ & Hc). apply bind_ok in Hc as (cp & _ & Hc).
    by injection Hc as <-.
  - destruct Ha as [| | |payload app2 j Hr| |]; try exact IH.
    unfold route_endpoint, route_request in Hr. apply bind_ok in Hr as (r & _ & Hr).
    apply bind_ok in Hr as ([[a c] d] & Hq & Hr). apply bind_ok in Hq as ([[cp c2] d2] & _ & Hq).
    injection Hq as <- _ _. by injection Hr as <- _.
Qed.
End properties.

(** ** At a concrete application *)

Definition app_of (cp : NimbusMeshControlPlane (gmap (string * string) string)) : App (gmap (string * string) string) :=
  {| app_config_path := "config.json"; app_control_plane := cp; app_metrics := new_collector |}.

Definition sample_payload : dict string json :=
  [("request_id", JStr "r1"); ("tenant_id", JStr "tenant-a"); ("model_id", JStr "m"); ("prompt_tokens", JInt 512);
   ("generation_tokens", JInt 64); ("arrival_ts", JInt 3)].

Example payload_decodes :
  (match request_of_payload sample_payload with
   | Ok r => (req_prompt_tokens r =? 512) && String.eqb (req_sla_class r) "interactive" | Err _ => false end) = true.
Proof. vm_compute. reflexivity. Qed.

Example payload_refused :
  request_of_payload (("prompt", JStr "hi") :: sample_payload) = Err TypeError ∧
  request_of_payload (("sla_class", JStr "gold") :: sample_payload) = Err ValueError.
Proof. split; vm_compute; reflexivity. Qed.

Lemma route_places_nothing_witness : ∃ cp app' candidate decision, sample_plane = Ok cp ∧
  route_request (app_of cp) sample_request = Ok (app', candidate, decision).
Proof.
  destruct sample_plane_made as [cp E].
  destruct (route_places_nothing (app_of cp) sample_request 20000) as (app' & c & d & Hr & _).
  - exact (sample_plane_ready cp E).
  - exact sample_request_ready.
  - exists cp, app', c, d. split; [exact E|exact Hr].
Defined.
